(* ===== verification/_CoqProject ===== *)
-Q . S2P
Prelude.v
PyStr.v
PyFloat.v
IntFloat.v
PyBytes.v
PyIO.v
PyCsv.v
LogWords.v
LatencyLogs.v
OverallLogs.v
DiskannLogs.v
StressLogs.v
StressRun.v
SmallLogs.v
MergeResult.v
Figure6.v
Datasets.v
TopK.v
DataReader.v
GpuSearch.v
GroundTruth.v
OpqEval.v
OpqTrain.v
OpqPipeline.v
Model.v
Tuner.v
Plot.v
Preprocess.v
AutoTune.v
Gist.v
Aerospike.v
Features.v
Setup.v
GetPip.v
Notebook.v
Tutorial.v
Quickstart.v
