(* ===== verification/Prelude.v ===== *)
(** * Verification of the Python programs of RAG_StormX

    RAG_StormX evaluates SPTAG, a C++ library for approximate nearest neighbour
    search, with SPFresh and with key-value stores behind it. Around the library
    stand the Python programs of the repository; this development models all
    of them and proves what makes them correct, or where they are not.

    ** The programs and the files that model them

    Every file of Python code under [src/] is a component. A component's file
    has its data as records and inductive types, one definition per function,
    method, loop or branch of the source (the whole script as the last one),
    then lemmas, theorems and witnesses. Files whose theorem is stated in terms
    of another component's definitions require it; the arrows below are such
    dependencies.

    Language and standard library:
    - [Prelude]: outcomes (a value, an exception, or fuel that ran out), the
      state monad [py S] of scripts, [try], [while True], [for], indexing,
      slicing, [range], and the proof tools (the hint and rewrite database [py],
      [keeps], [never], [py_step]);
    - [PyStr], [PyFloat], [PyBytes]: [str] and [int(str)], IEEE binary64 with
      [float(str)], [repr] and fixed formatting, bytes and [struct];
      [IntFloat]: integers in a floating-point format, where arithmetic and
      comparison are exact;
    - [PyIO]: the file system, text files with universal newlines, [os], [shutil]
      and the [csv] writer; [PyCsv]: the [csv] reader and its round trip.
      [LogState] is the interface between a script's variables and the log
      handle it reads.

    The benchmark scripts of SPTAG/Script_AE (they read the logs of runs and
    write the tables that are plotted):
    - [LogWords]: the words of a log line the scripts pick;
    - [LatencyLogs]: Figure1/process_motivation.py, Figure9/process_shifting.py
      and Figure10/process_para_range.py;
    - [OverallLogs]: Figure6/process_spfresh.py and process_spann.py;
      [DiskannLogs]: Figure6/process_diskann.py; [MergeResult]:
      Figure6/OverallPerformance_merge_result.py, which joins their outputs;
      [Figure6]: the four scripts in the order of the shell scripts;
    - [StressLogs]: Figure8/process_stress_test.py, [StressRun]: the same script
      on a whole log, with states equal up to the line counter; [SmallLogs]:
      Figure7/process_iopslimit.py and Figure11/process_balance.py;
    - [Datasets]: generate_dataset.py and data_clustering_sift.py, and the
      DEFAULT vector format ([default_file]) other components read and write.

    Tools/OPQ/OPQ_gpu_train_infer.py:
    - [DataReader] (its reader, and the two readers of nni-auto-tune/dataset.py),
      [TopK] (the [k] least of a list, used as the specification of the merge),
      [GpuSearch] (the configuration, the search and the merge of batches),
      [GroundTruth] (the whole of [gpusearch] against an exact index: [FlatL2]
      is what faiss promises, [nearest] what the files then hold),
      [OpqEval] ([search], [evaluate]), [OpqTrain] (training, encoding,
      reconstruction, the main block), [OpqPipeline] (the tasks of the main
      block from their input files to their outputs, against [FaissLaws]).

    Tools/nni-auto-tune:
    - [Model] (model.py), [Tuner] (main.py and runner.py), [Plot] (plot.py),
      [Preprocess] (preprocessing.py, whose outputs [DataReader] and [Tuner]
      read), [AutoTune] (the two programs one after the other).

    The others:
    - [Gist] (Test/src/make_gist_sptag.py), [Aerospike] (aerospace_client),
      [Features] (docs/examples/features_extractor.py), [Setup] (setup.py),
      [GetPip] (get-pip.py).
    - The notebooks: [Notebook] (the kernel cells run in: global names, the
      world, the random generator, and the judgement that no unbound name is
      read), [Tutorial] (docs/Tutorial.ipynb), [Quickstart]
      (docs/examples/QuickstartGuide.ipynb, which runs [Features]).

    ** How programs are modelled

    A script is a computation [py world] on the file system and the output, or
    on a record of its variables; a function without effects is a Rocq function
    into [outcome]. Exceptions are values, and handlers are written where the
    source has them. Two interpreters occur ([python] in the figure scripts,
    [python3] in build_spresh.sh), so definitions whose meaning differs take a
    [pyver]. Paths are POSIX paths. Text is one byte per character. Progress
    messages are not modelled, except where a script's output is its result.

    A notebook is a list of cells, each a computation on the kernel's state.

    Third-party code is a parameter: numpy and faiss ([Numpy], [Float32],
    [Faiss], with the laws of [FlatL2] and [FaissLaws]; [Blas], the dot product
    behind brute force search, with [BlasLaws]: sums of products of small
    integers are exact), k-means (its labels, with [KMeansLaws]), SPTAG's own
    bindings ([AnnIndex] for the tuner, [Sptag] and [SptagClient] for the
    notebooks, with the laws of [MemoryIndex] and [scans]), the Aerospike client
    ([Aerospike], with [AerospikeLaws]), Pillow and Keras ([Pil] with [PilLaws],
    [Keras]), setuptools and pip. Theorems that need more than their
    types name it as a class of laws or a hypothesis, and a witness instantiates
    it. Clocks, memory readings, random numbers and set order are parameters.

    ** Fuel

    [while True] loops take fuel. Loops over a file get fuel computed from the
    file inside the definition ([readbatch], proved enough by
    [readbatch_terminates]); scripts whose loops can really run for ever take
    fuel as an argument, and their theorems say that any fuel above a bound
    gives the result, or that no fuel does (the divergence theorems). Fuel
    never decides a result: [while_true_more].

    ** What the theorems show

    - Formats survive: quantizer files, sampled train sets, ground truths,
      DEFAULT, ivecs and fvecs files (round trips), and the files one phase
      leaves for the next ([search_batch_holds]); get-pip.py starts pip from
      exactly the archive its base85 text encodes ([main_starts_pip]).
    - Algorithms meet a specification: the merge of batches is the [k] nearest
      of all candidates, grid search is the Cartesian product, the selected
      points are a Pareto frontier, recall is a count with its bounds. Brute
      force search returns nearest vectors: by the dot product with the unit
      vectors, or by the squared distance, which its float32 keys order
      correctly on vectors of integers that fit binary32.
    - [gpusearch] as a whole refines an exact search of the data file: batches
      of data and of queries, the files between the phases and the merge do
      not show in the result.
    - A training task ends with the quantizer, the codes and the reconstructed
      vectors of the whole data file ([main_trains]), and a reconstruction task
      given that quantizer file encodes the data file again to the same codes
      and, where the types agree, the same vectors ([stored_quantizer_agrees]).
    - Preprocessing hands the tuner the sampled vectors and, per query, the ids
      of its true neighbours in order ([preprocess_feeds_tuner]).
    - The scripts of Figure 6 together put the numbers of the three logs into
      the merged tables at their positions, as far as the shortest table
      reaches ([figure6_from_logs]).
    - Scripts end and write what their input says: the tables of the log
      scripts, the data sets, the codes of all batches, the package directory.
    - Errors and divergence: which inputs make a loop run for ever, which
      branches raise, what Python 3 changes, that a temporary directory is
      always removed, that a trial reports once.
    - Notebooks: the tutorial reads no unbound name in document order or in any
      order after a full run, its scan ends with the nearest candidates, its
      client waits exactly for the service, and its build replaces an old
      index; where the guide stops, and what it returns and draws.

    ** Not modelled

    The C++ library (AnnService, Wrappers, Test), the third-party protocol code,
    gnuplot scripts, ini files, shell and Docker files, prose, and the
    archive get-pip.py carries. Of the Python code only [close] methods without
    effect on data, static descriptive keywords of [setup()] and calls that draw
    or print progress are left out.

    ** Plan

    Modelled first were the benchmark scripts and the OPQ tool, which make the
    repository's results, then the tuner, the small tools and the notebooks. The
    last additions join phases: the stress log, the quantizer tasks, the
    four scripts of Figure 6, and preprocessing with the tuner's loading. No
    Python file of the repository is left; a further step would be a model of
    the C++ library behind the bindings. *)

From stdpp Require Export base list strings gmap.
From Stdlib Require Export ZArith.
From Stdlib Require Import Ascii.


Open Scope Z_scope.

(** ** Python versions and exceptions *)

(** The benchmark scripts are started with [python] in the figure scripts and
    with [python3] in [build_spresh.sh]; the two interpreters differ on [/]
    and on [str + bytes], so the definitions that use those take the version. *)
Inductive pyver : Set := Py2 | Py3.

#[global] Instance pyver_eq_dec : EqDecision pyver.
Proof. solve_decision. Defined.

Inductive exn : Set :=
  | AttributeError | ValueError | IndexError | KeyError | TypeError | NameError
  | AssertionError | StructError | FileNotFoundError | FileExistsError | NotADirectoryError
  | IsADirectoryError | IOError
  | MemoryError | NotImplementedError | ZeroDivisionError | TimeoutError
  | SystemExit | ClientError | OverflowError | UnboundLocalError
  | CsvError.

#[global] Instance exn_eq_dec : EqDecision exn.
Proof. solve_decision. Defined.

(** ** Outcomes and the state monad

    A computation over a state [S] returns a value, raises, or runs out of the
    fuel its loops were given; the state reached is kept in the three cases. *)
Inductive outcome (A : Type) : Type :=
  | Ret (a : A)
  | Raise (e : exn)
  | OutOfFuel.
Arguments Ret {A} _.
Arguments Raise {A} _.
Arguments OutOfFuel {A}.

#[global] Instance outcome_ret : MRet outcome := @Ret.
#[global] Instance outcome_bind : MBind outcome := fun A B f m =>
  match m with Ret a => f a | Raise e => Raise e | OutOfFuel => OutOfFuel end.
#[global] Instance outcome_fmap : FMap outcome := fun A B f m =>
  match m with Ret a => Ret (f a) | Raise e => Raise e | OutOfFuel => OutOfFuel end.

Definition py (S A : Type) : Type := S -> outcome A * S.

#[global] Instance py_ret {S} : MRet (py S) := fun A a s => (Ret a, s).
#[global] Instance py_bind {S} : MBind (py S) := fun A B f m s =>
  match m s with
  | (Ret a, s') => f a s'
  | (Raise e, s') => (Raise e, s')
  | (OutOfFuel, s') => (OutOfFuel, s')
  end.

Section combinators.
Context {S : Type}.

Definition raise {A} (e : exn) : py S A := fun s => (Raise e, s).
Definition get_state : py S S := fun s => (Ret s, s).
Definition put_state (s : S) : py S unit := fun _ => (Ret tt, s).
Definition modify (f : S -> S) : py S unit := fun s => (Ret tt, f s).
Definition lift {A} (o : outcome A) : py S A := fun s => (o, s).

(** [try m except ...]: [h e] is the handler of the exceptions that are
    listed, [None] for those that propagate. *)
Definition try_except {A} (m : py S A) (h : exn -> option (py S A)) : py S A :=
  fun s => match m s with
           | (Raise e, s') =>
               match h e with Some k => k s' | None => (Raise e, s') end
           | r => r
           end.

(** [try m finally k]: [k] runs on every path; what it raises wins. *)
Definition try_finally {A} (m : py S A) (k : py S unit) : py S A :=
  fun s => match m s with
           | (OutOfFuel, s') => (OutOfFuel, s')
           | (r, s') => match k s' with
                        | (Ret _, s'') => (r, s'')
                        | (Raise e, s'') => (Raise e, s'')
                        | (OutOfFuel, s'') => (OutOfFuel, s'')
                        end
           end.

(** [while True: body]; the body answers [Some a] to leave the loop. *)
Fixpoint while_true {A} (fuel : nat) (body : py S (option A)) : py S A :=
  match fuel with
  | O => fun s => (OutOfFuel, s)
  | Datatypes.S n => r ← body; match r with
                               | Some a => mret a
                               | None => while_true n body
                               end
  end.

(** [for x in l: body x]. *)
Fixpoint for_each {A} (l : list A) (body : A -> py S unit) : py S unit :=
  match l with
  | [] => mret tt
  | x :: l' => body x;; for_each l' body
  end.
End combinators.

(** Run a computation on local variables [s] inside a computation on [W]; an
    exception that leaves the local code is an exception of the caller. *)
Definition run_local {W S A} (m : py S A) (s : S) : py W (A * S) := fun w =>
  match m s with
  | (Ret a, s') => (Ret (a, s'), w)
  | (Raise e, _) => (Raise e, w)
  | (OutOfFuel, _) => (OutOfFuel, w)
  end.

(** [if b: m]. *)
Definition when {S} (b : bool) (m : py S unit) : py S unit := if b then m else mret tt.

(** [except e: k] for one exception; [except e1: ...; except e2: ...] composes. *)
Definition except {S A} (e : exn) (k : py S A) : exn -> option (py S A) :=
  fun e' => if decide (e' = e) then Some k else None.
Definition orexcept {S A} (h1 h2 : exn -> option (py S A)) : exn -> option (py S A) :=
  fun e => match h1 e with Some k => Some k | None => h2 e end.

Create HintDb py.
Create Rewrite HintDb py.

(** ** Equations of the monads *)

Lemma out_bind_ret {A B} (a : A) (f : A -> outcome B) : (Ret a ≫= f) = f a.
Proof. done. Qed.

Lemma out_bind_raise {A B} e (f : A -> outcome B) : (Raise e ≫= f) = Raise e.
Proof. done. Qed.

Lemma bind_ret_inv {A B} (m : outcome A) (f : A -> outcome B) b :
  (m ≫= f) = Ret b -> exists a, m = Ret a /\ f a = Ret b.
Proof. destruct m; cbn; naive_solver. Qed.

Section monad_laws.
Context {S : Type}.

Lemma bind_ret {A B} (m : py S A) (f : A -> py S B) s s' a :
  m s = (Ret a, s') -> (m ≫= f) s = f a s'.
Proof. unfold mbind, py_bind. by intros ->. Qed.

Lemma bind_raise {A B} (m : py S A) (f : A -> py S B) s s' e :
  m s = (Raise e, s') -> (m ≫= f) s = (Raise e, s').
Proof. unfold mbind, py_bind. by intros ->. Qed.

Lemma bind_fuel {A B} (m : py S A) (f : A -> py S B) s s' :
  m s = (OutOfFuel, s') -> (m ≫= f) s = (OutOfFuel, s').
Proof. unfold mbind, py_bind. by intros ->. Qed.

Lemma while_true_next {A} n (body : py S (option A)) s s' :
  body s = (Ret None, s') -> while_true (Datatypes.S n) body s = while_true n body s'.
Proof. intros H. cbn [while_true]. by rewrite (bind_ret _ _ _ _ _ H). Qed.

Lemma while_true_break {A} n (body : py S (option A)) s s' a :
  body s = (Ret (Some a), s') -> while_true (Datatypes.S n) body s = (Ret a, s').
Proof. intros H. cbn [while_true]. by rewrite (bind_ret _ _ _ _ _ H). Qed.

Lemma while_true_raise {A} n (body : py S (option A)) s s' e :
  body s = (Raise e, s') -> while_true (Datatypes.S n) body s = (Raise e, s').
Proof. intros H. cbn [while_true]. by rewrite (bind_raise _ _ _ _ _ H). Qed.

(** A set of states the body never leaves and never breaks from: the loop
    runs out of any fuel, that is, it does not terminate. *)
Lemma while_true_diverges {A} (P : S -> Prop) (body : py S (option A)) :
  (forall s, P s -> exists s', body s = (Ret None, s') /\ P s') ->
  forall n s, P s -> (while_true n body s).1 = OutOfFuel.
Proof.
  intros Hstep n. induction n as [|n IH]; intros s Hs; [done|].
  destruct (Hstep s Hs) as (s' & Hb & Hs').
  rewrite (while_true_next _ _ _ _ Hb). by apply IH.
Qed.

(** A measure that every round lowers: the loop ends within the measure. *)
Lemma while_true_terminates {A} (I : S -> Prop) (m : S -> nat) (body : py S (option A)) :
  (forall s, I s ->
     match body s with
     | (Ret None, s') => I s' /\ (m s' < m s)%nat
     | (OutOfFuel, _) => False
     | _ => True
     end) ->
  forall n s, I s -> (m s < n)%nat -> (while_true n body s).1 <> OutOfFuel.
Proof.
  intros Hstep n. induction n as [|n IH]; intros s Hs Hm; [lia|].
  specialize (Hstep s Hs). destruct (body s) as [[[a|]|e|] s'] eqn:Hb.
  - by rewrite (while_true_break _ _ _ _ _ Hb).
  - rewrite (while_true_next _ _ _ _ Hb). apply IH; [apply Hstep|lia].
  - by rewrite (while_true_raise _ _ _ _ _ Hb).
  - done.
Qed.

(** More fuel does not change a result. *)
Lemma while_true_more {A} (body : py S (option A)) n n' s r s' :
  (n <= n')%nat -> while_true n body s = (r, s') -> r <> OutOfFuel ->
  while_true n' body s = (r, s').
Proof.
  revert n' s. induction n as [|n IH]; intros n' s Hle Hr Hne.
  { cbn in Hr. congruence. }
  destruct n' as [|n']; [lia|].
  destruct (body s) as [[[a|]|e|] s1] eqn:Hb.
  - rewrite (while_true_break _ _ _ _ _ Hb) in Hr. rewrite (while_true_break _ _ _ _ _ Hb). done.
  - rewrite (while_true_next _ _ _ _ Hb) in Hr. rewrite (while_true_next _ _ _ _ Hb). apply IH; [lia|done..].
  - rewrite (while_true_raise _ _ _ _ _ Hb) in Hr. rewrite (while_true_raise _ _ _ _ _ Hb). done.
  - cbn [while_true] in Hr. rewrite (bind_fuel _ _ _ _ Hb) in Hr. congruence.
Qed.
End monad_laws.

(** ** Computations that leave a part of the state alone *)

Definition keeps {S A X} (f : S -> X) (m : py S A) : Prop := forall s, f (m s).2 = f s.

Section keeps.
Context {S X : Type} (f : S -> X).

Lemma keeps_ret {A} (a : A) : keeps f (mret a).
Proof. done. Qed.
Lemma keeps_raise {A} e : keeps f (raise (A := A) e).
Proof. done. Qed.
Lemma keeps_fuel {A} : keeps f (fun s => (@OutOfFuel A, s)).
Proof. done. Qed.
Lemma keeps_lift {A} (o : outcome A) : keeps f (lift o).
Proof. done. Qed.
Lemma keeps_get : keeps f get_state.
Proof. done. Qed.
Lemma keeps_modify g : (forall s, f (g s) = f s) -> keeps f (modify g).
Proof. intros H s. apply H. Qed.
Lemma keeps_bind {A B} (m : py S A) (k : A -> py S B) :
  keeps f m -> (forall a, keeps f (k a)) -> keeps f (m ≫= k).
Proof.
  intros Hm Hk s. unfold mbind, py_bind. specialize (Hm s).
  destruct (m s) as [[a|e|] s']; cbn in *; [|done..]. by rewrite Hk.
Qed.
Lemma keeps_when b m : keeps f m -> keeps f (when b m).
Proof. by destruct b. Qed.
Lemma keeps_while {A} n (m : py S (option A)) : keeps f m -> keeps f (while_true n m).
Proof.
  intros Hm. induction n as [|n IH]; [done|]. cbn [while_true].
  apply keeps_bind; [done|]. by intros [a|].
Qed.
Lemma keeps_try {A} (m : py S A) h :
  keeps f m -> (forall e k, h e = Some k -> keeps f k) -> keeps f (try_except m h).
Proof.
  intros Hm Hh s. unfold try_except. specialize (Hm s).
  destruct (m s) as [[a|e|] s']; cbn in *; [done| |done].
  destruct (h e) as [k|] eqn:E; [|done]. by rewrite (Hh _ _ E).
Qed.
End keeps.

#[export] Hint Resolve keeps_ret keeps_raise keeps_fuel keeps_lift keeps_get keeps_modify
  keeps_bind keeps_when keeps_while keeps_try : py.

(** ** Computations that never return *)

Definition never {S A} (P : S -> Prop) (m : py S A) : Prop := forall s a s', P s -> m s <> (Ret a, s').

Lemma never_raise {S A} (P : S -> Prop) e : never P (raise (A := A) e).
Proof. done. Qed.

Lemma never_bind_l {S A B} (P : S -> Prop) (m : py S A) (k : A -> py S B) : never P m -> never P (m ≫= k).
Proof.
  intros Hm s b s' Hs. unfold mbind, py_bind. specialize (Hm s). destruct (m s) as [[a|e|] s1]; [|done..].
  intros _. by apply (Hm a s1 Hs).
Qed.

(** The first part keeps what the second needs. *)
Lemma never_bind_r {S A B X} (f : S -> X) (x : X) (m : py S A) (k : A -> py S B) :
  keeps f m -> (forall a, never (fun s => f s = x) (k a)) -> never (fun s => f s = x) (m ≫= k).
Proof.
  intros Hm Hk s b s' Hs. unfold mbind, py_bind. specialize (Hm s). destruct (m s) as [[a|e|] s1]; [|done..].
  apply Hk. cbn in Hm. congruence.
Qed.

Lemma never_then {S A B} (m : py S A) (k : A -> py S B) :
  (forall a, never (fun _ => True) (k a)) -> never (fun _ => True) (m ≫= k).
Proof.
  intros Hk s b s' _. unfold mbind, py_bind. destruct (m s) as [[a|e|] s1]; [|done..]. by apply Hk.
Qed.

#[export] Hint Resolve never_raise never_bind_l never_then : py.

(** Symbolic execution of one monadic step whose result is known. *)
Ltac py_step H :=
  first [ rewrite (bind_ret _ _ _ _ _ H)
        | rewrite (bind_raise _ _ _ _ _ H)
        | rewrite (bind_fuel _ _ _ _ H) ]; cbn beta iota.

Ltac py_simpl :=
  repeat first
    [ progress cbn [mbind mret py_bind py_ret outcome_bind outcome_ret raise lift modify
                    get_state put_state fst snd]
    | progress simplify_option_eq ].

(** ** Lists indexed by Python integers *)

(** [l[i]]: negative indices count from the end. *)
Definition py_index {A} (l : list A) (i : Z) : outcome A :=
  let j := if i <? 0 then i + Z.of_nat (length l) else i in
  if j <? 0 then Raise IndexError
  else match l !! Z.to_nat j with Some x => Ret x | None => Raise IndexError end.

(** [l[a:b]] for bounds that are not negative. *)
Definition py_slice {A} (l : list A) (a b : Z) : list A :=
  take (Z.to_nat b - Z.to_nat a) (drop (Z.to_nat a) l).

(** [range(a, b)]. *)
Definition py_range (a b : Z) : list Z :=
  (fun k => a + Z.of_nat k) <$> seq 0 (Z.to_nat (b - a)).

(** [zip( *ls )] on lists of one type: stops at the shortest. *)
Definition zip_rows {A} (d : A) (ls : list (list A)) : list (list A) :=
  match ls with
  | [] => []
  | l :: ls' =>
      let n := foldr (fun k m => Nat.min (length k) m) (length l) ls' in
      (fun i => (fun k => nth i k d) <$> ls) <$> seq 0 n
  end.

Fixpoint mapM_out {A B} (f : A -> outcome B) (l : list A) : outcome (list B) :=
  match l with
  | [] => Ret []
  | x :: l' => y ← f x; ys ← mapM_out f l'; Ret (y :: ys)
  end.

Lemma py_index_nonneg {A} (l : list A) i :
  0 <= i -> py_index l i = match l !! Z.to_nat i with Some x => Ret x | None => Raise IndexError end.
Proof.
  intros Hi. unfold py_index. replace (i <? 0) with false by lia.
  by replace (i <? 0) with false by lia.
Qed.

Lemma py_index_nat {A} (l : list A) (i : nat) x :
  l !! i = Some x -> py_index l (Z.of_nat i) = Ret x.
Proof. intros H. rewrite py_index_nonneg by lia. by rewrite Nat2Z.id, H. Qed.

Lemma py_index_oob {A} (l : list A) i :
  Z.of_nat (length l) <= i -> py_index l i = Raise IndexError.
Proof.
  intros H. rewrite py_index_nonneg by lia. by rewrite (lookup_ge_None_2 l) by lia.
Qed.

Lemma py_index_total {A} (l : list A) i :
  0 <= i < Z.of_nat (length l) -> exists x, py_index l i = Ret x /\ l !! Z.to_nat i = Some x.
Proof.
  intros H. rewrite py_index_nonneg by lia.
  destruct (lookup_lt_is_Some_2 l (Z.to_nat i)) as [x Hx]; [lia|]. rewrite Hx. eauto.
Qed.

Lemma py_index_nth {A} (l : list A) k d : (k < length l)%nat -> py_index l (Z.of_nat k) = Ret (nth k l d).
Proof.
  intros H. rewrite py_index_nonneg, Nat2Z.id by lia. rewrite (nth_lookup l k d).
  by destruct (lookup_lt_is_Some_2 l k H) as [x ->].
Qed.

Lemma length_py_range a b : length (py_range a b) = Z.to_nat (b - a).
Proof. unfold py_range. by rewrite length_fmap, length_seq. Qed.

Lemma py_range_cons a b : a < b -> py_range a b = a :: py_range (a + 1) b.
Proof.
  intros H. unfold py_range. replace (Z.to_nat (b - a)) with (S (Z.to_nat (b - (a + 1)))) by lia.
  cbn [seq fmap list_fmap]. f_equal; [lia|]. rewrite <- fmap_S_seq, <- list_fmap_compose. apply list_fmap_ext.
  intros i k _. cbn. lia.
Qed.

Lemma elem_of_py_range a b i : i ∈ py_range a b <-> a <= i < b.
Proof.
  unfold py_range. rewrite list_elem_of_fmap. split.
  - intros (k & -> & Hk%elem_of_seq). lia.
  - intros H. exists (Z.to_nat (i - a)). rewrite elem_of_seq. lia.
Qed.

Lemma NoDup_py_range a b : NoDup (py_range a b).
Proof.
  unfold py_range. apply NoDup_fmap_2_strong; [|apply NoDup_seq].
  intros x y _ _ H. lia.
Qed.

Lemma mapM_out_ret {A B} (f : A -> outcome B) (g : A -> B) l :
  (forall x, x ∈ l -> f x = Ret (g x)) -> mapM_out f l = Ret (g <$> l).
Proof.
  induction l as [|x l IH]; intros H; [done|]. cbn [mapM_out].
  rewrite H by set_solver. cbn. rewrite IH by set_solver. done.
Qed.

Lemma mapM_out_total {A B} (f : A -> outcome B) l :
  (forall x, f x <> OutOfFuel) -> mapM_out f l <> OutOfFuel.
Proof.
  intros H. induction l as [|x l IH]; [done|]. cbn [mapM_out]. specialize (H x).
  destruct (f x) as [y|e|]; [|done..]. cbn. by destruct (mapM_out f l).
Qed.

Lemma py_index_total' {A} (l : list A) i : py_index l i <> OutOfFuel.
Proof. unfold py_index. by repeat case_match. Qed.

Lemma mapM_out_length {A B} (f : A -> outcome B) l r :
  mapM_out f l = Ret r -> length r = length l.
Proof.
  revert r; induction l as [|x l IH]; intros r H; cbn in H; [by simplify_eq|].
  destruct (f x) as [y|e|]; cbn in H; try done.
  destruct (mapM_out f l) as [ys|e|] eqn:E; cbn in H; try done.
  simplify_eq. cbn. f_equal. by apply IH.
Qed.

Lemma mapM_out_nth {A B} (f : A -> outcome B) l r (da0 : A) (db : B) i :
  mapM_out f l = Ret r -> (i < length l)%nat -> f (nth i l da0) = Ret (nth i r db).
Proof.
  revert r i. induction l as [|x l IH]; intros r i H Hi; cbn in *; [lia|].
  destruct (f x) as [y|e|] eqn:Ef; cbn in H; try done.
  destruct (mapM_out f l) as [ys|e|] eqn:E; cbn in H; try done. injection H as <-.
  destruct i as [|i]; [done|]. cbn. apply IH; [done|lia].
Qed.

Lemma mapM_out_lookup {A B} (f : A -> outcome B) l r i x :
  mapM_out f l = Ret r -> l !! i = Some x -> exists y, r !! i = Some y /\ f x = Ret y.
Proof.
  revert r i. induction l as [|z l IH]; intros r i H Hi; cbn in *; [done|].
  destruct (f z) as [y|e|] eqn:Ef; cbn in H; try done.
  destruct (mapM_out f l) as [ys|e|] eqn:E; cbn in H; try done. injection H as <-.
  destruct i as [|i]; cbn in *; [simplify_eq; by exists y|]. by apply IH.
Qed.

Lemma py_range_lookup (n i : nat) : (i < n)%nat -> py_range 0 (Z.of_nat n) !! i = Some (Z.of_nat i).
Proof.
  intros H. unfold py_range. rewrite list_lookup_fmap, lookup_seq_lt by lia. f_equal; lia.
Qed.

Lemma py_range_seq n : py_range 0 (Z.of_nat n) = Z.of_nat <$> seq 0 n.
Proof.
  unfold py_range. rewrite Z.sub_0_r, Nat2Z.id. apply list_fmap_ext. intros j x _. lia.
Qed.

(** A loop over the indices of a list visits its elements. *)
Lemma mapM_out_index {A B} (h : A -> B) (f : Z -> outcome B) (l : list A) :
  (forall j x, l !! j = Some x -> f (Z.of_nat j) = Ret (h x)) ->
  mapM_out f (py_range 0 (Z.of_nat (length l))) = Ret (h <$> l).
Proof.
  rewrite py_range_seq.
  assert (forall k, (forall j x, l !! j = Some x -> f (Z.of_nat (k + j)) = Ret (h x)) ->
    mapM_out f (Z.of_nat <$> seq k (length l)) = Ret (h <$> l)) as H; [|intros Hf; by apply H].
  induction l as [|x l IH]; intros k Hf; [done|]. cbn [length seq fmap list_fmap mapM_out].
  rewrite <- (Nat.add_0_r k) at 1. rewrite (Hf 0%nat x) by done. cbn [mbind outcome_bind].
  rewrite IH; [done|]. intros j y Hy. rewrite <- (Hf (S j) y) by done. f_equal. lia.
Qed.

Lemma for_each_index {S A} (l : list A) (f : A -> py S unit) s :
  for_each (py_range 0 (Z.of_nat (length l))) (fun j => x ← lift (py_index l j); f x) s = for_each l f s.
Proof.
  rewrite py_range_seq.
  assert (forall l0 k, (forall j x, l0 !! j = Some x -> l !! (k + j)%nat = Some x) -> forall s,
    for_each (Z.of_nat <$> seq k (length l0)) (fun j => x ← lift (py_index l j); f x) s = for_each l0 f s) as H;
    [|by apply (H l 0%nat)].
  induction l0 as [|x l0 IH]; intros k Hl s0; [done|]. cbn [length seq fmap list_fmap for_each].
  rewrite (py_index_nat l k x) by (rewrite <- (Nat.add_0_r k); by apply Hl).
  unfold mbind, py_bind, lift in *. destruct (f x s0) as [[]  s1]; [|done..].
  apply IH. intros j y Hy. rewrite <- (Hl (1 + j)%nat y Hy). f_equal. lia.
Qed.

Lemma length_zip_seq {A} (l : list A) i : length (zip (seq i (length l)) l) = length l.
Proof. rewrite length_zip_with, length_seq. lia. Qed.

Lemma zip_seq_lookup {A} i (l : list A) k x :
  l !! k = Some x -> zip (seq i (length l)) l !! k = Some ((i + k)%nat, x).
Proof.
  intros H. pose proof (lookup_lt_Some _ _ _ H).
  by rewrite lookup_zip_with, lookup_seq_lt, H by done.
Qed.

#[export] Hint Rewrite @length_fmap @length_app @length_take @length_drop
  @length_replicate @length_py_range : py.
#[export] Hint Resolve py_index_nat : py.
