(* ===== verification/PyStr.v ===== *)
(** * Python strings and integers

    [str] as [string] over the code points 0..255, with the methods the
    sources call ([split], [strip], [rstrip], [rfind], [find], [replace],
    [startswith], [endswith], [join]), [str(int)] and [int(str)], and
    [os.path]'s functions on POSIX paths. White space and the underscores of
    [int(str)] are Python 3's in both versions: Python 2 differs only on the
    separators 28 to 31, on 133 and 160, and on underscores between digits, none
    of which the logs have. *)

From Stdlib Require Import Ascii DecimalString DecimalZ DecimalFacts.
From S2P Require Import Prelude.

Open Scope string_scope.
Open Scope Z_scope.

#[global] Arguments String.append !_ _ / : simpl nomatch.

Definition code (c : ascii) : Z := Z.of_N (N_of_ascii c).

(** [str.isspace] on the code points below 256. *)
Definition is_space (c : ascii) : bool :=
  let n := code c in
  ((9 <=? n) && (n <=? 13)) || ((28 <=? n) && (n <=? 32)) || (n =? 133) || (n =? 160).

Definition is_digit (c : ascii) : bool := (48 <=? code c) && (code c <=? 57).

Definition nonempty (s : string) : bool := match s with "" => false | _ => true end.

(** ** split, strip, join *)

(** The word that begins [s] and the words after it. *)
Fixpoint split_go (s : string) : string * list string :=
  match s with
  | "" => ("", [])
  | String c s' =>
      let '(w, ws) := split_go s' in
      if is_space c then ("", if nonempty w then w :: ws else ws)
      else (String c w, ws)
  end.

(** [s.split()]. *)
Definition split_ws (s : string) : list string :=
  let '(w, ws) := split_go s in if nonempty w then w :: ws else ws.

Fixpoint split_on_go (sep : ascii) (s : string) : string * list string :=
  match s with
  | "" => ("", [])
  | String c s' =>
      let '(w, ws) := split_on_go sep s' in
      if Ascii.eqb c sep then ("", w :: ws) else (String c w, ws)
  end.

(** [s.split(sep)] for a separator of one character. *)
Definition split_on (sep : ascii) (s : string) : list string :=
  let '(w, ws) := split_on_go sep s in w :: ws.

Fixpoint lstrip_if (p : ascii -> bool) (s : string) : string :=
  match s with
  | "" => ""
  | String c s' => if p c then lstrip_if p s' else s
  end.

Fixpoint rstrip_if (p : ascii -> bool) (s : string) : string :=
  match s with
  | "" => ""
  | String c s' =>
      let r := rstrip_if p s' in
      if p c && negb (nonempty r) then "" else String c r
  end.

(** [s.strip()], and [s.rstrip(ch)] and [s.strip(ch)] for one character. *)
Definition strip (s : string) : string := lstrip_if is_space (rstrip_if is_space s).
Definition rstrip_char (ch : ascii) (s : string) : string := rstrip_if (Ascii.eqb ch) s.
Definition strip_char (ch : ascii) (s : string) : string := lstrip_if (Ascii.eqb ch) (rstrip_char ch s).

Fixpoint join (sep : string) (l : list string) : string :=
  match l with
  | [] => ""
  | [x] => x
  | x :: l' => x ++ sep ++ join sep l'
  end.

(** [s[0:-1]]. *)
Fixpoint drop_last (s : string) : string :=
  match s with
  | "" => ""
  | String _ "" => ""
  | String c s' => String c (drop_last s')
  end.

(** [s[n:]]. *)
Fixpoint str_drop (n : nat) (s : string) : string :=
  match n, s with
  | O, _ => s
  | S n', String _ s' => str_drop n' s'
  | S _, "" => ""
  end.

(** ** find, rfind, replace *)

Definition startswith (p s : string) : bool := String.prefix p s.

Fixpoint str_rev_app (s acc : string) : string :=
  match s with "" => acc | String c s' => str_rev_app s' (String c acc) end.
Definition str_rev (s : string) : string := str_rev_app s "".

Definition endswith (p s : string) : bool := String.prefix (str_rev p) (str_rev s).

(** [s.find(p) >= 0]. *)
Fixpoint contains (p s : string) : bool :=
  String.prefix p s || match s with "" => false | String _ s' => contains p s' end.

(** [s.rfind(c)]: -1 when there is none. *)
Fixpoint rfind (c : ascii) (s : string) : Z :=
  match s with
  | "" => -1
  | String d s' =>
      let r := rfind c s' in
      if 0 <=? r then r + 1 else if Ascii.eqb c d then 0 else -1
  end.

(** [s.replace(p, q)] for a pattern that is not empty: [skip] characters of a
    match are still to be dropped. *)
Fixpoint replace_go (p q s : string) (skip : nat) : string :=
  match s with
  | "" => ""
  | String c s' =>
      match skip with
      | S k => replace_go p q s' k
      | O => if String.prefix p s then q ++ replace_go p q s' (String.length p - 1)
             else String c (replace_go p q s' 0)
      end
  end.
Definition replace (p q s : string) : string := replace_go p q s 0.

Definition to_lower_char (c : ascii) : ascii :=
  let n := N_of_ascii c in
  if ((65 <=? n)%N && (n <=? 90)%N) then ascii_of_N (n + 32) else c.
Fixpoint lower (s : string) : string :=
  match s with "" => "" | String c s' => String (to_lower_char c) (lower s') end.

(** ** Integers *)

Definition str_of_Z (z : Z) : string := NilZero.string_of_int (Z.to_int z).

Fixpoint all_chars (p : ascii -> bool) (s : string) : bool :=
  match s with "" => true | String c s' => p c && all_chars p s' end.

(** Digits with single underscores between them; the underscores go. *)
Fixpoint digits_clean (prev_digit : bool) (s : string) : option string :=
  match s with
  | "" => if prev_digit then Some "" else None
  | String c s' =>
      if is_digit c then String c <$> digits_clean true s'
      else if Ascii.eqb c "_" && prev_digit then digits_clean false s'
      else None
  end.

Definition uint_of_str (s : string) : option Z :=
  t ← digits_clean false s; Z.of_uint <$> NilZero.uint_of_string t.

(** [int(s)]. *)
Definition int_of_str (s : string) : outcome Z :=
  let r := match strip s with
           | String "-" t => Z.opp <$> uint_of_str t
           | String "+" t => uint_of_str t
           | t => uint_of_str t
           end in
  match r with Some z => Ret z | None => Raise ValueError end.

(** ** os.path on POSIX *)

Definition path_join (a b : string) : string :=
  if startswith "/" b then b
  else if negb (nonempty a) || endswith "/" a then a ++ b
  else a ++ "/" ++ b.

(** [os.path.dirname]: the part before the last [/], trailing slashes dropped
    unless it is all slashes. *)
Fixpoint str_take (n : nat) (s : string) : string :=
  match n, s with
  | S n', String c s' => String c (str_take n' s')
  | _, _ => ""
  end.

Definition dirname (p : string) : string :=
  let head := str_take (Z.to_nat (rfind "/" p + 1)) p in
  if all_chars (Ascii.eqb "/") head then head else rstrip_char "/" head.

Definition basename (p : string) : string := str_drop (Z.to_nat (rfind "/" p + 1)) p.

(** [os.path.splitext(p)[0]]: cut at the last dot of the last component unless
    only dots come before it there. *)
Definition splitext_root (p : string) : string :=
  let sep := rfind "/" p in
  let dot := rfind "." p in
  if sep <? dot then
    let stem := str_drop (Z.to_nat (sep + 1)) (str_take (Z.to_nat dot) p) in
    if all_chars (Ascii.eqb ".") stem then p else str_take (Z.to_nat dot) p
  else p.

(** ** Lemmas *)

Lemma str_app_assoc (a b c : string) : (a ++ b) ++ c = a ++ b ++ c.
Proof. induction a as [|x a IH]; cbn; [done|]. by rewrite IH. Qed.

Lemma str_app_nil_r (a : string) : a ++ "" = a.
Proof. induction a as [|x a IH]; cbn; [done|]. by rewrite IH. Qed.

Lemma all_chars_app p a b : all_chars p (a ++ b) = all_chars p a && all_chars p b.
Proof. induction a as [|x a IH]; cbn; [done|]. by rewrite IH, andb_assoc. Qed.

Lemma all_chars_impl (p q : ascii -> bool) s :
  (forall c, p c = true -> q c = true) -> all_chars p s = true -> all_chars q s = true.
Proof.
  intros H. induction s as [|c s IH]; cbn; [done|].
  intros [H1 H2]%andb_prop. by rewrite H, IH.
Qed.

(** A word: characters that are not spaces, at least one. *)
Definition is_word (s : string) : bool :=
  nonempty s && all_chars (fun c => negb (is_space c)) s.

Lemma split_go_word w s :
  all_chars (fun c => negb (is_space c)) w = true ->
  split_go (w ++ s) = let '(v, ws) := split_go s in (w ++ v, ws).
Proof.
  induction w as [|c w IH]; cbn; [by destruct (split_go s)|].
  intros [Hc%negb_true_iff Hw]%andb_prop. rewrite IH by done.
  destruct (split_go s) as [v ws]. by rewrite Hc.
Qed.

Lemma split_ws_word w : is_word w = true -> split_ws w = [w].
Proof.
  intros [Hn Hw]%andb_prop. unfold split_ws.
  rewrite <- (str_app_nil_r w) at 1. rewrite split_go_word by done. cbn.
  by rewrite str_app_nil_r, Hn.
Qed.

Lemma split_ws_cons w c s :
  is_word w = true -> is_space c = true ->
  split_ws (w ++ String c s) = w :: split_ws s.
Proof.
  intros [Hn Hw]%andb_prop Hc. unfold split_ws. rewrite split_go_word by done. cbn.
  destruct (split_go s) as [v ws]. rewrite Hc. rewrite str_app_nil_r, Hn. done.
Qed.

Lemma split_on_go_none sep w s :
  all_chars (fun c => negb (Ascii.eqb c sep)) w = true ->
  split_on_go sep (w ++ s) = let '(v, ws) := split_on_go sep s in (w ++ v, ws).
Proof.
  induction w as [|c w IH]; cbn; [by destruct (split_on_go sep s)|].
  intros [Hc%negb_true_iff Hw]%andb_prop. rewrite IH by done.
  destruct (split_on_go sep s) as [v ws]. by rewrite Hc.
Qed.

(** [sep.join(l).split(sep) = l] when no item holds the separator. *)
Lemma split_on_join sep (l : list string) :
  l <> [] ->
  Forall (fun w => all_chars (fun c => negb (Ascii.eqb c sep)) w = true) l ->
  split_on sep (join (String sep "") l) = l.
Proof.
  intros Hne HF. unfold split_on.
  enough (match l with [] => True | x :: l' =>
            split_on_go sep (join (String sep "") l) = (x, l') end) as E.
  { destruct l; [done|]. by rewrite E. }
  clear Hne. induction HF as [|x l Hx HF IH]; [done|].
  destruct l as [|y l].
  - cbn. rewrite <- (str_app_nil_r x) at 1. rewrite split_on_go_none by done. cbn.
    by rewrite str_app_nil_r.
  - change (join (String sep "") (x :: y :: l))
      with (x ++ String sep (join (String sep "") (y :: l))).
    rewrite split_on_go_none by done. cbn [split_on_go].
    rewrite IH, Ascii.eqb_refl. by rewrite str_app_nil_r.
Qed.

Lemma rstrip_if_id p s : all_chars (fun c => negb (p c)) s = true -> rstrip_if p s = s.
Proof.
  induction s as [|c s IH]; cbn; [done|]. intros [Hc%negb_true_iff Hs]%andb_prop.
  by rewrite IH, Hc.
Qed.

Lemma lstrip_if_id p s : all_chars (fun c => negb (p c)) s = true -> lstrip_if p s = s.
Proof. destruct s as [|c s]; cbn; [done|]. by intros [->%negb_true_iff _]%andb_prop. Qed.

Lemma strip_id s : all_chars (fun c => negb (is_space c)) s = true -> strip s = s.
Proof. intros H. unfold strip. by rewrite rstrip_if_id, lstrip_if_id. Qed.

Lemma drop_last_snoc s c : drop_last (s ++ String c "") = s.
Proof.
  induction s as [|d s IH]; [done|]. cbn. rewrite IH. by destruct s.
Qed.

(** [str(z)] is made of digits, after a minus sign when [z] is negative. *)
Lemma string_of_uint_digits d :
  all_chars is_digit (NilEmpty.string_of_uint d) = true.
Proof. induction d; cbn; done. Qed.

Lemma string_of_uint0_digits d :
  all_chars is_digit (NilZero.string_of_uint d) = true /\
  nonempty (NilZero.string_of_uint d) = true.
Proof. destruct d; cbn; split; try done; apply string_of_uint_digits. Qed.

Lemma digits_clean_id b s :
  (b = true \/ nonempty s = true) -> all_chars is_digit s = true -> digits_clean b s = Some s.
Proof.
  revert b; induction s as [|c s IH]; intros b Hb Hs; cbn in *.
  { destruct b; [done|]. by destruct Hb. }
  apply andb_prop in Hs as [-> Hs]. rewrite IH by auto. done.
Qed.

Lemma is_digit_not_space c : is_digit c = true -> negb (is_space c) = true.
Proof. unfold is_digit, is_space. intros [H1 H2]%andb_prop. lia. Qed.

Lemma uint_of_str_of d :
  d <> Decimal.Nil -> uint_of_str (NilZero.string_of_uint d) = Some (Z.of_uint d).
Proof.
  intros Hd. destruct (string_of_uint0_digits d) as [H1 H2]. unfold uint_of_str.
  rewrite digits_clean_id by auto. cbn [mbind option_bind].
  by rewrite NilZero.usu.
Qed.

Lemma Z_to_int_nonnil z :
  Z.to_int z <> Decimal.Pos Decimal.Nil /\ Z.to_int z <> Decimal.Neg Decimal.Nil.
Proof.
  split; intros E; pose proof (DecimalZ.of_to z) as H; rewrite E in H; cbn in H; subst z; done.
Qed.

Lemma str_of_Z_word z : is_word (str_of_Z z) = true.
Proof.
  unfold str_of_Z, is_word. destruct (Z.to_int z) as [d|d]; cbn [NilZero.string_of_int];
    destruct (string_of_uint0_digits d) as [H1 H2].
  - rewrite H2. cbn. revert H1. apply all_chars_impl, is_digit_not_space.
  - cbn. revert H1. apply all_chars_impl, is_digit_not_space.
Qed.

(** [int(str(z)) == z]. *)
Lemma int_of_str_of_Z z : int_of_str (str_of_Z z) = Ret z.
Proof.
  unfold int_of_str. pose proof (str_of_Z_word z) as [_ Hw]%andb_prop.
  rewrite strip_id by done. unfold str_of_Z in *.
  pose proof (Z_to_int_nonnil z) as [H1 H2]. pose proof (DecimalZ.of_to z) as Hz.
  destruct (Z.to_int z) as [d|d] eqn:E; cbn [NilZero.string_of_int].
  - assert (d <> Decimal.Nil) by congruence.
    assert (uint_of_str (NilZero.string_of_uint d) = Some z) as Hd.
    { rewrite uint_of_str_of by done. by rewrite <- Hz. }
    destruct d; cbn [NilZero.string_of_uint NilEmpty.string_of_uint] in *; try done;
      by rewrite Hd.
  - assert (d <> Decimal.Nil) by congruence. rewrite uint_of_str_of by done.
    cbn. by rewrite <- Hz.
Qed.

Lemma str_of_Z_inj z z' : str_of_Z z = str_of_Z z' -> z = z'.
Proof.
  intros H. pose proof (int_of_str_of_Z z) as E. rewrite H, int_of_str_of_Z in E. congruence.
Qed.

#[global] Instance str_of_Z_Inj : Inj (=) (=) str_of_Z.
Proof. intros z z'. apply str_of_Z_inj. Qed.

Lemma str_app_inj_r (a b c : string) : a ++ b = a ++ c -> b = c.
Proof. induction a as [|x a IH]; cbn; [done|]. intros H. apply IH. congruence. Qed.

Lemma rfind_none c s : all_chars (fun d => negb (Ascii.eqb c d)) s = true -> rfind c s = -1.
Proof.
  induction s as [|d s IH]; [done|]. cbn. intros [Hd%negb_true_iff Hs]%andb_prop. by rewrite IH, Hd.
Qed.

Lemma all_chars_join p sep l :
  all_chars p sep = true -> Forall (fun s => all_chars p s = true) l -> all_chars p (join sep l) = true.
Proof.
  intros Hsep. induction 1 as [|x l Hx HF IH]; [done|]. destruct l as [|y l]; [done|].
  change (join sep (x :: y :: l)) with (x ++ sep ++ join sep (y :: l)). by rewrite !all_chars_app, Hx, Hsep, IH.
Qed.

(** An integer is written with digits and a minus sign. *)
Lemma str_of_Z_chars (p : ascii -> bool) z :
  p "-"%char = true -> (forall c, is_digit c = true -> p c = true) -> all_chars p (str_of_Z z) = true.
Proof.
  intros Hm Hd. unfold str_of_Z. destruct (Z.to_int z) as [d|d]; unfold NilZero.string_of_int;
    destruct (string_of_uint0_digits d) as [H _]; [|cbn; rewrite Hm]; revert H; by apply all_chars_impl.
Qed.

(** A number has no separator in it. *)
Lemma str_of_Z_no_slash z : all_chars (fun d => negb (Ascii.eqb "/" d)) (str_of_Z z) = true.
Proof. apply str_of_Z_chars; [done|]. intros c. destruct c as [[] [] [] [] [] [] [] []]; vm_compute; congruence. Qed.

Lemma dirname_no_slash p : all_chars (fun d => negb (Ascii.eqb "/" d)) p = true -> dirname p = "".
Proof. intros H. unfold dirname. rewrite rfind_none by done. by destruct p. Qed.

#[export] Hint Resolve str_of_Z_word int_of_str_of_Z : py.
