(* ===== verification/PyFloat.v ===== *)
(** * Python floats

    [float] is IEEE 754 binary64: the Standard Library's [spec_float] at
    precision 53 and exponent bound 1024, whose operations round to nearest
    even. [float(str)] rounds the decimal correctly and [repr] prints the
    shortest decimal that reads back, as CPython does. *)

From Stdlib Require Import Ascii SpecFloat.
From S2P Require Import Prelude PyStr.

Open Scope string_scope.
Open Scope Z_scope.

Definition float := spec_float.

#[global] Instance float_eq_dec : EqDecision float.
Proof. solve_decision. Defined.

Definition fprec : Z := 53.
Definition femax : Z := 1024.

Definition float_of_Z (z : Z) : float := binary_normalize fprec femax z 0 false.
Definition fadd (x y : float) : float := SFadd fprec femax x y.
Definition fsub (x y : float) : float := SFsub fprec femax x y.
Definition fmul (x y : float) : float := SFmul fprec femax x y.
Definition float_inf : float := S754_infinity false.

Definition is_zero (x : float) : bool := match x with S754_zero _ => true | _ => false end.

(** [x / y] on floats: division by zero raises. *)
Definition fdiv (x y : float) : outcome float :=
  if is_zero y then Raise ZeroDivisionError else Ret (SFdiv fprec femax x y).

Definition fltb (x y : float) : bool := SFltb x y.
Definition fleb (x y : float) : bool := SFleb x y.

(** The float nearest to [num / den]. *)
Definition float_of_ratio (neg : bool) (num den : positive) : float :=
  let '(m, e, l) := SFdiv_core_binary fprec femax (Zpos num) 0 (Zpos den) 0 in
  binary_round_aux fprec femax neg m e l.

(** The float nearest to [m * 10^e]. *)
Definition float_of_dec (neg : bool) (m : Z) (e : Z) : float :=
  match m with
  | Zpos p => if 0 <=? e then float_of_ratio neg (p * Z.to_pos (10 ^ e)) 1
              else float_of_ratio neg p (Z.to_pos (10 ^ (- e)))
  | _ => S754_zero neg
  end.

(** ** float(str) *)

(** The longest prefix of digits and underscores, and what follows. *)
Fixpoint span_digits (s : string) : string * string :=
  match s with
  | "" => ("", "")
  | String c s' =>
      if is_digit c || Ascii.eqb c "_" then
        let '(d, r) := span_digits s' in (String c d, r)
      else ("", s)
  end.

(** A run of digits that may be empty, without its underscores. *)
Definition opt_digits (s : string) : option string :=
  if nonempty s then digits_clean false s else Some "".

Definition digits_val (s : string) : Z :=
  default 0 (uint_of_str s).

Definition exponent_of (s : string) : option Z :=
  match s with
  | "" => Some 0
  | String c t =>
      if Ascii.eqb c "e" || Ascii.eqb c "E" then
        match t with
        | String "-" u => Z.opp <$> uint_of_str u
        | String "+" u => uint_of_str u
        | u => uint_of_str u
        end
      else None
  end.

Definition unsigned_float (neg : bool) (s : string) : option float :=
  if bool_decide (lower s ∈ ["inf"; "infinity"]) then Some (S754_infinity neg)
  else if bool_decide (lower s = "nan") then Some S754_nan
  else
    let '(ip, r) := span_digits s in
    let '(fp, r') := match r with String "." t => span_digits t | _ => ("", r) end in
    i ← opt_digits ip; f ← opt_digits fp; e ← exponent_of r';
    if nonempty i || nonempty f then
      Some (float_of_dec neg (digits_val (i ++ f)) (e - Z.of_nat (String.length f)))
    else None.

(** [float(s)]. *)
Definition float_of_str (s : string) : outcome float :=
  let r := match strip s with
           | String "-" t => unsigned_float true t
           | String "+" t => unsigned_float false t
           | t => unsigned_float false t
           end in
  match r with Some x => Ret x | None => Raise ValueError end.

(** ** repr(float) *)

(** Decimal exponent: the least [k] with [num/den < 10^k]. *)
Fixpoint dec_exp (fuel : nat) (num den k : Z) : Z :=
  match fuel with
  | O => k
  | S n =>
      if (if 0 <=? k then den * 10 ^ k <=? num else den <=? num * 10 ^ (- k))
      then dec_exp n num den (k + 1)
      else if (if 0 <=? k - 1 then num <? den * 10 ^ (k - 1) else num * 10 ^ (1 - k) <? den)
      then dec_exp n num den (k - 1)
      else k
  end.

(** The [p]-digit decimals next to [num/den] that read back as [x], the
    nearer first. *)
Definition shortest_at (x : float) (num den k p : Z) : option Z :=
  let sc := p - k in
  let n := if 0 <=? sc then num * 10 ^ sc else num in
  let d := if 0 <=? sc then den else den * 10 ^ (- sc) in
  let lo := n / d in
  let r := n mod d in
  let up_first := (d <? 2 * r) || ((2 * r =? d) && Z.odd lo) in
  let ok c := bool_decide (float_of_dec false c (- sc) = x) in
  let a := if up_first then lo + 1 else lo in
  let b := if up_first then lo else lo + 1 in
  if ok a then Some a else if ok b then Some b else None.

Fixpoint shortest (fuel : nat) (x : float) (num den k p : Z) : Z * Z :=
  match shortest_at x num den k p with
  | Some c => (c, p)
  | None => match fuel with
            | O => (0, p)
            | S n => shortest n x num den k (p + 1)
            end
  end.

Fixpoint rep_char (n : nat) (c : ascii) : string :=
  match n with O => "" | S n' => String c (rep_char n' c) end.

(** Digits [ds] with the decimal point after [k] of them, as [repr] lays them
    out: positional for exponents from -4 to 15, else scientific. *)
Definition layout (ds : string) (k : Z) : string :=
  let ds := rstrip_char "0" ds in
  let n := Z.of_nat (String.length ds) in
  if (-4 <? k) && (k <=? 16) then
    if k <=? 0 then "0." ++ rep_char (Z.to_nat (- k)) "0" ++ ds
    else if n <=? k then ds ++ rep_char (Z.to_nat (k - n)) "0" ++ ".0"
    else str_take (Z.to_nat k) ds ++ "." ++ str_drop (Z.to_nat k) ds
  else
    let e := k - 1 in
    let es := str_of_Z (Z.abs e) in
    let es := if Z.abs e <? 10 then "0" ++ es else es in
    str_take 1 ds ++ (if n <=? 1 then "" else "." ++ str_drop 1 ds)
      ++ "e" ++ (if e <? 0 then "-" else "+") ++ es.

Definition float_repr (x : float) : string :=
  match x with
  | S754_nan => "nan"
  | S754_infinity s => (if s then "-" else "") ++ "inf"
  | S754_zero s => (if s then "-" else "") ++ "0.0"
  | S754_finite s m e =>
      let num := if 0 <=? e then Zpos m * 2 ^ e else Zpos m in
      let den := if 0 <=? e then 1 else 2 ^ (- e) in
      let k := dec_exp 800 num den 0 in
      let '(c, p) := shortest 17 (S754_finite false m e) num den k 1 in
      let ds := str_of_Z c in
      let k' := if Z.of_nat (String.length ds) =? p then k else k + 1 in
      (if s then "-" else "") ++ layout ds k'
  end.

(** ** Fixed-point formatting *)

(** [q / 10^p] with [p] decimals. *)
Definition fixed_digits (p : nat) (q : Z) : string :=
  let ds := str_of_Z q in
  let ds := rep_char (S p - String.length ds) "0" ++ ds in
  let k := (String.length ds - p)%nat in
  match p with O => ds | _ => str_take k ds ++ "." ++ str_drop k ds end.

(** [f'{x:.pf}']: the exact value rounded half to even. *)
Definition float_fixed (p : nat) (x : float) : string :=
  match x with
  | S754_nan => "nan"
  | S754_infinity s => (if s then "-" else "") ++ "inf"
  | S754_zero s => (if s then "-" else "") ++ fixed_digits p 0
  | S754_finite s m e =>
      let num := (if 0 <=? e then Zpos m * 2 ^ e else Zpos m) * 10 ^ Z.of_nat p in
      let den := if 0 <=? e then 1 else 2 ^ (- e) in
      let lo := num / den in
      let r := num mod den in
      let q := if (den <? 2 * r) || ((2 * r =? den) && Z.odd lo) then lo + 1 else lo in
      (if s then "-" else "") ++ fixed_digits p q
  end.

(** ** Python numbers: [int / int] depends on the version *)

Inductive number : Set := NInt (z : Z) | NFloat (f : float).

Definition number_to_float (n : number) : float :=
  match n with NInt z => float_of_Z z | NFloat f => f end.

Definition ratio_of_Z (a b : Z) : float :=
  match a, b with
  | Zpos p, Zpos q => float_of_ratio false p q
  | Zneg p, Zpos q => float_of_ratio true p q
  | Zpos p, Zneg q => float_of_ratio true p q
  | Zneg p, Zneg q => float_of_ratio false p q
  | _, _ => S754_zero false
  end.

(** [a / b] on two integers: floor division in Python 2, true division,
    correctly rounded, in Python 3. *)
Definition int_div (v : pyver) (a b : Z) : outcome number :=
  if b =? 0 then Raise ZeroDivisionError
  else match v with
       | Py2 => Ret (NInt (a / b))
       | Py3 => Ret (NFloat (ratio_of_Z a b))
       end.

(** [l[n]] for a number: a float is not an index. *)
Definition index_number {A} (l : list A) (n : number) : outcome A :=
  match n with NInt z => py_index l z | NFloat _ => Raise TypeError end.

Definition number_mul (i : Z) (n : number) : number :=
  match n with
  | NInt z => NInt (i * z)
  | NFloat f => NFloat (fmul (float_of_Z i) f)
  end.

Definition number_add (i : Z) (n : number) : number :=
  match n with
  | NInt z => NInt (i + z)
  | NFloat f => NFloat (fadd (float_of_Z i) f)
  end.

Example repr_01 : float_of_str "0.1" ≫= (fun x => Ret (float_repr x)) = Ret "0.1".
Proof. vm_compute. reflexivity. Qed.

(** ** The order of floats

    Away from NaN, comparison is the lexicographic order of class, exponent and
    mantissa (signed). *)
Definition frank (x : float) : option (Z * Z * Z) :=
  match x with
  | S754_nan => None
  | S754_zero _ => Some (0, 0, 0)
  | S754_infinity s => Some (if s then -2 else 2, 0, 0)
  | S754_finite s m e => Some (if s then (-1, - e, - Zpos m) else (1, e, Zpos m))
  end.

Definition lex_lt (a b : Z * Z * Z) : Prop :=
  a.1.1 < b.1.1 \/ (a.1.1 = b.1.1 /\ (a.1.2 < b.1.2 \/ (a.1.2 = b.1.2 /\ a.2 < b.2))).

Ltac float_compare :=
  repeat match goal with
  | |- context [Z.compare ?a ?b] => destruct (Z.compare_spec a b)
  | |- context [Pos.compare_cont Eq ?a ?b] =>
      change (Pos.compare_cont Eq a b) with (Pos.compare a b); destruct (Pos.compare_spec a b)
  end; cbn.

Lemma fltb_rank x y :
  fltb x y = true <-> exists a b, frank x = Some a /\ frank y = Some b /\ lex_lt a b.
Proof.
  unfold fltb, SFltb, SFcompare, lex_lt.
  destruct x as [sx|[]| |[] mx ex], y as [sy|[]| |[] my ey]; cbn; float_compare;
    (split; [intros Hf; first [discriminate Hf | do 2 eexists; split; [reflexivity|split; [reflexivity|cbn; lia]]]
            |intros (a & b & Ha & Hb & Hf); simplify_eq; cbn in Hf; reflexivity || lia]).
Qed.

Lemma fleb_rank x y :
  fleb x y = true <-> exists a b, frank x = Some a /\ frank y = Some b /\ ~ lex_lt b a.
Proof.
  unfold fleb, SFleb, SFcompare, lex_lt.
  destruct x as [sx|[]| |[] mx ex], y as [sy|[]| |[] my ey]; cbn; float_compare;
    (split; [intros Hf; first [discriminate Hf | do 2 eexists; split; [reflexivity|split; [reflexivity|cbn; lia]]]
            |intros (a & b & Ha & Hb & Hf); simplify_eq; cbn in Hf; reflexivity || lia]).
Qed.

Lemma fltb_trans x y z : fltb x y = true -> fltb y z = true -> fltb x z = true.
Proof.
  rewrite !fltb_rank. intros (a & b & Ha & Hb & H1) (b' & c & Hb' & Hc & H2). simplify_eq.
  exists a, c. split_and!; [done..|]. unfold lex_lt in *. lia.
Qed.

Lemma fleb_trans x y z : fleb x y = true -> fleb y z = true -> fleb x z = true.
Proof.
  rewrite !fleb_rank. intros (a & b & Ha & Hb & H1) (b' & c & Hb' & Hc & H2). simplify_eq.
  exists a, c. split_and!; [done..|]. unfold lex_lt in *. lia.
Qed.

Lemma fltb_fleb_trans x y z : fltb x y = true -> fleb y z = true -> fltb x z = true.
Proof.
  rewrite !fltb_rank, fleb_rank. intros (a & b & Ha & Hb & H1) (b' & c & Hb' & Hc & H2). simplify_eq.
  exists a, c. split_and!; [done..|]. unfold lex_lt in *. lia.
Qed.

Lemma fltb_irrefl x : fltb x x = false.
Proof.
  apply not_true_iff_false. rewrite fltb_rank. intros (a & b & Ha & Hb & H). simplify_eq. unfold lex_lt in H. lia.
Qed.

Lemma fltb_not_fleb x y : fltb x y = true -> fleb y x = false.
Proof.
  intros H. apply not_true_iff_false. rewrite fleb_rank. apply fltb_rank in H as (a & b & Ha & Hb & H).
  intros (b' & a' & Hb' & Ha' & H'). simplify_eq. done.
Qed.

(** Not a NaN. *)
Definition is_number (x : float) : bool := match x with S754_nan => false | _ => true end.

Lemma fleb_total x y : is_number x = true -> is_number y = true -> fleb x y = true \/ fltb y x = true.
Proof.
  intros Hx Hy. rewrite fleb_rank, fltb_rank.
  assert (exists a, frank x = Some a) as [a Ha] by (destruct x; try done; by eexists).
  assert (exists b, frank y = Some b) as [b Hb] by (destruct y; try done; by eexists).
  destruct (decide (b.1.1 < a.1.1 \/ (b.1.1 = a.1.1 /\ (b.1.2 < a.1.2 \/ (b.1.2 = a.1.2 /\ b.2 < a.2))))) as [H|H];
    [right|left]; do 2 eexists; (split; [done|]); (split; [done|]); done.
Qed.

#[export] Hint Resolve fltb_trans fleb_trans fltb_fleb_trans : py.
