(* ===== verification/IntFloat.v ===== *)
(** * Integers in floating-point formats

    numpy computes the keys of brute force search in binary32 and Python its
    numbers in binary64. Integers below [2^prec] are represented exactly in
    both; here their representation is given in closed form, and subtraction,
    multiplication by two, negation and comparison are shown to be those of the
    integers. Everything is stated for a format [prec], [emax]. *)

From Stdlib Require Import SpecFloat Lia.
From S2P Require Import Prelude PyStr PyFloat.

Open Scope Z_scope.

Section format.
Context (prec emax : Z) (Hprec : 1 < prec) (Hemax : prec < emax).

Definition int_float (z : Z) : float := binary_normalize prec emax z 0 false.

(** The mantissa and exponent of a positive integer. *)
Definition int_exp (z : Z) : Z := Z.log2 z + 1 - prec.
Definition int_mant (z : Z) : Z := z * 2 ^ (- int_exp z).

(** ** Digits and shifts *)

Lemma digits2_log2 z : 0 < z -> Zdigits2 z = Z.log2 z + 1.
Proof.
  destruct z as [|p|p]; [lia| |lia]. intros _. cbn [Zdigits2].
  assert (digits2_pos p = Pos.size p) as -> by (induction p as [p IH|p IH|]; cbn; congruence).
  destruct p as [p|p|]; cbn; lia.
Qed.

Lemma digits2_pos_log2 p : Zpos (digits2_pos p) = Z.log2 (Zpos p) + 1.
Proof. by rewrite <- digits2_log2. Qed.

Lemma log2_shifted a k : 0 < a -> 0 <= k -> Z.log2 (a * 2 ^ k) = Z.log2 a + k.
Proof. intros Ha Hk. rewrite Z.log2_mul_pow2 by lia. lia. Qed.

Lemma iter_pos_succ {A} (f : A -> A) p x : SpecFloat.iter_pos f p x = Pos.iter f x p.
Proof.
  revert x. induction p as [p IH|p IH|]; intros x; cbn [SpecFloat.iter_pos Pos.iter]; [|by rewrite !IH|done].
  rewrite !IH. rewrite <- !Pos.iter_swap. done.
Qed.

Lemma shift_left m d : Zpos (Pos.iter xO m d) = Zpos m * 2 ^ Zpos d.
Proof.
  induction d as [|d IH] using Pos.peano_ind; [cbn; lia|]. rewrite Pos.iter_succ.
  rewrite Pos2Z.inj_xO, IH, Pos2Z.inj_succ, Z.pow_succ_r by lia. ring.
Qed.

Lemma shr_1_even m : 0 < m -> shr_1 (Build_shr_record (m * 2) false false) = Build_shr_record m false false.
Proof. destruct m as [|p|p]; [lia| |lia]. intros _. rewrite Z.mul_comm. done. Qed.

(** Zeros shifted out leave no remainder. *)
Lemma shr_exact a d : 0 < a ->
  SpecFloat.iter_pos shr_1 d (Build_shr_record (a * 2 ^ Zpos d) false false) = Build_shr_record a false false.
Proof.
  revert a. induction d as [|d IH] using Pos.peano_ind; intros a Ha.
  { rewrite Z.pow_1_r. by apply shr_1_even. }
  rewrite iter_pos_succ, Pos.iter_succ_r, <- iter_pos_succ, Pos2Z.inj_succ, Z.pow_succ_r by lia.
  replace (a * (2 * 2 ^ Zpos d)) with (a * 2 ^ Zpos d * 2) by lia.
  rewrite shr_1_even by (pose proof (Z.pow_pos_nonneg 2 (Zpos d)); nia). by apply IH.
Qed.

(** ** Rounding an integer is exact *)

Lemma int_exp_bounds z : 0 < z < 2 ^ prec -> 1 - prec <= int_exp z <= 0.
Proof.
  intros [H1 H2]. unfold int_exp. pose proof (Z.log2_nonneg z). assert (Z.log2 z < prec); [|lia].
  apply Z.log2_lt_pow2; lia.
Qed.

Lemma int_mant_pos z : 0 < z < 2 ^ prec -> 0 < int_mant z.
Proof. intros Hz. pose proof (int_exp_bounds z Hz). unfold int_mant. apply Z.mul_pos_pos; [lia|]. apply Z.pow_pos_nonneg; lia. Qed.

Lemma int_fexp z : 0 < z < 2 ^ prec -> fexp prec emax (Z.log2 z + 1) = int_exp z.
Proof. intros Hz. pose proof (int_exp_bounds z Hz) as H. unfold fexp, emin. unfold int_exp in *. lia. Qed.

(** The number [m * 2^e] is the integer [z]. *)
Definition scaled (m e z : Z) : Prop := e <= 0 /\ m = z * 2 ^ (- e).

Lemma scaled_log2 m e z : 0 < z -> scaled m e z -> 0 < m /\ Z.log2 m + 1 + e = Z.log2 z + 1.
Proof.
  intros Hz [He ->]. rewrite log2_shifted by lia. split; [|lia]. apply Z.mul_pos_pos; [lia|]. apply Z.pow_pos_nonneg; lia.
Qed.

Lemma shr_fexp_exact m e z :
  0 < z < 2 ^ prec -> scaled m e z -> e <= int_exp z ->
  shr_fexp prec emax m e loc_Exact = (Build_shr_record (int_mant z) false false, int_exp z).
Proof.
  intros Hz Hs Hle. destruct (scaled_log2 m e z) as [Hm Hl]; [lia|done|]. unfold shr_fexp.
  rewrite digits2_log2, Hl, int_fexp by done. cbn [shr_record_of_loc]. destruct Hs as [He ->].
  destruct (Z.sub (int_exp z) e) as [|d|d] eqn:E; cbn [shr].
  - assert (e = int_exp z) as -> by lia. done.
  - rewrite <- E. replace (e + (int_exp z - e)) with (int_exp z) by lia. f_equal.
    pose proof (int_exp_bounds z Hz).
    replace (z * 2 ^ (- e)) with (int_mant z * 2 ^ Zpos d); [by apply shr_exact, int_mant_pos|].
    unfold int_mant. rewrite <- Z.mul_assoc, <- Z.pow_add_r by lia. do 2 f_equal. lia.
  - lia.
Qed.

Lemma round_aux_exact s m e z :
  0 < z < 2 ^ prec -> scaled m e z -> e <= int_exp z ->
  binary_round_aux prec emax s m e loc_Exact = S754_finite s (Z.to_pos (int_mant z)) (int_exp z).
Proof.
  intros Hz Hs Hle. pose proof (int_exp_bounds z Hz) as Hb. pose proof (int_mant_pos z Hz) as Hm.
  unfold binary_round_aux. rewrite (shr_fexp_exact m e z) by done. cbn [shr_m loc_of_shr_record round_nearest_even].
  rewrite (shr_fexp_exact (int_mant z) (int_exp z) z) by (lia || by split; [lia|]). cbn [shr_m].
  destruct (int_mant z) as [|p|p]; [lia| |lia]. by rewrite (proj2 (Z.leb_le _ _)) by lia.
Qed.

Lemma round_exact s m e z :
  0 < z < 2 ^ prec -> scaled (Zpos m) e z ->
  binary_round prec emax s m e = S754_finite s (Z.to_pos (int_mant z)) (int_exp z).
Proof.
  intros Hz Hs. pose proof (int_exp_bounds z Hz). destruct (scaled_log2 (Zpos m) e z) as [Hm Hl]; [lia|done|].
  unfold binary_round, shl_align. rewrite digits2_pos_log2, Hl, int_fexp by done.
  destruct (Z.sub (int_exp z) e) as [|d|d] eqn:E; [apply round_aux_exact; [done|done|lia]..|].
  apply round_aux_exact; [done| |lia]. rewrite shift_left. destruct Hs as [He ->]. split; [lia|].
  rewrite <- Z.mul_assoc, <- Z.pow_add_r by lia. do 2 f_equal. lia.
Qed.

(** A difference of scaled numbers, rounded: the integer it is. *)
Lemma normalize_exact m e z :
  Z.abs z < 2 ^ prec -> scaled m e z -> binary_normalize prec emax m e false = int_float z.
Proof.
  intros Hz Hs. assert (0 < 2 ^ (- e)) as Hp by (destruct Hs as [He _]; apply Z.pow_pos_nonneg; lia).
  unfold int_float. destruct Hs as [He ->]. destruct z as [|p|p]; cbn [Z.abs] in Hz.
  - done.
  - destruct (Z.pos p * 2 ^ (- e)) as [|q|q] eqn:Eq; [nia| |nia]. cbn [binary_normalize].
    rewrite !(round_exact _ _ _ (Zpos p)); [done|lia|split; lia|lia|split; [lia|by rewrite Eq]].
  - destruct (Z.neg p * 2 ^ (- e)) as [|q|q] eqn:Eq; [nia|nia|]. cbn [binary_normalize].
    rewrite !(round_exact _ _ _ (Zpos p)); [done|lia|split; lia|lia|split; [lia|nia]].
Qed.

Lemma int_float_zero : int_float 0 = S754_zero false.
Proof. done. Qed.

Lemma int_float_form z : z <> 0 -> Z.abs z < 2 ^ prec ->
  int_float z = S754_finite (z <? 0) (Z.to_pos (int_mant (Z.abs z))) (int_exp (Z.abs z)).
Proof.
  intros Hn Hz. unfold int_float. destruct z as [|p|p]; [done|..]; cbn [binary_normalize Z.abs] in *;
    (rewrite (round_exact _ _ _ (Zpos p)); [done|lia|split; lia]).
Qed.

(** ** Arithmetic *)

(** [x] has the value [z]; zero may have either sign. *)
Definition is_int (x : float) (z : Z) : Prop := x = int_float z \/ (z = 0 /\ x = S754_zero true).

Lemma int_mant_scaled z : 0 < z < 2 ^ prec -> scaled (int_mant z) (int_exp z) z.
Proof. intros Hz. pose proof (int_exp_bounds z Hz). by split; [lia|]. Qed.

(** A number other than zero, in its only form. *)
Lemma is_int_nonzero x z : z <> 0 -> Z.abs z < 2 ^ prec -> is_int x z ->
  exists m e, x = S754_finite (z <? 0) m e /\ scaled (cond_Zopp (z <? 0) (Zpos m)) e z /\
    Zpos m = int_mant (Z.abs z) /\ e = int_exp (Z.abs z).
Proof.
  intros Hn Hz [-> | [? _]]; [|done]. assert (0 < Z.abs z < 2 ^ prec) as Ha by lia.
  pose proof (int_mant_pos _ Ha). pose proof (int_exp_bounds _ Ha). do 2 eexists. split; [by apply int_float_form|].
  rewrite Z2Pos.id by done. split; [|done]. split; [lia|]. unfold int_mant, cond_Zopp. destruct (Z.ltb_spec z 0); nia.
Qed.

Lemma is_int_zero x : is_int x 0 -> exists s, x = S754_zero s.
Proof. intros [-> | [_ ->]]; by eexists. Qed.

Lemma is_int_opp x z : Z.abs z < 2 ^ prec -> is_int x z -> is_int (SFopp x) (- z).
Proof.
  intros Hz H. destruct (decide (z = 0)) as [->|Hn].
  - destruct (is_int_zero _ H) as [[] ->]; [by left|by right].
  - destruct H as [-> | [? _]]; [|done]. left. rewrite !int_float_form by lia. cbn [SFopp]. rewrite Z.abs_opp.
    f_equal. lia.
Qed.

(** Aligning a mantissa to a smaller exponent keeps the number. *)
Lemma align_scaled s m e ez z :
  ez <= e -> scaled (cond_Zopp s (Zpos m)) e z -> scaled (cond_Zopp s (Zpos (shl_align m e ez).1)) ez z.
Proof.
  intros He [Hle Hm]. split; [lia|]. unfold shl_align. destruct (ez - e) as [|d|d] eqn:E; [|lia|]; cbn [fst].
  - by replace ez with e by lia.
  - rewrite shift_left. assert (cond_Zopp s (Z.pos m * 2 ^ Z.pos d) = cond_Zopp s (Z.pos m) * 2 ^ Z.pos d) as ->
      by (destruct s; cbn [cond_Zopp]; lia).
    rewrite Hm, <- Z.mul_assoc, <- Z.pow_add_r by lia. do 2 f_equal. lia.
Qed.

Lemma sub_exact x y a b :
  is_int x a -> is_int y b -> Z.abs a < 2 ^ prec -> Z.abs b < 2 ^ prec -> Z.abs (a - b) < 2 ^ prec ->
  is_int (SFsub prec emax x y) (a - b).
Proof.
  intros Hx Hy Ha Hb Hab. destruct (decide (b = 0)) as [->|Hb0].
  { rewrite Z.sub_0_r in *. destruct (is_int_zero _ Hy) as [t ->]. destruct (decide (a = 0)) as [->|Ha0].
    - destruct (is_int_zero _ Hx) as [[] ->], t; first [by left|by right].
    - destruct (is_int_nonzero _ _ Ha0 Ha Hx) as (m & e & -> & _). exact Hx. }
  destruct (is_int_nonzero _ _ Hb0 Hb Hy) as (my & ey & -> & Sy & _). destruct (decide (a = 0)) as [->|Ha0].
  { destruct (is_int_zero _ Hx) as [t ->]. by apply (is_int_opp _ b) in Hy. }
  destruct (is_int_nonzero _ _ Ha0 Ha Hx) as (mx & ex & -> & Sx & _). cbn [SFsub].
  left. apply normalize_exact; [done|]. apply (align_scaled _ _ _ (Z.min ex ey)) in Sx as [He ->]; [|lia].
  apply (align_scaled _ _ _ (Z.min ex ey)) in Sy as [_ ->]; [|lia]. split; [done|lia].
Qed.

Lemma SFadd_opp x y : SFadd prec emax x y = SFsub prec emax x (SFopp y).
Proof.
  destruct x as [[]|[]| |s m e], y as [[]|[]| |s' m' e']; try done; cbn [SFadd SFsub SFopp negb]; [by destruct s'..|].
  f_equal. rewrite <- Z.add_opp_r. f_equal. destruct s'; cbn [cond_Zopp negb]; lia.
Qed.

Lemma add_exact x y a b :
  is_int x a -> is_int y b -> Z.abs a < 2 ^ prec -> Z.abs b < 2 ^ prec -> Z.abs (a + b) < 2 ^ prec ->
  is_int (SFadd prec emax x y) (a + b).
Proof.
  intros Hx Hy Ha Hb Hab. rewrite SFadd_opp. replace (a + b) with (a - - b) by lia.
  apply sub_exact; [done|by apply is_int_opp|lia..].
Qed.

Lemma mul_exact x y a b :
  is_int x a -> is_int y b -> Z.abs a < 2 ^ prec -> Z.abs b < 2 ^ prec -> Z.abs (a * b) < 2 ^ prec ->
  is_int (SFmul prec emax x y) (a * b).
Proof.
  intros Hx Hy Ha Hb Hab. destruct (decide (a = 0)) as [->|Ha0].
  { destruct (is_int_zero _ Hx) as [t ->]. destruct (decide (b = 0)) as [->|Hb0].
    - destruct (is_int_zero _ Hy) as [t' ->]. cbn. destruct t, t'; first [by left|by right].
    - destruct (is_int_nonzero _ _ Hb0 Hb Hy) as (m & e & -> & _). cbn. destruct t, (b <? 0); first [by left|by right]. }
  destruct (is_int_nonzero _ _ Ha0 Ha Hx) as (mx & ex & -> & _ & Mx & ->). destruct (decide (b = 0)) as [->|Hb0].
  { destruct (is_int_zero _ Hy) as [t ->]. rewrite Z.mul_0_r. cbn. destruct t, (a <? 0); first [by left|by right]. }
  destruct (is_int_nonzero _ _ Hb0 Hb Hy) as (my & ey & -> & _ & My & ->). cbn [SFmul]. left.
  assert (0 < Z.abs (a * b) < 2 ^ prec) as Hz by nia. rewrite int_float_form by nia.
  pose proof (int_exp_bounds (Z.abs a)). pose proof (int_exp_bounds (Z.abs b)).
  rewrite (round_aux_exact _ _ _ (Z.abs (a * b))); [|done|split; [lia|]|].
  - f_equal. destruct (Z.ltb_spec a 0), (Z.ltb_spec b 0), (Z.ltb_spec (a * b) 0); cbn; done || nia.
  - rewrite Pos2Z.inj_mul, Mx, My, Z.abs_mul. unfold int_mant.
    replace (- (int_exp (Z.abs a) + int_exp (Z.abs b))) with (- int_exp (Z.abs a) + - int_exp (Z.abs b)) by lia.
    rewrite Z.pow_add_r by lia. lia.
  - rewrite Z.abs_mul. unfold int_exp in *. pose proof (Z.log2_mul_below (Z.abs a) (Z.abs b)). lia.
Qed.

(** ** Order *)

Lemma int_rank_lt a b : 0 < a < 2 ^ prec -> 0 < b < 2 ^ prec ->
  (int_exp a < int_exp b \/ (int_exp a = int_exp b /\ int_mant a < int_mant b)) <-> a < b.
Proof.
  intros Ha Hb. pose proof (int_exp_bounds a Ha). split.
  - intros [H'|[He Hm]]; unfold int_mant, int_exp in *.
    + apply Z.log2_lt_cancel. lia.
    + rewrite He in Hm. pose proof (Z.pow_pos_nonneg 2 (- (Z.log2 b + 1 - prec))). nia.
  - intros Hlt. pose proof (Z.log2_le_mono a b). unfold int_mant, int_exp in *.
    destruct (decide (Z.log2 a = Z.log2 b)) as [He|]; [right|left; lia].
    split; [lia|]. rewrite He. pose proof (Z.pow_pos_nonneg 2 (- (Z.log2 b + 1 - prec))). nia.
Qed.

Lemma is_int_number x z : Z.abs z < 2 ^ prec -> is_int x z -> is_number x = true.
Proof.
  intros Hz H. destruct (decide (z = 0)) as [->|Hn]; [by destruct (is_int_zero _ H) as [s ->]|].
  by destruct (is_int_nonzero _ _ Hn Hz H) as (m & e & -> & _).
Qed.

Definition int_rank (z : Z) : Z * Z * Z :=
  if z =? 0 then (0, 0, 0)
  else if z <? 0 then (-1, - int_exp (Z.abs z), - int_mant (Z.abs z))
  else (1, int_exp (Z.abs z), int_mant (Z.abs z)).

Lemma is_int_frank x z : Z.abs z < 2 ^ prec -> is_int x z -> frank x = Some (int_rank z).
Proof.
  intros Hz H. unfold int_rank. destruct (Z.eqb_spec z 0) as [->|Hn]; [by destruct (is_int_zero _ H) as [s ->]|].
  destruct (is_int_nonzero _ _ Hn Hz H) as (m & e & -> & _ & Hm & ->). cbn [frank]. rewrite Hm. by destruct (z <? 0).
Qed.

Lemma int_rank_lex a b : Z.abs a < 2 ^ prec -> Z.abs b < 2 ^ prec -> lex_lt (int_rank a) (int_rank b) <-> a < b.
Proof.
  intros Ha Hb. unfold lex_lt, int_rank.
  destruct (Z.eqb_spec a 0), (Z.ltb_spec a 0), (Z.eqb_spec b 0), (Z.ltb_spec b 0); cbn [fst snd]; try lia.
  - pose proof (int_rank_lt (Z.abs b) (Z.abs a)). lia.
  - pose proof (int_rank_lt (Z.abs a) (Z.abs b)). lia.
Qed.

(** Floats that are integers are ordered as the integers. *)
Lemma is_int_fleb x y a b : Z.abs a < 2 ^ prec -> Z.abs b < 2 ^ prec -> is_int x a -> is_int y b ->
  fleb x y = true <-> a <= b.
Proof.
  intros Ha Hb Hx Hy. rewrite fleb_rank, (is_int_frank x a), (is_int_frank y b) by done. split.
  - intros (p & q & [= <-] & [= <-] & H). rewrite int_rank_lex in H by done. lia.
  - intros Hle. do 2 eexists. split; [done|]. split; [done|]. rewrite int_rank_lex by done. lia.
Qed.
End format.

(** Negation turns the order around. *)
Lemma fleb_opp x y : fleb (SFopp x) (SFopp y) = fleb y x.
Proof. unfold fleb, SFleb, SFcompare. destruct x as [[]|[]| |[] mx ex], y as [[]|[]| |[] my ey]; cbn; float_compare; done || lia. Qed.
