(* ===== verification/PyBytes.v ===== *)
(** * Bytes and the [struct] module

    [bytes] as lists of [byte]; little-endian integers of a fixed width and
    [struct.pack]/[struct.unpack] for the formats the sources use
    ([i I q Q B b]), with the range and length errors they raise. *)

From Stdlib Require Import Ascii.
From Stdlib Require Strings.Byte.
From S2P Require Import Prelude PyStr.

Open Scope Z_scope.

Abbreviation byte := Byte.byte.

#[global] Instance byte_eq_dec : EqDecision byte := Byte.byte_eq_dec.

Definition Z_of_byte (b : byte) : Z := Z.of_N (Byte.to_N b).
Definition byte_of_Z (z : Z) : byte := default Byte.x00 (Byte.of_N (Z.to_N (z mod 256))).

Fixpoint le_bytes (n : nat) (z : Z) : list byte :=
  match n with
  | O => []
  | S n' => byte_of_Z z :: le_bytes n' (z / 256)
  end.

Fixpoint le_Z (l : list byte) : Z :=
  match l with
  | [] => 0
  | b :: l' => Z_of_byte b + 256 * le_Z l'
  end.

Definition bits (n : nat) : Z := 2 ^ (8 * Z.of_nat n).

(** Two's complement reading of [n] bytes. *)
Definition le_signed (n : nat) (l : list byte) : Z :=
  let u := le_Z l in if bits n / 2 <=? u then u - bits n else u.

Definition pack_signed (n : nat) (z : Z) : outcome (list byte) :=
  if (- (bits n / 2) <=? z) && (z <? bits n / 2) then Ret (le_bytes n z) else Raise StructError.
Definition pack_unsigned (n : nat) (z : Z) : outcome (list byte) :=
  if (0 <=? z) && (z <? bits n) then Ret (le_bytes n z) else Raise StructError.
Definition unpack_signed (n : nat) (l : list byte) : outcome Z :=
  if bool_decide (length l = n) then Ret (le_signed n l) else Raise StructError.
Definition unpack_unsigned (n : nat) (l : list byte) : outcome Z :=
  if bool_decide (length l = n) then Ret (le_Z l) else Raise StructError.

(** [struct.pack('i', z)] and so on. *)
Definition pack_i := pack_signed 4.
Definition pack_I := pack_unsigned 4.
Definition pack_q := pack_signed 8.
Definition pack_Q := pack_unsigned 8.
Definition pack_B := pack_unsigned 1.
Definition unpack_i := unpack_signed 4.
Definition unpack_B := unpack_unsigned 1.

(** [struct.unpack('b' * n, l)]: one signed byte per item. *)
Definition unpack_bs (n : Z) (l : list byte) : outcome (list Z) :=
  if bool_decide (length l = Z.to_nat n) then Ret ((fun b => le_signed 1 [b]) <$> l)
  else Raise StructError.

(** The integers a C [int] holds. *)
Definition int32_range (z : Z) : bool := (- 2 ^ 31 <=? z) && (z <? 2 ^ 31).

(** ** Text as bytes, one byte per character *)

Definition bytes_of_str (s : string) : list byte := String.list_byte_of_string s.
Definition str_of_bytes (l : list byte) : string := String.string_of_list_byte l.

(** ** Lemmas *)

Lemma Z_of_byte_bound b : 0 <= Z_of_byte b < 256.
Proof. unfold Z_of_byte. pose proof (Byte.to_N_bounded b). lia. Qed.

Lemma Z_of_byte_of_Z z : Z_of_byte (byte_of_Z z) = z mod 256.
Proof.
  unfold Z_of_byte, byte_of_Z.
  pose proof (Z.mod_pos_bound z 256 ltac:(lia)).
  destruct (Byte.of_N (Z.to_N (z mod 256))) as [b|] eqn:E.
  - apply Byte.to_of_N in E. cbn. rewrite E. lia.
  - apply Byte.of_N_None_iff in E. lia.
Qed.

Lemma byte_of_Z_of_byte b : byte_of_Z (Z_of_byte b) = b.
Proof.
  unfold Z_of_byte, byte_of_Z. pose proof (Byte.to_N_bounded b).
  rewrite Z.mod_small by lia. rewrite N2Z.id, Byte.of_to_N. done.
Qed.

Lemma length_le_bytes n z : length (le_bytes n z) = n.
Proof. revert z; induction n; intros z; cbn; congruence. Qed.

Lemma bits_S n : bits (S n) = 256 * bits n.
Proof.
  unfold bits. replace (8 * Z.of_nat (S n)) with (8 + 8 * Z.of_nat n) by lia.
  rewrite Z.pow_add_r by lia. done.
Qed.

Lemma bits_pos n : 0 < bits n.
Proof. unfold bits. apply Z.pow_pos_nonneg; lia. Qed.

Lemma le_Z_le_bytes n z : le_Z (le_bytes n z) = z mod bits n.
Proof.
  revert z; induction n as [|n IH]; intros z; cbn [le_bytes le_Z].
  { unfold bits. cbn. by rewrite Z.mod_1_r. }
  rewrite IH, Z_of_byte_of_Z, bits_S. pose proof (bits_pos n).
  rewrite Z.rem_mul_r by lia. done.
Qed.

Lemma le_Z_bound l : 0 <= le_Z l < bits (length l).
Proof.
  induction l as [|b l IH]; cbn [le_Z length]; [done|].
  rewrite bits_S. pose proof (Z_of_byte_bound b). lia.
Qed.

Lemma le_bytes_le_Z l : le_bytes (length l) (le_Z l) = l.
Proof.
  induction l as [|b l IH]; cbn [le_Z le_bytes length]; [done|].
  pose proof (Z_of_byte_bound b).
  f_equal.
  - rewrite <- (byte_of_Z_of_byte b) at 2. unfold byte_of_Z. do 3 f_equal.
    rewrite (Z.mul_comm 256), Z_mod_plus_full. done.
  - transitivity (le_bytes (length l) (le_Z l)); [f_equal|done].
    rewrite (Z.mul_comm 256), Z.div_add by lia. rewrite (Z.div_small _ 256) by lia. lia.
Qed.

Lemma unpack_unsigned_pack n z b :
  pack_unsigned n z = Ret b -> unpack_unsigned n b = Ret z.
Proof.
  unfold pack_unsigned, unpack_unsigned. destruct (_ && _) eqn:E; [|done].
  intros [= <-]. rewrite bool_decide_true by apply length_le_bytes.
  rewrite le_Z_le_bytes, Z.mod_small; [done|lia].
Qed.

Lemma unpack_signed_pack n z b :
  (0 < n)%nat -> pack_signed n z = Ret b -> unpack_signed n b = Ret z.
Proof.
  intros Hn. unfold pack_signed, unpack_signed. destruct (_ && _) eqn:E; [|done].
  intros [= <-]. rewrite bool_decide_true by apply length_le_bytes.
  unfold le_signed. rewrite le_Z_le_bytes. f_equal.
  assert (bits n = 2 * (bits n / 2)) as Hb.
  { destruct n as [|n]; [lia|]. rewrite bits_S.
    replace (256 * bits n) with ((128 * bits n) * 2) by lia. rewrite Z.div_mul by lia. lia. }
  destruct (Z.ltb_spec z 0).
  - rewrite <- (Z.mod_unique z (bits n) (-1) (z + bits n)) by lia.
    replace (bits n / 2 <=? z + bits n) with true by lia. lia.
  - rewrite Z.mod_small by lia. replace (bits n / 2 <=? z) with false by lia. done.
Qed.

Lemma pack_unsigned_ok n z : 0 <= z < bits n -> pack_unsigned n z = Ret (le_bytes n z).
Proof. intros H. unfold pack_unsigned. by replace (_ && _) with true by lia. Qed.

Lemma pack_i_ok z : int32_range z = true -> pack_i z = Ret (le_bytes 4 z).
Proof.
  unfold int32_range, pack_i, pack_signed. change (bits 4 / 2) with (2 ^ 31).
  intros H. by replace (_ && _) with true by lia.
Qed.

Lemma pack_i_inv z b :
  pack_i z = Ret b -> b = le_bytes 4 z /\ int32_range z = true.
Proof.
  unfold pack_i, pack_signed, int32_range. change (bits 4 / 2) with (2 ^ 31).
  destruct (_ && _) eqn:E; [|done]. intros [= <-]. split; [done|lia].
Qed.

Lemma unpack_i_le_bytes z : int32_range z = true -> unpack_i (le_bytes 4 z) = Ret z.
Proof. intros H. apply unpack_signed_pack; [lia|]. by apply pack_i_ok. Qed.

Lemma unpack_i_length l z : unpack_i l = Ret z -> length l = 4%nat.
Proof. unfold unpack_i, unpack_signed. by case_bool_decide. Qed.

Lemma unpack_i_range l z : unpack_i l = Ret z -> int32_range z = true.
Proof.
  unfold unpack_i, unpack_signed. case_bool_decide as H; [|done]. intros [= <-].
  unfold le_signed, int32_range. pose proof (le_Z_bound l) as Hb. rewrite H in Hb.
  change (bits 4) with (2 ^ 32) in *. change (2 ^ 32 / 2) with (2 ^ 31).
  destruct (2 ^ 31 <=? le_Z l) eqn:E; lia.
Qed.

Lemma le_bytes_mod n z : le_bytes n (z mod bits n) = le_bytes n z.
Proof.
  rewrite <- (le_bytes_le_Z (le_bytes n z)).
  by rewrite length_le_bytes, le_Z_le_bytes.
Qed.

(** The bytes a C [int] was read from are the bytes it packs to. *)
Lemma le_bytes_unpack_i l z : unpack_i l = Ret z -> le_bytes 4 z = l.
Proof.
  intros H. pose proof (unpack_i_length _ _ H) as Hl.
  revert H. unfold unpack_i, unpack_signed. case_bool_decide; [|done]. intros [= <-].
  rewrite <- (le_bytes_le_Z l) at 2.
  rewrite Hl, <- (le_bytes_mod 4 (le_signed 4 l)), <- (le_bytes_mod 4 (le_Z l)).
  f_equal. unfold le_signed. destruct (_ <=? _); [|done].
  rewrite <- (Z_mod_plus_full (le_Z l) (-1) (bits 4)). f_equal; lia.
Qed.

Lemma str_of_bytes_of_str s : str_of_bytes (bytes_of_str s) = s.
Proof. apply String.string_of_list_byte_of_string. Qed.

Lemma bytes_of_str_of_bytes l : bytes_of_str (str_of_bytes l) = l.
Proof. apply String.list_byte_of_string_of_list_byte. Qed.

Lemma bytes_of_str_app a b :
  bytes_of_str (a ++ b) = (bytes_of_str a ++ bytes_of_str b)%list.
Proof.
  unfold bytes_of_str, String.list_byte_of_string.
  induction a as [|c a IH]; [done|]. cbn. by f_equal.
Qed.

#[export] Hint Rewrite length_le_bytes : py.
#[export] Hint Resolve Z_of_byte_bound pack_i_ok unpack_i_le_bytes : py.
