(* ===== verification/PyIO.v ===== *)
(** * Files, directories and the writer of the [csv] module

    The world a script runs in: a file system (paths to bytes, and the
    directories that exist) and what was printed. Text files hold one byte per
    character; a text handle is the list of lines still to be read. *)

From Stdlib Require Import Ascii.
From S2P Require Import Prelude PyStr PyFloat PyBytes.

Open Scope string_scope.
Open Scope Z_scope.

Definition LF : ascii := ascii_of_nat 10.
Definition CR : ascii := ascii_of_nat 13.
Definition TAB : ascii := ascii_of_nat 9.
Definition DQ : ascii := ascii_of_nat 34.
Definition BS : ascii := ascii_of_nat 92.
Definition newline : string := String LF "".
Definition tab : string := String TAB "".

Record world := World {
  fs : gmap string (list byte);
  dirs : gset string;
  stdout : list string
}.

Definition set_fs (f : gmap string (list byte)) (w : world) : world := World f (dirs w) (stdout w).

(** ** Lines of a text file *)

(** The lines of a text, each with its newline; none is empty. *)
Fixpoint lines_of (s : string) : list string :=
  match s with
  | "" => []
  | String c s' =>
      if Ascii.eqb c LF then newline :: lines_of s'
      else match lines_of s' with
           | [] => [String c ""]
           | l :: ls => String c l :: ls
           end
  end.

(** A text from its lines. *)
Definition unlines (ls : list string) : string := foldr (fun l acc => (l ++ newline) ++ acc) "" ls.

(** Universal newlines of Python 3's text mode. *)
Fixpoint universal_newlines (s : string) : string :=
  match s with
  | "" => ""
  | String c s' =>
      if Ascii.eqb c CR then
        match s' with
        | String d s'' => if Ascii.eqb d LF then String LF (universal_newlines s'')
                          else String LF (universal_newlines s')
        | "" => newline
        end
      else String c (universal_newlines s')
  end.

(** [open(p)] for reading text, by version. *)
Definition text_of (v : pyver) (b : list byte) : string :=
  match v with Py2 => str_of_bytes b | Py3 => universal_newlines (str_of_bytes b) end.

Definition isfile (w : world) (p : string) : bool := bool_decide (is_Some (fs w !! p)).
Definition path_exists (w : world) (p : string) : bool := isfile w p || bool_decide (p ∈ dirs w).

(** A file can be made where its directory exists. *)
Definition can_create (w : world) (p : string) : bool :=
  (negb (nonempty (dirname p)) || bool_decide (dirname p ∈ dirs w)) && negb (bool_decide (p ∈ dirs w)).

Definition os_path_exists (p : string) : py world bool := fun w => (Ret (path_exists w p), w).

Definition read_file (p : string) : py world (list byte) := fun w =>
  match fs w !! p with
  | Some b => (Ret b, w)
  | None => (Raise FileNotFoundError, w)
  end.

Definition open_lines (v : pyver) (p : string) : py world (list string) :=
  b ← read_file p; mret (lines_of (text_of v b)).

(** [open(p, 'w')], [open(p, 'wb')]. *)
Definition create_file (p : string) : py world unit := fun w =>
  if can_create w p then (Ret tt, set_fs (<[p := []]> (fs w)) w)
  else (Raise FileNotFoundError, w).

(** [f.write(b)] of a handle at the end of the file at [p]. *)
Definition append_file (p : string) (b : list byte) : py world unit := fun w =>
  (Ret tt, set_fs (<[p := (default [] (fs w !! p) ++ b)%list]> (fs w)) w).

(** [f.write(b)] of a handle at position [pos]. *)
Definition overwrite (pos : nat) (b content : list byte) : list byte :=
  (take pos content ++ b ++ drop (pos + length b) content)%list.
Definition write_at (p : string) (pos : nat) (b : list byte) : py world unit := fun w =>
  (Ret tt, set_fs (<[p := overwrite pos b (default [] (fs w !! p))]> (fs w)) w).

Definition write_text (p : string) (s : string) : py world unit := append_file p (bytes_of_str s).

Definition os_remove (p : string) : py world unit := fun w =>
  if isfile w p then (Ret tt, set_fs (delete p (fs w)) w) else (Raise FileNotFoundError, w).

(** [os.rename] of a file on POSIX replaces the target. *)
Definition os_rename (a b : string) : py world unit := fun w =>
  match fs w !! a with
  | Some c => if can_create w b then (Ret tt, set_fs (<[b := c]> (delete a (fs w))) w)
              else (Raise FileNotFoundError, w)
  | None => (Raise FileNotFoundError, w)
  end.

Definition os_mkdir (p : string) : py world unit := fun w =>
  if path_exists w p then (Raise FileExistsError, w)
  else if can_create w p then (Ret tt, World (fs w) ({[p]} ∪ dirs w) (stdout w))
  else (Raise FileNotFoundError, w).

Definition under (d p : string) : bool := startswith (d ++ "/") p.

(** [shutil.rmtree(d)]. *)
Definition rmtree (d : string) : py world unit := fun w =>
  if bool_decide (d ∈ dirs w) then
    (Ret tt, World (filter (fun kv => under d kv.1 = false) (fs w))
                   (filter (fun k => under d k = false) (dirs w ∖ {[d]})) (stdout w))
  else if isfile w d then (Raise NotADirectoryError, w)
  else (Raise FileNotFoundError, w).

(** [shutil.rmtree(d, ignore_errors=True)]. *)
Definition rmtree_ignore (d : string) : py world unit :=
  try_except (rmtree d) (fun e => match e with
                                  | NotADirectoryError | FileNotFoundError => Some (mret tt)
                                  | _ => None
                                  end).

(** [shutil.copytree(src, dst)] for a [dst] whose parent exists. *)
Definition copytree (src dst : string) : py world unit := fun w =>
  let move p := dst ++ str_drop (String.length src) p in
  if negb (bool_decide (src ∈ dirs w)) then
    (Raise (if isfile w src then NotADirectoryError else FileNotFoundError), w)
  else if path_exists w dst then (Raise FileExistsError, w)
  else
    let files := (fun kv => (move kv.1, kv.2)) <$> filter (fun kv => under src kv.1 = true) (map_to_list (fs w)) in
    let subs := move <$> filter (fun k => under src k = true) (elements (dirs w)) in
    (Ret tt, World (list_to_map files ∪ fs w) ({[dst]} ∪ list_to_set subs ∪ dirs w) (stdout w)).

(** [shutil.copy(src, dst)]. *)
Definition shutil_copy (src dst : string) : py world unit := fun w =>
  let dst := if bool_decide (dst ∈ dirs w) then path_join dst (basename src) else dst in
  if bool_decide (src ∈ dirs w) then (Raise IsADirectoryError, w)
  else match fs w !! src with
       | None => (Raise FileNotFoundError, w)
       | Some b => if can_create w dst then (Ret tt, set_fs (<[dst := b]> (fs w)) w)
                   else (Raise FileNotFoundError, w)
       end.

(** [os.listdir(d)]: the first components of the paths below [d]; their order
    is not specified. *)
Definition below (d : string) (p : string) : option string :=
  if under d p then head (split_on "/" (str_drop (String.length d + 1) p)) else None.
Definition entries (w : world) (d : string) : gset string :=
  list_to_set (omap (below d) ((map_to_list (fs w)).*1 ++ elements (dirs w))%list).
Definition listdir (d : string) : py world (list string) := fun w =>
  if bool_decide (d ∈ dirs w) then (Ret (elements (entries w d)), w)
  else if isfile w d then (Raise NotADirectoryError, w)
  else (Raise FileNotFoundError, w).

Definition print (s : string) : py world unit := fun w =>
  (Ret tt, World (fs w) (dirs w) (stdout w ++ [s])%list).

(** ** Log handles

    Scripts that read a log keep it with their other variables; [LogState]
    says where. *)
Class LogState (S : Type) := {
  log_f : S -> list string;
  set_log : list string -> S -> S;
  log_set_log : forall l s, log_f (set_log l s) = l;
  set_set_log : forall l l' s, set_log l (set_log l' s) = set_log l s;
  set_log_f : forall s, set_log (log_f s) s = s
}.

Section readline.
Context {S : Type} `{!LogState S}.

(** [log_f.readline()]: the empty string at the end of the file. *)
Definition readline : py S string := fun s =>
  match log_f s with
  | [] => (Ret "", s)
  | l :: ls => (Ret l, set_log ls s)
  end.

Lemma readline_nil s : log_f s = [] -> readline s = (Ret "", s).
Proof. unfold readline. by intros ->. Qed.

Lemma readline_cons s l ls : log_f s = l :: ls -> readline s = (Ret l, set_log ls s).
Proof. unfold readline. by intros ->. Qed.
End readline.

(** ** csv *)

Inductive cell : Set := CStr (s : string) | CInt (z : Z) | CFloat (f : float).

#[global] Instance cell_eq_dec : EqDecision cell.
Proof. solve_decision. Defined.

Definition cell_of_number (n : number) : cell :=
  match n with NInt z => CInt z | NFloat f => CFloat f end.

Definition needs_quotes (s : string) : bool :=
  negb (all_chars (fun c => negb (Ascii.eqb c "," || Ascii.eqb c DQ || Ascii.eqb c LF || Ascii.eqb c CR)) s).

Fixpoint double_quotes (s : string) : string :=
  match s with
  | "" => ""
  | String c s' => if Ascii.eqb c DQ then String DQ (String DQ (double_quotes s'))
                   else String c (double_quotes s')
  end.

Definition quoted (s : string) : string := String DQ (double_quotes s) ++ String DQ "".

Definition csv_field (c : cell) : string :=
  match c with
  | CStr s => if needs_quotes s then quoted s else s
  | CInt z => str_of_Z z
  | CFloat f => float_repr f
  end.

(** One row of [csv.writer(f, delimiter=',')]. *)
Definition csv_body (r : list cell) : string :=
  match r with
  | [CStr ""] => quoted ""
  | _ => join "," (csv_field <$> r)
  end.
Definition csv_row (r : list cell) : string := csv_body r ++ String CR newline.

Definition writerow (p : string) (r : list cell) : py world unit := write_text p (csv_row r).
Definition writerows (p : string) (rs : list (list cell)) : py world unit :=
  for_each rs (writerow p).

(** The text those rows make. *)
Definition csv_text (rs : list (list cell)) : string :=
  foldr (fun r acc => csv_row r ++ acc) "" rs.

(** ** Lemmas *)

Definition no_lf (s : string) : bool := all_chars (fun c => negb (Ascii.eqb c LF)) s.

Lemma lines_of_line s r :
  no_lf s = true -> lines_of ((s ++ newline) ++ r) = (s ++ newline) :: lines_of r.
Proof.
  unfold no_lf. induction s as [|c s IH]; [done|].
  cbn [all_chars]. intros [Hc%negb_true_iff Hs]%andb_prop.
  cbn [String.append lines_of]. rewrite Hc, IH by done. done.
Qed.

(** A text made of lines is read back as those lines. *)
Lemma lines_of_concat (ls : list string) :
  Forall (fun l => no_lf l = true) ls ->
  lines_of (unlines ls) = (fun l => l ++ newline) <$> ls.
Proof.
  induction 1 as [|l ls Hl HF IH]; [done|]. change (unlines (l :: ls)) with ((l ++ newline) ++ unlines ls).
  rewrite lines_of_line by done. by rewrite IH.
Qed.

Lemma lines_of_nonempty s : Forall (fun l => nonempty l = true) (lines_of s).
Proof.
  induction s as [|c s IH]; cbn; [constructor|].
  destruct (Ascii.eqb c LF); [by constructor|].
  destruct (lines_of s) as [|l ls]; [repeat constructor|].
  apply Forall_cons in IH as [_ IH]. by constructor.
Qed.

Lemma universal_newlines_id s :
  all_chars (fun c => negb (Ascii.eqb c CR)) s = true -> universal_newlines s = s.
Proof.
  induction s as [|c s IH]; [done|]. cbn [all_chars universal_newlines].
  intros [Hc%negb_true_iff Hs]%andb_prop. by rewrite Hc, IH.
Qed.

Lemma for_each_app {S A} (l1 l2 : list A) (body : A -> py S unit) s :
  for_each (l1 ++ l2)%list body s = (for_each l1 body;; for_each l2 body) s.
Proof.
  revert s. induction l1 as [|x l1 IH]; intros s; [done|].
  cbn [for_each app]. unfold mbind, py_bind in *.
  by destruct (body x s) as [[[]|e|] s'].
Qed.

Lemma read_create p w :
  can_create w p = true -> (create_file p;; read_file p) w = (Ret [], set_fs (<[p := []]> (fs w)) w).
Proof.
  intros H. unfold create_file, read_file, mbind, py_bind. rewrite H. cbn.
  by rewrite lookup_insert_eq.
Qed.

Lemma append_file_eq p b c w :
  fs w !! p = Some c -> append_file p b w = (Ret tt, set_fs (<[p := (c ++ b)%list]> (fs w)) w).
Proof. intros H. unfold append_file. by rewrite H. Qed.

Lemma isfile_insert w p q b :
  isfile (set_fs (<[p := b]> (fs w)) w) q = bool_decide (p = q) || isfile w q.
Proof.
  unfold isfile; cbn. destruct (decide (p = q)) as [->|Hne].
  - rewrite lookup_insert_eq. rewrite (bool_decide_true (q = q)) by done.
    by rewrite bool_decide_true by eauto.
  - rewrite lookup_insert_ne by done. by rewrite (bool_decide_false (p = q)).
Qed.

Lemma can_create_set_fs f w p : can_create (set_fs f w) p = can_create w p.
Proof. done. Qed.

(** Writing rows appends their text. *)
Lemma writerows_eq p rs c w :
  fs w !! p = Some c ->
  writerows p rs w =
    (Ret tt, set_fs (<[p := (c ++ bytes_of_str (csv_text rs))%list]> (fs w)) w).
Proof.
  revert c w. induction rs as [|r rs IH]; intros c w Hc.
  - cbn. rewrite app_nil_r, insert_id by done. by destruct w.
  - unfold writerows. cbn [for_each csv_text foldr]. unfold writerow at 1, write_text.
    erewrite bind_ret by by apply append_file_eq.
    unfold writerows in IH. erewrite IH by apply lookup_insert_eq.
    unfold set_fs; cbn. by rewrite insert_insert_eq, bytes_of_str_app, app_assoc.
Qed.

(** The world with the file [p] holding [b]. *)
Definition put_file (p : string) (b : list byte) (w : world) : world := set_fs (<[p := b]> (fs w)) w.

Lemma create_file_ok p w : can_create w p = true -> create_file p w = (Ret tt, put_file p [] w).
Proof. unfold create_file. by intros ->. Qed.

Lemma append_put p b c w : append_file p b (put_file p c w) = (Ret tt, put_file p (c ++ b)%list w).
Proof.
  unfold append_file, put_file, set_fs. cbn. by rewrite lookup_insert_eq, insert_insert_eq.
Qed.

Lemma write_at_put p n b c w : write_at p n b (put_file p c w) = (Ret tt, put_file p (overwrite n b c) w).
Proof.
  unfold write_at, put_file, set_fs. cbn. by rewrite lookup_insert_eq, insert_insert_eq.
Qed.

Lemma append_put_under p q b c d w :
  p <> q -> append_file p b (put_file q d (put_file p c w)) = (Ret tt, put_file q d (put_file p (c ++ b)%list w)).
Proof.
  intros H. unfold append_file, put_file, set_fs. cbn. do 2 f_equal.
  rewrite lookup_insert_ne, lookup_insert_eq by done. cbn.
  by rewrite (insert_insert_ne _ p q), insert_insert_eq by done.
Qed.

Lemma read_put p b w : read_file p (put_file p b w) = (Ret b, put_file p b w).
Proof. unfold read_file, put_file; cbn. by rewrite lookup_insert_eq. Qed.

Lemma read_file_ok p b w : fs w !! p = Some b -> read_file p w = (Ret b, w).
Proof. unfold read_file. by intros ->. Qed.

Lemma can_create_put p q b w : can_create (put_file p b w) q = can_create w q.
Proof. done. Qed.

Lemma put_put p b c w : put_file p c (put_file p b w) = put_file p c w.
Proof. unfold put_file, set_fs. cbn. by rewrite insert_insert_eq. Qed.

Lemma fs_put p b w q : fs (put_file p b w) !! q = if decide (p = q) then Some b else fs w !! q.
Proof.
  unfold put_file; cbn. destruct (decide _) as [->|H]; [apply lookup_insert_eq|by apply lookup_insert_ne].
Qed.

Lemma writerows_put p rs c w :
  writerows p rs (put_file p c w) = (Ret tt, put_file p (c ++ bytes_of_str (csv_text rs))%list w).
Proof.
  rewrite (writerows_eq p rs c) by apply lookup_insert_eq. unfold put_file, set_fs. cbn. by rewrite insert_insert_eq.
Qed.

Lemma create_rows p rs w :
  can_create w p = true -> (create_file p;; writerows p rs) w = (Ret tt, put_file p (bytes_of_str (csv_text rs)) w).
Proof. intros H. rewrite (bind_ret _ _ _ _ _ (create_file_ok p w H)). apply writerows_put. Qed.

#[export] Hint Resolve create_file_ok append_put read_file_ok : py.

(** ** What the operations leave alone: the file at [p] *)

Definition file_at (p : string) (w : world) : option (list byte) := fs w !! p.

Section keeps_file.
Context (p : string).

Lemma keeps_read q : keeps (file_at p) (read_file q).
Proof. intros w. unfold read_file. by destruct (fs w !! q). Qed.
Lemma keeps_exists q : keeps (file_at p) (os_path_exists q).
Proof. done. Qed.
Lemma keeps_create q : q <> p -> keeps (file_at p) (create_file q).
Proof.
  intros H w. unfold create_file, file_at. destruct (can_create w q); [|done]. cbn. by apply lookup_insert_ne.
Qed.
Lemma keeps_append q b : q <> p -> keeps (file_at p) (append_file q b).
Proof. intros H w. unfold append_file, file_at. cbn. by apply lookup_insert_ne. Qed.
Lemma keeps_write_at q n b : q <> p -> keeps (file_at p) (write_at q n b).
Proof. intros H w. unfold write_at, file_at. cbn. by apply lookup_insert_ne. Qed.
Lemma keeps_remove q : q <> p -> keeps (file_at p) (os_remove q).
Proof.
  intros H w. unfold os_remove, file_at. destruct (isfile w q); [|done]. cbn. by apply lookup_delete_ne.
Qed.
Lemma keeps_rename a b : a <> p -> b <> p -> keeps (file_at p) (os_rename a b).
Proof.
  intros Ha Hb w. unfold os_rename, file_at. destruct (fs w !! a); [|done]. destruct (can_create w b); [|done].
  cbn. rewrite lookup_insert_ne by done. by apply lookup_delete_ne.
Qed.
Lemma keeps_mkdir q : keeps (file_at p) (os_mkdir q).
Proof. intros w. unfold os_mkdir, file_at. by destruct (path_exists w q), (can_create w q). Qed.
Lemma keeps_run_local {T A} (m : py T A) t : keeps (file_at p) (run_local m t).
Proof. intros w. unfold run_local. by destruct (m t) as [[] ?]. Qed.
Lemma keeps_for_each {A} (l : list A) body : (forall x, keeps (file_at p) (body x)) -> keeps (file_at p) (for_each l body).
Proof. intros H. induction l as [|x l IH]; cbn [for_each]; [done|]. by apply keeps_bind. Qed.
End keeps_file.

#[export] Hint Resolve keeps_read keeps_exists keeps_create keeps_append keeps_write_at keeps_remove keeps_rename
  keeps_mkdir keeps_run_local keeps_for_each : py.

(** ** Directory trees *)

Lemma prefix_spec p s : String.prefix p s = true <-> exists r, s = p ++ r.
Proof.
  revert p. induction s as [|d s IH]; intros [|c p]; cbn [String.prefix].
  - split; [intros _; by exists ""|done].
  - split; [done|by intros [r [=]]].
  - split; [intros _; by exists (String d s)|done].
  - destruct (ascii_dec c d) as [->|Hne].
    + rewrite IH. split; intros [r Hr]; exists r; cbn in *; congruence.
    + split; [done|]. intros [r Hr]. cbn in Hr. congruence.
Qed.

Lemma under_spec d p : under d p = true <-> exists r, p = d ++ "/" ++ r.
Proof.
  unfold under, startswith. rewrite prefix_spec. split; intros [r ->]; exists r; by rewrite str_app_assoc.
Qed.

Lemma under_app d r : under d (d ++ "/" ++ r) = true.
Proof. apply under_spec. by exists r. Qed.

Lemma under_self d : under d d = false.
Proof.
  apply not_true_iff_false. rewrite under_spec. intros [r Hr]. rewrite <- (str_app_nil_r d) in Hr at 1.
  by apply str_app_inj_r in Hr.
Qed.

Lemma str_drop_app a b : str_drop (String.length a) (a ++ b) = b.
Proof. induction a as [|c a IH]; [done|]. cbn. done. Qed.

(** A copied tree: below [dst] is what was below [src]. *)
Lemma copytree_spec src dst w :
  src ∈ dirs w -> path_exists w dst = false -> (forall r, fs w !! (dst ++ "/" ++ r) = None) ->
  exists w', copytree src dst w = (Ret tt, w') /\ dst ∈ dirs w' /\
    (forall r, fs w' !! (dst ++ "/" ++ r) = fs w !! (src ++ "/" ++ r)) /\
    (forall q, under dst q = false -> fs w' !! q = fs w !! q) /\
    (forall q, under dst q = false -> q <> dst -> q ∈ dirs w' <-> q ∈ dirs w) /\
    (forall r, dst ++ "/" ++ r ∈ dirs w' -> src ++ "/" ++ r ∈ dirs w \/ dst ++ "/" ++ r ∈ dirs w \/ dst ++ "/" ++ r = dst).
Proof.
  intros Hsrc Hdst Hfree. unfold copytree. rewrite (bool_decide_true _ Hsrc), Hdst. cbn [negb].
  set (move := fun p => dst ++ str_drop (String.length src) p).
  set (files := (fun kv : string * list byte => (move kv.1, kv.2)) <$> filter (fun kv => under src kv.1 = true) (map_to_list (fs w))).
  assert (forall r, move (src ++ "/" ++ r) = dst ++ "/" ++ r) as Hmove by (intros r; unfold move; by rewrite str_drop_app).
  assert (forall k b, (k, b) ∈ files <-> exists r, k = dst ++ "/" ++ r /\ fs w !! (src ++ "/" ++ r) = Some b) as Hin.
  { intros k b. unfold files. rewrite list_elem_of_fmap. split.
    - intros ([p c] & Hp & [Hu Hc%elem_of_map_to_list]%list_elem_of_filter). cbn [fst snd] in *. apply under_spec in Hu as [r ->].
      exists r. rewrite Hmove in Hp. split; congruence.
    - intros (r & -> & Hb). exists (src ++ "/" ++ r, b). cbn [fst snd]. rewrite Hmove. split; [done|].
      apply list_elem_of_filter. split; [apply under_app|by apply elem_of_map_to_list]. }
  assert (NoDup files.*1) as Hnd.
  { unfold files. rewrite <- list_fmap_compose. apply NoDup_fmap_2_strong.
    - intros [p b] [q c] [Hp Hpb%elem_of_map_to_list]%list_elem_of_filter [Hq Hqc%elem_of_map_to_list]%list_elem_of_filter. cbn [fst snd] in *.
      apply under_spec in Hp as [r ->]. apply under_spec in Hq as [r' ->]. cbn [compose fst]. rewrite !Hmove.
      intros E%str_app_inj_r%(str_app_inj_r "/"). subst r'. congruence.
    - apply NoDup_filter, NoDup_map_to_list. }
  eexists. split; [reflexivity|]. cbn [fs dirs]. split; [set_solver|]. split; [|split; [|split]].
  - intros r. destruct (fs w !! (src ++ "/" ++ r)) as [b|] eqn:E.
    + apply lookup_union_Some_l. apply elem_of_list_to_map; [done|]. apply Hin. eauto.
    + apply lookup_union_None. split; [|apply Hfree]. apply not_elem_of_list_to_map_1. intros Hk.
      apply list_elem_of_fmap in Hk as ([k b] & Hk & Hkb). cbn [fst] in Hk. subst k. apply Hin in Hkb as (r' & Hr & Hb).
      apply str_app_inj_r, (str_app_inj_r "/") in Hr. congruence.
  - intros q Hq. apply lookup_union_r. apply not_elem_of_list_to_map_1. intros Hk.
    apply list_elem_of_fmap in Hk as ([k b] & Hk & Hkb). cbn [fst] in Hk. subst k. apply Hin in Hkb as (r' & -> & _).
    by rewrite under_app in Hq.
  - intros q Hq Hne. rewrite !elem_of_union, elem_of_singleton, elem_of_list_to_set, list_elem_of_fmap. split; [|by right].
    intros [[?|(k & -> & [Hu _]%list_elem_of_filter)]|?]; [done| |done]. apply under_spec in Hu as [r ->].
    rewrite Hmove, under_app in Hq. done.
  - intros r. rewrite !elem_of_union, elem_of_singleton, elem_of_list_to_set, list_elem_of_fmap.
    intros [[?|(k & Hk & [Hu Hin']%list_elem_of_filter)]|?]; [by do 2 right|left|by right; left].
    apply under_spec in Hu as [r' ->]. rewrite Hmove in Hk. apply str_app_inj_r, (str_app_inj_r "/") in Hk. subst r'.
    by apply elem_of_elements.
Qed.

Lemma rmtree_spec d w :
  d ∈ dirs w -> exists w', rmtree d w = (Ret tt, w') /\ (d ∉ dirs w') /\
    (forall r, fs w' !! (d ++ "/" ++ r) = None) /\
    (forall q, under d q = false -> fs w' !! q = fs w !! q) /\
    (forall q, under d q = false -> q <> d -> q ∈ dirs w' <-> q ∈ dirs w) /\
    (forall r, d ++ "/" ++ r ∉ dirs w').
Proof.
  intros Hd. unfold rmtree. rewrite bool_decide_true by done. eexists. split; [reflexivity|]. cbn [fs dirs]. split_and!.
  - set_solver.
  - intros r. apply map_lookup_filter_None. right. intros b _. cbn [fst]. by rewrite under_app.
  - intros q Hq. rewrite map_lookup_filter. destruct (fs w !! q); [|done]. cbn. by rewrite option_guard_True.
  - intros q Hq Hne. set_solver.
  - intros r [Hu _]%elem_of_filter. by rewrite under_app in Hu.
Qed.

Lemma path_exists_absent w p : fs w !! p = None -> p ∉ dirs w -> path_exists w p = false.
Proof.
  intros Hf Hd. unfold path_exists, isfile. rewrite Hf. rewrite (bool_decide_false (p ∈ _)) by done.
  by rewrite bool_decide_false by by intros [? ?].
Qed.

Lemma path_exists_dir w p : p ∈ dirs w -> path_exists w p = true.
Proof. intros Hd. unfold path_exists. by rewrite (bool_decide_true (p ∈ _)), orb_true_r. Qed.

Lemma elem_of_entries w d n :
  n ∈ entries w d <-> exists r, (is_Some (fs w !! (d ++ "/" ++ r)) \/ d ++ "/" ++ r ∈ dirs w) /\ head (split_on "/" r) = Some n.
Proof.
  assert (forall r, str_drop (String.length d + 1) (d ++ "/" ++ r) = r) as Hdrop.
  { intros r. replace (String.length d + 1)%nat with (String.length (d ++ "/")) by (clear; induction d; cbn in *; congruence).
    by rewrite <- str_app_assoc, str_drop_app. }
  unfold entries. rewrite elem_of_list_to_set, list_elem_of_omap. split.
  - intros (p & Hp & Hn). unfold below in Hn. destruct (under d p) eqn:Hu; [|done]. apply under_spec in Hu as [r ->].
    exists r. rewrite Hdrop in Hn. split; [|done]. apply elem_of_app in Hp as [Hp|Hp%elem_of_elements]; [left|by right].
    apply list_elem_of_fmap in Hp as ([k b] & -> & Hk%elem_of_map_to_list). eauto.
  - intros (r & Hr & Hn). exists (d ++ "/" ++ r). unfold below. rewrite under_app, Hdrop. split; [|done].
    apply elem_of_app. destruct Hr as [[b Hb]|Hr]; [left|by right; apply elem_of_elements].
    apply list_elem_of_fmap. exists (d ++ "/" ++ r, b). split; [done|]. by apply elem_of_map_to_list.
Qed.

Lemma listdir_absent w d : path_exists w d = false -> listdir d w = (Raise FileNotFoundError, w).
Proof. unfold path_exists, listdir. by intros [-> ->]%orb_false_iff. Qed.
