(* ===== verification/PyCsv.v ===== *)
(** * Reading csv files back

    The reader of the [csv] module as the state machine it is, on the text that
    the two interpreters hand it: Python 3 translates newlines, Python 2 leaves
    the carriage returns of the writer in the lines. What the writer of PyIO.v
    wrote is read back as the texts of its cells. *)

From Stdlib Require Import Ascii.
From S2P Require Import Prelude PyStr PyFloat PyBytes PyIO.

Open Scope string_scope.
Open Scope Z_scope.

(** ** The reader *)

(** What is left to read: rows come one by one, and a row may raise. *)
Inductive csv_rows : Set :=
  | NoRow
  | RowError (e : exn)
  | Row (r : list string) (rest : csv_rows).

Inductive csv_state : Set := StartRecord | StartField | InField | InQuoted | QuoteInQuoted | EatCRNL.

(** [field] (reversed) and [row] are what the current record has so far. A line
    feed ends the line the machine was given and with it the record, unless a
    quoted field is open; after a carriage return nothing else may follow. *)
Fixpoint csv_go (st : csv_state) (field : string) (row : list string) (s : string) : csv_rows :=
  let save := (row ++ [str_rev field])%list in
  let start c s' :=
    if Ascii.eqb c LF then Row save (csv_go StartRecord "" [] s')
    else if Ascii.eqb c CR then csv_go EatCRNL "" save s'
    else if Ascii.eqb c DQ then csv_go InQuoted field row s'
    else if Ascii.eqb c "," then csv_go StartField "" save s'
    else csv_go InField (String c field) row s' in
  match s with
  | "" => match st with
          | StartRecord => NoRow
          | EatCRNL => Row row NoRow
          | _ => Row save NoRow
          end
  | String c s' =>
      match st with
      | StartRecord =>
          if Ascii.eqb c LF then Row [] (csv_go StartRecord "" [] s')
          else if Ascii.eqb c CR then csv_go EatCRNL "" [] s'
          else start c s'
      | StartField => start c s'
      | InField =>
          if Ascii.eqb c LF then Row save (csv_go StartRecord "" [] s')
          else if Ascii.eqb c CR then csv_go EatCRNL "" save s'
          else if Ascii.eqb c "," then csv_go StartField "" save s'
          else csv_go InField (String c field) row s'
      | InQuoted =>
          if Ascii.eqb c DQ then csv_go QuoteInQuoted field row s'
          else csv_go InQuoted (String c field) row s'
      | QuoteInQuoted =>
          if Ascii.eqb c DQ then csv_go InQuoted (String c field) row s'
          else if Ascii.eqb c "," then csv_go StartField "" save s'
          else if Ascii.eqb c LF then Row save (csv_go StartRecord "" [] s')
          else if Ascii.eqb c CR then csv_go EatCRNL "" save s'
          else csv_go InField (String c field) row s'
      | EatCRNL =>
          if Ascii.eqb c LF then Row row (csv_go StartRecord "" [] s')
          else if Ascii.eqb c CR then csv_go EatCRNL "" row s'
          else RowError CsvError
      end
  end.

(** [csv.reader(open(p))]. *)
Definition csv_reader (s : string) : csv_rows := csv_go StartRecord "" [] s.

(** The rows of a file without errors. *)
Fixpoint csv_of_rows (l : list (list string)) : csv_rows :=
  match l with [] => NoRow | r :: l' => Row r (csv_of_rows l') end.

(** ** The texts of cells *)

(** [str] of a cell, as the reader gives it back. *)
Definition cell_text (c : cell) : string :=
  match c with CStr s => s | CInt z => str_of_Z z | CFloat f => float_repr f end.

Definition read_back (r : list cell) : list string := cell_text <$> r.

Definition num_char (c : ascii) : bool :=
  is_digit c || bool_decide (c ∈ [".";"-";"+";"e";"i";"n";"f";"a"]%char).

Definition quote_free (c : ascii) : bool :=
  negb (Ascii.eqb c "," || Ascii.eqb c DQ || Ascii.eqb c LF || Ascii.eqb c CR).

Lemma quote_free_inv c :
  quote_free c = true ->
  Ascii.eqb c "," = false /\ Ascii.eqb c DQ = false /\ Ascii.eqb c LF = false /\ Ascii.eqb c CR = false.
Proof. unfold quote_free. by destruct (Ascii.eqb c ","), (Ascii.eqb c DQ), (Ascii.eqb c LF), (Ascii.eqb c CR). Qed.

Lemma num_char_quote_free c : num_char c = true -> quote_free c = true.
Proof. destruct c as [[] [] [] [] [] [] [] []]; vm_compute; congruence. Qed.

Lemma digit_num_char c : is_digit c = true -> num_char c = true.
Proof. unfold num_char. by intros ->. Qed.

Lemma str_of_Z_num z : all_chars num_char (str_of_Z z) = true.
Proof. apply str_of_Z_chars; [done|]. apply digit_num_char. Qed.

Lemma rep_char_num n c : num_char c = true -> all_chars num_char (rep_char n c) = true.
Proof. intros H. induction n as [|n IH]; [done|]. cbn. by rewrite H, IH. Qed.

Lemma all_chars_take p n s : all_chars p s = true -> all_chars p (str_take n s) = true.
Proof.
  revert s. induction n as [|n IH]; intros [|c s]; [done..|]. cbn. intros [-> H]%andb_prop. by rewrite IH.
Qed.

Lemma all_chars_drop p n s : all_chars p s = true -> all_chars p (str_drop n s) = true.
Proof.
  revert s. induction n as [|n IH]; intros [|c s]; [done..|]. cbn. intros [_ H]%andb_prop. by apply IH.
Qed.

Lemma all_chars_rstrip p q s : all_chars p s = true -> all_chars p (rstrip_if q s) = true.
Proof.
  induction s as [|c s IH]; [done|]. cbn. intros [Hc H]%andb_prop. destruct (q c && _); [done|]. cbn. by rewrite Hc, IH.
Qed.

Lemma layout_num ds k : all_chars num_char ds = true -> all_chars num_char (layout ds k) = true.
Proof.
  intros H. unfold layout. assert (all_chars num_char (rstrip_char "0" ds) = true) as Hs by by apply all_chars_rstrip.
  repeat case_match; rewrite ?all_chars_app, ?rep_char_num, ?str_of_Z_num, ?all_chars_take, ?all_chars_drop, ?Hs by done; done.
Qed.

Lemma float_repr_num f : all_chars num_char (float_repr f) = true.
Proof.
  destruct f as [[]|[]| |s m e]; try done. unfold float_repr.
  destruct (shortest _ _ _ _ _ _) as [c p]. rewrite all_chars_app, layout_num by apply str_of_Z_num. by destruct s.
Qed.

(** ** One field

    Stated with the rest of the input, so that fields compose to rows. *)

Definition delim (d : ascii) : bool := Ascii.eqb d "," || Ascii.eqb d LF || Ascii.eqb d CR.

(** The machine after the delimiter [d] that ends the last field of [row]. *)
Definition after (d : ascii) (row : list string) (t : string) : csv_rows :=
  if Ascii.eqb d LF then Row row (csv_go StartRecord "" [] t)
  else if Ascii.eqb d CR then csv_go EatCRNL "" row t
  else csv_go StartField "" row t.

Definition field_end (st : csv_state) : bool :=
  match st with StartField | InField | QuoteInQuoted => true | _ => false end.

Lemma csv_go_delim st f row d t :
  field_end st = true -> delim d = true -> csv_go st f row (String d t) = after d (row ++ [str_rev f]) t.
Proof.
  unfold delim, after. intros Hst Hd.
  destruct (Ascii.eqb_spec d ","), (Ascii.eqb_spec d LF), (Ascii.eqb_spec d CR); subst; try done; by destruct st.
Qed.

Lemma csv_go_plain f row s t :
  all_chars quote_free s = true -> csv_go InField f row (s ++ t) = csv_go InField (str_rev_app s f) row t.
Proof.
  revert f. induction s as [|c s IH]; intros f; [done|]. cbn [all_chars].
  intros [(Hc & _ & HL & HR)%quote_free_inv Hs]%andb_prop.
  cbn [String.append csv_go]. rewrite HL, HR, Hc. by apply IH.
Qed.

Lemma csv_go_quoted f row s t :
  csv_go InQuoted f row (double_quotes s ++ String DQ t) = csv_go QuoteInQuoted (str_rev_app s f) row t.
Proof.
  revert f. induction s as [|c s IH]; intros f; [done|]. cbn [double_quotes].
  destruct (Ascii.eqb c DQ) eqn:E.
  - apply Ascii.eqb_eq in E as ->. exact (IH _).
  - cbn [String.append csv_go]. rewrite E. apply IH.
Qed.

Lemma str_rev_app_rev s a b : str_rev_app (str_rev_app s a) b = str_rev_app a (s ++ b).
Proof. revert a. induction s as [|c s IH]; intros a; [done|]. cbn [str_rev_app]. by rewrite IH. Qed.

Lemma str_rev_rev s : str_rev (str_rev_app s "") = s.
Proof. unfold str_rev. rewrite str_rev_app_rev. apply str_app_nil_r. Qed.

Lemma csv_go_word row s d t :
  all_chars quote_free s = true -> delim d = true -> csv_go StartField "" row (s ++ String d t) = after d (row ++ [s]) t.
Proof.
  intros Hs Hd. destruct s as [|c s]; [by apply csv_go_delim|].
  cbn [all_chars] in Hs. apply andb_prop in Hs as [(Hc & Hq & HL & HR)%quote_free_inv Hs].
  cbn [String.append csv_go]. rewrite HL, HR, Hq, Hc, csv_go_plain, csv_go_delim by done.
  by change (str_rev_app s (String c "")) with (str_rev_app (String c s) ""); rewrite str_rev_rev.
Qed.

Lemma cell_text_plain c : (forall s, c <> CStr s) -> all_chars quote_free (cell_text c) = true.
Proof.
  intros H. apply (all_chars_impl num_char); [apply num_char_quote_free|].
  destruct c; [by edestruct H|apply str_of_Z_num|apply float_repr_num].
Qed.

(** A field is its text, in quotes when the text needs them. *)
Lemma csv_field_cases c :
  all_chars quote_free (cell_text c) = true /\ csv_field c = cell_text c \/ csv_field c = quoted (cell_text c).
Proof.
  destruct c as [s|z|f]; [|left; split; [by apply cell_text_plain|done]..].
  cbn. unfold needs_quotes, quote_free. destruct (all_chars _ s); cbn; eauto.
Qed.

Lemma csv_go_field row c d t :
  delim d = true -> csv_go StartField "" row (csv_field c ++ String d t) = after d (row ++ [cell_text c]) t.
Proof.
  intros Hd. destruct (csv_field_cases c) as [[Hp ->]| ->]; [by apply csv_go_word|].
  unfold quoted. rewrite str_app_assoc. cbn [String.append].
  change (csv_go InQuoted "" row (double_quotes (cell_text c) ++ String DQ (String d t)) = after d (row ++ [cell_text c]) t).
  rewrite csv_go_quoted, csv_go_delim by done. by rewrite str_rev_rev.
Qed.

(** ** Rows *)

Lemma csv_go_fields row c r d t :
  delim d = true -> csv_go StartField "" row (join "," (csv_field <$> c :: r) ++ String d t) = after d (row ++ read_back (c :: r)) t.
Proof.
  intros Hd. revert row c. induction r as [|c' r IH]; intros row c; [by apply csv_go_field|].
  change (join "," (csv_field <$> c :: c' :: r)) with (csv_field c ++ String "," (join "," (csv_field <$> c' :: r))).
  rewrite str_app_assoc. change ((String "," ?x) ++ ?y) with (String "," (x ++ y)).
  rewrite csv_go_field by done. change (after "," ?a ?b) with (csv_go StartField "" a b).
  rewrite IH. by rewrite <- app_assoc.
Qed.

Definition begins (s : string) : bool := match s with "" => false | String c _ => negb (Ascii.eqb c LF || Ascii.eqb c CR) end.

Lemma csv_go_begins s : begins s = true -> csv_go StartRecord "" [] s = csv_go StartField "" [] s.
Proof. destruct s as [|c s]; [done|]. cbn. by intros [-> ->]%negb_true_iff%orb_false_iff. Qed.

Lemma begins_app a b : begins a = true -> begins (a ++ b) = true.
Proof. by destruct a. Qed.

Lemma nonempty_app a b : nonempty (a ++ b) = nonempty a || nonempty b.
Proof. by destruct a. Qed.

Lemma float_repr_nonempty f : nonempty (float_repr f) = true.
Proof.
  destruct f as [[]|[]| |s m e]; try done. unfold float_repr.
  destruct (shortest _ _ _ _ _ _) as [c p]. rewrite nonempty_app. apply orb_true_iff. right. unfold layout.
  repeat case_match; rewrite !nonempty_app, ?orb_true_r; done.
Qed.

Lemma str_of_Z_nonempty z : nonempty (str_of_Z z) = true.
Proof. pose proof (str_of_Z_word z) as H. by apply andb_prop in H as [H _]. Qed.

Lemma csv_field_begins c : c <> CStr "" -> begins (csv_field c) = true.
Proof.
  intros Hc. assert (nonempty (cell_text c) = true) as Hn.
  { destruct c as [[]|z|f]; [done..|apply str_of_Z_nonempty|apply float_repr_nonempty]. }
  destruct (csv_field_cases c) as [[Hp ->]| ->]; [|done]. destruct (cell_text c) as [|a s]; [done|].
  apply andb_prop in Hp as [(_ & _ & HL & HR)%quote_free_inv _]. cbn. by rewrite HL, HR.
Qed.

Lemma csv_body_begins c r : begins (csv_body (c :: r)) = true.
Proof.
  unfold csv_body. destruct (decide (c = CStr "")) as [-> |Hc].
  - by destruct r.
  - assert (begins (join "," (csv_field <$> c :: r)) = true) as H.
    { destruct r; [by apply csv_field_begins|]. apply begins_app. by apply csv_field_begins. }
    by destruct c as [[]| |].
Qed.

Lemma csv_go_body row c r d t :
  delim d = true -> csv_go StartField "" row (csv_body (c :: r) ++ String d t) = after d (row ++ read_back (c :: r)) t.
Proof.
  intros Hd. destruct (decide (c :: r = [CStr ""])) as [->|Hne].
  - change (csv_go QuoteInQuoted "" row (String d t) = after d (row ++ [""]) t). by apply csv_go_delim.
  - replace (csv_body (c :: r)) with (join "," (csv_field <$> c :: r)); [by apply csv_go_fields|].
    by destruct c as [[]| |], r.
Qed.

(** ** Files *)

(** The end of a row as the reader sees it. *)
Definition row_end (v : pyver) : string := match v with Py2 => String CR newline | Py3 => newline end.

Definition seen (v : pyver) (rows : list (list cell)) : string :=
  foldr (fun r acc => csv_body r ++ row_end v ++ acc) "" rows.

Lemma csv_go_row v r t :
  csv_go StartRecord "" [] (csv_body r ++ row_end v ++ t) = Row (read_back r) (csv_go StartRecord "" [] t).
Proof.
  destruct r as [|c r]; [by destruct v|]. rewrite csv_go_begins by apply begins_app, csv_body_begins.
  by destruct v; apply csv_go_body.
Qed.

Lemma csv_reader_seen v rows : csv_reader (seen v rows) = csv_of_rows (read_back <$> rows).
Proof.
  unfold csv_reader. induction rows as [|r rows IH]; [done|]. cbn [seen foldr]. rewrite csv_go_row. cbn. by rewrite <- IH.
Qed.

Definition no_cr (s : string) : bool := all_chars (fun c => negb (Ascii.eqb c CR)) s.

(** Cells without a carriage return; numbers have none. *)
Definition cell_ok (c : cell) : bool := match c with CStr s => no_cr s | _ => true end.

Lemma cell_text_no_cr c : cell_ok c = true -> no_cr (cell_text c) = true.
Proof.
  intros Hc. destruct c as [s|z|f]; [done|apply (all_chars_impl quote_free); [|by apply cell_text_plain]..];
    by intros a (_ & _ & _ & ->)%quote_free_inv.
Qed.

Lemma double_quotes_no_cr s : no_cr s = true -> no_cr (double_quotes s) = true.
Proof.
  induction s as [|c s IH]; [done|]. cbn. intros [Hc Hs]%andb_prop. specialize (IH Hs).
  unfold no_cr in IH. destruct (Ascii.eqb c DQ) eqn:E; cbn; by rewrite IH, ?Hc.
Qed.

Lemma csv_body_no_cr r : forallb cell_ok r = true -> no_cr (csv_body r) = true.
Proof.
  intros H. assert (no_cr (join "," (csv_field <$> r)) = true) as Hj.
  { apply all_chars_join; [done|]. apply Forall_fmap, Forall_forall. intros c Hc.
    assert (cell_ok c = true) as Hok%cell_text_no_cr.
    { rewrite forallb_forall in H. apply H. by apply list_elem_of_In. }
    cbn. destruct (csv_field_cases c) as [[_ ->]| ->]; [done|]. unfold quoted.
    rewrite all_chars_app. cbn. by rewrite (double_quotes_no_cr _ Hok : all_chars _ _ = true). }
  unfold csv_body. by repeat case_match.
Qed.

Lemma universal_newlines_crlf a b :
  no_cr a = true -> universal_newlines (a ++ String CR (String LF b)) = a ++ String LF (universal_newlines b).
Proof.
  induction a as [|c a IH]; [done|]. cbn [no_cr all_chars]. intros [Hc%negb_true_iff Ha]%andb_prop.
  cbn [String.append universal_newlines]. by rewrite Hc, IH.
Qed.

Lemma text_of_csv v rows :
  Forall (fun r => forallb cell_ok r = true) rows -> text_of v (bytes_of_str (csv_text rows)) = seen v rows.
Proof.
  intros HF. unfold text_of. rewrite str_of_bytes_of_str. destruct v; unfold csv_text, csv_row, seen, row_end.
  - induction rows as [|r rows IH]; [done|]. apply Forall_cons in HF as [_ HF]. cbn [foldr]. by rewrite IH, str_app_assoc.
  - induction rows as [|r rows IH]; [done|]. apply Forall_cons in HF as [Hr HF]. cbn [foldr].
    rewrite str_app_assoc. change ((String CR newline) ++ ?x) with (String CR (String LF x)).
    rewrite universal_newlines_crlf by by apply csv_body_no_cr. by rewrite IH.
Qed.

(** What the writer wrote is read back as the texts of the cells, by both
    interpreters. *)
Lemma csv_roundtrip v rows :
  Forall (fun r => forallb cell_ok r = true) rows ->
  csv_reader (text_of v (bytes_of_str (csv_text rows))) = csv_of_rows (read_back <$> rows).
Proof. intros HF. rewrite text_of_csv by done. apply csv_reader_seen. Qed.

(** Writing a text that was read back writes the same field. *)
Lemma csv_field_text c : csv_field (CStr (cell_text c)) = csv_field c.
Proof.
  pose proof (cell_text_plain c) as Hp. cbn. change (needs_quotes ?s) with (negb (all_chars quote_free s)).
  destruct c; [done|by rewrite Hp..].
Qed.

(** Rows of the same fields, of two cells or more, are written alike. *)
Lemma csv_row_ext r r' :
  (1 < length r)%nat -> csv_field <$> r = csv_field <$> r' -> csv_row r = csv_row r'.
Proof.
  intros Hl E. unfold csv_row. f_equal.
  assert (forall l : list cell, (1 < length l)%nat -> csv_body l = join "," (csv_field <$> l)) as Hb.
  { intros [|[[]| |] [|]] H; cbn in H; lia || done. }
  assert (length r' = length r) as Hr by by rewrite <- (length_fmap csv_field r'), <- E, length_fmap.
  rewrite !Hb by lia. by rewrite E.
Qed.

Lemma csv_text_ext rs rs' : Forall2 (fun r r' => csv_row r = csv_row r') rs rs' -> csv_text rs = csv_text rs'.
Proof. induction 1 as [|r r' rs rs' Hr HF IH]; [done|]. unfold csv_text in *. cbn. by rewrite Hr, IH. Qed.

Lemma read_back_fields r : csv_field <$> (CStr <$> read_back r) = csv_field <$> r.
Proof.
  unfold read_back. rewrite <- !list_fmap_compose. apply list_fmap_ext. intros i c _. apply csv_field_text.
Qed.
