(* ===== verification/LogWords.v ===== *)
(** * Words of a log line

    The tests and conversions that the log scripts apply to
    [result_group = line.split()], shared by all of them. *)

From Stdlib Require Import Ascii.
From S2P Require Import Prelude PyStr PyFloat PyBytes PyIO.

Open Scope string_scope.
Open Scope Z_scope.

(** [len(g) > n]. *)
Definition longer (g : list string) (n : nat) : bool := Nat.ltb n (length g).

(** [g[k] == s], evaluated where a length test guards the index. *)
Definition word_is (g : list string) (k : nat) (s : string) : bool := bool_decide (g !! k = Some s).

(** [g[k] == s] where nothing guards the index. *)
Definition word_eq (g : list string) (k : Z) (s : string) : outcome bool :=
  w ← py_index g k; Ret (bool_decide (w = s)).

Definition is_total_latency (g : list string) : bool :=
  longer g 1 && word_is g 0 "Total" && word_is g 1 "Latency".
Definition is_qps (g : list string) : bool := longer g 7 && word_is g 7 "AvgQPS:".
Definition is_rss (g : list string) : bool := longer g 4 && word_is g 4 "RSS".
Definition is_sampling (g : list string) : bool := longer g 1 && word_is g 1 "Samppling".
Definition is_insert_latency (g : list string) : bool :=
  longer g 2 && word_is g 1 "Insert" && word_is g 2 "Latency".

(** [float(g[k])], [int(g[k])]. *)
Definition float_at (g : list string) (k : Z) : outcome float := py_index g k ≫= float_of_str.
Definition int_at (g : list string) (k : Z) : outcome Z := py_index g k ≫= int_of_str.

(** [float(g[k].rstrip(c))]. *)
Definition float_rstrip_at (c : ascii) (g : list string) (k : Z) : outcome float :=
  w ← py_index g k; float_of_str (rstrip_char c w).

#[global] Arguments float_at : simpl never.
#[global] Arguments int_at : simpl never.
#[global] Arguments float_rstrip_at : simpl never.

(** A column: two title cells and the values. *)
Definition column (a b : string) (l : list cell) : list cell := CStr a :: CStr b :: l.

(** [for i in range(n, m): l.append('')]. *)
Definition pad (n m : nat) (l : list cell) : list cell := (l ++ replicate (m - n) (CStr ""))%list.

Lemma open_lines_ok v w p b :
  fs w !! p = Some b -> open_lines v p w = (Ret (lines_of (text_of v b)), w).
Proof. intros H. unfold open_lines, read_file, mbind, py_bind. by rewrite H. Qed.

(** ** Sample points of a batch *)

(** The point kept at position [i * (n / p)] of a batch of [n]. *)
Definition sample_at {A} (d : A) (p : Z) (l : list A) (i : Z) : A :=
  nth (Z.to_nat (i * (Z.of_nat (length l) / p))) l d.
Definition samples {A} (d : A) (p : Z) (l : list A) : list A := sample_at d p l <$> py_range 0 p.

Lemma sample_index_bound n p i :
  0 < n -> 0 <= i < p -> 0 <= i * (n / p) < n.
Proof.
  intros Hn Hi. assert (0 <= n / p) by (apply Z.div_pos; lia).
  pose proof (Z.mul_div_le n p ltac:(lia)).
  split; [nia|]. destruct (Z.eq_dec (n / p) 0) as [->|]; nia.
Qed.

Lemma index_sample {A} (d : A) p l i :
  l <> [] -> 0 <= i < p ->
  index_number l (number_add 0 (number_mul i (NInt (Z.of_nat (length l) / p)))) = Ret (sample_at d p l i).
Proof.
  intros Hl Hi. assert (0 < Z.of_nat (length l)) by (destruct l; cbn; [done|lia]).
  pose proof (sample_index_bound (Z.of_nat (length l)) p i ltac:(lia) Hi).
  cbn [number_mul number_add index_number]. rewrite Z.add_0_l.
  destruct (py_index_total l (i * (Z.of_nat (length l) / p))) as (x & -> & Hx); [lia|].
  unfold sample_at. f_equal. symmetry. apply nth_lookup_Some with (d := d) in Hx. done.
Qed.
