(* ===== verification/LatencyLogs.v ===== *)
(** * Search-latency logs (Figures 1, 9 and 10)

    The scripts [process_motivation.py], [process_shifting.py] and
    [process_para_range.py] read benchmark logs line by line, collect the
    average latency of every "Total Latency" block and every recall, and write
    them as columns of a csv file. Line counters that are never printed are
    left out. *)

From Stdlib Require Import Ascii.
From S2P Require Import Prelude PyStr PyFloat PyBytes PyIO LogWords.

Open Scope string_scope.
Open Scope Z_scope.

(** ** The lines the scripts look for *)

Definition is_total_vector (g : list string) : bool :=
  longer g 2 && word_is g 1 "Total" && word_is g 2 "Vector".
Definition is_recall (g : list string) : bool :=
  longer g 2 && word_is g 1 "Recall10@10:".
Definition is_updating (g : list string) : bool :=
  longer g 3 && word_is g 1 "Updating" && word_is g 2 "numThread:".

(** ** The variables of the three scripts *)

Record lat := Lat {
  lat_log : list string;
  templist_latency : list cell;
  templist_accuracy : list cell;
  last_data_group : list string
}.

Definition set_lat_log (l : list string) (s : lat) : lat :=
  Lat l (templist_latency s) (templist_accuracy s) (last_data_group s).

#[global] Instance lat_LogState : LogState lat.
Proof. by refine {| log_f := lat_log; set_log := set_lat_log |}; intros; try destruct s. Defined.

Definition add_latency (x : float) (s : lat) : lat :=
  Lat (lat_log s) (templist_latency s ++ [CFloat x])%list (templist_accuracy s) (last_data_group s).
Definition add_accuracy (x : float) (s : lat) : lat :=
  Lat (lat_log s) (templist_latency s) (templist_accuracy s ++ [CFloat x])%list (last_data_group s).
Definition set_last (g : list string) (s : lat) : lat :=
  Lat (lat_log s) (templist_latency s) (templist_accuracy s) g.

(** The first loop of an update log: up to the "Total Vector" line. It does
    not test for the end of the file. *)
Definition skip_to_total_vector (fuel : nat) : py lat unit :=
  while_true fuel (
    line ← readline;
    let result_group := split_ws line in
    if is_total_vector result_group then mret (Some tt) else mret None).

(** The body shared by the two collecting loops after their break tests: a
    latency block takes the second line after its header, then the recall test
    looks at the words last read. [track] is whether the script keeps
    [last_data_group]. *)
Definition collect_line (track : bool) (result_group : list string) : py lat unit :=
  result_group ←
    (if is_total_latency result_group then
       readline;;
       line ← readline;
       let result_group := split_ws line in
       x ← lift (float_at result_group 1);
       modify (add_latency x);;
       when track (modify (set_last result_group));;
       mret result_group
     else mret result_group);
  when (is_recall result_group)
       (x ← lift (float_at result_group 2); modify (add_accuracy x)).

(** The second loop of an update log. *)
Definition collect_update (track : bool) (fuel : nat) : py lat unit :=
  while_true fuel (
    line ← readline;
    if bool_decide (line = "") then mret (Some tt)
    else collect_line track (split_ws line);; mret None).

(** The loop of a static log: it also stops at "Updating numThread:". *)
Definition collect_static (track : bool) (fuel : nat) : py lat unit :=
  while_true fuel (
    line ← readline;
    if bool_decide (line = "") then mret (Some tt)
    else
      let result_group := split_ws line in
      if is_updating result_group then mret (Some tt)
      else collect_line track result_group;; mret None).

(** ** process_para_range.py *)
Module ParaRange.

Definition topkList : list Z := [0; 8; 64; 128].

(** One round of the outer loop: the two columns of a log. *)
Definition read_log (fuel : nat) (lines : list string) : outcome (list cell * list cell) :=
  match (skip_to_total_vector fuel;; collect_update false fuel) (Lat lines [CStr ""] [CStr ""] []) with
  | (Ret _, s) => Ret (templist_latency s, templist_accuracy s)
  | (Raise e, _) => Raise e
  | (OutOfFuel, _) => OutOfFuel
  end.

Fixpoint read_all (v : pyver) (fuel : nat) (prefix : string) (l : list Z)
    : py world (list (list cell) * list (list cell)) :=
  match l with
  | [] => mret ([], [])
  | i :: l' =>
      lines ← open_lines v (prefix ++ str_of_Z i);
      c ← lift (read_log fuel lines);
      r ← read_all v fuel prefix l';
      mret (c.1 :: r.1, c.2 :: r.2)
  end.

Definition col (cols : list (list cell)) (i : Z) : py world (list cell) := lift (py_index cols i).

(** The whole script, with [argv1] its first argument. *)
Definition process_para_range (v : pyver) (fuel : nat) (argv1 : string) : py world unit :=
  r ← read_all v fuel argv1 topkList;
  let '(avg_latency, accuracy) := r in
  create_file "parameter_study_range.csv";;
  l0 ← col avg_latency 0; a0 ← col accuracy 0; l1 ← col avg_latency 1; a1 ← col accuracy 1;
  l2 ← col avg_latency 2; a2 ← col accuracy 2; l3 ← col avg_latency 3; a3 ← col accuracy 3;
  writerows "parameter_study_range.csv" (zip_rows (CStr "") [l0; a0; l1; a1; l2; a2; l3; a3]).
End ParaRange.

(** ** process_shifting.py *)
Module Shifting.

Definition process_list : list string :=
  ["log_inplace.log"; "log_static.log"; "log_noreassign.log"; "log_split+reassign.log"].

Record vars := Vars {
  avg_latency : list (list cell);
  accuracy : list (list cell);
  last_group : list string
}.

(** One round of the outer loop. *)
Definition read_log (v : pyver) (fuel : nat) (fileName : string) (g : vars) : py world vars :=
  lines ← open_lines v fileName;
  r ← run_local
        (if bool_decide (fileName <> "log_static.log")
         then skip_to_total_vector fuel;; collect_update true fuel
         else collect_static true fuel)
        (Lat lines [CStr ""] [CStr ""] (last_group g));
  mret (Vars (avg_latency g ++ [templist_latency r.2])%list
             (accuracy g ++ [templist_accuracy r.2])%list
             (last_data_group r.2)).

Fixpoint read_all (v : pyver) (fuel : nat) (l : list string) (g : vars) : py world vars :=
  match l with
  | [] => mret g
  | f :: l' => g' ← read_log v fuel f g; read_all v fuel l' g'
  end.

Definition process_shifting (v : pyver) (fuel : nat) : py world unit :=
  g ← read_all v fuel process_list (Vars [] [] []);
  create_file "parameter_study_shifting.csv";;
  l0 ← lift (py_index (avg_latency g) 0); a0 ← lift (py_index (accuracy g) 0);
  l1 ← lift (py_index (avg_latency g) 1); a1 ← lift (py_index (accuracy g) 1);
  l2 ← lift (py_index (avg_latency g) 2); a2 ← lift (py_index (accuracy g) 2);
  l3 ← lift (py_index (avg_latency g) 3); a3 ← lift (py_index (accuracy g) 3);
  writerows "parameter_study_shifting.csv" (zip_rows (CStr "") [l0; a0; l1; a1; l2; a2; l3; a3]).
End Shifting.

(** ** process_motivation.py *)
Module Motivation.

Definition process_list : list string := ["log_static.log"; "log_nolimit.log"].

Definition percentile : list cell :=
  [CStr ""; CFloat (float_of_dec false 5 (-1)); CFloat (float_of_dec false 9 (-1));
   CFloat (float_of_dec false 95 (-2)); CFloat (float_of_dec false 99 (-2));
   CFloat (float_of_dec false 999 (-3)); CInt 1].

Record vars := Vars {
  avg_latency : list (list cell);
  accuracy : list (list cell);
  percentile_baseline : list (list cell);
  last_group : list string
}.

(** [for i in range(2, 8): temp_baseline.append(float(last_data_group[i]))]. *)
Definition baseline (g : list string) : outcome (list cell) :=
  xs ← mapM_out (float_at g) (py_range 2 8); Ret (CStr "" :: (CFloat <$> xs)).

Definition read_log (v : pyver) (fuel : nat) (fileName : string) (g : vars) : py world vars :=
  lines ← open_lines v fileName;
  r ← run_local
        (if bool_decide (fileName = "log_nolimit.log")
         then skip_to_total_vector fuel;; collect_update true fuel
         else collect_static true fuel)
        (Lat lines [CStr ""] [CStr ""] (last_group g));
  temp_baseline ← lift (baseline (last_data_group r.2));
  mret (Vars (avg_latency g ++ [templist_latency r.2])%list
             (accuracy g ++ [templist_accuracy r.2])%list
             (percentile_baseline g ++ [temp_baseline])%list
             (last_data_group r.2)).

Fixpoint read_all (v : pyver) (fuel : nat) (l : list string) (g : vars) : py world vars :=
  match l with
  | [] => mret g
  | f :: l' => g' ← read_log v fuel f g; read_all v fuel l' g'
  end.

Definition process_motivation (v : pyver) (fuel : nat) : py world unit :=
  g ← read_all v fuel process_list (Vars [] [] [] []);
  create_file "motivation1.csv";;
  l0 ← lift (py_index (avg_latency g) 0); a0 ← lift (py_index (accuracy g) 0);
  l1 ← lift (py_index (avg_latency g) 1); a1 ← lift (py_index (accuracy g) 1);
  writerows "motivation1.csv" (zip_rows (CStr "") [l0; a0; l1; a1]);;
  create_file "motivation.csv";;
  b0 ← lift (py_index (percentile_baseline g) 0); b1 ← lift (py_index (percentile_baseline g) 1);
  writerows "motivation.csv" (zip_rows (CStr "") [b0; percentile; b1; percentile]).
End Motivation.

(** ** Lemmas on the loops *)

Lemma lat_readline_cons (s : lat) l ls : lat_log s = l :: ls -> readline s = (Ret l, set_log ls s).
Proof. intros H. by apply readline_cons. Qed.

Lemma lat_readline_nil (s : lat) : lat_log s = [] -> readline s = (Ret "", s).
Proof. intros H. by apply readline_nil. Qed.

Definition no_marker (ls : list string) : Prop :=
  Forall (fun l => is_total_vector (split_ws l) = false) ls.

Lemma skip_found pre m post s fuel :
  lat_log s = (pre ++ m :: post)%list -> no_marker pre -> is_total_vector (split_ws m) = true ->
  (length pre < fuel)%nat ->
  skip_to_total_vector fuel s = (Ret tt, set_log post s).
Proof.
  unfold skip_to_total_vector, no_marker. revert s fuel.
  induction pre as [|l pre IH]; intros s fuel Hlog Hpre Hm Hf;
    (destruct fuel as [|fuel]; [cbn in Hf; lia|]).
  - apply while_true_break. rewrite (bind_ret _ _ _ _ _ (lat_readline_cons s m post Hlog)).
    by rewrite Hm.
  - apply Forall_cons in Hpre as [Hl Hpre].
    rewrite (while_true_next _ _ _ (set_log (pre ++ m :: post)%list s)).
    2:{ rewrite (bind_ret _ _ _ _ _ (lat_readline_cons s l _ Hlog)). by rewrite Hl. }
    rewrite IH; [by rewrite set_set_log|done|done|done|cbn in Hf; lia].
Qed.

Lemma skip_diverges s fuel :
  no_marker (lat_log s) -> (skip_to_total_vector fuel s).1 = OutOfFuel.
Proof.
  unfold no_marker, skip_to_total_vector.
  apply (while_true_diverges (fun s => no_marker (lat_log s))). clear s.
  intros s Hs. destruct (lat_log s) as [|l ls] eqn:E.
  - exists s. by rewrite (bind_ret _ _ _ _ _ (lat_readline_nil s E)), E.
  - apply Forall_cons in Hs as [Hl Hs]. exists (set_log ls s).
    rewrite (bind_ret _ _ _ _ _ (lat_readline_cons s l ls E)). rewrite Hl. done.
Qed.

(** A log as the benchmark writes it: latency blocks of three lines, recall
    lines, and lines that are neither. *)
Inductive event : Set :=
  | ELatency (header skipped data : string) (x : float)
  | ERecall (line : string) (x : float)
  | ENoise (line : string).

Definition event_lines (e : event) : list string :=
  match e with
  | ELatency h s d _ => [h; s; d]
  | ERecall l _ => [l]
  | ENoise l => [l]
  end.

Definition event_head (e : event) : string :=
  match e with ELatency h _ _ _ => h | ERecall l _ => l | ENoise l => l end.

Definition event_ok (e : event) : Prop :=
  nonempty (event_head e) = true /\
  match e with
  | ELatency h _ d x => is_total_latency (split_ws h) = true /\ float_at (split_ws d) 1 = Ret x
  | ERecall l x => is_recall (split_ws l) = true /\ float_at (split_ws l) 2 = Ret x
  | ENoise l => is_total_latency (split_ws l) = false /\ is_recall (split_ws l) = false
  end.

Definition latencies (es : list event) : list cell :=
  omap (fun e => match e with ELatency _ _ _ x => Some (CFloat x) | _ => None end) es.
Definition recalls (es : list event) : list cell :=
  omap (fun e => match e with ERecall _ x => Some (CFloat x) | _ => None end) es.
Definition last_data (es : list event) (g : list string) : list string :=
  foldl (fun g e => match e with ELatency _ _ d _ => split_ws d | _ => g end) g es.

Lemma recall_not_float g x : float_at g 1 = Ret x -> is_recall g = false.
Proof.
  unfold is_recall, word_is. intros H. case_bool_decide as E; [|by rewrite andb_false_r].
  unfold float_at in H. rewrite (py_index_nat g 1 _ E : py_index g 1 = _) in H. by vm_compute in H.
Qed.

Lemma recall_not_latency g : is_recall g = true -> is_total_latency g = false.
Proof.
  unfold is_recall, is_total_latency, word_is. intros [_ H%bool_decide_eq_true_1]%andb_prop.
  rewrite (bool_decide_false (g !! 1%nat = Some "Latency")) by congruence.
  by rewrite andb_false_r.
Qed.

(** What one event does to the variables. *)
Definition after_event (track : bool) (e : event) (s : lat) : lat :=
  match e with
  | ELatency _ _ d x => (if track then set_last (split_ws d) else id) (add_latency x s)
  | ERecall _ x => add_accuracy x s
  | ENoise _ => s
  end.

Lemma after_event_set_log track e l s :
  after_event track e (set_log l s) = set_log l (after_event track e s).
Proof. by destruct e, track. Qed.

Lemma collect_line_event track e rest s :
  event_ok e -> lat_log s = (drop 1 (event_lines e) ++ rest)%list ->
  collect_line track (split_ws (event_head e)) s =
    (Ret tt, after_event track e (set_log rest s)).
Proof.
  intros [Hne He] Hlog. unfold collect_line. destruct e as [h sk d x|l x|l]; cbn in *.
  - destruct He as [-> Hx].
    rewrite (bind_ret _ _ s (set_log rest (after_event track (ELatency h sk d x) s)) (split_ws d)).
    + rewrite (recall_not_float _ _ Hx). by destruct track.
    + rewrite (bind_ret _ _ _ _ _ (lat_readline_cons s _ _ Hlog)).
      rewrite (bind_ret _ _ _ _ _ (lat_readline_cons (set_lat_log (d :: rest) s) d rest eq_refl)).
      unfold lift. rewrite Hx. destruct track; cbn; by destruct s.
  - destruct He as [Hr Hx]. rewrite (recall_not_latency _ Hr).
    unfold mbind, py_bind, mret, py_ret. rewrite Hr. cbn. unfold lift. rewrite Hx. cbn.
    destruct s; cbn in *; by subst.
  - destruct He as [-> Hr]. unfold mbind, py_bind, mret, py_ret. rewrite Hr. cbn.
    destruct s; cbn in *; by subst.
Qed.

Lemma foldl_after_event track es s rest :
  foldl (fun s e => after_event track e s) (set_log rest s) es =
  Lat rest (templist_latency s ++ latencies es)%list (templist_accuracy s ++ recalls es)%list
      (if track then last_data es (last_data_group s) else last_data_group s).
Proof.
  revert s. induction es as [|e es IH]; intros s.
  - cbn. rewrite !app_nil_r. by destruct track.
  - cbn [foldl]. rewrite after_event_set_log, IH.
    destruct e, track; cbn; by rewrite <- ?app_assoc.
Qed.

(** The update loop reads every event of the log and stops at its end. *)
Lemma collect_update_events track es s fuel :
  lat_log s = (es ≫= event_lines) -> Forall event_ok es -> (length es < fuel)%nat ->
  collect_update track fuel s =
    (Ret tt, Lat [] (templist_latency s ++ latencies es)%list (templist_accuracy s ++ recalls es)%list
                 (if track then last_data es (last_data_group s) else last_data_group s)).
Proof.
  intros Hlog Hok Hf. rewrite <- (foldl_after_event track es s []).
  unfold collect_update. revert s fuel Hlog Hok Hf.
  induction es as [|e es IH]; intros s fuel Hlog Hok Hf; (destruct fuel as [|fuel]; [cbn in Hf; lia|]).
  - apply while_true_break. rewrite (bind_ret _ _ _ _ _ (lat_readline_nil s Hlog)).
    cbn in Hlog. destruct s; cbn in *; by subst.
  - apply Forall_cons in Hok as [He Hok].
    set (rest := es ≫= event_lines) in *.
    assert (lat_log s = event_head e :: drop 1 (event_lines e) ++ rest)%list as Hhd.
    { rewrite Hlog. by destruct e. }
    rewrite (while_true_next _ _ _ (after_event track e (set_log rest s))).
    + rewrite IH; [|by destruct e, track|done|cbn in Hf; lia].
      cbn [foldl]. by rewrite !after_event_set_log, set_set_log.
    + rewrite (bind_ret _ _ _ _ _ (lat_readline_cons s _ _ Hhd)).
      rewrite bool_decide_false by (destruct He as [He _]; by destruct (event_head e)).
      set (s' := set_lat_log (drop 1 (event_lines e) ++ rest)%list s).
      rewrite (bind_ret _ _ s' _ _ (collect_line_event track e rest s' He eq_refl)).
      done.
Qed.

(** The static loop reads the events before the first "Updating numThread:"
    line and nothing after it. *)
Lemma collect_static_events track es stop rest s fuel :
  lat_log s = ((es ≫= event_lines) ++ stop :: rest)%list -> Forall event_ok es ->
  Forall (fun e => is_updating (split_ws (event_head e)) = false) es ->
  is_updating (split_ws stop) = true -> (length es < fuel)%nat ->
  collect_static track fuel s =
    (Ret tt, Lat rest (templist_latency s ++ latencies es)%list (templist_accuracy s ++ recalls es)%list
                 (if track then last_data es (last_data_group s) else last_data_group s)).
Proof.
  intros Hlog Hok Hup Hstop Hf. rewrite <- (foldl_after_event track es s rest).
  unfold collect_static. revert s fuel Hlog Hok Hup Hf.
  induction es as [|e es IH]; intros s fuel Hlog Hok Hup Hf; (destruct fuel as [|fuel]; [cbn in Hf; lia|]).
  - apply while_true_break. rewrite (bind_ret _ _ _ _ _ (lat_readline_cons s _ _ Hlog)).
    rewrite bool_decide_false by (by intros ->). by rewrite Hstop.
  - apply Forall_cons in Hok as [He Hok]. apply Forall_cons in Hup as [Hu Hup].
    set (tl := ((es ≫= event_lines) ++ stop :: rest)%list) in *.
    assert (lat_log s = event_head e :: drop 1 (event_lines e) ++ tl)%list as Hhd.
    { rewrite Hlog. subst tl. cbn [mbind list_bind]. rewrite <- app_assoc. by destruct e. }
    rewrite (while_true_next _ _ _ (after_event track e (set_log tl s))).
    + rewrite IH; [|by destruct e, track|done|done|cbn in Hf; lia].
      cbn [foldl]. by rewrite !after_event_set_log, set_set_log.
    + rewrite (bind_ret _ _ _ _ _ (lat_readline_cons s _ _ Hhd)).
      rewrite bool_decide_false by (destruct He as [He _]; by destruct (event_head e)).
      rewrite Hu. set (s' := set_lat_log (drop 1 (event_lines e) ++ tl)%list s).
      rewrite (bind_ret _ _ s' _ _ (collect_line_event track e tl s' He eq_refl)). done.
Qed.

(** The parts of an update log: what comes before the "Total Vector" line,
    that line, and the events. *)
Record update_log := UpdateLog { ul_pre : list string; ul_marker : string; ul_events : list event }.

Definition ul_lines (u : update_log) : list string :=
  (ul_pre u ++ ul_marker u :: (ul_events u ≫= event_lines))%list.

Definition ul_ok (fuel : nat) (u : update_log) : Prop :=
  no_marker (ul_pre u) /\ is_total_vector (split_ws (ul_marker u)) = true /\
  Forall event_ok (ul_events u) /\ (length (ul_pre u) < fuel)%nat /\ (length (ul_events u) < fuel)%nat.

(** The file at [p] holds the log [u]. *)
Definition holds_log (v : pyver) (w : world) (p : string) (u : update_log) : Prop :=
  exists b, fs w !! p = Some b /\ lines_of (text_of v b) = ul_lines u.

Lemma update_log_read track fuel u g lat0 acc0 :
  ul_ok fuel u ->
  (skip_to_total_vector fuel;; collect_update track fuel) (Lat (ul_lines u) lat0 acc0 g) =
    (Ret tt, Lat [] (lat0 ++ latencies (ul_events u))%list (acc0 ++ recalls (ul_events u))%list
                 (if track then last_data (ul_events u) g else g)).
Proof.
  intros (Hpre & Hm & Hok & Hf1 & Hf2).
  erewrite bind_ret by (by eapply skip_found).
  by rewrite (collect_update_events track (ul_events u)).
Qed.

Lemma para_range_read_all v fuel w prefix (u : Z -> update_log) l :
  (forall i, i ∈ l -> holds_log v w (prefix ++ str_of_Z i) (u i) /\ ul_ok fuel (u i)) ->
  ParaRange.read_all v fuel prefix l w =
    (Ret ((fun i => CStr "" :: latencies (ul_events (u i))) <$> l,
          (fun i => CStr "" :: recalls (ul_events (u i))) <$> l), w).
Proof.
  induction l as [|i l IH]; intros Hl; [done|]. cbn [ParaRange.read_all].
  destruct (Hl i) as [(b & Hb & Hlines) Hok]; [by constructor|].
  rewrite (bind_ret _ _ _ _ _ (open_lines_ok _ _ _ _ Hb)), Hlines.
  unfold ParaRange.read_log. rewrite update_log_read by done. cbn [lift mbind py_bind templist_latency templist_accuracy].
  unfold lift, mbind, py_bind. cbn [fst snd].
  rewrite IH by (intros; apply Hl; by constructor). done.
Qed.

(** ** Properties *)

(** C25: process_para_range.py on four well-formed logs (text before the
    "Total Vector" line, then latency blocks, recall lines and other lines in
    any order) returns and writes parameter_study_range.csv, whose columns are
    the latencies and the recalls of each log in order, cut to the shortest
    column; no other file changes. *)
Theorem para_range_writes_columns v fuel argv1 (u : Z -> update_log) w :
  (forall i, i ∈ ParaRange.topkList -> holds_log v w (argv1 ++ str_of_Z i) (u i) /\ ul_ok fuel (u i)) ->
  can_create w "parameter_study_range.csv" = true ->
  ParaRange.process_para_range v fuel argv1 w =
    (Ret tt,
     set_fs (<["parameter_study_range.csv" := bytes_of_str (csv_text (zip_rows (CStr "")
        (ParaRange.topkList ≫= (fun i => [CStr "" :: latencies (ul_events (u i));
                                          CStr "" :: recalls (ul_events (u i))]))))]> (fs w)) w).
Proof.
  intros Hl Hc. unfold ParaRange.process_para_range.
  rewrite (bind_ret _ _ _ _ _ (para_range_read_all v fuel w argv1 u _ Hl)).
  erewrite bind_ret by (unfold create_file; by rewrite Hc).
  do 8 (erewrite bind_ret by reflexivity).
  rewrite (writerows_eq _ _ []) by apply lookup_insert_eq.
  unfold set_fs; cbn -[zip_rows bytes_of_str csv_text]. by rewrite insert_insert_eq.
Qed.

(** A log without a "Total Vector" line makes process_para_range.py loop
    for ever: its first loop has no end-of-file test, so no amount of fuel is
    enough, whatever the other logs hold. *)
Theorem para_range_hangs_without_marker v argv1 w b :
  fs w !! (argv1 ++ "0") = Some b -> no_marker (lines_of (text_of v b)) ->
  forall fuel, (ParaRange.process_para_range v fuel argv1 w).1 = OutOfFuel.
Proof.
  intros Hb Hnm fuel. unfold ParaRange.process_para_range.
  erewrite bind_fuel; [done|]. cbn [ParaRange.read_all ParaRange.topkList].
  rewrite (bind_ret _ _ _ _ _ (open_lines_ok v w (argv1 ++ str_of_Z 0) b Hb)).
  apply bind_fuel. unfold lift. f_equal. unfold ParaRange.read_log.
  pose proof (skip_diverges (Lat (lines_of (text_of v b)) [CStr ""] [CStr ""] []) fuel Hnm) as Hd.
  destruct (skip_to_total_vector fuel _) as [o s] eqn:E. cbn in Hd. subst o.
  by rewrite (bind_fuel _ _ _ _ E).
Qed.

(** Process_motivation.py on a static log keeps the latencies and recalls
    that come before the first "Updating numThread:" line, ignores the rest,
    and its percentile column holds words 2 to 7 of the last latency line. *)
Theorem motivation_static_log v fuel w b es stop rest g pct :
  fs w !! "log_static.log" = Some b ->
  lines_of (text_of v b) = ((es ≫= event_lines) ++ stop :: rest)%list ->
  Forall event_ok es -> Forall (fun e => is_updating (split_ws (event_head e)) = false) es ->
  is_updating (split_ws stop) = true -> (length es < fuel)%nat ->
  mapM_out (float_at (last_data es (Motivation.last_group g))) [2; 3; 4; 5; 6; 7] = Ret pct ->
  Motivation.read_log v fuel "log_static.log" g w =
    (Ret (Motivation.Vars (Motivation.avg_latency g ++ [CStr "" :: latencies es])%list
                          (Motivation.accuracy g ++ [CStr "" :: recalls es])%list
                          (Motivation.percentile_baseline g ++ [CStr "" :: (CFloat <$> pct)])%list
                          (last_data es (Motivation.last_group g))), w).
Proof.
  intros Hb Hl Hok Hup Hstop Hf Hp. unfold Motivation.read_log.
  rewrite (bind_ret _ _ _ _ _ (open_lines_ok _ _ _ _ Hb)), Hl.
  rewrite bool_decide_false by done.
  rewrite (bind_ret _ _ w w (tt, Lat rest (CStr "" :: latencies es) (CStr "" :: recalls es)
                                     (last_data es (Motivation.last_group g)))).
  2:{ unfold run_local. by erewrite collect_static_events by done. }
  unfold Motivation.baseline. change (py_range 2 8) with [2; 3; 4; 5; 6; 7].
  cbn [last_data_group fst snd]. rewrite Hp. done.
Qed.

(** A "log_nolimit.log" with no latency block gives process_motivation.py
    the percentiles of the log read before it: [last_data_group] is not reset
    between files. *)
Theorem motivation_stale_percentiles v fuel w u g pct :
  holds_log v w "log_nolimit.log" u -> ul_ok fuel u -> latencies (ul_events u) = [] ->
  Motivation.baseline (Motivation.last_group g) = Ret pct ->
  exists g', Motivation.read_log v fuel "log_nolimit.log" g w = (Ret g', w) /\
    Motivation.percentile_baseline g' = (Motivation.percentile_baseline g ++ [pct])%list.
Proof.
  intros (b & Hb & Hl) Hok Hnone Hp.
  assert (last_data (ul_events u) (Motivation.last_group g) = Motivation.last_group g) as Hlast.
  { revert Hnone. unfold latencies, last_data. induction (ul_events u) as [|[] es IH]; cbn; try done; auto. }
  unfold Motivation.read_log.
  rewrite (bind_ret _ _ _ _ _ (open_lines_ok _ _ _ _ Hb)), Hl.
  rewrite bool_decide_true by done.
  erewrite bind_ret by (unfold run_local; rewrite update_log_read by done; done).
  cbn [last_data_group fst snd]. rewrite Hlast. unfold lift at 1, mbind, py_bind. rewrite Hp.
  eexists. split; [done|]. done.
Qed.

(** ** Witnesses *)

Definition demo_lines : list string :=
  ["[1] Total Vector num 1000"; "Total Latency Distribution:"; "Avg 50tiles 90tiles";
   "x 1.5 2.5 3.5 4.5 5.5 6.5 7.5"; "[1] Recall10@10: 0.91"].
Definition demo_update : update_log :=
  let l := (fun l => l ++ newline) <$> demo_lines in
  UpdateLog [] (nth 0 l "")
    [ELatency (nth 1 l "") (nth 2 l "") (nth 3 l "") (float_of_dec false 15 (-1));
     ERecall (nth 4 l "") (float_of_dec false 91 (-2))].
Definition demo_bytes : list byte := bytes_of_str (unlines demo_lines).
Definition demo_world : world :=
  World (list_to_map ((fun p => (p, demo_bytes)) <$> ["log0"; "log8"; "log64"; "log128"])) ∅ [].

Lemma demo_update_ok : ul_ok 5 demo_update.
Proof.
  split_and!; [constructor|by vm_compute| |by vm_compute; lia|by vm_compute; lia].
  repeat constructor; vm_compute; reflexivity.
Qed.

Lemma para_range_writes_columns_witness :
  exists w', ParaRange.process_para_range Py3 5 "log" demo_world = (Ret tt, w').
Proof.
  eexists. apply (para_range_writes_columns Py3 5 "log" (fun _ => demo_update)).
  - intros i Hi. split; [|exact demo_update_ok]. exists demo_bytes.
    split; [|vm_compute; reflexivity].
    repeat (apply list_elem_of_In in Hi; destruct Hi as [<-|Hi]; [vm_compute; reflexivity|apply list_elem_of_In in Hi]).
    by apply not_elem_of_nil in Hi.
  - vm_compute. reflexivity.
Defined.

Lemma para_range_hangs_without_marker_witness :
  (ParaRange.process_para_range Py3 100 "log" (World {["log0" := bytes_of_str "no marker"]} ∅ [])).1 = OutOfFuel.
Proof.
  apply (para_range_hangs_without_marker Py3 "log" _ (bytes_of_str "no marker")).
  - vm_compute. reflexivity.
  - repeat constructor.
Defined.

Definition demo_static : world :=
  World {["log_static.log" := bytes_of_str (unlines (drop 1 demo_lines ++ ["1 Updating numThread: 4 x"; "y"]))]} ∅ [].

Lemma motivation_static_log_witness :
  exists g', Motivation.read_log Py3 5 "log_static.log" (Motivation.Vars [] [] [] []) demo_static = (Ret g', demo_static).
Proof.
  eexists. eapply (motivation_static_log Py3 5 demo_static _ (ul_events demo_update)
                     ("1 Updating numThread: 4 x" ++ newline) ["y" ++ newline]).
  - vm_compute. reflexivity.
  - vm_compute. reflexivity.
  - repeat constructor; vm_compute; reflexivity.
  - repeat constructor; vm_compute; reflexivity.
  - vm_compute. reflexivity.
  - vm_compute. lia.
  - vm_compute. reflexivity.
Defined.

Lemma motivation_stale_percentiles_witness :
  exists g', Motivation.read_log Py3 5 "log_nolimit.log"
      (Motivation.Vars [] [] [] ["x"; "1"; "2"; "3"; "4"; "5"; "6"; "7"])
      (World {["log_nolimit.log" := bytes_of_str "a Total Vector"]} ∅ []) = (Ret g', World {["log_nolimit.log" := bytes_of_str "a Total Vector"]} ∅ [])
    /\ length (Motivation.percentile_baseline g') = 1%nat.
Proof.
  assert (Motivation.baseline ["x"; "1"; "2"; "3"; "4"; "5"; "6"; "7"] =
          Ret (CStr "" :: (CFloat <$> (float_of_Z <$> [2; 3; 4; 5; 6; 7])))) as Hb
    by (vm_compute; reflexivity).
  destruct (motivation_stale_percentiles Py3 5
    (World {["log_nolimit.log" := bytes_of_str "a Total Vector"]} ∅ [])
    (UpdateLog [] "a Total Vector" []) (Motivation.Vars [] [] [] ["x"; "1"; "2"; "3"; "4"; "5"; "6"; "7"])
    _ ltac:(exists (bytes_of_str "a Total Vector"); split; vm_compute; reflexivity)
    ltac:(split_and!; [constructor|vm_compute; reflexivity|constructor|vm_compute; lia|vm_compute; lia])
    eq_refl Hb) as (g' & H & Hp).
  exists g'. split; [exact H|]. rewrite Hp. reflexivity.
Defined.
