(* ===== verification/OverallLogs.v ===== *)
(** * Overall-performance logs (Figure 6): process_spfresh.py, process_spann.py

    Each script reads its log twice: the first pass collects, for every
    "Samppling" block, memory, throughput and latency; the second collects the
    insert latencies. The columns go to a csv file. *)

From Stdlib Require Import Ascii.
From S2P Require Import Prelude PyStr PyFloat PyBytes PyIO LogWords.

Open Scope string_scope.
Open Scope Z_scope.

Record ov := Ov {
  ov_log : list string;
  avg_latency : list float;
  tail_latency : list float;
  throughput : list float;
  insert_avg_latency : list float;
  RSS : list Z;
  line_count : Z;
  cur_line : string;
  printed : list string
}.

Definition set_ov_log (l : list string) (s : ov) : ov :=
  Ov l (avg_latency s) (tail_latency s) (throughput s) (insert_avg_latency s) (RSS s) (line_count s) (cur_line s) (printed s).
Definition add_avg (a : float) (s : ov) : ov :=
  Ov (ov_log s) (avg_latency s ++ [a])%list (tail_latency s) (throughput s)
     (insert_avg_latency s) (RSS s) (line_count s) (cur_line s) (printed s).
Definition add_tail (t : float) (s : ov) : ov :=
  Ov (ov_log s) (avg_latency s) (tail_latency s ++ [t])%list (throughput s)
     (insert_avg_latency s) (RSS s) (line_count s) (cur_line s) (printed s).
Definition add_throughput (q : float) (s : ov) : ov :=
  Ov (ov_log s) (avg_latency s) (tail_latency s) (throughput s ++ [q])%list
     (insert_avg_latency s) (RSS s) (line_count s) (cur_line s) (printed s).
Definition add_insert (x : float) (s : ov) : ov :=
  Ov (ov_log s) (avg_latency s) (tail_latency s) (throughput s)
     (insert_avg_latency s ++ [x])%list (RSS s) (line_count s) (cur_line s) (printed s).
Definition add_RSS (z : Z) (s : ov) : ov :=
  Ov (ov_log s) (avg_latency s) (tail_latency s) (throughput s)
     (insert_avg_latency s) (RSS s ++ [z])%list (line_count s) (cur_line s) (printed s).
Definition count_line (line : string) (s : ov) : ov :=
  Ov (ov_log s) (avg_latency s) (tail_latency s) (throughput s)
     (insert_avg_latency s) (RSS s) (line_count s + 1) line (printed s).
Definition add_print (m : string) (s : ov) : ov :=
  Ov (ov_log s) (avg_latency s) (tail_latency s) (throughput s)
     (insert_avg_latency s) (RSS s) (line_count s) (cur_line s) (printed s ++ [m])%list.

#[global] Instance ov_LogState : LogState ov.
Proof. by refine {| log_f := ov_log; set_log := set_ov_log |}; intros; try destruct s. Defined.

(** [line = log_f.readline(); line_count += 1]; [cur_line] is the variable
    [line], which the messages of the handlers show. *)
Definition readline_count : py ov string := line ← readline; modify (count_line line);; mret line.

(** The error message of the handlers, and [break]. *)
Definition report_break : py ov (option unit) :=
  s ← get_state;
  modify (add_print ("Error when processing [at line]: " ++ str_of_Z (line_count s)));;
  mret (Some tt).
Definition report_line_break : py ov (option unit) :=
  s ← get_state;
  modify (add_print ("Error when processing [at line]: " ++ str_of_Z (line_count s) ++ ": " ++ cur_line s));;
  mret (Some tt).

(** The loop over one "Samppling" block: [while not done]. It does not test
    for the end of the file. *)
Definition sample_block (fuel : nat) : py ov unit :=
  while_true fuel (
    line ← readline;
    let result_group := split_ws line in
    if is_rss result_group then
      z ← lift (int_at result_group 16); modify (add_RSS z);; mret None
    else if is_qps result_group then
      q ← lift (float_rstrip_at "." result_group 8); modify (add_throughput q);; mret None
    else if is_total_latency result_group then
      readline;;
      line ← readline;
      let result_group := split_ws line in
      a ← lift (float_at result_group 1); modify (add_avg a);;
      t ← lift (float_at result_group 6); modify (add_tail t);;
      mret (Some tt)
    else mret None).

(** The first pass. *)
Definition search_body (fuel : nat) : py ov (option unit) :=
  try_except
    (line ← readline_count;
     if bool_decide (line = "") then mret (Some tt)
     else
       let result_group := split_ws line in
       when (is_sampling result_group) (sample_block fuel);;
       mret None)
    (except AttributeError report_break).
Definition search_pass (fuel : nat) : py ov unit := while_true fuel (search_body fuel).

(** [while not read]: skip to a line whose second word is a number. *)
Fixpoint next_number (fuel : nat) (result_group : list string) : py ov (list string) :=
  match fuel with
  | O => fun s => (OutOfFuel, s)
  | S n =>
      if negb (longer result_group 1) then
        line ← readline_count; next_number n (split_ws line)
      else
        match float_at result_group 1 with
        | Ret data => mret result_group
        | Raise ValueError => line ← readline_count; next_number n (split_ws line)
        | Raise e => raise e
        | OutOfFuel => fun s => (OutOfFuel, s)
        end
  end.

(** The second pass. *)
Definition insert_body (fuel : nat) : py ov (option unit) :=
  try_except
    (line ← readline_count;
     if bool_decide (line = "") then mret (Some tt)
     else
       let result_group := split_ws line in
       when (is_insert_latency result_group)
         (line ← readline_count;
          g ← next_number fuel (split_ws line);
          x ← lift (float_at g 1);
          modify (add_insert x));;
       mret None)
    (orexcept (except AttributeError report_break) (except ValueError report_line_break)).
Definition insert_pass (fuel : nat) : py ov unit := while_true fuel (insert_body fuel).

(** The columns of the table. *)
Definition table (v : pyver) (s : ov) : outcome (list (list cell)) :=
  rss ← mapM_out (fun z => int_div v z 1024) (RSS s);
  Ret [ column "Search" "Avg Latency" (CFloat <$> avg_latency s);
        column " " "Tail Latency" (CFloat <$> tail_latency s);
        column "" "Throughput" (CFloat <$> throughput s);
        column "" "RSS" (cell_of_number <$> rss);
        pad (length (insert_avg_latency s)) (length (RSS s))
            (column "Insert" "Avg Latency" (CFloat <$> insert_avg_latency s)) ].

Definition ov_start (lines : list string) : ov := Ov lines [] [] [] [] [] 0 "" [].

(** process_spfresh.py: [argv1] the log, [argv2] the csv file. *)
Definition process_spfresh (v : pyver) (fuel : nat) (argv1 argv2 : string) : py world unit :=
  lines ← open_lines v argv1;
  r1 ← run_local (search_pass fuel) (ov_start lines);
  lines ← open_lines v argv1;
  r2 ← run_local (insert_pass fuel) (set_ov_log lines r1.2);
  cols ← lift (table v r2.2);
  create_file argv2;;
  writerows argv2 (zip_rows (CStr "") cols).

(** ** process_spann.py

    The same loops and table on the SPANN log. *)
Module Spann.
Definition search_loop (fuel : nat) : py ov unit := search_pass fuel.
Definition insert_loop (fuel : nat) : py ov unit := insert_pass fuel.
Definition columns (v : pyver) (s : ov) : outcome (list (list cell)) := table v s.

Definition process_spann (v : pyver) (fuel : nat) (argv1 argv2 : string) : py world unit :=
  lines ← open_lines v argv1;
  r1 ← run_local (search_loop fuel) (ov_start lines);
  lines ← open_lines v argv1;
  r2 ← run_local (insert_loop fuel) (set_ov_log lines r1.2);
  cols ← lift (columns v r2.2);
  create_file argv2;;
  writerows argv2 (zip_rows (CStr "") cols).
End Spann.

(** ** The logs the scripts expect *)

(** A line inside a "Samppling" block. *)
Inductive item : Set :=
  | IRss (line : string) (z : Z)
  | IQps (line : string) (q : float)
  | IOther (line : string).

Definition item_line (i : item) : string := match i with IRss l _ | IQps l _ | IOther l => l end.

Definition item_ok (i : item) : Prop :=
  let g := split_ws (item_line i) in
  match i with
  | IRss _ z => is_rss g = true /\ int_at g 16 = Ret z
  | IQps _ q => is_rss g = false /\ is_qps g = true /\ float_rstrip_at "." g 8 = Ret q
  | IOther _ => is_rss g = false /\ is_qps g = false /\ is_total_latency g = false
  end.

(** What the first pass sees. *)
Inductive sevent : Set :=
  | SBlock (header : string) (items : list item) (lat_header skipped data : string) (a t : float)
  | SNoise (line : string).

Definition sevent_lines (e : sevent) : list string :=
  match e with
  | SBlock h its lh sk d _ _ => h :: (item_line <$> its) ++ [lh; sk; d]
  | SNoise l => [l]
  end%list.

Definition sevent_ok (fuel : nat) (e : sevent) : Prop :=
  match e with
  | SBlock h its lh sk d a t =>
      nonempty h = true /\ is_sampling (split_ws h) = true /\ Forall item_ok its /\
      is_rss (split_ws lh) = false /\ is_qps (split_ws lh) = false /\
      is_total_latency (split_ws lh) = true /\
      float_at (split_ws d) 1 = Ret a /\ float_at (split_ws d) 6 = Ret t /\ (length its < fuel)%nat
  | SNoise l => nonempty l = true /\ is_sampling (split_ws l) = false
  end.

(** What the second pass sees. *)
Inductive ievent : Set :=
  | IBlock (header : string) (skipped : list string) (data : string) (x : float)
  | INoise (line : string).

Definition ievent_lines (e : ievent) : list string :=
  match e with
  | IBlock h sk d _ => h :: sk ++ [d]
  | INoise l => [l]
  end%list.

Definition not_number (l : string) : Prop :=
  longer (split_ws l) 1 = false \/ float_at (split_ws l) 1 = Raise ValueError.

Definition ievent_ok (fuel : nat) (e : ievent) : Prop :=
  match e with
  | IBlock h sk d x =>
      nonempty h = true /\ is_insert_latency (split_ws h) = true /\ Forall not_number sk /\
      longer (split_ws d) 1 = true /\ float_at (split_ws d) 1 = Ret x /\ (length sk < fuel)%nat
  | INoise l => nonempty l = true /\ is_insert_latency (split_ws l) = false
  end.

(** The values the log holds. *)
Definition item_rss (its : list item) : list Z := omap (fun i => match i with IRss _ z => Some z | _ => None end) its.
Definition item_qps (its : list item) : list float := omap (fun i => match i with IQps _ q => Some q | _ => None end) its.
Definition log_avg (es : list sevent) : list float := omap (fun e => match e with SBlock _ _ _ _ _ a _ => Some a | _ => None end) es.
Definition log_tail (es : list sevent) : list float := omap (fun e => match e with SBlock _ _ _ _ _ _ t => Some t | _ => None end) es.
Definition log_rss (es : list sevent) : list Z := es ≫= (fun e => match e with SBlock _ its _ _ _ _ _ => item_rss its | _ => [] end).
Definition log_qps (es : list sevent) : list float := es ≫= (fun e => match e with SBlock _ its _ _ _ _ _ => item_qps its | _ => [] end).
Definition log_insert (es : list ievent) : list float := omap (fun e => match e with IBlock _ _ _ x => Some x | _ => None end) es.

(** ** Lemmas on the loops *)

Lemma ov_readline (s : ov) l ls : ov_log s = l :: ls -> readline s = (Ret l, set_ov_log ls s).
Proof. intros H. unfold readline. cbn. by rewrite H. Qed.

Lemma ov_readline_nil (s : ov) : ov_log s = [] -> readline s = (Ret "", s).
Proof. intros H. unfold readline. cbn. by rewrite H. Qed.

Lemma ov_readline_count (s : ov) l ls :
  ov_log s = l :: ls -> readline_count s = (Ret l, count_line l (set_ov_log ls s)).
Proof. intros H. unfold readline_count. by rewrite (bind_ret _ _ _ _ _ (ov_readline s l ls H)). Qed.

Lemma ov_readline_count_nil (s : ov) :
  ov_log s = [] -> readline_count s = (Ret "", count_line "" s).
Proof. intros H. unfold readline_count. by rewrite (bind_ret _ _ _ _ _ (ov_readline_nil s H)). Qed.

(** The state after a block: everything but the log, the counter and the
    current line. *)
Definition after_items (its : list item) (rest : list string) (s : ov) : ov :=
  Ov rest (avg_latency s) (tail_latency s) (throughput s ++ item_qps its)%list
     (insert_avg_latency s) (RSS s ++ item_rss its)%list (line_count s) (cur_line s) (printed s).

(** One item takes one round of the loop. *)
Lemma sample_block_item n i rest s :
  item_ok i -> ov_log s = item_line i :: rest ->
  sample_block (S n) s = sample_block n (after_items [i] rest s).
Proof.
  intros Hi Hlog. unfold sample_block. apply while_true_next.
  rewrite (bind_ret _ _ _ _ _ (ov_readline s _ _ Hlog)).
  destruct i as [l z|l q|l]; cbn in Hi |- *.
  - destruct Hi as [-> ->]. unfold mbind, py_bind, lift. cbn. unfold after_items. cbn. by rewrite app_nil_r.
  - destruct Hi as (-> & -> & ->). unfold mbind, py_bind, lift. cbn. unfold after_items. cbn. by rewrite app_nil_r.
  - destruct Hi as (-> & -> & ->). unfold after_items. cbn. by rewrite !app_nil_r.
Qed.

Definition after_block (its : list item) (a t : float) (rest : list string) (s : ov) : ov :=
  Ov rest (avg_latency s ++ [a])%list (tail_latency s ++ [t])%list (throughput s ++ item_qps its)%list
     (insert_avg_latency s) (RSS s ++ item_rss its)%list (line_count s) (cur_line s) (printed s).

Lemma item_rss_cons i its : item_rss (i :: its) = (item_rss [i] ++ item_rss its)%list.
Proof. by destruct i. Qed.
Lemma item_qps_cons i its : item_qps (i :: its) = (item_qps [i] ++ item_qps its)%list.
Proof. by destruct i. Qed.

Lemma sample_block_run n its lh sk d a t rest s :
  ov_log s = ((item_line <$> its) ++ lh :: sk :: d :: rest)%list -> Forall item_ok its ->
  is_rss (split_ws lh) = false -> is_qps (split_ws lh) = false -> is_total_latency (split_ws lh) = true ->
  float_at (split_ws d) 1 = Ret a -> float_at (split_ws d) 6 = Ret t -> (length its < n)%nat ->
  sample_block n s = (Ret tt, after_block its a t rest s).
Proof.
  intros Hlog Hits H1 H2 H3 Ha Ht. revert n s Hlog.
  induction Hits as [|i its Hi Hits IH]; intros [|n] s Hlog Hn; try (cbn in Hn; lia).
  - unfold sample_block. apply while_true_break.
    rewrite (bind_ret _ _ _ _ _ (ov_readline s lh (sk :: d :: rest) Hlog)), H1, H2, H3.
    rewrite (bind_ret _ _ _ _ _ (ov_readline (set_ov_log (sk :: d :: rest) s) sk (d :: rest) eq_refl)).
    rewrite (bind_ret _ _ _ _ _ (ov_readline (set_ov_log (d :: rest) s) d rest eq_refl)).
    unfold lift, mbind, py_bind. rewrite Ha, Ht. unfold after_block. cbn. by rewrite !app_nil_r.
  - rewrite (sample_block_item n i _ s Hi Hlog). rewrite IH; [|done|cbn in Hn; lia].
    unfold after_block; cbn [after_items avg_latency tail_latency throughput insert_avg_latency RSS line_count cur_line printed].
    by rewrite (item_rss_cons i its), (item_qps_cons i its), !app_assoc.
Qed.

(** A block cut by the end of the file is never left. *)
Lemma sample_block_diverges n its s :
  ov_log s = (item_line <$> its) -> Forall item_ok its -> (sample_block n s).1 = OutOfFuel.
Proof.
  intros Hlog Hits. revert n s Hlog.
  induction Hits as [|i its Hi Hits IH]; intros n s Hlog.
  - apply (while_true_diverges (fun s => ov_log s = [])); [|done]. clear s Hlog.
    intros s Hlog. exists s. by rewrite (bind_ret _ _ _ _ _ (ov_readline_nil s Hlog)).
  - destruct n as [|n]; [done|]. rewrite (sample_block_item n i _ s Hi Hlog). by apply IH.
Qed.

(** Both passes keep their other variables; what they add is [f]. *)
Definition search_state (es : list sevent) (s : ov) (lc : Z) (cl : string) : ov :=
  Ov [] (avg_latency s ++ log_avg es)%list (tail_latency s ++ log_tail es)%list
     (throughput s ++ log_qps es)%list (insert_avg_latency s) (RSS s ++ log_rss es)%list lc cl (printed s).

Lemma search_body_event fuel e rest s :
  sevent_ok fuel e -> ov_log s = (sevent_lines e ++ rest)%list ->
  exists lc cl, search_body fuel s = (Ret None,
    Ov rest (avg_latency s ++ log_avg [e])%list (tail_latency s ++ log_tail [e])%list
       (throughput s ++ log_qps [e])%list (insert_avg_latency s) (RSS s ++ log_rss [e])%list lc cl (printed s)).
Proof.
  intros He Hlog. unfold search_body, try_except. destruct e as [h its lh sk d a t|l]; cbn in He, Hlog.
  - destruct He as (Hne & Hs & Hits & H1 & H2 & H3 & Ha & Ht & Hn).
    rewrite (bind_ret _ _ _ _ _ (ov_readline_count s _ _ Hlog)).
    rewrite bool_decide_false by (intros ->; done). rewrite Hs. unfold when.
    erewrite bind_ret.
    2:{ eapply (sample_block_run fuel its lh sk d a t rest); try done. cbn. by rewrite <- app_assoc. }
    unfold mret, py_ret. cbn. rewrite !app_nil_r. eauto.
  - destruct He as [Hne Hs]. rewrite (bind_ret _ _ _ _ _ (ov_readline_count s _ _ Hlog)).
    rewrite bool_decide_false by (intros ->; done). rewrite Hs. cbn. rewrite !app_nil_r. eauto.
Qed.

Lemma log_rss_cons e es : log_rss (e :: es) = (log_rss [e] ++ log_rss es)%list.
Proof. unfold log_rss. cbn. by rewrite app_nil_r. Qed.
Lemma log_qps_cons e es : log_qps (e :: es) = (log_qps [e] ++ log_qps es)%list.
Proof. unfold log_qps. cbn. by rewrite app_nil_r. Qed.
Lemma log_avg_cons e es : log_avg (e :: es) = (log_avg [e] ++ log_avg es)%list.
Proof. by destruct e. Qed.
Lemma log_tail_cons e es : log_tail (e :: es) = (log_tail [e] ++ log_tail es)%list.
Proof. by destruct e. Qed.

Lemma search_loop_run n fuel es s :
  ov_log s = (es ≫= sevent_lines) -> Forall (sevent_ok fuel) es -> (length es < n)%nat ->
  exists lc cl, while_true n (search_body fuel) s = (Ret tt, search_state es s lc cl).
Proof.
  intros Hlog Hes. revert n s Hlog.
  induction Hes as [|e es He Hes IH]; intros [|n] s Hlog Hn; try (cbn in Hn; lia).
  - exists (line_count s + 1), "". apply while_true_break. unfold search_body, try_except.
    rewrite (bind_ret _ _ _ _ _ (ov_readline_count_nil s Hlog)).
    unfold search_state, count_line. cbn. rewrite !app_nil_r. do 3 f_equal. exact Hlog.
  - destruct (search_body_event fuel e (mbind (M:=list) sevent_lines es) s He Hlog) as (lc & cl & Hb).
    rewrite (while_true_next _ _ _ _ Hb).
    edestruct (IH n) as (lc' & cl' & ->); [reflexivity|cbn in Hn; lia|].
    exists lc', cl'. unfold search_state; cbn [avg_latency tail_latency throughput insert_avg_latency RSS printed].
    by rewrite (log_rss_cons e es), (log_qps_cons e es), (log_avg_cons e es), (log_tail_cons e es), !app_assoc.
Qed.

Lemma search_loop_diverges n fuel ss h its s :
  ov_log s = ((ss ≫= sevent_lines) ++ h :: (item_line <$> its))%list ->
  Forall (sevent_ok fuel) ss -> Forall item_ok its ->
  nonempty h = true -> is_sampling (split_ws h) = true ->
  (while_true n (search_body fuel) s).1 = OutOfFuel.
Proof.
  intros Hlog Hss Hits Hne Hs. revert n s Hlog.
  induction Hss as [|e ss He Hss IH]; intros [|n] s Hlog; try done.
  - cbn [while_true]. pose proof (sample_block_diverges fuel its
      (count_line h (set_ov_log (item_line <$> its) s)) eq_refl Hits) as Hd.
    destruct (sample_block fuel _) as [o s'] eqn:E. cbn in Hd. subst o.
    erewrite bind_fuel; [done|]. unfold search_body, try_except.
    rewrite (bind_ret _ _ _ _ _ (ov_readline_count s _ _ Hlog)).
    rewrite bool_decide_false by (intros ->; done). rewrite Hs. unfold when.
    rewrite (bind_fuel _ _ _ _ E). reflexivity.
  - destruct (search_body_event fuel e (mbind (M:=list) sevent_lines ss ++ h :: (item_line <$> its))%list s He)
      as (lc & cl & Hbody). { rewrite Hlog. cbn. by rewrite <- app_assoc. }
    rewrite (while_true_next _ _ _ _ Hbody). by apply IH.
Qed.

(** The state after lines were skipped. *)
Definition moved (rest : list string) (s s' : ov) : Prop :=
  exists lc cl, s' = Ov rest (avg_latency s) (tail_latency s) (throughput s) (insert_avg_latency s)
                        (RSS s) lc cl (printed s).

Lemma moved_trans r1 r2 s1 s2 s3 : moved r1 s1 s2 -> moved r2 s2 s3 -> moved r2 s1 s3.
Proof. intros (lc & cl & ->) (lc' & cl' & ->). cbn. by exists lc', cl'. Qed.

Lemma next_number_run n g sk d x rest s :
  Forall not_number sk -> longer (split_ws d) 1 = true -> float_at (split_ws d) 1 = Ret x ->
  (exists l0 sk', g = split_ws l0 /\ (sk ++ [d] = l0 :: sk')%list /\ ov_log s = (sk' ++ rest)%list) ->
  (length sk < n)%nat ->
  exists s', next_number n g s = (Ret (split_ws d), s') /\ moved rest s s'.
Proof.
  intros Hsk Hd Hx. revert n g s.
  induction Hsk as [|l sk Hl Hsk IH]; intros [|n] g s (l0 & sk' & -> & E & Hlog) Hn; try (cbn in Hn; lia);
    cbn in E; injection E as <- <-; cbn [next_number].
  - rewrite Hd, Hx. cbn. exists s. split; [done|]. exists (line_count s), (cur_line s). destruct s; cbn in *; by subst.
  - assert (exists l1 tl, (sk ++ [d] = l1 :: tl)%list) as (l1 & tl & Etl) by (destruct sk; cbn; eauto).
    rewrite Etl in Hlog. cbn in Hlog.
    destruct (IH n (split_ws l1) (count_line l1 (set_ov_log (tl ++ rest)%list s))) as (s' & Hs' & Hm).
    { exists l1, tl. done. }
    { cbn in Hn; lia. }
    exists s'. split; [|destruct Hm as (lc & cl & ->); by exists lc, cl].
    destruct (longer (split_ws l) 1) eqn:El; cbn [negb].
    + destruct Hl as [Hl|Hl]; [congruence|]. rewrite Hl.
      by rewrite (bind_ret _ _ _ _ _ (ov_readline_count s _ _ Hlog)).
    + by rewrite (bind_ret _ _ _ _ _ (ov_readline_count s _ _ Hlog)).
Qed.

Lemma insert_body_event fuel e rest s :
  ievent_ok fuel e -> ov_log s = (ievent_lines e ++ rest)%list ->
  exists lc cl, insert_body fuel s = (Ret None,
    Ov rest (avg_latency s) (tail_latency s) (throughput s) (insert_avg_latency s ++ log_insert [e])%list
       (RSS s) lc cl (printed s)).
Proof.
  intros He Hlog. unfold insert_body, try_except. destruct e as [h sk d x|l]; cbn in He, Hlog.
  - destruct He as (Hne & Hi & Hsk & Hd & Hx & Hn).
    rewrite (bind_ret _ _ _ _ _ (ov_readline_count s _ _ Hlog)).
    rewrite bool_decide_false by (intros ->; done). rewrite Hi. unfold when.
    set (s1 := count_line h (set_ov_log ((sk ++ [d]) ++ rest)%list s)).
    assert (exists l1 tl, (sk ++ [d] = l1 :: tl)%list) as (l1 & tl & Etl) by (destruct sk; cbn; eauto).
    set (s2 := count_line l1 (set_ov_log (tl ++ rest)%list s1)).
    destruct (next_number_run fuel (split_ws l1) sk d x rest s2) as (s3 & Hs3 & (lc & cl & ->)); try done.
    { exists l1, tl. done. }
    erewrite (bind_ret _ _ s1).
    2:{ rewrite (bind_ret _ _ s1 s2 l1) by (apply ov_readline_count; cbn; by rewrite Etl).
        rewrite (bind_ret _ _ _ _ _ Hs3). unfold lift, mbind, py_bind. by rewrite Hx. }
    unfold mret, py_ret. cbn. eauto.
  - destruct He as [Hne Hi]. rewrite (bind_ret _ _ _ _ _ (ov_readline_count s _ _ Hlog)).
    rewrite bool_decide_false by (intros ->; done). rewrite Hi. cbn. rewrite !app_nil_r. eauto.
Qed.

Lemma log_insert_cons e es : log_insert (e :: es) = (log_insert [e] ++ log_insert es)%list.
Proof. by destruct e. Qed.

Lemma insert_loop_run n fuel es s :
  ov_log s = (es ≫= ievent_lines) -> Forall (ievent_ok fuel) es -> (length es < n)%nat ->
  exists lc cl, while_true n (insert_body fuel) s =
    (Ret tt, Ov [] (avg_latency s) (tail_latency s) (throughput s)
                (insert_avg_latency s ++ log_insert es)%list (RSS s) lc cl (printed s)).
Proof.
  intros Hlog Hes. revert n s Hlog.
  induction Hes as [|e es He Hes IH]; intros [|n] s Hlog Hn; try (cbn in Hn; lia).
  - exists (line_count s + 1), "". apply while_true_break. unfold insert_body, try_except.
    rewrite (bind_ret _ _ _ _ _ (ov_readline_count_nil s Hlog)).
    unfold count_line. cbn. rewrite !app_nil_r. do 3 f_equal. exact Hlog.
  - destruct (insert_body_event fuel e (mbind (M:=list) ievent_lines es) s He Hlog) as (lc & cl & Hb).
    rewrite (while_true_next _ _ _ _ Hb).
    edestruct (IH n) as (lc' & cl' & ->); [reflexivity|cbn in Hn; lia|].
    exists lc', cl'. cbn [avg_latency tail_latency throughput insert_avg_latency RSS printed].
    by rewrite (log_insert_cons e es), !app_assoc.
Qed.

Lemma mapM_int_div v l :
  mapM_out (fun z => int_div v z 1024) l =
  Ret ((fun z => match v with Py2 => NInt (z / 1024) | Py3 => NFloat (ratio_of_Z z 1024) end) <$> l).
Proof. apply mapM_out_ret. intros z _. by destruct v. Qed.

(** The memory column in megabytes: floored in Python 2, a float in Python 3. *)
Definition rss_mb (v : pyver) (z : Z) : cell :=
  match v with Py2 => CInt (z / 1024) | Py3 => CFloat (ratio_of_Z z 1024) end.

(** The table of a log read as [ss] by the first pass and as [is] by the
    second. *)
Definition log_table (v : pyver) (ss : list sevent) (is' : list ievent) : list (list cell) :=
  [ column "Search" "Avg Latency" (CFloat <$> log_avg ss);
    column " " "Tail Latency" (CFloat <$> log_tail ss);
    column "" "Throughput" (CFloat <$> log_qps ss);
    column "" "RSS" (rss_mb v <$> log_rss ss);
    pad (length (log_insert is')) (length (log_rss ss))
        (column "Insert" "Avg Latency" (CFloat <$> log_insert is')) ].

Lemma table_eq v log ss is' lc cl pr :
  table v (Ov log (log_avg ss) (log_tail ss) (log_qps ss) (log_insert is') (log_rss ss) lc cl pr) =
  Ret (log_table v ss is').
Proof.
  unfold table, log_table. cbn [RSS avg_latency tail_latency throughput insert_avg_latency].
  rewrite mapM_int_div. cbn [mbind outcome_bind]. rewrite <- list_fmap_compose.
  by rewrite (list_fmap_ext _ (rss_mb v) (log_rss ss)) by (intros i z _; by destruct v).
Qed.

(** A log the two passes read as [ss] and as [is], with enough fuel. *)
Record overall_log (v : pyver) (fuel : nat) (b : list byte) (ss : list sevent) (is' : list ievent) : Prop := OverallLog {
  ol_first : lines_of (text_of v b) = (ss ≫= sevent_lines);
  ol_second : lines_of (text_of v b) = (is' ≫= ievent_lines);
  ol_ss : Forall (sevent_ok fuel) ss;
  ol_is : Forall (ievent_ok fuel) is';
  ol_fuel : (length ss < fuel)%nat /\ (length is' < fuel)%nat
}.

(** After the two passes the script has the columns of the log. *)
Lemma overall_columns v fuel argv1 argv2 w b ss is' :
  fs w !! argv1 = Some b -> overall_log v fuel b ss is' ->
  process_spfresh v fuel argv1 argv2 w = (create_file argv2;; writerows argv2 (zip_rows (CStr "") (log_table v ss is'))) w.
Proof.
  intros Hb [Hl1 Hl2 Hss His [Hf1 Hf2]]. unfold process_spfresh.
  rewrite (bind_ret _ _ _ _ _ (open_lines_ok _ _ _ _ Hb)).
  destruct (search_loop_run fuel fuel ss (ov_start (lines_of (text_of v b))) Hl1 Hss Hf1) as (lc & cl & H1).
  erewrite bind_ret by (unfold run_local, search_pass; by rewrite H1).
  rewrite (bind_ret _ _ _ _ _ (open_lines_ok _ _ _ _ Hb)).
  set (s2 := set_ov_log (lines_of (text_of v b)) (search_state ss (ov_start (lines_of (text_of v b))) lc cl)).
  destruct (insert_loop_run fuel fuel is' s2 Hl2 His Hf2) as (lc' & cl' & H2).
  erewrite bind_ret by (unfold run_local, insert_pass; cbn [snd]; fold s2; by rewrite H2).
  by rewrite (bind_ret _ _ w w (log_table v ss is'))
    by (exact (f_equal (fun o => (o, w)) (table_eq v [] ss is' lc' cl' []))).
Qed.

(** ** Properties *)

(** C15: process_spfresh.py on a log that is a sequence of complete
    "Samppling" blocks and other lines for the first pass, and of complete
    insert-latency blocks and other lines for the second, returns and writes
    the csv file whose columns are the average and tail latencies, the
    throughputs, the memory values divided by 1024 and the insert latencies
    padded to the memory column, cut to the shortest column. *)
Theorem spfresh_writes_table v fuel argv1 argv2 w b ss is' :
  fs w !! argv1 = Some b -> overall_log v fuel b ss is' -> can_create w argv2 = true ->
  process_spfresh v fuel argv1 argv2 w =
    (Ret tt, put_file argv2 (bytes_of_str (csv_text (zip_rows (CStr "") (log_table v ss is')))) w).
Proof. intros Hb Hlog Hc. rewrite (overall_columns _ _ _ _ _ _ _ _ Hb Hlog). by apply create_rows. Qed.

(** C33: a log that ends inside a "Samppling" block (the benchmark was stopped
    there) makes process_spfresh.py loop for ever on the empty line [readline]
    returns. *)
Theorem spfresh_hangs_on_cut_block v fuel argv1 argv2 w b ss h its :
  fs w !! argv1 = Some b ->
  lines_of (text_of v b) = ((ss ≫= sevent_lines) ++ h :: (item_line <$> its))%list ->
  Forall (sevent_ok fuel) ss -> Forall item_ok its ->
  nonempty h = true -> is_sampling (split_ws h) = true ->
  (process_spfresh v fuel argv1 argv2 w).1 = OutOfFuel.
Proof.
  intros Hb Hl Hss Hits Hne Hs. unfold process_spfresh.
  rewrite (bind_ret _ _ _ _ _ (open_lines_ok _ _ _ _ Hb)).
  pose proof (search_loop_diverges fuel fuel ss h its (ov_start (lines_of (text_of v b))) Hl Hss Hits Hne Hs) as Hd.
  erewrite bind_fuel; [done|]. unfold run_local, search_pass.
  destruct (while_true _ _ _) as [o s]. cbn in Hd. by subst o.
Qed.

(** ** Witnesses *)

Definition demo_overall : list string :=
  ["a Samppling 1"; "a b c d RSS 5 6 7 8 9 10 11 12 13 14 15 2048"; "0 1 2 3 4 5 6 AvgQPS: 120.5.";
   "Total Latency Distribution:"; "Avg 50tiles"; "x 1.5 2 3 4 5 6.5"; "k Insert Latency"; "Avg ms"; "x 0.25"].
Definition demo_overall_lines : list string := (fun l => l ++ newline) <$> demo_overall.
Definition dline (i : nat) : string := nth i demo_overall_lines "".
Definition demo_ss : list sevent :=
  SBlock (dline 0) [IRss (dline 1) 2048; IQps (dline 2) (float_of_dec false 1205 (-1))]
         (dline 3) (dline 4) (dline 5) (float_of_dec false 15 (-1)) (float_of_dec false 65 (-1))
  :: (SNoise <$> drop 6 demo_overall_lines).
Definition demo_is : list ievent :=
  ((INoise <$> take 6 demo_overall_lines) ++
   [IBlock (dline 6) [dline 7] (dline 8) (float_of_dec false 25 (-2))])%list.
Definition demo_overall_world : world :=
  World {["log" := bytes_of_str (unlines demo_overall)]} ∅ [].

Lemma demo_overall_ok v n : (19 < n)%nat -> overall_log v n (bytes_of_str (unlines demo_overall)) demo_ss demo_is.
Proof.
  intros Hn. split.
  - destruct v; vm_compute; reflexivity.
  - destruct v; vm_compute; reflexivity.
  - repeat (apply Forall_cons_2 || apply Forall_nil_2 || split); try (vm_compute; reflexivity). cbn. lia.
  - repeat (apply Forall_cons_2 || apply Forall_nil_2 || split); try (vm_compute; reflexivity).
    + right. vm_compute. reflexivity.
    + cbn. lia.
  - cbn. lia.
Qed.

Lemma spfresh_writes_table_witness :
  process_spfresh Py3 20 "log" "out.csv" demo_overall_world =
    (Ret tt, put_file "out.csv" (bytes_of_str (csv_text (zip_rows (CStr "") (log_table Py3 demo_ss demo_is)))) demo_overall_world).
Proof.
  apply (spfresh_writes_table Py3 20 "log" "out.csv" demo_overall_world (bytes_of_str (unlines demo_overall)) demo_ss demo_is).
  - vm_compute. reflexivity.
  - apply demo_overall_ok. lia.
  - vm_compute. reflexivity.
Defined.

Lemma spfresh_hangs_on_cut_block_witness :
  (process_spfresh Py3 50 "log" "out.csv"
     (World {["log" := bytes_of_str ("a Samppling 1" ++ newline)]} ∅ [])).1 = OutOfFuel.
Proof.
  apply (spfresh_hangs_on_cut_block Py3 50 "log" "out.csv" _ (bytes_of_str ("a Samppling 1" ++ newline))
           [] ("a Samppling 1" ++ newline) []).
  1-2: vm_compute; reflexivity.
  1-2: constructor.
  all: vm_compute; reflexivity.
Defined.
