(* ===== verification/DiskannLogs.v ===== *)
(** * The DiskANN log (Figure 6): process_diskann.py

    The script groups the query reports of a log in batches, keeps four
    sample points of each batch, and writes them with the insert latencies.
    [int(batch_len) / number_point_per_batch] is an integer in Python 2 and a
    float, which is no list index, in Python 3. *)

From Stdlib Require Import Ascii SpecFloat.
From S2P Require Import Prelude PyStr PyFloat PyBytes PyIO LogWords.

Open Scope string_scope.
Open Scope Z_scope.

Record da := Da {
  da_log : list string;
  avg_latency : list float;
  tail_latency : list float;
  throughput : list float;
  insert_throughput : list float;
  RSS : list number;
  avg_latency_batch : list string;
  tail_latency_batch : list string;
  throughput_batch : list string;
  RSS_batch : list number;
  last_process : Z;
  memory : number;
  pre_result_group : option (list string);
  line_count : Z;
  printed : list string
}.

Definition set_da_log (l : list string) (s : da) : da :=
  Da l (avg_latency s) (tail_latency s) (throughput s) (insert_throughput s) (RSS s)
     (avg_latency_batch s) (tail_latency_batch s) (throughput_batch s) (RSS_batch s)
     (last_process s) (memory s) (pre_result_group s) (line_count s) (printed s).
Definition count_line (s : da) : da :=
  Da (da_log s) (avg_latency s) (tail_latency s) (throughput s) (insert_throughput s) (RSS s)
     (avg_latency_batch s) (tail_latency_batch s) (throughput_batch s) (RSS_batch s)
     (last_process s) (memory s) (pre_result_group s) (line_count s + 1) (printed s).
Definition add_print (m : string) (s : da) : da :=
  Da (da_log s) (avg_latency s) (tail_latency s) (throughput s) (insert_throughput s) (RSS s)
     (avg_latency_batch s) (tail_latency_batch s) (throughput_batch s) (RSS_batch s)
     (last_process s) (memory s) (pre_result_group s) (line_count s) (printed s ++ [m])%list.
Definition set_memory (m : float) (s : da) : da :=
  Da (da_log s) (avg_latency s) (tail_latency s) (throughput s) (insert_throughput s) (RSS s)
     (avg_latency_batch s) (tail_latency_batch s) (throughput_batch s) (RSS_batch s)
     (last_process s) (NFloat m) (pre_result_group s) (line_count s) (printed s).
Definition set_pre (g : list string) (s : da) : da :=
  Da (da_log s) (avg_latency s) (tail_latency s) (throughput s) (insert_throughput s) (RSS s)
     (avg_latency_batch s) (tail_latency_batch s) (throughput_batch s) (RSS_batch s)
     (last_process s) (memory s) (Some g) (line_count s) (printed s).
Definition set_last_process (z : Z) (s : da) : da :=
  Da (da_log s) (avg_latency s) (tail_latency s) (throughput s) (insert_throughput s) (RSS s)
     (avg_latency_batch s) (tail_latency_batch s) (throughput_batch s) (RSS_batch s)
     z (memory s) (pre_result_group s) (line_count s) (printed s).
Definition add_insert (x : float) (s : da) : da :=
  Da (da_log s) (avg_latency s) (tail_latency s) (throughput s) (insert_throughput s ++ [x])%list (RSS s)
     (avg_latency_batch s) (tail_latency_batch s) (throughput_batch s) (RSS_batch s)
     (last_process s) (memory s) (pre_result_group s) (line_count s) (printed s).
Definition add_avg (x : float) (s : da) : da :=
  Da (da_log s) (avg_latency s ++ [x])%list (tail_latency s) (throughput s) (insert_throughput s) (RSS s)
     (avg_latency_batch s) (tail_latency_batch s) (throughput_batch s) (RSS_batch s)
     (last_process s) (memory s) (pre_result_group s) (line_count s) (printed s).
Definition add_tail (x : float) (s : da) : da :=
  Da (da_log s) (avg_latency s) (tail_latency s ++ [x])%list (throughput s) (insert_throughput s) (RSS s)
     (avg_latency_batch s) (tail_latency_batch s) (throughput_batch s) (RSS_batch s)
     (last_process s) (memory s) (pre_result_group s) (line_count s) (printed s).
Definition add_throughput (x : float) (s : da) : da :=
  Da (da_log s) (avg_latency s) (tail_latency s) (throughput s ++ [x])%list (insert_throughput s) (RSS s)
     (avg_latency_batch s) (tail_latency_batch s) (throughput_batch s) (RSS_batch s)
     (last_process s) (memory s) (pre_result_group s) (line_count s) (printed s).
Definition add_RSS (x : number) (s : da) : da :=
  Da (da_log s) (avg_latency s) (tail_latency s) (throughput s) (insert_throughput s) (RSS s ++ [x])%list
     (avg_latency_batch s) (tail_latency_batch s) (throughput_batch s) (RSS_batch s)
     (last_process s) (memory s) (pre_result_group s) (line_count s) (printed s).
Definition set_batches (a t q : list string) (m : list number) (s : da) : da :=
  Da (da_log s) (avg_latency s) (tail_latency s) (throughput s) (insert_throughput s) (RSS s)
     a t q m (last_process s) (memory s) (pre_result_group s) (line_count s) (printed s).

#[global] Instance da_LogState : LogState da.
Proof. by refine {| log_f := da_log; set_log := set_da_log |}; intros; try destruct s. Defined.

Definition number_point_per_batch : Z := 4.
Definition number_thread : Z := 3.

(** [n / z] for an integer [z]. *)
Definition number_div (v : pyver) (n : number) (z : Z) : outcome number :=
  match n with
  | NInt a => int_div v a z
  | NFloat f => q ← fdiv f (float_of_Z z); Ret (NFloat q)
  end.

(** One sample point: the four appends of the loop body, in order. *)
Definition flush_point (v : pyver) (duration : number) (i : Z) : py da unit :=
  let k := number_add 0 (number_mul i duration) in
  s ← get_state;
  x ← lift (index_number (avg_latency_batch s) k ≫= float_of_str); modify (add_avg x);;
  x ← lift (index_number (tail_latency_batch s) k ≫= float_of_str); modify (add_tail x);;
  x ← lift (index_number (throughput_batch s) k ≫= float_of_str); modify (add_throughput x);;
  n ← lift (index_number (RSS_batch s) k ≫= fun n => number_div v n 1024 ≫= fun n => number_div v n 1024);
  modify (add_RSS n).

(** The sample points of a batch. *)
Definition flush_batch (v : pyver) : py da unit :=
  s ← get_state;
  duration ← lift (int_div v (Z.of_nat (length (avg_latency_batch s))) number_point_per_batch);
  for_each (py_range 0 number_point_per_batch) (flush_point v duration).

(** The words of the line before the report; unbound until one was read. *)
Definition get_pre : py da (list string) :=
  s ← get_state; match pre_result_group s with Some g => mret g | None => raise NameError end.

(** A "Queries" line. *)
Definition on_queries (v : pyver) (result_group : list string) : py da unit :=
  p ← lift (int_at result_group 2);
  s ← get_state;
  when (p <? last_process s) (flush_batch v;; modify (set_batches [] [] [] []));;
  pre ← get_pre;
  a ← lift (py_index pre 2);
  modify (fun s => set_batches (avg_latency_batch s ++ [a])%list (tail_latency_batch s) (throughput_batch s) (RSS_batch s) s);;
  t ← lift (py_index pre 7);
  modify (fun s => set_batches (avg_latency_batch s) (tail_latency_batch s ++ [t])%list (throughput_batch s) (RSS_batch s) s);;
  q ← lift (py_index pre 1);
  modify (fun s => set_batches (avg_latency_batch s) (tail_latency_batch s) (throughput_batch s ++ [q])%list (RSS_batch s) s);;
  modify (fun s => set_batches (avg_latency_batch s) (tail_latency_batch s) (throughput_batch s) (RSS_batch s ++ [memory s])%list s);;
  p ← lift (int_at result_group 2);
  modify (set_last_process p).

(** An "Inserted" line: [int(g[1]) / float(g[4].strip('s')) / number_thread]. *)
Definition on_inserted (result_group : list string) : py da unit :=
  n ← lift (int_at result_group 1);
  w ← lift (py_index result_group 4);
  d ← lift (float_of_str (strip_char "s" w));
  q ← lift (fdiv (float_of_Z n) d);
  q ← lift (fdiv q (float_of_Z number_thread));
  modify (add_insert q).

(** The body of the reading loop. A blank line has no first word: [IndexError],
    which the handler does not catch. *)
Definition read_body (v : pyver) : py da (option unit) :=
  try_except
    (line ← readline; modify count_line;;
     if bool_decide (line = "") then mret (Some tt)
     else
       let result_group := split_ws line in
       w0 ← lift (py_index result_group 0);
       when (bool_decide (w0 = "memory")) (m ← lift (float_at result_group 6); modify (set_memory m));;
       if bool_decide (w0 <> "Queries") && bool_decide (w0 <> "Inserted") then
         modify (set_pre result_group);; mret None
       else
         when (bool_decide (w0 = "Queries")) (on_queries v result_group);;
         when (bool_decide (w0 = "Inserted")) (on_inserted result_group);;
         mret None)
    (except AttributeError
       (s ← get_state;
        modify (add_print ("Error when processing [at line]: " ++ str_of_Z (line_count s)));;
        mret (Some tt))).

Definition da_start (lines : list string) : da :=
  Da lines [] [] [] [] [] [] [] [] [] 0 (NInt 0) None 0 [].

(** The columns of the table. *)
Definition table (s : da) : outcome (list (list cell)) :=
  ins ← mapM_out (fun x => fdiv (float_of_Z 1000000) x) (insert_throughput s);
  Ret [ column "Search" "Avg Latency" (CFloat <$> avg_latency s);
        column " " "Tail Latency" (CFloat <$> tail_latency s);
        column "" "Throughput" (CFloat <$> throughput s);
        column "" "RSS" (cell_of_number <$> RSS s);
        pad (length (insert_throughput s)) (length (RSS s))
            (column "Insert" "Avg Latency" (CFloat <$> ins)) ].

(** process_diskann.py: the last batch is always flushed. *)
Definition process_diskann (v : pyver) (fuel : nat) (argv1 argv2 : string) : py world unit :=
  lines ← open_lines v argv1;
  r ← run_local (while_true fuel (read_body v);; flush_batch v) (da_start lines);
  cols ← lift (table r.2);
  create_file argv2;;
  writerows argv2 (zip_rows (CStr "") cols).

(** ** Lemmas *)

Lemma flush_batch_py3 s : (flush_batch Py3 s).1 = Raise TypeError.
Proof. reflexivity. Qed.

Definition mb (n : number) : number :=
  match n with
  | NInt a => NInt (a / 1024 / 1024)
  | NFloat f => NFloat (SFdiv fprec femax (SFdiv fprec femax f (float_of_Z 1024)) (float_of_Z 1024))
  end.

Lemma number_div_mb n : (number_div Py2 n 1024 ≫= fun n => number_div Py2 n 1024) = Ret (mb n).
Proof. by destruct n. Qed.

Section flush_py2.
Context (xa xt xq : list float) (s0 : da).
Hypothesis Ha : mapM_out float_of_str (avg_latency_batch s0) = Ret xa.
Hypothesis Ht : mapM_out float_of_str (tail_latency_batch s0) = Ret xt.
Hypothesis Hq : mapM_out float_of_str (throughput_batch s0) = Ret xq.
Hypothesis Hlt : length (tail_latency_batch s0) = length (avg_latency_batch s0).
Hypothesis Hlq : length (throughput_batch s0) = length (avg_latency_batch s0).
Hypothesis Hlm : length (RSS_batch s0) = length (avg_latency_batch s0).
Hypothesis Hne : avg_latency_batch s0 <> [].

Let dur := NInt (Z.of_nat (length (avg_latency_batch s0)) / number_point_per_batch).
Let z := float_of_Z 0.

Definition pointed (i : Z) (s : da) : da :=
  add_RSS (mb (sample_at (NInt 0) 4 (RSS_batch s0) i))
    (add_throughput (sample_at z 4 xq i) (add_tail (sample_at z 4 xt i) (add_avg (sample_at z 4 xa i) s))).

Lemma pointed_Da i lo a t q ins r ba bt bq bm lp m pre lc pr :
  pointed i (Da lo a t q ins r ba bt bq bm lp m pre lc pr) =
  Da lo (a ++ [sample_at z 4 xa i])%list (t ++ [sample_at z 4 xt i])%list (q ++ [sample_at z 4 xq i])%list
     ins (r ++ [mb (sample_at (NInt 0) 4 (RSS_batch s0) i)])%list ba bt bq bm lp m pre lc pr.
Proof. reflexivity. Qed.

Lemma pointed_all s :
  pointed 3 (pointed 2 (pointed 1 (pointed 0 s))) =
  Da (da_log s) (avg_latency s ++ samples z 4 xa)%list (tail_latency s ++ samples z 4 xt)%list
     (throughput s ++ samples z 4 xq)%list (insert_throughput s)
     (RSS s ++ (mb <$> samples (NInt 0) 4 (RSS_batch s0)))%list
     (avg_latency_batch s) (tail_latency_batch s) (throughput_batch s) (RSS_batch s)
     (last_process s) (memory s) (pre_result_group s) (line_count s) (printed s).
Proof.
  destruct s. rewrite !pointed_Da. unfold samples. change (py_range 0 4) with [0; 1; 2; 3].
  cbn [fmap list_fmap]. rewrite <- !app_assoc. reflexivity.
Qed.

Lemma parse_sample (l : list string) xs i :
  mapM_out float_of_str l = Ret xs -> length l = length (avg_latency_batch s0) -> 0 <= i < 4 ->
  (index_number l (number_add 0 (number_mul i dur)) ≫= float_of_str) = Ret (sample_at z 4 xs i).
Proof.
  clear Ha Ht Hq Hlt Hlq Hlm. intros Hl Hlen Hi. unfold dur, number_point_per_batch. rewrite <- Hlen.
  assert (l <> []) by (intros ->; cbn in Hlen; by destruct (avg_latency_batch s0)).
  assert (0 < Z.of_nat (length l)) by (destruct l; cbn; [done|lia]).
  pose proof (sample_index_bound (Z.of_nat (length l)) 4 i ltac:(lia) Hi).
  rewrite (index_sample "" 4 l i) by done. cbn [mbind outcome_bind]. unfold sample_at.
  rewrite (mapM_out_length _ _ _ Hl). apply mapM_out_nth; [done|lia].
Qed.

Lemma flush_point_py2 i s :
  0 <= i < 4 ->
  avg_latency_batch s = avg_latency_batch s0 -> tail_latency_batch s = tail_latency_batch s0 ->
  throughput_batch s = throughput_batch s0 -> RSS_batch s = RSS_batch s0 ->
  flush_point Py2 dur i s = (Ret tt, pointed i s).
Proof.
  intros Hi E1 E2 E3 E4. unfold flush_point. erewrite bind_ret by reflexivity.
  rewrite E1, E2, E3, E4. unfold lift.
  rewrite (parse_sample _ _ i Ha eq_refl Hi), (parse_sample _ _ i Ht Hlt Hi), (parse_sample _ _ i Hq Hlq Hi).
  do 6 (erewrite bind_ret by reflexivity).
  assert (index_number (RSS_batch s0) (number_add 0 (number_mul i dur)) =
          Ret (sample_at (NInt 0) 4 (RSS_batch s0) i)) as ->.
  { unfold dur, number_point_per_batch. rewrite <- Hlm. apply index_sample; [|done].
    intros E. rewrite E in Hlm. by destruct (avg_latency_batch s0). }
  rewrite out_bind_ret, number_div_mb. reflexivity.
Qed.

Lemma flush_batch_py2 :
  flush_batch Py2 s0 =
    (Ret tt, Da (da_log s0) (avg_latency s0 ++ samples z 4 xa)%list (tail_latency s0 ++ samples z 4 xt)%list
                (throughput s0 ++ samples z 4 xq)%list (insert_throughput s0)
                (RSS s0 ++ (mb <$> samples (NInt 0) 4 (RSS_batch s0)))%list
                (avg_latency_batch s0) (tail_latency_batch s0) (throughput_batch s0) (RSS_batch s0)
                (last_process s0) (memory s0) (pre_result_group s0) (line_count s0) (printed s0)).
Proof.
  unfold flush_batch. erewrite bind_ret by reflexivity.
  rewrite (bind_ret _ _ s0 s0 dur) by reflexivity.
  change (py_range 0 number_point_per_batch) with [0; 1; 2; 3]. cbn [for_each].
  do 4 (erewrite bind_ret by (apply flush_point_py2; [lia|reflexivity..])).
  unfold mret, py_ret. f_equal. apply pointed_all.
Qed.
End flush_py2.

(** ** A whole log *)

(** What a line, or a report with the line of values before it, can be. *)
Inductive devent :=
  | DLine (line : string)
  | DMemory (line : string) (m : float)
  | DReport (pre line : string) (a t q : string) (p : Z)
  | DInserted (line : string) (x : float).

Definition devent_lines (e : devent) : list string :=
  match e with
  | DLine l | DMemory l _ | DInserted l _ => [l]
  | DReport pre l _ _ _ _ => [pre; l]
  end.

Definition first_word (l w : string) : Prop := l <> "" /\ py_index (split_ws l) 0 = Ret w.
Definition plain_line (l : string) : Prop := exists w, first_word l w /\ w ∉ ["memory"; "Queries"; "Inserted"].
Definition is_float (s : string) : Prop := exists x, float_of_str s = Ret x.

Definition devent_ok (e : devent) : Prop :=
  match e with
  | DLine l => plain_line l
  | DMemory l m => first_word l "memory" /\ float_at (split_ws l) 6 = Ret m
  | DReport pre l a t q p =>
      plain_line pre /\ py_index (split_ws pre) 2 = Ret a /\ py_index (split_ws pre) 7 = Ret t /\
      py_index (split_ws pre) 1 = Ret q /\ is_float a /\ is_float t /\ is_float q /\
      first_word l "Queries" /\ int_at (split_ws l) 2 = Ret p /\ 0 <= p
  | DInserted l x =>
      first_word l "Inserted" /\ exists n w d r,
        int_at (split_ws l) 1 = Ret n /\ py_index (split_ws l) 4 = Ret w /\ float_of_str (strip_char "s" w) = Ret d /\
        fdiv (float_of_Z n) d = Ret r /\ fdiv r (float_of_Z number_thread) = Ret x
  end.

(** One report: latency, tail latency, throughput and the memory known then. *)
Record dsample := Dsample { d_a : string; d_t : string; d_q : string; d_m : number }.

(** The batches of a log: a report whose count is below the last one's starts a
    new batch. *)
Fixpoint dbatches (cur : list dsample) (last : Z) (mem : number) (es : list devent) : list (list dsample) :=
  match es with
  | [] => [cur]
  | DLine _ :: es => dbatches cur last mem es
  | DMemory _ m :: es => dbatches cur last (NFloat m) es
  | DInserted _ _ :: es => dbatches cur last mem es
  | DReport _ _ a t q p :: es =>
      if p <? last then cur :: dbatches [Dsample a t q mem] p mem es
      else dbatches (cur ++ [Dsample a t q mem]) p mem es
  end.

Definition dinserts (es : list devent) : list float :=
  omap (fun e => match e with DInserted _ x => Some x | _ => None end) es.

Definition val (s : string) : float := match float_of_str s with Ret x => x | _ => float_of_Z 0 end.

(** The four points of every batch. *)
Definition points (f : dsample -> string) (bs : list (list dsample)) : list float :=
  bs ≫= (fun b => samples (float_of_Z 0) 4 (val ∘ f <$> b)).
Definition memories (bs : list (list dsample)) : list number :=
  bs ≫= (fun b => mb <$> samples (NInt 0) 4 (d_m <$> b)).

Definition sample_ok (x : dsample) : Prop := is_float (d_a x) /\ is_float (d_t x) /\ is_float (d_q x).

(** The lists of the current batch hold [cur]. *)
Definition lists (cur : list dsample) (s : da) : Prop :=
  avg_latency_batch s = d_a <$> cur /\ tail_latency_batch s = d_t <$> cur /\
  throughput_batch s = d_q <$> cur /\ RSS_batch s = d_m <$> cur /\ Forall sample_ok cur.
(** Only before the first report is the batch empty. *)
Definition holds (cur : list dsample) (s : da) : Prop :=
  lists cur s /\ 0 <= last_process s /\ (0 < last_process s -> cur <> []).

(** [s'] has the rows of the batches [bs] and the insertions [ins] more. *)
Definition extends (bs : list (list dsample)) (ins : list float) (s s' : da) : Prop :=
  avg_latency s' = (avg_latency s ++ points d_a bs)%list /\
  tail_latency s' = (tail_latency s ++ points d_t bs)%list /\
  throughput s' = (throughput s ++ points d_q bs)%list /\
  RSS s' = (RSS s ++ memories bs)%list /\
  insert_throughput s' = (insert_throughput s ++ ins)%list.

(** Steps that touch none of the columns, or only add an insertion. *)
Ltac extends_tac := unfold extends, points, memories; cbn; by rewrite ?app_nil_r.

Lemma extends_trans b1 b2 i1 i2 s1 s2 s3 :
  extends b1 i1 s1 s2 -> extends b2 i2 s2 s3 -> extends (b1 ++ b2) (i1 ++ i2) s1 s3.
Proof.
  unfold extends, points, memories. intros (? & ? & ? & ? & ?) (? & ? & ? & ? & ?).
  rewrite !bind_app, !app_assoc. split_and!; congruence.
Qed.

Lemma val_mapM (f : dsample -> string) cur :
  Forall (fun x => is_float (f x)) cur -> mapM_out float_of_str (f <$> cur) = Ret (val ∘ f <$> cur).
Proof.
  induction 1 as [|x cur [v Hx] HF IH]; [done|]. rewrite !fmap_cons. cbn [mapM_out]. rewrite Hx. cbn [mbind outcome_bind].
  rewrite IH. cbn. unfold val at 2. by rewrite Hx.
Qed.

Lemma flush_holds cur s :
  lists cur s -> cur <> [] ->
  exists s', flush_batch Py2 s = (Ret tt, s') /\ extends [cur] [] s s' /\ da_log s' = da_log s /\
    last_process s' = last_process s /\ memory s' = memory s /\ pre_result_group s' = pre_result_group s.
Proof.
  intros (Ha & Ht & Hq & Hm & HF) Hne.
  assert (Forall (fun x => is_float (d_a x)) cur) as F1 by (eapply Forall_impl; [exact HF|]; by intros x (? & ? & ?)).
  assert (Forall (fun x => is_float (d_t x)) cur) as F2 by (eapply Forall_impl; [exact HF|]; by intros x (? & ? & ?)).
  assert (Forall (fun x => is_float (d_q x)) cur) as F3 by (eapply Forall_impl; [exact HF|]; by intros x (? & ? & ?)).
  eexists. split.
  - apply (flush_batch_py2 (val ∘ d_a <$> cur) (val ∘ d_t <$> cur) (val ∘ d_q <$> cur) s);
      rewrite ?Ha, ?Ht, ?Hq, ?Hm, ?length_fmap; try done; try by apply val_mapM. by destruct cur.
  - unfold extends, points, memories. cbn. by rewrite Hm, !app_nil_r.
Qed.

Lemma try_ret {S A} (m : py S A) h s s' a : m s = (Ret a, s') -> try_except m h s = (Ret a, s').
Proof. unfold try_except. by intros ->. Qed.

(** The state after a line was read. *)
Definition past (ls : list string) (s : da) : da := count_line (set_da_log ls s).

(** A line with a first word: what follows the tests for the end of the file. *)
Lemma read_body_line v l ls w0 s r s' :
  da_log s = l :: ls -> first_word l w0 ->
  (when (bool_decide (w0 = "memory")) (m ← lift (float_at (split_ws l) 6); modify (set_memory m));;
   if bool_decide (w0 <> "Queries") && bool_decide (w0 <> "Inserted") then
     modify (set_pre (split_ws l));; mret None
   else
     when (bool_decide (w0 = "Queries")) (on_queries v (split_ws l));;
     when (bool_decide (w0 = "Inserted")) (on_inserted (split_ws l));;
     mret None) (past ls s) = (Ret r, s') ->
  read_body v s = (Ret r, s').
Proof.
  intros Hl [Hne Hw] H. unfold read_body. apply try_ret.
  erewrite bind_ret by by apply (readline_cons s l ls). erewrite bind_ret by reflexivity.
  rewrite bool_decide_false by done. cbv zeta. rewrite Hw. by erewrite bind_ret by reflexivity.
Qed.

Lemma step_plain v l ls s :
  da_log s = l :: ls -> plain_line l -> read_body v s = (Ret None, set_pre (split_ws l) (past ls s)).
Proof.
  intros Hl (w & Hw & Hn). eapply read_body_line; [done|done|].
  rewrite (bool_decide_false (w = "memory")) by set_solver. erewrite bind_ret by reflexivity.
  rewrite (bool_decide_true (w <> "Queries")), (bool_decide_true (w <> "Inserted")) by set_solver. reflexivity.
Qed.

Lemma step_memory v l ls m s :
  da_log s = l :: ls -> first_word l "memory" -> float_at (split_ws l) 6 = Ret m ->
  read_body v s = (Ret None, set_pre (split_ws l) (set_memory m (past ls s))).
Proof. intros Hl Hw Hm. eapply read_body_line; [done|done|]. rewrite Hm. reflexivity. Qed.

Lemma step_inserted v l ls x s :
  da_log s = l :: ls -> devent_ok (DInserted l x) -> read_body v s = (Ret None, add_insert x (past ls s)).
Proof.
  intros Hl (Hw & n & w & d & r & H1 & H2 & H3 & H4 & H5). eapply read_body_line; [done|done|].
  assert (on_inserted (split_ws l) (past ls s) = (Ret tt, add_insert x (past ls s))) as H.
  { unfold on_inserted. rewrite H1, H2. do 2 erewrite bind_ret by reflexivity. rewrite H3. erewrite bind_ret by reflexivity.
    rewrite H4. erewrite bind_ret by reflexivity. rewrite H5. by erewrite bind_ret by reflexivity. }
  erewrite bind_ret by reflexivity. change (bool_decide _ && bool_decide _) with false. cbn iota.
  erewrite bind_ret by reflexivity. by erewrite bind_ret by exact H.
Qed.

(** The part of [on_queries] after the test for a new batch. *)
Lemma append_report l a t q p g s cur :
  int_at (split_ws l) 2 = Ret p -> 0 <= p ->
  py_index g 2 = Ret a -> py_index g 7 = Ret t -> py_index g 1 = Ret q -> is_float a -> is_float t -> is_float q ->
  lists cur s -> pre_result_group s = Some g ->
  exists s', (pre ← get_pre;
      a ← lift (py_index pre 2);
      modify (fun s => set_batches (avg_latency_batch s ++ [a])%list (tail_latency_batch s) (throughput_batch s) (RSS_batch s) s);;
      t ← lift (py_index pre 7);
      modify (fun s => set_batches (avg_latency_batch s) (tail_latency_batch s ++ [t])%list (throughput_batch s) (RSS_batch s) s);;
      q ← lift (py_index pre 1);
      modify (fun s => set_batches (avg_latency_batch s) (tail_latency_batch s) (throughput_batch s ++ [q])%list (RSS_batch s) s);;
      modify (fun s => set_batches (avg_latency_batch s) (tail_latency_batch s) (throughput_batch s) (RSS_batch s ++ [memory s])%list s);;
      p ← lift (int_at (split_ws l) 2);
      modify (set_last_process p)) s = (Ret tt, s') /\
    holds (cur ++ [Dsample a t q (memory s)]) s' /\ extends [] [] s s' /\
    da_log s' = da_log s /\ last_process s' = p /\ memory s' = memory s.
Proof.
  intros Hp Hp0 H2 H7 H1 Fa Ft Fq (Ba & Bt & Bq & Bm & HF) Hg. eexists. split.
  - unfold get_pre. erewrite bind_ret by (erewrite bind_ret by reflexivity; by rewrite Hg).
    rewrite H2, H7, H1, Hp. do 8 erewrite bind_ret by reflexivity. reflexivity.
  - split; [|split; [extends_tac|done]]. unfold holds, lists. cbn. rewrite Ba, Bt, Bq, Bm, !fmap_app.
    split_and!; try done; [|by destruct cur]. apply Forall_app_2; [done|]. by constructor.
Qed.

(** A report: the batch grows, after the last one was sampled if a new one starts. *)
Lemma step_queries l ls cur a t q p g s :
  da_log s = l :: ls -> first_word l "Queries" -> int_at (split_ws l) 2 = Ret p -> 0 <= p ->
  pre_result_group s = Some g -> py_index g 2 = Ret a -> py_index g 7 = Ret t -> py_index g 1 = Ret q ->
  is_float a -> is_float t -> is_float q -> holds cur s ->
  let x := Dsample a t q (memory s) in
  exists s', read_body Py2 s = (Ret None, s') /\ da_log s' = ls /\ last_process s' = p /\ memory s' = memory s /\
    if p <? last_process s then holds [x] s' /\ extends [cur] [] s s'
    else holds (cur ++ [x]) s' /\ extends [] [] s s'.
Proof.
  intros Hl Hw Hp Hp0 Hg H2 H7 H1 Fa Ft Fq Hh x.
  assert (forall r s', on_queries Py2 (split_ws l) (past ls s) = (Ret r, s') -> read_body Py2 s = (Ret None, s')) as Hread.
  { intros r s' H. eapply read_body_line; [done|done|]. erewrite bind_ret by reflexivity.
    change (bool_decide _ && bool_decide _) with false. cbn iota. erewrite bind_ret by exact H.
    by erewrite bind_ret by reflexivity. }
  pose proof Hh as (Hlists & Hlast & Hnil).
  pose proof (append_report l a t q p g) as Hadd.
  unfold on_queries in Hread. destruct (Z.ltb_spec p (last_process s)) as [Hlt|Hge].
  - destruct (flush_holds cur (past ls s)) as (s1 & Hf & Hext & Hlog & _ & Hmem & Hpre); [exact Hlists|apply Hnil; lia|].
    destruct (Hadd (set_batches [] [] [] [] s1) []) as (s' & H & Hh' & Hext' & Hlog' & Hlast' & Hmem');
      [done..|by cbn; rewrite Hpre|].
    assert (memory (set_batches [] [] [] [] s1) = memory s) as Em by exact Hmem. rewrite Em in Hh', Hmem'. clear Em.
    exists s'. split.
    { eapply Hread. rewrite (bind_ret _ _ (past ls s) (past ls s) p) by (unfold lift; by rewrite Hp). erewrite bind_ret by reflexivity.
      erewrite bind_ret; [exact H|]. unfold when. cbn [last_process past count_line set_da_log].
      rewrite (proj2 (Z.ltb_lt _ _) Hlt). erewrite bind_ret by exact Hf. reflexivity. }
    split; [rewrite Hlog'; exact Hlog|]. split; [done|]. split; [exact Hmem'|]. split; [exact Hh'|].
    exact (extends_trans [cur] [] [] [] _ s1 _ Hext Hext').
  - destruct (Hadd (past ls s) cur) as (s' & H & Hh' & Hext' & Hlog' & Hlast' & Hmem'); [done..|].
    exists s'. split.
    { eapply Hread. rewrite (bind_ret _ _ (past ls s) (past ls s) p) by (unfold lift; by rewrite Hp). erewrite bind_ret by reflexivity.
      erewrite bind_ret; [exact H|]. unfold when. cbn [last_process past count_line set_da_log].
      rewrite (proj2 (Z.ltb_ge _ _) Hge). reflexivity. }
    done.
Qed.

Definition is_report (e : devent) : bool := match e with DReport _ _ _ _ _ _ => true | _ => false end.

(** The reading loop and the last batch, from any state. *)
Lemma diskann_run fuel es cur s :
  da_log s = (es ≫= devent_lines) -> Forall devent_ok es -> holds cur s ->
  (cur <> [] \/ existsb is_report es = true) -> (2 * length es < fuel)%nat ->
  exists s', (while_true fuel (read_body Py2);; flush_batch Py2) s = (Ret tt, s') /\
    extends (dbatches cur (last_process s) (memory s) es) (dinserts es) s s'.
Proof.
  intros Hl HF. revert fuel cur s Hl. induction HF as [|e es He HF IH]; intros fuel cur s Hl Hh Hne Hfuel.
  - destruct fuel as [|fuel]; [cbn in Hfuel; lia|]. assert (cur <> []) as Hcur by (destruct Hne; done).
    destruct (flush_holds cur (count_line s)) as (s' & Hf & He & _); [apply Hh|done|].
    exists s'. split; [|exact He]. erewrite bind_ret; [exact Hf|]. apply while_true_break. unfold read_body. apply try_ret.
    erewrite bind_ret by by apply readline_nil. by erewrite bind_ret by reflexivity.
  - destruct fuel as [|fuel]; [lia|]. cbn [length] in Hfuel.
    assert (forall s1 bs ins, read_body Py2 s = (Ret None, s1) -> extends bs ins s s1 ->
      (exists s', (while_true fuel (read_body Py2);; flush_batch Py2) s1 = (Ret tt, s') /\
         extends (dbatches cur (last_process s1) (memory s1) es) (dinserts es) s1 s') ->
      exists s', (while_true (S fuel) (read_body Py2);; flush_batch Py2) s = (Ret tt, s') /\
         extends (bs ++ dbatches cur (last_process s1) (memory s1) es) (ins ++ dinserts es) s s') as Hnext.
    { intros s1 bs ins H1 He1 (s' & H' & He'). exists s'. split; [|by eapply extends_trans].
      unfold mbind, py_bind. by rewrite (while_true_next _ _ _ _ H1). }
    destruct e as [l|l m|pre l a t q p|l x]; cbn [devent_lines devent_ok] in *.
    + apply (Hnext (set_pre (split_ws l) (past (es ≫= devent_lines) s)) [] []); [by apply step_plain|extends_tac|].
      apply IH; [done|exact Hh|done|lia].
    + apply (Hnext (set_pre (split_ws l) (set_memory m (past (es ≫= devent_lines) s))) [] []);
        [by apply step_memory; [| apply He..]|extends_tac|]. apply IH; [done|exact Hh|done|lia].
    + destruct He as (Hpre & H2 & H7 & H1 & Fa & Ft & Fq & Hw & Hp & Hp0).
      set (s1 := set_pre (split_ws pre) (past (l :: (es ≫= devent_lines)) s)).
      assert (read_body Py2 s = (Ret None, s1)) as Hs1 by by apply step_plain.
      destruct (step_queries l (es ≫= devent_lines) cur a t q p (split_ws pre) s1) as (s2 & H & Hlog & Hlast & Hmem & Hcase); try done.
      destruct fuel as [|fuel]; [lia|].
      change (last_process s1) with (last_process s) in Hcase. change (memory s1) with (memory s) in *.
      cbn [dbatches dinserts omap list_omap].
      assert (forall cur', holds cur' s2 -> cur' <> [] -> forall bs, extends bs [] s s2 ->
        exists s', (while_true (S (S fuel)) (read_body Py2);; flush_batch Py2) s = (Ret tt, s') /\
          extends (bs ++ dbatches cur' p (memory s) es) (dinserts es) s s') as Hgo.
      { intros cur' Hh' Hc' bs Hext. destruct (IH fuel cur' s2 Hlog Hh' (or_introl Hc') ltac:(lia)) as (s' & H' & He').
        exists s'. rewrite Hlast, Hmem in He'. split; [|by apply (extends_trans bs _ [] _ _ s2)].
        unfold mbind, py_bind. by rewrite (while_true_next _ _ _ _ Hs1), (while_true_next _ _ _ _ H). }
      destruct (p <? last_process s); destruct Hcase as [Hh' Hext].
      * by apply (Hgo [Dsample a t q (memory s)] Hh' ltac:(done) [cur]).
      * apply (Hgo (cur ++ [Dsample a t q (memory s)])%list Hh' ltac:(by destruct cur) []). exact Hext.
    + apply (Hnext (add_insert x (past (es ≫= devent_lines) s)) [] [x]); [by apply (step_inserted _ l)|extends_tac|].
      apply IH; [done|exact Hh|done|lia].
Qed.

(** The table of the batches [bs] and the insert latencies [ins]. *)
Definition diskann_table (bs : list (list dsample)) (ins : list float) : list (list cell) :=
  [ column "Search" "Avg Latency" (CFloat <$> points d_a bs);
    column " " "Tail Latency" (CFloat <$> points d_t bs);
    column "" "Throughput" (CFloat <$> points d_q bs);
    column "" "RSS" (cell_of_number <$> memories bs);
    pad (length ins) (length (memories bs)) (column "Insert" "Avg Latency" (CFloat <$> ins)) ].

(** A log of the events [es], with a report among them, whose insert times give
    the latencies [ins]. *)
Record diskann_log (fuel : nat) (b : list byte) (es : list devent) (ins : list float) : Prop := DiskannLog {
  dl_lines : lines_of (text_of Py2 b) = (es ≫= devent_lines);
  dl_ok : Forall devent_ok es;
  dl_report : existsb is_report es = true;
  dl_fuel : (2 * length es < fuel)%nat;
  dl_ins : mapM_out (fun x => fdiv (float_of_Z 1000000) x) (dinserts es) = Ret ins
}.

Lemma diskann_columns fuel argv1 argv2 w b es ins :
  fs w !! argv1 = Some b -> diskann_log fuel b es ins ->
  process_diskann Py2 fuel argv1 argv2 w =
    (create_file argv2;; writerows argv2 (zip_rows (CStr "") (diskann_table (dbatches [] 0 (NInt 0) es) ins))) w.
Proof.
  intros Hb [Hl HF Hr Hf Hins]. unfold process_diskann. rewrite (bind_ret _ _ _ _ _ (open_lines_ok _ _ _ _ Hb)).
  destruct (diskann_run fuel es [] (da_start (lines_of (text_of Py2 b)))) as (s' & H & Ea & Et & Eq & Er & Ei);
    [exact Hl|done|done|by right|done|].
  erewrite bind_ret by (unfold run_local; by rewrite H). cbn [snd]. cbn in Ea, Et, Eq, Er, Ei.
  rewrite (bind_ret _ _ w w (diskann_table (dbatches [] 0 (NInt 0) es) ins)).
  2: { unfold lift, table. rewrite Ea, Et, Eq, Er, Ei, Hins. cbn [mbind outcome_bind]. unfold diskann_table.
       by rewrite (mapM_out_length _ _ _ Hins). }
  done.
Qed.

(** ** Properties *)

(** C29: under Python 2 process_diskann.py, on a log of query reports (each after
    a line with its values), memory readings, insert reports and other lines,
    ends and writes the csv file of its batches: a report with a lower count
    than the one before starts a batch, each batch gives the four evenly spaced
    points of its latencies, throughputs and memory readings, and the insert
    latencies are the last column, padded to the memory column. *)
Theorem diskann_writes_table_py2 fuel argv1 argv2 w b es ins :
  fs w !! argv1 = Some b -> diskann_log fuel b es ins -> can_create w argv2 = true ->
  process_diskann Py2 fuel argv1 argv2 w =
    (Ret tt, put_file argv2 (bytes_of_str (csv_text (zip_rows (CStr "") (diskann_table (dbatches [] 0 (NInt 0) es) ins)))) w).
Proof. intros Hb Hlog Hc. rewrite (diskann_columns _ _ _ _ _ _ _ Hb Hlog). by apply create_rows. Qed.

(** Under Python 3 process_diskann.py never writes its table: every run
    that reaches the end of the log flushes the last batch, and the first
    sample index is a float. No file changes, whatever the log holds. *)
Theorem diskann_never_succeeds_py3 fuel argv1 argv2 w :
  exists o, process_diskann Py3 fuel argv1 argv2 w = (o, w) /\ o <> Ret tt.
Proof.
  unfold process_diskann, open_lines, read_file, mbind, py_bind.
  destruct (fs w !! argv1) as [b|]; [|by exists (Raise FileNotFoundError)].
  unfold mret, py_ret, run_local.
  destruct (while_true fuel (read_body Py3) (da_start (lines_of (text_of Py3 b)))) as [[u|e|] s].
  - pose proof (flush_batch_py3 s) as H. destruct (flush_batch Py3 s) as [o s']. cbn in H. subst o.
    by exists (Raise TypeError).
  - by exists (Raise e).
  - by exists OutOfFuel.
Qed.

(** Under Python 2 a batch of n > 0 complete reports adds to each column
    exactly the values at positions 0, n/4, 2(n/4) and 3(n/4), the memory
    divided twice by 1024, and leaves the rest of the state alone. *)
Theorem diskann_flush_samples_py2 xa xt xq s :
  mapM_out float_of_str (avg_latency_batch s) = Ret xa ->
  mapM_out float_of_str (tail_latency_batch s) = Ret xt ->
  mapM_out float_of_str (throughput_batch s) = Ret xq ->
  length (tail_latency_batch s) = length (avg_latency_batch s) ->
  length (throughput_batch s) = length (avg_latency_batch s) ->
  length (RSS_batch s) = length (avg_latency_batch s) ->
  avg_latency_batch s <> [] ->
  exists s', flush_batch Py2 s = (Ret tt, s') /\
    avg_latency s' = (avg_latency s ++ samples (float_of_Z 0) 4 xa)%list /\
    tail_latency s' = (tail_latency s ++ samples (float_of_Z 0) 4 xt)%list /\
    throughput s' = (throughput s ++ samples (float_of_Z 0) 4 xq)%list /\
    RSS s' = (RSS s ++ (mb <$> samples (NInt 0) 4 (RSS_batch s)))%list /\
    insert_throughput s' = insert_throughput s /\ last_process s' = last_process s.
Proof.
  intros Ha Ht Hq Hlt Hlq Hlm Hne.
  eexists. split; [exact (flush_batch_py2 xa xt xq s Ha Ht Hq Hlt Hlq Hlm Hne)|]. done.
Qed.

(** ** Witnesses *)

Definition demo_da : da :=
  Da [] [] [] [] [] [] ["1"; "2"; "3"; "4"; "5"] ["6"; "7"; "8"; "9"; "10"]
     ["1.5"; "2.5"; "3.5"; "4.5"; "5.5"] (NInt <$> [1; 2; 3; 4; 5]) 0 (NInt 0) None 0 [].

Lemma diskann_flush_samples_py2_witness :
  exists s', flush_batch Py2 demo_da = (Ret tt, s') /\
    avg_latency s' = samples (float_of_Z 0) 4 (float_of_Z <$> [1; 2; 3; 4; 5]).
Proof.
  destruct (diskann_flush_samples_py2 (float_of_Z <$> [1; 2; 3; 4; 5]) (float_of_Z <$> [6; 7; 8; 9; 10])
              ((fun m => float_of_dec false m (-1)) <$> [15; 25; 35; 45; 55]) demo_da) as (s' & H & Ha & _).
  1-6: vm_compute; reflexivity.
  - done.
  - exists s'. split; [exact H|exact Ha].
Defined.

Definition demo_line : string := "QPS 12.5 100.5 a b c d 300" ++ newline.
Definition demo_events : list devent :=
  [DMemory ("memory a b c d e 2097152" ++ newline) (float_of_Z 2097152);
   DReport demo_line ("Queries processed 7" ++ newline) "100.5" "300" "12.5" 7;
   DInserted ("Inserted 300 a b 10s" ++ newline) (float_of_Z 10);
   DReport demo_line ("Queries processed 3" ++ newline) "100.5" "300" "12.5" 3].
Definition demo_log : string := String.concat "" (demo_events ≫= devent_lines).
Definition demo_world : world := World {[ "diskann.log" := bytes_of_str demo_log ]} ∅ [].

Lemma demo_diskann_ok n : (8 < n)%nat -> diskann_log n (bytes_of_str demo_log) demo_events [float_of_Z 100000].
Proof.
  intros Hn. split.
  - vm_compute. reflexivity.
  - assert (plain_line demo_line) as Hp.
    { exists "QPS". split; [by split|]. set_solver. }
    repeat apply Forall_cons_2; [..|apply Forall_nil_2]; cbn [devent_ok].
    + split; [by split|]. vm_compute. reflexivity.
    + split_and!; try done; try by eexists; vm_compute.
    + split; [by split|]. exists 300, "10s", (float_of_Z 10), (float_of_Z 30). split_and!; vm_compute; reflexivity.
    + split_and!; try done; try by eexists; vm_compute.
  - reflexivity.
  - cbn. lia.
  - vm_compute. reflexivity.
Qed.

Lemma diskann_writes_table_py2_witness :
  process_diskann Py2 9 "diskann.log" "out.csv" demo_world =
    (Ret tt, put_file "out.csv" (bytes_of_str (csv_text (zip_rows (CStr "")
       (diskann_table (dbatches [] 0 (NInt 0) demo_events) [float_of_Z 100000])))) demo_world).
Proof.
  apply (diskann_writes_table_py2 9 "diskann.log" "out.csv" demo_world (bytes_of_str demo_log)).
  - reflexivity.
  - apply demo_diskann_ok. lia.
  - reflexivity.
Defined.
