(* ===== verification/StressLogs.v ===== *)
(** * The stress-test log (Figure 8): process_stress_test.py

    The search reports of an update batch are collected until the progress
    counter wraps, three sample points of each batch are kept, and a second
    pass collects the insert latencies; two csv files are written. The batch
    of I/O rates is the one list that is not emptied after a batch. *)

From Stdlib Require Import Ascii.
From S2P Require Import Prelude PyStr PyFloat PyBytes PyIO LogWords OverallLogs.

Open Scope string_scope.
Open Scope Z_scope.

(** The lists a batch fills. *)
Record batch := Batch {
  b_avg : list float;
  b_tail : list float;
  b_thr : list float;
  b_rss : list Z;
  b_kiops : list float
}.

(** [base] holds the variables this script shares with process_spfresh.py
    (the log, the result lists, the counter); [this_process] is unbound until a
    "Samppling" line was read. *)
Record st := St {
  base : ov;
  KIOPS : list float;
  cur : batch;
  last_progress : Z;
  this_process : option Z
}.

Definition on_base (f : ov -> ov) (s : st) : st :=
  St (f (base s)) (KIOPS s) (cur s) (last_progress s) (this_process s).
Definition on_cur (f : batch -> batch) (s : st) : st :=
  St (base s) (KIOPS s) (f (cur s)) (last_progress s) (this_process s).
Definition set_this (z : Z) (s : st) : st := St (base s) (KIOPS s) (cur s) (last_progress s) (Some z).
Definition set_last (z : Z) (s : st) : st := St (base s) (KIOPS s) (cur s) z (this_process s).
Definition add_KIOPS (x : float) (s : st) : st :=
  St (base s) (KIOPS s ++ [x])%list (cur s) (last_progress s) (this_process s).

Definition push_rss (z : Z) (b : batch) : batch :=
  Batch (b_avg b) (b_tail b) (b_thr b) (b_rss b ++ [z])%list (b_kiops b).
Definition push_thr (x : float) (b : batch) : batch :=
  Batch (b_avg b) (b_tail b) (b_thr b ++ [x])%list (b_rss b) (b_kiops b).
Definition push_avg (x : float) (b : batch) : batch :=
  Batch (b_avg b ++ [x])%list (b_tail b) (b_thr b) (b_rss b) (b_kiops b).
Definition push_tail (x : float) (b : batch) : batch :=
  Batch (b_avg b) (b_tail b ++ [x])%list (b_thr b) (b_rss b) (b_kiops b).
Definition push_kiops (x : float) (b : batch) : batch :=
  Batch (b_avg b) (b_tail b) (b_thr b) (b_rss b) (b_kiops b ++ [x])%list.
(** The four assignments after a flush; [KIOPS_batch] is not among them. *)
Definition reset_batch (b : batch) : batch := Batch [] [] [] [] (b_kiops b).

Definition set_st_log (l : list string) (s : st) : st := on_base (set_ov_log l) s.

#[global] Instance st_LogState : LogState st.
Proof.
  by refine {| log_f s := ov_log (base s); set_log := set_st_log |}; intros; destruct s as [[] ? ? ? ?].
Defined.

Definition points_per_batch : Z := 3.

Definition st_readline : py st string :=
  line ← readline; modify (on_base (count_line line));; mret line.

(** One sample point; [float] of a float is that float. *)
Definition stress_point (duration : number) (i : Z) : py st unit :=
  let k := number_add 0 (number_mul i duration) in
  s ← get_state;
  x ← lift (index_number (b_avg (cur s)) k); modify (on_base (add_avg x));;
  x ← lift (index_number (b_tail (cur s)) k); modify (on_base (add_tail x));;
  x ← lift (index_number (b_thr (cur s)) k); modify (on_base (add_throughput x));;
  z ← lift (index_number (b_rss (cur s)) k); modify (on_base (add_RSS z));;
  x ← lift (index_number (b_kiops (cur s)) k); modify (add_KIOPS x).

Definition stress_flush (v : pyver) : py st unit :=
  s ← get_state;
  duration ← lift (int_div v (Z.of_nat (length (b_avg (cur s)))) points_per_batch);
  for_each (py_range 0 points_per_batch) (stress_point duration).

(** [while not read]: skip lines whose second word is not a number; a line
    with fewer words is an [IndexError]. *)
Fixpoint stress_number (fuel : nat) (result_group : list string) : py st (list string) :=
  match fuel with
  | O => fun s => (OutOfFuel, s)
  | S n => match float_at result_group 1 with
           | Ret data => mret result_group
           | Raise ValueError => line ← st_readline; stress_number n (split_ws line)
           | Raise e => raise e
           | OutOfFuel => fun s => (OutOfFuel, s)
           end
  end.

(** [while not done]: one report of the batch. *)
Definition report_body (fuel : nat) : py st (option unit) :=
  line ← st_readline;
  let result_group := split_ws line in
  if is_rss result_group then
    z ← lift (int_at result_group 16); modify (on_cur (push_rss z));; mret None
  else if is_qps result_group then
    q ← lift (float_rstrip_at "." result_group 8); modify (on_cur (push_thr q));; mret None
  else if is_total_latency result_group then
    st_readline;;
    line ← st_readline;
    g ← stress_number fuel (split_ws line);
    a ← lift (float_at g 1); modify (on_cur (push_avg a));;
    t ← lift (float_at g 5); modify (on_cur (push_tail t));;
    mret (Some tt)
  else mret None.

Definition stress_report (fuel : nat) : py st unit := while_true fuel (report_body fuel).

(** [while result_group[0] != 'IOPS:']: a blank line or the end of the file is
    an [IndexError]. *)
Fixpoint find_iops (fuel : nat) (result_group : list string) : py st (list string) :=
  match fuel with
  | O => fun s => (OutOfFuel, s)
  | S n => b ← lift (word_eq result_group 0 "IOPS:");
           if (b : bool) then mret result_group
           else line ← st_readline; find_iops n (split_ws line)
  end.

(** The report and the I/O rate after it. *)
Definition read_report (fuel : nat) : py st unit :=
  stress_report fuel;;
  line ← st_readline;
  g ← find_iops fuel (split_ws line);
  x ← lift (float_rstrip_at "k" g 1);
  modify (on_cur (push_kiops x)).

(** A "Samppling" line. *)
Definition on_sampling (v : pyver) (fuel : nat) (result_group : list string) : py st unit :=
  p ← lift (int_at result_group 3);
  let p := p mod 10000000 in
  modify (set_this p);;
  s ← get_state;
  when (p <? last_progress s) (stress_flush v;; modify (on_cur reset_batch));;
  when (negb (p =? 0)) (read_report fuel);;
  modify (set_last p).

Definition st_report_break (with_line : bool) : py st (option unit) :=
  s ← get_state;
  modify (on_base (add_print ("Error when processing [at line]: " ++ str_of_Z (line_count (base s))
            ++ (if with_line then ": " ++ cur_line (base s) else ""))));;
  mret (Some tt).

Definition stress_body (v : pyver) (fuel : nat) : py st (option unit) :=
  try_except
    (line ← st_readline;
     if bool_decide (line = "") then mret (Some tt)
     else
       let result_group := split_ws line in
       when (is_sampling result_group) (on_sampling v fuel result_group);;
       mret None)
    (orexcept (except AttributeError (st_report_break false)) (except ValueError (st_report_break true))).

(** The first pass. *)
Definition stress_pass (v : pyver) (fuel : nat) : py st unit := while_true fuel (stress_body v fuel).

(** The second pass is the insert pass of process_spfresh.py. *)
Definition stress_insert_pass (fuel : nat) : py st unit := fun s =>
  match insert_pass fuel (base s) with (r, b) => (r, on_base (fun _ => b) s) end.

(** [if this_process != 0: ...] after the passes: the last batch. *)
Definition last_flush (v : pyver) : py st unit :=
  s ← get_state;
  match this_process s with
  | None => raise NameError
  | Some p => when (negb (p =? 0))
                (modify (on_base (add_print (str_of_Z (Z.of_nat (length (b_avg (cur s)))))));; stress_flush v)
  end.

Definition step : float := float_of_dec false 25 (-2).
Definition fscale (i : Z) : float := fmul step (float_of_Z i).

(** The batch axis: i + 0.25, i + 0.5, i + 0.75. *)
Definition batch_axis : list cell :=
  column "SPFresh" "Batch"
    (py_range 0 20 ≫= fun i =>
       [CFloat (fadd (float_of_Z i) step); CFloat (fadd (float_of_Z i) (fscale 2));
        CFloat (fadd (float_of_Z i) (fscale 3))]).

(** The eleven columns of stress_test.csv. *)
Definition stress_columns (s : st) : list (list cell) :=
  let b := base s in
  let temp := column "" "" (replicate (length (KIOPS s)) (CStr "")) in
  [ batch_axis; temp;
    column "Search" "Avg Latency" (CFloat <$> avg_latency b);
    column "" "Tail Latency" (CFloat <$> tail_latency b);
    column "" "Throughput" (CFloat <$> throughput b);
    column "" "RSS" (CInt <$> RSS b);
    pad (length (insert_avg_latency b)) (length (RSS b))
        (column "Insert" "Avg Latency" (CFloat <$> insert_avg_latency b));
    temp; temp; temp;
    column "" "KIOPS" (CFloat <$> KIOPS s) ].

(** The four columns of stress_test2.csv. *)
Definition stress_columns_new (s : st) : list (list cell) :=
  let temp := column "" "" (replicate 20 (CStr "")) in
  [ column "SPFresh" "Batch" (CInt <$> py_range 0 20);
    column "Insert" "Avg Latency" (CFloat <$> insert_avg_latency (base s));
    temp; temp ].

Definition st_start (lines : list string) : st :=
  St (ov_start lines) [] (Batch [] [] [] [] []) 0 None.

Definition process_stress_test (v : pyver) (fuel : nat) (argv1 : string) : py world unit :=
  lines ← open_lines v argv1;
  r ← run_local (stress_pass v fuel) (st_start lines);
  lines ← open_lines v argv1;
  r ← run_local (stress_insert_pass fuel) (set_st_log lines r.2);
  r ← run_local (last_flush v) r.2;
  create_file "stress_test.csv";;
  writerows "stress_test.csv" (zip_rows (CStr "") (stress_columns r.2));;
  create_file "stress_test2.csv";;
  writerows "stress_test2.csv" (zip_rows (CStr "") (stress_columns_new r.2)).

(** ** Lemmas *)

(** The latency results, which only a flush extends. *)
Definition results (s : st) : list float := avg_latency (base s).

Lemma st_readline_keeps : keeps results st_readline.
Proof.
  unfold st_readline. apply keeps_bind; [|intros; apply keeps_bind; [by apply keeps_modify|by intros]].
  intros s. unfold readline. cbn. by destruct (ov_log (base s)).
Qed.

Lemma stress_number_keeps n g : keeps results (stress_number n g).
Proof.
  revert g. induction n as [|n IH]; intros g; [done|]. cbn [stress_number].
  destruct (float_at g 1) as [x|[]|]; try done.
  apply keeps_bind; [apply st_readline_keeps|auto].
Qed.

Lemma find_iops_keeps n g : keeps results (find_iops n g).
Proof.
  revert g. induction n as [|n IH]; intros g; [done|]. cbn [find_iops].
  apply keeps_bind; [done|]. intros [|]; [done|].
  apply keeps_bind; [apply st_readline_keeps|auto].
Qed.

Create HintDb kept.
#[local] Hint Resolve st_readline_keeps stress_number_keeps find_iops_keeps : kept.

(** Descend through the monadic structure; [kept] knows the leaves. *)
Ltac keep := repeat first
  [ solve [auto 1 with kept nocore]
  | apply keeps_modify; by intros | apply keeps_when
  | apply keeps_ret | apply keeps_lift | apply keeps_get | apply keeps_raise
  | apply keeps_bind; [|intros ?] ].

Lemma stress_report_keeps n : keeps results (stress_report n).
Proof.
  apply keeps_while. unfold report_body. apply keeps_bind; [apply st_readline_keeps|]. intros line. cbn zeta.
  destruct (is_rss _); [keep|]. destruct (is_qps _); [keep|]. destruct (is_total_latency _); keep.
Qed.

(** In Python 3 a flush raises before it adds anything. *)
Lemma stress_flush_py3 s : stress_flush Py3 s = (Raise TypeError, s).
Proof. reflexivity. Qed.

Lemma stress_flush_keeps_py3 : keeps results (stress_flush Py3).
Proof. intros s. by rewrite stress_flush_py3. Qed.

#[local] Hint Resolve stress_report_keeps stress_flush_keeps_py3 : kept.

Lemma stress_body_keeps_py3 n : keeps results (stress_body Py3 n).
Proof.
  apply keeps_try.
  - apply keeps_bind; [apply st_readline_keeps|]. intros line. case_bool_decide; [keep|].
    apply keeps_bind; [|keep]. apply keeps_when. unfold on_sampling, read_report. keep.
  - intros e k. unfold orexcept, except. repeat case_decide; intros [= <-]; unfold st_report_break; keep.
Qed.

Lemma insert_pass_keeps n : keeps avg_latency (insert_pass n).
Proof.
  assert (keeps avg_latency readline_count) as Hr.
  { unfold readline_count. apply keeps_bind; [|intros; apply keeps_bind; [by apply keeps_modify|by intros]].
    intros s. unfold readline. cbn. by destruct (ov_log s). }
  assert (forall k g, keeps avg_latency (next_number k g)) as Hn.
  { induction k as [|k IH]; intros g; [done|]. cbn [next_number].
    destruct (negb _); [apply keeps_bind; auto|].
    destruct (float_at g 1) as [x|[]|]; try done. apply keeps_bind; auto. }
  apply keeps_while, keeps_try.
  - apply keeps_bind; [done|]. intros line. case_bool_decide; [done|].
    apply keeps_bind; [|by intros]. apply keeps_when. apply keeps_bind; [done|]. intros l.
    apply keeps_bind; [done|]. intros g. apply keeps_bind; [done|]. intros x. by apply keeps_modify.
  - intros e k. unfold orexcept, except.
    repeat case_decide; intros [= <-]; (apply keeps_bind; [done|]; intros; apply keeps_bind; [by apply keeps_modify|by intros]).
Qed.

Lemma length_zip_rows {A} (d : A) ls :
  length (zip_rows d ls) = match ls with [] => O | l :: ls' => foldr (fun k m => Nat.min (length k) m) (length l) ls' end.
Proof. destruct ls; [done|]. unfold zip_rows. by rewrite length_fmap, length_seq. Qed.

Lemma foldr_min_le {A} (ls : list (list A)) n k :
  k ∈ ls -> (foldr (fun k m => Nat.min (length k) m) n ls <= length k)%nat.
Proof. induction 1; cbn; lia. Qed.

(** Everything but the results stays as it was during a flush. *)
Lemma stress_point_py2 n i s xa xt xq (xr : Z) xk :
  index_number (b_avg (cur s)) (NInt (0 + i * n)) = Ret xa ->
  index_number (b_tail (cur s)) (NInt (0 + i * n)) = Ret xt ->
  index_number (b_thr (cur s)) (NInt (0 + i * n)) = Ret xq ->
  index_number (b_rss (cur s)) (NInt (0 + i * n)) = Ret xr ->
  index_number (b_kiops (cur s)) (NInt (0 + i * n)) = Ret xk ->
  stress_point (NInt n) i s =
    (Ret tt, add_KIOPS xk (on_base (fun b => add_RSS xr (add_throughput xq (add_tail xt (add_avg xa b)))) s)).
Proof.
  intros Ha Ht Hq Hr Hk. unfold stress_point. cbn [number_mul number_add]. erewrite bind_ret by reflexivity.
  unfold lift. rewrite Ha, Ht, Hq, Hr, Hk. reflexivity.
Qed.

(** A batch whose lists are complete: one entry per report, and at least as
    many I/O rates, since those of the batches before are still there. *)
Definition batch_complete (b : batch) : Prop :=
  b_avg b <> [] /\ length (b_tail b) = length (b_avg b) /\ length (b_thr b) = length (b_avg b) /\
  length (b_rss b) = length (b_avg b) /\ (length (b_avg b) <= length (b_kiops b))%nat.

Definition kiops_at (b : batch) (i : Z) : float :=
  nth (Z.to_nat (i * (Z.of_nat (length (b_avg b)) / 3))) (b_kiops b) float_inf.

(** A flush adds the three points of the batch to every column. *)
Definition flushed (b : batch) (s : st) : st :=
  let o := base s in
  St (Ov (ov_log o) (avg_latency o ++ samples float_inf 3 (b_avg b))%list
         (tail_latency o ++ samples float_inf 3 (b_tail b))%list
         (throughput o ++ samples float_inf 3 (b_thr b))%list (insert_avg_latency o)
         (RSS o ++ samples 0 3 (b_rss b))%list (line_count o) (cur_line o) (printed o))
     (KIOPS s ++ (kiops_at b <$> [0; 1; 2]))%list (cur s) (last_progress s) (this_process s).

(** One point of the batch. *)
Definition pointed (b : batch) (i : Z) (s : st) : st :=
  add_KIOPS (kiops_at b i)
    (on_base (fun o => add_RSS (sample_at 0 3 (b_rss b) i) (add_throughput (sample_at float_inf 3 (b_thr b) i)
       (add_tail (sample_at float_inf 3 (b_tail b) i) (add_avg (sample_at float_inf 3 (b_avg b) i) o)))) s).

Lemma pointed_St b i lo a t q ins r lc cl pr ks c lp tp :
  pointed b i (St (Ov lo a t q ins r lc cl pr) ks c lp tp) =
  St (Ov lo (a ++ [sample_at float_inf 3 (b_avg b) i])%list (t ++ [sample_at float_inf 3 (b_tail b) i])%list
         (q ++ [sample_at float_inf 3 (b_thr b) i])%list ins (r ++ [sample_at 0 3 (b_rss b) i])%list lc cl pr)
     (ks ++ [kiops_at b i])%list c lp tp.
Proof. reflexivity. Qed.

Lemma pointed_thrice b s : pointed b 2 (pointed b 1 (pointed b 0 s)) = flushed b s.
Proof.
  destruct s as [[]]. rewrite !pointed_St. unfold flushed, samples. change (py_range 0 3) with [0; 1; 2].
  cbn [fmap list_fmap]. rewrite <- !app_assoc. reflexivity.
Qed.

Lemma stress_flush_py2 s :
  batch_complete (cur s) -> stress_flush Py2 s = (Ret tt, flushed (cur s) s).
Proof.
  intros (Hne & Ht & Hq & Hr & Hk). set (b := cur s) in *. set (n := Z.of_nat (length (b_avg b)) / 3).
  assert (forall A (d : A) (l : list A) i, (length (b_avg b) <= length l)%nat -> 0 <= i < 3 ->
            index_number l (NInt (0 + i * n)) = Ret (nth (Z.to_nat (i * n)) l d)) as Hix.
  { intros A d l i Hl Hi. cbn [index_number]. rewrite Z.add_0_l.
    assert (0 < Z.of_nat (length (b_avg b))) by (destruct (b_avg b); cbn; [done|lia]).
    pose proof (sample_index_bound (Z.of_nat (length (b_avg b))) 3 i ltac:(lia) Hi).
    destruct (py_index_total l (i * n)) as (x & -> & Hx); [lia|].
    f_equal. symmetry. by apply nth_lookup_Some with (d := d) in Hx. }
  assert (forall i s', cur s' = b -> 0 <= i < 3 -> stress_point (NInt n) i s' = (Ret tt, pointed b i s')) as Hp.
  { intros i s' Hs Hi. unfold pointed, kiops_at, sample_at. rewrite Ht, Hq, Hr. fold n.
    apply stress_point_py2; rewrite Hs; apply Hix; lia. }
  unfold stress_flush. erewrite bind_ret by reflexivity. erewrite bind_ret by reflexivity.
  change (py_range 0 points_per_batch) with [0; 1; 2]. cbn [for_each]. unfold points_per_batch. fold b n.
  do 3 (erewrite bind_ret by (apply Hp; [reflexivity|lia])). unfold mret, py_ret. f_equal. apply pointed_thrice.
Qed.

(** ** Properties *)

(** Under Python 3 stress_test.csv never gets a data row: when
    process_stress_test.py returns at all, the file holds the two title rows
    only, whatever the log holds. *)
Theorem stress_no_data_rows_py3 fuel argv1 w w' :
  process_stress_test Py3 fuel argv1 w = (Ret tt, w') ->
  exists s rows, fs w' !! "stress_test.csv" = Some (bytes_of_str (csv_text rows)) /\
    rows = zip_rows (CStr "") (stress_columns s) /\ (length rows <= 2)%nat.
Proof.
  unfold process_stress_test. intros H.
  destruct (fs w !! argv1) as [b|] eqn:Hb.
  2:{ unfold open_lines, read_file, mbind, py_bind in H. by rewrite Hb in H. }
  rewrite (bind_ret _ _ _ _ _ (open_lines_ok _ _ _ _ Hb)) in H.
  pose proof (keeps_while results fuel _ (stress_body_keeps_py3 fuel) (st_start (lines_of (text_of Py3 b)))) as H1.
  fold (stress_pass Py3 fuel) in H1.
  unfold mbind at 1, py_bind at 1, run_local at 1 in H.
  destruct (stress_pass Py3 fuel _) as [[u|e|] s1]; try done. cbn in H1. cbn [snd] in H.
  rewrite (bind_ret _ _ _ _ _ (open_lines_ok _ _ _ _ Hb)) in H.
  pose proof (insert_pass_keeps fuel (base (set_st_log (lines_of (text_of Py3 b)) s1))) as H2.
  unfold mbind at 1, py_bind at 1, run_local at 1, stress_insert_pass in H.
  destruct (insert_pass fuel _) as [[u2|e|] b2]; try done. cbn in H2. cbn [snd] in H.
  unfold mbind at 1, py_bind at 1, run_local at 1 in H.
  set (s2 := on_base (fun _ => b2) (set_st_log (lines_of (text_of Py3 b)) s1)) in *.
  assert (exists s3, last_flush Py3 s2 = (Ret tt, s3) /\ results s3 = []) as (s3 & E3 & H3).
  { destruct (last_flush Py3 s2) as [o s3] eqn:E. unfold last_flush in E. erewrite bind_ret in E by reflexivity.
    destruct (this_process s2) as [p|]; [|injection E as <- <-; done].
    unfold when in E. destruct (negb (p =? 0)).
    - erewrite bind_ret in E by reflexivity. rewrite stress_flush_py3 in E. injection E as <- <-. done.
    - injection E as <- <-. exists s2. split; [done|]. unfold results, s2. cbn.
      unfold results in H1. cbn in H1. congruence. }
  rewrite E3 in H. cbn [snd] in H.
  exists s3, (zip_rows (CStr "") (stress_columns s3)). split; [|split; [done|]].
  - unfold mbind at 1, py_bind at 1, create_file in H. destruct (can_create w "stress_test.csv"); [|done].
    erewrite bind_ret in H by (apply writerows_eq, lookup_insert_eq).
    unfold mbind at 1, py_bind at 1 in H. rewrite can_create_set_fs in H. destruct (can_create _ "stress_test2.csv"); [|done].
    erewrite writerows_eq in H by apply lookup_insert_eq.
    apply (f_equal snd) in H. cbn [snd] in H. rewrite <- H.
    unfold set_fs; cbn [fs]. rewrite !lookup_insert_ne by done. by rewrite lookup_insert_eq.
  - rewrite length_zip_rows. cbn [stress_columns].
    etransitivity; [apply (foldr_min_le _ _ (column "Search" "Avg Latency" (CFloat <$> avg_latency (base s3))));
                    do 1 apply list_elem_of_further; apply list_elem_of_here|].
    unfold results in H3. rewrite H3. done.
Qed.

(** KIOPS_batch is not emptied with the other batch lists, so under
    Python 2 the first I/O rate written for a later batch is again the first
    one ever recorded, whatever rates were recorded since. *)
Theorem stress_kiops_stale_py2 s s2 new :
  batch_complete (cur s) ->
  b_kiops (cur s2) = (b_kiops (reset_batch (cur s)) ++ new)%list -> batch_complete (cur s2) ->
  exists s' s2' k0 r r2,
    stress_flush Py2 s = (Ret tt, s') /\ stress_flush Py2 s2 = (Ret tt, s2') /\
    KIOPS s' = (KIOPS s ++ k0 :: r)%list /\ KIOPS s2' = (KIOPS s2 ++ k0 :: r2)%list.
Proof.
  intros Hb Hk Hb2.
  exists (flushed (cur s) s), (flushed (cur s2) s2), (kiops_at (cur s) 0), (kiops_at (cur s) <$> [1; 2]), (kiops_at (cur s2) <$> [1; 2]).
  split_and!; [by apply stress_flush_py2|by apply stress_flush_py2|done|]. cbn [flushed KIOPS].
  cbn [fmap list_fmap]. do 2 f_equal. unfold kiops_at. rewrite Hk. cbn.
  destruct Hb as (Hne & _ & _ & _ & Hlen). destruct (b_kiops (cur s)); [|done].
  destruct (b_avg (cur s)); cbn in *; [done|lia].
Qed.

(** ** Witnesses *)

Lemma stress_no_data_rows_py3_witness :
  exists s rows w', fs w' !! "stress_test.csv" = Some (bytes_of_str (csv_text rows)) /\
    rows = zip_rows (CStr "") (stress_columns s) /\ (length rows <= 2)%nat.
Proof.
  set (w := World {["log" := bytes_of_str ("a Samppling c 0" ++ newline)]} ∅ []).
  destruct (process_stress_test Py3 10 "log" w) as [o w'] eqn:E.
  assert (o = Ret tt) as ->.
  { change o with (o, w').1. rewrite <- E. vm_compute. reflexivity. }
  destruct (stress_no_data_rows_py3 10 "log" w w' E) as (s & rows & H). exists s, rows, w'. exact H.
Defined.

Definition demo_batch (k : list Z) : batch :=
  Batch (float_of_Z <$> [1; 2; 3]) (float_of_Z <$> [1; 2; 3]) (float_of_Z <$> [1; 2; 3]) [1; 2; 3] (float_of_Z <$> k).

Lemma stress_kiops_stale_py2_witness :
  exists s' s2' k0 r r2,
    stress_flush Py2 (on_cur (fun _ => demo_batch [7; 8; 9]) (st_start [])) = (Ret tt, s') /\
    stress_flush Py2 (on_cur (fun _ => demo_batch [7; 8; 9; 4; 5; 6]) (st_start [])) = (Ret tt, s2') /\
    KIOPS s' = k0 :: r /\ KIOPS s2' = k0 :: r2.
Proof.
  apply (stress_kiops_stale_py2 (on_cur (fun _ => demo_batch [7; 8; 9]) (st_start []))
           (on_cur (fun _ => demo_batch [7; 8; 9; 4; 5; 6]) (st_start [])) (float_of_Z <$> [4; 5; 6])).
  - split_and!; try done; cbn; lia.
  - reflexivity.
  - split_and!; try done; cbn; lia.
Defined.
