(* ===== verification/StressRun.v ===== *)
(** * The stress-test log as a whole

    What process_stress_test.py makes of a complete log under Python 2: the
    log is a sequence of events, the events form batches, and the two csv files
    hold the points of the batches. States are compared up to the line counter
    and the messages ([view]), which no column shows. *)

From Stdlib Require Import Ascii.
From S2P Require Import Prelude PyStr PyFloat PyBytes PyIO LogWords OverallLogs StressLogs.

Open Scope string_scope.
Open Scope Z_scope.

(** ** States up to the line counter and the messages *)

Definition view (s : st) : st :=
  on_base (fun b => Ov (ov_log b) (avg_latency b) (tail_latency b) (throughput b) (insert_avg_latency b)
                       (RSS b) 0 "" []) s.

#[export] Instance st_equiv : Equiv st := fun s s' => view s = view s'.
#[export] Instance st_equivalence : Equivalence (≡@{st}).
Proof.
  split; unfold equiv, st_equiv.
  - by intros s.
  - by intros s s' H.
  - intros s1 s2 s3 H1 H2. by rewrite H1.
Qed.

(** An update that does not look at what [view] hides. *)
Class Pure (g : st -> st) : Prop := pure_view : forall s, view (g s) = g (view s).

#[export] Instance pure_proper g `{!Pure g} : Proper ((≡) ==> (≡)) g.
Proof. intros s s' H. unfold equiv, st_equiv in *. by rewrite !pure_view, H. Qed.

#[export] Instance pure_cur f : Pure (on_cur f).
Proof. done. Qed.
#[export] Instance pure_log l : Pure (set_st_log l).
Proof. done. Qed.
#[export] Instance pure_this z : Pure (set_this z).
Proof. done. Qed.
#[export] Instance pure_last z : Pure (set_last z).
Proof. done. Qed.
#[export] Instance pure_flushed b : Pure (flushed b).
Proof. done. Qed.

#[export] Instance log_proper : Proper ((≡) ==> (=)) (fun s => ov_log (base s)).
Proof. intros s s' H. exact (f_equal (fun s => ov_log (base s)) H). Qed.
#[export] Instance cur_proper : Proper ((≡) ==> (=)) cur.
Proof. intros s s' H. exact (f_equal cur H). Qed.
#[export] Instance last_proper : Proper ((≡) ==> (=)) last_progress.
Proof. intros s s' H. exact (f_equal last_progress H). Qed.
#[export] Instance this_proper : Proper ((≡) ==> (=)) this_process.
Proof. intros s s' H. exact (f_equal this_process H). Qed.

(** ** Runs: a computation that returns [a] in a state like [t] *)
Definition runs {A} (m : py st A) (s : st) (a : A) (t : st) : Prop :=
  exists s', m s = (Ret a, s') /\ s' ≡ t.

Section runs.
Context {A B : Type}.
Implicit Types (m : py st A) (s t : st).

Lemma runs_eq m s a t : m s = (Ret a, t) -> runs m s a t.
Proof. intros H. by exists t. Qed.

Lemma runs_conv m s a t t' : runs m s a t -> t ≡ t' -> runs m s a t'.
Proof. intros (s' & H & E) E'. exists s'. split; [done|]. by rewrite E. Qed.

Lemma runs_bind m (k : A -> py st B) s a b t u :
  runs m s a t -> (forall s', s' ≡ t -> runs (k a) s' b u) -> runs (m ≫= k) s b u.
Proof.
  intros (s' & H & E) Hk. destruct (Hk s' E) as (s2 & H2 & E2). exists s2. split; [|done].
  by rewrite (bind_ret _ _ _ _ _ H).
Qed.

Lemma runs_lift o s (a : A) : o = Ret a -> runs (lift o) s a s.
Proof. intros ->. by apply runs_eq. Qed.

Lemma runs_modify g s : runs (modify g) s tt (g s).
Proof. by exists (g s). Qed.

Lemma runs_next n body s (r : A) t u :
  runs body s None t -> (forall s', s' ≡ t -> runs (while_true n body) s' r u) -> runs (while_true (S n) body) s r u.
Proof.
  intros (s' & H & E) Hk. destruct (Hk s' E) as (s2 & H2 & E2). exists s2. by rewrite (while_true_next _ _ _ _ H).
Qed.

Lemma runs_break n body s (r : A) t : runs body s (Some r) t -> runs (while_true (S n) body) s r t.
Proof. intros (s' & H & E). exists s'. by rewrite (while_true_break _ _ _ _ _ H). Qed.

Lemma runs_try m h s a t : runs m s a t -> runs (try_except m h) s a t.
Proof. intros (s' & H & E). exists s'. unfold try_except. by rewrite H. Qed.
End runs.

(** [line = log_f.readline()] when there is one. *)
Lemma runs_readline s l ls : ov_log (base s) = l :: ls -> runs st_readline s l (set_st_log ls s).
Proof.
  intros H. exists (on_base (count_line l) (set_st_log ls s)). split; [|done]. unfold st_readline.
  by erewrite bind_ret by by apply readline_cons.
Qed.

Lemma runs_readline_nil s : ov_log (base s) = [] -> runs st_readline s "" s.
Proof.
  intros H. exists (on_base (count_line "") s). split; [|by destruct s as [[]]]. unfold st_readline.
  by erewrite bind_ret by by apply readline_nil.
Qed.

(** One step of a straight line of code. *)
Tactic Notation "run_step" uconstr(L) := eapply runs_bind; [eapply L|].

(** ** Reading to a line that passes a test *)

(** [sk] are skipped and [d] is found; the first of them was read already. *)
Definition ahead (sk : list string) (d : string) (rest : list string) (g : list string) (s : st) : Prop :=
  exists l0 tl, g = split_ws l0 /\ (sk ++ [d] = l0 :: tl)%list /\ ov_log (base s) = (tl ++ rest)%list.

Lemma ahead_intro sk d rest s :
  ov_log (base s) = (sk ++ d :: rest)%list ->
  exists l0 tl, ov_log (base s) = l0 :: tl /\ ahead sk d rest (split_ws l0) (set_st_log tl s).
Proof.
  intros H. destruct sk as [|l sk]; cbn in H.
  - exists d, rest. split; [done|]. by exists d, [].
  - exists l, (sk ++ d :: rest)%list. split; [done|]. exists l, (sk ++ [d])%list. by rewrite <- app_assoc.
Qed.

Lemma ahead_skip l sk d rest g s :
  ahead (l :: sk) d rest g s ->
  g = split_ws l /\ exists l0 tl, ov_log (base s) = l0 :: tl /\ ahead sk d rest (split_ws l0) (set_st_log tl s).
Proof.
  intros (l0 & tl & -> & E & H). cbn in E. injection E as <- <-. split; [done|].
  apply ahead_intro. by rewrite H, <- app_assoc.
Qed.

Lemma ahead_found d rest g s : ahead [] d rest g s -> g = split_ws d /\ s ≡ set_st_log rest s.
Proof.
  intros (l0 & tl & -> & E & H). cbn in E. injection E as <- <-. split; [done|].
  destruct s as [[]]. cbn in H. by subst.
Qed.

Lemma ahead_proper sk d rest g s s' : s ≡ s' -> ahead sk d rest g s -> ahead sk d rest g s'.
Proof. intros E (l0 & tl & Hg & Hs & H). exists l0, tl. split_and!; [done..|]. by rewrite <- (log_proper _ _ E). Qed.

Lemma set_log_twice l l' s : set_st_log l (set_st_log l' s) = set_st_log l s.
Proof. by destruct s as [[]]. Qed.

Lemma stress_number_run n sk d x rest g s :
  Forall (fun l => float_at (split_ws l) 1 = Raise ValueError) sk -> float_at (split_ws d) 1 = Ret x ->
  ahead sk d rest g s -> (length sk < n)%nat ->
  runs (stress_number n g) s (split_ws d) (set_st_log rest s).
Proof.
  intros HF Hx. revert n g s. induction HF as [|l sk Hl HF IH]; intros [|n] g s Ha Hn; try (cbn in Hn; lia); cbn [stress_number].
  - apply ahead_found in Ha as [-> E]. rewrite Hx. by exists s.
  - apply ahead_skip in Ha as (-> & l0 & tl & Hlog & Ha). rewrite Hl.
    eapply runs_bind; [by apply runs_readline|]. intros s1 E1.
    eapply runs_conv; [apply IH; [by eapply ahead_proper|cbn in Hn; lia]|]. by rewrite E1, set_log_twice.
Qed.

Lemma search_iops_run n sk d rest g s :
  Forall (fun l => word_eq (split_ws l) 0 "IOPS:" = Ret false) sk -> word_eq (split_ws d) 0 "IOPS:" = Ret true ->
  ahead sk d rest g s -> (length sk < n)%nat ->
  runs (find_iops n g) s (split_ws d) (set_st_log rest s).
Proof.
  intros HF Hx. revert n g s. induction HF as [|l sk Hl HF IH]; intros [|n] g s Ha Hn; try (cbn in Hn; lia); cbn [find_iops].
  - apply ahead_found in Ha as [-> E]. run_step (runs_lift _ _ _ Hx). intros s1 E1. exists s1. split; [done|]. by rewrite E1.
  - apply ahead_skip in Ha as (-> & l0 & tl & Hlog & Ha). run_step (runs_lift _ _ _ Hl). intros s1 E1.
    eapply runs_bind; [apply runs_readline; by rewrite (log_proper _ _ E1)|]. intros s2 E2.
    eapply runs_conv; [apply IH; [|cbn in Hn; lia]|].
    + eapply ahead_proper; [|exact Ha]. by rewrite E2, E1.
    + by rewrite E2, E1, set_log_twice.
Qed.

(** ** One report *)

(** What the lines of a report say: latency, tail latency, throughput, memory
    and the I/O rate after it. *)
Record tsample := Tsample { t_a : float; t_t : float; t_q : float; t_m : Z; t_k : float }.

(** The batch lists after the memory and throughput lines [its]. *)
Definition got_items (its : list item) (b : batch) : batch :=
  Batch (b_avg b) (b_tail b) (b_thr b ++ item_qps its)%list (b_rss b ++ item_rss its)%list (b_kiops b).

Lemma got_items_cons i its s : on_cur (got_items its) (on_cur (got_items [i]) s) = on_cur (got_items (i :: its)) s.
Proof.
  destruct s as [b ks [b1 b2 b3 b4 b5] lp tp]. unfold on_cur, got_items.
  cbn [base KIOPS cur last_progress this_process b_avg b_tail b_thr b_rss b_kiops].
  by rewrite (item_rss_cons i its), (item_qps_cons i its), !app_assoc.
Qed.

Lemma got_items_nil s : on_cur (got_items []) s = s.
Proof. destruct s as [? ? [] ? ?]. unfold on_cur, got_items. cbn. by rewrite !app_nil_r. Qed.

Lemma got_rss l z s : on_cur (got_items [IRss l z]) s = on_cur (push_rss z) s.
Proof. destruct s as [b ks [b1 b2 b3 b4 b5] lp tp]. unfold on_cur, got_items, push_rss. cbn. by rewrite app_nil_r. Qed.

Lemma got_qps l q s : on_cur (got_items [IQps l q]) s = on_cur (push_thr q) s.
Proof. destruct s as [b ks [b1 b2 b3 b4 b5] lp tp]. unfold on_cur, got_items, push_thr. cbn. by rewrite app_nil_r. Qed.

(** A latency line: its header, a line that is not looked at, then the values. *)
Definition latency_lines (lh sk : string) (junk : list string) (d : string) (a t : float) (fuel : nat) : Prop :=
  is_rss (split_ws lh) = false /\ is_qps (split_ws lh) = false /\ is_total_latency (split_ws lh) = true /\
  Forall (fun l => float_at (split_ws l) 1 = Raise ValueError) junk /\
  float_at (split_ws d) 1 = Ret a /\ float_at (split_ws d) 5 = Ret t /\ (length junk < fuel)%nat.

Lemma report_item fuel i rest s :
  item_ok i -> ov_log (base s) = item_line i :: rest ->
  runs (report_body fuel) s None (set_st_log rest (on_cur (got_items [i]) s)).
Proof.
  intros Hi Hlog. run_step (runs_readline _ _ _ Hlog). intros s1 E1. unfold report_body.
  destruct i as [l z|l q|l]; cbn [item_ok item_line] in *.
  - destruct Hi as [-> Hz]. run_step (runs_lift _ _ _ Hz). intros s2 E2. run_step runs_modify. intros s3 E3.
    exists s3. split; [done|]. by rewrite E3, E2, E1, got_rss.
  - destruct Hi as (-> & -> & Hq). run_step (runs_lift _ _ _ Hq). intros s2 E2. run_step runs_modify. intros s3 E3.
    exists s3. split; [done|]. by rewrite E3, E2, E1, got_qps.
  - destruct Hi as (-> & -> & ->). exists s1. split; [done|]. by rewrite E1, got_items_nil.
Qed.

Lemma report_latency fuel lh sk junk d a t rest s :
  latency_lines lh sk junk d a t fuel -> ov_log (base s) = (lh :: sk :: junk ++ d :: rest)%list ->
  runs (report_body fuel) s (Some tt) (set_st_log rest (on_cur (push_tail t ∘ push_avg a) s)).
Proof.
  intros (H1 & H2 & H3 & Hj & Ha & Ht & Hn) Hlog. unfold report_body.
  run_step (runs_readline _ _ _ Hlog). intros s1 E1. rewrite H1, H2, H3.
  run_step (runs_readline _ sk (junk ++ d :: rest)%list); [by rewrite (log_proper _ _ E1)|]. intros s2 E2.
  destruct (ahead_intro junk d rest s2) as (l0 & tl & Hl0 & Hah); [by rewrite (log_proper _ _ E2)|].
  run_step (runs_readline _ _ _ Hl0). intros s3 E3.
  run_step (stress_number_run fuel junk d a rest); [done|done|by eapply ahead_proper|done|]. intros s4 E4.
  run_step (runs_lift _ _ _ Ha). intros s5 E5. run_step runs_modify. intros s6 E6.
  run_step (runs_lift _ _ _ Ht). intros s7 E7. run_step runs_modify. intros s8 E8.
  exists s8. split; [done|]. rewrite E8, E7, E6, E5, E4, E3, E2, E1, !set_log_twice. by destruct s as [[]].
Qed.

Lemma stress_report_run n fuel its lh sk junk d a t rest s :
  Forall item_ok its -> latency_lines lh sk junk d a t fuel ->
  ov_log (base s) = ((item_line <$> its) ++ lh :: sk :: junk ++ d :: rest)%list -> (length its < n)%nat ->
  runs (while_true n (report_body fuel)) s tt (set_st_log rest (on_cur (push_tail t ∘ push_avg a ∘ got_items its) s)).
Proof.
  intros HF HL. revert n s. induction HF as [|i its Hi HF IH]; intros [|n] s Hlog Hn; try (cbn in Hn; lia).
  - apply runs_break. eapply runs_conv; [eapply report_latency; [exact HL|exact Hlog]|].
    change (on_cur (push_tail t ∘ push_avg a ∘ got_items []) s) with (on_cur (push_tail t ∘ push_avg a) (on_cur (got_items []) s)).
    by rewrite got_items_nil.
  - eapply runs_next; [eapply report_item; [exact Hi|exact Hlog]|]. intros s1 E1.
    eapply runs_conv; [apply IH; [by rewrite (log_proper _ _ E1)|cbn in Hn; lia]|].
    rewrite E1.
    change (on_cur (push_tail t ∘ push_avg a ∘ got_items (i :: its)) s)
      with (on_cur (push_tail t ∘ push_avg a) (on_cur (got_items (i :: its)) s)).
    rewrite <- (got_items_cons i its). destruct s as [[]]. reflexivity.
Qed.

(** ** The log as events *)

Inductive tevent :=
  | TLine (line : string)
  | TZero (header : string)
  | TReport (header : string) (p : Z) (its : list item) (lat_header skipped : string) (junk : list string)
      (data : string) (others : list string) (iops : string) (x : tsample).

Definition tevent_lines (e : tevent) : list string :=
  match e with
  | TLine l | TZero l => [l]
  | TReport h _ its lh sk junk d os il _ => h :: (item_line <$> its) ++ lh :: sk :: junk ++ d :: os ++ [il]
  end%list.

(** A "Samppling" line with progress [p] of the ten million of a batch. *)
Definition sampling (h : string) (p : Z) : Prop :=
  nonempty h = true /\ is_sampling (split_ws h) = true /\
  exists n, int_at (split_ws h) 3 = Ret n /\ p = n mod 10000000.

Definition tevent_ok (fuel : nat) (e : tevent) : Prop :=
  match e with
  | TLine l => nonempty l = true /\ is_sampling (split_ws l) = false
  | TZero h => sampling h 0
  | TReport h p its lh sk junk d os il x =>
      sampling h p /\ p <> 0 /\ Forall item_ok its /\ item_qps its = [t_q x] /\ item_rss its = [t_m x] /\
      latency_lines lh sk junk d (t_a x) (t_t x) fuel /\
      Forall (fun l => word_eq (split_ws l) 0 "IOPS:" = Ret false) os /\
      word_eq (split_ws il) 0 "IOPS:" = Ret true /\ float_rstrip_at "k" (split_ws il) 1 = Ret (t_k x) /\
      (length its < fuel)%nat /\ (length os < fuel)%nat
  end.

(** The batches, each with all the I/O rates read so far: those of earlier
    batches are never dropped. *)
Fixpoint tbatches (cur : list tsample) (ks : list float) (last : Z) (es : list tevent)
    : list (list tsample * list float) :=
  match es with
  | [] => if last =? 0 then [] else [(cur, ks)]
  | TLine _ :: es => tbatches cur ks last es
  | TZero _ :: es => if 0 <? last then (cur, ks) :: tbatches [] ks 0 es else tbatches cur ks 0 es
  | TReport _ p _ _ _ _ _ _ _ x :: es =>
      if p <? last then (cur, ks) :: tbatches [x] (ks ++ [t_k x])%list p es
      else tbatches (cur ++ [x])%list (ks ++ [t_k x])%list p es
  end.

(** The lists of the batch in progress. *)
Definition batch_of (xs : list tsample) (ks : list float) : batch :=
  Batch (t_a <$> xs) (t_t <$> xs) (t_q <$> xs) (t_m <$> xs) ks.

(** The batch is empty exactly when the last progress is zero. *)
Definition in_progress (xs : list tsample) (ks : list float) (s : st) : Prop :=
  cur s = batch_of xs ks /\ (length xs <= length ks)%nat /\ 0 <= last_progress s /\
  (last_progress s = 0 <-> xs = []).

Lemma in_progress_proper xs ks s s' : s ≡ s' -> in_progress xs ks s -> in_progress xs ks s'.
Proof. intros E. unfold in_progress. by rewrite (cur_proper _ _ E), (last_proper _ _ E). Qed.

Lemma batch_of_complete xs ks : xs <> [] -> (length xs <= length ks)%nat -> batch_complete (batch_of xs ks).
Proof.
  intros Hx Hk. unfold batch_complete, batch_of. cbn. rewrite !length_fmap. split_and!; try done. by destruct xs.
Qed.

(** The flush a smaller progress brings about, then the empty batch. *)
Lemma flush_run xs ks s :
  in_progress xs ks s -> xs <> [] ->
  runs (stress_flush Py2;; modify (on_cur reset_batch)) s tt (on_cur (fun _ => batch_of [] ks) (flushed (batch_of xs ks) s)).
Proof.
  intros (Hc & Hk & _) Hx.
  run_step runs_eq; [apply stress_flush_py2; rewrite Hc; by apply batch_of_complete|]. rewrite Hc.
  intros s1 E1. eapply runs_conv; [apply runs_modify|]. rewrite E1. unfold on_cur. cbn. by rewrite Hc.
Qed.

(** The report itself: the batch has one sample more. *)
Definition add_sample (x : tsample) (b : batch) : batch :=
  Batch (b_avg b ++ [t_a x])%list (b_tail b ++ [t_t x])%list (b_thr b ++ [t_q x])%list (b_rss b ++ [t_m x])%list
        (b_kiops b ++ [t_k x])%list.

Lemma add_sample_batch x xs ks : add_sample x (batch_of xs ks) = batch_of (xs ++ [x]) (ks ++ [t_k x]).
Proof. unfold add_sample, batch_of. cbn. by rewrite !fmap_app. Qed.

Lemma report_run fuel h p its lh sk junk d os il x rest s :
  tevent_ok fuel (TReport h p its lh sk junk d os il x) ->
  ov_log (base s) = ((item_line <$> its) ++ lh :: sk :: junk ++ d :: os ++ il :: rest)%list ->
  runs (read_report fuel) s tt (set_st_log rest (on_cur (add_sample x) s)).
Proof.
  intros (_ & _ & Hits & Hq & Hr & HL & Hos & Hil & Hx & Hn1 & Hn2) Hlog.
  run_step (stress_report_run fuel fuel its lh sk junk d (t_a x) (t_t x) (os ++ il :: rest)%list); [done..|]. intros s1 E1.
  destruct (ahead_intro os il rest s1) as (l0 & tl & Hl0 & Hah); [by rewrite (log_proper _ _ E1)|].
  run_step (runs_readline _ _ _ Hl0). intros s2 E2.
  run_step (search_iops_run fuel os il rest); [done|done|by eapply ahead_proper|done|]. intros s3 E3.
  run_step (runs_lift _ _ _ Hx). intros s4 E4. eapply runs_conv; [apply runs_modify|].
  rewrite E4, E3, E2, E1, !set_log_twice. unfold got_items. rewrite Hq, Hr. by destruct s as [[]].
Qed.

(** ** The columns *)

Definition tpoints {A} (d : A) (f : tsample -> A) (bs : list (list tsample * list float)) : list A :=
  bs ≫= (fun b => samples d 3 (f <$> b.1)).
Definition kpoints (bs : list (list tsample * list float)) : list float :=
  bs ≫= (fun b => kiops_at (batch_of b.1 b.2) <$> [0; 1; 2]).

(** [s'] has the points of the batches [bs] more than [s]. *)
Definition extends (bs : list (list tsample * list float)) (s s' : st) : Prop :=
  avg_latency (base s') = (avg_latency (base s) ++ tpoints float_inf t_a bs)%list /\
  tail_latency (base s') = (tail_latency (base s) ++ tpoints float_inf t_t bs)%list /\
  throughput (base s') = (throughput (base s) ++ tpoints float_inf t_q bs)%list /\
  RSS (base s') = (RSS (base s) ++ tpoints 0 t_m bs)%list /\
  KIOPS s' = (KIOPS s ++ kpoints bs)%list /\
  insert_avg_latency (base s') = insert_avg_latency (base s).

Lemma extends_proper bs s s' t t' : s ≡ s' -> t ≡ t' -> extends bs s t -> extends bs s' t'.
Proof.
  intros E E'.
  pose proof (f_equal (fun s => avg_latency (base s)) E) as A1. pose proof (f_equal (fun s => avg_latency (base s)) E') as A2.
  pose proof (f_equal (fun s => tail_latency (base s)) E) as A3. pose proof (f_equal (fun s => tail_latency (base s)) E') as A4.
  pose proof (f_equal (fun s => throughput (base s)) E) as A5. pose proof (f_equal (fun s => throughput (base s)) E') as A6.
  pose proof (f_equal (fun s => RSS (base s)) E) as A7. pose proof (f_equal (fun s => RSS (base s)) E') as A8.
  pose proof (f_equal KIOPS E) as A9. pose proof (f_equal KIOPS E') as A10.
  pose proof (f_equal (fun s => insert_avg_latency (base s)) E) as A11.
  pose proof (f_equal (fun s => insert_avg_latency (base s)) E') as A12.
  unfold extends. cbn in *. by rewrite A1, A2, A3, A4, A5, A6, A7, A8, A9, A10, A11, A12.
Qed.

Lemma extends_nil s s' : extends [] s s' <->
  avg_latency (base s') = avg_latency (base s) /\ tail_latency (base s') = tail_latency (base s) /\
  throughput (base s') = throughput (base s) /\ RSS (base s') = RSS (base s) /\ KIOPS s' = KIOPS s /\
  insert_avg_latency (base s') = insert_avg_latency (base s).
Proof. unfold extends, tpoints, kpoints. cbn. by rewrite !app_nil_r. Qed.

Lemma extends_app b1 b2 s1 s2 s3 : extends b1 s1 s2 -> extends b2 s2 s3 -> extends (b1 ++ b2) s1 s3.
Proof.
  unfold extends, tpoints, kpoints. intros (? & ? & ? & ? & ? & ?) (? & ? & ? & ? & ? & ?).
  rewrite !bind_app, !app_assoc. split_and!; congruence.
Qed.

Lemma extends_flushed xs ks s : extends [(xs, ks)] s (flushed (batch_of xs ks) s).
Proof. unfold extends, tpoints, kpoints. rewrite !bind_singleton. by cbn [flushed base fst snd]. Qed.

(** ** One round of the first pass *)

Definition is_sampled (e : tevent) : bool := match e with TLine _ => false | _ => true end.

(** What a round does: the log advances, the batch follows [tbatches]. *)
Definition advances (e : tevent) (rest : list string) (xs : list tsample) (ks : list float) (s s' : st) : Prop :=
  exists bs xs' ks', ov_log (base s') = rest /\ in_progress xs' ks' s' /\ extends bs s s' /\
    (forall es, tbatches xs ks (last_progress s) (e :: es) = (bs ++ tbatches xs' ks' (last_progress s') es)%list) /\
    if is_sampled e then this_process s' = Some (last_progress s')
    else this_process s' = this_process s /\ last_progress s' = last_progress s.

Lemma advances_proper e rest xs ks s t t' : t ≡ t' -> advances e rest xs ks s t' -> advances e rest xs ks s t.
Proof.
  intros E (bs & xs' & ks' & H1 & H2 & H3 & H4 & H5). exists bs, xs', ks'. rewrite (last_proper _ _ E).
  split_and!; [by rewrite (log_proper _ _ E)|by eapply in_progress_proper|by eapply extends_proper|done|].
  rewrite (this_proper _ _ E). by destruct (is_sampled e).
Qed.

(** The state when the new progress is known. *)
Definition turned (p : Z) (xs : list tsample) (ks : list float) (s : st) : st :=
  if p <? last_progress s then on_cur (fun _ => batch_of [] ks) (flushed (batch_of xs ks) (set_this p s)) else set_this p s.

Lemma on_sampling_run fuel g n p xs ks s t :
  int_at g 3 = Ret n -> p = n mod 10000000 -> in_progress xs ks s ->
  (forall s1, s1 ≡ turned p xs ks s ->
     runs (when (negb (p =? 0)) (read_report fuel)) s1 tt t) ->
  runs (on_sampling Py2 fuel g) s tt (set_last p t).
Proof.
  intros Hn -> Hin Hk. set (p := n mod 10000000) in *. assert (0 <= p) by (apply Z.mod_pos_bound; lia).
  unfold on_sampling. run_step (runs_lift _ _ _ Hn). intros s1 E1. fold p. run_step runs_modify. intros s2 E2.
  eapply runs_bind; [by apply runs_eq|]. intros s3 E3.
  assert (s2 ≡ set_this p s) as E by (by rewrite E2, E1). rewrite E in E3.
  assert (last_progress s2 = last_progress s) as -> by (by rewrite (last_proper _ _ E)).
  unfold turned in Hk. eapply runs_bind.
  { unfold when. instantiate (1 := if p <? last_progress s then on_cur (fun _ => batch_of [] ks) (flushed (batch_of xs ks) (set_this p s))
                                   else set_this p s).
    instantiate (1 := tt). destruct (p <? last_progress s) eqn:Ep.
    - eapply runs_conv; [apply (flush_run xs ks)|by rewrite E3].
      + eapply in_progress_proper; [symmetry; exact E3|exact Hin].
      + intros ->. destruct Hin as (_ & _ & _ & [_ Hi]). specialize (Hi eq_refl). lia.
    - exists s3. split; [done|exact E3]. }
  intros s4 E4. eapply runs_bind; [by apply Hk|]. intros s5 E5. eapply runs_conv; [apply runs_modify|]. by rewrite E5.
Qed.

Lemma turned_columns p xs ks s :
  in_progress xs ks s ->
  let b := p <? last_progress s in
  extends (if b then [(xs, ks)] else []) s (turned p xs ks s) /\
  cur (turned p xs ks s) = batch_of (if b then [] else xs) ks /\
  ov_log (base (turned p xs ks s)) = ov_log (base s) /\ this_process (turned p xs ks s) = Some p.
Proof.
  intros Hin b. unfold turned. subst b. destruct (p <? last_progress s).
  - split; [exact (extends_flushed xs ks s)|done].
  - split; [by apply extends_nil|]. split; [apply Hin|done].
Qed.

(** The effect of a sample, once the report (if any) has been read. *)
Lemma advances_intro e rest p xs ks s xs' ks' (b := p <? last_progress s) :
  is_sampled e = true -> in_progress xs ks s -> 0 <= p -> (p = 0 <-> xs' = []) -> (length xs' <= length ks')%nat ->
  (forall es, tbatches xs ks (last_progress s) (e :: es) = ((if b then [(xs, ks)] else []) ++ tbatches xs' ks' p es)%list) ->
  advances e rest xs ks s (set_last p (set_st_log rest (on_cur (fun _ => batch_of xs' ks') (turned p xs ks s)))).
Proof.
  intros He Hin Hp Hz Hl Hb. destruct (turned_columns p xs ks s Hin) as (Hext & _ & _ & Ht). fold b in Hext.
  exists (if b then [(xs, ks)] else []), xs', ks'. split_and!; [done|split_and!; done|exact Hext|exact Hb|].
  by rewrite He.
Qed.

Lemma runs_sampling_line fuel h ls s t :
  nonempty h = true -> is_sampling (split_ws h) = true -> ov_log (base s) = h :: ls ->
  (forall s1, s1 ≡ set_st_log ls s -> runs (on_sampling Py2 fuel (split_ws h)) s1 tt t) ->
  runs (stress_body Py2 fuel) s None t.
Proof.
  intros Hne Hs Hlog Hk. unfold stress_body. apply runs_try. run_step (runs_readline _ _ _ Hlog). intros s1 E1.
  rewrite bool_decide_false by (by intros ->). rewrite Hs. cbn [when].
  eapply runs_bind; [by apply Hk|]. intros s2 E2. by exists s2.
Qed.

#[export] Instance turned_proper p xs ks : Proper ((≡) ==> (≡)) (turned p xs ks).
Proof.
  intros s s' E. unfold turned. rewrite (last_proper _ _ E). destruct (p <? last_progress s'); by rewrite E.
Qed.

Lemma turned_log p xs ks l s : turned p xs ks (set_st_log l s) = set_st_log l (turned p xs ks s).
Proof. unfold turned. cbn [last_progress set_st_log on_base]. by destruct (p <? last_progress s). Qed.

(** An update of the batch, when the batch is known. *)
Lemma on_cur_known f b s : cur s = b -> on_cur f s = on_cur (fun _ => f b) s.
Proof. intros <-. by destruct s. Qed.

Lemma on_cur_same b s : cur s = b -> on_cur (fun _ => b) s = s.
Proof. intros <-. by destruct s. Qed.

Lemma step_zero fuel h rest xs ks s :
  sampling h 0 -> ov_log (base s) = h :: rest -> in_progress xs ks s ->
  exists s', stress_body Py2 fuel s = (Ret None, s') /\ advances (TZero h) rest xs ks s s'.
Proof.
  intros (Hne & Hs & n & Hn & Hp) Hlog Hin. set (xs' := if 0 <? last_progress s then [] else xs).
  assert (0 <= last_progress s) as Hl by apply Hin.
  assert (xs' = []) as Hx by (subst xs'; destruct (0 <? last_progress s) eqn:E; [done|]; apply Hin; lia).
  destruct (turned_columns 0 xs ks s Hin) as (_ & Hc & _). fold xs' in Hc.
  destruct (runs_sampling_line fuel h rest s
    (set_last 0 (set_st_log rest (on_cur (fun _ => batch_of xs' ks) (turned 0 xs ks s))))) as (s' & E & Es); try done.
  { intros s1 E1. eapply runs_conv; [eapply (on_sampling_run fuel _ n 0 xs ks s1 (turned 0 xs ks s1)); [done|done| |]|].
    - by eapply in_progress_proper; [symmetry; exact E1|].
    - intros s2 E2. by exists s2.
    - rewrite E1, turned_log. by rewrite (on_cur_same _ _ Hc). }
  exists s'. split; [exact E|]. eapply advances_proper; [exact Es|]. apply advances_intro; try done; try lia.
  - rewrite Hx. cbn. lia.
  - intros es. cbn [tbatches]. subst xs'. by destruct (0 <? last_progress s).
Qed.

Lemma step_report fuel h p its lh sk junk d os il x rest xs ks s (e := TReport h p its lh sk junk d os il x) :
  tevent_ok fuel e -> ov_log (base s) = (tevent_lines e ++ rest)%list -> in_progress xs ks s ->
  exists s', stress_body Py2 fuel s = (Ret None, s') /\ advances e rest xs ks s s'.
Proof.
  intros He Hlog Hin. pose proof He as ((Hne & Hs & n & Hn & Hp) & Hp0 & _).
  assert (0 <= p) by (subst p; apply Z.mod_pos_bound; lia).
  set (body := ((item_line <$> its) ++ lh :: sk :: junk ++ d :: os ++ il :: rest)%list).
  assert (ov_log (base s) = h :: body) as Hlog'.
  { rewrite Hlog. subst e body. cbn [tevent_lines]. cbn [app]. by rewrite <- !app_assoc, !app_comm_cons, <- !app_assoc. }
  set (xs0 := if p <? last_progress s then [] else xs).
  destruct (turned_columns p xs ks s Hin) as (_ & Hc & _). fold xs0 in Hc.
  destruct (runs_sampling_line fuel h body s
    (set_last p (set_st_log rest (on_cur (fun _ => batch_of (xs0 ++ [x]) (ks ++ [t_k x])) (turned p xs ks s))))) as (s' & E & Es); try done.
  { intros s1 E1.
    eapply runs_conv; [eapply (on_sampling_run fuel _ n p xs ks s1 (set_st_log rest (on_cur (add_sample x) (turned p xs ks s1)))); [done|done| |]|].
    - by eapply in_progress_proper; [symmetry; exact E1|].
    - intros s2 E2. replace (p =? 0) with false by lia. cbn [negb when].
      eapply runs_conv; [apply (report_run fuel h p its lh sk junk d os il x rest); [exact He|]|by rewrite E2].
      apply (log_proper _ (set_st_log body (turned p xs ks s))). by rewrite E2, E1, turned_log.
    - rewrite E1, turned_log. rewrite <- add_sample_batch, <- (on_cur_known (add_sample x) _ _ Hc).
      by destruct (turned p xs ks s) as [[]]. }
  exists s'. split; [exact E|]. eapply advances_proper; [exact Es|].
  pose proof Hin as (_ & Hk & _). apply advances_intro; try done.
  - split; [intros Hz; by exfalso|by destruct xs0].
  - rewrite !length_app. cbn. subst xs0. destruct (p <? last_progress s); cbn; lia.
  - intros es. subst e xs0. cbn [tbatches]. by destruct (p <? last_progress s).
Qed.

Lemma step_line fuel l rest xs ks s :
  tevent_ok fuel (TLine l) -> ov_log (base s) = l :: rest -> in_progress xs ks s ->
  exists s', stress_body Py2 fuel s = (Ret None, s') /\ advances (TLine l) rest xs ks s s'.
Proof.
  intros [Hne Hs] Hlog Hin.
  assert (runs (stress_body Py2 fuel) s None (set_st_log rest s)) as (s' & E & Es).
  { unfold stress_body. apply runs_try. run_step (runs_readline _ _ _ Hlog). intros s1 E1.
    rewrite bool_decide_false by (by intros ->). rewrite Hs. cbn [when]. by exists s1. }
  exists s'. split; [exact E|]. eapply advances_proper; [exact Es|]. exists [], xs, ks.
  split_and!; [done|done|by apply extends_nil|done|done].
Qed.

(** ** The passes *)

Lemma step_event fuel e rest xs ks s :
  tevent_ok fuel e -> ov_log (base s) = (tevent_lines e ++ rest)%list -> in_progress xs ks s ->
  exists s', stress_body Py2 fuel s = (Ret None, s') /\ advances e rest xs ks s s'.
Proof.
  intros He Hlog Hin. destruct e.
  - by apply step_line.
  - by apply step_zero.
  - by apply step_report.
Qed.

Lemma stress_pass_run n fuel es xs ks s :
  ov_log (base s) = (es ≫= tevent_lines) -> Forall (tevent_ok fuel) es -> in_progress xs ks s -> (length es < n)%nat ->
  exists s' bs xs' ks', while_true n (stress_body Py2 fuel) s = (Ret tt, s') /\ in_progress xs' ks' s' /\ extends bs s s' /\
    tbatches xs ks (last_progress s) es = (bs ++ tbatches xs' ks' (last_progress s') [])%list /\
    (this_process s = Some (last_progress s) \/ existsb is_sampled es = true -> this_process s' = Some (last_progress s')).
Proof.
  intros Hlog HF. revert n xs ks s Hlog. induction HF as [|e es He HF IH]; intros [|n] xs ks s Hlog Hin Hn; try (cbn in Hn; lia).
  - assert (runs (while_true (S n) (stress_body Py2 fuel)) s tt s) as (s' & E & Es).
    { apply runs_break, runs_try. run_step runs_readline_nil; [exact Hlog|]. intros s1 E1. by exists s1. }
    exists s', [], xs, ks. split_and!; [exact E|by eapply in_progress_proper; [symmetry; exact Es|]|..].
    + apply (extends_proper [] s s s s'); [done|by symmetry|]. by apply extends_nil.
    + by rewrite (last_proper _ _ Es).
    + rewrite (last_proper _ _ Es), (this_proper _ _ Es). intros [H|H]; [exact H|discriminate H].
  - destruct (step_event fuel e (mbind (M := list) tevent_lines es) xs ks s He Hlog Hin) as (s1 & E1 & bs & xs1 & ks1 & Hl1 & Hin1 & Hx1 & Hb1 & Ht1).
    destruct (IH n xs1 ks1 s1 Hl1 Hin1 ltac:(cbn in Hn; lia)) as (s2 & bs2 & xs2 & ks2 & E2 & Hin2 & Hx2 & Hb2 & Ht2).
    exists s2, (bs ++ bs2)%list, xs2, ks2. split_and!; [by rewrite (while_true_next _ _ _ _ E1)|done|by eapply extends_app|..].
    + by rewrite Hb1, Hb2, app_assoc.
    + intros Hs. apply Ht2. destruct e; cbn [is_sampled existsb orb] in *; [|by left..].
      destruct Ht1 as [-> ->]. destruct Hs as [Hs|Hs]; [by left|by right].
Qed.

(** The last batch, flushed when the log does not end at a batch boundary. *)
Lemma last_flush_run xs ks s :
  in_progress xs ks s -> this_process s = Some (last_progress s) ->
  exists s', last_flush Py2 s = (Ret tt, s') /\ extends (tbatches xs ks (last_progress s) []) s s'.
Proof.
  intros Hin Ht. unfold last_flush. erewrite bind_ret by reflexivity. rewrite Ht. cbn [tbatches].
  destruct (last_progress s =? 0) eqn:E; cbn [negb when].
  - exists s. split; [done|]. by apply extends_nil.
  - destruct Hin as (Hc & Hk & _ & Hz). erewrite bind_ret by reflexivity.
    assert (xs <> []) by (intros ->; apply Z.eqb_neq in E; tauto).
    eexists. split; [apply stress_flush_py2; cbn; rewrite Hc; by apply batch_of_complete|].
    cbn [cur on_base]. rewrite Hc. eapply extends_proper; [done|reflexivity|]. exact (extends_flushed xs ks s).
Qed.

(** The tables for the batches [bs] and the insert latencies [ins]. *)
Definition stress_table (bs : list (list tsample * list float)) (ins : list float) : list (list cell) :=
  let temp := column "" "" (replicate (length (kpoints bs)) (CStr "")) in
  [ batch_axis; temp;
    column "Search" "Avg Latency" (CFloat <$> tpoints float_inf t_a bs);
    column "" "Tail Latency" (CFloat <$> tpoints float_inf t_t bs);
    column "" "Throughput" (CFloat <$> tpoints float_inf t_q bs);
    column "" "RSS" (CInt <$> tpoints 0 t_m bs);
    pad (length ins) (length (tpoints 0 t_m bs)) (column "Insert" "Avg Latency" (CFloat <$> ins));
    temp; temp; temp;
    column "" "KIOPS" (CFloat <$> kpoints bs) ].

Definition stress_table2 (ins : list float) : list (list cell) :=
  let temp := column "" "" (replicate 20 (CStr "")) in
  [ column "SPFresh" "Batch" (CInt <$> py_range 0 20); column "Insert" "Avg Latency" (CFloat <$> ins); temp; temp ].

Definition csv_bytes (cols : list (list cell)) : list byte := bytes_of_str (csv_text (zip_rows (CStr "") cols)).

(** The columns after both passes and the last flush. *)
Lemma stress_columns_table b1 b2 ins lines s1 s2 s3 :
  extends b1 (st_start lines) s1 -> extends b2 s2 s3 ->
  (avg_latency (base s2), tail_latency (base s2), throughput (base s2), RSS (base s2), KIOPS s2) =
  (avg_latency (base s1), tail_latency (base s1), throughput (base s1), RSS (base s1), KIOPS s1) ->
  insert_avg_latency (base s2) = ins ->
  stress_columns s3 = stress_table (b1 ++ b2) ins /\ stress_columns_new s3 = stress_table2 ins.
Proof.
  intros (A1 & T1 & Q1 & R1 & K1 & _) (A2 & T2 & Q2 & R2 & K2 & I2) [= A T Q R K] I. cbn in A1, T1, Q1, R1, K1.
  unfold stress_columns, stress_columns_new, stress_table, stress_table2, tpoints, kpoints.
  rewrite A2, T2, Q2, R2, K2, I2, A, T, Q, R, K, A1, T1, Q1, R1, K1, I, !bind_app. done.
Qed.

(** ** Properties *)

(** C30: under Python 2 process_stress_test.py, on a log of complete search
    reports and batch boundaries for the first pass and of insert blocks for
    the second, ends and writes its two csv files. A progress below the last
    one closes a batch; every batch gives the first, middle and two-thirds
    points of its latencies, throughputs and memory sizes. The I/O rates are
    taken at the same positions, but from all rates since the log began. *)
Theorem stress_writes_tables_py2 fuel argv1 w b es is' :
  fs w !! argv1 = Some b ->
  lines_of (text_of Py2 b) = (es ≫= tevent_lines) -> lines_of (text_of Py2 b) = (is' ≫= ievent_lines) ->
  Forall (tevent_ok fuel) es -> Forall (ievent_ok fuel) is' -> existsb is_sampled es = true ->
  (length es < fuel)%nat -> (length is' < fuel)%nat ->
  can_create w "stress_test.csv" = true -> can_create w "stress_test2.csv" = true ->
  process_stress_test Py2 fuel argv1 w =
    (Ret tt, put_file "stress_test2.csv" (csv_bytes (stress_table2 (log_insert is')))
               (put_file "stress_test.csv" (csv_bytes (stress_table (tbatches [] [] 0 es) (log_insert is'))) w)).
Proof.
  intros Hb Hl1 Hl2 He Hi Hs Hf1 Hf2 Hc1 Hc2. unfold process_stress_test.
  rewrite (bind_ret _ _ _ _ _ (open_lines_ok _ _ _ _ Hb)).
  destruct (stress_pass_run fuel fuel es [] [] (st_start (lines_of (text_of Py2 b)))) as (s1 & bs & xs & ks & E1 & Hin & Hx & Hbs & Ht);
    [done|done|done|done|].
  erewrite bind_ret by (unfold run_local, stress_pass; by rewrite E1).
  rewrite (bind_ret _ _ _ _ _ (open_lines_ok _ _ _ _ Hb)). cbn [snd].
  destruct (insert_loop_run fuel fuel is' (base (set_st_log (lines_of (text_of Py2 b)) s1)) Hl2 Hi Hf2) as (lc & cl & E2).
  erewrite bind_ret by (unfold run_local, stress_insert_pass, insert_pass; by rewrite E2). cbn [snd].
  set (s2 := on_base _ (set_st_log _ s1)).
  destruct (last_flush_run xs ks s2) as (s3 & E3 & Hx3); [exact Hin|apply Ht; by right|].
  erewrite bind_ret by (unfold run_local; by rewrite E3). cbn [snd].
  destruct (stress_columns_table bs (tbatches xs ks (last_progress s1) []) (log_insert is') _ s1 s2 s3 Hx Hx3) as [-> ->]; try done.
  { cbn. by destruct Hx as (_ & _ & _ & _ & _ & ->). }
  rewrite <- Hbs. erewrite bind_ret by by apply create_file_ok. erewrite bind_ret by apply writerows_put.
  erewrite bind_ret by by apply create_file_ok. apply writerows_put.
Qed.

(** ** Witness: two batches of one report each, a boundary and an insert block *)

Definition demo_report (p m q a k : string) : list string :=
  ["x Samppling at " ++ p; "a b c d RSS 5 6 7 8 9 10 11 12 13 14 15 " ++ m; "0 1 2 3 4 5 6 AvgQPS: " ++ q ++ ".";
   "Total Latency Distribution:"; "Avg 50tiles"; "unit ms"; "x " ++ a ++ " 2 3 4 9"; "Device sda"; "IOPS: " ++ k ++ "k"].
Definition demo_stress : list string :=
  (demo_report "5" "100" "20" "1" "7" ++ demo_report "3" "200" "30" "2" "8" ++
   ["x Samppling at 10000000"; "k Insert Latency"; "Avg ms"; "x 4"])%list.
Definition demo_stress_lines : list string := (fun l => l ++ newline) <$> demo_stress.
Definition sline (i : nat) : string := nth i demo_stress_lines "".

Definition demo_event (i : nat) (p m q a k : Z) : tevent :=
  TReport (sline i) p [IRss (sline (i + 1)) m; IQps (sline (i + 2)) (float_of_Z q)] (sline (i + 3)) (sline (i + 4))
    [sline (i + 5)] (sline (i + 6)) [sline (i + 7)] (sline (i + 8))
    (Tsample (float_of_Z a) (float_of_Z 9) (float_of_Z q) m (float_of_Z k)).
Definition demo_events : list tevent :=
  [demo_event 0 5 100 20 1 7; demo_event 9 3 200 30 2 8; TZero (sline 18); TLine (sline 19); TLine (sline 20); TLine (sline 21)].
Definition demo_inserts : list ievent :=
  ((INoise <$> take 19 demo_stress_lines) ++ [IBlock (sline 19) [sline 20] (sline 21) (float_of_Z 4)])%list.
Definition demo_stress_world : world := World {["log" := bytes_of_str (unlines demo_stress)]} ∅ [].

(** The second batch shows the I/O rate of the first. *)
Example demo_kiops : kpoints (tbatches [] [] 0 demo_events) = float_of_Z <$> [7; 7; 7; 7; 7; 7].
Proof. vm_compute. reflexivity. Qed.

(** Evaluates the conditions on an event; [n] is the progress its line shows. *)
Ltac demo_ok n :=
  unfold demo_event; cbv beta iota delta [tevent_ok sampling latency_lines];
  repeat match goal with |- _ /\ _ => apply conj end;
  repeat first [apply Forall_cons_2 | apply Forall_nil_2];
  match goal with
  | |- exists m, _ => exists n; split; vm_compute; reflexivity
  | |- _ => vm_compute; first [reflexivity | lia | discriminate | repeat split; reflexivity]
  end.

Lemma stress_writes_tables_py2_witness :
  exists w', process_stress_test Py2 30 "log" demo_stress_world = (Ret tt, w').
Proof.
  eexists. apply (stress_writes_tables_py2 30 "log" demo_stress_world (bytes_of_str (unlines demo_stress)) demo_events demo_inserts).
  1-3: vm_compute; reflexivity.
  - apply Forall_cons_2; [demo_ok 5|]. apply Forall_cons_2; [demo_ok 3|]. apply Forall_cons_2; [demo_ok 10000000|].
    repeat apply Forall_cons_2; [demo_ok 0..|]. apply Forall_nil_2.
  - repeat (apply Forall_cons_2 || apply Forall_nil_2 || split); try (vm_compute; reflexivity || lia).
    right. vm_compute. reflexivity.
  - vm_compute. reflexivity.
  - vm_compute. lia.
  - vm_compute. lia.
  - vm_compute. reflexivity.
  - vm_compute. reflexivity.
Defined.
