(* ===== verification/SmallLogs.v ===== *)
(** * I/O-limit and thread-balance logs (Figures 7 and 11)

    [process_iopslimit.py] takes one throughput and one I/O rate from each of
    six logs; [process_balance.py] takes the foreground and background insert
    rates of six logs and lays them out in a fixed table. *)

From Stdlib Require Import Ascii.
From S2P Require Import Prelude PyStr PyFloat PyBytes PyIO LogWords.

Open Scope string_scope.
Open Scope Z_scope.

(** ** process_iopslimit.py *)
Module IopsLimit.

Definition process_list : list Z := [1; 2; 4; 8; 10; 12].

Record io := Io { io_log : list string; throughput : list cell; KIOPS : list cell }.

Definition set_io_log (l : list string) (s : io) : io := Io l (throughput s) (KIOPS s).
Definition add_throughput (x : float) (s : io) : io :=
  Io (io_log s) (throughput s ++ [CFloat x])%list (KIOPS s).
Definition add_KIOPS (x : float) (s : io) : io :=
  Io (io_log s) (throughput s) (KIOPS s ++ [CFloat x])%list.

#[global] Instance io_LogState : LogState io.
Proof. by refine {| log_f := io_log; set_log := set_io_log |}; intros; try destruct s. Defined.

(** [while result_group[0] != 'IOPS:']. *)
Fixpoint find_iops (fuel : nat) (result_group : list string) : py io (list string) :=
  match fuel with
  | O => fun s => (OutOfFuel, s)
  | S n => b ← lift (word_eq result_group 0 "IOPS:");
           if (b : bool) then mret result_group
           else line ← readline; find_iops n (split_ws line)
  end.

(** The loop over one log. *)
Definition read_body (fuel : nat) : py io (option unit) :=
  line ← readline;
  if bool_decide (line = "") then mret (Some tt)
  else
    let result_group := split_ws line in
    if is_qps result_group then
      q ← lift (float_rstrip_at "." result_group 8); modify (add_throughput q);;
      g ← find_iops fuel result_group;
      k ← lift (float_rstrip_at "k" g 1); modify (add_KIOPS (fmul k (float_of_Z 1000)));;
      mret (Some tt)
    else mret None.
Definition read_log (fuel : nat) : py io unit := while_true fuel (read_body fuel).

Fixpoint read_all (v : pyver) (fuel : nat) (prefix : string) (l : list Z) (s : io) : py world io :=
  match l with
  | [] => mret s
  | i :: l' => lines ← open_lines v (prefix ++ str_of_Z i);
               r ← run_local (read_log fuel) (set_io_log lines s);
               read_all v fuel prefix l' r.2
  end.

Definition process_iopslimit (v : pyver) (fuel : nat) (argv1 : string) : py world unit :=
  s ← read_all v fuel argv1 process_list (Io [] [CStr ""] [CStr ""]);
  let process_list_search := CStr "" :: (CInt <$> process_list) in
  let batch := CStr "" :: (CInt <$> py_range 0 6) in
  create_file "IOPS_limit.csv";;
  writerows "IOPS_limit.csv" (zip_rows (CStr "") [batch; throughput s; KIOPS s; process_list_search]).
End IopsLimit.

(** ** process_balance.py *)
Module Balance.

Definition insert : list Z := [1; 2; 4; 8].
Definition append : list Z := [1; 2; 4].
Definition threadlist : list Z := [11; 21; 41; 81; 82; 84].

Record rates := Rates { fore_throughput : list float; back_throughput : list float }.

Definition is_insert_report (g : list string) (kind : string) : bool :=
  longer g 11 && word_is g 1 "Insert:" && word_is g 7 kind.

(** The two tests of the loop body on one line. *)
Definition read_line (line : string) (r : rates) : outcome rates :=
  let g := split_ws line in
  r ← (if is_insert_report g "sending"
       then x ← float_at g 10; Ret (Rates (fore_throughput r ++ [x])%list (back_throughput r))
       else Ret r);
  if is_insert_report g "actuall"
  then x ← float_rstrip_at "," g 10; Ret (Rates (fore_throughput r) (back_throughput r ++ [x])%list)
  else Ret r.

(** The reading loop: every line up to the end of the file. *)
Fixpoint read_lines (lines : list string) (r : rates) : outcome rates :=
  match lines with
  | [] => Ret r
  | l :: ls => r' ← read_line l r; read_lines ls r'
  end.

Fixpoint read_all (v : pyver) (prefix : string) (l : list Z) (r : rates) : py world rates :=
  match l with
  | [] => mret r
  | i :: l' => lines ← open_lines v (prefix ++ str_of_Z i);
               r' ← lift (read_lines lines r);
               read_all v prefix l' r'
  end.

Definition blanks (n : nat) : list cell := replicate n (CStr "").

(** [float] pairs [fore[k], back[k]] for the given positions. *)
Fixpoint pairs_at (r : rates) (ks : list Z) : outcome (list cell) :=
  match ks with
  | [] => Ret []
  | k :: ks' => f ← py_index (fore_throughput r) k; b ← py_index (back_throughput r) k;
                rest ← pairs_at r ks'; Ret (CFloat f :: CFloat b :: rest)
  end.

(** Row [i] of the table. *)
Definition table_row (r : rates) (i : Z) : outcome (list cell) :=
  n ← py_index insert i;
  if negb (n =? 8) then
    p ← pairs_at r [i];
    q ← pairs_at r [i + 3];
    Ret (([CStr ""; CInt n] ++ p ++ blanks 4 ++ [CInt n] ++ q)%list)
  else
    p ← pairs_at r ((fun j => j + 3) <$> py_range 0 3);
    Ret (([CStr ""; CInt n] ++ p ++ blanks 3)%list).

Definition process_balance (v : pyver) (argv1 : string) : py world unit :=
  r ← read_all v argv1 threadlist (Rates [] []);
  create_file "foreground_background.csv";;
  writerow "foreground_background.csv" (blanks 11);;
  for_each (py_range 0 4) (fun i =>
    row ← lift (table_row r i); writerow "foreground_background.csv" row).
End Balance.

(** ** Lemmas *)

Lemma io_readline (s : IopsLimit.io) l ls :
  IopsLimit.io_log s = l :: ls -> readline s = (Ret l, IopsLimit.set_io_log ls s).
Proof. intros H. unfold readline. cbn. by rewrite H. Qed.

(** A log with one report: lines before the throughput line, that line,
    lines whose first word is not "IOPS:", and the "IOPS:" line. *)
Record io_report := IoReport {
  ir_pre : list string; ir_qps : string; ir_mid : list string; ir_iops : string; ir_post : list string;
  ir_q : float; ir_k : float
}.

Definition ir_lines (r : io_report) : list string :=
  (ir_pre r ++ ir_qps r :: ir_mid r ++ ir_iops r :: ir_post r)%list.

Definition other_word (l : string) : Prop := word_eq (split_ws l) 0 "IOPS:" = Ret false.

Definition ir_ok (fuel : nat) (r : io_report) : Prop :=
  Forall (fun l => nonempty l = true /\ is_qps (split_ws l) = false) (ir_pre r) /\
  nonempty (ir_qps r) = true /\ is_qps (split_ws (ir_qps r)) = true /\
  float_rstrip_at "." (split_ws (ir_qps r)) 8 = Ret (ir_q r) /\
  other_word (ir_qps r) /\ Forall other_word (ir_mid r) /\
  word_eq (split_ws (ir_iops r)) 0 "IOPS:" = Ret true /\
  float_rstrip_at "k" (split_ws (ir_iops r)) 1 = Ret (ir_k r) /\
  (length (ir_pre r) < fuel)%nat /\ (length (ir_mid r) + 1 < fuel)%nat.

Lemma find_iops_run n l mid iops post s :
  other_word l -> Forall other_word mid -> word_eq (split_ws iops) 0 "IOPS:" = Ret true ->
  IopsLimit.io_log s = (mid ++ iops :: post)%list -> (length mid + 1 < n)%nat ->
  IopsLimit.find_iops n (split_ws l) s = (Ret (split_ws iops), IopsLimit.set_io_log post s).
Proof.
  intros Hl Hmid Hi. revert n l Hl s.
  induction Hmid as [|m mid Hm Hmid IH]; intros [|n] l Hl s Hlog Hn; try (cbn in Hn; lia);
    cbn [IopsLimit.find_iops]; unfold lift; rewrite Hl; erewrite bind_ret by reflexivity; cbn beta iota.
  - rewrite (bind_ret _ _ _ _ _ (io_readline s _ _ Hlog)).
    destruct n as [|n]; [cbn in Hn; lia|]. cbn [IopsLimit.find_iops]. unfold lift. rewrite Hi. reflexivity.
  - rewrite (bind_ret _ _ _ _ _ (io_readline s _ _ Hlog)).
    rewrite (IH n m Hm); [done|done|cbn in Hn; lia].
Qed.

Lemma iops_loop_run n fuel r s :
  ir_ok fuel r -> (length (ir_pre r) < n)%nat -> IopsLimit.io_log s = ir_lines r ->
  while_true n (IopsLimit.read_body fuel) s =
    (Ret tt, IopsLimit.Io (ir_post r) (IopsLimit.throughput s ++ [CFloat (ir_q r)])%list
                (IopsLimit.KIOPS s ++ [CFloat (fmul (ir_k r) (float_of_Z 1000))])%list).
Proof.
  intros (Hpre & Hne & Hq & Hqv & Ho & Hmid & Hi & Hk & _ & Hf2). unfold ir_lines. revert n s.
  induction Hpre as [|l pre [Hln Hlq] Hpre IH]; intros [|n] s Hn Hlog; try (cbn in Hn; lia).
  - apply while_true_break. unfold IopsLimit.read_body.
    rewrite (bind_ret _ _ _ _ _ (io_readline s _ _ Hlog)).
    rewrite bool_decide_false by (intros E; by rewrite E in Hne). rewrite Hq. unfold lift. rewrite Hqv.
    do 2 (erewrite bind_ret by reflexivity).
    erewrite bind_ret by (eapply (find_iops_run fuel (ir_qps r) (ir_mid r) (ir_iops r) (ir_post r)); done).
    rewrite Hk. reflexivity.
  - rewrite (while_true_next _ _ _ (IopsLimit.set_io_log (pre ++ ir_qps r :: ir_mid r ++ ir_iops r :: ir_post r)%list s)).
    { rewrite IH; [done|cbn in *; lia|done]. }
    unfold IopsLimit.read_body. rewrite (bind_ret _ _ _ _ _ (io_readline s _ _ Hlog)).
    rewrite bool_decide_false by (intros E; by rewrite E in Hln). by rewrite Hlq.
Qed.

Lemma iops_read_log_run fuel r s :
  ir_ok fuel r -> IopsLimit.io_log s = ir_lines r ->
  IopsLimit.read_log fuel s =
    (Ret tt, IopsLimit.Io (ir_post r) (IopsLimit.throughput s ++ [CFloat (ir_q r)])%list
                (IopsLimit.KIOPS s ++ [CFloat (fmul (ir_k r) (float_of_Z 1000))])%list).
Proof. intros Hok. apply iops_loop_run; [done|]. by destruct Hok as (_ & _ & _ & _ & _ & _ & _ & _ & ? & _). Qed.

Lemma iops_read_all_run v fuel prefix w (u : Z -> io_report) l s :
  (forall i, i ∈ l -> ir_ok fuel (u i) /\ exists b, fs w !! (prefix ++ str_of_Z i) = Some b /\
                        lines_of (text_of v b) = ir_lines (u i)) ->
  exists rest, IopsLimit.read_all v fuel prefix l s w =
    (Ret (IopsLimit.Io rest (IopsLimit.throughput s ++ ((fun i => CFloat (ir_q (u i))) <$> l))%list
            (IopsLimit.KIOPS s ++ ((fun i => CFloat (fmul (ir_k (u i)) (float_of_Z 1000))) <$> l))%list), w).
Proof.
  revert s. induction l as [|i l IH]; intros s Hl.
  - exists (IopsLimit.io_log s). cbn. rewrite !app_nil_r. by destruct s.
  - destruct (Hl i) as (Hok & b & Hb & Hlines); [by constructor|]. cbn [IopsLimit.read_all].
    rewrite (bind_ret _ _ _ _ _ (open_lines_ok _ _ _ _ Hb)).
    erewrite bind_ret by (unfold run_local; rewrite (iops_read_log_run fuel (u i)) by done; reflexivity).
    cbn [snd]. edestruct IH as (rest & ->); [intros; apply Hl; by constructor|].
    exists rest. cbn. by rewrite <- !app_assoc.
Qed.

(** ** Properties *)

(** C31: process_iopslimit.py on six logs with one report each writes
    IOPS_limit.csv with a blank row and one row per thread count: its number,
    the throughput, a thousand times the I/O rate, and the thread count. *)
Theorem iopslimit_writes_rows v fuel argv1 w (u : Z -> io_report) :
  (forall i, i ∈ IopsLimit.process_list -> ir_ok fuel (u i) /\
     exists b, fs w !! (argv1 ++ str_of_Z i) = Some b /\ lines_of (text_of v b) = ir_lines (u i)) ->
  can_create w "IOPS_limit.csv" = true ->
  IopsLimit.process_iopslimit v fuel argv1 w =
    (Ret tt, set_fs (<["IOPS_limit.csv" := bytes_of_str (csv_text
       ([CStr ""; CStr ""; CStr ""; CStr ""] ::
        ((fun p => [CInt p.1; CFloat (ir_q (u p.2)); CFloat (fmul (ir_k (u p.2)) (float_of_Z 1000)); CInt p.2])
           <$> zip [0; 1; 2; 3; 4; 5] IopsLimit.process_list)))]> (fs w)) w).
Proof.
  intros Hl Hc. unfold IopsLimit.process_iopslimit.
  destruct (iops_read_all_run v fuel argv1 w u _ (IopsLimit.Io [] [CStr ""] [CStr ""]) Hl) as (rest & E).
  rewrite (bind_ret _ _ _ _ _ E). erewrite bind_ret by (unfold create_file; by rewrite Hc).
  rewrite (writerows_eq _ _ []) by apply lookup_insert_eq.
  unfold set_fs; cbn [fs dirs stdout]. by rewrite insert_insert_eq.
Qed.

(** Process_balance.py's table: with at least six foreground and six
    background rates every row is defined, and row i of the first three pairs
    rate i with rate i+3 while the last row holds rates 3, 4 and 5; with
    fewer than six foreground rates the last row is an IndexError. *)
Theorem balance_rows (r : Balance.rates) :
  (exists f0 f1 f2 f3 f4 f5 fr b0 b1 b2 b3 b4 b5 br,
     r = Balance.Rates (f0 :: f1 :: f2 :: f3 :: f4 :: f5 :: fr) (b0 :: b1 :: b2 :: b3 :: b4 :: b5 :: br) /\
     mapM_out (Balance.table_row r) [0; 1; 2; 3] = Ret
       [ [CStr ""; CInt 1; CFloat f0; CFloat b0; CStr ""; CStr ""; CStr ""; CStr ""; CInt 1; CFloat f3; CFloat b3];
         [CStr ""; CInt 2; CFloat f1; CFloat b1; CStr ""; CStr ""; CStr ""; CStr ""; CInt 2; CFloat f4; CFloat b4];
         [CStr ""; CInt 4; CFloat f2; CFloat b2; CStr ""; CStr ""; CStr ""; CStr ""; CInt 4; CFloat f5; CFloat b5];
         [CStr ""; CInt 8; CFloat f3; CFloat b3; CFloat f4; CFloat b4; CFloat f5; CFloat b5;
          CStr ""; CStr ""; CStr ""] ])
  \/ ((length (Balance.fore_throughput r) < 6)%nat \/ (length (Balance.back_throughput r) < 6)%nat) /\
     Balance.table_row r 3 = Raise IndexError.
Proof.
  destruct r as [[|f0 [|f1 [|f2 [|f3 [|f4 [|f5 fr]]]]]] [|b0 [|b1 [|b2 [|b3 [|b4 [|b5 br]]]]]]];
    try (right; cbn; split; [first [left; cbn; lia|right; cbn; lia]|reflexivity]).
  left. do 14 eexists. split; reflexivity.
Qed.

(** ** Witnesses *)

Definition demo_io_lines : list string :=
  ["start"; "0 1 2 3 4 5 6 AvgQPS: 250.5."; "other line"; "IOPS: 12.5k"].
Definition demo_io : io_report :=
  let l := (fun l => l ++ newline) <$> demo_io_lines in
  IoReport [nth 0 l ""] (nth 1 l "") [nth 2 l ""] (nth 3 l "") []
    (float_of_dec false 2505 (-1)) (float_of_dec false 125 (-1)).
Definition demo_io_world : world :=
  World (list_to_map ((fun i => ("t" ++ str_of_Z i, bytes_of_str (unlines demo_io_lines))) <$> IopsLimit.process_list)) ∅ [].

Lemma iopslimit_writes_rows_witness :
  exists w', IopsLimit.process_iopslimit Py3 5 "t" demo_io_world = (Ret tt, w').
Proof.
  eexists. apply (iopslimit_writes_rows Py3 5 "t" demo_io_world (fun _ => demo_io)).
  - intros i Hi. split.
    + unfold ir_ok. split_and!;
        first [ vm_compute; reflexivity | vm_compute; lia
              | repeat (apply Forall_cons_2 || apply Forall_nil_2 || split); vm_compute; reflexivity ].
    + exists (bytes_of_str (unlines demo_io_lines)). split; [|vm_compute; reflexivity].
      repeat (apply list_elem_of_In in Hi; destruct Hi as [<-|Hi]; [vm_compute; reflexivity|apply list_elem_of_In in Hi]).
      by apply not_elem_of_nil in Hi.
  - vm_compute. reflexivity.
Defined.
