(* ===== verification/MergeResult.v ===== *)
(** * Merging the three systems (Figure 6): OverallPerformance_merge_result.py

    The recalls of 101 logs per system become columns of exactly 402 cells;
    they are merged row by row with the three result tables, which are read
    back as csv. *)

From Stdlib Require Import Ascii.
From S2P Require Import Prelude PyStr PyFloat PyBytes PyIO PyCsv LogWords.

Open Scope string_scope.
Open Scope Z_scope.

(** [len(g) > 1 and g[1] == "Recall10@10:"], then [float(g[2])]. *)
Definition recall_of (line : string) : outcome (option float) :=
  let g := split_ws line in
  if longer g 1 && word_is g 1 "Recall10@10:" then x ← float_at g 2; Ret (Some x)
  else Ret None.

(** The reading loop on one log. *)
Fixpoint read_recalls (lines : list string) (templist : list cell) : outcome (list cell) :=
  match lines with
  | [] => Ret templist
  | l :: ls => r ← recall_of l;
               read_recalls ls (match r with Some x => templist ++ [CFloat x] | None => templist end)%list
  end.

(** [while len(templist) != 402: templist.append('')]. *)
Definition pad_402 (fuel : nat) : py (list cell) unit :=
  while_true fuel (
    l ← get_state;
    if negb (Z.of_nat (length l) =? 402) then modify (fun l => l ++ [CStr ""])%list;; mret None
    else mret (Some tt)).

(** [for i in range(-1, 100)]: the logs of one system. *)
Fixpoint read_system (v : pyver) (prefix : string) (is' : list Z) (templist : list cell) : py world (list cell) :=
  match is' with
  | [] => mret templist
  | i :: is'' => lines ← open_lines v (prefix ++ str_of_Z i);
                 t ← lift (read_recalls lines templist);
                 read_system v prefix is'' t
  end.

(** One round of the loop over the systems. *)
Definition accuracy_column (v : pyver) (fuel : nat) (prefix : string) : py world (list cell) :=
  t ← read_system v prefix (py_range (-1) 100) [CStr ""; CStr "Accuracy"];
  r ← run_local (pad_402 fuel) t;
  mret r.2.

Definition step : float := float_of_dec false 2 (-1).

(** The batch column: i + 0.2, i + 0.4, i + 0.6, i + 0.8. *)
Definition batch_column : list cell :=
  column "" "Batch"
    (py_range 0 100 ≫= fun i =>
       (fun k => CFloat (fadd (float_of_Z i) (if k =? 1 then step else fmul step (float_of_Z k)))) <$> [1; 2; 3; 4]).

(** The tuples [zip] of the three readers gives, which it pulls in turn, and the
    exception that ends it, if one does. *)
Fixpoint zip3 (a b c : csv_rows) : list (list string * list string * list string) * option exn :=
  match a with
  | NoRow => ([], None)
  | RowError e => ([], Some e)
  | Row r1 a' =>
      match b with
      | NoRow => ([], None)
      | RowError e => ([], Some e)
      | Row r2 b' =>
          match c with
          | NoRow => ([], None)
          | RowError e => ([], Some e)
          | Row r3 c' => let '(l, e) := zip3 a' b' c' in ((r1, r2, r3) :: l, e)
          end
      end
  end.

(** [for ... in zip(...)]: in Python 2 [zip] makes the whole list first, in Python 3
    the loop meets an exception when it gets there. [loop l e] is the loop over
    [l] with what comes after it. *)
Definition for_zip (v : pyver) (z : list (list string * list string * list string) * option exn)
    (loop : list (list string * list string * list string) -> py world unit -> py world unit) : py world unit :=
  match z.2 with
  | None => loop z.1 (mret tt)
  | Some e => match v with Py2 => raise e | Py3 => loop z.1 (raise e) end
  end.

(** A row of overall_performance_spacev.csv. *)
Definition merged_row (batch acc0 acc1 acc2 : list cell) (i : Z) (rows : list string * list string * list string)
    : outcome (list cell) :=
  let '(row1, row2, row3) := rows in
  b ← py_index batch i;
  a0 ← py_index acc0 i; a2 ← py_index acc2 i; a1 ← py_index acc1 i;
  Ret ([b; CStr ""] ++ (CStr <$> row1) ++ [CStr ""; a0; CStr ""] ++ (CStr <$> row2) ++
       [CStr ""; a2; CStr ""] ++ (CStr <$> row3) ++ [CStr ""; a1])%list.

(** The first writing loop: rows are written as they are made. *)
Fixpoint write_merged (p : string) (batch acc0 acc1 acc2 : list cell) (i : Z)
    (l : list (list string * list string * list string)) (last : py world unit) : py world unit :=
  match l with
  | [] => last
  | rows :: l' =>
      r ← lift (merged_row batch acc0 acc1 acc2 i rows);
      writerow p r;;
      write_merged p batch acc0 acc1 acc2 (i + 1) l' last
  end.

(** A row of overall_performance_spacev2.csv. *)
Definition short_row (batch acc0 acc1 acc2 : list cell) (i : Z) (rows : list string * list string * list string)
    : outcome (list cell) :=
  let '(row1, row2, row3) := rows in
  b ← py_index batch i;
  r1 ← py_index row1 4; a0 ← py_index acc0 i;
  r2 ← py_index row2 4; a2 ← py_index acc2 i;
  r3 ← py_index row3 4; a1 ← py_index acc1 i;
  Ret [b; CStr r1; CStr ""; a0; CStr r2; CStr ""; a2; CStr r3; CStr ""; a1].

(** The second writing loop stops at 101 rows. *)
Fixpoint write_short (p : string) (batch acc0 acc1 acc2 : list cell) (i : Z)
    (l : list (list string * list string * list string)) (last : py world unit) : py world unit :=
  match l with
  | [] => last
  | rows :: l' =>
      if i =? 101 then mret tt
      else
        r ← lift (short_row batch acc0 acc1 acc2 i rows);
        writerow p r;;
        write_short p batch acc0 acc1 acc2 (i + 1) l' last
  end.

(** [csv.reader(open(p))]; the tables are other files than the outputs, so
    that it does not matter when they are read. *)
Definition read_csv (v : pyver) (p : string) : py world csv_rows :=
  b ← read_file p; mret (csv_reader (text_of v b)).

(** The arguments [sys.argv[1]] to [sys.argv[6]]. *)
Record merge_args := MergeArgs {
  log_spfresh : string; log_spann : string; log_diskann : string;
  csv_spfresh : string; csv_spann : string; csv_diskann : string
}.

Definition merge_result (v : pyver) (fuel : nat) (a : merge_args) : py world unit :=
  acc0 ← accuracy_column v fuel (log_spfresh a);
  acc1 ← accuracy_column v fuel (log_spann a);
  acc2 ← accuracy_column v fuel (log_diskann a);
  spfresh ← read_csv v (csv_spfresh a);
  spann ← read_csv v (csv_spann a);
  diskann ← read_csv v (csv_diskann a);
  create_file "overall_performance_spacev.csv";;
  for_zip v (zip3 spfresh diskann spann)
    (write_merged "overall_performance_spacev.csv" batch_column acc0 acc1 acc2 0);;
  let batch := column "" "Batch" (CInt <$> py_range 0 101) in
  spfresh ← read_csv v (csv_spfresh a);
  spann ← read_csv v (csv_spann a);
  diskann ← read_csv v (csv_diskann a);
  create_file "overall_performance_spacev2.csv";;
  for_zip v (zip3 spfresh diskann spann)
    (write_short "overall_performance_spacev2.csv" batch acc0 acc1 acc2 0).

(** ** Lemmas *)

Lemma pad_402_run n l :
  (length l <= 402)%nat -> (402 - length l < n)%nat ->
  pad_402 n l = (Ret tt, (l ++ replicate (402 - length l) (CStr ""))%list).
Proof.
  unfold pad_402. revert l. induction n as [|n IH]; intros l Hl Hn; [lia|].
  destruct (decide (length l = 402%nat)) as [E|E].
  - rewrite (while_true_break _ _ _ l tt).
    + rewrite E, Nat.sub_diag. cbn. by rewrite app_nil_r.
    + erewrite bind_ret by reflexivity. by replace (Z.of_nat (length l) =? 402) with true by lia.
  - rewrite (while_true_next _ _ _ (l ++ [CStr ""])%list).
    + rewrite IH by (rewrite length_app; cbn; lia). rewrite length_app. cbn [length].
      rewrite <- app_assoc. do 2 f_equal.
      replace (402 - length l)%nat with (S (402 - (length l + 1)))%nat by lia. done.
    + erewrite bind_ret by reflexivity. by replace (Z.of_nat (length l) =? 402) with false by lia.
Qed.

Lemma length_batch_column : length batch_column = 402%nat.
Proof. unfold batch_column, column. cbn [length]. do 2 f_equal. Qed.

(** ** The merged tables *)

(** A row of the first table, from the cells of its position. *)
Definition merged_cells (b a0 a1 a2 : cell) (r1 r2 r3 : list cell) : list cell :=
  ([b; CStr ""] ++ r1 ++ [CStr ""; a0; CStr ""] ++ r2 ++ [CStr ""; a2; CStr ""] ++ r3 ++ [CStr ""; a1])%list.

(** A row of the second one: the fifth cells are the insert latencies. *)
Definition short_cells (b a0 a1 a2 c1 c2 c3 : cell) : list cell :=
  [b; c1; CStr ""; a0; c2; CStr ""; a2; c3; CStr ""; a1].

Definition at_nth (k : nat) (l : list cell) : cell := nth k l (CStr "").

(** The row of position [k], whose cells were made by [f] from those of the
    tables. *)
Definition merged_at (batch acc0 acc1 acc2 : list cell) {A} (f : A -> cell) (k : nat) (t : list A * list A * list A) : list cell :=
  let '(r1, r2, r3) := t in
  merged_cells (at_nth k batch) (at_nth k acc0) (at_nth k acc1) (at_nth k acc2) (f <$> r1) (f <$> r2) (f <$> r3).

Definition short_at (batch acc0 acc1 acc2 : list cell) {A} (f : A -> cell) (k : nat) (t : list A * list A * list A) : list cell :=
  let '(r1, r2, r3) := t in
  short_cells (at_nth k batch) (at_nth k acc0) (at_nth k acc1) (at_nth k acc2)
    (at_nth 4 (f <$> r1)) (at_nth 4 (f <$> r2)) (at_nth 4 (f <$> r3)).

Definition tuples {A} (t1 t2 t3 : list A) : list (A * A * A) := zip (zip t1 t2) t3.

Definition short_batch : list cell := column "" "Batch" (CInt <$> py_range 0 101).

(** The two tables of the results [t1], [t2], [t3] (spfresh, diskann, spann) and
    the recall columns. *)
Definition merged_table (acc0 acc1 acc2 : list cell) (t1 t2 t3 : list (list cell)) : list (list cell) :=
  imap (merged_at batch_column acc0 acc1 acc2 id) (tuples t1 t2 t3).
Definition short_table (acc0 acc1 acc2 : list cell) (t1 t2 t3 : list (list cell)) : list (list cell) :=
  imap (short_at short_batch acc0 acc1 acc2 id) (take 101 (tuples t1 t2 t3)).

(** A recall column. *)
Definition recall_column (xs : list float) : list cell :=
  let l := column "" "Accuracy" (CFloat <$> xs) in (l ++ replicate (402 - length l) (CStr ""))%list.

(** The recalls in the logs of a system. *)
Definition found (rs : list (option float)) : list float := omap id rs.
Definition file_recalls (v : pyver) (b : list byte) : outcome (list float) :=
  rs ← mapM_out recall_of (lines_of (text_of v b)); Ret (found rs).
Definition log_recalls (v : pyver) (w : world) (prefix : string) (xs : list float) : Prop :=
  exists xss, xs = mjoin xss /\
    Forall2 (fun i x => exists b, fs w !! (prefix ++ str_of_Z i) = Some b /\ file_recalls v b = Ret x) (py_range (-1) 100) xss.

(** ** Lemmas on the loops *)

Lemma length_recall_column xs : (length xs <= 400)%nat -> length (recall_column xs) = 402%nat.
Proof.
  intros H. unfold recall_column, column. rewrite length_app, length_replicate. cbn [length]. rewrite length_fmap. lia.
Qed.

Lemma read_recalls_run lines rs l :
  mapM_out recall_of lines = Ret rs -> read_recalls lines l = Ret (l ++ (CFloat <$> found rs))%list.
Proof.
  revert rs l. induction lines as [|x lines IH]; intros rs l H; cbn in *.
  - injection H as <-. cbn. by rewrite app_nil_r.
  - destruct (recall_of x) as [r|e|]; [|done..]. cbn in *. destruct (mapM_out recall_of lines) as [rs'|e|]; [|done..].
    cbn in H. injection H as <-. rewrite (IH rs') by done. destruct r as [x'|]; cbn; [|done].
    by rewrite <- app_assoc.
Qed.

Lemma read_system_run v prefix w is' xss l :
  Forall2 (fun i x => exists b, fs w !! (prefix ++ str_of_Z i) = Some b /\ file_recalls v b = Ret x) is' xss ->
  read_system v prefix is' l w = (Ret (l ++ (CFloat <$> mjoin xss))%list, w).
Proof.
  intros HF. revert l. induction HF as [|i x is' xss (b & Hb & Hx) HF IH]; intros l; cbn [read_system].
  - cbn. by rewrite app_nil_r.
  - rewrite (bind_ret _ _ _ _ _ (open_lines_ok v w _ b Hb)). unfold file_recalls in Hx.
    destruct (mapM_out recall_of (lines_of (text_of v b))) as [rs|e|] eqn:E; [|done..]. cbn in Hx. injection Hx as <-.
    rewrite (bind_ret _ _ w w (l ++ (CFloat <$> found rs))%list) by (unfold lift; by rewrite (read_recalls_run _ rs)).
    rewrite IH. change (mjoin (?a :: ?b)) with (a ++ mjoin b)%list. by rewrite fmap_app, app_assoc.
Qed.

Lemma accuracy_column_run v fuel prefix w xs :
  log_recalls v w prefix xs -> (length xs <= 400)%nat -> (400 < fuel)%nat ->
  accuracy_column v fuel prefix w = (Ret (recall_column xs), w).
Proof.
  intros (xss & -> & HF) Hl Hf. unfold accuracy_column. rewrite (bind_ret _ _ _ _ _ (read_system_run v prefix w _ xss _ HF)).
  cbn [app]. erewrite bind_ret.
  2: { unfold run_local. rewrite pad_402_run; [reflexivity|cbn [length]; rewrite length_fmap; lia..]. }
  reflexivity.
Qed.

Lemma zip3_rows t1 t2 t3 : zip3 (csv_of_rows t1) (csv_of_rows t2) (csv_of_rows t3) = (tuples t1 t2 t3, None).
Proof.
  revert t2 t3. induction t1 as [|r1 t1 IH]; intros [|r2 t2] [|r3 t3]; try done. cbn [csv_of_rows zip3]. by rewrite IH.
Qed.

(** Rows written from position [i] on. *)
Definition from {A B} (i : nat) (f : nat -> A -> B) (l : list A) : list B := imap (fun k => f (i + k)%nat) l.

Lemma from_cons {A B} i (f : nat -> A -> B) x l : from i f (x :: l) = f i x :: from (S i) f l.
Proof.
  unfold from. cbn. rewrite Nat.add_0_r. f_equal. apply imap_ext. intros k y _. cbn. f_equal. lia.
Qed.

Lemma write_one p r w c : writerow p r (put_file p c w) = (Ret tt, put_file p (c ++ bytes_of_str (csv_row r))%list w).
Proof. apply append_put. Qed.

Lemma put_rows p c r rs w :
  put_file p ((c ++ bytes_of_str (csv_row r)) ++ bytes_of_str (csv_text rs))%list w = put_file p (c ++ bytes_of_str (csv_text (r :: rs)))%list w.
Proof. change (csv_text (r :: rs)) with (csv_row r ++ csv_text rs). by rewrite bytes_of_str_app, app_assoc. Qed.

Section columns.
Context (batch acc0 acc1 acc2 : list cell).
Context (H0 : length acc0 = 402%nat) (H1 : length acc1 = 402%nat) (H2 : length acc2 = 402%nat).

Lemma merged_row_nth k t :
  (k < length batch)%nat -> (k < 402)%nat ->
  merged_row batch acc0 acc1 acc2 (Z.of_nat k) t = Ret (merged_at batch acc0 acc1 acc2 CStr k t).
Proof.
  intros Hb Hk. destruct t as [[r1 r2] r3]. unfold merged_row.
  by rewrite !(py_index_nth _ k (CStr "")) by lia.
Qed.

Lemma short_row_nth k r1 r2 r3 :
  (k < length batch)%nat -> (k < 402)%nat -> (4 < length r1)%nat -> (4 < length r2)%nat -> (4 < length r3)%nat ->
  short_row batch acc0 acc1 acc2 (Z.of_nat k) (r1, r2, r3) = Ret (short_at batch acc0 acc1 acc2 CStr k (r1, r2, r3)).
Proof.
  intros Hb Hk L1 L2 L3. unfold short_row. change 4 with (Z.of_nat 4).
  rewrite !(py_index_nth _ k (CStr "")), !(py_index_nth _ 4 "") by lia. cbn [mbind outcome_bind].
  unfold short_at, at_nth. by rewrite <- !(map_nth CStr).
Qed.

Lemma write_merged_run p l (i : nat) c w :
  (i + length l <= length batch)%nat -> (i + length l <= 402)%nat ->
  write_merged p batch acc0 acc1 acc2 (Z.of_nat i) l (mret tt) (put_file p c w) =
    (Ret tt, put_file p (c ++ bytes_of_str (csv_text (from i (merged_at batch acc0 acc1 acc2 CStr) l)))%list w).
Proof.
  revert i c. induction l as [|t l IH]; intros i c Hb Hi; cbn [write_merged].
  - cbn. by rewrite app_nil_r.
  - cbn [length] in *. erewrite bind_ret by (unfold lift; rewrite merged_row_nth by lia; reflexivity).
    rewrite (bind_ret _ _ _ _ _ (write_one _ _ _ _)).
    replace (Z.of_nat i + 1) with (Z.of_nat (S i)) by lia. rewrite IH by lia. by rewrite from_cons, put_rows.
Qed.

Definition wide (t : list string * list string * list string) : Prop :=
  (4 < length t.1.1)%nat /\ (4 < length t.1.2)%nat /\ (4 < length t.2)%nat.

Lemma write_short_run p l (i : nat) c w :
  (101 <= length batch)%nat -> (i <= 101)%nat -> Forall wide l ->
  write_short p batch acc0 acc1 acc2 (Z.of_nat i) l (mret tt) (put_file p c w) =
    (Ret tt, put_file p (c ++ bytes_of_str (csv_text (from i (short_at batch acc0 acc1 acc2 CStr) (take (101 - i) l))))%list w).
Proof.
  intros Hb Hi HF. revert i c Hi. induction HF as [|[[r1 r2] r3] l (L1 & L2 & L3) HF IH]; intros i c Hi; cbn [write_short].
  - rewrite take_nil. cbn. by rewrite app_nil_r.
  - destruct (Z.eqb_spec (Z.of_nat i) 101) as [E|E].
    { replace i with 101%nat by lia. cbn. by rewrite app_nil_r. }
    erewrite bind_ret by (unfold lift; rewrite short_row_nth by (done || lia); reflexivity).
    rewrite (bind_ret _ _ _ _ _ (write_one _ _ _ _)).
    replace (Z.of_nat i + 1) with (Z.of_nat (S i)) by lia. rewrite IH by lia.
    replace (101 - i)%nat with (S (101 - S i))%nat by lia. cbn [take]. by rewrite from_cons, put_rows.
Qed.
End columns.

(** What was read back is written as the cells it came from. *)
Definition texts (t : list cell * list cell * list cell) : list string * list string * list string :=
  let '(r1, r2, r3) := t in (read_back r1, read_back r2, read_back r3).

Lemma tuples_read_back t1 t2 t3 :
  tuples (read_back <$> t1) (read_back <$> t2) (read_back <$> t3) = texts <$> tuples t1 t2 t3.
Proof.
  revert t2 t3. induction t1 as [|r1 t1 IH]; intros [|r2 t2] [|r3 t3]; try done. unfold tuples in *. cbn. f_equal. apply IH.
Qed.

Lemma csv_text_imap {A} (f g : nat -> A -> list cell) l :
  (forall k x, csv_row (f k x) = csv_row (g k x)) -> csv_text (imap f l) = csv_text (imap g l).
Proof.
  intros H. apply csv_text_ext. revert f g H. induction l as [|x l IH]; intros f g H; cbn; constructor; [done|].
  apply IH. intros k y. apply H.
Qed.

Lemma merged_at_texts batch acc0 acc1 acc2 k t :
  csv_row (merged_at batch acc0 acc1 acc2 CStr k (texts t)) = csv_row (merged_at batch acc0 acc1 acc2 id k t).
Proof.
  destruct t as [[r1 r2] r3]. unfold merged_at, texts, merged_cells. apply csv_row_ext; [cbn; lia|].
  rewrite !fmap_app, !read_back_fields, !list_fmap_id. done.
Qed.

Lemma nth_fields r r' : csv_field <$> r = csv_field <$> r' -> csv_field (at_nth 4 r) = csv_field (at_nth 4 r').
Proof.
  intros E. unfold at_nth. rewrite <- !(map_nth csv_field). by change (map csv_field) with (fmap (M := list) csv_field); rewrite E.
Qed.

Lemma short_at_texts batch acc0 acc1 acc2 k t :
  csv_row (short_at batch acc0 acc1 acc2 CStr k (texts t)) = csv_row (short_at batch acc0 acc1 acc2 id k t).
Proof.
  assert (forall r, csv_field (at_nth 4 (CStr <$> read_back r)) = csv_field (at_nth 4 (id <$> r))) as H.
  { intros r. apply nth_fields. by rewrite read_back_fields, list_fmap_id. }
  destruct t as [[r1 r2] r3]. unfold short_at, texts, short_cells. apply csv_row_ext; [cbn; lia|].
  unfold fmap at 1 3. cbn [list_fmap]. by rewrite !H.
Qed.

(** A result table: in every row at least five cells, none with a carriage
    return. *)
Definition result_rows (t : list (list cell)) : Prop := Forall (fun r => (4 < length r)%nat /\ forallb cell_ok r = true) t.
Definition result_file (w : world) (p : string) (t : list (list cell)) : Prop :=
  fs w !! p = Some (bytes_of_str (csv_text t)) /\ result_rows t.

Lemma read_csv_run v w p t : result_file w p t -> read_csv v p w = (Ret (csv_of_rows (read_back <$> t)), w).
Proof.
  intros [Hf Hr]. unfold read_csv. rewrite (bind_ret _ _ _ _ _ (read_file_ok p _ w Hf)).
  rewrite csv_roundtrip; [done|]. eapply Forall_impl; [exact Hr|]. by intros r [_ H].
Qed.

Lemma wide_tuples t1 t2 t3 :
  result_rows t1 -> result_rows t2 -> result_rows t3 -> Forall wide (tuples (read_back <$> t1) (read_back <$> t2) (read_back <$> t3)).
Proof.
  intros R1 R2 R3. rewrite tuples_read_back. apply Forall_fmap, Forall_forall. intros [[r1 r2] r3] Ht.
  unfold tuples in Ht. apply elem_of_zip_r in Ht as H3. apply elem_of_zip_l in Ht as H12.
  apply elem_of_zip_l in H12 as H1. apply elem_of_zip_r in H12 as H2.
  unfold result_rows in *. rewrite Forall_forall in R1, R2, R3.
  cbn. unfold wide, read_back. cbn. rewrite !length_fmap. split_and!; [by apply R1|by apply R2|by apply R3].
Qed.

Definition spacev : string := "overall_performance_spacev.csv".
Definition spacev2 : string := "overall_performance_spacev2.csv".

Lemma result_file_put w p q b t : p <> q -> result_file w p t -> result_file (put_file q b w) p t.
Proof. intros H [Hf Hr]. split; [|done]. rewrite fs_put. by rewrite decide_False. Qed.

(** The script from the logs of the recalls and the three tables to its two
    files. *)
Section script.
Context (v : pyver) (fuel : nat) (a : merge_args) (w : world).
Context (x0 x1 x2 : list float) (t1 t2 t3 : list (list cell)).
Context (L0 : log_recalls v w (log_spfresh a) x0) (L1 : log_recalls v w (log_spann a) x1) (L2 : log_recalls v w (log_diskann a) x2).
Context (N0 : (length x0 <= 400)%nat) (N1 : (length x1 <= 400)%nat) (N2 : (length x2 <= 400)%nat) (Hfuel : (400 < fuel)%nat).
Context (T1 : result_file w (csv_spfresh a) t1) (T2 : result_file w (csv_diskann a) t2) (T3 : result_file w (csv_spann a) t3).
Context (Hrows : (length (tuples t1 t2 t3) <= 402)%nat).
Context (Hout : spacev <> csv_spfresh a /\ spacev <> csv_diskann a /\ spacev <> csv_spann a).
Context (C1 : can_create w spacev = true) (C2 : can_create w spacev2 = true).

Let acc0 := recall_column x0.
Let acc1 := recall_column x1.
Let acc2 := recall_column x2.

Lemma first_loop c w0 :
  for_zip v (zip3 (csv_of_rows (read_back <$> t1)) (csv_of_rows (read_back <$> t2)) (csv_of_rows (read_back <$> t3)))
    (write_merged spacev batch_column acc0 acc1 acc2 0) (put_file spacev c w0) =
  (Ret tt, put_file spacev (c ++ bytes_of_str (csv_text (merged_table acc0 acc1 acc2 t1 t2 t3)))%list w0).
Proof.
  rewrite zip3_rows. unfold for_zip. cbn [fst snd].
  assert (length (tuples (read_back <$> t1) (read_back <$> t2) (read_back <$> t3)) <= 402)%nat as Hl
    by by rewrite tuples_read_back, length_fmap.
  change 0 with (Z.of_nat 0). rewrite write_merged_run; try by apply length_recall_column.
  2: rewrite length_batch_column; exact Hl. 2: exact Hl.
  rewrite tuples_read_back. unfold from. rewrite imap_fmap.
  rewrite (csv_text_imap _ (merged_at batch_column acc0 acc1 acc2 id)) by (intros k t; apply merged_at_texts). done.
Qed.

Lemma second_loop c w0 :
  for_zip v (zip3 (csv_of_rows (read_back <$> t1)) (csv_of_rows (read_back <$> t2)) (csv_of_rows (read_back <$> t3)))
    (write_short spacev2 short_batch acc0 acc1 acc2 0) (put_file spacev2 c w0) =
  (Ret tt, put_file spacev2 (c ++ bytes_of_str (csv_text (short_table acc0 acc1 acc2 t1 t2 t3)))%list w0).
Proof.
  rewrite zip3_rows. unfold for_zip. cbn [fst snd].
  change 0 with (Z.of_nat 0). rewrite write_short_run; try by apply length_recall_column.
  2: cbn [short_batch column length]; rewrite length_fmap, length_py_range; lia.
  2: lia. 2: apply wide_tuples; [apply T1|apply T2|apply T3].
  rewrite tuples_read_back. unfold from. rewrite <- fmap_take, imap_fmap.
  rewrite (csv_text_imap _ (short_at short_batch acc0 acc1 acc2 id)) by (intros k t; apply short_at_texts). done.
Qed.

Lemma merge_result_run :
  merge_result v fuel a w =
    (Ret tt, put_file spacev2 (bytes_of_str (csv_text (short_table acc0 acc1 acc2 t1 t2 t3)))
               (put_file spacev (bytes_of_str (csv_text (merged_table acc0 acc1 acc2 t1 t2 t3))) w)).
Proof.
  destruct Hout as (O1 & O2 & O3). unfold merge_result.
  rewrite (bind_ret _ _ _ _ _ (accuracy_column_run v fuel _ w x0 L0 N0 Hfuel)).
  rewrite (bind_ret _ _ _ _ _ (accuracy_column_run v fuel _ w x1 L1 N1 Hfuel)).
  rewrite (bind_ret _ _ _ _ _ (accuracy_column_run v fuel _ w x2 L2 N2 Hfuel)).
  rewrite (bind_ret _ _ _ _ _ (read_csv_run v w _ t1 T1)), (bind_ret _ _ _ _ _ (read_csv_run v w _ t3 T3)),
    (bind_ret _ _ _ _ _ (read_csv_run v w _ t2 T2)).
  rewrite (bind_ret _ _ _ _ _ (create_file_ok spacev w C1)), (bind_ret _ _ _ _ _ (first_loop [] w)). cbn [app].
  set (w1 := put_file spacev _ w).
  rewrite (bind_ret _ _ _ _ _ (read_csv_run v w1 _ t1 (result_file_put _ _ _ _ _ (not_eq_sym O1) T1))).
  rewrite (bind_ret _ _ _ _ _ (read_csv_run v w1 _ t3 (result_file_put _ _ _ _ _ (not_eq_sym O3) T3))).
  rewrite (bind_ret _ _ _ _ _ (read_csv_run v w1 _ t2 (result_file_put _ _ _ _ _ (not_eq_sym O2) T2))).
  rewrite (bind_ret _ _ _ _ _ (create_file_ok spacev2 w1 C2)). apply second_loop.
Qed.
End script.

(** ** Properties *)

(** The padding loop of the merge script ends for a column of at most
    402 cells, with exactly 402 cells that begin with the given ones; with
    more recalls than that it never ends. *)
Theorem pad_402_total_or_diverges l :
  ((length l <= 402)%nat /\ exists k, pad_402 403 l = (Ret tt, (l ++ replicate k (CStr ""))%list) /\
     length (l ++ replicate k (CStr "")) = 402%nat)
  \/ ((402 < length l)%nat /\ forall fuel, (pad_402 fuel l).1 = OutOfFuel).
Proof.
  destruct (decide (length l <= 402)%nat) as [H|H]; [left|right]; (split; [lia|]).
  - exists (402 - length l)%nat. split; [apply pad_402_run; lia|].
    rewrite length_app, length_replicate. lia.
  - intros fuel. apply (while_true_diverges (fun l => (402 < length l)%nat)); [|lia].
    intros l' Hl. exists (l' ++ [CStr ""])%list. split; [|rewrite length_app; cbn; lia].
    erewrite bind_ret by reflexivity. by replace (Z.of_nat (length l') =? 402) with false by lia.
Qed.
