(* ===== verification/Figure6.v ===== *)
(** * Figure 6 from the logs to the merged tables

    The three scripts that make a table of a system's log and the script that
    merges the tables, in the order and with the file names of
    overall_spacev_spfresh.sh, overall_spacev_spann.sh, overall_spacev_diskann.sh
    and plot_overall_result.sh. The tables in between are csv files; their numbers
    arrive in the merged tables as they were. All run under Python 2, the
    only version under which process_diskann.py writes a table. *)

From Stdlib Require Import Ascii.
From S2P Require Import Prelude PyStr PyFloat PyBytes PyIO PyCsv LogWords OverallLogs DiskannLogs MergeResult.

Open Scope string_scope.
Open Scope Z_scope.

(** ** The names in the shell scripts *)

Definition log_of (system : string) : string := "log_overall_performance_spacev_" ++ system ++ ".log".
Definition result_of (system : string) : string := "overall_performance_spacev_" ++ system ++ "_result.csv".

Definition plot_args : merge_args :=
  MergeArgs "log_spfresh_" "log_spann_" "log_diskann_" (result_of "spfresh") (result_of "spann") (result_of "diskann").

(** Every file the scripts write. *)
Definition outputs : list string := [result_of "spfresh"; result_of "spann"; result_of "diskann"; spacev; spacev2].

(** ** Tables *)

Definition rows (cols : list (list cell)) : list (list cell) := zip_rows (CStr "") cols.

Definition column_ok (l : list cell) : bool := forallb cell_ok l.

Lemma nth_ok k l : column_ok l = true -> cell_ok (nth k l (CStr "")) = true.
Proof.
  revert k. induction l as [|c l IH]; intros [|k]; [done..| |]; cbn; intros [Hc Hl]%andb_prop; [done|by apply IH].
Qed.

Lemma rows_ok cols : (4 < length cols)%nat -> forallb column_ok cols = true -> result_rows (rows cols).
Proof.
  intros Hl Hok. unfold rows, zip_rows. destruct cols as [|l cols]; [constructor|].
  apply Forall_fmap, Forall_forall. intros k _. cbn [compose]. rewrite length_fmap. split; [done|].
  apply forallb_forall. intros c Hc. apply in_map_iff in Hc as (col & <- & Hcol). apply nth_ok.
  by eapply forallb_forall in Hok.
Qed.

Lemma column_ok_app a b : column_ok (a ++ b)%list = column_ok a && column_ok b.
Proof. apply forallb_app. Qed.

Lemma column_ok_fmap {A} (f : A -> cell) l : (forall x, cell_ok (f x) = true) -> column_ok (f <$> l) = true.
Proof. intros H. induction l as [|x l IH]; [done|]. cbn. by rewrite H. Qed.

Lemma column_ok_blanks n : column_ok (replicate n (CStr "")) = true.
Proof. by induction n. Qed.

Lemma log_table_ok v ss is' : result_rows (rows (log_table v ss is')).
Proof.
  apply rows_ok; [cbn; lia|]. unfold log_table, pad, column. cbn [forallb]. rewrite column_ok_app, column_ok_blanks.
  cbn. rewrite !column_ok_fmap; [done|done..|by intros z; destruct v|done|done|done].
Qed.

Lemma diskann_table_ok bs ins : result_rows (rows (diskann_table bs ins)).
Proof.
  apply rows_ok; [cbn; lia|]. unfold diskann_table, pad, column. cbn [forallb]. rewrite column_ok_app, column_ok_blanks.
  cbn. rewrite !column_ok_fmap; [done|done..|by intros []|done|done|done].
Qed.

(** ** The files through the phases *)

Lemma log_recalls_put v w prefix xs q b :
  (forall i, prefix ++ str_of_Z i <> q) -> log_recalls v w prefix xs -> log_recalls v (put_file q b w) prefix xs.
Proof.
  intros Hq (xss & -> & HF). exists xss. split; [done|]. eapply Forall2_impl; [exact HF|].
  intros i x (c & Hc & Hx). exists c. split; [|done]. rewrite fs_put. by rewrite decide_False.
Qed.

Lemma result_file_here w p t : result_rows t -> result_file (put_file p (bytes_of_str (csv_text t)) w) p t.
Proof. intros H. split; [|done]. rewrite fs_put. by rewrite decide_True. Qed.

(** The names of logs and of outputs begin differently. *)
Lemma log_not_output s p : p ∈ outputs -> String "l" s <> p.
Proof.
  assert (Forall (fun q => String.get 0 q <> Some "l"%char) outputs) as HF by by repeat constructor.
  intros Hp <-. by apply (proj1 (Forall_forall _ _) HF _ Hp).
Qed.

(** What the three scripts leave. *)
Definition tabled (t1 t2 t3 : list (list cell)) (w : world) : world :=
  put_file (result_of "diskann") (bytes_of_str (csv_text t3))
    (put_file (result_of "spann") (bytes_of_str (csv_text t2))
      (put_file (result_of "spfresh") (bytes_of_str (csv_text t1)) w)).

Lemma tabled_recalls v w prefix xs t1 t2 t3 :
  (forall i p, p ∈ outputs -> prefix ++ str_of_Z i <> p) -> log_recalls v w prefix xs ->
  log_recalls v (tabled t1 t2 t3 w) prefix xs.
Proof. intros Hp H. do 3 (apply log_recalls_put; [intros i; apply Hp; set_solver|]). exact H. Qed.

Lemma tabled_other w p t1 t2 t3 : p ∉ outputs -> fs (tabled t1 t2 t3 w) !! p = fs w !! p.
Proof. intros Hp. unfold tabled. rewrite !fs_put. rewrite !decide_False; [done|intros <-; apply Hp; set_solver..]. Qed.

Section figure.
Context (fuel : nat) (w : world) (b1 b2 b3 : list byte).
Context (ss1 ss2 : list sevent) (is1 is2 : list ievent) (es : list devent) (ins x1 x2 x3 : list float).

Let t1 := rows (log_table Py2 ss1 is1).
Let t2 := rows (log_table Py2 ss2 is2).
Let t3 := rows (diskann_table (dbatches [] 0 (NInt 0) es) ins).

Lemma tables_run :
  fs w !! log_of "spfresh" = Some b1 -> overall_log Py2 fuel b1 ss1 is1 ->
  fs w !! log_of "spann" = Some b2 -> overall_log Py2 fuel b2 ss2 is2 ->
  fs w !! log_of "diskann" = Some b3 -> diskann_log fuel b3 es ins ->
  Forall (fun p => can_create w p = true) outputs ->
  (process_spfresh Py2 fuel (log_of "spfresh") (result_of "spfresh");;
   Spann.process_spann Py2 fuel (log_of "spann") (result_of "spann");;
   process_diskann Py2 fuel (log_of "diskann") (result_of "diskann")) w = (Ret tt, tabled t1 t2 t3 w).
Proof.
  intros F1 L1 F2 L2 F3 L3 Hc. apply Forall_cons in Hc as [C1 Hc]. apply Forall_cons in Hc as [C2 Hc].
  apply Forall_cons in Hc as [C3 _].
  erewrite bind_ret by (rewrite (overall_columns _ _ _ _ _ _ _ _ F1 L1); by apply create_rows).
  change (Spann.process_spann Py2 fuel) with (process_spfresh Py2 fuel).
  erewrite bind_ret.
  2: { rewrite (overall_columns _ _ _ _ _ b2 _ _) by (done || by rewrite fs_put, decide_False). by apply create_rows. }
  rewrite (diskann_columns _ _ _ _ b3 _ _) by (done || by rewrite !fs_put, !decide_False). by apply create_rows.
Qed.
End figure.

(** ** Property *)

(** C5: Figure 6 end to end, under Python 2. From the logs of the three systems
    and the logs of their recalls, at most 400 recalls per system and 402 rows,
    the four scripts end. The merged table has as many rows as the shortest of
    the three tables; rows and recalls beyond it are not written. Its row k has
    the batch of position k, then for SPFresh, DiskANN and SPANN the latencies,
    throughput, memory and insert latency that the system's log gives for
    position k, and its recall; the short table has the insert latencies and
    recalls of the first 101 of these rows. The numbers are written as in the
    tables in between, nothing is shifted by the way through the csv files, and
    no other file changes. *)
Theorem figure6_from_logs fuel w b1 b2 b3 ss1 is1 ss2 is2 es ins x1 x2 x3 t1 t2 t3 :
  fs w !! log_of "spfresh" = Some b1 -> overall_log Py2 fuel b1 ss1 is1 ->
  fs w !! log_of "spann" = Some b2 -> overall_log Py2 fuel b2 ss2 is2 ->
  fs w !! log_of "diskann" = Some b3 -> diskann_log fuel b3 es ins ->
  log_recalls Py2 w "log_spfresh_" x1 -> log_recalls Py2 w "log_spann_" x2 -> log_recalls Py2 w "log_diskann_" x3 ->
  (length x1 <= 400)%nat -> (length x2 <= 400)%nat -> (length x3 <= 400)%nat -> (400 < fuel)%nat ->
  Forall (fun p => can_create w p = true) outputs ->
  t1 = rows (log_table Py2 ss1 is1) -> t2 = rows (log_table Py2 ss2 is2) ->
  t3 = rows (diskann_table (dbatches [] 0 (NInt 0) es) ins) -> (length (tuples t1 t3 t2) <= 402)%nat ->
  exists w',
    ((process_spfresh Py2 fuel (log_of "spfresh") (result_of "spfresh");;
      Spann.process_spann Py2 fuel (log_of "spann") (result_of "spann");;
      process_diskann Py2 fuel (log_of "diskann") (result_of "diskann"));;
     merge_result Py2 fuel plot_args) w = (Ret tt, w') /\
    fs w' !! spacev = Some (bytes_of_str (csv_text
      (merged_table (recall_column x1) (recall_column x2) (recall_column x3) t1 t3 t2))) /\
    fs w' !! spacev2 = Some (bytes_of_str (csv_text
      (short_table (recall_column x1) (recall_column x2) (recall_column x3) t1 t3 t2))) /\
    forall p, p ∉ outputs -> fs w' !! p = fs w !! p.
Proof.
  intros F1 L1 F2 L2 F3 L3 R1 R2 R3 N1 N2 N3 Hf Hc -> -> -> Hl. eexists. split; [|split; [|split]].
  - rewrite (bind_ret _ _ _ _ _ (tables_run fuel w b1 b2 b3 _ _ _ _ _ _ F1 L1 F2 L2 F3 L3 Hc)).
    apply (merge_result_run Py2 fuel plot_args _ x1 x2 x3); try done.
    1-3: apply tabled_recalls; [|done]; intros i; by apply log_not_output.
    1: do 2 (apply result_file_put; [done|]). 2: idtac. 3: apply result_file_put; [done|].
    1-3: apply result_file_here; apply log_table_ok || apply diskann_table_ok.
    1-2: rewrite Forall_forall in Hc; apply (Hc _); unfold outputs; set_solver.
  - by rewrite !fs_put, decide_False, decide_True.
  - by rewrite fs_put, decide_True.
  - intros p Hp. rewrite !fs_put, !decide_False; [by apply tabled_other|intros <-; apply Hp; unfold outputs; set_solver..].
Qed.

(** ** Witness *)

Definition recall_bytes : list byte := bytes_of_str ("Mean Recall10@10: 0.5" ++ newline).
Definition half : float := float_of_dec false 5 (-1).
Definition recall_files (prefix : string) : list (string * list byte) :=
  (fun i => (prefix ++ str_of_Z i, recall_bytes)) <$> py_range (-1) 100.
Definition figure_world : world :=
  World (list_to_map ([(log_of "spfresh", bytes_of_str (unlines demo_overall)); (log_of "spann", bytes_of_str (unlines demo_overall));
                       (log_of "diskann", bytes_of_str demo_log)]
                      ++ recall_files "log_spfresh_" ++ recall_files "log_spann_" ++ recall_files "log_diskann_")%list) ∅ [].

Lemma demo_recalls prefix :
  Forall (fun i => fs figure_world !! (prefix ++ str_of_Z i) = Some recall_bytes) (py_range (-1) 100) ->
  log_recalls Py2 figure_world prefix (replicate 101 half).
Proof.
  intros HF. exists (replicate 101 [half]). split; [done|]. apply Forall2_replicate_r; [done|].
  eapply Forall_impl; [exact HF|]. intros i Hi. exists recall_bytes. split; [exact Hi|]. vm_compute. reflexivity.
Qed.

Lemma figure6_from_logs_witness :
  exists w', ((process_spfresh Py2 401 (log_of "spfresh") (result_of "spfresh");;
      Spann.process_spann Py2 401 (log_of "spann") (result_of "spann");;
      process_diskann Py2 401 (log_of "diskann") (result_of "diskann"));;
     merge_result Py2 401 plot_args) figure_world = (Ret tt, w') /\
    fs w' !! spacev = Some (bytes_of_str (csv_text
      (merged_table (recall_column (replicate 101 half)) (recall_column (replicate 101 half)) (recall_column (replicate 101 half))
         (rows (log_table Py2 demo_ss demo_is)) (rows (diskann_table (dbatches [] 0 (NInt 0) demo_events) [float_of_Z 100000]))
         (rows (log_table Py2 demo_ss demo_is))))).
Proof.
  destruct (figure6_from_logs 401 figure_world (bytes_of_str (unlines demo_overall)) (bytes_of_str (unlines demo_overall)) (bytes_of_str demo_log)
    demo_ss demo_is demo_ss demo_is demo_events [float_of_Z 100000] (replicate 101 half) (replicate 101 half) (replicate 101 half)
    (rows (log_table Py2 demo_ss demo_is)) (rows (log_table Py2 demo_ss demo_is))
    (rows (diskann_table (dbatches [] 0 (NInt 0) demo_events) [float_of_Z 100000]))) as (w' & E & H & _).
  - vm_compute. reflexivity.
  - apply demo_overall_ok. lia.
  - vm_compute. reflexivity.
  - apply demo_overall_ok. lia.
  - vm_compute. reflexivity.
  - apply demo_diskann_ok. lia.
  - apply demo_recalls, (bool_decide_unpack _). vm_compute. exact I.
  - apply demo_recalls, (bool_decide_unpack _). vm_compute. exact I.
  - apply demo_recalls, (bool_decide_unpack _). vm_compute. exact I.
  - vm_compute. lia.
  - vm_compute. lia.
  - vm_compute. lia.
  - lia.
  - repeat constructor.
  - reflexivity.
  - reflexivity.
  - reflexivity.
  - vm_compute. lia.
  - exists w'. split; [exact E|exact H].
Defined.
