(* ===== verification/Datasets.v ===== *)
(** * Data set scripts: generate_dataset.py and data_clustering_sift.py

    Both read a file of the DEFAULT format (row count, dimension, then one
    byte per component) and write files of that format. They build their
    output with [vecs = ""] and [vecs += f.read(dim)], which concatenates in
    Python 2 and is a [TypeError] in Python 3. *)

From Stdlib Require Import Ascii.
From S2P Require Import Prelude PyStr PyFloat PyBytes PyIO.

Open Scope string_scope.
Open Scope Z_scope.

(** ** Binary handles: the bytes still to be read *)

(** [f.read(n)]; a negative [n] reads everything. *)
Definition read_bytes (n : Z) (f : list byte) : list byte * list byte :=
  if n <? 0 then (f, []) else (take (Z.to_nat n) f, drop (Z.to_nat n) f).

(** [vecs += vec] with [vecs] a [str] and [vec] a [bytes]. *)
Definition str_iadd (v : pyver) (vecs vec : list byte) : outcome (list byte) :=
  match v with Py2 => Ret (vecs ++ vec)%list | Py3 => Raise TypeError end.

(** [x_bin = f.read(4); assert x_bin != b''; x, = struct.unpack('i', x_bin)]. *)
Definition read_header_int (f : list byte) : outcome (list byte * Z * list byte) :=
  let '(b, f') := read_bytes 4 f in
  if bool_decide (b = []) then Raise AssertionError
  else z ← unpack_i b; Ret (b, z, f').

(** ** generate_dataset.py *)
Module Generate.

Record args := Args { src : string; dst : string; topk : option Z }.

Record vars := Vars { f : list byte; vecs : list byte; i : Z }.

(** The reading loop. *)
Definition read_loop (v : pyver) (fuel : nat) (dim : Z) (topk : option Z) : py vars unit :=
  while_true fuel (
    s ← get_state;
    let '(vec, f') := read_bytes dim (f s) in
    vs ← lift (str_iadd v (vecs s) vec);
    put_state (Vars f' vs (i s + 1));;
    if bool_decide (Some (i s + 1) = topk) then mret (Some tt) else mret None).

Definition generate_dataset (v : pyver) (fuel : nat) (a : args) : py world unit :=
  data ← read_file (src a);
  h1 ← lift (read_header_int data);
  let '(row_bin, row, data) := h1 in
  h2 ← lift (read_header_int data);
  let '(dim_bin, dim, data) := h2 in
  r ← run_local (read_loop v fuel dim (topk a)) (Vars data [] 0);
  create_file (dst a);;
  b ← lift (match topk a with Some k => pack_i k | None => Raise StructError end);
  append_file (dst a) b;;
  append_file (dst a) dim_bin;;
  append_file (dst a) (vecs r.2).
End Generate.

(** ** data_clustering_sift.py

    The labels [KMeans] finds are a parameter; what it refuses is written out. *)
Section clustering.
Context (kmeans_labels : Z -> list (list Z) -> list Z).

Definition clusters : Z := 2.

(** [KMeans(n_clusters=k).fit(vecs)] and its [labels_]: fewer vectors than
    clusters, or vectors without a component, are a [ValueError]. *)
Definition kmeans_fit (k : Z) (vecs : list (list Z)) : outcome (list Z) :=
  if (Z.of_nat (length vecs) <? k) || forallb (fun v => Nat.eqb (length v) 0) vecs then Raise ValueError
  else Ret (kmeans_labels k vecs).

Record cargs := CArgs { c_src : string; c_dst : string }.

Record cvars := CVars { c_f : list byte; c_vecs : list (list Z); c_i : Z }.

(** The first loop: one tuple of signed bytes per vector. *)
Definition read_vectors (fuel : nat) (row dim : Z) : py cvars unit :=
  while_true fuel (
    s ← get_state;
    let '(b, f') := read_bytes dim (c_f s) in
    vec ← lift (unpack_bs dim b);
    put_state (CVars f' (c_vecs s ++ [vec])%list (c_i s + 1));;
    if c_i s + 1 =? row then mret (Some tt) else mret None).

Record gvars := GVars { g_f : list byte; g_vecs : list byte; vec_num : list Z; g_j : Z }.

(** [l[k] += 1] for an index the code takes from the labels. *)
Definition incr_at (l : list Z) (k : Z) : outcome (list Z) :=
  x ← py_index l k;
  Ret (<[Z.to_nat (if k <? 0 then k + Z.of_nat (length l) else k) := x + 1]> l).

(** The loop that collects the vectors of cluster [c]. *)
Definition collect_loop (v : pyver) (fuel : nat) (label_pred : list Z) (row dim c : Z) : py gvars unit :=
  while_true fuel (
    s ← get_state;
    l ← lift (py_index label_pred (g_j s));
    (if l =? c then
       let '(b, f') := read_bytes dim (g_f s) in
       vs ← lift (str_iadd v (g_vecs s) b);
       n ← lift (incr_at (vec_num s) l);
       put_state (GVars f' vs n (g_j s + 1))
     else
       let '(_, f') := read_bytes dim (g_f s) in
       put_state (GVars f' (g_vecs s) (vec_num s) (g_j s + 1)));;
    if g_j s + 1 =? row then mret (Some tt) else mret None).

(** One round of the generating loop: the source is read again. *)
Definition collect_cluster (v : pyver) (fuel : nat) (a : cargs) (label_pred : list Z) (nums : list Z) (c : Z)
    : py world (list byte * list Z * Z * list byte) :=
  data ← read_file (c_src a);
  h1 ← lift (read_header_int data);
  let '(_, row, data) := h1 in
  h2 ← lift (read_header_int data);
  let '(dim_bin, dim, data) := h2 in
  r ← run_local (collect_loop v fuel label_pred row dim c) (GVars data [] nums 0);
  mret (g_vecs r.2, vec_num r.2, row, dim_bin).

(** [with open(args.dst + str(c), "wb")]: the file of a cluster. *)
Definition write_cluster (a : cargs) (dim_bin : list byte) (nums : list Z) (vec_list : list (list byte)) (c : Z)
    : py world unit :=
  let p := (c_dst a ++ str_of_Z c) in
  create_file p;;
  n ← lift (py_index nums c); b ← lift (pack_i n); append_file p b;;
  append_file p dim_bin;;
  vs ← lift (py_index vec_list c); append_file p vs.

(** The file of all vectors: the loop bound is the misspelt [clusers]. *)
Definition write_all (a : cargs) (row : Z) (dim_bin : list byte) : py world unit :=
  let p := (c_dst a ++ str_of_Z clusters) in
  create_file p;;
  b ← lift (pack_i row); append_file p b;;
  append_file p dim_bin;;
  raise NameError.

Definition data_clustering (v : pyver) (fuel : nat) (a : cargs) : py world unit :=
  data ← read_file (c_src a);
  h1 ← lift (read_header_int data);
  let '(_, row, data) := h1 in
  h2 ← lift (read_header_int data);
  let '(_, dim, data) := h2 in
  r ← run_local (read_vectors fuel row dim) (CVars data [] 0);
  when (negb (Z.of_nat (length (c_vecs r.2)) =? row)) (raise AssertionError);;
  label_pred ← lift (kmeans_fit clusters (c_vecs r.2));
  c0 ← collect_cluster v fuel a label_pred [0; 0] 0;
  let '(vecs0, nums, _, _) := c0 in
  c1 ← collect_cluster v fuel a label_pred nums 1;
  let '(vecs1, nums, row, dim_bin) := c1 in
  for_each (py_range 0 clusters) (write_cluster a dim_bin nums [vecs0; vecs1]);;
  write_all a row dim_bin.
End clustering.

(** ** Lemmas *)

Lemma read_bytes_nat (d : nat) l : read_bytes (Z.of_nat d) l = (take d l, drop d l).
Proof.
  unfold read_bytes. assert ((Z.of_nat d <? 0) = false) as -> by (apply Z.ltb_ge; lia).
  by rewrite Nat2Z.id.
Qed.

Lemma read_header_ok z rest :
  int32_range z = true -> read_header_int (le_bytes 4 z ++ rest)%list = Ret (le_bytes 4 z, z, rest).
Proof.
  intros Hz. unfold read_header_int, read_bytes. change (4 <? 0) with false. cbn iota.
  rewrite take_app_length', drop_app_length' by (by rewrite length_le_bytes).
  rewrite bool_decide_false by (intros E; by apply (f_equal length) in E). by rewrite unpack_i_le_bytes.
Qed.

(** The DEFAULT format: row count, dimension, data. *)
Definition default_file (row dim : Z) (body : list byte) : list byte :=
  (le_bytes 4 row ++ le_bytes 4 dim ++ body)%list.

(** Run the header part of a script: the file [Hf] names, its two integers. *)
Ltac open_default Hf :=
  rewrite (bind_ret _ _ _ _ _ (read_file_ok _ _ _ Hf)); unfold lift;
  do 2 (rewrite read_header_ok by done; erewrite bind_ret by reflexivity; cbn beta iota).

Section generate.
Import Generate.

Lemma read_loop_py2 (m : nat) n (d : nat) s :
  (m < n)%nat ->
  read_loop Py2 n (Z.of_nat d) (Some (i s + Z.of_nat (S m))) s =
    (Ret tt, Vars (drop (S m * d) (f s)) (vecs s ++ take (S m * d) (f s))%list (i s + Z.of_nat (S m))).
Proof.
  unfold read_loop. revert n s. induction m as [|m IH]; intros [|n] s Hn; try lia.
  - apply while_true_break. erewrite bind_ret by reflexivity. rewrite read_bytes_nat.
    do 2 (erewrite bind_ret by reflexivity). rewrite bool_decide_true by (f_equal; lia).
    unfold mret, py_ret. do 2 f_equal; [f_equal; lia|do 2 f_equal; lia].
  - set (s1 := Vars (drop d (f s)) (vecs s ++ take d (f s))%list (i s + 1)).
    rewrite (while_true_next _ _ _ s1).
    + replace (i s + Z.of_nat (S (S m))) with (i s1 + Z.of_nat (S m)) by (cbn; lia).
      rewrite IH by lia. cbn [f vecs i s1]. rewrite drop_drop, <- app_assoc, take_take_drop.
      by replace (d + S m * d)%nat with (S (S m) * d)%nat by lia.
    + erewrite bind_ret by reflexivity. rewrite read_bytes_nat.
      do 2 (erewrite bind_ret by reflexivity). rewrite bool_decide_false by (intros [= E]; lia). done.
Qed.

Lemma read_loop_diverges n dim k s :
  (match k with Some z => z <= i s | None => True end) -> (read_loop Py2 n dim k s).1 = OutOfFuel.
Proof.
  apply (while_true_diverges (fun s => match k with Some z => z <= i s | None => True end)).
  clear s. intros s Hs. destruct (read_bytes dim (f s)) as [vec f'] eqn:E. eexists.
  erewrite bind_ret by reflexivity. rewrite E. do 2 (erewrite bind_ret by reflexivity).
  rewrite bool_decide_false by (destruct k; [intros [= E']; lia|done]).
  split; [reflexivity|]. destruct k; cbn; [lia|done].
Qed.
End generate.

(** The bytes of the vectors labelled [c], in order, and their number. *)
Fixpoint pick (c : Z) (d : nat) (labels : list Z) (f : list byte) : list byte :=
  match labels with
  | [] => []
  | l :: ls => (if l =? c then take d f else []) ++ pick c d ls (drop d f)
  end%list.

Fixpoint count (c : Z) (labels : list Z) : Z :=
  match labels with
  | [] => 0
  | l :: ls => (if l =? c then 1 else 0) + count c ls
  end.

Definition add_num (c k : Z) (nums : list Z) : list Z :=
  match nums !! Z.to_nat c with Some x => <[Z.to_nat c := x + k]> nums | None => nums end.

Lemma incr_at_ok nums c :
  0 <= c < Z.of_nat (length nums) -> incr_at nums c = Ret (add_num c 1 nums).
Proof.
  intros Hc. unfold incr_at, add_num. replace (c <? 0) with false by lia.
  destruct (py_index_total nums c Hc) as (x & -> & Hx). cbn. by rewrite Hx.
Qed.

Lemma length_add_num c k nums : length (add_num c k nums) = length nums.
Proof. unfold add_num. destruct (_ !! _); [|done]. by rewrite length_insert. Qed.

Lemma add_num_0 c nums : add_num c 0 nums = nums.
Proof.
  unfold add_num. destruct (_ !! _) as [x|] eqn:E; [|done].
  by rewrite Z.add_0_r, list_insert_id.
Qed.

Lemma add_num_add c k k' nums : add_num c k' (add_num c k nums) = add_num c (k + k') nums.
Proof.
  unfold add_num. destruct (nums !! Z.to_nat c) as [x|] eqn:E; [|by rewrite E].
  rewrite list_lookup_insert_eq by (eapply lookup_lt_Some; eauto).
  by rewrite list_insert_insert_eq, Z.add_assoc.
Qed.

Lemma collect_loop_py2 n labels row (d : nat) c pre ls s :
  labels = (pre ++ ls)%list -> ls <> [] -> g_j s = Z.of_nat (length pre) -> row = Z.of_nat (length labels) ->
  0 <= c < Z.of_nat (length (vec_num s)) -> (length ls < n)%nat ->
  collect_loop Py2 n labels row (Z.of_nat d) c s =
    (Ret tt, GVars (drop (length ls * d) (g_f s)) (g_vecs s ++ pick c d ls (g_f s))%list
                   (add_num c (count c ls) (vec_num s)) row).
Proof.
  unfold collect_loop. revert n pre s.
  induction ls as [|l ls IH]; intros n pre s -> Hne Hj Hrow Hc Hn; [done|].
  destruct n as [|n]; [cbn in Hn; lia|].
  set (s1 := GVars (drop d (g_f s)) (g_vecs s ++ (if l =? c then take d (g_f s) else []))%list
                   (add_num c (if l =? c then 1 else 0) (vec_num s)) (g_j s + 1)).
  match goal with |- while_true _ ?b _ = _ => assert (b s = (Ret (if g_j s + 1 =? row then Some tt else None), s1)) as Hbody end.
  { erewrite bind_ret by reflexivity.
    rewrite (bind_ret _ _ s s l).
    2:{ unfold lift. f_equal. rewrite Hj. apply py_index_nat. by rewrite list_lookup_middle. }
    rewrite (bind_ret _ _ s s1 tt); [by destruct (g_j s + 1 =? row)|]. subst s1. rewrite read_bytes_nat.
    destruct (Z.eqb_spec l c) as [->|Hl].
    - erewrite bind_ret by reflexivity. unfold lift. rewrite incr_at_ok by done. reflexivity.
    - cbn. rewrite app_nil_r. by rewrite add_num_0. }
  assert ((g_j s + 1 =? row) = bool_decide (ls = [])) as Hlast.
  { subst row. rewrite Hj, length_app.
    destruct ls; [rewrite bool_decide_true by done; apply Z.eqb_eq
                 |rewrite bool_decide_false by done; apply Z.eqb_neq]; cbn; lia. }
  rewrite Hlast in Hbody. destruct ls as [|l' ls].
  - rewrite (while_true_break _ _ _ _ _ Hbody). subst s1. cbn [pick count length].
    rewrite app_nil_r. do 2 f_equal; [f_equal; lia|f_equal; destruct (_ =? _); lia|].
    subst row. rewrite Hj, length_app. cbn. lia.
  - rewrite (while_true_next _ _ _ _ Hbody).
    rewrite (IH n (pre ++ [l])%list s1); try done.
    + subst s1. cbn [g_f g_vecs vec_num pick count length]. rewrite drop_drop, <- app_assoc, add_num_add.
      do 3 f_equal.
    + by rewrite <- app_assoc.
    + subst s1. cbn. rewrite Hj, length_app. cbn. lia.
    + subst s1. cbn [vec_num]. by rewrite length_add_num.
    + cbn in *. lia.
Qed.

(** The labels of the first [row] vectors are all consumed, once per cluster. *)
Lemma collect_cluster_py2 n a labels nums c (d : nat) body w :
  fs w !! c_src a = Some (default_file (Z.of_nat (length labels)) (Z.of_nat d) body) ->
  int32_range (Z.of_nat (length labels)) = true -> int32_range (Z.of_nat d) = true ->
  labels <> [] -> 0 <= c < Z.of_nat (length nums) -> (length labels < n)%nat ->
  collect_cluster Py2 n a labels nums c w =
    (Ret (pick c d labels body, add_num c (count c labels) nums,
          Z.of_nat (length labels), le_bytes 4 (Z.of_nat d)), w).
Proof.
  intros Hf Hr Hd Hne Hc Hn. unfold collect_cluster, default_file in *.
  open_default Hf.
  unfold run_local, mbind, py_bind.
  rewrite (collect_loop_py2 n labels _ d c [] labels) by done. done.
Qed.

(** The vectors of a data part, [m] of dimension [d]. *)
Fixpoint vectors (d m : nat) (f : list byte) : list (list Z) :=
  match m with
  | O => []
  | S m' => ((fun b => le_signed 1 [b]) <$> take d f) :: vectors d m' (drop d f)
  end.

Lemma length_vectors d m f : length (vectors d m f) = m.
Proof. revert f; induction m; intros; cbn; congruence. Qed.

Lemma read_vectors_ok n row (d : nat) m s :
  (m * d <= length (c_f s))%nat -> (0 < m)%nat -> row = c_i s + Z.of_nat m -> (m < n)%nat ->
  exists s', read_vectors n row (Z.of_nat d) s = (Ret tt, s') /\
    c_vecs s' = (c_vecs s ++ vectors d m (c_f s))%list.
Proof.
  unfold read_vectors. revert n s. induction m as [|m IH]; intros n s Hl Hm Hrow Hn; [lia|].
  destruct n as [|n]; [lia|].
  set (v := (fun b => le_signed 1 [b]) <$> take d (c_f s)).
  set (s1 := CVars (drop d (c_f s)) (c_vecs s ++ [v])%list (c_i s + 1)).
  match goal with |- context [while_true _ ?b _] =>
    assert (b s = (Ret (if c_i s + 1 =? row then Some tt else None), s1)) as Hbody end.
  { erewrite bind_ret by reflexivity. rewrite read_bytes_nat.
    rewrite (bind_ret _ _ s s v).
    2:{ unfold lift, unpack_bs. rewrite Nat2Z.id, bool_decide_true by (rewrite length_take; lia). done. }
    erewrite bind_ret by reflexivity. by destruct (c_i s + 1 =? row). }
  destruct m as [|m].
  - replace (c_i s + 1 =? row) with true in Hbody by lia.
    rewrite (while_true_break _ _ _ _ _ Hbody). by exists s1.
  - replace (c_i s + 1 =? row) with false in Hbody by lia.
    rewrite (while_true_next _ _ _ _ Hbody).
    destruct (IH n s1) as (s' & E & Hv); subst s1; cbn [c_f c_i c_vecs] in *.
    + rewrite length_drop. lia.
    + lia.
    + lia.
    + lia.
    + exists s'. rewrite E, Hv, <- app_assoc. done.
Qed.

Lemma count_bound c labels : 0 <= count c labels <= Z.of_nat (length labels).
Proof. induction labels as [|l ls IH]; cbn; [lia|]. destruct (l =? c); lia. Qed.

(** The two clusters partition the vectors. *)
Lemma count_two labels :
  Forall (fun l => 0 <= l < 2) labels -> count 0 labels + count 1 labels = Z.of_nat (length labels).
Proof.
  induction 1 as [|l ls Hl HF IH]; cbn; [done|].
  destruct (Z.eqb_spec l 0), (Z.eqb_spec l 1); lia.
Qed.

Lemma length_pick c d labels f :
  (length labels * d <= length f)%nat -> Z.of_nat (length (pick c d labels f)) = count c labels * Z.of_nat d.
Proof.
  revert f. induction labels as [|l ls IH]; intros f Hf; cbn in *; [done|].
  rewrite length_app, Nat2Z.inj_add, IH by (rewrite length_drop; lia).
  destruct (l =? c); cbn; [rewrite length_take|]; lia.
Qed.

Lemma write_cluster_ok a d nums vl (c : nat) num vs w :
  can_create w (c_dst a ++ str_of_Z (Z.of_nat c)) = true ->
  nums !! c = Some num -> vl !! c = Some vs -> int32_range num = true ->
  write_cluster a (le_bytes 4 d) nums vl (Z.of_nat c) w =
    (Ret tt, put_file (c_dst a ++ str_of_Z (Z.of_nat c)) (default_file num d vs) w).
Proof.
  intros Hc Hn Hv Hr. unfold write_cluster, default_file.
  rewrite (bind_ret _ _ _ _ _ (create_file_ok _ _ Hc)).
  unfold lift. rewrite (py_index_nat _ _ _ Hn), (py_index_nat _ _ _ Hv).
  erewrite bind_ret by reflexivity. rewrite pack_i_ok by done. erewrite bind_ret by reflexivity.
  do 2 (rewrite (bind_ret _ _ _ _ _ (append_put _ _ _ _))).
  erewrite bind_ret by reflexivity. rewrite append_put. by rewrite <- app_assoc.
Qed.

(** ** Properties of generate_dataset.py *)

Import Generate.

(** Run by Python 3, as [build_spresh.sh] runs it, the script ends in a
    [TypeError] at the first vector whatever the (well-formed) source holds
    and whatever number of vectors was asked for; nothing is written. *)
Theorem generate_dataset_py3 n a w row dim body :
  fs w !! src a = Some (default_file row dim body) ->
  int32_range row = true -> int32_range dim = true ->
  generate_dataset Py3 (S n) a w = (Raise TypeError, w).
Proof.
  intros Hf Hr Hd. unfold generate_dataset, default_file in *.
  open_default Hf.
  apply bind_raise. unfold run_local, read_loop.
  erewrite (while_true_raise n); [reflexivity|].
  erewrite bind_ret by reflexivity. destruct (read_bytes _ _). by erewrite bind_raise by reflexivity.
Qed.

(** Run by Python 2 with [--topk k], [k > 0], the script ends within
    [k] rounds and the target is a file of the same format whose row count is
    [k] and whose data are the first [k * dim] bytes of the source's (fewer if
    the source is shorter: the count is not corrected). *)
Theorem generate_dataset_py2 n a w row (d k : nat) body :
  fs w !! src a = Some (default_file row (Z.of_nat d) body) ->
  int32_range row = true -> int32_range (Z.of_nat d) = true ->
  topk a = Some (Z.of_nat (S k)) -> int32_range (Z.of_nat (S k)) = true ->
  can_create w (dst a) = true -> (k < n)%nat ->
  generate_dataset Py2 n a w =
    (Ret tt, put_file (dst a) (default_file (Z.of_nat (S k)) (Z.of_nat d) (take (S k * d) body)) w).
Proof.
  intros Hf Hr Hd Hk Hk' Hc Hn. unfold generate_dataset, default_file in *.
  open_default Hf.
  pose proof (read_loop_py2 k n d (Vars body [] 0) Hn) as E. cbn [i] in E. rewrite Z.add_0_l in E.
  rewrite Hk. erewrite bind_ret by (unfold run_local; by rewrite E).
  rewrite (bind_ret _ _ _ _ _ (create_file_ok _ _ Hc)), pack_i_ok by done.
  erewrite bind_ret by reflexivity.
  do 2 (rewrite (bind_ret _ _ _ _ _ (append_put _ _ _ _))).
  rewrite append_put. by rewrite <- app_assoc.
Qed.

(** Without [--topk], or with a number that is not positive, the reading
    loop has no exit: past the end of the source it appends empty reads. *)
Theorem generate_dataset_unbounded n a w row dim body :
  fs w !! src a = Some (default_file row dim body) ->
  int32_range row = true -> int32_range dim = true ->
  (match topk a with Some k => k <= 0 | None => True end) ->
  generate_dataset Py2 n a w = (OutOfFuel, w).
Proof.
  intros Hf Hr Hd Hk. unfold generate_dataset, default_file in *.
  open_default Hf.
  apply bind_fuel. unfold run_local.
  pose proof (read_loop_diverges n dim (topk a) (Vars body [] 0) Hk) as E.
  destruct (read_loop _ _ _ _ _) as [[]?]; cbn in E; naive_solver.
Qed.

Definition sample_body : list byte := le_bytes 6 (1 + 256 * 2 + 65536 * 3 + 256 ^ 3 * 4).
Definition sample_world : world := World {[ "base.bin" := default_file 3 2 sample_body ]} ∅ [].

Lemma generate_dataset_py3_witness :
  generate_dataset Py3 5 (Args "base.bin" "out.bin" (Some 2)) sample_world = (Raise TypeError, sample_world).
Proof. apply (generate_dataset_py3 4 _ _ 3 2 sample_body); reflexivity. Defined.

Lemma generate_dataset_py2_witness :
  (generate_dataset Py2 5 (Args "base.bin" "out.bin" (Some 2)) sample_world).1 = Ret tt /\
  take (2 * 2) sample_body = le_bytes 4 (1 + 256 * 2 + 65536 * 3 + 256 ^ 3 * 4).
Proof.
  split; [|reflexivity].
  rewrite (generate_dataset_py2 5 _ _ 3 2 1 sample_body); try reflexivity. lia.
Defined.

Lemma generate_dataset_unbounded_witness :
  generate_dataset Py2 1000 (Args "base.bin" "out.bin" None) sample_world = (OutOfFuel, sample_world).
Proof. apply (generate_dataset_unbounded _ _ _ 3 2 sample_body); done. Defined.

(** ** Properties of data_clustering_sift.py *)

(** What the script relies on of [sklearn], where it has enough vectors: one
    label per vector, and labels below the number of clusters. *)
Class KMeansLaws (km : Z -> list (list Z) -> list Z) := {
  km_length : forall k vs, 0 < k <= Z.of_nat (length vs) -> length (km k vs) = length vs;
  km_range : forall k vs, 0 < k <= Z.of_nat (length vs) -> Forall (fun l => 0 <= l < k) (km k vs)
}.

Section clustering_props.
Context (km : Z -> list (list Z) -> list Z) `{!KMeansLaws km}.

Lemma km_two_range vs z : z = Z.of_nat (length vs) -> 2 <= z -> int32_range z = true ->
  forall c, int32_range (count c (km clusters vs)) = true.
Proof.
  intros -> H2 Hr c. pose proof (count_bound c (km clusters vs)) as H. rewrite km_length in H by (unfold clusters; lia).
  unfold int32_range in *. lia.
Qed.

Lemma kmeans_fit_ok m d body : (2 <= m)%nat -> (0 < d)%nat -> length body = (m * d)%nat ->
  kmeans_fit km clusters (vectors d m body) = Ret (km clusters (vectors d m body)).
Proof.
  intros Hm Hd Hb. unfold kmeans_fit. rewrite length_vectors. rewrite (proj2 (Z.ltb_ge _ _)) by (unfold clusters; lia).
  destruct m as [|m]; [lia|]. cbn [vectors forallb orb]. rewrite length_fmap, length_take.
  by destruct (min d (length body)) eqn:E; [lia|].
Qed.

(** A file of a single vector: k-means refuses it and nothing is written. *)
Theorem clustering_too_few v n a w (d : nat) body :
  fs w !! c_src a = Some (default_file 1 (Z.of_nat d) body) -> int32_range (Z.of_nat d) = true ->
  length body = d -> (1 < n)%nat -> data_clustering km v n a w = (Raise ValueError, w).
Proof.
  intros Hf Hd Hb Hn. unfold data_clustering. unfold default_file in Hf. assert (int32_range 1 = true) as H1 by done. open_default Hf.
  destruct (read_vectors_ok n 1 d 1 (CVars body [] 0)) as (s' & E & Hv); [cbn; lia..|].
  erewrite bind_ret by (unfold run_local; by rewrite E). cbn [snd]. rewrite Hv. cbn [c_vecs c_f app].
  erewrite bind_ret by reflexivity. done.
Qed.

(** C20: run by Python 2 on a complete file of at least two vectors of at least
    one component, the script writes the vectors of each of the two clusters, in
    the source's order and with their number, to [dst0] and [dst1], a partition
    of the source; then the misspelt [clusers] ends it in a [NameError] with only
    the header of the file of all vectors on disk. (Under Python 3 adding bytes
    to a text stops it before anything is written.) *)
Theorem clustering_partition n a w (m d : nat) body labels :
  fs w !! c_src a = Some (default_file (Z.of_nat m) (Z.of_nat d) body) ->
  int32_range (Z.of_nat m) = true -> int32_range (Z.of_nat d) = true ->
  (2 <= m)%nat -> (0 < d)%nat -> length body = (m * d)%nat -> (m < n)%nat ->
  (forall q, 0 <= q <= 2 -> can_create w (c_dst a ++ str_of_Z q) = true) ->
  labels = km clusters (vectors d m body) ->
  data_clustering km Py2 n a w =
    (Raise NameError,
     put_file (c_dst a ++ "2") (default_file (Z.of_nat m) (Z.of_nat d) [])
       (put_file (c_dst a ++ "1") (default_file (count 1 labels) (Z.of_nat d) (pick 1 d labels body))
         (put_file (c_dst a ++ "0") (default_file (count 0 labels) (Z.of_nat d) (pick 0 d labels body)) w))) /\
  count 0 labels + count 1 labels = Z.of_nat m /\
  (length (pick 0 d labels body) + length (pick 1 d labels body))%nat = length body.
Proof.
  intros Hf Hm Hd Hpos Hdim Hb Hn Hc Hl.
  assert (0 < clusters <= Z.of_nat (length (vectors d m body))) as Hk by (rewrite length_vectors; unfold clusters; lia).
  assert (length labels = m) as Hlen by (subst labels; by rewrite km_length, length_vectors).
  assert (Forall (fun l => 0 <= l < 2) labels) as Hrange by (subst labels; by apply km_range).
  pose proof (count_two _ Hrange) as Hsum. rewrite Hlen in Hsum.
  assert (forall c, int32_range (count c labels) = true) as Hcnt.
  { subst labels. apply (km_two_range _ (Z.of_nat m)); [by rewrite length_vectors|lia|done]. }
  split; [|split; [done|]].
  2:{ apply Nat2Z.inj. rewrite Nat2Z.inj_add, !length_pick by lia. nia. }
  assert (labels <> []) as Hne by (intros ->; cbn in Hlen; lia).
  unfold data_clustering. pose proof Hf as Hf'. unfold default_file in Hf'. open_default Hf'.
  destruct (read_vectors_ok n (Z.of_nat m) d m (CVars body [] 0)) as (s' & E & Hv); [cbn; lia..|].
  erewrite bind_ret by (unfold run_local; by rewrite E). cbn [snd]. rewrite Hv. cbn [c_vecs c_f app].
  rewrite length_vectors, Z.eqb_refl. erewrite bind_ret by reflexivity.
  rewrite kmeans_fit_ok by done. rewrite <- Hl. erewrite bind_ret by reflexivity.
  rewrite <- Hlen in Hf, Hm, Hn.
  rewrite (bind_ret _ _ _ _ _ (collect_cluster_py2 n a labels [0; 0] 0 d body w Hf Hm Hd Hne ltac:(done) Hn)).
  cbn beta iota. rewrite (bind_ret _ _ _ _ _ (collect_cluster_py2 n a labels (add_num 0 (count 0 labels) [0; 0]) 1 d body w Hf Hm Hd Hne
    ltac:(rewrite length_add_num; cbn; lia) Hn)). cbn beta iota.
  change (add_num 1 (count 1 labels) (add_num 0 (count 0 labels) [0; 0])) with [count 0 labels; count 1 labels].
  rewrite (bind_ret _ _ w (put_file (c_dst a ++ "1") (default_file (count 1 labels) (Z.of_nat d) (pick 1 d labels body))
         (put_file (c_dst a ++ "0") (default_file (count 0 labels) (Z.of_nat d) (pick 0 d labels body)) w)) tt).
  2:{ change (py_range 0 clusters) with [Z.of_nat 0; Z.of_nat 1]. cbn [for_each].
      erewrite bind_ret
        by (apply write_cluster_ok; [apply (Hc 0); lia|reflexivity|reflexivity|apply Hcnt]).
      erewrite bind_ret
        by (apply write_cluster_ok; [apply (Hc 1); lia|reflexivity|reflexivity|apply Hcnt]).
      reflexivity. }
  unfold write_all. erewrite bind_ret by (apply create_file_ok; by apply (Hc clusters)).
  unfold lift. rewrite pack_i_ok by done. erewrite bind_ret by reflexivity.
  do 2 (rewrite (bind_ret _ _ _ _ _ (append_put _ _ _ _))).
  unfold raise, default_file. rewrite app_nil_r, Hlen. done.
Qed.
End clustering_props.

(** A labelling with the promised laws: the parity of the first component. *)
Definition km_parity (k : Z) (vs : list (list Z)) : list Z :=
  (fun v => match v with x :: _ => x mod k | [] => 0 end) <$> vs.

#[global] Instance km_parity_laws : KMeansLaws km_parity.
Proof.
  split; intros; unfold km_parity; [by rewrite length_fmap|].
  apply Forall_fmap, Forall_forall. intros [|x v] _; cbn; [lia|]. apply Z.mod_pos_bound. lia.
Qed.

Lemma clustering_partition_witness :
  (data_clustering km_parity Py2 9 (CArgs "base.bin" "out") sample_world).1 = Raise NameError /\
  km_parity clusters (vectors 2 3 sample_body) = [1; 1; 0].
Proof.
  split; [|reflexivity].
  assert (forall q, 0 <= q <= 2 -> can_create sample_world ("out" ++ str_of_Z q) = true) as Hc.
  { intros q Hq. assert (q = 0 \/ q = 1 \/ q = 2) as [-> | [-> | ->]] by lia; reflexivity. }
  rewrite (proj1 (clustering_partition km_parity 9 (CArgs "base.bin" "out") sample_world 3 2 sample_body _
    eq_refl eq_refl eq_refl ltac:(lia) ltac:(lia) eq_refl ltac:(lia) Hc eq_refl)). reflexivity.
Defined.
