(* ===== verification/TopK.v ===== *)
(** * Keeping the [k] least of several sorted answers

    The list theory behind the merge of per-batch nearest neighbours: sorting
    by a total order, cutting after [k], and doing so batch by batch. *)

From stdpp Require Export sorting.
From S2P Require Import Prelude.

Section topk.
Context {A : Type} (R : relation A) `{!forall x y, Decision (R x y)}.
Context `{!Transitive R} `{!Total R} `{!AntiSymm (=) R}.
Local Open Scope nat_scope.

Definition sort (l : list A) : list A := merge_sort R l.
Definition topk (k : nat) (l : list A) : list A := take k (sort l).

Lemma sort_perm l : sort l ≡ₚ l.
Proof. apply merge_sort_Permutation. Qed.

Lemma sort_sorted l : StronglySorted R (sort l).
Proof. apply StronglySorted_merge_sort; apply _. Qed.

Lemma sort_unique l l' : StronglySorted R l' -> l' ≡ₚ l -> sort l = l'.
Proof.
  intros Hs Hp. apply (StronglySorted_unique R); [apply sort_sorted|done|]. by rewrite sort_perm.
Qed.

#[export] Instance sort_proper : Proper ((≡ₚ) ==> (=)) sort.
Proof. intros l l' Hll. apply sort_unique; [apply sort_sorted|]. by rewrite sort_perm. Qed.

#[export] Instance topk_proper k : Proper ((≡ₚ) ==> (=)) (topk k).
Proof. intros l l' Hll. unfold topk. by rewrite Hll. Qed.

Lemma length_sort l : length (sort l) = length l.
Proof. by rewrite sort_perm. Qed.

Lemma length_topk k l : length (topk k l) = min k (length l).
Proof. unfold topk. by rewrite length_take, length_sort. Qed.

Lemma topk_sorted k l : StronglySorted R (topk k l).
Proof.
  unfold topk. eapply StronglySorted_app_1_l. rewrite (take_drop k). apply sort_sorted.
Qed.

(** Of [k] elements below [x], the [k] least of any larger collection are. *)
Lemma topk_below k (P B : list A) x :
  length P = k -> Forall (fun y => R y x) P -> Forall (fun y => R y x) (topk k (P ++ B)).
Proof.
  intros HP HF. apply Forall_forall. intros y Hy. destruct (decide (R y x)) as [|Hn]; [done|exfalso].
  pose proof (sort_sorted (P ++ B)) as Hs. rewrite <- (take_drop k (sort (P ++ B))) in Hs.
  assert (Forall (fun z => ~ R z x) (drop k (sort (P ++ B)))) as Hd.
  { apply Forall_forall. intros z Hz Hzx.
    apply Hn. transitivity z; [|done]. by apply (StronglySorted_app_1_elem_of R _ _ y z Hs). }
  assert (length (filter (fun z => R z x) (sort (P ++ B))) < k) as Hlt.
  { rewrite <- (take_drop k (sort (P ++ B))), filter_app, length_app.
    assert (filter (fun z => R z x) (drop k (sort (P ++ B))) = []) as ->.
    { rewrite Forall_forall in Hd.
      destruct (filter _ _) as [|z zs] eqn:E; [done|]. exfalso.
      assert (z ∈ filter (fun z => R z x) (drop k (sort (P ++ B)))) as [Hz1 Hz2]%list_elem_of_filter
        by (rewrite E; by left). by apply (Hd z). }
    rewrite Nat.add_0_r. pose proof (length_filter_lt (fun z => R z x) _ y Hy Hn) as Hl.
    rewrite length_topk in Hl. unfold topk in Hl. lia. }
  rewrite (sort_perm (P ++ B)), filter_app, length_app in Hlt.
  assert (filter (fun z => R z x) P = P) as HP'.
  { clear -HF. induction HF as [|z zs Hz HF IH]; [done|]. by rewrite filter_cons_True, IH. }
  rewrite HP' in Hlt. lia.
Qed.

(** Cutting one part to its [k] least first changes nothing. *)
Lemma topk_app k l1 l2 : topk k (topk k l1 ++ l2) = topk k (l1 ++ l2).
Proof.
  destruct (decide (length l1 <= k)) as [Hle|Hgt].
  { unfold topk at 2. rewrite take_ge by (rewrite length_sort; lia). by rewrite sort_perm. }
  set (T := sort (topk k l1 ++ l2)).
  pose proof (sort_sorted l1) as Hs. rewrite <- (take_drop k (sort l1)) in Hs.
  assert (sort (l1 ++ l2) = take k T ++ sort (drop k T ++ drop k (sort l1))) as Heq.
  { apply sort_unique.
    - apply StronglySorted_app_2; [|apply topk_sorted|apply sort_sorted].
      intros y x Hy Hx. rewrite sort_perm, elem_of_app in Hx. destruct Hx as [Hx|Hx].
      + pose proof (sort_sorted (topk k l1 ++ l2)) as Hs'. fold T in Hs'. rewrite <- (take_drop k T) in Hs'.
        by apply (StronglySorted_app_1_elem_of R _ _ y x Hs').
      + revert y Hy. apply Forall_forall. apply topk_below.
        * rewrite length_topk. lia.
        * apply Forall_forall. intros z Hz. by apply (StronglySorted_app_1_elem_of R _ _ z x Hs).
    - rewrite sort_perm, app_assoc, take_drop. unfold T. rewrite sort_perm. unfold topk.
      rewrite <- app_assoc, (Permutation_app_comm l2), app_assoc, take_drop. by rewrite sort_perm. }
  unfold topk at 1 3. rewrite Heq. fold T. rewrite take_app_le.
  - by rewrite take_take, Nat.min_id.
  - rewrite length_take. unfold T. rewrite length_sort, length_app, length_topk. lia.
Qed.

Lemma topk_app_r k l1 l2 : topk k (l1 ++ topk k l2) = topk k (l1 ++ l2).
Proof. by rewrite !(Permutation_app_comm l1), topk_app. Qed.

Lemma topk_fmap (f : A -> A) k l :
  (forall x y, R x y -> R (f x) (f y)) -> topk k (f <$> l) = f <$> topk k l.
Proof.
  intros Hf. unfold topk. rewrite fmap_take. f_equal. apply sort_unique; [|by rewrite sort_perm].
  pose proof (sort_sorted l) as Hs. induction Hs as [|x xs Hs IH HF]; cbn; constructor; [done|].
  apply Forall_fmap. eapply Forall_impl; [exact HF|]. intros y. apply Hf.
Qed.

(** One merge per batch, the way an accumulating loop does it. *)
Fixpoint merge_all (k : nat) (acc : list A) (batches : list (list A)) : list A :=
  match batches with
  | [] => acc
  | b :: bs => merge_all k (topk k (acc ++ b)) bs
  end.

Lemma merge_all_topk k acc batches (cands : list (list A)) :
  Forall2 (fun b c => b = topk k c) batches cands ->
  acc = topk k acc -> merge_all k acc batches = topk k (acc ++ mjoin cands).
Proof.
  intros HF. revert acc. induction HF as [|b c bs cs -> HF IH]; intros acc Hacc; cbn [merge_all].
  - cbn. by rewrite app_nil_r.
  - rewrite IH.
    + change (mjoin (c :: cs)) with (c ++ mjoin cs). rewrite topk_app.
      rewrite <- app_assoc, (Permutation_app_comm (topk k c)), app_assoc, topk_app_r.
      by rewrite <- app_assoc, (Permutation_app_comm (mjoin cs)).
    + rewrite <- (app_nil_r (topk k (acc ++ topk k c))) at 2. by rewrite topk_app, app_nil_r.
Qed.
End topk.

#[export] Hint Resolve sort_perm sort_sorted topk_sorted : py.

(** ** [list.sort] with a key: a stable sort

    [R x y]: the key of [y] is not less than that of [x]. *)
Section stable.
Context {A : Type} (R : relation A) `{!forall x y, Decision (R x y)}.

Fixpoint insert_by (x : A) (l : list A) : list A :=
  match l with
  | [] => [x]
  | y :: l' => if decide (R x y) then x :: y :: l' else y :: insert_by x l'
  end.
Definition sort_by (l : list A) : list A := foldr insert_by [] l.

Lemma insert_by_perm x l : insert_by x l ≡ₚ x :: l.
Proof.
  induction l as [|y l IH]; cbn; [done|]. destruct (decide _); [done|]. rewrite IH. constructor.
Qed.

Lemma sort_by_perm l : sort_by l ≡ₚ l.
Proof. induction l as [|x l IH]; cbn; [done|]. by rewrite insert_by_perm, IH. Qed.

(** Sorted, where the order is total and transitive on the elements. *)
Lemma sort_by_sorted (P : A -> Prop) l :
  (forall x y, P x -> P y -> ~ R x y -> R y x) ->
  (forall x y z, P x -> P y -> P z -> R x y -> R y z -> R x z) ->
  Forall P l -> StronglySorted R (sort_by l).
Proof.
  intros Htot Htr. induction 1 as [|x l Hx HF IH]; [constructor|].
  change (sort_by (x :: l)) with (insert_by x (sort_by l)).
  assert (Forall P (sort_by l)) as HF' by by rewrite sort_by_perm.
  revert IH HF'. generalize (sort_by l). intros k Hs Hk. induction Hs as [|y k Hs IHk Hy]; cbn.
  - apply SSorted_cons; [apply SSorted_nil|apply Forall_nil_2].
  - apply Forall_cons in Hk as [Hny Hk]. destruct (decide (R x y)) as [Hxy|Hxy].
    + constructor; [by constructor|]. constructor; [done|]. rewrite Forall_forall in *.
      intros z Hz. apply (Htr x y z); auto.
    + constructor; [by apply IHk|]. apply Htot in Hxy; [|done..]. rewrite insert_by_perm. by constructor.
Qed.

(** Elements that no order separates keep their places. *)
Lemma sort_by_stable (P : A -> Prop) `{!forall x, Decision (P x)} l :
  (forall x y, P x -> P y -> R x y) -> filter P (sort_by l) = filter P l.
Proof.
  intros HP. induction l as [|x l IH]; [done|].
  change (sort_by (x :: l)) with (insert_by x (sort_by l)).
  assert (forall k, filter P (insert_by x k) = filter P (x :: k)) as Hins.
  { induction k as [|y k IHk]; [done|]. cbn [insert_by]. destruct (decide (R x y)) as [|Hxy]; [done|].
    rewrite (filter_cons P y (insert_by x k)), IHk, !filter_cons. destruct (decide (P y)), (decide (P x)); naive_solver. }
  rewrite Hins, !filter_cons. by destruct (decide (P x)); rewrite IH.
Qed.
End stable.
