(* ===== verification/DataReader.v ===== *)
(** * The batched vector readers

    [DataReader] of Tools/OPQ/OPQ_gpu_train_infer.py and of
    Tools/nni-auto-tune/dataset.py (the same class but for the argument order
    and the array [readallbatches] returns), [HDF5Reader], [dataset_transform]
    and [sparse_to_lists].

    A reader keeps the rest of its file, and the array [self.query] that every
    call of [readbatch] overwrites and returns a slice of. numpy is a
    parameter: [Numpy] lists what is used of it, at the type [num] of array
    elements. What the methods print is not kept. *)

From Stdlib Require Import Ascii SpecFloat.
From S2P Require Import Prelude PyStr PyFloat PyBytes PyIO Datasets.

Open Scope string_scope.
Open Scope Z_scope.

Class Numpy (num : Type) := {
  (** [np.dtype(t).itemsize], [None] for a name that is no type *)
  itemsize : string -> option Z;
  (** [np.frombuffer(vec, dtype=t).astype(u)] *)
  np_decode : string -> string -> list byte -> list num;
  (** storing a Python float in an array of type [u] *)
  np_of_float : string -> float -> num;
  np_square : num -> num;
  np_sum : list num -> num;
  np_sqrt : num -> num;
  np_div : num -> num -> num;
  (** [x < 1e-6] *)
  np_tiny : num -> bool;
  (** [1e-6] and [1e-6 / math.sqrt(float(d))] *)
  np_1em6 : num;
  np_fill : Z -> num
}.

Section reader.
Context {num : Type} `{!Numpy num}.

Record reader := Reader {
  r_bin : list byte;            (* self.fin, a binary file *)
  r_txt : list string;          (* self.fin, a text file: its lines *)
  mytype : string;
  featuredim : Z;
  isbinary : bool;
  r_type : string;              (* self.type *)
  query : list (list num);
  normalize : Z
}.

Definition set_fin (b : list byte) (t : list string) (s : reader) : reader :=
  Reader b t (mytype s) (featuredim s) (isbinary s) (r_type s) (query s) (normalize s).
Definition set_query (q : list (list num)) (s : reader) : reader :=
  Reader (r_bin s) (r_txt s) (mytype s) (featuredim s) (isbinary s) (r_type s) q (normalize s).

(** [np.zeros([n, d], dtype=t)]. *)
Definition np_zeros (t : string) (n d : Z) : outcome (list (list num)) :=
  if (n <? 0) || (d <? 0) then Raise ValueError
  else Ret (replicate (Z.to_nat n) (replicate (Z.to_nat d) (np_of_float t (float_of_Z 0)))).

(** ** __init__ *)
Definition new_reader (filename : string) (dim batchsize norm : Z) (datatype targettype : string)
    : py world reader :=
  r ← (if contains ".bin" filename then
         data ← read_file filename;
         let '(b1, data) := read_bytes 4 data in
         R ← lift (unpack_i b1);
         let '(b2, data) := read_bytes 4 data in
         fdim ← lift (unpack_i b2);
         mret (R, Reader data [] targettype fdim true datatype [] norm)
       else
         ls ← open_lines Py3 filename;
         mret (Z.of_nat (length ls), Reader [] ls targettype dim false targettype [] norm));
  let '(R, s) := r in
  let batchsize := if batchsize <=? 0 then R else batchsize in
  q ← lift (np_zeros (mytype s) batchsize (featuredim s));
  mret (set_query q s).

(** ** norm

    [data] is a view of [self.query]: rows that are too short are filled in
    the array itself, then the quotient is a new array. *)
Definition row_square (row : list num) : num := np_sqrt (np_sum (np_square <$> row)).

Definition norm_fill (fill : num) (row : list num) : list num :=
  if np_tiny (row_square row) then replicate (length row) fill else row.

Definition norm_row (fill : num) (row : list num) : list num :=
  let square := row_square row in
  let square := if np_tiny square then np_1em6 else square in
  (fun x => np_div x square) <$> norm_fill fill row.

(** [1e-6 / math.sqrt(float(self.featuredim))]. *)
Definition fill_value (d : Z) : outcome num :=
  if d <? 0 then Raise ValueError else if d =? 0 then Raise ZeroDivisionError else Ret (np_fill d).

Definition norm (i : Z) : py reader (list (list num)) :=
  s ← get_state;
  fill ← lift (fill_value (featuredim s));
  let n := Z.to_nat i in
  put_state (set_query ((norm_fill fill <$> take n (query s)) ++ drop n (query s))%list s);;
  mret (norm_row fill <$> take n (query s)).

(** ** readbatch: the state is the reader and [i] *)

(** [self.query[i] = row] for an index the loop condition keeps in range. *)
Definition set_row (i : Z) (row : list num) (s : reader) : reader :=
  set_query (<[Z.to_nat i := row]> (query s)) s.

Definition numQuerys (s : reader) : Z := Z.of_nat (length (query s)).

Definition dtype_size (t : string) : outcome Z :=
  match itemsize t with Some z => Ret z | None => Raise TypeError end.

Definition binary_body : py (reader * Z) (option unit) :=
  st ← get_state;
  let '(s, i) := st in
  if i <? numQuerys s then
    sz ← lift (dtype_size (r_type s));
    let '(vec, fin) := read_bytes (sz * featuredim s) (r_bin s) in
    let s := set_fin fin (r_txt s) s in
    if bool_decide (vec = []) then put_state (s, i);; mret (Some tt)
    else if negb (Z.of_nat (length vec) =? sz * featuredim s) then put_state (s, i);; mret None
    else put_state (set_row i (np_decode (r_type s) (mytype s) vec) s, i + 1);; mret None
  else mret (Some tt).

(** The row of a text line; [None] is [continue]. *)
Definition text_row (s : reader) (line : string) : outcome (option (list num)) :=
  let index := rfind TAB line in
  if index <? 0 then Ret None
  else
    let items := split_on "|" (str_drop (Z.to_nat (index + 1)) line) in
    if Z.of_nat (length items) <? featuredim s then Ret None
    else row ← mapM_out (fun j => x ← py_index items j; y ← float_of_str x; Ret (np_of_float (mytype s) y))
                        (py_range 0 (featuredim s));
         Ret (Some row).

Definition text_body : py (reader * Z) (option unit) :=
  st ← get_state;
  let '(s, i) := st in
  if i <? numQuerys s then
    match r_txt s with
    | [] => mret (Some tt)
    | line :: fin =>
        let s := set_fin (r_bin s) fin s in
        put_state (s, i);;
        row ← lift (text_row s line);
        match row with
        | None => mret None
        | Some row => put_state (set_row i row s, i + 1);; mret None
        end
    end
  else mret (Some tt).

(** The slice of the array that is returned, normalised when asked for. *)
Definition finish_batch (i : Z) : py reader (Z * list (list num)) :=
  s ← get_state;
  if negb (normalize s =? 0) then q ← norm i; mret (i, q)
  else mret (i, take (Z.to_nat i) (query s)).

(** Every round but the last takes a byte or a line, so this fuel is enough
    ([readbatch_terminates]). *)
Definition readbatch : py reader (Z * list (list num)) := fun s =>
  match (if isbinary s then while_true (S (S (length (r_bin s)))) binary_body (s, 0)
         else while_true (S (S (length (r_txt s)))) text_body (s, 0)) with
  | (Ret _, (s, i)) => finish_batch i s
  | (Raise e, (s, _)) => (Raise e, s)
  | (OutOfFuel, (s, _)) => (OutOfFuel, s)
  end.

(** ** readallbatches: the state adds [data] and [R] *)
Record all_vars := AllVars { a_reader : reader; a_data : list (list (list num)); a_R : Z }.

Definition all_body (numQ : Z) : py all_vars (option unit) := fun a =>
  match readbatch (a_reader a) with
  | (Ret (i, q), s) =>
      if i =? numQ then (Ret None, AllVars s (a_data a ++ [q])%list (a_R a + i))
      else if i >? 0 then (Ret (Some tt), AllVars s (a_data a ++ [take (Z.to_nat i) q])%list (a_R a + i))
      else (Ret (Some tt), AllVars s (a_data a) (a_R a))
  | (Raise e, s) => (Raise e, AllVars s (a_data a) (a_R a))
  | (OutOfFuel, s) => (OutOfFuel, AllVars s (a_data a) (a_R a))
  end.

Definition readallbatches (fuel : nat) : py reader (Z * list (list (list num))) := fun s =>
  match while_true fuel (all_body (numQuerys s)) (AllVars s [] 0) with
  | (Ret _, a) => (Ret (a_R a, a_data a), a_reader a)
  | (Raise e, a) => (Raise e, a_reader a)
  | (OutOfFuel, a) => (OutOfFuel, a_reader a)
  end.

End reader.
Arguments reader num : clear implicits.

(** ** dataset.py: the same reader, and the HDF5 one *)
Module Dataset.
Section dataset.
Context {num : Type} `{!Numpy num}.

Definition DataReader_init (filename : string) (dim batchsize : Z) (datatype : string) (norm : bool)
    (targettype : string) : py world (reader num) :=
  new_reader filename dim batchsize (if norm then 1 else 0) datatype targettype.

Definition DataReader_norm : Z -> py (reader num) (list (list num)) := norm.
Definition DataReader_readbatch : py (reader num) (Z * list (list num)) := readbatch.

(** [np.array(data)] is an argument: what it does with batches of different
    lengths is numpy's. *)
Definition DataReader_readallbatches {A} (np_array : list (list (list num)) -> outcome A) (fuel : nat)
    : py (reader num) (Z * A) :=
  r ← readallbatches fuel;
  a ← lift (np_array r.2);
  mret (r.1, a).

(** [data[index:index + l]] for each length, [index] running. *)
Fixpoint sparse_from {A} (data : list A) (index : Z) (lengths : list Z) : list (list A) :=
  match lengths with
  | [] => []
  | l :: ls => py_slice data index (index + l) :: sparse_from data (index + l) ls
  end.

Definition sparse_to_lists {A} (data : list A) (lengths : list Z) : list (list A) := sparse_from data 0 lengths.

(** An array of a file, of one or two dimensions. *)
Inductive array : Type := Arr1 (l : list num) | Arr2 (l : list (list num)).

(** What [dataset_transform] gives for a data set: the array, or the list of
    its slices. *)
Inductive points : Type := Whole (a : array) | Slices (l : list array).

(** An open HDF5 file: the attributes and data sets the code looks up. *)
Record h5file := H5File {
  at_type : option string;
  at_dimension : option Z;
  at_distance : option string;
  ds_train : option array;
  ds_test : option array;
  ds_size_train : option (list Z);
  ds_size_test : option (list Z);
  ds_distances : option (list (list num))
}.

Definition key {A} (o : option A) : outcome A := match o with Some a => Ret a | None => Raise KeyError end.

Definition slices (a : array) (lengths : list Z) : points :=
  Slices (match a with
          | Arr1 l => Arr1 <$> sparse_to_lists l lengths
          | Arr2 l => Arr2 <$> sparse_to_lists l lengths
          end).

Definition dataset_transform (d : h5file) : outcome (points * points) :=
  if negb (bool_decide (default "dense" (at_type d) = "sparse")) then
    a ← key (ds_train d); b ← key (ds_test d); Ret (Whole a, Whole b)
  else
    a ← key (ds_train d); n ← key (ds_size_train d);
    b ← key (ds_test d); m ← key (ds_size_test d);
    Ret (slices a n, slices b m).

Record HDF5Reader := HDF5Reader_make {
  h_featuredim : Z;
  h_train : points;
  h_test : points;
  h_distance : string;
  h_label : list (list num)
}.

(** [len(a[0])]. *)
Definition row_length (a : array) : outcome Z :=
  match a with
  | Arr1 l => _ ← py_index l 0; Raise TypeError
  | Arr2 l => row ← py_index l 0; Ret (Z.of_nat (length row))
  end.

Definition HDF5Reader_init (d : h5file) : outcome HDF5Reader :=
  dim ← match at_dimension d with
        | Some z => Ret z
        | None => key (ds_train d) ≫= row_length
        end;
  tr ← dataset_transform d;
  dist ← key (at_distance d);
  label ← key (ds_distances d);
  Ret (HDF5Reader_make dim tr.1 tr.2 dist label).

(** [norm]: the argument after it, and the quotient it returns. *)
Definition HDF5Reader_norm (h : HDF5Reader) (data : list (list num)) : outcome (list (list num) * list (list num)) :=
  fill ← fill_value (num := num) (h_featuredim h);
  Ret (norm_fill fill <$> data, norm_row fill <$> data).

(** [np.array(x, dtype=t)] of the two arrays. *)
Definition HDF5Reader_readallbatches {A} (np_array : points -> outcome A) (h : HDF5Reader) : outcome (A * A) :=
  a ← np_array (h_train h);
  b ← np_array (h_test h);
  Ret (a, b).

End dataset.
End Dataset.

(** ** Lemmas *)

Section reader_lemmas.
Context {num : Type} `{!Numpy num}.
Implicit Types (s : reader num) (q : list (list num)).

(** [rows] written from index [i] on. *)
Definition fill_rows (i : nat) (rows q : list (list num)) : list (list num) :=
  (take i q ++ rows ++ drop (i + length rows) q)%list.

Lemma fill_rows_nil i q : fill_rows i [] q = q.
Proof. unfold fill_rows. cbn. rewrite Nat.add_0_r. apply take_drop. Qed.

Lemma fill_rows_cons i r rows q :
  (i < length q)%nat -> fill_rows (S i) rows (<[i := r]> q) = fill_rows i (r :: rows) q.
Proof.
  intros Hi. unfold fill_rows. erewrite take_S_r by by apply list_lookup_insert_eq.
  rewrite take_insert_ge by lia. rewrite drop_insert_lt by lia.
  rewrite <- app_assoc. cbn. by rewrite Nat.add_succ_r.
Qed.

Lemma take_fill_rows rows q : (length rows <= length q)%nat -> take (length rows) (fill_rows 0 rows q) = rows.
Proof. intros H. unfold fill_rows. rewrite take_0, app_nil_l. apply take_app_length. Qed.

Lemma length_fill_rows i rows q : (i + length rows <= length q)%nat -> length (fill_rows i rows q) = length q.
Proof. intros H. unfold fill_rows. rewrite !length_app, length_take, length_drop. lia. Qed.

Lemma binary_round s i sz vec rest :
  itemsize (r_type s) = Some sz -> 0 < sz * featuredim s -> (0 <= i < numQuerys s) ->
  r_bin s = (vec ++ rest)%list -> Z.of_nat (length vec) = sz * featuredim s ->
  binary_body (s, i) =
    (Ret None, (set_row i (np_decode (r_type s) (mytype s) vec) (set_fin rest (r_txt s) s), i + 1)).
Proof.
  intros Hsz HL Hi Hr Hv. unfold binary_body. erewrite bind_ret by reflexivity. cbn beta iota.
  replace (i <? numQuerys s) with true by lia. unfold dtype_size. rewrite Hsz. erewrite bind_ret by reflexivity.
  rewrite <- Hv, read_bytes_nat, Hr, take_app_length, drop_app_length.
  rewrite bool_decide_false by (intros ->; cbn in Hv; lia).
  cbn [set_fin featuredim r_type mytype]. rewrite <- Hv, Z.eqb_refl. done.
Qed.

(** What is left of the file after a batch of [room] rows. *)
Definition fin_after (room : nat) (recs : list (list byte)) (tail : list byte) : list byte :=
  if bool_decide (room <= length recs)%nat then (mjoin (drop room recs) ++ tail)%list else [].

Lemma read_bytes_short L l : Z.of_nat (length l) < L -> read_bytes L l = (l, []).
Proof.
  intros H. unfold read_bytes. replace (L <? 0) with false by lia.
  by rewrite take_ge, drop_ge by lia.
Qed.

(** The end of a file: an incomplete record is read and dropped. *)
Lemma binary_end n s i sz :
  itemsize (r_type s) = Some sz -> (0 <= i < numQuerys s) -> Z.of_nat (length (r_bin s)) < sz * featuredim s ->
  (length (r_bin s) < n)%nat ->
  while_true n binary_body (s, i) = (Ret tt, (set_fin [] (r_txt s) s, i)).
Proof.
  intros Hsz Hi Hl Hn.
  assert (forall s0 m, itemsize (r_type s0) = Some sz -> (0 <= i < numQuerys s0) -> r_bin s0 = [] ->
    0 < sz * featuredim s0 ->
    while_true (S m) binary_body (s0, i) = (Ret tt, (set_fin [] (r_txt s0) s0, i))) as Hnil.
  { clear. intros s m Hsz Hi Hr HL. apply while_true_break. unfold binary_body.
    erewrite bind_ret by reflexivity. cbn beta iota. replace (i <? numQuerys s) with true by lia.
    unfold dtype_size. rewrite Hsz. erewrite bind_ret by reflexivity. rewrite Hr, read_bytes_short by done. done. }
  destruct (r_bin s) as [|b bs] eqn:Hb.
  - destruct n; [cbn in Hn; lia|]. apply Hnil; try done; lia.
  - destruct n as [|[|n]]; [cbn in Hn; lia..|].
    erewrite while_true_next.
    + apply (Hnil (set_fin [] (r_txt s) s)); cbn; try done. lia.
    + unfold binary_body. erewrite bind_ret by reflexivity. cbn beta iota.
      replace (i <? numQuerys s) with true by lia. unfold dtype_size. rewrite Hsz. erewrite bind_ret by reflexivity.
      rewrite Hb, read_bytes_short by done. rewrite bool_decide_false by done.
      replace (_ =? _) with false; [done|]. symmetry. apply Z.eqb_neq. cbn [set_fin featuredim]. lia.
Qed.

Lemma binary_loop n s i sz room recs tail :
  itemsize (r_type s) = Some sz -> 0 < sz * featuredim s -> 0 <= i ->
  numQuerys s = i + Z.of_nat room ->
  r_bin s = (mjoin recs ++ tail)%list ->
  Forall (fun r => Z.of_nat (length r) = sz * featuredim s) recs ->
  Z.of_nat (length tail) < sz * featuredim s -> (length (r_bin s) < n)%nat ->
  while_true n binary_body (s, i) =
    (Ret tt,
     (set_query (fill_rows (Z.to_nat i) (np_decode (r_type s) (mytype s) <$> take room recs) (query s))
        (set_fin (fin_after room recs tail) (r_txt s) s),
      i + Z.of_nat (length (take room recs)))).
Proof.
  revert n s i recs. induction room as [|room IH]; intros n s i recs Hsz HL Hi Hroom Hr HF Ht Hn.
  { destruct n as [|n]; [lia|]. rewrite (while_true_break n _ _ (s, i) tt).
    - unfold fin_after. rewrite bool_decide_true by lia. rewrite drop_0, take_0. cbn [fmap list_fmap length].
      rewrite fill_rows_nil, <- Hr, Z.add_0_r. by destruct s.
    - unfold binary_body. erewrite bind_ret by reflexivity. cbn beta iota.
      by replace (i <? numQuerys s) with false by lia. }
  destruct recs as [|r recs].
  { cbn in Hr. subst tail. rewrite (binary_end _ _ _ sz) by (done || lia).
    cbn. rewrite fill_rows_nil, Z.add_0_r. by destruct s. }
  apply Forall_cons in HF as [Hlr HF]. cbn in Hr. rewrite <- app_assoc in Hr.
  destruct n as [|n]; [lia|].
  erewrite while_true_next by (apply (binary_round s i sz r (mjoin recs ++ tail)); done || lia).
  unfold numQuerys in Hroom.
  rewrite (IH n _ (i + 1) recs); cbn [set_row set_query set_fin r_type mytype featuredim r_bin r_txt query] in *; try done.
  - replace (Z.to_nat (i + 1)) with (S (Z.to_nat i)) by lia. rewrite fill_rows_cons by lia.
    cbn [take fmap list_fmap length]. unfold fin_after. cbn [length drop].
    replace (i + 1 + Z.of_nat (length (take room recs))) with (i + Z.of_nat (S (length (take room recs)))) by lia.
    unfold set_query, set_fin; cbn. repeat f_equal. repeat case_bool_decide; done || lia.
  - lia.
  - unfold numQuerys; cbn. rewrite length_insert. lia.
  - rewrite Hr, length_app in Hn. apply Nat.succ_lt_mono. eapply Nat.le_lt_trans; [|exact Hn].
    change (S ?x) with (1 + x)%nat. apply Nat.add_le_mono_r. lia.
Qed.

(** The row a record becomes: decoded, and normalised when asked for. *)
Definition deliver s (rec : list byte) : list num :=
  let row := np_decode (r_type s) (mytype s) rec in
  if normalize s =? 0 then row else norm_row (np_fill (featuredim s)) row.

(** The parts of a reader no method changes. *)
Definition same_setup s s' : Prop :=
  mytype s' = mytype s /\ featuredim s' = featuredim s /\ isbinary s' = isbinary s /\
  r_type s' = r_type s /\ normalize s' = normalize s /\ numQuerys s' = numQuerys s.

Lemma same_setup_refl s : same_setup s s.
Proof. done. Qed.

Lemma same_setup_trans s1 s2 s3 : same_setup s1 s2 -> same_setup s2 s3 -> same_setup s1 s3.
Proof. unfold same_setup. intuition congruence. Qed.

Lemma same_setup_query q s b t :
  length q = length (query s) -> same_setup s (set_query q (set_fin b t s)).
Proof. intros H. repeat split. unfold numQuerys; cbn. by rewrite H. Qed.

Lemma finish_batch_ok s rows :
  0 < featuredim s -> take (length rows) (query s) = rows ->
  exists q, finish_batch (Z.of_nat (length rows)) s =
    (Ret (Z.of_nat (length rows),
          if normalize s =? 0 then rows else norm_row (np_fill (featuredim s)) <$> rows), set_query q s) /\
    length q = length (query s).
Proof.
  intros Hd Hq. unfold finish_batch. erewrite bind_ret by reflexivity. destruct (normalize s =? 0) eqn:E; cbn [negb].
  - exists (query s). rewrite Nat2Z.id, Hq. split; [by destruct s|done].
  - unfold norm, fill_value. eexists. split.
    + erewrite bind_ret.
      2:{ erewrite bind_ret by reflexivity. replace (featuredim s <? 0) with false by lia.
          replace (featuredim s =? 0) with false by lia. erewrite bind_ret by reflexivity.
          erewrite bind_ret by reflexivity. reflexivity. }
      rewrite Nat2Z.id, Hq. reflexivity.
    + rewrite length_app, length_fmap, length_drop. apply (f_equal length) in Hq. rewrite length_take in Hq. lia.
Qed.

Section binary_file.
(** A reader at a point of a binary file where [recs] complete records and an
    incomplete one are left. *)
Definition at_records s sz (recs : list (list byte)) (tail : list byte) : Prop :=
  isbinary s = true /\ itemsize (r_type s) = Some sz /\ 0 < sz /\ 0 < featuredim s /\
  r_bin s = (mjoin recs ++ tail)%list /\
  Forall (fun r => Z.of_nat (length r) = sz * featuredim s) recs /\
  Z.of_nat (length tail) < sz * featuredim s.

Lemma readbatch_binary s sz recs tail (n := length (query s)) :
  at_records s sz recs tail ->
  exists s', readbatch s =
    (Ret (Z.of_nat (length (take n recs)), deliver s <$> take n recs), s') /\
    same_setup s s' /\ r_bin s' = fin_after n recs tail.
Proof.
  intros (Hb & Hsz & Hsp & Hd & Hr & HF & Ht).
  pose proof (binary_loop (S (S (length (r_bin s)))) s 0 sz n recs tail Hsz ltac:(nia) ltac:(lia) ltac:(done) Hr HF Ht
    ltac:(lia)) as E.
  unfold readbatch. rewrite Hb, E. clear E. cbn beta iota. change (Z.to_nat 0) with 0%nat.
  set (rows := np_decode (r_type s) (mytype s) <$> take n recs).
  assert (length rows = length (take n recs)) as Hlen by apply length_fmap.
  assert (length rows <= length (query s))%nat as Hle by (rewrite Hlen, length_take; lia).
  set (s1 := set_query (fill_rows 0 rows (query s)) (set_fin (fin_after n recs tail) (r_txt s) s)).
  destruct (finish_batch_ok s1 rows) as (q & E & Hq); [done|by apply take_fill_rows|].
  rewrite Z.add_0_l, <- Hlen. rewrite E. eexists. split_and!.
  - f_equal. f_equal. f_equal. cbn. subst rows. unfold deliver.
    destruct (normalize s =? 0); [done|]. by rewrite <- list_fmap_compose.
  - apply (same_setup_query q s (fin_after n recs tail) (r_txt s)). rewrite Hq. cbn.
    by apply length_fill_rows.
  - done.
Qed.

Lemma deliver_same s s' r : same_setup s s' -> deliver s' r = deliver s r.
Proof. intros (H1 & H2 & _ & H4 & H5 & _). unfold deliver. by rewrite H1, H2, H4, H5. Qed.

Lemma at_records_next s s' sz recs tail (n := length (query s)) :
  at_records s sz recs tail -> same_setup s s' -> r_bin s' = fin_after n recs tail ->
  (n <= length recs)%nat -> at_records s' sz (drop n recs) tail.
Proof.
  intros (Hb & Hsz & Hsp & Hd & Hr & HF & Ht) (H1 & H2 & H3 & H4 & H5 & H6) Hfin Hn.
  unfold fin_after in Hfin. rewrite bool_decide_true in Hfin by done.
  unfold at_records. rewrite H2, H3, H4. split_and!; try done. by apply Forall_drop.
Qed.

(** The batches: full ones, then at most one shorter one. *)
Definition batched {A} (n : nat) (l : list A) (data : list (list A)) : Prop :=
  mjoin data = l /\ Forall (fun b => (0 < length b <= n)%nat) data /\
  forall j b, data !! j = Some b -> (S j < length data)%nat -> length b = n.

Lemma batched_cons {A} n (l : list A) data :
  (0 < n <= length l)%nat -> batched n (drop n l) data -> batched n l (take n l :: data).
Proof.
  intros Hn (Hj & HF & Hl). split_and!.
  - change (mjoin (take n l :: data)) with (take n l ++ mjoin data)%list. by rewrite Hj, take_drop.
  - constructor; [rewrite length_take; lia|done].
  - intros [|j] b Hb Hlt; cbn in *; [simplify_eq; rewrite length_take; lia|]. apply (Hl j); [done|lia].
Qed.

Lemma batched_short {A} n (l : list A) :
  (length l < n)%nat -> batched n l (if decide (l = []) then [] else [l]).
Proof.
  intros Hn. destruct (decide (l = [])) as [->|Hne]; [done|]. split_and!.
  - cbn. by rewrite app_nil_r.
  - constructor; [|done]. destruct l; [done|cbn in *; lia].
  - intros [|j] b Hb Hlt; cbn in *; [lia|done].
Qed.

Lemma all_loop fuel s sz recs tail D R :
  at_records s sz recs tail -> (0 < length (query s))%nat -> (length recs < fuel)%nat ->
  exists s' data, while_true fuel (all_body (numQuerys s)) (AllVars s D R) =
    (Ret tt, AllVars s' (D ++ data)%list (R + Z.of_nat (length recs))) /\
    batched (length (query s)) (deliver s <$> recs) data.
Proof.
  revert s recs D R. induction fuel as [|fuel IH]; intros s recs D R Hat Hn Hf; [lia|].
  destruct (readbatch_binary s sz recs tail Hat) as (s1 & E & Hsame & Hfin).
  destruct (decide (length (query s) <= length recs)%nat) as [Hge|Hlt].
  - assert (all_body (numQuerys s) (AllVars s D R) =
      (Ret None, AllVars s1 (D ++ [deliver s <$> take (length (query s)) recs])%list
        (R + numQuerys s))) as Hbody.
    { unfold all_body; cbn [a_reader a_data a_R]. rewrite E, length_take, Nat.min_l by lia. unfold numQuerys. by rewrite Z.eqb_refl. }
    rewrite (while_true_next _ _ _ _ Hbody).
    assert (numQuerys s1 = numQuerys s) as Hnq by apply Hsame.
    rewrite <- Hnq. assert (length (query s1) = length (query s)) as Hl by (unfold numQuerys in Hnq; lia).
    destruct (IH s1 (drop (length (query s)) recs) (D ++ [deliver s <$> take (length (query s)) recs])%list
      (R + numQuerys s1)) as (s2 & data & E2 & Hbat).
    + by apply (at_records_next s).
    + lia.
    + rewrite length_drop. lia.
    + exists s2, ((deliver s <$> take (length (query s)) recs) :: data). rewrite E2, <- app_assoc. split.
      * rewrite length_drop. do 2 f_equal. unfold numQuerys. lia.
      * rewrite fmap_take. apply batched_cons; [rewrite length_fmap; lia|].
        rewrite Hl, fmap_drop in Hbat. erewrite list_fmap_ext; [exact Hbat|].
        intros j x _. symmetry. by apply deliver_same.
  - rewrite take_ge in E by lia.
    exists s1, (if decide (deliver s <$> recs = []) then [] else [deliver s <$> recs]). split.
    + apply while_true_break. unfold all_body; cbn [a_reader a_data a_R]. rewrite E. unfold numQuerys.
      replace (Z.of_nat (length recs) =? Z.of_nat (length (query s))) with false by lia.
      destruct recs as [|r recs]; cbn [length]; [cbn; by rewrite app_nil_r, Z.add_0_r|].
      rewrite decide_False by done. rewrite take_ge by (rewrite length_fmap; cbn; lia). done.
    + apply batched_short. rewrite length_fmap. lia.
Qed.
End binary_file.

Lemma binary_body_measure (st : reader num * Z) :
  match binary_body st with
  | (Ret None, st') => True /\ (length (r_bin st'.1) < length (r_bin st.1))%nat
  | (OutOfFuel, _) => False
  | _ => True
  end.
Proof.
  destruct st as [s i]. unfold binary_body. erewrite bind_ret by reflexivity. cbn beta iota.
  destruct (i <? numQuerys s); [|done].
  unfold dtype_size. destruct (itemsize (r_type s)) as [sz|]; [|done]. erewrite bind_ret by reflexivity.
  unfold read_bytes. destruct (sz * featuredim s <? 0).
  - case_bool_decide as Hv; [done|]. destruct (negb _); cbn; (split; [done|]); destruct (r_bin s); done || (cbn; lia).
  - case_bool_decide as Hv; [done|].
    assert (length (drop (Z.to_nat (sz * featuredim s)) (r_bin s)) < length (r_bin s))%nat.
    { rewrite length_drop. destruct (Z.to_nat (sz * featuredim s)), (r_bin s); cbn in *; try done; lia. }
    by destruct (negb _).
Qed.

Lemma text_row_total s l : text_row s l <> OutOfFuel.
Proof.
  unfold text_row. destruct (_ <? 0); [done|]. destruct (_ <? _); [done|].
  match goal with |- context [mapM_out ?g _] => set (f := g) end.
  assert (mapM_out f (py_range 0 (featuredim s)) <> OutOfFuel) as H.
  { apply mapM_out_total. intros j. subst f. cbn beta.
    pose proof (py_index_total' (split_on "|" (str_drop (Z.to_nat (rfind TAB l + 1)) l)) j) as Hj.
    destruct (py_index _ j) as [x|e|]; [|done..]. cbn. unfold float_of_str. by case_match. }
  by destruct (mapM_out f _).
Qed.

Lemma text_body_measure (st : reader num * Z) :
  match text_body st with
  | (Ret None, st') => True /\ (length (r_txt st'.1) < length (r_txt st.1))%nat
  | (OutOfFuel, _) => False
  | _ => True
  end.
Proof.
  destruct st as [s i]. unfold text_body. erewrite bind_ret by reflexivity. cbn beta iota.
  destruct (i <? numQuerys s); [|done]. destruct (r_txt s) as [|l ls] eqn:Hl; [done|].
  erewrite bind_ret by reflexivity. set (s1 := set_fin _ _ _).
  pose proof (text_row_total s1 l) as Ht. destruct (text_row s1 l) as [[row|]|e|]; [..|done].
  - erewrite bind_ret by reflexivity. split; [done|]. subst s1. cbn. rewrite Hl. cbn. lia.
  - erewrite bind_ret by reflexivity. split; [done|]. subst s1. cbn. rewrite Hl. cbn. lia.
  - by erewrite bind_raise by reflexivity.
Qed.

Lemma finish_batch_total i s : (finish_batch i s).1 <> OutOfFuel.
Proof.
  unfold finish_batch. erewrite bind_ret by reflexivity. destruct (negb _); [|done].
  unfold norm, fill_value. destruct (featuredim s <? 0) eqn:E1; [|destruct (featuredim s =? 0) eqn:E2];
    unfold mbind, py_bind, get_state, lift; rewrite E1; try rewrite E2; done.
Qed.

(** The rows the lines of a text file hold. *)
Definition text_rows s (lines : list string) : list (list num) :=
  omap (fun l => match text_row s l with Ret o => o | _ => None end) lines.

Lemma text_row_setup s s' l : featuredim s' = featuredim s -> mytype s' = mytype s -> text_row s' l = text_row s l.
Proof. unfold text_row. by intros -> ->. Qed.

Lemma text_loop n s i room lines :
  0 <= i -> numQuerys s = i + Z.of_nat room -> r_txt s = lines ->
  Forall (fun l => exists o, text_row s l = Ret o) lines -> (length lines < n)%nat ->
  exists s', while_true n text_body (s, i) =
    (Ret tt, (s', i + Z.of_nat (length (take room (text_rows s lines))))) /\
    query s' = fill_rows (Z.to_nat i) (take room (text_rows s lines)) (query s) /\
    featuredim s' = featuredim s /\ normalize s' = normalize s.
Proof.
  revert n s i room. induction lines as [|l ls IH]; intros n s i room Hi Hroom Hr HF Hn;
    (destruct n as [|n]; [cbn in Hn; lia|]).
  - exists s. cbn [text_rows omap list_omap]. rewrite take_nil. cbn [length]. rewrite fill_rows_nil, Z.add_0_r. split; [|done].
    apply while_true_break. unfold text_body. erewrite bind_ret by reflexivity. cbn beta iota.
    destruct (i <? numQuerys s); [by rewrite Hr|done].
  - apply Forall_cons in HF as [[o Ho] HF].
    destruct room as [|room].
    { exists s. rewrite take_0. cbn [length]. rewrite fill_rows_nil, Z.add_0_r. split; [|done].
      apply while_true_break. unfold text_body. erewrite bind_ret by reflexivity. cbn beta iota.
      by replace (i <? numQuerys s) with false by lia. }
    set (s1 := set_fin (r_bin s) ls s).
    assert (text_row s1 l = Ret o) as Ho' by (by rewrite (text_row_setup s)).
    assert (text_body (s, i) =
      (Ret None, match o with Some row => (set_row i row s1, i + 1) | None => (s1, i) end)) as Hbody.
    { unfold text_body. erewrite bind_ret by reflexivity. cbn beta iota.
      replace (i <? numQuerys s) with true by lia. rewrite Hr. erewrite bind_ret by reflexivity.
      fold s1. erewrite bind_ret by (unfold lift; by rewrite Ho'). by destruct o. }
    rewrite (while_true_next _ _ _ _ Hbody). unfold text_rows. cbn [omap list_omap]. rewrite Ho.
    destruct o as [row|]; fold (text_rows s ls).
    + unfold numQuerys in Hroom.
      destruct (IH n (set_row i row s1) (i + 1) room) as (s' & E & Hq & Hd & Hnm); try done.
      * lia.
      * unfold numQuerys; cbn. rewrite length_insert. lia.
      * cbn in Hn. lia.
      * exists s'. change (text_rows (set_row i row s1) ls) with (text_rows s ls) in *.
        rewrite E. cbn [take length]. split_and!; try done; [do 2 f_equal; lia|].
        rewrite Hq. cbn. replace (Z.to_nat (i + 1)) with (S (Z.to_nat i)) by lia.
        apply fill_rows_cons. lia.
    + destruct (IH n s1 i (S room)) as (s' & E & Hq & Hd & Hnm); try done; [cbn in Hn; lia|].
      exists s'. change (text_rows s1 ls) with (text_rows s ls) in *. by rewrite E.
Qed.
End reader_lemmas.

(** ** Properties *)

Lemma read_bytes_le z rest : read_bytes 4 (le_bytes 4 z ++ rest)%list = (le_bytes 4 z, rest).
Proof.
  change 4 with (Z.of_nat 4). rewrite read_bytes_nat.
  by rewrite take_app_length', drop_app_length' by (by rewrite length_le_bytes).
Qed.

Section reader_props.
Context {num : Type} `{!Numpy num}.
Implicit Types s : reader num.

(** What [__init__] makes of a DEFAULT file: a reader before its first record. *)
Definition default_reader (n d nrm : Z) (dt tgt : string) (body : list byte) : reader num :=
  Reader body [] tgt d true dt
    (replicate (Z.to_nat n) (replicate (Z.to_nat d) (np_of_float tgt (float_of_Z 0)))) nrm.

Lemma new_reader_default w fn dim b nrm dt tgt d recs (m := Z.of_nat (length recs)) (n := if b <=? 0 then m else b) :
  contains ".bin" fn = true -> fs w !! fn = Some (default_file m d (mjoin recs)) ->
  int32_range m = true -> int32_range d = true -> 0 < d ->
  new_reader fn dim b nrm dt tgt w = (Ret (default_reader n d nrm dt tgt (mjoin recs)), w).
Proof.
  intros Hbin Hf HR Hd Hdp.
  assert (0 <= n) by (subst n m; destruct (b <=? 0) eqn:E; lia).
  unfold new_reader, default_file in *. rewrite Hbin.
  erewrite bind_ret; [|erewrite bind_ret by (apply (read_file_ok _ _ _ Hf)); rewrite read_bytes_le;
    erewrite bind_ret by (unfold lift; by rewrite unpack_i_le_bytes); rewrite read_bytes_le;
    erewrite bind_ret by (unfold lift; by rewrite unpack_i_le_bytes); reflexivity].
  cbn beta iota. fold n. unfold np_zeros. cbn [featuredim mytype].
  replace (n <? 0) with false by lia. replace (d <? 0) with false by lia. reflexivity.
Qed.

Lemma default_reader_at n d nrm dt tgt sz recs :
  itemsize dt = Some sz -> 0 < sz -> 0 < d -> Forall (fun r => Z.of_nat (length r) = sz * d) recs ->
  at_records (default_reader n d nrm dt tgt (mjoin recs)) sz recs [] /\
  length (query (default_reader n d nrm dt tgt (mjoin recs))) = Z.to_nat n.
Proof.
  intros Hsz Hsp Hdp HF. split; [|cbn; apply length_replicate].
  unfold at_records; cbn. rewrite app_nil_r. split_and!; try done. nia.
Qed.

Lemma default_batch_size (b : Z) (recs : list (list byte)) :
  recs <> [] -> 0 < (if b <=? 0 then Z.of_nat (length recs) else b).
Proof. intros H. destruct (b <=? 0) eqn:E; [|lia]. destruct recs; [done|cbn; lia]. Qed.

(** C3: a reader opened on a complete binary file of the DEFAULT format, with
    any batch size, delivers every record once and in order: the number it
    returns is the row count, the batches joined are the decoded (and, when
    asked for, normalised) records, and all but the last have the batch size. *)
Theorem reader_reads_default_file w fn dim b nrm dt tgt sz d recs fuel :
  contains ".bin" fn = true ->
  fs w !! fn = Some (default_file (Z.of_nat (length recs)) d (mjoin recs)) ->
  recs <> [] -> int32_range (Z.of_nat (length recs)) = true -> int32_range d = true ->
  itemsize dt = Some sz -> 0 < sz -> 0 < d ->
  Forall (fun r => Z.of_nat (length r) = sz * d) recs -> (length recs < fuel)%nat ->
  exists s s' data,
    new_reader fn dim b nrm dt tgt w = (Ret s, w) /\
    readallbatches fuel s = (Ret (Z.of_nat (length recs), data), s') /\
    batched (if b <=? 0 then length recs else Z.to_nat b) (deliver s <$> recs) data.
Proof.
  intros Hbin Hf Hne HR Hd Hsz Hsp Hdp HF Hn.
  pose proof (default_batch_size b recs Hne) as Hnp.
  pose proof (new_reader_default w fn dim b nrm dt tgt d recs Hbin Hf HR Hd Hdp) as E0.
  set (n := if b <=? 0 then Z.of_nat (length recs) else b) in *.
  destruct (default_reader_at n d nrm dt tgt sz recs Hsz Hsp Hdp HF) as [Hat Hq].
  destruct (all_loop fuel _ sz recs [] [] 0 Hat ltac:(lia) Hn) as (s' & data & E & Hbat).
  eexists _, s', data. split_and!; [exact E0|..].
  - unfold readallbatches. rewrite E. cbn. by rewrite Z.add_0_l.
  - rewrite Hq in Hbat. subst n. destruct (b <=? 0); [by rewrite Nat2Z.id in Hbat|done].
Qed.

(** C28: [readbatch] always returns or raises, on any file: an incomplete
    record or an unusable line is skipped, never read again. *)
Theorem readbatch_terminates s : (readbatch s).1 <> OutOfFuel.
Proof.
  unfold readbatch. destruct (isbinary s).
  - pose proof (while_true_terminates (fun _ => True) (fun st => length (r_bin st.1)) binary_body
      (fun st _ => binary_body_measure st) (S (S (length (r_bin s)))) (s, 0) I ltac:(cbn; lia)) as H.
    destruct (while_true _ _ _) as [[r|e|] [s' i]]; [apply finish_batch_total|done|by cbn in H].
  - pose proof (while_true_terminates (fun _ => True) (fun st => length (r_txt st.1)) text_body
      (fun st _ => text_body_measure st) (S (S (length (r_txt s)))) (s, 0) I ltac:(cbn; lia)) as H.
    destruct (while_true _ _ _) as [[r|e|] [s' i]]; [apply finish_batch_total|done|by cbn in H].
Qed.

Lemma readbatch_no_rows s : query s = [] -> normalize s = 0 -> readbatch s = (Ret (0, []), s).
Proof.
  intros Hq Hn.
  assert (finish_batch 0 s = (Ret (0, []), s)) as Hf.
  { unfold finish_batch. erewrite bind_ret by reflexivity. rewrite Hn, Hq. done. }
  assert (binary_body (s, 0) = (Ret (Some tt), (s, 0)) /\ text_body (s, 0) = (Ret (Some tt), (s, 0))) as [H1 H2].
  { unfold binary_body, text_body, numQuerys, mbind, py_bind, get_state. by rewrite Hq. }
  unfold readbatch. rewrite (while_true_break _ _ _ _ _ H1), (while_true_break _ _ _ _ _ H2).
  by destruct (isbinary s).
Qed.

(** With an array of no rows (an empty file opened without a batch size)
    [readallbatches] never returns: every empty batch is as long as the
    array. *)
Theorem readallbatches_empty_array fuel s :
  query s = [] -> normalize s = 0 -> (readallbatches fuel s).1 = OutOfFuel.
Proof.
  intros Hq Hnm. unfold readallbatches, numQuerys. rewrite Hq.
  assert ((while_true fuel (all_body 0) (AllVars s [] 0)).1 = OutOfFuel) as H.
  { apply (while_true_diverges (fun a => query (a_reader a) = [] /\ normalize (a_reader a) = 0)); [|done].
    intros a [Ha Hb]. unfold all_body. rewrite readbatch_no_rows by done. by eexists. }
  cbn [length]. change (Z.of_nat 0) with 0. by destruct (while_true _ _ _) as [[] ?].
Qed.

(** [readbatch] on a text file whose usable lines all hold numbers returns
    the rows of the first usable lines, as many as the array has room for;
    lines without a tab or with too few items are passed over. *)
Theorem readbatch_text s (n := length (query s)) :
  isbinary s = false -> 0 < featuredim s ->
  Forall (fun l => exists o, text_row s l = Ret o) (r_txt s) ->
  exists s', readbatch s =
    (Ret (Z.of_nat (length (take n (text_rows s (r_txt s)))),
          (if normalize s =? 0 then id else norm_row (np_fill (featuredim s)))
            <$> take n (text_rows s (r_txt s))), s').
Proof.
  intros Hb Hd HF. unfold readbatch. rewrite Hb.
  destruct (text_loop (S (S (length (r_txt s)))) s 0 n (r_txt s)) as (s1 & E & Hq & Hd1 & Hn1); try done; [lia|].
  rewrite E. cbn beta iota. rewrite Z.add_0_l.
  destruct (finish_batch_ok s1 (take n (text_rows s (r_txt s)))) as (q & E2 & _).
  - by rewrite Hd1.
  - rewrite Hq. apply take_fill_rows. rewrite length_take. lia.
  - rewrite E2, Hn1, Hd1. eexists. f_equal. f_equal. f_equal.
    destruct (normalize s =? 0); [|done]. symmetry. apply list_fmap_id.
Qed.
End reader_props.

Section sparse_props.
Context {A : Type}.
Implicit Types (data : list A).

Lemma sparse_from_spec data index lengths :
  0 <= index -> Forall (fun l => 0 <= l) lengths -> index + foldr Z.add 0 lengths = Z.of_nat (length data) ->
  mjoin (Dataset.sparse_from data index lengths) = drop (Z.to_nat index) data /\
  (fun x => Z.of_nat (length x)) <$> Dataset.sparse_from data index lengths = lengths.
Proof.
  revert index. induction lengths as [|l ls IH]; intros index Hi HF Hsum.
  { cbn in *. by rewrite drop_ge by lia. }
  apply Forall_cons in HF as [Hl HF]. cbn [foldr] in Hsum.
  assert (0 <= foldr Z.add 0 ls) by (clear -HF; induction HF; cbn; lia).
  destruct (IH (index + l)) as [Hj Hln]; [lia|done|lia|].
  cbn [Dataset.sparse_from]. split.
  - change (mjoin (?x :: ?xs)) with (x ++ mjoin xs)%list. rewrite Hj. unfold py_slice.
    replace (Z.to_nat (index + l)) with (Z.to_nat index + Z.to_nat l)%nat by lia.
    rewrite <- (drop_drop data (Z.to_nat l) (Z.to_nat index)). replace (_ + _ - _)%nat with (Z.to_nat l) by lia. apply take_drop.
  - cbn. f_equal; [|exact Hln]. unfold py_slice. rewrite length_take, length_drop. lia.
Qed.

(** [sparse_to_lists] cuts a flat array without loss: when the lengths add
    up to the array's, the slices joined are the array and have the lengths
    asked for. *)
Theorem sparse_to_lists_partition data lengths :
  Forall (fun l => 0 <= l) lengths -> foldr Z.add 0 lengths = Z.of_nat (length data) ->
  mjoin (Dataset.sparse_to_lists data lengths) = data /\
  (fun x => Z.of_nat (length x)) <$> Dataset.sparse_to_lists data lengths = lengths.
Proof. intros HF Hs. apply (sparse_from_spec data 0); [lia|done|lia]. Qed.
End sparse_props.

(** ** Witnesses *)

(** numpy on bytes: one byte per element, integers for numbers. *)
Definition float_trunc (x : float) : Z :=
  match x with
  | S754_finite s m e => (if s then -1 else 1) * Z.shiftl (Zpos m) e
  | _ => 0
  end.

#[global] Instance byte_numpy : Numpy Z := {
  itemsize := fun t => if bool_decide (t = "int8") then Some 1 else None;
  np_decode := fun _ _ l => (fun b => le_signed 1 [b]) <$> l;
  np_of_float := fun _ => float_trunc;
  np_square := fun x => x * x;
  np_sum := foldr Z.add 0;
  np_sqrt := Z.sqrt;
  np_div := Z.div;
  np_tiny := fun x => x <? 1;
  np_1em6 := 1;
  np_fill := fun _ => 1
}.

Definition reader_world : world := World {[ "base.bin" := default_file 3 2 sample_body ]} ∅ [].
Definition sample_recs : list (list byte) := [take 2 sample_body; take 2 (drop 2 sample_body); drop 4 sample_body].

Lemma reader_reads_default_file_witness :
  exists s s' data,
    new_reader "base.bin" 0 2 0 "int8" "float32" reader_world = (Ret s, reader_world) /\
    readallbatches 9 s = (Ret (3, data), s') /\ batched 2 (deliver s <$> sample_recs) data.
Proof.
  apply (reader_reads_default_file reader_world "base.bin" 0 2 0 "int8" "float32" 1 2 sample_recs 9);
    try reflexivity; [done|..|cbn; lia]. repeat constructor.
Defined.

Definition empty_reader : reader Z := Reader [] [] "float32" 2 true "int8" [] 0.

Lemma readallbatches_empty_array_witness : (readallbatches 1000 empty_reader).1 = OutOfFuel.
Proof. by apply readallbatches_empty_array. Defined.

Definition text_reader : reader Z :=
  Reader [] ["no vector"; "a" ++ tab ++ "1|2|3"; "b" ++ tab ++ "1|2"] "float32" 3 false "float32" [[5; 5; 5]; [5; 5; 5]] 0.

Lemma readbatch_text_witness : exists s', readbatch text_reader = (Ret (1, [[1; 2; 3]]), s').
Proof.
  apply (readbatch_text text_reader eq_refl ltac:(done)).
  repeat constructor; eexists; reflexivity.
Defined.

Lemma sparse_to_lists_partition_witness :
  mjoin (Dataset.sparse_to_lists [10; 11; 12] [2; 0; 1]) = [10; 11; 12] /\
  (fun x => Z.of_nat (length x)) <$> Dataset.sparse_to_lists [10; 11; 12] [2; 0; 1] = [2; 0; 1].
Proof. apply (sparse_to_lists_partition [10; 11; 12] [2; 0; 1]); [repeat constructor; lia|reflexivity]. Defined.
