(* ===== verification/GpuSearch.v ===== *)
(** * Exhaustive search by batches: [get_config] and [gpusearch] of
    Tools/OPQ/OPQ_gpu_train_infer.py

    The data file is searched batch by batch; every batch leaves its answers
    in two files ([truth.txt.N], [dist.bin.N]), and a second phase merges them
    into the [k] nearest of the whole file. faiss is a parameter: the search
    of a flat index, with the ids and distances it returns. *)

From Stdlib Require Import Ascii.
From S2P Require Import Prelude PyStr PyFloat PyBytes PyIO Datasets TopK DataReader.

Open Scope string_scope.
Open Scope Z_scope.

(** ** Command line *)
Record config := Config {
  data_file : string; query_file : string;
  data_normalize : Z; query_normalize : Z;
  data_type : string; target_type : string;
  cfg_k : Z; cfg_dim : Z; cfg_B : Z; cfg_Q : Z; cfg_S : Z; cfg_D : string;
  output_truth : string; data_format : string; cfg_task : Z; log_dir : string;
  cfg_T : Z; train_samples : Z; quan_type : string; quan_dim : Z;
  output_dir : string; output_quantizer : string;
  output_quan_vector_file : string; output_rec_vector_file : string;
  quan_test : Z
}.

(** The defaults of the parser. *)
Definition get_config : config := Config
  "traindata" "query.tsv" 0 0 "float32" "float32" 32 100 (-1) 10000 1000 "L2"
  "truth.txt" "DEFAULT" 0 "" 32 1000000 "none" (-1) "quan_tmp" "quantizer.bin" "" "" 0.

(** ** float32 distances: their four bytes and their order *)
Class Float32 (f32 : Type) := {
  f32_bytes : f32 -> list byte;
  f32_of_bytes : list byte -> f32;
  f32_leb : f32 -> f32 -> bool
}.

(** ** Bytes of arrays *)
Section arrays.
Context {A : Type}.

(** Rows of [cols] elements. *)
Fixpoint rows_of (rows cols : nat) (l : list A) : list (list A) :=
  match rows with
  | O => []
  | S r => take cols l :: rows_of r cols (drop cols l)
  end.

(** [a.reshape((rows, cols))]. *)
Definition reshape (rows cols : Z) (l : list A) : outcome (list (list A)) :=
  if Z.of_nat (length l) =? rows * cols then Ret (rows_of (Z.to_nat rows) (Z.to_nat cols) l)
  else Raise ValueError.

Lemma rows_of_mjoin (ls : list (list A)) cols :
  Forall (fun l => length l = cols) ls -> rows_of (length ls) cols (mjoin ls) = ls.
Proof.
  induction 1 as [|l ls Hl HF IH]; [done|]. cbn [length rows_of].
  change (mjoin (l :: ls)) with (l ++ mjoin ls)%list.
  by rewrite take_app_length', drop_app_length', IH by done.
Qed.

Lemma length_mjoin_rows (ls : list (list A)) cols :
  Forall (fun l => length l = cols) ls -> length (mjoin ls) = (length ls * cols)%nat.
Proof.
  induction 1 as [|l ls Hl HF IH]; [done|].
  change (mjoin (l :: ls)) with (l ++ mjoin ls)%list. rewrite length_app, IH, Hl. cbn. lia.
Qed.
End arrays.

Section gpusearch.
Context {num f32 : Type} `{!Numpy num} `{!Float32 f32}.

(** [gpu_index.search(query, k)] on an index of [data]: distance type, half
    precision, dimension. *)
Context (index_search : string -> bool -> Z -> list (list num) -> list (list num) -> Z ->
                        outcome (list (list f32) * list (list Z))).

Abbreviation neighbour := (Z * f32)%type.

Definition tobytes (D : list (list f32)) : list byte := mjoin (f32_bytes <$> mjoin D).

(** [np.frombuffer(b, dtype=np.float32)]. *)
Definition frombuffer (b : list byte) : outcome (list f32) :=
  if (Z.of_nat (length b) mod 4 =? 0) then
    Ret (f32_of_bytes <$> rows_of (Nat.div (length b) 4) 4 b)
  else Raise ValueError.

(** One line of a truth file. *)
Definition ids_line (ids : list Z) : string :=
  foldr (fun z acc => str_of_Z z ++ " " ++ acc) newline ids.

Definition truth_part (batch : Z) : string := "truth.txt." ++ str_of_Z batch.
Definition dist_part (batch : Z) : string := "dist.bin." ++ str_of_Z batch.

(** ** First phase: the answers of one batch *)
Definition use_fp16 (c : config) : bool := negb (bool_decide (target_type c = "float32")).
Definition metric (c : config) : string := if bool_decide (cfg_D c = "Cosine") then "IP" else "L2".

Definition search_batch (c : config) (RQ batch : Z) (data : list (list num)) (dataQ : list (list (list num)))
    : py world unit :=
  create_file (truth_part batch);;
  create_file (dist_part batch);;
  b ← lift (pack_i RQ); append_file (dist_part batch) b;;
  b ← lift (pack_i (cfg_k c)); append_file (dist_part batch) b;;
  for_each dataQ (fun query =>
    r ← lift (index_search (metric c) (use_fp16 c) (cfg_dim c) data query (cfg_k c));
    append_file (dist_part batch) (tobytes r.1);;
    for_each r.2 (fun ids => write_text (truth_part batch) (ids_line ids))).

(** The loop over the batches returns [batch] and [totaldata]. *)
Fixpoint search_batches (fuel : nat) (c : config) (RQ : Z) (dataQ : list (list (list num)))
    (datareader : reader num) (batch totaldata : Z) : py world (Z * Z) :=
  match fuel with
  | O => fun w => (OutOfFuel, w)
  | S n =>
      match readbatch datareader with
      | (Ret (numData, data), datareader) =>
          if numData =? 0 then mret (batch, totaldata)
          else
            search_batch c RQ (batch + 1) data dataQ;;
            search_batches n c RQ dataQ datareader (batch + 1) (totaldata + numData)
      | (Raise e, _) => raise e
      | (OutOfFuel, _) => fun w => (OutOfFuel, w)
      end
  end.

(** ** Second phase: the merge *)

(** [itemgetter(1, 0)]: by distance, then by id. *)
Definition key_leb (x y : neighbour) : bool :=
  if f32_leb x.2 y.2 then if f32_leb y.2 x.2 then x.1 <=? y.1 else true else false.
Definition key_le (x y : neighbour) : Prop := key_leb x y = true.
#[export] Instance key_le_dec x y : Decision (key_le x y) := decide (key_leb x y = true).

(** The answers of a batch for one query, ids shifted by the batch's offset. *)
Definition extend_query (B i k : Z) (items : list string) (dists : list f32) : outcome (list neighbour) :=
  mapM_out (fun j => it ← py_index items j; z ← int_of_str it;
                     d ← py_index dists j; Ret (z + B * (i - 1), d)) (py_range 0 k).

Definition merge_query (B i k : Z) (items : list string) (dists : list f32) (truth : list neighbour)
    : outcome (list neighbour) :=
  ext ← extend_query B i k items dists;
  Ret (take (Z.to_nat k) (merge_sort key_le (truth ++ ext)%list)).

(** [f.readline()[0:-1].split()] for every query, with the rest of the file. *)
Fixpoint merge_queries (B i k : Z) (lines : list string) (currdist : list (list f32))
    (j : Z) (truth : list (list neighbour)) : outcome (list (list neighbour)) :=
  match truth with
  | [] => Ret []
  | t :: ts =>
      let line := hd "" lines in
      dists ← py_index currdist j;
      t' ← merge_query B i k (split_ws (drop_last line)) dists t;
      ts' ← merge_queries B i k (tl lines) currdist (j + 1) ts;
      Ret (t' :: ts')
  end.

Definition merge_batch (B RQ k i : Z) (truth : list (list neighbour)) : py world (list (list neighbour)) :=
  lines ← open_lines Py3 (truth_part i);
  fd ← read_file (dist_part i);
  let '(b, fd) := read_bytes 4 fd in
  r ← lift (unpack_i b);
  let '(b, fd) := read_bytes 4 fd in
  c ← lift (unpack_i b);
  let '(b, _) := read_bytes (4 * RQ * k) fd in
  a ← lift (frombuffer b);
  currdist ← lift (reshape RQ k a);
  lift (merge_queries B i k lines currdist 0 truth).

Fixpoint merge_batches (B RQ k : Z) (is' : list Z) (truth : list (list neighbour)) : py world (list (list neighbour)) :=
  match is' with
  | [] => mret truth
  | i :: is'' => truth ← merge_batch B RQ k i truth; merge_batches B RQ k is'' truth
  end.

(** ** Output *)

(** The path is built with a backslash. *)
Definition dist_out (c : config) : string :=
  output_truth c ++ ".dist" ++ String BS ("dist.bin." ++ str_of_Z (cfg_task c)).

Definition write_neighbour (c : config) (x : neighbour) : py world unit :=
  write_text (output_truth c) (str_of_Z x.1 ++ " ");;
  b ← lift (pack_i x.1); append_file (dist_out c) b;;
  append_file (dist_out c) (f32_bytes x.2).

Definition write_truth (c : config) (RQ : Z) (truth : list (list neighbour)) : py world unit :=
  ex ← os_path_exists (output_truth c ++ ".dist");
  when (negb ex) (os_mkdir (output_truth c ++ ".dist"));;
  create_file (output_truth c);;
  create_file (dist_out c);;
  b ← lift (pack_i RQ); append_file (dist_out c) b;;
  b ← lift (pack_i (cfg_k c)); append_file (dist_out c) b;;
  for_each (py_range 0 RQ) (fun i =>
    row ← lift (py_index truth i);
    for_each (py_range 0 (cfg_k c)) (fun j => x ← lift (py_index row j); write_neighbour c x);;
    write_text (output_truth c) newline).

Definition gpusearch (fuel : nat) (c : config) : py world unit :=
  datareader ← new_reader (data_file c) (cfg_dim c) (cfg_B c) (data_normalize c) (data_type c) (target_type c);
  queryreader ← new_reader (query_file c) (cfg_dim c) (cfg_Q c) (query_normalize c) (data_type c) (target_type c);
  q ← run_local (readallbatches fuel) queryreader;
  let '(RQ, dataQ) := q.1 in
  r ← search_batches fuel c RQ dataQ datareader 0 0;
  let '(batch, totaldata) := r in
  let B := if (cfg_B c <=? 0) || (totaldata <=? cfg_B c) then totaldata else cfg_B c in
  truth ← merge_batches B RQ (cfg_k c) (py_range 1 (batch + 1)) (replicate (Z.to_nat RQ) []);
  write_truth c RQ truth.

End gpusearch.

(** ** Lemmas *)

(** What is used of IEEE single precision: bytes and values correspond, and
    the distances that occur (no NaN, one zero) are totally ordered. *)
Class Float32Laws (f32 : Type) `{!Float32 f32} := {
  f32_length : forall x, length (f32_bytes x) = 4%nat;
  f32_round : forall x, f32_of_bytes (f32_bytes x) = x;
  f32_total : forall x y, f32_leb x y = true \/ f32_leb y x = true;
  f32_trans : forall x y z, f32_leb x y = true -> f32_leb y z = true -> f32_leb x z = true;
  f32_antisym : forall x y, f32_leb x y = true -> f32_leb y x = true -> x = y
}.

Section merge_lemmas.
Context {f32 : Type} `{!Float32 f32} `{!Float32Laws f32}.
Abbreviation neighbour := (Z * f32)%type.
Implicit Types x y : neighbour.

Lemma key_le_spec x y : key_le x y <-> f32_leb x.2 y.2 = true /\ (f32_leb y.2 x.2 = true -> x.1 <= y.1).
Proof.
  unfold key_le, key_leb. destruct (f32_leb x.2 y.2), (f32_leb y.2 x.2); rewrite ?Z.leb_le; intuition congruence.
Qed.

#[export] Instance key_le_trans : Transitive (key_le (f32 := f32)).
Proof.
  intros x y z. rewrite !key_le_spec. intros [H1 H2] [H3 H4]. split; [by eapply f32_trans|].
  intros H5. assert (f32_leb y.2 x.2 = true) by (by eapply f32_trans).
  assert (f32_leb z.2 y.2 = true) by (by eapply f32_trans). etransitivity; eauto.
Qed.

#[export] Instance key_le_total : Total (key_le (f32 := f32)).
Proof.
  intros x y. rewrite !key_le_spec. destruct (f32_leb x.2 y.2) eqn:E1, (f32_leb y.2 x.2) eqn:E2.
  - destruct (Z.le_ge_cases x.1 y.1); [left|right]; naive_solver.
  - left. naive_solver.
  - right. naive_solver.
  - destruct (f32_total x.2 y.2); congruence.
Qed.

#[export] Instance key_le_antisym : AntiSymm (=) (key_le (f32 := f32)).
Proof.
  intros [i d] [j e]. rewrite !key_le_spec. cbn. intros [H1 H2] [H3 H4].
  f_equal; [specialize (H2 H3); specialize (H4 H1); lia|by apply f32_antisym].
Qed.

Definition shift (B i : Z) x : neighbour := (x.1 + B * (i - 1), x.2).

Lemma shift_mono B i x y : key_le x y -> key_le (shift B i x) (shift B i y).
Proof. rewrite !key_le_spec. cbn. intros [H1 H2]. split; [done|]. intros H. specialize (H2 H). lia. Qed.

Definition topn (k : Z) (l : list neighbour) : list neighbour := topk key_le (Z.to_nat k) l.

(** ** Text and bytes written are read back *)

Lemma ids_line_text ids :
  ids_line ids = foldr (fun z acc => str_of_Z z ++ " " ++ acc) "" ids ++ newline.
Proof. unfold ids_line. induction ids as [|z ids IH]; [done|]. cbn [foldr]. rewrite IH. by rewrite !str_app_assoc. Qed.

Lemma split_ids ids : split_ws (foldr (fun z acc => str_of_Z z ++ " " ++ acc) "" ids) = str_of_Z <$> ids.
Proof.
  induction ids as [|z ids IH]; [done|]. cbn [foldr fmap list_fmap].
  change (" " ++ ?x) with (String " " x). rewrite split_ws_cons; [by rewrite IH|apply str_of_Z_word|done].
Qed.

Lemma read_ids_line ids : split_ws (drop_last (ids_line ids)) = str_of_Z <$> ids.
Proof. rewrite ids_line_text. unfold newline. rewrite drop_last_snoc. apply split_ids. Qed.

Definition no_eol (c : ascii) : bool := negb (Ascii.eqb c LF) && negb (Ascii.eqb c CR).

Lemma ids_text_no_eol ids :
  all_chars no_eol (foldr (fun z acc => str_of_Z z ++ " " ++ acc) "" ids) = true.
Proof.
  induction ids as [|z ids IH]; [done|]. cbn [foldr]. rewrite all_chars_app. apply andb_true_intro. split; [|exact IH].
  pose proof (str_of_Z_word z) as Hw. unfold is_word in Hw. apply andb_prop in Hw as [_ Hw].
  eapply all_chars_impl; [|exact Hw]. intros c. unfold is_space, no_eol.
  destruct (Ascii.eqb_spec c LF) as [->|]; [done|]. destruct (Ascii.eqb_spec c CR) as [->|]; [done|]. done.
Qed.

Definition ids_text (ids : list Z) : string := foldr (fun z acc => str_of_Z z ++ " " ++ acc) "" ids.

(** The text of a batch's answers, one line per query. *)
Definition answers_text (rows : list (list Z)) : string := unlines (ids_text <$> rows).

Lemma answers_text_lines rows v :
  lines_of (text_of v (bytes_of_str (answers_text rows))) = ids_line <$> rows.
Proof.
  assert (all_chars (fun c => negb (Ascii.eqb c CR)) (answers_text rows) = true) as Hcr.
  { unfold answers_text. induction rows as [|r rows IH]; [done|].
    change (unlines (ids_text <$> r :: rows)) with ((ids_text r ++ newline) ++ unlines (ids_text <$> rows)).
    rewrite !all_chars_app, IH, !andb_true_r. eapply all_chars_impl; [|apply ids_text_no_eol].
    intros c [_ H]%andb_prop. done. }
  assert (text_of v (bytes_of_str (answers_text rows)) = answers_text rows) as ->.
  { unfold text_of. destruct v; rewrite str_of_bytes_of_str; [done|by apply universal_newlines_id]. }
  unfold answers_text. rewrite lines_of_concat.
  - rewrite <- list_fmap_compose. apply list_fmap_ext. intros j r _. cbn. symmetry. apply ids_line_text.
  - apply Forall_fmap, Forall_forall. intros r _. unfold no_lf. eapply all_chars_impl; [|apply ids_text_no_eol].
    intros c [H _]%andb_prop. done.
Qed.

Lemma frombuffer_tobytes (D : list (list f32)) : frombuffer (tobytes D) = Ret (mjoin D).
Proof.
  unfold frombuffer, tobytes.
  assert (Forall (fun l : list byte => length l = 4%nat) (f32_bytes <$> mjoin D)) as HF
    by (apply Forall_fmap, Forall_forall; intros x _; apply f32_length).
  rewrite (length_mjoin_rows _ 4) by done. rewrite length_fmap, Nat.div_mul by done.
  replace (Z.of_nat (length (mjoin D) * 4) mod 4) with 0
    by (rewrite Nat2Z.inj_mul; symmetry; apply Z.mod_mul; done). cbn [Z.eqb].
  rewrite <- (length_fmap f32_bytes (mjoin D)), rows_of_mjoin by done. f_equal.
  rewrite <- list_fmap_compose. rewrite <- list_fmap_id. apply list_fmap_ext. intros j x _. apply f32_round.
Qed.

Definition ids_of (ans : list (list neighbour)) : list (list Z) := (fun a => a.*1) <$> ans.
Definition dists_of (ans : list (list neighbour)) : list (list f32) := (fun a => a.*2) <$> ans.

(** The files of batch [i] hold the answers [ans]: a row of neighbours per query. *)
Definition holds_answers (w : world) (k i : Z) (ans : list (list neighbour)) : Prop :=
  fs w !! truth_part i = Some (bytes_of_str (answers_text (ids_of ans))) /\
  fs w !! dist_part i = Some (default_file (Z.of_nat (length ans)) k (tobytes (dists_of ans))).

Lemma extend_query_ok B i (a : list neighbour) :
  extend_query B i (Z.of_nat (length a)) (str_of_Z <$> a.*1) a.*2 = Ret (shift B i <$> a).
Proof.
  unfold extend_query. apply mapM_out_index. intros j x Hx. cbn beta.
  rewrite (py_index_nat _ j (str_of_Z x.1)) by (by rewrite !list_lookup_fmap, Hx). cbn [mbind outcome_bind].
  rewrite int_of_str_of_Z. cbn [mbind outcome_bind].
  rewrite (py_index_nat _ j x.2) by (by rewrite list_lookup_fmap, Hx). done.
Qed.

Lemma merge_queries_ok B i k pre ans truth :
  Forall (fun a => Z.of_nat (length a) = k) ans -> length truth = length ans ->
  merge_queries B i k (ids_line <$> (ids_of ans)) (pre ++ (dists_of ans))%list (Z.of_nat (length pre)) truth =
    Ret (zip_with (fun t a => topn k (t ++ (shift B i <$> a))%list) truth ans).
Proof.
  revert pre truth. induction ans as [|a ans IH]; intros pre truth HF Hlen; destruct truth as [|t truth]; try done.
  apply Forall_cons in HF as [Ha HF]. 
  change (ids_of (a :: ans)) with (a.*1 :: ids_of ans). change (dists_of (a :: ans)) with (a.*2 :: dists_of ans).
  rewrite fmap_cons. cbn [merge_queries hd tl zip_with].
  erewrite py_index_nat by (by rewrite list_lookup_middle). cbn [mbind outcome_bind].
  rewrite read_ids_line. unfold merge_query. rewrite <- Ha, extend_query_ok. cbn [mbind outcome_bind].
  specialize (IH (pre ++ [a.*2])%list truth). rewrite Ha. rewrite <- app_assoc in IH. cbn [app] in IH.
  rewrite length_app in IH. cbn [length] in IH.
  replace (Z.of_nat (length pre) + 1) with (Z.of_nat (length pre + 1)) by lia.
  rewrite IH; [done|done|]. cbn in Hlen. lia.
Qed.

Lemma merge_batch_ok w B k i ans truth :
  holds_answers w k i ans -> Forall (fun a => Z.of_nat (length a) = k) ans ->
  length truth = length ans -> int32_range (Z.of_nat (length ans)) = true -> int32_range k = true -> 0 <= k ->
  merge_batch B (Z.of_nat (length ans)) k i truth w =
    (Ret (zip_with (fun t a => topn k (t ++ (shift B i <$> a))%list) truth ans), w).
Proof.
  intros [Ht Hd] HF Hlen Hr Hk Hk0. unfold merge_batch, default_file in *.
  erewrite bind_ret by (unfold open_lines; erewrite bind_ret by (apply (read_file_ok _ _ _ Ht)); reflexivity).
  rewrite answers_text_lines.
  erewrite bind_ret by (apply (read_file_ok _ _ _ Hd)).
  rewrite read_bytes_le. erewrite bind_ret by (unfold lift; by rewrite unpack_i_le_bytes).
  rewrite read_bytes_le. erewrite bind_ret by (unfold lift; by rewrite unpack_i_le_bytes).
  assert (Forall (fun l : list f32 => length l = Z.to_nat k) (dists_of ans)) as HF'
    by (apply Forall_fmap; eapply Forall_impl; [exact HF|]; intros a Ha; cbn beta in Ha; change (length a.*2 = Z.to_nat k); rewrite length_fmap; lia).
  assert (length (mjoin (dists_of ans)) = (length ans * Z.to_nat k)%nat) as Hl
    by (erewrite length_mjoin_rows by exact HF'; unfold dists_of; by rewrite length_fmap).
  assert (length (tobytes (dists_of ans)) = Z.to_nat (4 * Z.of_nat (length ans) * k)) as Hb.
  { unfold tobytes. erewrite length_mjoin_rows.
    2:{ apply Forall_fmap, Forall_forall. intros x _. cbn. apply f32_length. }
    rewrite length_fmap, Hl. nia. }
  unfold read_bytes. replace (4 * Z.of_nat (length ans) * k <? 0) with false by nia.
  rewrite take_ge by lia. rewrite frombuffer_tobytes. erewrite bind_ret by reflexivity.
  unfold reshape. rewrite Hl. replace (Z.of_nat (length ans * Z.to_nat k) =? Z.of_nat (length ans) * k) with true
    by (symmetry; apply Z.eqb_eq; nia).
  rewrite Nat2Z.id. rewrite <- (length_fmap (fun a : list neighbour => a.*2) ans) at 1. fold (dists_of ans). rewrite rows_of_mjoin by done.
  erewrite bind_ret by reflexivity.
  unfold lift. pose proof (merge_queries_ok B i k [] ans truth HF Hlen) as E. cbn [app length] in E. change (Z.of_nat 0) with 0 in E. by rewrite E.
Qed.
End merge_lemmas.

Section search_lemmas.
Context {num f32 : Type} `{!Numpy num} `{!Float32 f32} `{!Float32Laws f32}.
Context (index_search : string -> bool -> Z -> list (list num) -> list (list num) -> Z ->
                        outcome (list (list f32) * list (list Z))).
Abbreviation neighbour := (Z * f32)%type.

Lemma parts_differ i j : truth_part i <> dist_part j.
Proof. unfold truth_part, dist_part. done. Qed.

Lemma tobytes_app (D D' : list (list f32)) : tobytes (D ++ D') = (tobytes D ++ tobytes D')%list.
Proof. unfold tobytes. by rewrite join_app, fmap_app, join_app. Qed.

Lemma answers_text_cons ids rows : answers_text (ids :: rows) = ids_line ids ++ answers_text rows.
Proof.
  unfold answers_text. cbn [fmap list_fmap]. change (unlines (?x :: ?xs)) with ((x ++ newline) ++ unlines xs).
  by rewrite ids_line_text.
Qed.

Lemma answers_text_app r r' : answers_text (r ++ r')%list = answers_text r ++ answers_text r'.
Proof.
  induction r as [|x r IH]; [done|]. cbn [app]. rewrite !answers_text_cons, IH. by rewrite str_app_assoc.
Qed.

(** The two files of batch [i]. *)
Definition two_files (i : Z) (t d : list byte) (w : world) : world :=
  put_file (dist_part i) d (put_file (truth_part i) t w).

Lemma write_ids i rows t d w :
  for_each rows (fun ids => write_text (truth_part i) (ids_line ids)) (two_files i t d w) =
    (Ret tt, two_files i (t ++ bytes_of_str (answers_text rows))%list d w).
Proof.
  revert t. induction rows as [|r rows IH]; intros t; cbn [for_each].
  - change (bytes_of_str (answers_text [])) with (@nil byte). by rewrite app_nil_r.
  - unfold write_text at 1, two_files.
    erewrite bind_ret by (apply append_put_under, parts_differ).
    fold (two_files i (t ++ bytes_of_str (ids_line r))%list d w). rewrite IH, answers_text_cons, bytes_of_str_app.
    by rewrite app_assoc.
Qed.

Definition search_ok (c : config) (data : list (list num)) (q : list (list num)) (a : list (list neighbour)) : Prop :=
  index_search (metric c) (use_fp16 c) (cfg_dim c) data q (cfg_k c) = Ret (dists_of a, ids_of a).

Lemma search_queries c i data qs answers t d w :
  Forall2 (search_ok c data) qs answers ->
  for_each qs (fun query =>
    r ← lift (index_search (metric c) (use_fp16 c) (cfg_dim c) data query (cfg_k c));
    append_file (dist_part i) (tobytes r.1);;
    for_each r.2 (fun ids => write_text (truth_part i) (ids_line ids))) (two_files i t d w) =
  (Ret tt, two_files i (t ++ bytes_of_str (answers_text (ids_of (mjoin answers))))%list
                       (d ++ tobytes (dists_of (mjoin answers)))%list w).
Proof.
  intros HF. revert t d. induction HF as [|q a qs answers Hq HF IH]; intros t d; cbn [for_each].
  { change (ids_of (mjoin [])) with (@nil (list Z)). change (dists_of (mjoin [])) with (@nil (list f32)).
    change (bytes_of_str (answers_text [])) with (@nil byte). change (tobytes []) with (@nil byte).
    by rewrite !app_nil_r. }
  unfold search_ok in Hq. rewrite Hq.
  erewrite bind_ret.
  2:{ erewrite bind_ret by reflexivity. cbn [fst snd]. erewrite bind_ret by (apply append_put). apply write_ids. }
  rewrite IH. change (mjoin (a :: answers)) with (a ++ mjoin answers)%list.
  unfold ids_of, dists_of. rewrite !fmap_app, answers_text_app, bytes_of_str_app, tobytes_app.
  by rewrite !app_assoc.
Qed.

Lemma search_batch_ok c i data qs answers w (RQ := Z.of_nat (length (mjoin answers))) :
  Forall2 (search_ok c data) qs answers ->
  can_create w (truth_part i) = true -> can_create w (dist_part i) = true ->
  int32_range RQ = true -> int32_range (cfg_k c) = true ->
  search_batch index_search c RQ i data qs w =
    (Ret tt, two_files i (bytes_of_str (answers_text (ids_of (mjoin answers))))
               (default_file RQ (cfg_k c) (tobytes (dists_of (mjoin answers)))) w).
Proof.
  intros HF H1 H2 Hr Hk. unfold search_batch.
  erewrite bind_ret by by apply create_file_ok.
  erewrite bind_ret by by apply create_file_ok.
  unfold lift. rewrite !pack_i_ok by done.
  do 2 (erewrite bind_ret by reflexivity; erewrite bind_ret by apply append_put).
  pose proof (search_queries c i data qs answers [] (le_bytes 4 RQ ++ le_bytes 4 (cfg_k c))%list w HF) as E.
  unfold lift in E. unfold two_files in E at 1. cbn [app] in *. rewrite E. by rewrite <- app_assoc.
Qed.

Lemma two_files_hold c i k (ans : list (list neighbour)) w :
  k = cfg_k c ->
  holds_answers (two_files i (bytes_of_str (answers_text (ids_of ans)))
    (default_file (Z.of_nat (length ans)) (cfg_k c) (tobytes (dists_of ans))) w) k i ans.
Proof.
  intros ->. unfold holds_answers, two_files. rewrite !fs_put, decide_False, decide_True by (done || apply not_eq_sym, parts_differ).
  split; [done|]. by rewrite decide_True.
Qed.
End search_lemmas.

Lemma zip_with_fmap_same {A B C D} (f : B -> C -> D) (g : A -> B) (h : A -> C) (l : list A) :
  zip_with f (g <$> l) (h <$> l) = (fun x => f (g x) (h x)) <$> l.
Proof. induction l as [|x l IH]; [done|]. cbn. by f_equal. Qed.

Section merge_all.
Context {f32 : Type} `{!Float32 f32} `{!Float32Laws f32}.
Abbreviation neighbour := (Z * f32)%type.
(** [cand i j]: id and distance of every vector of batch [i] for query [j]. *)
Context (w : world) (B k : Z) (RQ : nat) (cand : nat -> nat -> list neighbour).

Definition batch_answers (i : nat) : list (list neighbour) := (fun j => topn k (cand i j)) <$> seq 0 RQ.
Definition shifted (j i : nat) : list neighbour := shift B (1 + Z.of_nat i) <$> cand i j.

Lemma merge_batches_run (is' : list nat) (T : nat -> list neighbour) :
  Forall (fun i => holds_answers w k (1 + Z.of_nat i) (batch_answers i)) is' ->
  Forall (fun i => forall j, k <= Z.of_nat (length (cand i j))) is' ->
  int32_range (Z.of_nat RQ) = true -> int32_range k = true -> 0 <= k ->
  merge_batches B (Z.of_nat RQ) k ((fun i => 1 + Z.of_nat i) <$> is') (T <$> seq 0 RQ) w =
    (Ret ((fun j => TopK.merge_all key_le (Z.to_nat k) (T j) ((fun i => topn k (shifted j i)) <$> is')) <$> seq 0 RQ), w).
Proof.
  intros HF Hk Hr Hk' Hk0. revert T. induction HF as [|i is' Hi HF IH]; intros T; [done|].
  apply Forall_cons in Hk as [Hki Hk]. cbn [fmap list_fmap merge_batches].
  assert (length (batch_answers i) = RQ) as Hlen by (unfold batch_answers; by rewrite length_fmap, length_seq).
  assert (Forall (fun a => Z.of_nat (length a) = k) (batch_answers i)) as Hrow.
  { apply Forall_fmap, Forall_forall. intros j _. cbn. unfold topn. rewrite length_topk. specialize (Hki j). lia. }
  pose proof (merge_batch_ok w B k (1 + Z.of_nat i) (batch_answers i) (T <$> seq 0 RQ) Hi Hrow) as E.
  rewrite Hlen in E. rewrite length_fmap, length_seq in E. specialize (E eq_refl Hr Hk' Hk0).
  rewrite (bind_ret _ _ _ _ _ E). unfold batch_answers. rewrite zip_with_fmap_same.
  rewrite (IH Hk). do 2 f_equal. apply list_fmap_ext. intros x j _. cbn. do 2 f_equal. unfold topn, shifted.
  symmetry. f_equal. exact (topk_fmap key_le (shift B _) (Z.to_nat k) (cand i j) (shift_mono B _)).
Qed.

(** C2: the merge phase is exact. When the files of the [m] batches hold, for
    every query, the [k] nearest of the batch (by distance, then id), the
    merged answer of a query is the [k] nearest of all vectors, each with its
    batch's offset [B * i] added to its id. *)
Theorem merge_batches_exact (m : nat) :
  (forall i, (i < m)%nat -> holds_answers w k (1 + Z.of_nat i) (batch_answers i)) ->
  (forall i j, (i < m)%nat -> k <= Z.of_nat (length (cand i j))) ->
  int32_range (Z.of_nat RQ) = true -> int32_range k = true -> 0 <= k ->
  merge_batches B (Z.of_nat RQ) k (py_range 1 (Z.of_nat m + 1)) (replicate RQ []) w =
    (Ret ((fun j => topn k (mjoin (shifted j <$> seq 0 m))) <$> seq 0 RQ), w).
Proof.
  intros Hw Hlen Hr Hk Hk0.
  replace (replicate RQ []) with ((fun _ : nat => @nil neighbour) <$> seq 0 RQ)
    by (clear; generalize 0%nat; induction RQ as [|n IH]; intros a; cbn; [done|by rewrite IH]).
  replace (py_range 1 (Z.of_nat m + 1)) with ((fun i => 1 + Z.of_nat i) <$> seq 0 m)
    by (unfold py_range; do 2 f_equal; lia).
  rewrite merge_batches_run; try done.
  - do 2 f_equal. apply list_fmap_ext. intros x j _. cbn.
    rewrite (merge_all_topk key_le (Z.to_nat k) [] _ (shifted j <$> seq 0 m)); [done| |unfold topk; symmetry; apply take_nil].
    unfold topn. generalize (seq 0 m). intros l. induction l as [|i l IH]; constructor; done.
  - apply Forall_forall. intros i Hi%elem_of_seq. apply Hw. lia.
  - apply Forall_forall. intros i Hi%elem_of_seq j. apply Hlen. lia.
Qed.
End merge_all.

Section search_props.
Context {num f32 : Type} `{!Numpy num} `{!Float32 f32} `{!Float32Laws f32}.
Context (index_search : string -> bool -> Z -> list (list num) -> list (list num) -> Z ->
                        outcome (list (list f32) * list (list Z))).

(** What the search of a batch writes is what the merge phase reads:
    [search_batch] ends, and then the batch's two files hold the answers of the index, one row
    per query over all query batches, and no other file has changed. *)
Theorem search_batch_holds c i data qs answers w :
  Forall2 (search_ok index_search c data) qs answers ->
  can_create w (truth_part i) = true -> can_create w (dist_part i) = true ->
  int32_range (Z.of_nat (length (mjoin answers))) = true -> int32_range (cfg_k c) = true ->
  exists w', search_batch index_search c (Z.of_nat (length (mjoin answers))) i data qs w = (Ret tt, w') /\
    holds_answers w' (cfg_k c) i (mjoin answers) /\
    forall p, p <> truth_part i -> p <> dist_part i -> fs w' !! p = fs w !! p.
Proof.
  intros HF H1 H2 Hr Hk. eexists. split; [by apply search_batch_ok|]. split; [by apply two_files_hold|].
  intros p Ht Hd. unfold two_files. by rewrite !fs_put, !decide_False by congruence.
Qed.
End search_props.

Lemma prefix_app_same (a b c : string) : String.prefix (a ++ b) (a ++ c) = String.prefix b c.
Proof. induction a as [|x a IH]; [done|]. cbn. by destruct (ascii_dec x x). Qed.

(** On a POSIX system the distances are never written into the directory
    that was made for them: the path is built with a backslash, which makes it
    the name of a file beside the truth file. *)
Theorem dist_out_outside_dir c : under (output_truth c ++ ".dist") (dist_out c) = false.
Proof.
  unfold under, startswith, dist_out. rewrite str_app_assoc. rewrite prefix_app_same. reflexivity.
Qed.

Section cosine.
Context {f32 : Type} `{!Float32 f32} `{!Float32Laws f32}.

(** The merge keeps the least values whatever the distance type. With
    [--D Cosine] the index returns inner products (greater is nearer), so of
    the best answers of two batches the merged truth keeps the worse one. *)
Theorem cosine_merge_keeps_less_similar B i items dists (x y : Z * f32) :
  extend_query B i 1 items dists = Ret [y] ->
  f32_leb y.2 x.2 = true -> f32_leb x.2 y.2 = false ->
  merge_query B i 1 items dists [x] = Ret [y].
Proof.
  intros E H1 H2. unfold merge_query. rewrite E. cbn [mbind outcome_bind]. f_equal.
  change (take (Z.to_nat 1) (merge_sort key_le ([x] ++ [y])%list)) with (take 1 (sort key_le [x; y])).
  rewrite (sort_unique key_le [x; y] [y; x]); [done| |apply Permutation_swap].
  repeat constructor. apply key_le_spec. split; [done|]. congruence.
Qed.
End cosine.

(** ** Witnesses: distances of one byte *)

#[export] Instance byte_f32 : Float32 byte := {
  f32_bytes := fun b => [b; Byte.x00; Byte.x00; Byte.x00];
  f32_of_bytes := fun l => hd Byte.x00 l;
  f32_leb := fun x y => Z_of_byte x <=? Z_of_byte y
}.

#[export] Instance byte_f32_laws : Float32Laws byte.
Proof.
  split; cbn; try done; intros.
  - lia.
  - lia.
  - rewrite <- (byte_of_Z_of_byte x), <- (byte_of_Z_of_byte y). f_equal. lia.
Qed.

Definition two_cands (i j : nat) : list (Z * byte) :=
  match i with O => [(0, Byte.x05); (1, Byte.x02)] | _ => [(0, Byte.x03); (1, Byte.x01)] end.

Definition parts_world : world :=
  World {[ "truth.txt.1" := bytes_of_str ("1 " ++ newline); "truth.txt.2" := bytes_of_str ("1 " ++ newline);
           "dist.bin.1" := default_file 1 1 [Byte.x02; Byte.x00; Byte.x00; Byte.x00];
           "dist.bin.2" := default_file 1 1 [Byte.x01; Byte.x00; Byte.x00; Byte.x00] ]} ∅ [].

Lemma merge_batches_exact_witness :
  merge_batches (f32 := byte) 2 1 1 (py_range 1 3) [[]] parts_world = (Ret [[(3, Byte.x01)]], parts_world).
Proof.
  refine (merge_batches_exact parts_world 2 1 1 two_cands 2 _ _ eq_refl eq_refl _).
  - intros [|[|i]] Hi; [split; reflexivity..|lia].
  - intros [|[|i]] j Hi; cbn; lia.
  - lia.
Defined.

Definition one_search (_ : string) (_ : bool) (_ : Z) (_ _ : list (list Z)) (_ : Z)
    : outcome (list (list byte) * list (list Z)) := Ret ([[Byte.x05]], [[7]]).

Lemma search_batch_holds_witness :
  exists w', search_batch one_search get_config 1 1 [[1]] [[[1]]] (World ∅ ∅ []) = (Ret tt, w') /\
    holds_answers w' 32 1 [[(7, Byte.x05)]] /\
    forall p, p <> truth_part 1 -> p <> dist_part 1 -> fs w' !! p = fs (World ∅ ∅ []) !! p.
Proof.
  apply (search_batch_holds one_search get_config 1 [[1]] [[[1]]] [[[(7, Byte.x05)]]] (World ∅ ∅ [])); try reflexivity.
  repeat constructor.
Defined.

Lemma cosine_merge_keeps_less_similar_witness :
  merge_query 10 2 1 ["4"] [Byte.x01] [(3, Byte.x09)] = Ret [(14, Byte.x01)].
Proof. apply (cosine_merge_keeps_less_similar 10 2 ["4"] [Byte.x01] (3, Byte.x09) (14, Byte.x01)); reflexivity. Defined.
