(* ===== verification/GroundTruth.v ===== *)
(** * [gpusearch] from the vector files to the truth file

    The phases of [gpusearch] (GpuSearch.v) composed with the readers
    (DataReader.v). [nearest] is what an exact search promises, with any
    choice among vectors at the same distance; [FlatL2] states that promise
    for the flat index of faiss, and the final theorem shows that the files
    [gpusearch] writes keep it for the whole data file, however the data and
    the queries are cut into batches. *)

From Stdlib Require Import Ascii.
From S2P Require Import Prelude PyStr PyFloat PyBytes PyIO Datasets TopK DataReader GpuSearch.

Open Scope string_scope.
Open Scope Z_scope.

(** ** The [k] nearest, ties broken in any way *)

Section nearest.
Context {f32 : Type} `{!Float32 f32} `{!Float32Laws f32}.
Abbreviation neighbour := (Z * f32)%type.
Implicit Types (c a t : list neighbour) (k : nat).

Definition f32_le (x y : f32) : Prop := f32_leb x y = true.
#[export] Instance f32_le_dec x y : Decision (f32_le x y) := decide (f32_leb x y = true).
#[export] Instance f32_le_trans : Transitive f32_le.
Proof. intros x y z. apply f32_trans. Qed.
#[export] Instance f32_le_total : Total f32_le.
Proof. intros x y. apply f32_total. Qed.
#[export] Instance f32_le_antisym : AntiSymm (=) f32_le.
Proof. intros x y. apply f32_antisym. Qed.

(** [a] holds [k] of the candidates [c] (all, if there are fewer), and their
    distances are the [k] least, in order. *)
Definition nearest k c a : Prop := a ⊆+ c /\ a.*2 = topk f32_le k c.*2.

Lemma snd_sort c : (sort key_le c).*2 = sort f32_le c.*2.
Proof.
  symmetry. apply (sort_unique f32_le); [|apply fmap_Permutation, sort_perm].
  pose proof (sort_sorted key_le c) as Hs. induction Hs as [|x xs Hs IH HF]; cbn; constructor; [done|].
  apply Forall_fmap. eapply Forall_impl; [exact HF|]. intros y [H _]%key_le_spec. exact H.
Qed.

Lemma topk_nearest k c : nearest k c (topk key_le k c).
Proof.
  split.
  - unfold topk. etrans; [apply sublist_submseteq, sublist_take|]. by apply Permutation_submseteq, (sort_perm key_le).
  - unfold topk. by rewrite fmap_take, snd_sort.
Qed.

Lemma nearest_nil k : nearest k [] [].
Proof. split; [done|]. symmetry. apply take_nil. Qed.

Lemma nearest_length k c a : nearest k c a -> (k <= length c)%nat -> length a = k.
Proof.
  intros [_ H] Hk. rewrite <- (length_fmap snd a), H, length_topk, length_fmap. lia.
Qed.

(** One step of the merge: answers for two collections give one for both. *)
Lemma nearest_app k c1 c2 t a :
  nearest k c1 t -> nearest k c2 a -> nearest k (c1 ++ c2) (topk key_le k (t ++ a)).
Proof.
  intros [H1 E1] [H2 E2]. destruct (topk_nearest k (t ++ a)) as [H3 E3]. split.
  - etrans; [exact H3|]. by apply submseteq_app.
  - by rewrite E3, !fmap_app, E1, E2, (topk_app f32_le), (topk_app_r f32_le).
Qed.

Lemma snd_shift B i c : (shift B i <$> c).*2 = c.*2.
Proof. by rewrite <- list_fmap_compose. Qed.

Lemma nearest_shift k B i c a : nearest k c a -> nearest k (shift B i <$> c) (shift B i <$> a).
Proof. intros [H1 H2]. split; [by apply fmap_submseteq|]. by rewrite !snd_shift. Qed.
End nearest.

(** ** The candidates of a query: every vector with its number *)
Section cands.
Context {num f32 : Type} (dist : list num -> list num -> f32).
Implicit Types (q : list num) (V : list (list num)).

Definition cands q V : list (Z * f32) := imap (fun i v => (Z.of_nat i, dist q v)) V.

Lemma length_cands q V : length (cands q V) = length V.
Proof. apply length_imap. Qed.

(** A batch that starts at vector [B * (i - 1)]. *)
Lemma cands_app q V V' B i :
  B * (i - 1) = Z.of_nat (length V) -> cands q (V ++ V') = (cands q V ++ (shift B i <$> cands q V'))%list.
Proof.
  intros HB. unfold cands. rewrite imap_app. f_equal. rewrite fmap_imap. apply imap_ext.
  intros j v _. cbn. unfold shift. cbn. f_equal. lia.
Qed.

Lemma elem_of_cands q V i d : (i, d) ∈ cands q V <-> 0 <= i /\ exists v, V !! Z.to_nat i = Some v /\ d = dist q v.
Proof.
  unfold cands. rewrite elem_of_lookup_imap. split.
  - intros (n & v & E & Hv). simplify_eq. rewrite Nat2Z.id. split; [lia|eauto].
  - intros (Hi & v & Hv & ->). exists (Z.to_nat i), v. split; [|done]. f_equal. lia.
Qed.
End cands.

(** ** What faiss promises

    A flat L2 index over [V] that is asked for at most as many neighbours as
    it has vectors answers every query exactly, nearest first. Which of
    several vectors at the same distance it names is not specified. *)
Class FlatL2 {num f32 : Type} `{!Float32 f32} `{!Float32Laws f32}
    (index_search : string -> bool -> Z -> list (list num) -> list (list num) -> Z ->
                    outcome (list (list f32) * list (list Z)))
    (dist : bool -> list num -> list num -> f32) : Prop :=
  flat_l2 : forall fp16 dim V qs k,
    0 < k <= Z.of_nat (length V) ->
    Forall (fun v => Z.of_nat (length v) = dim) V -> Forall (fun q => Z.of_nat (length q) = dim) qs ->
    exists ans, index_search "L2" fp16 dim V qs k = Ret (dists_of ans, ids_of ans) /\
      Forall2 (fun q a => nearest (Z.to_nat k) (cands (dist fp16) q V) a) qs ans.

(** ** The merge, for answers with any choice among ties *)
Section merge_nearest.
Context {num f32 : Type} `{!Float32 f32} `{!Float32Laws f32}.
Context (dist : list num -> list num -> f32) (k : Z) (Q : list (list num)).
Hypothesis Hk : 0 <= k.
Hypothesis Hk32 : int32_range k = true.
Hypothesis HQ32 : int32_range (Z.of_nat (length Q)) = true.
Implicit Types (V : list (list num)) (w : world) (ans truth : list (list (Z * f32))).

(** One row per query: an answer for the vectors [V]. *)
Definition answers V ans : Prop := Forall2 (fun q a => nearest (Z.to_nat k) (cands dist q V) a) Q ans.

Lemma answers_length V ans : answers V ans -> length ans = length Q.
Proof. intros H. symmetry. exact (Forall2_length _ _ _ H). Qed.

Lemma answers_rows V ans : answers V ans -> k <= Z.of_nat (length V) -> Forall (fun a => Z.of_nat (length a) = k) ans.
Proof.
  intros H HV. eapply Forall2_Forall_r; [exact H|]. apply Forall_forall. intros q _ a Ha.
  apply nearest_length in Ha; [lia|]. rewrite length_cands. lia.
Qed.

Lemma answers_merge B i V V' truth ans :
  B * (i - 1) = Z.of_nat (length V) -> answers V truth -> answers V' ans ->
  answers (V ++ V') (zip_with (fun t a => topn k (t ++ (shift B i <$> a))%list) truth ans).
Proof.
  unfold answers. intros HB H. clear HQ32. revert ans. induction H as [|q t Q0 truth0 Ht H IH]; intros ans Ha.
  { inversion_clear Ha. constructor. }
  inversion_clear Ha. cbn [zip_with]. constructor; [|by apply IH].
  erewrite cands_app by exact HB. apply nearest_app; [done|]. by apply nearest_shift.
Qed.

(** Batch [i + x] has its answers in its two files. *)
Definition batches_hold w (i : Z) (Vs : list (list (list num))) : Prop :=
  forall x V, Vs !! x = Some V -> exists ans, holds_answers w k (i + Z.of_nat x) ans /\ answers V ans.

Lemma batches_hold_cons w i V Vs :
  batches_hold w i (V :: Vs) <->
    (exists ans, holds_answers w k i ans /\ answers V ans) /\ batches_hold w (i + 1) Vs.
Proof.
  split.
  - intros H. split; [|intros x V' Hx].
    + destruct (H 0%nat V eq_refl) as (ans & H1 & H2). rewrite Z.add_0_r in H1. eauto.
    + destruct (H (S x) V' Hx) as (ans & H1 & H2). exists ans. split; [|done].
      by replace (i + 1 + Z.of_nat x) with (i + Z.of_nat (S x)) by lia.
  - intros [(ans & H1 & H2) H] [|x] V' Hx; cbn in Hx; simplify_eq.
    + rewrite Z.add_0_r. eauto.
    + replace (i + Z.of_nat (S x)) with (i + 1 + Z.of_nat x) by lia. by apply H.
Qed.

Lemma merge_batches_nearest w B Vs i V truth :
  batches_hold w i Vs -> Forall (fun b => k <= Z.of_nat (length b)) Vs ->
  (forall x, (x < length Vs)%nat -> B * (i + Z.of_nat x - 1) = Z.of_nat (length V + length (mjoin (take x Vs)))) ->
  answers V truth ->
  exists truth', merge_batches B (Z.of_nat (length Q)) k (py_range i (i + Z.of_nat (length Vs))) truth w =
    (Ret truth', w) /\ answers (V ++ mjoin Vs) truth'.
Proof.
  revert i V truth. induction Vs as [|V' Vs IH]; intros i V truth HH Hlen HB Ht.
  { exists truth. cbn [length]. rewrite Z.add_0_r. unfold py_range. rewrite Z.sub_diag. cbn. by rewrite app_nil_r. }
  apply batches_hold_cons in HH as [(ans & Hans & Ha) HH]. apply Forall_cons in Hlen as [HV' Hlen].
  rewrite py_range_cons by (cbn [length]; lia). cbn [merge_batches].
  pose proof (answers_length _ _ Ha) as Hla. pose proof (answers_length _ _ Ht) as Hlt.
  pose proof (merge_batch_ok w B k i ans truth Hans (answers_rows _ _ Ha HV')) as E. rewrite Hla in E.
  rewrite (bind_ret _ _ _ _ _ (E ltac:(lia) HQ32 Hk32 Hk)).
  assert (B * (i - 1) = Z.of_nat (length V)) as HB0.
  { specialize (HB 0%nat ltac:(cbn; lia)). rewrite Z.add_0_r in HB. cbn in HB. by rewrite Nat.add_0_r in HB. }
  destruct (IH (i + 1) (V ++ V')%list (zip_with (fun t a => topn k (t ++ (shift B i <$> a))%list) truth ans))
    as (truth' & E' & Ht'); [done|done| |by apply answers_merge|].
  - intros x Hx. specialize (HB (S x) ltac:(cbn; lia)). cbn [take] in HB.
    change (mjoin (V' :: take x Vs)) with (V' ++ mjoin (take x Vs))%list in HB. rewrite !length_app in *. lia.
  - exists truth'. split.
    + replace (i + Z.of_nat (length (V' :: Vs))) with (i + 1 + Z.of_nat (length Vs)) by (cbn [length]; lia). done.
    + change (mjoin (V' :: Vs)) with (V' ++ mjoin Vs)%list. by rewrite app_assoc.
Qed.
End merge_nearest.

(** ** The search phase *)

Lemma truth_part_inj i j : truth_part i = truth_part j -> i = j.
Proof. unfold truth_part. intros H%str_app_inj_r. by apply str_of_Z_inj. Qed.

Lemma dist_part_inj i j : dist_part i = dist_part j -> i = j.
Proof. unfold dist_part. intros H%str_app_inj_r. by apply str_of_Z_inj. Qed.

(** Batches of [n] out of [m] vectors all have room for [k] answers. *)
Definition roomy (k n m : nat) : Prop := (k <= n)%nat /\ ((m mod n = 0)%nat \/ (k <= m mod n)%nat).

Lemma roomy_first k n m : (0 < m)%nat -> (0 < n)%nat -> roomy k n m -> (k <= min n m)%nat.
Proof.
  intros Hm Hn [Hk Hr]. destruct (decide (n <= m)%nat); [lia|]. rewrite Nat.mod_small in Hr by lia. lia.
Qed.

Lemma roomy_next k n m : (0 < n)%nat -> roomy k n m -> roomy k n (m - n).
Proof.
  intros Hn [Hk Hr]. split; [done|]. destruct (decide (n <= m)%nat) as [Hle|Hgt].
  - replace m with (m - n + 1 * n)%nat in Hr by lia. by rewrite Nat.Div0.mod_add in Hr.
  - replace (m - n)%nat with 0%nat by lia. left. apply Nat.Div0.mod_0_l.
Qed.

Lemma batched_take {A} n (l : list A) data :
  (0 < n)%nat -> l <> [] -> batched n (drop n l) data -> batched n l (take n l :: data).
Proof.
  intros Hn Hl Hb. destruct (decide (n <= length l)%nat); [by apply batched_cons|].
  rewrite drop_ge in Hb by lia. destruct Hb as (Hj & HF & _).
  assert (data = []) as ->.
  { destruct data as [|[|x b] data]; [done| |done]. apply Forall_cons in HF as [HF _]. cbn in HF. lia. }
  rewrite take_ge by lia. pose proof (batched_short n l ltac:(lia)) as Hs. by rewrite decide_False in Hs.
Qed.

Section search_phase.
Context {num f32 : Type} `{!Numpy num} `{!Float32 f32} `{!Float32Laws f32}.
Context (index_search : string -> bool -> Z -> list (list num) -> list (list num) -> Z ->
                        outcome (list (list f32) * list (list Z))).
Context (dist : bool -> list num -> list num -> f32) `{!FlatL2 index_search dist}.
Context (c : config) (dataQ : list (list (list num))) (Q : list (list num)).
Hypothesis HQ : mjoin dataQ = Q.
Hypothesis HQd : Forall (fun q => Z.of_nat (length q) = cfg_dim c) Q.
Hypothesis HD : cfg_D c <> "Cosine".
Hypothesis Hk : 0 < cfg_k c.
Hypothesis Hk32 : int32_range (cfg_k c) = true.
Hypothesis HQ32 : int32_range (Z.of_nat (length Q)) = true.
Implicit Types (s : reader num) (w : world) (V : list (list num)).

Abbreviation kk := (Z.to_nat (cfg_k c)).
Abbreviation answers := (answers (dist (use_fp16 c)) (cfg_k c) Q).
Abbreviation batches_hold := (batches_hold (dist (use_fp16 c)) (cfg_k c) Q).

Lemma metric_l2 : metric c = "L2".
Proof. unfold metric. by rewrite bool_decide_false. Qed.

Lemma search_all V :
  (kk <= length V)%nat -> Forall (fun v => Z.of_nat (length v) = cfg_dim c) V ->
  exists anss, Forall2 (search_ok index_search c V) dataQ anss /\ answers V (mjoin anss).
Proof.
  intros HV Hd. unfold GroundTruth.answers. rewrite <- HQ in *. clear HQ HQ32. 
  induction dataQ as [|qs dQ IH]; [by exists []|].
  change (mjoin (qs :: dQ)) with (qs ++ mjoin dQ)%list in *. apply Forall_app in HQd as [Hqs HdQ].
  destruct (IH HdQ) as (anss & H1 & H2).
  destruct (flat_l2 (use_fp16 c) (cfg_dim c) V qs (cfg_k c) ltac:(lia) Hd Hqs) as (a & Ea & Ha).
  exists (a :: anss). split.
  - constructor; [|done]. unfold search_ok. by rewrite metric_l2.
  - change (mjoin (a :: anss)) with (a ++ mjoin anss)%list. by apply Forall2_app.
Qed.

Definition parts_creatable w : Prop :=
  forall i, can_create w (truth_part i) = true /\ can_create w (dist_part i) = true.

Lemma parts_creatable_intro w : (forall i, (truth_part i ∉ dirs w) /\ (dist_part i ∉ dirs w)) -> parts_creatable w.
Proof.
  intros H i. destruct (H i) as [Ht Hp]. unfold can_create.
  rewrite !dirname_no_slash by (unfold truth_part, dist_part; rewrite all_chars_app, str_of_Z_no_slash; done).
  by rewrite (bool_decide_false _ Ht), (bool_decide_false _ Hp).
Qed.

Lemma search_one V i w :
  (kk <= length V)%nat -> Forall (fun v => Z.of_nat (length v) = cfg_dim c) V -> parts_creatable w ->
  exists w', search_batch index_search c (Z.of_nat (length Q)) i V dataQ w = (Ret tt, w') /\
    (exists ans, holds_answers w' (cfg_k c) i ans /\ answers V ans) /\ dirs w' = dirs w /\
    forall p, p <> truth_part i -> p <> dist_part i -> fs w' !! p = fs w !! p.
Proof.
  intros HV Hd Hc. destruct (search_all V HV Hd) as (anss & H1 & H2).
  pose proof (answers_length _ _ _ _ _ H2) as Hl. destruct (Hc i) as [Hc1 Hc2].
  pose proof (search_batch_ok index_search c i V dataQ anss w H1 Hc1 Hc2) as E. rewrite Hl in E.
  eexists. split; [by apply E|]. split; [|split; [done|]].
  - exists (mjoin anss). split; [|done]. rewrite <- Hl. by apply two_files_hold.
  - intros p Ht Hp. unfold two_files. by rewrite !fs_put, !decide_False by congruence.
Qed.

Lemma at_records_drop s s' sz recs (n := length (query s)) :
  at_records s sz recs [] -> same_setup s s' -> r_bin s' = fin_after n recs [] -> at_records s' sz (drop n recs) [].
Proof.
  intros (Hb & Hsz & Hsp & Hd & Hr & HF & Ht) (H1 & H2 & H3 & H4 & H5 & H6) Hfin.
  unfold at_records. rewrite H2, H3, H4. split_and!; try done; [|by apply Forall_drop].
  rewrite Hfin. unfold fin_after. case_bool_decide; [done|]. by rewrite drop_ge by lia.
Qed.

Lemma holds_frame w w' i ans :
  holds_answers w (cfg_k c) i ans -> (forall p, p = truth_part i \/ p = dist_part i -> fs w' !! p = fs w !! p) ->
  holds_answers w' (cfg_k c) i ans.
Proof. intros [H1 H2] H. split; rewrite H; auto. Qed.

(** The files of the batches after [b] are the only ones that change. *)
Definition changes_after (b : Z) w w' : Prop :=
  dirs w' = dirs w /\
  forall p, (forall i, b < i -> p <> truth_part i /\ p <> dist_part i) -> fs w' !! p = fs w !! p.

Lemma search_batches_ok fuel s sz recs w batch total (n := length (query s)) :
  at_records s sz recs [] -> (0 < n)%nat -> roomy kk n (length recs) ->
  Forall (fun r => Z.of_nat (length (deliver s r)) = cfg_dim c) recs ->
  parts_creatable w -> (length recs < fuel)%nat ->
  exists Vs w', search_batches index_search fuel c (Z.of_nat (length Q)) dataQ s batch total w =
      (Ret (batch + Z.of_nat (length Vs), total + Z.of_nat (length recs)), w') /\
    batched n (deliver s <$> recs) Vs /\ Forall (fun V => cfg_k c <= Z.of_nat (length V)) Vs /\
    batches_hold w' (batch + 1) Vs /\ changes_after batch w w'.
Proof.
  subst n. revert s recs w batch total. induction fuel as [|fuel IH]; intros s recs w batch total Hat Hn Hr Hd Hc Hf; [lia|].
  destruct (readbatch_binary s sz recs [] Hat) as (s1 & E & Hsame & Hfin).
  cbn [search_batches]. rewrite E, length_take.
  destruct (decide (recs = [])) as [->|Hne].
  { exists [], w. cbn [length]. rewrite Nat.min_0_r, !Z.add_0_r. split_and!; try done. }
  assert (0 < length recs)%nat as Hm by (destruct recs; [done|cbn; lia]).
  rewrite (proj2 (Z.eqb_neq _ 0)) by lia.
  pose proof (roomy_first _ _ _ Hm Hn Hr) as Hmin.
  set (V := deliver s <$> take (length (query s)) recs).
  assert (length V = (length (query s) `min` length recs)%nat) as HlV by (subst V; by rewrite length_fmap, length_take).
  destruct (search_one V (batch + 1) w) as (w1 & E1 & H1 & Hd1 & Hf1); [lia|by apply Forall_fmap, Forall_take|done|].
  rewrite (bind_ret _ _ _ _ _ E1).
  assert (length (query s1) = length (query s)) as Hq by (destruct Hsame as (_ & _ & _ & _ & _ & Hnq); unfold numQuerys in Hnq; lia).
  destruct (IH s1 (drop (length (query s)) recs) w1 (batch + 1) (total + Z.of_nat (length (query s) `min` length recs)))
    as (Vs & w2 & E2 & Hb2 & Hk2 & Hh2 & Hd2 & Hf2).
  - by apply (at_records_drop s).
  - lia.
  - rewrite Hq, length_drop. by apply roomy_next.
  - apply Forall_drop. eapply Forall_impl; [exact Hd|]. intros r Hrr. cbn in *. by rewrite (deliver_same s).
  - intros i. unfold can_create. rewrite Hd1. apply Hc.
  - rewrite length_drop. lia.
  - exists (V :: Vs), w2. split_and!.
    + rewrite E2, length_drop. cbn [length]. do 3 f_equal; lia.
    + subst V. rewrite fmap_take. apply batched_take; [done|by destruct recs|].
      rewrite Hq, fmap_drop in Hb2. erewrite list_fmap_ext; [exact Hb2|]. intros j x _. symmetry. by apply deliver_same.
    + constructor; [lia|done].
    + apply batches_hold_cons. split; [|done]. destruct H1 as (ans & Ha & Hans). exists ans. split; [|done].
      eapply holds_frame; [exact Ha|]. intros p Hp. apply Hf2. intros i Hi.
      destruct Hp as [-> | ->]; split; intros Heq; try (by apply parts_differ in Heq); try (by symmetry in Heq; apply parts_differ in Heq).
      * apply truth_part_inj in Heq. lia.
      * apply dist_part_inj in Heq. lia.
    + split; [congruence|]. intros p Hp. rewrite Hf2, Hf1; [done|by apply Hp; lia..|]. intros i Hi. apply Hp. lia.
Qed.
End search_phase.

(** ** The output *)

Lemma str_app_ne (a b : string) : b <> "" -> a <> a ++ b.
Proof. intros Hb H. rewrite <- (str_app_nil_r a) in H at 1. by apply str_app_inj_r in H. Qed.

Lemma can_create_dir w p d o :
  can_create w p = true -> p <> d -> can_create (World (fs w) ({[d]} ∪ dirs w) o) p = true.
Proof.
  unfold can_create. cbn [dirs]. intros [H1 H2%negb_true_iff]%andb_prop Hne. apply bool_decide_eq_false in H2.
  rewrite (bool_decide_false (p ∈ _)) by set_solver. rewrite andb_true_r.
  apply orb_prop in H1 as [->|H1]; [done|]. apply bool_decide_eq_true in H1.
  rewrite bool_decide_true by set_solver. apply orb_true_r.
Qed.

Section output.
Context {f32 : Type} `{!Float32 f32}.
Context (c : config).
Implicit Types (row : list (Z * f32)) (truth : list (list (Z * f32))) (w : world).

(** A neighbour in the file of distances: its id and its distance. *)
Definition pair_bytes (x : Z * f32) : list byte := (le_bytes 4 x.1 ++ f32_bytes x.2)%list.
Definition pairs_bytes truth : list byte := mjoin (pair_bytes <$> mjoin truth).

Definition out_files (t d : list byte) w : world := put_file (dist_out c) d (put_file (output_truth c) t w).

Lemma out_files_differ : output_truth c <> dist_out c.
Proof. unfold dist_out. by apply str_app_ne. Qed.

Lemma write_pairs row t d w :
  Forall (fun x => int32_range x.1 = true) row ->
  for_each row (write_neighbour c) (out_files t d w) =
    (Ret tt, out_files (t ++ bytes_of_str (ids_text row.*1))%list (d ++ mjoin (pair_bytes <$> row))%list w).
Proof.
  intros HF. revert t d. induction HF as [|x row Hx HF IH]; intros t d; cbn [for_each].
  { change (bytes_of_str (ids_text [].*1)) with (@nil byte). cbn [fmap list_fmap mjoin list_join]. by rewrite !app_nil_r. }
  unfold out_files at 1. erewrite bind_ret.
  2:{ unfold write_neighbour, write_text. erewrite bind_ret by (apply append_put_under, out_files_differ). unfold lift. rewrite pack_i_ok by done.
      erewrite bind_ret by reflexivity. erewrite bind_ret by apply append_put. apply append_put. }
  fold (out_files (t ++ bytes_of_str (str_of_Z x.1 ++ " "))%list ((d ++ le_bytes 4 x.1) ++ f32_bytes x.2)%list w).
  rewrite IH. f_equal. unfold out_files. f_equal.
  - change (mjoin (pair_bytes <$> x :: row)) with (pair_bytes x ++ mjoin (pair_bytes <$> row))%list.
    unfold pair_bytes. by rewrite <- !app_assoc.
  - change (ids_text (x :: row).*1) with (str_of_Z x.1 ++ " " ++ ids_text row.*1).
    by rewrite <- str_app_assoc, (bytes_of_str_app (_ ++ _)), app_assoc.
Qed.

Definition row_ok row : Prop := Z.of_nat (length row) = cfg_k c /\ Forall (fun x => int32_range x.1 = true) row.

Lemma write_rows truth t d w :
  Forall row_ok truth ->
  for_each truth (fun row =>
    for_each (py_range 0 (cfg_k c)) (fun j => x ← lift (py_index row j); write_neighbour c x);;
    write_text (output_truth c) newline) (out_files t d w) =
  (Ret tt, out_files (t ++ bytes_of_str (answers_text (ids_of truth)))%list (d ++ pairs_bytes truth)%list w).
Proof.
  intros HF. revert t d. induction HF as [|row truth [Hl Hx] HF IH]; intros t d; cbn [for_each].
  { change (bytes_of_str (answers_text (ids_of []))) with (@nil byte). change (pairs_bytes []) with (@nil byte).
    by rewrite !app_nil_r. }
  erewrite bind_ret.
  2:{ rewrite <- Hl. erewrite bind_ret by (rewrite for_each_index; by apply write_pairs).
      unfold write_text, out_files. apply append_put_under, out_files_differ. }
  fold (out_files ((t ++ bytes_of_str (ids_text row.*1)) ++ bytes_of_str newline)%list (d ++ mjoin (pair_bytes <$> row))%list w).
  rewrite IH. f_equal. unfold out_files. f_equal.
  - unfold pairs_bytes. change (mjoin (row :: truth)) with (row ++ mjoin truth)%list.
    by rewrite fmap_app, join_app, app_assoc.
  - change (ids_of (row :: truth)) with (row.*1 :: ids_of truth). rewrite answers_text_cons, ids_line_text.
    fold (ids_text row.*1). by rewrite !bytes_of_str_app, !app_assoc.
Qed.

Definition dist_dir : string := output_truth c ++ ".dist".

Definition out_creatable w : Prop :=
  (dist_dir ∈ dirs w \/ can_create w dist_dir = true) /\
  can_create w (output_truth c) = true /\ can_create w (dist_out c) = true.

(** The directory is there, made now or before. *)
Lemma make_dist_dir w :
  out_creatable w ->
  exists w', (forall K : py world unit, (ex ← os_path_exists dist_dir; when (negb ex) (os_mkdir dist_dir);; K) w = K w') /\
    fs w' = fs w /\ can_create w' (output_truth c) = true /\ can_create w' (dist_out c) = true.
Proof.
  intros (Hd & H1 & H2). unfold os_path_exists, mbind, py_bind. destruct (path_exists w dist_dir) eqn:E; [by exists w|].
  destruct Hd as [Hd|Hd]; [by rewrite path_exists_dir in E|].
  cbn [negb when]. unfold os_mkdir. rewrite E, Hd. eexists. split; [reflexivity|]. split; [done|].
  split; apply can_create_dir; try done; unfold dist_dir.
  - by apply str_app_ne.
  - unfold dist_out. rewrite <- str_app_assoc. apply not_eq_sym. by apply str_app_ne.
Qed.

Lemma write_truth_ok truth w (RQ := Z.of_nat (length truth)) :
  Forall row_ok truth -> int32_range RQ = true -> int32_range (cfg_k c) = true -> out_creatable w ->
  exists w', write_truth c RQ truth w = (Ret tt, w') /\
    fs w' !! output_truth c = Some (bytes_of_str (answers_text (ids_of truth))) /\
    fs w' !! dist_out c = Some (default_file RQ (cfg_k c) (pairs_bytes truth)) /\
    forall p, p <> output_truth c -> p <> dist_out c -> fs w' !! p = fs w !! p.
Proof.
  intros HF Hr Hk Hc. destruct (make_dist_dir w Hc) as (w1 & E & Hfs & H1 & H2).
  exists (out_files (bytes_of_str (answers_text (ids_of truth))) (default_file RQ (cfg_k c) (pairs_bytes truth)) w1).
  split; [|unfold out_files; rewrite !fs_put; split_and!].
  - unfold write_truth. fold dist_dir. rewrite E.
    erewrite bind_ret by by apply create_file_ok.
    erewrite bind_ret by by apply create_file_ok.
    do 2 (erewrite bind_ret by (unfold lift; by rewrite pack_i_ok); erewrite bind_ret by apply append_put).
    subst RQ. rewrite for_each_index. fold (out_files [] (([] ++ le_bytes 4 (Z.of_nat (length truth))) ++ le_bytes 4 (cfg_k c))%list w1).
    rewrite write_rows by done. cbn [app]. unfold default_file. by rewrite <- app_assoc.
  - rewrite decide_False by apply not_eq_sym, out_files_differ. by rewrite decide_True.
  - by rewrite decide_True.
  - intros p Hp1 Hp2. unfold out_files. rewrite !fs_put, !decide_False by congruence. by rewrite Hfs.
Qed.
End output.

(** ** From the vector files to the truth file *)

(** What is used of numpy's decoding: the number of elements. *)
Class NumpyShape (num : Type) `{!Numpy num} : Prop :=
  decode_length : forall t u sz d b,
    itemsize t = Some sz -> 0 < sz -> 0 <= d -> Z.of_nat (length b) = sz * d ->
    Z.of_nat (length (np_decode (num := num) t u b)) = d.

Lemma batched_offset {A} n (l : list A) data x :
  batched n l data -> (x < length data)%nat ->
  length (mjoin (take x data)) = (x * n)%nat /\ (x = 0%nat \/ (n < length l)%nat).
Proof.
  intros (Hj & HF & Hfull) Hx.
  assert (length (mjoin (take x data)) = (x * n)%nat) as E.
  { assert (Forall (fun b => length b = n) (take x data)) as Hn.
    { apply Forall_lookup. intros j b [Hb Hlt]%lookup_take_Some. apply (Hfull j); [done|lia]. }
    by rewrite (length_mjoin_rows _ n Hn), length_take, Nat.min_l by lia. }
  split; [done|]. destruct x as [|x]; [by left|right]. rewrite <- Hj, <- (take_drop (S x) data), join_app, length_app, E.
  destruct (drop (S x) data) as [|b rest] eqn:Eb; [apply (f_equal length) in Eb; rewrite length_drop in Eb; cbn in Eb; lia|].
  assert (b ∈ data) as Hin by (rewrite <- (take_drop (S x) data), Eb; set_solver).
  rewrite Forall_forall in HF. specialize (HF b Hin). change (mjoin (b :: rest)) with (b ++ mjoin rest)%list.
  rewrite length_app. lia.
Qed.

Section end_to_end.
Context {num f32 : Type} `{!Numpy num} `{!NumpyShape num} `{!Float32 f32} `{!Float32Laws f32}.
Context (index_search : string -> bool -> Z -> list (list num) -> list (list num) -> Z ->
                        outcome (list (list f32) * list (list Z))).
Context (dist : bool -> list num -> list num -> f32) `{!FlatL2 index_search dist}.
Context (c : config) (w : world).

(** The vector a record stands for. *)
Definition vector (nrm : Z) (rec : list byte) : list num :=
  let row := np_decode (data_type c) (target_type c) rec in
  if nrm =? 0 then row else norm_row (np_fill (cfg_dim c)) row.

(** [file] is a DEFAULT file of [recs], vectors of [args.dim] numbers of [sz] bytes. *)
Record vector_file (sz : Z) (file : string) (recs : list (list byte)) : Prop := VectorFile {
  vf_bin : contains ".bin" file = true;
  vf_file : fs w !! file = Some (default_file (Z.of_nat (length recs)) (cfg_dim c) (mjoin recs));
  vf_some : recs <> [];
  vf_count : int32_range (Z.of_nat (length recs)) = true;
  vf_size : Forall (fun r => Z.of_nat (length r) = sz * cfg_dim c) recs
}.

(** The batch size in use for [m] vectors. *)
Definition batch_of (b : Z) (m : nat) : nat := if b <=? 0 then m else Z.to_nat b.

Record search_job (sz : Z) (recs qrecs : list (list byte)) : Prop := SearchJob {
  sj_data : vector_file sz (data_file c) recs;
  sj_query : vector_file sz (query_file c) qrecs;
  sj_type : itemsize (data_type c) = Some sz;
  sj_sz : 0 < sz;
  sj_dim : 0 < cfg_dim c;
  sj_dim32 : int32_range (cfg_dim c) = true;
  sj_k : 0 < cfg_k c;
  sj_k32 : int32_range (cfg_k c) = true;
  sj_l2 : cfg_D c <> "Cosine";
  sj_room : roomy (Z.to_nat (cfg_k c)) (batch_of (cfg_B c) (length recs)) (length recs);
  sj_parts : forall i, (truth_part i ∉ dirs w) /\ (dist_part i ∉ dirs w);
  sj_out : out_creatable c w
}.

Lemma vector_length sz nrm file recs :
  itemsize (data_type c) = Some sz -> 0 < sz -> 0 < cfg_dim c -> vector_file sz file recs ->
  Forall (fun v => Z.of_nat (length v) = cfg_dim c) (vector nrm <$> recs).
Proof.
  intros Hsz H1 H2 [_ _ _ _ HF]. apply Forall_fmap. eapply Forall_impl; [exact HF|]. intros r Hr. cbn beta.
  pose proof (decode_length (data_type c) (target_type c) sz (cfg_dim c) r Hsz H1 ltac:(lia) Hr) as Hl.
  unfold vector, norm_row, norm_fill. cbn. destruct (nrm =? 0); [done|]. rewrite length_fmap.
  destruct (np_tiny _); [by rewrite length_replicate|done].
Qed.

(** The offset the merge adds to batch [x + 1] is the number of vectors before it. *)
Lemma offset_of Vs recs x (m := Z.of_nat (length recs))
    (B := if (cfg_B c <=? 0) || (m <=? cfg_B c) then m else cfg_B c) (nrm : Z) :
  batched (batch_of (cfg_B c) (length recs)) (vector nrm <$> recs) Vs -> (x < length Vs)%nat ->
  B * (1 + Z.of_nat x - 1) = Z.of_nat (length (mjoin (take x Vs))).
Proof.
  intros Hb Hx. destruct (batched_offset _ _ _ _ Hb Hx) as [-> [-> | Hlt]]; [cbn; lia|].
  rewrite length_fmap in Hlt. unfold batch_of in *. subst B m.
  destruct (cfg_B c <=? 0) eqn:E; [lia|]. cbn [orb].
  replace (Z.of_nat (length recs) <=? cfg_B c) with false by lia. nia.
Qed.

Lemma answers_row_ok V Q ans :
  0 < cfg_k c <= Z.of_nat (length V) -> int32_range (Z.of_nat (length V)) = true ->
  answers (dist (use_fp16 c)) (cfg_k c) Q V ans -> Forall (row_ok c) ans.
Proof.
  intros Hk H32 Ha. eapply Forall2_Forall_r; [exact Ha|]. apply Forall_forall. intros q _ a Hn. split.
  - apply nearest_length in Hn; [lia|]. rewrite length_cands. lia.
  - destruct Hn as [Hsub _]. apply Forall_forall. intros [i d] Hin.
    apply (elem_of_submseteq _ _ _ Hin) in Hsub as Hin'. clear Hin. apply elem_of_cands in Hin' as (Hi & v & Hv & _).
    apply lookup_lt_Some in Hv. unfold int32_range in *. cbn. lia.
Qed.
(** Both readers, at the start of their files. *)
Lemma open_vectors sz file recs b nrm (n := if b <=? 0 then Z.of_nat (length recs) else b)
    (s := default_reader n (cfg_dim c) nrm (data_type c) (target_type c) (mjoin recs)) :
  vector_file sz file recs -> itemsize (data_type c) = Some sz -> 0 < sz -> 0 < cfg_dim c ->
  int32_range (cfg_dim c) = true ->
  new_reader file (cfg_dim c) b nrm (data_type c) (target_type c) w = (Ret s, w) /\
  at_records s sz recs [] /\ length (query s) = batch_of b (length recs) /\ (0 < length (query s))%nat /\
  deliver s <$> recs = vector nrm <$> recs.
Proof.
  intros [Hb Hf Hne Hc HF] Hsz H1 H2 H3. pose proof (default_batch_size b recs Hne) as Hn. fold n in Hn.
  destruct (default_reader_at n (cfg_dim c) nrm (data_type c) (target_type c) sz recs Hsz H1 H2 HF) as [Hat Hq].
  fold s in Hat, Hq. split_and!; [by apply new_reader_default|done| |lia|done].
  rewrite Hq. subst n. unfold batch_of. destruct (b <=? 0); [apply Nat2Z.id|done].
Qed.

Abbreviation answers := (answers (dist (use_fp16 c)) (cfg_k c)).

(** The merge over all batches of the data file. *)
Lemma merge_data sz recs Vs w1 Q (m := Z.of_nat (length recs)) (n := batch_of (cfg_B c) (length recs))
    (B := if (cfg_B c <=? 0) || (m <=? cfg_B c) then m else cfg_B c) :
  vector_file sz (data_file c) recs -> 0 < cfg_k c -> int32_range (cfg_k c) = true ->
  int32_range (Z.of_nat (length Q)) = true -> (0 < n)%nat -> roomy (Z.to_nat (cfg_k c)) n (length recs) ->
  batched n (vector (data_normalize c) <$> recs) Vs -> Forall (fun V => cfg_k c <= Z.of_nat (length V)) Vs ->
  batches_hold (dist (use_fp16 c)) (cfg_k c) Q w1 1 Vs ->
  exists truth, merge_batches B (Z.of_nat (length Q)) (cfg_k c) (py_range 1 (1 + Z.of_nat (length Vs)))
      (replicate (length Q) []) w1 = (Ret truth, w1) /\
    answers Q (vector (data_normalize c) <$> recs) truth /\ Forall (row_ok c) truth.
Proof.
  intros Hdf Hk Hk32 HQ32 Hn Hroom Hb HkV Hh.
  destruct (merge_batches_nearest (dist (use_fp16 c)) (cfg_k c) Q ltac:(lia) Hk32 HQ32 w1 B Vs 1 [] (replicate (length Q) []))
    as (truth & Em & Ht); [done|done|..].
  { intros x Hx. by apply (offset_of Vs recs x (data_normalize c)). }
  { unfold GroundTruth.answers. clear. induction Q as [|q Q0 IH]; cbn; constructor; [apply nearest_nil|done]. }
  cbn [app] in Ht. rewrite (proj1 Hb) in Ht. exists truth. split_and!; [done..|].
  eapply answers_row_ok; [..|exact Ht]; rewrite length_fmap; [|apply Hdf].
  assert (0 < length recs)%nat as Hm by (pose proof (vf_some _ _ _ Hdf); destruct recs; [done|cbn; lia]).
  pose proof (roomy_first _ _ _ Hm Hn Hroom). lia.
Qed.

(** C1: [gpusearch] is exact. From a DEFAULT file of vectors and one of
    queries, searched with the L2 distance by an exact index, it ends; each
    line of the truth file then names, for its query, [k] different vectors of
    the whole data file by their row numbers, and their distances are the [k]
    least, in increasing order. The binary file holds the same ids with the
    distances, and beside the two and the files of the batches nothing
    changes. The sizes of the batches do not matter, as long as none of them
    has fewer than [k] vectors. *)
Theorem gpusearch_exact sz recs qrecs fuel :
  search_job sz recs qrecs -> (length recs < fuel)%nat -> (length qrecs < fuel)%nat ->
  exists w' truth,
    gpusearch index_search fuel c w = (Ret tt, w') /\
    Forall2 (fun q t => nearest (Z.to_nat (cfg_k c))
                          (cands (dist (use_fp16 c)) q (vector (data_normalize c) <$> recs)) t)
      (vector (query_normalize c) <$> qrecs) truth /\
    fs w' !! output_truth c = Some (bytes_of_str (answers_text (ids_of truth))) /\
    fs w' !! dist_out c = Some (default_file (Z.of_nat (length qrecs)) (cfg_k c) (pairs_bytes truth)) /\
    forall p, p <> output_truth c -> p <> dist_out c -> (forall i, p <> truth_part i /\ p <> dist_part i) ->
      fs w' !! p = fs w !! p.
Proof.
  intros [Hdf Hqf Hsz Hsp Hd Hd32 Hk Hk32 HD Hroom Hparts Hout] Hf1 Hf2.
  destruct (open_vectors sz _ _ (cfg_B c) (data_normalize c) Hdf Hsz Hsp Hd Hd32) as (Eo1 & Hat1 & Hq1 & Hn1 & Hv1).
  destruct (open_vectors sz _ _ (cfg_Q c) (query_normalize c) Hqf Hsz Hsp Hd Hd32) as (Eo2 & Hat2 & Hq2 & Hn2 & Hv2).
  set (Q := vector (query_normalize c) <$> qrecs).
  assert (length Q = length qrecs) as HlQ by apply length_fmap.
  destruct (all_loop fuel _ sz qrecs [] [] 0 Hat2 Hn2 Hf2) as (s' & dataQ & EQ & HQ & _).
  rewrite Hv2 in HQ. fold Q in HQ. 
  assert (int32_range (Z.of_nat (length Q)) = true) as HQ32 by (rewrite HlQ; apply Hqf).
  destruct (search_batches_ok index_search dist c dataQ Q HQ (vector_length sz _ _ _ Hsz Hsp Hd Hqf) HD Hk Hk32 HQ32
    fuel _ sz recs w 0 0 Hat1 Hn1 ltac:(by rewrite Hq1)) as (Vs & w1 & Es & Hb & HkV & Hh & Hdirs & Hfr).
  { apply (Forall_fmap _ (fun v => Z.of_nat (length v) = cfg_dim c)). rewrite Hv1. by eapply vector_length. }
  { by apply parts_creatable_intro. }
  { done. }
  rewrite Hv1, Hq1 in Hb. cbn [Z.add] in Es, Hh.
  destruct (merge_data sz recs Vs w1 Q) as (truth & Em & Ht & Hrows); try done; [by rewrite <- Hq1|].
  assert (length truth = length qrecs) as Hlt by (rewrite <- HlQ; by eapply answers_length).
  destruct (write_truth_ok c truth w1 Hrows) as (w2 & Ew & H1 & H2 & H3);
    [rewrite Hlt; apply Hqf|done|unfold out_creatable, can_create in *; by rewrite Hdirs|].
  exists w2, truth. rewrite Hlt in *. split_and!; [|done..|].
  - unfold gpusearch. rewrite (bind_ret _ _ _ _ _ Eo1), (bind_ret _ _ _ _ _ Eo2).
    erewrite bind_ret by (unfold run_local, readallbatches; rewrite EQ; reflexivity).
    cbn [fst a_R a_data app]. rewrite Z.add_0_l, <- HlQ. rewrite (bind_ret _ _ _ _ _ Es). cbn beta iota.
    rewrite Nat2Z.id, (Z.add_comm _ 1). rewrite (bind_ret _ _ _ _ _ Em). by rewrite HlQ.
  - intros p Hp1 Hp2 Hp. rewrite H3, Hfr by done. done.
Qed.
End end_to_end.

(** ** Witness: vectors of two bytes, four in batches of two *)

#[export] Instance byte_numpy_shape : NumpyShape Z.
Proof.
  intros t u sz d b. cbn. case_bool_decide; intros ?; simplify_eq. rewrite length_fmap. lia.
Qed.

Definition gap (_ : bool) (q v : list Z) : byte := byte_of_Z (foldr Z.add 0 (zip_with (fun x y => (x - y) * (x - y)) q v)).

Definition flat_search (_ : string) (fp16 : bool) (_ : Z) (V qs : list (list Z)) (k : Z)
    : outcome (list (list byte) * list (list Z)) :=
  let ans := (fun q => topn k (cands (gap fp16) q V)) <$> qs in Ret (dists_of ans, ids_of ans).

#[export] Instance flat_search_exact : FlatL2 flat_search gap.
Proof.
  intros fp16 dim V qs k _ _ _. eexists. split; [reflexivity|].
  apply Forall2_fmap_r, Forall_Forall2_diag, Forall_forall. intros q _. apply topk_nearest.
Qed.

Definition four_recs : list (list byte) :=
  [[Byte.x01; Byte.x02]; [Byte.x05; Byte.x05]; [Byte.x00; Byte.x03]; [Byte.x05; Byte.x04]].
Definition two_queries : list (list byte) := [[Byte.x05; Byte.x05]; [Byte.x00; Byte.x02]].

Definition truth_config : config := Config
  "base.bin" "query.bin" 0 0 "int8" "float32" 1 2 2 1 1000 "L2"
  "truth.txt" "DEFAULT" 0 "" 32 1000000 "none" (-1) "quan_tmp" "quantizer.bin" "" "" 0.

Definition truth_world : world :=
  World {[ "base.bin" := default_file 4 2 (mjoin four_recs); "query.bin" := default_file 2 2 (mjoin two_queries) ]} ∅ [].

Lemma gpusearch_exact_witness :
  exists w' truth,
    gpusearch flat_search 9 truth_config truth_world = (Ret tt, w') /\
    Forall2 (fun q t => nearest 1 (cands (gap false) q (vector truth_config 0 <$> four_recs)) t)
      (vector truth_config 0 <$> two_queries) truth /\
    fs w' !! "truth.txt" = Some (bytes_of_str (answers_text (ids_of truth))) /\
    fs w' !! dist_out truth_config = Some (default_file 2 1 (pairs_bytes truth)) /\
    forall p, p <> "truth.txt" -> p <> dist_out truth_config -> (forall i, p <> truth_part i /\ p <> dist_part i) ->
      fs w' !! p = fs truth_world !! p.
Proof.
  apply (gpusearch_exact flat_search gap truth_config truth_world 1 four_recs two_queries 9); [|cbn; lia..].
  split; try reflexivity; try done.
  - split; try reflexivity; [done|repeat constructor].
  - split; try reflexivity; [done|repeat constructor].
  - split; [cbn; lia|by left].
  - split; [by right|done].
Defined.
