(* ===== verification/OpqEval.v ===== *)
(** * Searching and scoring: [search] and [evaluate] of
    Tools/OPQ/OPQ_gpu_train_infer.py

    The faiss index is a parameter of [search]; [evaluate] is modelled in full,
    with Python's floats. What is printed is not kept. *)

From S2P Require Import Prelude PyStr PyFloat PyBytes PyIO.

Open Scope Z_scope.

(** ** search *)

(** The file says [import tqdm], so the [tqdm] it calls is the module, which is
    not callable. *)
Definition tqdm_module (_ : list Z) : outcome (list Z) := Raise TypeError.

Section search.
Context {index vec score : Type}.
Context (index_search : index -> list vec -> Z -> list (list score) * list (list Z)).
Context (is_pretransform : index -> bool).
(** [faiss.downcast_index(i.index).nprobe = n] and [i.nprobe = n]. *)
Context (set_ivf_nprobe set_nprobe : Z -> index -> index).

(** [math.ceil(a / b)], exact for the sizes a list has. *)
Definition ceil_div (a b : Z) : Z := - ((- a) / b).

Definition with_nprobe (faiss_index : index) (nprobe : option Z) : index :=
  match nprobe with
  | Some n => if is_pretransform faiss_index then set_ivf_nprobe n faiss_index else set_nprobe n faiss_index
  | None => faiss_index
  end.

(** One step of the batched search. *)
Definition search_step (faiss_index : index) (query_embeddings : list vec) (topk batch_size step : Z)
    : list (list score) * list (list Z) :=
  let n := Z.of_nat (length query_embeddings) in
  let start := batch_size * step in
  let end_ := Z.min (batch_size * (step + 1)) n in
  index_search faiss_index (py_slice query_embeddings start end_) topk.

Fixpoint search_steps (faiss_index : index) (query_embeddings : list vec) (topk batch_size : Z) (steps : list Z)
    (acc : list (list score) * list (list Z)) : list (list score) * list (list Z) :=
  match steps with
  | [] => acc
  | s :: ss =>
      let r := search_step faiss_index query_embeddings topk batch_size s in
      search_steps faiss_index query_embeddings topk batch_size ss (acc.1 ++ r.1, acc.2 ++ r.2)%list
  end.

(** The time per query that is printed at the end divides by the number of
    queries. *)
Definition search (faiss_index : index) (query_embeddings : list vec) (topk : Z) (nprobe : option Z) (batch_size : Z)
    : outcome (list (list score) * list (list Z)) :=
  let faiss_index := with_nprobe faiss_index nprobe in
  let n := Z.of_nat (length query_embeddings) in
  r ← (if negb (batch_size =? 0) then
         steps ← tqdm_module (py_range 0 (ceil_div n batch_size));
         Ret (search_steps faiss_index query_embeddings topk batch_size steps ([], []))
       else Ret (index_search faiss_index query_embeddings topk));
  if n =? 0 then Raise ZeroDivisionError else Ret r.

End search.

(** ** evaluate *)

(** [a / b] of integers. *)
Definition truediv (a b : Z) : outcome float := n ← int_div Py3 a b; Ret (number_to_float n).

Definition py_max (l : list Z) : outcome Z :=
  match l with [] => Raise ValueError | x :: l' => Ret (foldl Z.max x l') end.

Record scores := Scores { MRR : list float; Recall : list float; ranking : list Z }.

(** The index of the first hit among the first [n] candidates. *)
Fixpoint first_hit (n : nat) (i : Z) (candidate_pid target_pid : list Z) : outcome (option Z) :=
  match n with
  | O => Ret None
  | S n' =>
      c ← py_index candidate_pid i;
      if bool_decide (c ∈ target_pid) then Ret (Some i) else first_hit n' (i + 1) candidate_pid target_pid
  end.

(** [MRR[inx] += 1 / (i + 1)] for every cutoff above [i]. *)
Fixpoint add_mrr (i : Z) (x : float) (cutoffs : list Z) (MRR : list float) : list float :=
  match cutoffs, MRR with
  | c :: cs, m :: ms => (if i <=? c - 1 then fadd m x else m) :: add_mrr i x cs ms
  | _, _ => MRR
  end.

(** The share of the targets among the first [k] candidates; [l[:k]] of a
    negative [k] drops from the end. *)
Definition py_take (l : list Z) (k : Z) : list Z :=
  take (Z.to_nat (if k <? 0 then k + Z.of_nat (length l) else k)) l.

Definition recall_at (k : Z) (candidate_pid target_pid : list Z) : outcome float :=
  truediv (Z.of_nat (size (list_to_set (C := gset Z) target_pid ∩ list_to_set (py_take candidate_pid k))))
          (Z.of_nat (size (list_to_set (C := gset Z) target_pid))).

Fixpoint add_recall (cutoffs : list Z) (candidate_pid target_pid : list Z) (Recall : list float) : outcome (list float) :=
  match cutoffs, Recall with
  | k :: ks, r :: rs =>
      x ← recall_at k candidate_pid target_pid;
      rs' ← add_recall ks candidate_pid target_pid rs;
      Ret (fadd r x :: rs')
  | _, _ => Ret Recall
  end.

(** One query of the loop. *)
Definition evaluate_query (MRR_cutoffs Recall_cutoffs : list Z) (candidate_pid target_pid : list Z) (s : scores)
    : outcome scores :=
  m ← py_max MRR_cutoffs;
  h ← first_hit (Z.to_nat m) 0 candidate_pid target_pid;
  s' ← match h with
       | Some i => x ← truediv 1 (i + 1);
                   Ret (Scores (add_mrr i x MRR_cutoffs (MRR s)) (Recall s) (ranking s ++ [i + 1])%list)
       | None => Ret (Scores (MRR s) (Recall s) (ranking s ++ [-1])%list)
       end;
  r ← add_recall Recall_cutoffs candidate_pid target_pid (Recall s');
  Ret (Scores (MRR s') r (ranking s')).

Fixpoint evaluate_queries (MRR_cutoffs Recall_cutoffs : list Z) (ground_truths : gmap Z (list Z))
    (pairs : list (Z * list Z)) (s : scores) : outcome scores :=
  match pairs with
  | [] => Ret s
  | (qid, candidate_pid) :: rest =>
      s ← match ground_truths !! qid with
          | Some target_pid => evaluate_query MRR_cutoffs Recall_cutoffs candidate_pid target_pid s
          | None => Ret s
          end;
      evaluate_queries MRR_cutoffs Recall_cutoffs ground_truths rest s
  end.

Definition evaluate (retrieve_results : list (list Z)) (ground_truths : gmap Z (list Z))
    (MRR_cutoffs Recall_cutoffs : list Z) (qids : option (list Z)) : outcome (list float * list float) :=
  let zero := float_of_Z 0 in
  let qids := default (py_range 0 (Z.of_nat (length retrieve_results))) qids in
  s ← evaluate_queries MRR_cutoffs Recall_cutoffs ground_truths (zip qids retrieve_results)
        (Scores (replicate (length MRR_cutoffs) zero) (replicate (length Recall_cutoffs) zero) []);
  if bool_decide (ranking s = []) then Raise IOError
  else
    let n := float_of_Z (Z.of_nat (length (ranking s))) in
    m ← mapM_out (fun x => fdiv x n) (MRR s);
    r ← mapM_out (fun x => fdiv x n) (Recall s);
    Ret (m, r).

(** ** Lemmas *)

Lemma first_hit_spec n i cand target r :
  0 <= i -> first_hit n i cand target = Ret r ->
  match r with
  | Some j => i <= j < i + Z.of_nat n /\ (exists x, cand !! Z.to_nat j = Some x /\ x ∈ target) /\
              forall k x, i <= k < j -> cand !! Z.to_nat k = Some x -> x ∉ target
  | None => forall k, i <= k < i + Z.of_nat n -> exists x, cand !! Z.to_nat k = Some x /\ x ∉ target
  end.
Proof.
  revert i. induction n as [|n IH]; intros i Hi H; cbn [first_hit] in H.
  { injection H as <-. intros k Hk. lia. }
  rewrite py_index_nonneg in H by done. destruct (cand !! Z.to_nat i) as [c|] eqn:Hc; [|done]. cbn in H.
  case_bool_decide as Hin.
  - injection H as <-. split_and!; [lia|lia|by exists c|]. intros k x Hk. lia.
  - apply IH in H; [|lia]. destruct r as [j|].
    + destruct H as (Hj & Hx & Hbefore). split_and!; [lia|lia|done|].
      intros k x Hk Hkx. destruct (decide (k = i)) as [->|]; [congruence|]. apply (Hbefore k x); [lia|done].
    + intros k Hk. destruct (decide (k = i)) as [->|]; [by exists c|]. apply H. lia.
Qed.

Lemma first_hit_total n i cand target :
  0 <= i -> (Z.to_nat i + n <= length cand)%nat -> exists r, first_hit n i cand target = Ret r.
Proof.
  revert i. induction n as [|n IH]; intros i Hi Hlen; cbn [first_hit]; [by eexists|].
  destruct (py_index_total cand i) as (c & -> & _); [lia|]. cbn [mbind outcome_bind].
  case_bool_decide; [by eexists|]. apply IH; lia.
Qed.

(** How many different targets are among the first [c] candidates. *)
Definition found (c : Z) (cand target : list Z) : Z :=
  Z.of_nat (length (filter (fun t => t ∈ take (Z.to_nat c) cand) (remove_dups target))).

Lemma size_remove_dups (l : list Z) : size (list_to_set (C := gset Z) l) = length (remove_dups l).
Proof.
  rewrite <- (size_list_to_set (C := gset Z)) by apply NoDup_remove_dups. f_equal. apply set_eq. intros x.
  by rewrite !elem_of_list_to_set, elem_of_remove_dups.
Qed.

Lemma recall_at_ratio c cand target : target <> [] -> 0 <= c ->
  recall_at c cand target = Ret (ratio_of_Z (found c cand target) (Z.of_nat (length (remove_dups target)))).
Proof.
  intros Ht Hc. unfold recall_at, truediv, int_div. rewrite size_remove_dups.
  assert (length (remove_dups target) <> 0%nat) as Hn.
  { intros H%nil_length_inv. destruct target as [|t target]; [done|].
    assert (t ∈ remove_dups (t :: target)) as Hin by (apply elem_of_remove_dups; by left). rewrite H in Hin. set_solver. }
  rewrite (proj2 (Z.eqb_neq _ 0)) by lia. cbn [mbind outcome_bind number_to_float]. do 2 f_equal. unfold found. f_equal.
  unfold py_take. replace (c <? 0) with false by (symmetry; apply Z.ltb_ge; lia).
  rewrite <- (size_list_to_set (C := gset Z)) by (apply NoDup_filter, NoDup_remove_dups). f_equal. apply set_eq. intros x.
  rewrite elem_of_intersection, !elem_of_list_to_set, list_elem_of_filter, elem_of_remove_dups. naive_solver.
Qed.

Lemma recall_at_total c cand target : target <> [] -> exists x, recall_at c cand target = Ret x.
Proof.
  intros Ht. unfold recall_at, truediv, int_div.
  assert (size (list_to_set (C := gset Z) target) <> 0%nat) as Hs.
  { intros H%size_empty_inv. destruct target as [|t target]; [done|]. set_solver. }
  rewrite (proj2 (Z.eqb_neq _ 0)) by lia. by eexists.
Qed.

Lemma add_recall_spec cutoffs cand target R : target <> [] -> length R = length cutoffs ->
  exists R', add_recall cutoffs cand target R = Ret R' /\
    forall k c y, cutoffs !! k = Some c -> 0 <= c -> R !! k = Some y ->
      R' !! k = Some (fadd y (ratio_of_Z (found c cand target) (Z.of_nat (length (remove_dups target))))).
Proof.
  intros Ht. revert R. induction cutoffs as [|c0 cutoffs IH]; intros [|r R] Hl; try done; [by eexists|].
  cbn [add_recall]. destruct (recall_at_total c0 cand target Ht) as [x Hx]. rewrite Hx. cbn [mbind outcome_bind].
  destruct (IH R) as (R' & -> & HR'); [by injection Hl|]. eexists. split; [reflexivity|].
  intros [|k] c y Hc H0 Hy; cbn in Hc, Hy |- *; [|by eapply HR']. simplify_eq. rewrite recall_at_ratio in Hx by done.
  by injection Hx as <-.
Qed.

Lemma first_hit_short n i cand target :
  0 <= i -> (Z.to_nat i <= length cand < Z.to_nat i + n)%nat -> (forall x, x ∈ cand -> x ∉ target) ->
  first_hit n i cand target = Raise IndexError.
Proof.
  revert i. induction n as [|n IH]; intros i Hi Hlen Hno; [lia|]. cbn [first_hit].
  rewrite py_index_nonneg by done. destruct (cand !! Z.to_nat i) as [c|] eqn:Hc; [|done]. cbn.
  apply lookup_lt_Some in Hc as Hlt. rewrite bool_decide_false by (apply Hno; by eapply list_elem_of_lookup_2).
  apply IH; [lia|lia|done].
Qed.

Lemma add_mrr_spec i x cutoffs M k c m :
  length cutoffs = length M -> cutoffs !! k = Some c -> M !! k = Some m ->
  add_mrr i x cutoffs M !! k = Some (if i <? c then fadd m x else m).
Proof.
  revert M k. induction cutoffs as [|c' cs IH]; intros [|m' ms] k Hl Hc Hm; try done.
  destruct k as [|k]; cbn in *.
  - simplify_eq. f_equal. by replace (i <=? c - 1) with (i <? c) by lia.
  - apply IH; [lia|done..].
Qed.

Lemma length_add_mrr i x cutoffs M : length (add_mrr i x cutoffs M) = length M.
Proof. revert M. induction cutoffs as [|c cs IH]; intros [|m ms]; cbn; try done. by rewrite IH. Qed.

(** ** Properties *)

Section search_props.
Context {index vec score : Type} (index_search : index -> list vec -> Z -> list (list score) * list (list Z)).
Context (is_pretransform : index -> bool) (set_ivf_nprobe set_nprobe : Z -> index -> index).

(** As the file imports it, [tqdm] is a module: every batched search, the
    default and the one the training functions ask for, is a [TypeError]. *)
Theorem search_batched_type_error i q k nprobe b :
  b <> 0 -> search index_search is_pretransform set_ivf_nprobe set_nprobe i q k nprobe b = Raise TypeError.
Proof. intros Hb. unfold search. by replace (b =? 0) with false by lia. Qed.
End search_props.

(** C19: what one query adds to the scores. A query with a ground truth and
    enough candidates is scored; its rank is the position (from 1) of the first
    candidate that is a target, or -1 when none of the first [max(MRR_cutoffs)]
    is, and exactly the MRR cutoffs above that position get the reciprocal of
    the rank added. Every recall cutoff [c] gets the share of the different
    targets that are among the first [c] candidates added. *)
Theorem evaluate_query_rank mcut rcut cand target s m :
  py_max mcut = Ret m -> length (MRR s) = length mcut -> length (Recall s) = length rcut ->
  m <= Z.of_nat (length cand) -> target <> [] ->
  exists s' r, evaluate_query mcut rcut cand target s = Ret s' /\
    (forall k c y, rcut !! k = Some c -> 0 <= c -> Recall s !! k = Some y ->
      Recall s' !! k = Some (fadd y (ratio_of_Z (found c cand target) (Z.of_nat (length (remove_dups target)))))) /\
    match r with
    | Some j =>
        0 <= j < m /\ (exists x, cand !! Z.to_nat j = Some x /\ x ∈ target) /\
        (forall k x, 0 <= k < j -> cand !! Z.to_nat k = Some x -> x ∉ target) /\
        ranking s' = (ranking s ++ [j + 1])%list /\
        forall k c y, mcut !! k = Some c -> MRR s !! k = Some y ->
          MRR s' !! k = Some (if j <? c then fadd y (ratio_of_Z 1 (j + 1)) else y)
    | None =>
        (forall k, 0 <= k < m -> exists x, cand !! Z.to_nat k = Some x /\ x ∉ target) /\
        ranking s' = (ranking s ++ [-1])%list /\ MRR s' = MRR s
    end.
Proof.
  intros Hm Hlen HlR Hcand Ht. unfold evaluate_query. rewrite Hm. cbn [mbind outcome_bind].
  destruct (first_hit_total (Z.to_nat m) 0 cand target) as [r Hh]; [lia|lia|]. rewrite Hh. cbn [mbind outcome_bind].
  pose proof (first_hit_spec _ 0 _ _ _ (Z.le_refl 0) Hh) as Hspec.
  destruct (add_recall_spec rcut cand target (Recall s) Ht HlR) as (R & HR & Hall). destruct r as [j|].
  - destruct Hspec as (Hj & Hx & Hb). unfold truediv, int_div. rewrite (proj2 (Z.eqb_neq _ 0)) by lia.
    cbn [mbind outcome_bind number_to_float MRR Recall ranking]. rewrite HR. cbn [mbind outcome_bind].
    eexists _, (Some j). split; [reflexivity|]. cbn [MRR Recall ranking].
    split_and!; try done; [lia|lia|]. intros k c y Hc Hy. by apply add_mrr_spec.
  - cbn [MRR Recall ranking mbind outcome_bind]. rewrite HR. cbn [mbind outcome_bind].
    eexists _, None. split; [reflexivity|]. split_and!; try done. intros k Hk. apply Hspec. lia.
Qed.

(** When no query id has a ground truth, [evaluate] raises [IOError]
    whatever was retrieved. *)
Theorem evaluate_no_match results truths mcut rcut qids :
  (forall q c, (q, c) ∈ zip (default (py_range 0 (Z.of_nat (length results))) qids) results -> truths !! q = None) ->
  evaluate results truths mcut rcut qids = Raise IOError.
Proof.
  intros H. unfold evaluate. set (pairs := zip _ results) in *.
  assert (forall s, evaluate_queries mcut rcut truths pairs s = Ret s) as E.
  { induction pairs as [|[q c] pairs IH]; intros s; [done|]. cbn [evaluate_queries].
    rewrite (H q c) by (by left). cbn [mbind outcome_bind]. apply IH. intros q' c' Hin. apply (H q' c'). by right. }
  rewrite E. cbn [mbind outcome_bind ranking]. by rewrite bool_decide_true.
Qed.

(** A query with fewer candidates than the largest MRR cutoff and no
    target among them ends [evaluate] in an [IndexError]: the loop does not
    stop at the end of the candidates. *)
Theorem evaluate_short_candidates mcut rcut cand target s m :
  py_max mcut = Ret m -> Z.of_nat (length cand) < m -> (forall x, x ∈ cand -> x ∉ target) ->
  evaluate_query mcut rcut cand target s = Raise IndexError.
Proof.
  intros Hm Hlen Hno. unfold evaluate_query. rewrite Hm. cbn [mbind outcome_bind].
  rewrite first_hit_short; [done|lia|lia|done].
Qed.

(** ** Witnesses *)

Lemma search_batched_type_error_witness :
  search (fun _ q _ => (q, [])) (fun _ => false) (fun _ i => i) (fun _ i => i) tt [[7]] 2 (Some 1) 64 = Raise TypeError.
Proof. by apply search_batched_type_error. Defined.

(** The second candidate is the first hit; one of the two targets is among the
    first two candidates, none among the first. *)
Lemma evaluate_query_rank_witness :
  exists s', evaluate_query [1; 2; 3] [1; 2] [4; 5; 6] [5; 9; 5] (Scores (replicate 3 (float_of_Z 0)) (replicate 2 (float_of_Z 0)) []) = Ret s' /\
    ranking s' = [2] /\ MRR s' !! 1%nat = Some (float_of_dec false 5 (-1)) /\
    Recall s' !! 0%nat = Some (float_of_Z 0) /\ Recall s' !! 1%nat = Some (float_of_dec false 5 (-1)).
Proof.
  destruct (evaluate_query_rank [1; 2; 3] [1; 2] [4; 5; 6] [5; 9; 5] (Scores (replicate 3 (float_of_Z 0)) (replicate 2 (float_of_Z 0)) []) 3)
    as (s' & r & Hs & HR & Hr); [reflexivity|reflexivity|reflexivity|cbn; lia|done|]. exists s'. split; [exact Hs|].
  destruct r as [j|]; [|destruct Hr as [Hr _]; destruct (Hr 1) as (x & [= <-] & Hx); [lia|set_solver]].
  destruct Hr as (Hj & (x & Hx & Hin) & _ & -> & HM).
  assert (j = 1) as -> by (assert (j = 0 \/ j = 1 \/ j = 2) as [-> | [-> | ->]] by lia; cbn in Hx; simplify_eq; set_solver).
  split; [done|]. split; [rewrite (HM 1%nat 2 (float_of_Z 0)) by done; vm_compute; reflexivity|].
  split; [rewrite (HR 0%nat 1 (float_of_Z 0)) by (lia || done)|rewrite (HR 1%nat 2 (float_of_Z 0)) by (lia || done)]; vm_compute; reflexivity.
Defined.

Lemma evaluate_no_match_witness : evaluate [[1; 2]] {[ 5 := [1] ]} [1] [1] None = Raise IOError.
Proof.
  apply evaluate_no_match. intros q c Hin. change (zip _ _) with [(0, [1; 2])] in Hin.
  apply list_elem_of_singleton in Hin. injection Hin as -> ->. reflexivity.
Defined.

Lemma evaluate_short_candidates_witness :
  evaluate_query [5; 10] [5] [1; 2; 3] [8] (Scores [] [] []) = Raise IndexError.
Proof. apply (evaluate_short_candidates _ _ _ _ _ 10); [reflexivity|cbn; lia|set_solver]. Defined.
