(* ===== verification/OpqTrain.v ===== *)
(** * Product quantization: the training and encoding tasks of
    Tools/OPQ/OPQ_gpu_train_infer.py

    [train_pq], [train_opq], [quan_reconstruct_vectors] and the dispatch of
    the main program, with every file they create, patch, remove and rename.
    faiss is a parameter: training, the parts of a trained quantizer, encoding
    and decoding. What is printed is not kept. *)

From Stdlib Require Import Ascii.
From S2P Require Import Prelude PyStr PyFloat PyBytes PyIO Datasets DataReader GpuSearch OpqEval.

Open Scope string_scope.
Open Scope Z_scope.

(** ** Paths *)
Definition task_path (c : config) (name : string) : string :=
  path_join (output_dir c) (name ++ "." ++ str_of_Z (cfg_task c)).
Definition tmp_path (c : config) (name : string) : string :=
  path_join (output_dir c) (name ++ "." ++ str_of_Z (cfg_task c) ++ ".tmp").
Definition wants_quan (c : config) : bool := nonempty (output_quan_vector_file c).
Definition wants_rec (c : config) : bool := nonempty (output_rec_vector_file c).

(** [os.rename(args.output_truth, .../truth.txt.<task>)]. *)
Definition move_truth (c : config) : py world unit := os_rename (output_truth c) (task_path c "truth.txt").

(** [rtype]: the code of the reconstruction type. *)
Definition rtype (data_type : string) : Z :=
  if bool_decide (data_type = "uint8") then 1
  else if bool_decide (data_type = "int16") then 2
  else if bool_decide (data_type = "float32") then 3
  else 0.

(** ** Vector files: a header with a zero count, the data, then the count *)

(** [open(....tmp, 'wb')] and the two integers. *)
Definition open_output (c : config) (name : string) (dim : Z) : py world unit :=
  create_file (tmp_path c name);;
  b ← lift (pack_i 0); append_file (tmp_path c name) b;;
  b ← lift (pack_i dim); append_file (tmp_path c name) b.

(** Patch the count, then replace the old file by the new one. *)
Definition close_output (c : config) (name : string) (writeitems : Z) : py world unit :=
  b ← lift (pack_i writeitems);
  write_at (tmp_path c name) 0 b;;
  ex ← os_path_exists (task_path c name);
  when ex (os_remove (task_path c name));;
  os_rename (tmp_path c name) (task_path c name).

(** ** The quantizer file *)
Record quantizer := Quantizer {
  q_type : Z;                 (* 1 PQ, 2 OPQ *)
  q_rtype : Z;
  q_d0 : Z; q_d1 : Z; q_d2 : Z;
  q_codebooks : list byte;    (* codebooks.tobytes() *)
  q_rotate : list byte        (* rotate_matrix.tobytes(), empty for PQ *)
}.

Definition write_quantizer (p : string) (q : quantizer) : py world unit :=
  create_file p;;
  b ← lift (pack_B (q_type q)); append_file p b;;
  b ← lift (pack_B (q_rtype q)); append_file p b;;
  b ← lift (pack_i (q_d0 q)); append_file p b;;
  b ← lift (pack_i (q_d1 q)); append_file p b;;
  b ← lift (pack_i (q_d2 q)); append_file p b;;
  append_file p (q_codebooks q);;
  when (q_type q =? 2) (append_file p (q_rotate q)).

(** [np.frombuffer(f.read(n * 4), dtype=np.float32).reshape(...)]: [n] floats
    or an error. *)
Definition read_floats (n : Z) (f : list byte) : outcome (list byte * list byte) :=
  let '(b, f') := read_bytes (n * 4) f in
  if Z.of_nat (length b) =? n * 4 then Ret (b, f') else Raise ValueError.

(** The file [quan_reconstruct_vectors] reads; [n] is the dimension of the
    data. A negative dimension is no shape: [reshape] refuses it. (For exactly
    one of them it would infer a dimension from the rest of the file; the
    writers store none.) *)
Definition parse_quantizer (n : Z) (f : list byte) : outcome quantizer :=
  let '(b, f) := read_bytes 1 f in pqtype ← unpack_B b;
  let '(b, f) := read_bytes 1 f in rectype ← unpack_B b;
  let '(b, f) := read_bytes 4 f in d0 ← unpack_i b;
  let '(b, f) := read_bytes 4 f in d1 ← unpack_i b;
  let '(b, f) := read_bytes 4 f in d2 ← unpack_i b;
  cb ← (if (d0 <? 0) || (d1 <? 0) || (d2 <? 0) then Raise ValueError else read_floats (d0 * d1 * d2) f);
  if pqtype =? 2 then rot ← read_floats (n * n) cb.2; Ret (Quantizer pqtype rectype d0 d1 d2 cb.1 rot.1)
  else Ret (Quantizer pqtype rectype d0 d1 d2 cb.1 []).

(** ** fourcc and the faiss index file *)

(** [ord(x[k])]. *)
Definition ord_at (x : string) (k : nat) : Z := match String.get k x with Some ch => code ch | None => 0 end.

(** The code of a string of four characters. *)
Definition fourcc (x : string) : Z :=
  Z.lor (Z.lor (Z.lor (Z.lor 0 (ord_at x 0)) (Z.shiftl (ord_at x 1) 8)) (Z.shiftl (ord_at x 2) 16))
        (Z.shiftl (ord_at x 3) 24).

(** The fields of [tmp_faiss_index] for a quantizer of [d]-dimensional data. *)
Definition faiss_fields (d : Z) (q : quantizer) (nbits : Z) : list (outcome (list byte)) :=
  [ pack_I (fourcc "IxPq"); pack_i d; pack_q 0; pack_q 1048576; pack_q 1048576; pack_B 1; pack_i 1;
    pack_Q d; pack_Q (q_d0 q); pack_Q nbits; pack_Q (q_d0 q * q_d1 q * q_d2 q);
    Ret (q_codebooks q); pack_Q 0; pack_i 0; pack_B 0; pack_i (nbits * q_d0 q + 1) ].

(** [np.uint64(math.log2(n))]. *)
Definition uint_log2 (n : Z) : outcome Z := if n <=? 0 then Raise ValueError else Ret (Z.log2 n).

Definition write_faiss_index (d : Z) (q : quantizer) : py world unit :=
  create_file "tmp_faiss_index";;
  nbits ← lift (uint_log2 (q_d1 q));
  for_each (faiss_fields d q nbits) (fun o => b ← lift o; append_file "tmp_faiss_index" b).

Section train.
Context {num : Type} `{!Numpy num}.
Abbreviation rows := (list (list num)).

(** ** What is used of faiss and of numpy's linear algebra *)
Class Faiss (index codes matrix score : Type) := {
  (** [index_factory(dim, description)] and [train(data)] *)
  faiss_train : Z -> string -> rows -> outcome index;
  faiss_add : index -> rows -> index;
  faiss_search : index -> rows -> Z -> list (list score) * list (list Z);
  faiss_set_nprobe : Z -> index -> index;
  (** M, ksub, dsub of the product quantizer and its centroids as float32 *)
  pq_shape : index -> Z * Z * Z;
  pq_centroids : index -> list byte;
  compute_codes : index -> rows -> codes;
  codes_bytes : codes -> list byte;
  pq_decode : index -> codes -> rows;
  (** the rotation of a pre-transforming index *)
  pre_rotation : index -> option matrix;
  matrix_T : matrix -> matrix;
  matrix_bytes : matrix -> list byte;
  matrix_of_bytes : Z -> list byte -> matrix;
  matmul : rows -> matrix -> rows;
  as_float32 : rows -> rows;
  (** [a.astype(t).tobytes()], and [a.tobytes()] *)
  astype_bytes : string -> rows -> list byte;
  rows_bytes : rows -> list byte;
  (** [faiss.read_index]; [None] is a false value *)
  faiss_read_index : list byte -> outcome (option index)
}.

Context {index codes matrix score : Type} `{!Faiss index codes matrix score}.

(** ** The encoding loop: [enc] writes a batch; the index grows in tests *)
Fixpoint encode_batches (fuel : nat) (c : config) (cast : rows -> rows) (enc : rows -> py world unit)
    (faiss_index : index) (datareader : reader num) (numData : Z) (data : rows) (writeitems : Z)
    : py world (index * Z) :=
  match fuel with
  | O => fun w => (OutOfFuel, w)
  | S n =>
      if 0 <? numData then
        let faiss_index := if 0 <? quan_test c then faiss_add faiss_index data else faiss_index in
        enc data;;
        match readbatch datareader with
        | (Ret (numData', data'), datareader) =>
            encode_batches n c cast enc faiss_index datareader numData' (cast data') (writeitems + numData)
        | (Raise e, _) => raise e
        | (OutOfFuel, _) => fun w => (OutOfFuel, w)
        end
      else mret (faiss_index, writeitems)
  end.

(** The two outputs around the loop. *)
Definition open_outputs (c : config) (dim : Z) : py world unit :=
  when (wants_quan c) (open_output c (output_quan_vector_file c) (quan_dim c));;
  when (wants_rec c) (open_output c (output_rec_vector_file c) dim).

Definition close_outputs (c : config) (writeitems : Z) : py world unit :=
  when (wants_quan c) (close_output c (output_quan_vector_file c) writeitems);;
  when (wants_rec c) (close_output c (output_rec_vector_file c) writeitems).

(** ** The test against the ground truth *)
Fixpoint read_truths (n : nat) (i : Z) (lines : list string) (acc : gmap Z (list Z)) : outcome (gmap Z (list Z)) :=
  match n with
  | O => Ret acc
  | S n' =>
      let items := split_on " " (strip (drop_last (hd "" lines))) in
      ids ← mapM_out int_of_str items;
      read_truths n' (i + 1) (tl lines) (<[i := ids]> acc)
  end.

Definition test_index (c : config) (faiss_index : index) : py world unit :=
  queryreader ← new_reader (query_file c) (cfg_dim c) (-1) (query_normalize c) (data_type c) (target_type c);
  q ← run_local readbatch queryreader;
  let '(numQuery, query) := q.1 in
  lines ← open_lines Py3 (task_path c "truth.txt");
  truths ← lift (read_truths (Z.to_nat numQuery) 0 lines ∅);
  r ← lift (search faiss_search (fun i => bool_decide (is_Some (pre_rotation i))) faiss_set_nprobe faiss_set_nprobe
              faiss_index query (cfg_k c) (Some 1) 64);
  _ ← lift (evaluate r.2 truths [5; 10] [5; 10; 20; 40] None);
  mret tt.

(** The first batch, and [len(data[0])]. *)
Definition first_batch (c : config) : py world (reader num * Z * rows) :=
  datareader ← new_reader (data_file c) (cfg_dim c) (train_samples c) (data_normalize c) (data_type c) (target_type c);
  b ← run_local readbatch datareader;
  mret (b.2, b.1.1, b.1.2).

Definition row_dim (data : rows) : outcome Z := row ← py_index data 0; Ret (Z.of_nat (length row)).

Definition nothing_to_write (c : config) : bool :=
  (quan_test c =? 0) && negb (wants_quan c) && negb (wants_rec c).

(** What follows the quantizer file in both training tasks. *)
Definition encode_all (fuel : nat) (c : config) (cast : rows -> rows) (enc : rows -> py world unit)
    (faiss_index : index) (datareader : reader num) (numData : Z) (data : rows) (dim : Z) : py world unit :=
  if nothing_to_write c then move_truth c
  else
    open_outputs c dim;;
    r ← encode_batches fuel c cast enc faiss_index datareader numData data 0;
    close_outputs c r.2;;
    move_truth c;;
    when (0 <? quan_test c) (test_index c r.1).

(** ** train_pq *)
Definition pq_enc (c : config) (i : index) (data : rows) : py world unit :=
  let cs := compute_codes i data in
  when (wants_quan c) (append_file (tmp_path c (output_quan_vector_file c)) (codes_bytes cs));;
  when (wants_rec c) (append_file (tmp_path c (output_rec_vector_file c)) (astype_bytes (data_type c) (pq_decode i cs))).

Definition train_pq (fuel : nat) (c : config) : py world unit :=
  b ← first_batch c;
  let '(datareader, numData, data) := b in
  dim ← lift (row_dim data);
  i ← lift (faiss_train dim ("PQ" ++ str_of_Z (quan_dim c) ++ "x8") data);
  let '(M, ksub, dsub) := pq_shape i in
  write_quantizer (task_path c (output_quantizer c))
    (Quantizer 1 (rtype (data_type c)) M ksub dsub (pq_centroids i) []);;
  encode_all fuel c id (pq_enc c i) i datareader numData data dim.

(** ** train_opq: [rotate] is only bound for a pre-transforming index *)
Definition opq_enc (c : config) (i : index) (rotate : option matrix) (data : rows) : py world unit :=
  match rotate with
  | None => raise UnboundLocalError
  | Some rotate =>
      let cs := compute_codes i (matmul data (matrix_T rotate)) in
      when (wants_quan c) (append_file (tmp_path c (output_quan_vector_file c)) (codes_bytes cs));;
      when (wants_rec c) (append_file (tmp_path c (output_rec_vector_file c))
                            (astype_bytes "float32" (matmul (pq_decode i cs) rotate)))
  end.

(** [args.data_type = 'float32']. *)
Definition set_float32 (c : config) : config :=
  Config (data_file c) (query_file c) (data_normalize c) (query_normalize c) "float32" (target_type c)
    (cfg_k c) (cfg_dim c) (cfg_B c) (cfg_Q c) (cfg_S c) (cfg_D c) (output_truth c) (data_format c) (cfg_task c)
    (log_dir c) (cfg_T c) (train_samples c) (quan_type c) (quan_dim c) (output_dir c) (output_quantizer c)
    (output_quan_vector_file c) (output_rec_vector_file c) (quan_test c).

Definition train_opq (fuel : nat) (c : config) : py world unit :=
  b ← first_batch c;
  let '(datareader, numData, data) := b in
  let data := as_float32 data in
  let c := set_float32 c in
  dim ← lift (row_dim data);
  i ← lift (faiss_train dim ("OPQ" ++ str_of_Z (quan_dim c) ++ ",PQ" ++ str_of_Z (quan_dim c) ++ "x8") data);
  (match pre_rotation i with
   | Some rotate =>
       let '(M, ksub, dsub) := pq_shape i in
       write_quantizer (task_path c (output_quantizer c))
         (Quantizer 2 (rtype (data_type c)) M ksub dsub (pq_centroids i) (matrix_bytes (matrix_T rotate)))
   | None => mret tt
   end);;
  encode_all fuel c as_float32 (opq_enc c i (pre_rotation i)) i datareader numData data dim.

(** ** quan_reconstruct_vectors *)
Definition reconstruct_enc (c : config) (i : index) (q : quantizer) (dim : Z) (data : rows) : py world unit :=
  let m := matrix_of_bytes dim (q_rotate q) in
  let data := if q_type q =? 2 then matmul data m else data in
  let cs := compute_codes i data in
  when (wants_quan c) (append_file (tmp_path c (output_quan_vector_file c)) (codes_bytes cs));;
  when (wants_rec c)
    (let recY := pq_decode i cs in
     append_file (tmp_path c (output_rec_vector_file c))
       (if q_type q =? 2 then astype_bytes (data_type c) (matmul recY (matrix_T m)) else rows_bytes recY)).

(** The external program that packs the trees. *)
Context (subprocess_run : list string -> py world Z).

(** The loop of this task adds nothing to the index. *)
Definition no_test (c : config) : config :=
  Config (data_file c) (query_file c) (data_normalize c) (query_normalize c) (data_type c) (target_type c)
    (cfg_k c) (cfg_dim c) (cfg_B c) (cfg_Q c) (cfg_S c) (cfg_D c) (output_truth c) (data_format c) (cfg_task c)
    (log_dir c) (cfg_T c) (train_samples c) (quan_type c) (quan_dim c) (output_dir c) (output_quantizer c)
    (output_quan_vector_file c) (output_rec_vector_file c) 0.

Definition quan_reconstruct_vectors (fuel : nat) (c : config) : py world unit :=
  b ← first_batch c;
  let '(datareader, numData, data) := b in
  let dim := featuredim datareader in
  f ← read_file (path_join (dirname (query_file c)) (output_quantizer c));
  q ← lift (parse_quantizer dim f);
  write_quantizer (task_path c (output_quantizer c)) q;;
  if negb (wants_quan c) && negb (wants_rec c) then
    move_truth c;;
    _ ← subprocess_run ["ZipKDTree.exe"; output_dir c; output_truth c];
    mret tt
  else
    open_outputs c dim;;
    write_faiss_index dim q;;
    fi ← read_file "tmp_faiss_index";
    oi ← lift (faiss_read_index fi);
    match oi with
    | None => raise SystemExit
    | Some i =>
        r ← encode_batches fuel (no_test c) id (reconstruct_enc c i q dim) i datareader numData data 0;
        close_outputs c r.2;;
        ex ← os_path_exists (task_path c "truth.txt");
        when ex (os_remove (task_path c "truth.txt"));;
        move_truth c
    end.

(** ** The main program; the call of [gpusearch] is commented out *)
Definition main (fuel : nat) (c : config) : py world unit :=
  ex ← os_path_exists (output_dir c);
  when (negb ex) (os_mkdir (output_dir c));;
  if bool_decide (quan_type c = "none") then mret tt
  else if bool_decide (quan_type c = "pq") then train_pq fuel c
  else if bool_decide (quan_type c = "opq") then train_opq fuel c
  else if bool_decide (quan_type c = "quan_reconstruct") then quan_reconstruct_vectors fuel c
  else mret tt.

End train.
Arguments Faiss num index codes matrix score : clear implicits.

(** ** Lemmas *)

(** The bytes of a quantizer file. *)
Definition quantizer_bytes (q : quantizer) : list byte :=
  (le_bytes 1 (q_type q) ++ le_bytes 1 (q_rtype q) ++ le_bytes 4 (q_d0 q) ++ le_bytes 4 (q_d1 q) ++
   le_bytes 4 (q_d2 q) ++ q_codebooks q ++ (if Z.eqb (q_type q) 2 then q_rotate q else []))%list.

(** A dimension that fits its field of the header. *)
Definition dim_range (d : Z) : bool := (0 <=? d) && int32_range d.

Lemma dim_range_spec d : dim_range d = true -> (d <? 0) = false /\ int32_range d = true.
Proof. unfold dim_range. intros [H1 H2]%andb_prop. split; [lia|done]. Qed.

(** A quantizer of [n]-dimensional data whose fields fit their formats. *)
Definition wf_quantizer (n : Z) (q : quantizer) : Prop :=
  0 <= q_type q < 256 /\ 0 <= q_rtype q < 256 /\
  dim_range (q_d0 q) = true /\ dim_range (q_d1 q) = true /\ dim_range (q_d2 q) = true /\
  Z.of_nat (length (q_codebooks q)) = q_d0 q * q_d1 q * q_d2 q * 4 /\
  (if Z.eqb (q_type q) 2 then Z.of_nat (length (q_rotate q)) = n * n * 4 else q_rotate q = []).

Lemma pack_B_ok z : 0 <= z < 256 -> pack_B z = Ret (le_bytes 1 z).
Proof. intros H. unfold pack_B, pack_unsigned. change (bits 1) with 256. by replace (_ && _) with true by lia. Qed.

Lemma write_quantizer_ok n p q w :
  wf_quantizer n q -> can_create w p = true ->
  write_quantizer p q w = (Ret tt, put_file p (quantizer_bytes q) w).
Proof.
  intros (H1 & H2 & [_ H3]%dim_range_spec & [_ H4]%dim_range_spec & [_ H5]%dim_range_spec & _ & _) Hc.
  unfold write_quantizer, quantizer_bytes.
  erewrite bind_ret by by apply create_file_ok. unfold lift.
  rewrite !pack_B_ok, !pack_i_ok by done.
  do 5 (erewrite bind_ret by reflexivity; erewrite bind_ret by apply append_put).
  erewrite bind_ret by apply append_put. unfold when.
  destruct (q_type q =? 2); [rewrite append_put|rewrite app_nil_r]; by rewrite <- !app_assoc.
Qed.

Lemma read_bytes_app n l r : Z.of_nat (length l) = n -> read_bytes n (l ++ r)%list = (l, r).
Proof. intros <-. rewrite read_bytes_nat. by rewrite take_app_length, drop_app_length. Qed.

Lemma unpack_B_le z : 0 <= z < 256 -> unpack_B (le_bytes 1 z) = Ret z.
Proof.
  intros H. unfold unpack_B, unpack_unsigned. rewrite length_le_bytes, bool_decide_true by done. f_equal.
  rewrite le_Z_le_bytes. by apply Z.mod_small.
Qed.

Lemma read_floats_ok n l r : Z.of_nat (length l) = n * 4 -> read_floats n (l ++ r)%list = Ret (l, r).
Proof. intros H. unfold read_floats. rewrite read_bytes_app by done. by rewrite H, Z.eqb_refl. Qed.

Lemma parse_quantizer_bytes n q : wf_quantizer n q -> parse_quantizer n (quantizer_bytes q) = Ret q.
Proof.
  intros (H1 & H2 & [N3 H3]%dim_range_spec & [N4 H4]%dim_range_spec & [N5 H5]%dim_range_spec & Hcb & Hrot).
  unfold parse_quantizer, quantizer_bytes.
  rewrite read_bytes_app by (by rewrite length_le_bytes). rewrite unpack_B_le by done. cbn [mbind outcome_bind].
  rewrite read_bytes_app by (by rewrite length_le_bytes). rewrite unpack_B_le by done. cbn [mbind outcome_bind].
  do 3 (rewrite read_bytes_le, unpack_i_le_bytes by done; cbn [mbind outcome_bind]).
  rewrite N3, N4, N5. cbn [orb]. rewrite read_floats_ok by done. cbn [mbind outcome_bind fst snd].
  destruct (q_type q =? 2).
  - rewrite <- (app_nil_r (q_rotate q)), read_floats_ok by done. cbn. by destruct q.
  - destruct q; cbn in *. by subst.
Qed.

Lemma overwrite_header z z' d body : overwrite 0 (le_bytes 4 z') (default_file z d body) = default_file z' d body.
Proof.
  unfold overwrite, default_file. rewrite take_0, app_nil_l, length_le_bytes, Nat.add_0_l.
  by rewrite drop_app_length' by (by rewrite length_le_bytes).
Qed.

Section train_lemmas.
Context {num index codes matrix score : Type} `{!Numpy num} `{!Faiss num index codes matrix score}.
Abbreviation rows := (list (list num)).

(** Encoding a batch adds its codes [fq] and its reconstruction [fr] to what
    the state [T] holds of the two outputs. *)
Definition appends (T : list byte -> list byte -> world -> world) (fq fr : rows -> list byte)
    (enc : rows -> py world unit) : Prop :=
  forall data q r w, enc data (T q r w) = (Ret tt, T (q ++ fq data)%list (r ++ fr data)%list w).

(** The loop writes the bytes of every batch once, in order, and counts the
    vectors. *)
Lemma encode_batches_run fuel c cast enc T fq fr i s s1 sz recs tail numData data wi q r w :
  appends T fq fr enc -> (0 <? quan_test c) = false ->
  at_records s sz recs tail -> (0 < length (query s))%nat ->
  readbatch s = (Ret (numData, data), s1) -> (length recs < fuel)%nat ->
  exists batches, batched (length (query s)) (deliver s <$> recs) batches /\
    encode_batches fuel c cast enc i s1 numData (cast data) wi (T q r w) =
      (Ret (i, wi + Z.of_nat (length recs)),
       T (q ++ mjoin (fq ∘ cast <$> batches))%list (r ++ mjoin (fr ∘ cast <$> batches))%list w).
Proof.
  intros Happ Hq. revert s s1 recs tail numData data wi q r.
  induction fuel as [|fuel IH]; intros s s1 recs tail numData data wi q0 r0 Hat Hn Hread Hf; [lia|].
  destruct (readbatch_binary s sz recs tail Hat) as (s1' & E & Hsame & Hfin).
  rewrite E in Hread. injection Hread as <- <- <-. cbn [encode_batches]. set (n := length (query s)) in *.
  destruct recs as [|r recs].
  { exists []. rewrite take_nil. cbn. rewrite !app_nil_r, Z.add_0_r. by split_and!. }
  assert (0 < length (take n (r :: recs)))%nat as Hpos by (rewrite length_take, length_cons; apply Nat.min_glb_lt; [exact Hn|lia]).
  rewrite (proj2 (Z.ltb_lt 0 (Z.of_nat (length (take n (r :: recs))))) ltac:(lia)).
  rewrite Hq. erewrite bind_ret by apply Happ.
  assert (exists tail', at_records s1' sz (drop n (r :: recs)) tail') as [tail' Hat'].
  { destruct (decide (n <= length (r :: recs))%nat) as [Hge|Hlt].
    - exists tail. by apply (at_records_next s).
    - exists []. unfold fin_after in Hfin. rewrite bool_decide_false in Hfin by done. rewrite drop_ge by lia.
      destruct Hat as (A1 & A2 & A3 & A4 & _ & _ & _), Hsame as (B1 & B2 & B3 & B4 & _ & _).
      unfold at_records. rewrite B2, B3, B4. split_and!; try done. cbn. nia. }
  assert (length (query s1') = n) as Hn'
    by (destruct Hsame as (_ & _ & _ & _ & _ & Hl); unfold numQuerys in Hl; lia).
  destruct (readbatch_binary s1' sz _ tail' Hat') as (s2 & E2 & _). rewrite E2.
  destruct (IH s1' s2 (drop n (r :: recs)) tail' _ _ (wi + Z.of_nat (length (take n (r :: recs))))
    (q0 ++ fq (cast (deliver s <$> take n (r :: recs))))%list (r0 ++ fr (cast (deliver s <$> take n (r :: recs))))%list Hat' ltac:(lia) E2) as (batches & Hb & Hrun).
  { rewrite length_drop. cbn in *. lia. }
  exists ((deliver s <$> take n (r :: recs)) :: batches). split.
  - rewrite Hn' in Hb. erewrite list_fmap_ext in Hb by (intros; by apply deliver_same).
    destruct (decide (n <= length (r :: recs))%nat) as [Hge|Hlt].
    + rewrite fmap_take. apply batched_cons; [rewrite length_fmap; lia|]. by rewrite <- fmap_drop.
    + rewrite drop_ge in Hb by lia. rewrite take_ge by lia.
      assert (batches = []) as ->.
      { destruct Hb as (Hj & HF & _). destruct batches as [|b bs]; [done|].
        apply Forall_cons in HF as [Hb _]. destruct b; [cbn in Hb; lia|done]. }
      pose proof (batched_short n (deliver s <$> r :: recs)) as H. rewrite decide_False in H by done.
      apply H. rewrite length_fmap. lia.
  - rewrite Hrun. cbn [fmap list_fmap]. change (mjoin (?x :: ?xs)) with (x ++ mjoin xs)%list. cbn [compose]. rewrite <- !app_assoc. do 3 f_equal.
    rewrite length_drop, length_take. lia.
Qed.

Lemma open_output_ok c name dim w :
  can_create w (tmp_path c name) = true -> int32_range dim = true ->
  open_output c name dim w = (Ret tt, put_file (tmp_path c name) (default_file 0 dim []) w).
Proof.
  intros Hc Hd. unfold open_output. erewrite bind_ret by by apply create_file_ok. unfold lift.
  rewrite !pack_i_ok by done. erewrite bind_ret by reflexivity. erewrite bind_ret by apply append_put.
  erewrite bind_ret by reflexivity. rewrite append_put. unfold default_file. by rewrite app_nil_r.
Qed.

(** Patching the count and renaming: the file appears under its name with the
    right count, whether or not an old one was there, and the temporary one is
    gone. *)
Lemma close_output_ok c name n dim body w :
  can_create w (task_path c name) = true -> int32_range n = true -> tmp_path c name <> task_path c name ->
  bool_decide (task_path c name ∈ dirs w) = false ->
  exists w', close_output c name n (put_file (tmp_path c name) (default_file 0 dim body) w) = (Ret tt, w') /\
    fs w' = <[task_path c name := default_file n dim body]> (delete (tmp_path c name) (fs w)) /\ dirs w' = dirs w.
Proof.
  intros Hc Hn Hne Hdir. unfold close_output. unfold lift. rewrite pack_i_ok by done.
  erewrite bind_ret by reflexivity. erewrite bind_ret by apply write_at_put. rewrite overwrite_header.
  erewrite bind_ret by reflexivity.
  set (tp := tmp_path c name) in *. set (fp := task_path c name) in *.
  assert (path_exists (put_file tp (default_file n dim body) w) fp = isfile w fp) as ->.
  { unfold path_exists. unfold put_file at 1. rewrite isfile_insert, (bool_decide_false (tp = fp)) by done.
    cbn. by rewrite Hdir, orb_false_r. }
  destruct (isfile w fp) eqn:Hold; unfold when.
  - erewrite bind_ret.
    2:{ unfold os_remove. unfold put_file at 1. rewrite isfile_insert, (bool_decide_false (tp = fp)), Hold by done. reflexivity. }
    unfold os_rename, put_file, set_fs. cbn. rewrite lookup_delete_ne, lookup_insert_eq by done.
    change (can_create _ fp) with (can_create w fp). rewrite Hc. eexists. split; [reflexivity|]. cbn. split; [|done].
    rewrite delete_insert_ne by done. rewrite delete_insert_eq. by rewrite delete_delete, insert_delete_eq.
  - erewrite bind_ret by reflexivity. unfold os_rename, put_file, set_fs. cbn. rewrite lookup_insert_eq.
    change (can_create _ fp) with (can_create w fp). rewrite Hc. eexists. split; [reflexivity|]. cbn. split; [|done].
    by rewrite delete_insert_eq.
Qed.

Lemma search_tqdm_error i q k np : (search (score := score) faiss_search (fun i : index => bool_decide (is_Some (pre_rotation i)))
  faiss_set_nprobe faiss_set_nprobe i q k np 64) = Raise TypeError.
Proof. reflexivity. Qed.

Lemma test_index_never c (i : index) : never (fun _ => True) (test_index c i).
Proof.
  unfold test_index. apply never_then. intros r. apply never_then. intros [[n q] r']. cbn [fst].
  apply never_then. intros lines. apply never_then. intros truths. rewrite search_tqdm_error. by apply never_bind_l.
Qed.

Lemma encode_all_never_test fuel c cast enc (i : index) r n (data : rows) dim :
  0 < quan_test c -> never (fun _ => True) (encode_all fuel c cast enc i r n data dim).
Proof.
  intros H. unfold encode_all, nothing_to_write. replace (quan_test c =? 0) with false by lia. cbn [andb].
  apply never_then. intros _. apply never_then. intros [i' k]. apply never_then. intros _. apply never_then. intros _.
  replace (0 <? quan_test c) with true by lia. apply test_index_never.
Qed.

(** The paths a training task writes. *)
Definition written (c : config) : list string :=
  [task_path c (output_quantizer c);
   tmp_path c (output_quan_vector_file c); task_path c (output_quan_vector_file c);
   tmp_path c (output_rec_vector_file c); task_path c (output_rec_vector_file c)].

Section missing_truth.
Context (c : config) (Hp : output_truth c ∉ written c).
Abbreviation kept := (keeps (file_at (output_truth c))).

Lemma written_ne q : q ∈ written c -> q <> output_truth c.
Proof. intros H ->. done. Qed.

Ltac kept := repeat first
  [ apply keeps_bind; [|intros ?] | apply keeps_when | apply keeps_create | apply keeps_append | apply keeps_write_at
  | apply keeps_remove | apply keeps_rename | apply keeps_exists | apply keeps_read | apply keeps_run_local
  | apply keeps_for_each; intros ? | apply keeps_lift | apply keeps_ret | apply keeps_raise | done ];
  try (apply written_ne; unfold written; set_solver).

Lemma kept_write_quantizer q : kept (write_quantizer (task_path c (output_quantizer c)) q).
Proof. unfold write_quantizer. kept. Qed.

Lemma kept_outputs dim n : kept (open_outputs c dim) /\ kept (close_outputs c n).
Proof. split; unfold open_outputs, close_outputs, open_output, close_output; kept. Qed.

Lemma kept_pq_enc (i : index) data : kept (pq_enc c i data).
Proof. unfold pq_enc. kept. Qed.

Lemma kept_encode fuel c' cast enc (i : index) r n (data : rows) wi :
  (forall d, kept (enc d)) -> kept (encode_batches fuel c' cast enc i r n data wi).
Proof.
  intros He. revert i r n data wi. induction fuel as [|fuel IH]; intros i r n data wi; [done|]. cbn [encode_batches].
  destruct (0 <? n); [|done]. apply keeps_bind; [done|intros _].
  destruct (readbatch r) as [[[n' d']|e|] r']; [apply IH|done..].
Qed.

Lemma kept_new_reader fn dim b nm dt tt' : kept (new_reader (num := num) fn dim b nm dt tt').
Proof.
  unfold new_reader. apply keeps_bind; [|intros [R r]; kept]. destruct (contains ".bin" fn).
  - kept.
  - unfold open_lines. kept.
Qed.

Lemma move_truth_never : never (fun w => file_at (output_truth c) w = None) (move_truth c).
Proof. intros w a w' Hw. unfold move_truth, os_rename. unfold file_at in Hw. by rewrite Hw. Qed.

Lemma encode_all_never_truth fuel cast enc (i : index) r n (data : rows) dim :
  (forall d, kept (enc d)) ->
  never (fun w => file_at (output_truth c) w = None) (encode_all fuel c cast enc i r n data dim).
Proof.
  intros He. unfold encode_all. destruct (nothing_to_write c); [apply move_truth_never|].
  apply never_bind_r; [apply (kept_outputs dim 0)|intros _].
  apply never_bind_r; [by apply kept_encode|intros [i' k]].
  apply never_bind_r; [apply (kept_outputs dim k)|intros _].
  apply never_bind_l, move_truth_never.
Qed.
End missing_truth.
End train_lemmas.

(** ** Properties *)

Section train_props.
Context {num index codes matrix score : Type} `{!Numpy num} `{!Faiss num index codes matrix score}.
Abbreviation rows := (list (list num)).

(** C12: the quantizer file the training tasks write is read back unchanged by
    the reconstruction task: types, shape, codebooks and rotation. *)
Theorem quantizer_roundtrip n p q w :
  wf_quantizer n q -> can_create w p = true ->
  write_quantizer p q w = (Ret tt, put_file p (quantizer_bytes q) w) /\
  parse_quantizer n (quantizer_bytes q) = Ret q.
Proof. intros Hq Hc. split; [by apply (write_quantizer_ok n)|by apply parse_quantizer_bytes]. Qed.

(** C32: with [--quan_test] neither training task can return: after all files
    are written the test calls the module [tqdm]. *)
Theorem training_test_never_returns fuel c w :
  0 < quan_test c -> (train_pq fuel c w).1 <> Ret tt /\ (train_opq fuel c w).1 <> Ret tt.
Proof.
  intros Ht.
  assert (never (fun _ => True) (train_pq fuel c) /\ never (fun _ => True) (train_opq fuel c)) as [H1 H2].
  { unfold train_pq, train_opq. split; apply never_then; intros [[r n] d]; apply never_then; intros dim;
      apply never_then; intros i.
    - destruct (pq_shape i) as [[M k] ds]. apply never_then. intros _. by apply encode_all_never_test.
    - apply never_then. intros _. by apply encode_all_never_test. }
  specialize (H1 w tt). specialize (H2 w tt).
  split; intros E; [destruct (train_pq fuel c w) as [r w'] eqn:E'|destruct (train_opq fuel c w) as [r w'] eqn:E'];
    cbn in E; subst r; [by apply (H1 w')|by apply (H2 w')].
Qed.

(** The tasks move the truth file that only the search (whose call is
    commented out) writes: without it training never returns normally. *)
Theorem train_pq_needs_truth fuel c w :
  output_truth c ∉ written c -> fs w !! output_truth c = None -> (train_pq fuel c w).1 <> Ret tt.
Proof.
  intros Hp Hw.
  assert (never (fun w => file_at (output_truth c) w = None) (train_pq fuel c)) as H.
  { unfold train_pq, first_batch. apply never_bind_r.
    { apply keeps_bind; [by apply kept_new_reader|]. intros r. apply keeps_bind; [apply keeps_run_local|]. intros b. apply keeps_ret. }
    intros [[r n] d]. apply never_bind_r; [apply keeps_lift|]. intros dim. apply never_bind_r; [apply keeps_lift|]. intros i.
    destruct (pq_shape i) as [[M k] ds]. apply never_bind_r; [by apply kept_write_quantizer|]. intros _.
    apply encode_all_never_truth; [done|]. intros d'. by apply kept_pq_enc. }
  specialize (H w tt). intros E. destruct (train_pq fuel c w) as [r w'] eqn:E'. cbn in E. subst r. by apply (H w').
Qed.
End train_props.

Lemma lor_shiftl_add a b n : 0 <= n -> 0 <= a < 2 ^ n -> Z.lor a (Z.shiftl b n) = a + b * 2 ^ n.
Proof.
  intros Hn Ha. assert (Z.land a (Z.shiftl b n) = 0) as H0.
  { apply Z.bits_inj'. intros k Hk. rewrite Z.land_spec, Z.bits_0, Z.shiftl_spec by done.
    destruct (Z.lt_ge_cases k n).
    - rewrite (Z.testbit_neg_r b) by lia. apply andb_false_r.
    - destruct (Z.eq_dec a 0) as [->|]; [by rewrite Z.bits_0|].
      rewrite Z.bits_above_log2; [done|lia|]. apply Z.log2_lt_pow2; [lia|].
      eapply Z.lt_le_trans; [apply Ha|]. by apply Z.pow_le_mono_r. }
  rewrite <- Z.lxor_lor, <- Z.add_nocarry_lxor, Z.shiftl_mul_pow2 by done. done.
Qed.

Lemma code_byte a : Z_of_byte (Ascii.byte_of_ascii a) = code a.
Proof. destruct a as [[] [] [] [] [] [] [] []]; reflexivity. Qed.

Lemma code_bound a : 0 <= code a < 256.
Proof. rewrite <- code_byte. apply Z_of_byte_bound. Qed.

(** The four bytes [fourcc] packs are the four characters, in order, so the
    file starts with the tag faiss looks for. *)
Theorem fourcc_bytes a b c d (x := String a (String b (String c (String d "")))) :
  pack_I (fourcc x) = Ret (bytes_of_str x).
Proof.
  pose proof (code_bound a). pose proof (code_bound b). pose proof (code_bound c). pose proof (code_bound d).
  assert (fourcc x = le_Z (bytes_of_str x)) as ->.
  { unfold fourcc, ord_at; subst x. cbn [String.get]. rewrite Z.lor_0_l.
    rewrite (lor_shiftl_add (code a)) by lia. rewrite (lor_shiftl_add (code a + _)) by lia.
    rewrite (lor_shiftl_add (code a + _ + _)) by lia.
    cbn [bytes_of_str String.list_byte_of_string String.list_ascii_of_string map le_Z].
    unfold bytes_of_str, String.list_byte_of_string. cbn [String.list_ascii_of_string map le_Z]. rewrite !code_byte. lia. }
  unfold pack_I, pack_unsigned. pose proof (le_Z_bound (bytes_of_str x)) as Hb.
  change (length (bytes_of_str x)) with 4%nat in Hb. change (bits 4) with 4294967296 in *.
  replace (_ && _) with true by lia. f_equal. apply (le_bytes_le_Z (bytes_of_str x)).
Qed.

(** ** Witnesses: a quantizer that keeps the first component of a vector, after a
    rotation that swaps the components *)

#[export] Instance swap_faiss : Faiss Z unit (list (list Z)) (list byte) Z := {
  faiss_train := fun _ _ _ => Ret tt;
  faiss_add := fun i _ => i;
  faiss_search := fun _ _ _ => ([], []);
  faiss_set_nprobe := fun _ i => i;
  pq_shape := fun _ => (1, 1, 2);
  pq_centroids := fun _ => le_bytes 8 0;
  compute_codes := fun _ d => d;
  codes_bytes := fun d => (fun r => byte_of_Z (hd 0 r)) <$> d;
  pq_decode := fun _ d => d;
  pre_rotation := fun _ => Some (replicate 16 Byte.x00);
  matrix_T := id;
  matrix_bytes := id;
  matrix_of_bytes := fun _ b => b;
  matmul := fun d _ => (fun r => reverse r) <$> d;
  as_float32 := id;
  astype_bytes := fun _ d => mjoin ((fun r => byte_of_Z <$> r) <$> d);
  rows_bytes := fun d => mjoin ((fun r => byte_of_Z <$> r) <$> d);
  faiss_read_index := fun _ => Ret (Some tt)
}.

Definition demo_quantizer : quantizer := Quantizer 2 3 1 2 1 (le_bytes 8 77) (le_bytes 4 5).

Lemma quantizer_roundtrip_witness :
  write_quantizer "q.bin" demo_quantizer (World ∅ ∅ []) = (Ret tt, put_file "q.bin" (quantizer_bytes demo_quantizer) (World ∅ ∅ [])) /\
  parse_quantizer 1 (quantizer_bytes demo_quantizer) = Ret demo_quantizer.
Proof. apply (quantizer_roundtrip 1); [|reflexivity]. unfold wf_quantizer; cbn. split_and!; done || lia. Defined.

Definition quan_config (test : Z) : config := Config
  "base.bin" "query.tsv" 0 0 "int8" "float32" 32 2 (-1) 10000 1000 "L2"
  "truth.txt" "DEFAULT" 0 "" 32 2 "pq" 1 "out" "quantizer.bin" "quan.bin" "" test.

Definition quan_world : world :=
  World {[ "base.bin" := default_file 3 2 sample_body; "truth.txt" := bytes_of_str "1" ]} {[ "out" ]} [].

Lemma training_test_never_returns_witness :
  (train_pq 9 (quan_config 1) quan_world).1 <> Ret tt /\ (train_opq 9 (quan_config 1) quan_world).1 <> Ret tt.
Proof. by apply training_test_never_returns. Defined.

Lemma train_pq_needs_truth_witness : (train_pq 9 (quan_config 0) (World (delete "truth.txt" (fs quan_world)) {[ "out" ]} [])).1 <> Ret tt.
Proof. apply train_pq_needs_truth; [vm_compute; set_solver|reflexivity]. Defined.
