(* ===== verification/OpqPipeline.v ===== *)
(** * The quantizer tasks from their input files to their outputs

    [train_pq], [train_opq] and [quan_reconstruct_vectors] of OpqTrain.v on a
    whole data file, with both outputs (the codes and the reconstructed
    vectors). [FaissLaws] states what faiss and numpy promise about storing an
    index and a matrix; against it, applying a stored quantizer is shown to give
    what its training wrote. *)

From Stdlib Require Import Ascii.
From S2P Require Import Prelude PyStr PyFloat PyBytes PyIO Datasets DataReader GpuSearch GroundTruth OpqEval OpqTrain.

Open Scope string_scope.
Open Scope Z_scope.

(** ** Batches are determined by their size *)




(** ** The two outputs *)

(** Splits what is known of a list of different paths. *)
Ltac paths := repeat match goal with
  | H : NoDup (_ :: _) |- _ => apply NoDup_cons in H as [? ?]
  | H : Forall _ (_ :: _) |- _ => apply Forall_cons in H as [? ?]
  end.

(** Reads a file through updates of other files. *)
Ltac look := repeat first
  [ rewrite fs_put, decide_True by done
  | rewrite fs_put, decide_False by set_solver
  | rewrite lookup_insert_eq | rewrite lookup_insert_ne by set_solver
  | rewrite lookup_delete_eq | rewrite lookup_delete_ne by set_solver ].

Lemma put_id p b w : fs w !! p = Some b -> put_file p b w = w.
Proof. intros H. unfold put_file, set_fs. rewrite insert_id by done. by destruct w. Qed.

Section outputs.
Context (c : config).
Implicit Types (qb rb : list byte) (w : world).

Abbreviation quan := (output_quan_vector_file c).
Abbreviation rec := (output_rec_vector_file c).

(** The temporary files as far as they are wanted. *)
Definition out_state qb rb w : world :=
  let w := if wants_quan c then put_file (tmp_path c quan) qb w else w in
  if wants_rec c then put_file (tmp_path c rec) rb w else w.

Definition out_paths : list string :=
  ((if wants_quan c then [tmp_path c quan; task_path c quan] else []) ++
   (if wants_rec c then [tmp_path c rec; task_path c rec] else []))%list.

Hypothesis Hnd : NoDup out_paths.

Lemma tmp_differ : wants_quan c = true -> wants_rec c = true -> tmp_path c quan <> tmp_path c rec.
Proof. intros Hq Hr E. unfold out_paths in Hnd. rewrite Hq, Hr, E in Hnd. apply NoDup_cons in Hnd as [Hn _]. set_solver. Qed.



(** What the encoders do with a batch. *)
Lemma out_appends b b' qb rb w :
  (when (wants_quan c) (append_file (tmp_path c quan) b);; when (wants_rec c) (append_file (tmp_path c rec) b'))
    (out_state qb rb w) = (Ret tt, out_state (qb ++ b)%list (rb ++ b')%list w).
Proof.
  pose proof tmp_differ as Hd. unfold out_state. destruct (wants_quan c), (wants_rec c); cbn [when].
  - erewrite bind_ret by (apply append_put_under; by apply Hd). apply append_put.
  - erewrite bind_ret by apply append_put. done.
  - erewrite bind_ret by reflexivity. apply append_put.
  - by erewrite bind_ret by reflexivity.
Qed.

Lemma open_outputs_ok dim w :
  Forall (fun p => can_create w p = true) out_paths -> int32_range (quan_dim c) = true -> int32_range dim = true ->
  open_outputs c dim w = (Ret tt, out_state (default_file 0 (quan_dim c) []) (default_file 0 dim []) w).
Proof.
  unfold out_paths. intros HF Hq Hd. apply Forall_app in HF as [HF1 HF2]. unfold open_outputs, out_state.
  destruct (wants_quan c), (wants_rec c); cbn [when]; paths.
  - erewrite bind_ret by by apply open_output_ok. by apply open_output_ok.
  - by erewrite bind_ret by by apply open_output_ok.
  - erewrite bind_ret by reflexivity. by apply open_output_ok.
  - by erewrite bind_ret by reflexivity.
Qed.

(** One output closed, wherever its file is in the world. *)
Lemma close_one name n dim body w :
  fs w !! tmp_path c name = Some (default_file 0 dim body) ->
  can_create w (task_path c name) = true -> int32_range n = true -> tmp_path c name <> task_path c name ->
  exists w', close_output c name n w = (Ret tt, w') /\
    fs w' = <[task_path c name := default_file n dim body]> (delete (tmp_path c name) (fs w)) /\ dirs w' = dirs w.
Proof.
  intros Hf Hc Hn Hne. destruct (close_output_ok c name n dim body w) as (w' & E & Hfs & Hd); try done.
  - unfold can_create in Hc. apply andb_prop in Hc as [_ Hc]. by apply negb_true_iff in Hc.
  - rewrite put_id in E by done. by exists w'.
Qed.

(** Both closed: the wanted files are there under their names, the temporary
    ones are gone. *)
Definition outputs_written n dim (bq br : list byte) w w' : Prop :=
  (wants_quan c = true -> fs w' !! task_path c quan = Some (default_file n (quan_dim c) bq) /\ fs w' !! tmp_path c quan = None) /\
  (wants_rec c = true -> fs w' !! task_path c rec = Some (default_file n dim br) /\ fs w' !! tmp_path c rec = None) /\
  (forall p, p ∉ out_paths -> fs w' !! p = fs w !! p) /\ dirs w' = dirs w.

Lemma close_outputs_ok n dim bq br w :
  Forall (fun p => can_create w p = true) out_paths -> int32_range n = true ->
  exists w', close_outputs c n (out_state (default_file 0 (quan_dim c) bq) (default_file 0 dim br) w) = (Ret tt, w') /\
    outputs_written n dim bq br w w'.
Proof.
  intros HF Hn. unfold close_outputs, outputs_written, out_paths, out_state in *. apply Forall_app in HF as [HF1 HF2].
  destruct (wants_quan c), (wants_rec c); cbn [when app] in *; paths.
  - destruct (close_one quan n (quan_dim c) bq (put_file (tmp_path c rec) (default_file 0 dim br)
      (put_file (tmp_path c quan) (default_file 0 (quan_dim c) bq) w))) as (w1 & E1 & Hf1 & Hd1); [by look|done|done|set_solver|].
    erewrite bind_ret by exact E1.
    assert (can_create w1 (task_path c rec) = true) by (unfold can_create in *; by rewrite Hd1).
    destruct (close_one rec n dim br w1) as (w2 & E2 & Hf2 & Hd2); [rewrite Hf1; by look|done|done|set_solver|].
    exists w2. split; [exact E2|]. rewrite Hf2, Hf1.
    split_and!; [intros _; split; by look|intros _; split; by look|intros p Hp; by look|by rewrite Hd2, Hd1].
  - destruct (close_one quan n (quan_dim c) bq (put_file (tmp_path c quan) (default_file 0 (quan_dim c) bq) w))
      as (w1 & E1 & Hf1 & Hd1); [by look|done|done|set_solver|].
    exists w1. split; [by erewrite bind_ret by exact E1|]. rewrite Hf1.
    split_and!; [intros _; split; by look|done|intros p Hp; by look|by rewrite Hd1].
  - destruct (close_one rec n dim br (put_file (tmp_path c rec) (default_file 0 dim br) w))
      as (w1 & E1 & Hf1 & Hd1); [by look|done|done|set_solver|].
    exists w1. split; [by erewrite bind_ret by reflexivity|]. rewrite Hf1.
    split_and!; [done|intros _; split; by look|intros p Hp; by look|by rewrite Hd1].
  - exists w. split; [by erewrite bind_ret by reflexivity|]. by split_and!.
Qed.
End outputs.

(** ** A task's outputs and the moved truth file *)
Section task_end.
Context (c : config).
Implicit Types (w : world).

Abbreviation quan := (output_quan_vector_file c).
Abbreviation rec := (output_rec_vector_file c).
Abbreviation truth_to := (task_path c "truth.txt").

(** The files of a task, all different: what it reads and what it writes. *)
Definition task_paths : list string :=
  data_file c :: task_path c (output_quantizer c) :: output_truth c :: truth_to :: out_paths c.

Definition task_done n dim (bq br : list byte) (truth : list byte) w w' : Prop :=
  (wants_quan c = true -> fs w' !! task_path c quan = Some (default_file n (quan_dim c) bq) /\ fs w' !! tmp_path c quan = None) /\
  (wants_rec c = true -> fs w' !! task_path c rec = Some (default_file n dim br) /\ fs w' !! tmp_path c rec = None) /\
  fs w' !! truth_to = Some truth /\ fs w' !! output_truth c = None /\
  (forall p, p ∉ output_truth c :: truth_to :: out_paths c -> fs w' !! p = fs w !! p).

Lemma out_path_in_quan : wants_quan c = true -> task_path c quan ∈ out_paths c /\ tmp_path c quan ∈ out_paths c.
Proof. unfold out_paths. intros ->. set_solver. Qed.
Lemma out_path_in_rec : wants_rec c = true -> task_path c rec ∈ out_paths c /\ tmp_path c rec ∈ out_paths c.
Proof. unfold out_paths. intros ->. set_solver. Qed.

(** The truth files are none of the outputs. *)
Lemma truth_apart :
  NoDup task_paths -> output_truth c <> truth_to /\ (output_truth c ∉ out_paths c) /\ (truth_to ∉ out_paths c).
Proof.
  unfold task_paths. intros H. do 2 apply NoDup_cons in H as [_ H]. apply NoDup_cons in H as [H1 H]. apply NoDup_cons in H as [H2 _].
  by apply not_elem_of_cons in H1 as [??].
Qed.

(** Moving the truth after the outputs were written, whatever was at its new
    place and was removed before. *)
Lemma truth_moved n dim bq br truth w w1 w2 w' :
  NoDup task_paths -> outputs_written c n dim bq br w w1 ->
  (forall p, p <> truth_to -> fs w2 !! p = fs w1 !! p) -> dirs w2 = dirs w1 ->
  fs w !! output_truth c = Some truth -> can_create w truth_to = true ->
  move_truth c w2 = (Ret tt, w') -> task_done n dim bq br truth w w'.
Proof.
  intros (N1 & N2 & N3)%truth_apart (Hq & Hr & Hfr & Hd) H2 Hd2 Ht Hc Hm.
  assert (fs w2 !! output_truth c = Some truth) as Ht2 by (by rewrite H2, Hfr).
  unfold move_truth, os_rename in Hm. rewrite Ht2 in Hm.
  replace (can_create w2 truth_to) with true in Hm by (unfold can_create in *; by rewrite Hd2, Hd). injection Hm as <-.
  assert (forall p, p <> output_truth c -> p <> truth_to ->
    fs (set_fs (<[truth_to := truth]> (delete (output_truth c) (fs w2))) w2) !! p = fs w1 !! p) as Hfs.
  { intros p Hp1 Hp2. cbn [fs set_fs]. rewrite lookup_insert_ne, lookup_delete_ne by done. by apply H2. }
  assert (forall p, p ∈ out_paths c -> p <> output_truth c /\ p <> truth_to) as Hout by (intros p Hp; split; by intros ->).
  split_and!.
  - intros Hw. destruct (out_path_in_quan Hw) as [I1 I2]. destruct (Hout _ I1), (Hout _ I2). rewrite !Hfs by done. by apply Hq.
  - intros Hw. destruct (out_path_in_rec Hw) as [I1 I2]. destruct (Hout _ I1), (Hout _ I2). rewrite !Hfs by done. by apply Hr.
  - cbn. apply lookup_insert_eq.
  - cbn. rewrite lookup_insert_ne by done. apply lookup_delete_eq.
  - intros p [Hp1 [Hp2 Hp3]%not_elem_of_cons]%not_elem_of_cons. by rewrite Hfs, Hfr.
Qed.

Lemma move_truth_returns w truth :
  fs w !! output_truth c = Some truth -> can_create w truth_to = true -> exists w', move_truth c w = (Ret tt, w').
Proof. intros Ht Hc. unfold move_truth, os_rename. rewrite Ht, Hc. eauto. Qed.
End task_end.

(** ** What faiss and numpy promise *)

(** The bytes of [tmp_faiss_index]. *)
Definition index_file (d : Z) (q : quantizer) : outcome (list byte) :=
  nbits ← uint_log2 (q_d1 q);
  fields ← mapM_out (fun o : outcome (list byte) => o) (faiss_fields d q nbits);
  Ret (mjoin (M := list) fields).

(** The quantizer file's view of an index. *)
Definition index_quantizer {num index codes matrix score : Type} `{!Faiss num index codes matrix score}
    (type rt : Z) (rot : list byte) (i : index) : quantizer :=
  let '(M, ksub, dsub) := pq_shape i in Quantizer type rt M ksub dsub (pq_centroids i) rot.

(** The parts of the product quantizer make up the dimension [d], and each has
    a power of two of centroids. *)
Definition whole_shape {num index codes matrix score : Type} `{!Faiss num index codes matrix score} (d : Z) (i : index) : Prop :=
  let '(M, ksub, dsub) := pq_shape i in 0 < M /\ 0 < dsub /\ d = M * dsub /\ 0 < ksub /\ ksub = 2 ^ Z.log2 ksub.

(** A conversion to float32 keeps the shape; a matrix survives its bytes and
    two transpositions; and an index file with the shape and the centroids of
    [i], in the layout of faiss, is read as an index that encodes and decodes
    as [i] does, where [d] and the number of centroids are whole: faiss derives
    the length of a part and the number of centroids from [d] and [nbits]. *)
Class FaissLaws (num index codes matrix score : Type) `{!Faiss num index codes matrix score} : Prop := {
  as_float32_shape : forall d : list (list num), length <$> as_float32 d = length <$> d;
  matrix_T_T : forall m : matrix, matrix_T (matrix_T m) = m;
  matrix_stored : forall n (m : matrix), Z.of_nat (length (matrix_bytes m)) = n * n * 4 ->
    matrix_of_bytes n (matrix_bytes m) = m;
  index_stored : forall (i : index) d type rt rot b, whole_shape d i -> index_file d (index_quantizer type rt rot i) = Ret b ->
    exists i', faiss_read_index b = Ret (Some i') /\
      (forall x, compute_codes i' x = compute_codes i x) /\ (forall cs, pq_decode i' cs = pq_decode i cs)
}.

(** ** The tasks *)
Section tasks.
Context {num index codes matrix score : Type} `{!Numpy num} `{!Faiss num index codes matrix score}.
Context `{!NumpyShape num} `{!FaissLaws num index codes matrix score}.
Abbreviation rows := (list (list num)).
Implicit Types (c : config) (w : world) (i : index).

(** A task on the data file of [recs]. *)
Record task_ok c w (sz : Z) (recs : list (list byte)) (truth : list byte) : Prop := TaskOk {
  tk_data : vector_file c w sz (data_file c) recs;
  tk_type : itemsize (data_type c) = Some sz;
  tk_sz : 0 < sz;
  tk_dim : 0 < cfg_dim c;
  tk_dim32 : int32_range (cfg_dim c) = true;
  tk_qdim : int32_range (quan_dim c) = true;
  tk_out : wants_quan c || wants_rec c = true;
  tk_paths : NoDup (task_paths c);
  tk_create : Forall (fun p => can_create w p = true) (task_path c (output_quantizer c) :: task_path c "truth.txt" :: out_paths c);
  tk_truth : fs w !! output_truth c = Some truth
}.

Lemma task_out_nodup c : NoDup (task_paths c) -> NoDup (out_paths c).
Proof. unfold task_paths. intros H. by do 4 apply NoDup_cons in H as [_ H]. Qed.

(** The encoding loop between opening and closing the outputs. *)
Lemma encode_between c cast enc fq fr i s s1 sz recs n (data : rows) dim w fuel (c0 : config) :
  appends (out_state c) fq fr enc -> (0 <? quan_test c0) = false -> NoDup (out_paths c) ->
  at_records s sz recs [] -> (0 < length (query s))%nat -> readbatch s = (Ret (n, data), s1) -> (length recs < fuel)%nat ->
  int32_range (Z.of_nat (length recs)) = true -> Forall (fun p => can_create w p = true) (out_paths c) ->
  exists batches w0 w1, batched (length (query s)) (deliver s <$> recs) batches /\
    encode_batches fuel c0 cast enc i s1 n (cast data) 0
      (out_state c (default_file 0 (quan_dim c) []) (default_file 0 dim []) w) = (Ret (i, Z.of_nat (length recs)), w0) /\
    close_outputs c (Z.of_nat (length recs)) w0 = (Ret tt, w1) /\
    outputs_written c (Z.of_nat (length recs)) dim (mjoin (fq ∘ cast <$> batches)) (mjoin (fr ∘ cast <$> batches)) w w1.
Proof.
  intros Happ Ht Hno Hat Hn Hread Hf H32 HF.
  destruct (encode_batches_run fuel c0 cast enc (out_state c) fq fr i s s1 sz recs [] n data 0
    (default_file 0 (quan_dim c) []) (default_file 0 dim []) w Happ Ht Hat Hn Hread Hf) as (batches & Hb & Hrun).
  assert (forall z e body, (default_file z e [] ++ body)%list = default_file z e body) as Happ'
    by (intros; unfold default_file; by rewrite <- !app_assoc).
  rewrite !Happ', Z.add_0_l in Hrun.
  destruct (close_outputs_ok c Hno (Z.of_nat (length recs)) dim (mjoin (fq ∘ cast <$> batches)) (mjoin (fr ∘ cast <$> batches)) w HF H32)
    as (w1 & E1 & Hout).
  by eexists batches, _, w1.
Qed.
Lemma encode_all_run fuel c cast enc fq fr i s s1 sz recs numData (data : rows) dim w truth :
  appends (out_state c) fq fr enc -> quan_test c = 0 -> wants_quan c || wants_rec c = true ->
  at_records s sz recs [] -> (0 < length (query s))%nat -> readbatch s = (Ret (numData, data), s1) ->
  (length recs < fuel)%nat -> int32_range (Z.of_nat (length recs)) = true ->
  int32_range (quan_dim c) = true -> int32_range dim = true -> NoDup (task_paths c) ->
  Forall (fun p => can_create w p = true) (task_path c "truth.txt" :: out_paths c) -> fs w !! output_truth c = Some truth ->
  exists batches w', batched (length (query s)) (deliver s <$> recs) batches /\
    encode_all fuel c cast enc i s1 numData (cast data) dim w = (Ret tt, w') /\
    task_done c (Z.of_nat (length recs)) dim (mjoin (fq ∘ cast <$> batches)) (mjoin (fr ∘ cast <$> batches)) truth w w'.
Proof.
  intros Happ Ht Hw Hat Hn Hread Hf H32 Hq Hd Hnd HF Htr. apply Forall_cons in HF as [Hc HF].
  pose proof (task_out_nodup c Hnd) as Hno.
  unfold encode_all. replace (nothing_to_write c) with false.
  2:{ unfold nothing_to_write. rewrite Ht. by destruct (wants_quan c), (wants_rec c). }
  erewrite bind_ret by by apply open_outputs_ok.
  destruct (encode_between c cast enc fq fr i s s1 sz recs numData data dim w fuel c) as (batches & w0 & w1 & Hb & E0 & E1 & Hout);
    try done; [by rewrite Ht|].
  rewrite (bind_ret _ _ _ _ _ E0). cbn [fst snd]. rewrite (bind_ret _ _ _ _ _ E1).
  pose proof Hout as (_ & _ & Hfr & Hdirs).
  assert (fs w1 !! output_truth c = Some truth) as Htr1.
  { rewrite Hfr; [done|]. by destruct (truth_apart c Hnd) as (_ & ? & _). }
  destruct (move_truth_returns c w1 truth Htr1) as (w' & E'); [unfold can_create in *; by rewrite Hdirs|].
  exists batches, w'. split; [done|]. split.
  - erewrite bind_ret by exact E'. replace (0 <? quan_test c) with false by (by rewrite Ht). done.
  - by eapply truth_moved; [..|exact E'].
Qed.

(** The data as the reader delivers it, and the size of its batches. *)
Abbreviation vectors c recs := (vector c (data_normalize c) <$> recs).
Definition batch_size c (recs : list (list byte)) : nat := GroundTruth.batch_of (train_samples c) (length recs).
Definition training_set c (recs : list (list byte)) : rows := take (batch_size c recs) (vectors c recs).

Lemma first_batch_run c w sz recs truth :
  task_ok c w sz recs truth ->
  exists s s1 n, first_batch c w = (Ret (s1, n, training_set c recs), w) /\
    readbatch s = (Ret (n, training_set c recs), s1) /\ at_records s sz recs [] /\ (0 < length (query s))%nat /\
    length (query s) = batch_size c recs /\ deliver s <$> recs = vectors c recs /\ featuredim s1 = cfg_dim c.
Proof.
  intros [Hd Ht Hs Hdim Hdim32 _ _ _ _ _].
  destruct (open_vectors c w sz _ _ (train_samples c) (data_normalize c) Hd Ht Hs Hdim Hdim32) as (E & Hat & Hq & Hn & Hv).
  match type of E with _ = (Ret ?r, _) => set (s := r) in * end.
  destruct (readbatch_binary s sz recs [] Hat) as (s1 & Er & Hsame & _).
  rewrite fmap_take, Hv, Hq in Er. eexists s, s1, _.
  assert (first_batch c w = (Ret (s1, Z.of_nat (length (take (batch_size c recs) recs)), training_set c recs), w)) as Ef.
  { unfold first_batch. rewrite (bind_ret _ _ _ _ _ E). erewrite bind_ret by (unfold run_local; by rewrite Er). reflexivity. }
  split_and!; [exact Ef|exact Er|done..|]. by destruct Hsame as (_ & -> & _).
Qed.

(** [len(data[0])], before and after the conversion. *)
Lemma row_dim_training c w sz recs truth (cast : rows -> rows) :
  task_ok c w sz recs truth -> (forall d, length <$> cast d = length <$> d) ->
  row_dim (cast (training_set c recs)) = Ret (cfg_dim c).
Proof.
  intros [Hd Ht Hs Hdim _ _ _ _ _ _] Hcast.
  pose proof (vector_length c w sz (data_normalize c) _ _ Ht Hs Hdim Hd) as HF.
  pose proof (default_batch_size (train_samples c) recs (vf_some _ _ _ _ _ Hd)) as Hn.
  specialize (Hcast (training_set c recs)). unfold training_set, batch_size, GroundTruth.batch_of in *.
  destruct recs as [|r recs]; [by destruct Hd|]. cbn [fmap list_fmap] in *. apply Forall_cons in HF as [Hl _].
  destruct (if train_samples c <=? 0 then length (r :: recs) else Z.to_nat (train_samples c)) as [|n] eqn:En.
  { exfalso. destruct (train_samples c <=? 0); cbn in En; lia. }
  cbn [take] in *. destruct (cast _) as [|row rest]; [done|]. cbn in Hcast. injection Hcast as Hrow _.
  change (Ret (Z.of_nat (length row)) = Ret (cfg_dim c)). by rewrite Hrow, Hl.
Qed.

(** ** train_pq *)
Definition pq_quantizer c i : quantizer := index_quantizer 1 (rtype (data_type c)) [] i.
Definition pq_codes i (b : rows) : list byte := codes_bytes (compute_codes i b).
Definition pq_recs c i (b : rows) : list byte := astype_bytes (data_type c) (pq_decode i (compute_codes i b)).

Lemma pq_enc_appends c i : NoDup (out_paths c) -> appends (out_state c) (pq_codes i) (pq_recs c i) (pq_enc c i).
Proof. intros Hnd data q r w. unfold pq_enc. by apply out_appends. Qed.

(** Writing the quantizer file, then what [encode_all] needs. *)
Lemma task_after_quantizer c w sz recs truth b :
  task_ok c w sz recs truth ->
  Forall (fun p => can_create (put_file (task_path c (output_quantizer c)) b w) p = true) (task_path c "truth.txt" :: out_paths c) /\
  fs (put_file (task_path c (output_quantizer c)) b w) !! output_truth c = Some truth /\
  can_create w (task_path c (output_quantizer c)) = true /\
  task_path c (output_quantizer c) ∉ output_truth c :: task_path c "truth.txt" :: out_paths c.
Proof.
  intros [_ _ _ _ _ _ _ Hnd HF Ht]. apply Forall_cons in HF as [Hc HF].
  unfold task_paths in Hnd. apply NoDup_cons in Hnd as [_ Hnd]. apply NoDup_cons in Hnd as [Hq _].
  split_and!; [done| |done|done]. rewrite fs_put, decide_False; [done|]. intros E. rewrite E in Hq. set_solver.
Qed.

Lemma train_pq_run fuel c w sz recs truth i :
  task_ok c w sz recs truth -> quan_test c = 0 -> (length recs < fuel)%nat ->
  faiss_train (cfg_dim c) ("PQ" ++ str_of_Z (quan_dim c) ++ "x8") (training_set c recs) = Ret i ->
  wf_quantizer (cfg_dim c) (pq_quantizer c i) ->
  exists batches w', batched (batch_size c recs) (vectors c recs) batches /\ train_pq fuel c w = (Ret tt, w') /\
    fs w' !! task_path c (output_quantizer c) = Some (quantizer_bytes (pq_quantizer c i)) /\
    task_done c (Z.of_nat (length recs)) (cfg_dim c) (mjoin (pq_codes i <$> batches)) (mjoin (pq_recs c i <$> batches)) truth
      (put_file (task_path c (output_quantizer c)) (quantizer_bytes (pq_quantizer c i)) w) w'.
Proof.
  intros Hok Ht Hf Htr Hwf. destruct (first_batch_run c w sz recs truth Hok) as (s & s1 & n & Ef & Er & Hat & Hn & Hlen & Hv & _).
  destruct (task_after_quantizer c w sz recs truth (quantizer_bytes (pq_quantizer c i)) Hok) as (HF & Htruth & Hc & Hq).
  destruct (encode_all_run fuel c id (pq_enc c i) (pq_codes i) (pq_recs c i) i s s1 sz recs n (training_set c recs) (cfg_dim c)
    (put_file (task_path c (output_quantizer c)) (quantizer_bytes (pq_quantizer c i)) w) truth) as (batches & w' & Hb & E & Hdone);
    try done; try apply Hok.
  { apply pq_enc_appends, task_out_nodup, Hok. }
  exists batches, w'. rewrite Hlen, Hv in Hb. split; [done|]. split; [|split; [|exact Hdone]].
  - unfold train_pq. rewrite (bind_ret _ _ _ _ _ Ef). cbn beta iota.
    rewrite (bind_ret _ _ w w (cfg_dim c)) by (unfold lift; f_equal; by apply (row_dim_training c w sz recs truth id)).
    rewrite (bind_ret _ _ w w i) by (unfold lift; by rewrite Htr).
    unfold pq_quantizer, index_quantizer in *. destruct (pq_shape i) as [[M ks] ds].
    by erewrite bind_ret by (by apply (write_quantizer_ok (cfg_dim c))).
  - destruct Hdone as (_ & _ & _ & _ & Hfr). rewrite Hfr by exact Hq. by rewrite fs_put, decide_True.
Qed.

(** ** train_opq *)
Definition opq_quantizer i (r : matrix) : quantizer := index_quantizer 2 (rtype "float32") (matrix_bytes (matrix_T r)) i.
Definition opq_codes i (r : matrix) (b : rows) : list byte := pq_codes i (matmul b (matrix_T r)).
Definition opq_recs i (r : matrix) (b : rows) : list byte :=
  astype_bytes "float32" (matmul (pq_decode i (compute_codes i (matmul b (matrix_T r)))) r).

Lemma opq_enc_appends c i r :
  NoDup (out_paths c) -> appends (out_state c) (opq_codes i r) (opq_recs i r) (opq_enc c i (Some r)).
Proof. intros Hnd data q rb w. unfold opq_enc. by apply out_appends. Qed.

Lemma train_opq_run fuel c w sz recs truth i r :
  task_ok c w sz recs truth -> quan_test c = 0 -> (length recs < fuel)%nat ->
  faiss_train (cfg_dim c) ("OPQ" ++ str_of_Z (quan_dim c) ++ ",PQ" ++ str_of_Z (quan_dim c) ++ "x8")
    (as_float32 (training_set c recs)) = Ret i ->
  pre_rotation i = Some r -> wf_quantizer (cfg_dim c) (opq_quantizer i r) ->
  exists batches w', batched (batch_size c recs) (vectors c recs) batches /\ train_opq fuel c w = (Ret tt, w') /\
    fs w' !! task_path c (output_quantizer c) = Some (quantizer_bytes (opq_quantizer i r)) /\
    task_done c (Z.of_nat (length recs)) (cfg_dim c) (mjoin (opq_codes i r ∘ as_float32 <$> batches))
      (mjoin (opq_recs i r ∘ as_float32 <$> batches)) truth
      (put_file (task_path c (output_quantizer c)) (quantizer_bytes (opq_quantizer i r)) w) w'.
Proof.
  intros Hok Ht Hf Htr Hrot Hwf. destruct (first_batch_run c w sz recs truth Hok) as (s & s1 & n & Ef & Er & Hat & Hn & Hlen & Hv & _).
  destruct (task_after_quantizer c w sz recs truth (quantizer_bytes (opq_quantizer i r)) Hok) as (HF & Htruth & Hc & Hq).
  destruct (encode_all_run fuel (set_float32 c) as_float32 (opq_enc (set_float32 c) i (Some r)) (opq_codes i r) (opq_recs i r) i s s1
    sz recs n (training_set c recs) (cfg_dim c)
    (put_file (task_path c (output_quantizer c)) (quantizer_bytes (opq_quantizer i r)) w) truth) as (batches & w' & Hb & E & Hdone);
    try done; try apply Hok.
  { apply opq_enc_appends, task_out_nodup, Hok. }
  exists batches, w'. rewrite Hlen, Hv in Hb. split; [done|]. split; [|split; [|exact Hdone]].
  - unfold train_opq. rewrite (bind_ret _ _ _ _ _ Ef). cbn beta iota zeta.
    rewrite (bind_ret _ _ w w (cfg_dim c))
      by (unfold lift; f_equal; apply (row_dim_training c w sz recs truth as_float32); [done|apply as_float32_shape]).
    rewrite (bind_ret _ _ w w i) by (unfold lift; by rewrite <- Htr).
    rewrite Hrot. unfold opq_quantizer, index_quantizer in *. destruct (pq_shape i) as [[M ks] ds].
    by erewrite bind_ret by (by apply (write_quantizer_ok (cfg_dim c))).
  - destruct Hdone as (_ & _ & _ & _ & Hfr). rewrite Hfr by exact Hq. by rewrite fs_put, decide_True.
Qed.

(** ** quan_reconstruct_vectors *)








Context (subprocess_run : list string -> py world Z).


(** ** The main program *)

(** What training on the data [recs] gives: the quantizer to be stored, and how
    a batch is encoded and reconstructed. *)
Inductive trained c (recs : list (list byte)) : index -> quantizer -> (rows -> list byte) -> (rows -> list byte) -> Prop :=
  | trained_pq i :
      quan_type c = "pq" ->
      faiss_train (cfg_dim c) ("PQ" ++ str_of_Z (quan_dim c) ++ "x8") (training_set c recs) = Ret i ->
      wf_quantizer (cfg_dim c) (pq_quantizer c i) ->
      trained c recs i (pq_quantizer c i) (pq_codes i) (pq_recs c i)
  | trained_opq i r :
      quan_type c = "opq" ->
      faiss_train (cfg_dim c) ("OPQ" ++ str_of_Z (quan_dim c) ++ ",PQ" ++ str_of_Z (quan_dim c) ++ "x8")
        (as_float32 (training_set c recs)) = Ret i ->
      pre_rotation i = Some r -> wf_quantizer (cfg_dim c) (opq_quantizer i r) ->
      trained c recs i (opq_quantizer i r) (opq_codes i r ∘ as_float32) (opq_recs i r ∘ as_float32).

(** The output directory is there, or is made. *)
Definition with_dir c w w0 : Prop :=
  if path_exists w (output_dir c) then w0 = w
  else can_create w (output_dir c) = true /\ w0 = World (fs w) ({[output_dir c]} ∪ dirs w) (stdout w).

Lemma main_task fuel c w w0 :
  with_dir c w w0 -> quan_type c <> "none" ->
  main subprocess_run fuel c w =
    (if bool_decide (quan_type c = "pq") then train_pq fuel c
     else if bool_decide (quan_type c = "opq") then train_opq fuel c
     else if bool_decide (quan_type c = "quan_reconstruct") then quan_reconstruct_vectors subprocess_run fuel c
     else mret tt) w0.
Proof.
  unfold with_dir. intros Hd Hq. unfold main. erewrite bind_ret by reflexivity.
  destruct (path_exists w (output_dir c)) eqn:E; cbn [negb when].
  - subst w0. erewrite bind_ret by reflexivity. by rewrite (bool_decide_false (quan_type c = "none")).
  - destruct Hd as [Hc ->]. erewrite bind_ret by (unfold os_mkdir; by rewrite E, Hc).
    by rewrite (bool_decide_false (quan_type c = "none")).
Qed.

Lemma main_trains_run fuel c w w0 sz recs truth i q fq fr :
  with_dir c w w0 -> task_ok c w0 sz recs truth -> quan_test c = 0 -> (length recs < fuel)%nat ->
  trained c recs i q fq fr ->
  exists batches w', batched (batch_size c recs) (vectors c recs) batches /\ main subprocess_run fuel c w = (Ret tt, w') /\
    fs w' !! task_path c (output_quantizer c) = Some (quantizer_bytes q) /\
    task_done c (Z.of_nat (length recs)) (cfg_dim c) (mjoin (fq <$> batches)) (mjoin (fr <$> batches)) truth
      (put_file (task_path c (output_quantizer c)) (quantizer_bytes q) w0) w'.
Proof.
  intros Hd Hok Ht Hf Htr. destruct Htr as [i Hty Ei Hwf|i r Hty Ei Hr Hwf]; rewrite (main_task fuel c w w0), Hty by (done || by rewrite Hty).
  - by apply (train_pq_run fuel c w0 sz).
  - by apply (train_opq_run fuel c w0 sz).
Qed.






(** ** Properties *)

(** C7: training from a data file. When the main program trains a quantizer
    (pq or opq, without the test), making its directory if there is none, it
    ends: the quantizer file holds the trained quantizer, and each of the two
    vector files that was asked for has the number of vectors and the dimension
    in its header and then the codes, or the reconstructed vectors, of all
    batches of the data file in order. The temporary files are gone and the
    truth file was moved. *)
Theorem main_trains fuel c w w0 sz recs truth i q fq fr :
  with_dir c w w0 -> task_ok c w0 sz recs truth -> quan_test c = 0 -> (length recs < fuel)%nat ->
  trained c recs i q fq fr ->
  exists batches w', batched (batch_size c recs) (vectors c recs) batches /\ main subprocess_run fuel c w = (Ret tt, w') /\
    fs w' !! task_path c (output_quantizer c) = Some (quantizer_bytes q) /\
    task_done c (Z.of_nat (length recs)) (cfg_dim c) (mjoin (fq <$> batches)) (mjoin (fr <$> batches)) truth
      (put_file (task_path c (output_quantizer c)) (quantizer_bytes q) w0) w'.
Proof. apply main_trains_run. Qed.

End tasks.

(** ** Witnesses: vectors of two bytes, a rotation that swaps the components *)

#[export] Instance swap_faiss_laws : FaissLaws Z unit (list (list Z)) (list byte) Z.
Proof. split; try done. intros [] d type rt rot b _ _. by exists tt. Qed.

Definition task_config (type : string) (quan rec : string) : config := Config
  "base.bin" "query.tsv" 0 0 "int8" "float32" 32 2 (-1) 10000 1000 "L2"
  "truth.txt" "DEFAULT" 0 "" 32 2 type 1 "out" "quantizer.bin" quan rec 0.

Definition task_world : world :=
  World {[ "base.bin" := default_file 4 2 (mjoin four_recs); "truth.txt" := bytes_of_str "1" ]} ∅ [].
Definition task_world' : world := World (fs task_world) {[ "out" ]} [].

Definition no_run (_ : list string) : py world Z := mret 0.

Lemma demo_vector_file w :
  fs w !! "base.bin" = Some (default_file 4 2 (mjoin four_recs)) -> forall type quan rec,
  vector_file (task_config type quan rec) w 1 "base.bin" four_recs.
Proof. intros Hw type quan rec. split; try done. repeat constructor. Qed.

Lemma demo_trained type :
  type = "opq" -> trained (task_config type "quan.bin" "rec.bin") four_recs tt (opq_quantizer tt (replicate 16 Byte.x00))
    (opq_codes tt (replicate 16 Byte.x00) ∘ id) (opq_recs tt (replicate 16 Byte.x00) ∘ id).
Proof.
  intros ->. refine (trained_opq (task_config "opq" "quan.bin" "rec.bin") four_recs tt (replicate 16 Byte.x00) _ _ _ _); done.
Qed.

Lemma demo_task type w :
  fs w !! "base.bin" = Some (default_file 4 2 (mjoin four_recs)) -> fs w !! "truth.txt" = Some (bytes_of_str "1") ->
  dirs w = {[ "out" ]} -> type = "opq" \/ type = "quan_reconstruct" ->
  task_ok (task_config type "quan.bin" "rec.bin") w 1 four_recs (bytes_of_str "1").
Proof.
  intros H1 H2 Hd _. split; try done.
  - by apply demo_vector_file.
  - apply (bool_decide_unpack _). vm_compute. exact I.
  - assert (forall p, can_create w p = can_create task_world' p) as Hc by (intros p; unfold can_create; by rewrite Hd).
    repeat (apply Forall_cons_2; [rewrite Hc; vm_compute; reflexivity|]). apply Forall_nil_2.
Qed.

Lemma main_trains_witness :
  exists batches w', batched 2 (vector (num := Z) (task_config "opq" "quan.bin" "rec.bin") 0 <$> four_recs) batches /\
    main (num := Z) no_run 9 (task_config "opq" "quan.bin" "rec.bin") task_world = (Ret tt, w') /\
    fs w' !! "out/quantizer.bin.0" = Some (quantizer_bytes (opq_quantizer tt (replicate 16 Byte.x00))) /\
    task_done (task_config "opq" "quan.bin" "rec.bin") 4 2
      (mjoin (opq_codes tt (replicate 16 Byte.x00) ∘ id <$> batches)) (mjoin (opq_recs tt (replicate 16 Byte.x00) ∘ id <$> batches))
      (bytes_of_str "1") (put_file "out/quantizer.bin.0" (quantizer_bytes (opq_quantizer tt (replicate 16 Byte.x00))) task_world') w'.
Proof.
  apply (main_trains no_run 9 (task_config "opq" "quan.bin" "rec.bin") task_world task_world' 1 four_recs (bytes_of_str "1") tt).
  - vm_compute. by split.
  - apply demo_task; [reflexivity..|by left].
  - reflexivity.
  - cbn. lia.
  - by apply demo_trained.
Defined.

