(* ===== verification/Model.v ===== *)
(** * Tools/nni-auto-tune/model.py

    The distance functions, the wrapper of the SPTAG index and the brute force
    searcher the tuner compares with. [scipy]'s [pdist], the [SPTAG] binding,
    [numpy.dot], [astype] and [numpy.argpartition] are parameters; the keys
    brute force search orders by are computed from the dot products in IEEE
    arithmetic, as the code does. *)

From Stdlib Require Import SpecFloat Lia.
From S2P Require Import Prelude TopK PyStr PyFloat IntFloat DataReader.

Open Scope string_scope.
Open Scope Z_scope.

(** ** Metrics *)
Section metrics.
Context {E : Type} `{!EqDecision E} `{!Countable E}.
(** [scipy_pdist([a, b], metric=m)[0]]. *)
Context (scipy_pdist : string -> list E -> list E -> float).

Definition pdist (a b : list E) (metric : string) : float := scipy_pdist metric a b.

Definition intersect (a b : list E) : Z :=
  Z.of_nat (size (list_to_set (C := gset E) a ∩ list_to_set (C := gset E) b)).

(** The integer 0 for an empty argument, a quotient otherwise. *)
Definition jaccard (a b : list E) : outcome number :=
  if (Z.of_nat (length a) =? 0) || (Z.of_nat (length b) =? 0) then Ret (NInt 0)
  else
    let i := intersect a b in
    q ← fdiv (float_of_Z i) (float_of_Z (Z.of_nat (length a) + Z.of_nat (length b) - i));
    Ret (NFloat q).

(** [1 - n]. *)
Definition one_minus (n : number) : float :=
  match n with NInt z => float_of_Z (1 - z) | NFloat f => fsub (float_of_Z 1) f end.

(** [metrics[m]['distance']] and [metrics[m]['distance_valid']]. *)
Definition distance (m : string) : outcome (list E -> list E -> outcome float) :=
  if bool_decide (m = "hamming") then Ret (fun a b => Ret (pdist a b "hamming"))
  else if bool_decide (m = "jaccard") then Ret (fun a b => j ← jaccard a b; Ret (one_minus j))
  else if bool_decide (m = "euclidean") then Ret (fun a b => Ret (pdist a b "euclidean"))
  else if bool_decide (m = "angular") then Ret (fun a b => Ret (pdist a b "cosine"))
  else Raise KeyError.

Definition distance_valid (m : string) (a : float) : bool :=
  if bool_decide (m = "jaccard") then fltb a (fsub (float_of_Z 1) (float_of_dec false 1 (-5))) else true.

End metrics.

(** ** The wrapper of the index *)
Section sptag.
Context {vec : Type}.

(** The binding: [AnnIndex(algo, type, dim)] and its methods. *)
Class AnnIndex (ann : Type) := {
  ann_new : string -> string -> Z -> ann;
  SetBuildParam : string -> string -> string -> ann -> ann;
  SetSearchParam : string -> string -> string -> ann -> ann;
  Build : list vec -> Z -> bool -> ann -> ann;
  Search : ann -> vec -> Z -> list Z;
  ann_Load : string -> ann
}.
Context {ann : Type} `{!AnnIndex ann}.

Abbreviation params := (list (string * string)).

(** The object; attributes that are not set yet are [None]. What was saved, by
    name, stands for the files of [Save]. *)
Record Sptag := SptagObj {
  s_algo : string;
  s_para : params;
  s_metric : string;
  s_data_type : option string;
  s_sptag : option ann;
  s_s_para : option params;
  s_saved : gmap string ann
}.

Definition metric_name (m : string) : outcome string :=
  if bool_decide (m = "angular") then Ret "Cosine"
  else if bool_decide (m = "euclidean") then Ret "L2"
  else Raise KeyError.

Definition type_name (t : string) : outcome string :=
  if bool_decide (t = "float32") then Ret "Float"
  else if bool_decide (t = "int8") then Ret "Int8"
  else if bool_decide (t = "int16") then Ret "Int16"
  else Raise KeyError.

Definition Sptag_init (algo metric : string) : outcome Sptag :=
  m ← metric_name metric; Ret (SptagObj algo [] m None None None ∅).

(** [for k, v in para.items(): self._sptag.SetBuildParam(k, str(v), "Index")]. *)
Definition set_build (para : params) (i : ann) : ann :=
  foldl (fun i kv => SetBuildParam kv.1 kv.2 "Index" i) i para.

Definition save (fn : string) (o : Sptag) : outcome Sptag :=
  match s_sptag o with
  | None => Raise AttributeError
  | Some i => Ret (SptagObj (s_algo o) (s_para o) (s_metric o) (s_data_type o) (s_sptag o) (s_s_para o)
                     (<[fn := i]> (s_saved o)))
  end.

(** [X] is the rows and [dim] is [X.shape[1]]; an empty [para] is false. *)
Definition fit (X : list vec) (dim : Z) (para : option params) (data_type : string) (save_index : bool) (o : Sptag)
    : outcome Sptag :=
  t ← type_name data_type;
  let i := ann_new (s_algo o) t dim in
  let i := SetBuildParam "NumberOfThreads" "32" "Index" i in
  let i := SetBuildParam "DistCalcMethod" (s_metric o) "Index" i in
  let p := default [] para in
  let i := set_build p i in
  let i := Build X (Z.of_nat (length X)) false i in
  let o := SptagObj (s_algo o) (if bool_decide (p = []) then s_para o else p) (s_metric o) (Some t) (Some i)
             (s_s_para o) (s_saved o) in
  if save_index then save "index" o else Ret o.

Definition set_query_arguments (s : option params) (o : Sptag) : outcome Sptag :=
  match default [] s with
  | [] => Ret o
  | p =>
      match s_sptag o with
      | None => Raise AttributeError
      | Some i =>
          Ret (SptagObj (s_algo o) (s_para o) (s_metric o) (s_data_type o)
                 (Some (foldl (fun i kv => SetSearchParam kv.1 kv.2 "Index" i) i p)) (Some p) (s_saved o))
      end
  end.

Definition query (v : vec) (k : Z) (o : Sptag) : outcome (list Z) :=
  match s_sptag o with None => Raise AttributeError | Some i => Ret (Search i v k) end.

(** [load] reads what was saved, by this or another process. *)
Definition load (fn : string) (o : Sptag) : Sptag :=
  SptagObj (s_algo o) (s_para o) (s_metric o) (s_data_type o)
    (Some (default (ann_Load fn) (s_saved o !! fn))) (s_s_para o) (s_saved o).

Definition items_text (suffix : string) (p : params) : string :=
  ", " ++ PyStr.join ", " ((fun kv => kv.1 ++ suffix ++ "=" ++ kv.2) <$> p).

Definition Sptag_str (o : Sptag) : outcome string :=
  let s := if bool_decide (s_para o = []) then "" else items_text "" (s_para o) in
  match s_s_para o with
  | None => Raise AttributeError
  | Some p =>
      let s := if bool_decide (p = []) then s else s ++ items_text "_s" p in
      Ret ("Sptag(metric=" ++ s_metric o ++ ", algo=" ++ s_algo o ++ s ++ ")")
  end.

End sptag.
Arguments AnnIndex vec ann : clear implicits.
Arguments Sptag ann : clear implicits.

(** ** Brute force search *)

(** numpy on arrays of floats: the value of an element, in the format of its
    type, and [numpy.dot] of two vectors, in whatever order BLAS adds. *)
Class Blas (E : Type) := {
  np_float : E -> float;
  np_dot : list E -> list E -> E
}.

(** Precision and exponent bound of a floating type. *)
Definition format (t : string) : Z * Z := if bool_decide (t = "float64") then (53, 1024) else (24, 128).

Section brute_force.
Context {E : Type} `{!EqDecision E} `{!Countable E} `{!Numpy E} `{!Blas E}.
Context (scipy_pdist : string -> list E -> list E -> float).
(** [X.astype(t)]. *)
Context (astype : string -> list E -> list E).
(** [numpy.argpartition(dists, n)] where it is defined. *)
Context (argpartition : list float -> Z -> list Z).

(** Attributes [fit] has not set yet are [None]. *)
Record BruteForceBLAS := BF {
  bf_metric : string; bf_precision : string;
  bf_index : option (list (list E)); bf_lengths : option (list E)
}.

Definition BF_init (metric precision : string) : outcome BruteForceBLAS :=
  if negb (bool_decide (metric ∈ ["angular"; "euclidean"; "hamming"; "jaccard"])) then Raise NotImplementedError
  else if bool_decide (metric = "hamming") && negb (bool_decide (precision = "bool")) then Raise NotImplementedError
  else Ret (BF metric precision None None).

(** A row of [(X**2).sum(-1)], and of [X / numpy.sqrt(lens)[..., numpy.newaxis]]. *)
Definition sq_length (row : list E) : E := np_sum (np_square <$> row).
Definition unit_length (row : list E) : list E :=
  let l := np_sqrt (sq_length row) in (fun x => np_div x l) <$> row.

Definition BF_fit (X : list (list E)) (o : BruteForceBLAS) : outcome BruteForceBLAS :=
  let X := astype (bf_precision o) <$> X in
  let set i l := Ret (BF (bf_metric o) (bf_precision o) (Some i) l) in
  if bool_decide (bf_metric o = "angular") then set (unit_length <$> X) (bf_lengths o)
  else if bool_decide (bf_metric o = "hamming") then
    let X := astype "float32" <$> X in set X (Some (sq_length <$> X))
  else if bool_decide (bf_metric o = "euclidean") then set X (Some (sq_length <$> X))
  else if bool_decide (bf_metric o = "jaccard") then set X (bf_lengths o)
  else Raise AssertionError.

(** The type of the index that [fit] makes. *)
Definition index_type (o : BruteForceBLAS) : string :=
  if bool_decide (bf_metric o = "hamming") then "float32" else bf_precision o.

(** [numpy.dot(index, v)]: the rows must have the length of [v]. *)
Definition dot_rows (index : list (list E)) (v : list E) : outcome (list E) :=
  if forallb (fun a => Nat.eqb (length a) (length v)) index then Ret ((fun a => np_dot a v) <$> index)
  else Raise ValueError.

(** [-d], and [l - 2 * d] in the arithmetic of the type [t]. *)
Definition neg_key (d : E) : float := SFopp (np_float d).
Definition length_key (t : string) (l d : E) : float :=
  let '(p, e) := format t in SFsub p e (np_float l) (SFmul p e (int_float p e 2) (np_float d)).

(** [-numpy.dot(self.index, v)]. *)
Definition neg_keys (index : list (list E)) (v : list E) : outcome (list float) :=
  dot_rows index v ≫= fun d : list E => Ret (neg_key <$> d).

(** [self.lengths - 2 * numpy.dot(self.index, v)]. *)
Definition length_keys (o : BruteForceBLAS) (index : list (list E)) (v : list E) : outcome (list float) :=
  match bf_lengths o with
  | None => Raise AttributeError
  | Some lengths => d ← dot_rows index v; Ret (zip_with (length_key (index_type o)) lengths d)
  end.

(** The keys the vectors are ordered by. *)
Definition dists_of (o : BruteForceBLAS) (index : list (list E)) (v : list E) : outcome (list float) :=
  if bool_decide (bf_metric o = "angular") then neg_keys index v
  else if bool_decide (bf_metric o = "euclidean") then length_keys o index v
  else if bool_decide (bf_metric o = "hamming") then length_keys o index v
  else if bool_decide (bf_metric o = "jaccard") then
    d ← distance scipy_pdist (bf_metric o); mapM_out (fun e => d v e) index
  else Raise AssertionError.

(** [kth] must be an index of the array. *)
Definition np_argpartition (dists : list float) (n : Z) : outcome (list Z) :=
  if (- Z.of_nat (length dists) <=? n) && (n <? Z.of_nat (length dists)) then Ret (argpartition dists n)
  else Raise ValueError.

(** [l[:n]]. *)
Definition slice_to {A} (l : list A) (n : Z) : list A :=
  take (Z.to_nat (if n <? 0 then n + Z.of_nat (length l) else n)) l.

(** The list of what the returned [map] yields. *)
Definition query_with_distances (v : list E) (n : Z) (o : BruteForceBLAS) : outcome (list (Z * float)) :=
  match bf_index o with
  | None => Raise AttributeError
  | Some index =>
      let v := astype (bf_precision o) v in
      let v := if bool_decide (bf_metric o = "hamming") then astype (index_type o) v else v in
      dists ← dists_of o index v;
      p ← np_argpartition dists n;
      let nearest_indices := slice_to p n in
      pairs ← mapM_out (fun idx => d ← py_index dists idx; Ret (idx, d)) nearest_indices;
      let indices := (filter (fun x => distance_valid (bf_metric o) x.2 = true) pairs).*1 in
      dist ← distance scipy_pdist (bf_metric o);
      mapM_out (fun i => ep ← py_index index i; d ← dist ep v; Ret (i, d)) indices
  end.

Definition bf_query (v : list E) (n : Z) (o : BruteForceBLAS) : outcome (list Z) :=
  r ← query_with_distances v n o; Ret r.*1.

End brute_force.

(** ** Lemmas *)

Section metric_lemmas.
Context {E : Type} `{!EqDecision E} `{!Countable E}.

Lemma intersect_comm (a b : list E) : intersect a b = intersect b a.
Proof. unfold intersect. by rewrite (comm_L (∩)). Qed.

Lemma intersect_bound (a b : list E) : 0 <= intersect a b <= Z.of_nat (length a).
Proof.
  unfold intersect. split; [lia|]. apply inj_le.
  transitivity (size (list_to_set (C := gset E) a)); [apply subseteq_size; set_solver|].
  induction a as [|x a IH]; [done|]. cbn [list_to_set length]. rewrite size_union_alt, size_singleton.
  etransitivity; [apply Nat.add_le_mono_l, subseteq_size, subseteq_difference_l; reflexivity|]. lia.
Qed.

(** [jaccard] is symmetric, and its quotient is well formed: the common
    elements are at most the shorter argument and the divisor is at least the
    longer one, so it is never zero. *)
Theorem jaccard_well_formed (a b : list E) (d := Z.of_nat (length a) + Z.of_nat (length b) - intersect a b) :
  jaccard a b = jaccard b a /\
  0 <= intersect a b <= Z.min (Z.of_nat (length a)) (Z.of_nat (length b)) /\
  Z.max (Z.of_nat (length a)) (Z.of_nat (length b)) <= d /\
  (jaccard a b = Ret (NInt 0) \/ 0 < d).
Proof.
  pose proof (intersect_bound a b). pose proof (intersect_bound b a) as H'. rewrite (intersect_comm b a) in H'.
  split_and!; [|lia..|].
  - unfold jaccard. rewrite (intersect_comm b a), (orb_comm (Z.of_nat (length b) =? 0)).
    by replace (Z.of_nat (length b) + Z.of_nat (length a)) with (Z.of_nat (length a) + Z.of_nat (length b)) by lia.
  - destruct a as [|x a]; [by left|]. right. subst d. cbn [length] in *. lia.
Qed.
End metric_lemmas.

Section sptag_props.
Context {vec ann : Type} `{!AnnIndex vec ann}.

(** An index that was built but never given search parameters cannot be
    printed: [__str__] reads an attribute that only [set_query_arguments]
    sets. *)
Theorem sptag_str_before_query_arguments X dim para t sv (o o' : Sptag ann) algo metric :
  Sptag_init algo metric = Ret o -> fit (vec := vec) X dim para t sv o = Ret o' -> Sptag_str o' = Raise AttributeError.
Proof.
  unfold Sptag_init, fit. intros Hi. destruct (metric_name metric) as [m|e|]; [|done..]. cbn in Hi. injection Hi as <-.
  destruct (type_name t) as [t'|e|]; [|done..]. cbn [mbind outcome_bind]. unfold save; cbn [s_sptag].
  destruct sv; intros [= <-]; reflexivity.
Qed.

(** What [fit] builds is what searches use: after a successful [fit] the
    index carries the thread count, the distance method of the metric and the
    given parameters, in that order, then the build over all rows; with
    [save_index] the same index is what [load("index")] restores. *)
Theorem fit_builds_and_saves X dim para t sv (o o' : Sptag ann) :
  fit (vec := vec) X dim para t sv o = Ret o' ->
  exists t', type_name t = Ret t' /\
    let i := Build X (Z.of_nat (length X)) false
               (set_build (("NumberOfThreads", "32") :: ("DistCalcMethod", s_metric o) :: default [] para)
                  (ann_new (s_algo o) t' dim)) in
    s_sptag o' = Some i /\ (sv = true -> s_sptag (load "index" o') = Some i).
Proof.
  unfold fit. intros H. destruct (type_name t) as [t'|e|]; [|done..]. exists t'. split; [done|]. cbn zeta.
  cbn [mbind outcome_bind] in H. unfold save in H. destruct sv; cbn [s_sptag] in H; injection H as <-; split; try done.
  intros _. cbn [load s_sptag s_saved]. by rewrite lookup_insert_eq.
Qed.
End sptag_props.

(** What [numpy.argpartition(d, n)] promises of its result [p] (for keys
    without NaN): a permutation of the indices that has [n] least elements at
    its first [n] places. *)
Definition partitions (d : list float) (n : Z) (p : list Z) : Prop :=
  p ≡ₚ py_range 0 (Z.of_nat (length d)) /\
  forall i j x y, i ∈ take (Z.to_nat n) p -> j ∈ drop (Z.to_nat n) p ->
    d !! Z.to_nat i = Some x -> d !! Z.to_nat j = Some y -> fleb x y = true.

Definition partitions_ok (argpartition : list float -> Z -> list Z) : Prop := forall ds n,
  Forall (fun d => is_number d = true) ds -> 0 <= n < Z.of_nat (length ds) -> partitions ds n (argpartition ds n).

(** ** Vectors of integers *)

Definition dot (a b : list Z) : Z := foldr Z.add 0 (zip_with Z.mul a b).
Definition dot_abs (a b : list Z) : Z := foldr Z.add 0 (zip_with (fun x y => Z.abs (x * y)) a b).

(** The squared Euclidean distance. *)
Definition sq_dist (a b : list Z) : Z := foldr Z.add 0 (zip_with (fun x y => (x - y) * (x - y)) a b).

Lemma dot_abs_bound a b : Z.abs (dot a b) <= dot_abs a b.
Proof. revert b. unfold dot, dot_abs. induction a as [|x a IH]; intros [|y b]; cbn; try lia. specialize (IH b). lia. Qed.

Lemma dot_self_nonneg a : 0 <= dot a a.
Proof. unfold dot. induction a as [|x a IH]; cbn; nia. Qed.

Lemma sq_dist_dot a b : length a = length b -> sq_dist a b = dot a a - 2 * dot a b + dot b b.
Proof.
  unfold sq_dist, dot. revert b. induction a as [|x a IH]; intros [|y b] Hl; try done. cbn in *. rewrite IH by lia. lia.
Qed.

(** A vector [a] that all of binary32 arithmetic on it and [v] is exact for:
    no partial sum reaches [2^24]. Vectors of int8 up to dimension 341 fit. *)
Definition fits (a v : list Z) : Prop := length a = length v /\ dot a a + 2 * dot_abs a v < 2 ^ 24.

Section integers.
Context {E : Type} `{!Numpy E} `{!Blas E} (astype : string -> list E -> list E).

(** The elements have the values [z], integers below [2^24]. *)
Definition ints (a : list E) (z : list Z) : Prop :=
  Forall2 (fun x z => Z.abs z < 2 ^ 24 /\ is_int 24 128 (np_float x) z) a z.

(** What is used of numpy on float32 vectors of integers: [astype] keeps them,
    and a sum of products none of whose partial sums can reach [2^24] in
    absolute value is exact in any order, every intermediate result being an
    integer that binary32 represents. *)
Class BlasLaws : Prop := {
  astype_length : forall t a, length (astype t a) = length a;
  astype_ints : forall a z, ints a z -> ints (astype "float32" a) z;
  dot_exact : forall a v za zv, ints a za -> ints v zv -> length za = length zv -> dot_abs za zv < 2 ^ 24 ->
    is_int 24 128 (np_float (np_dot a v)) (dot za zv);
  sq_length_exact : forall a z, ints a z -> dot z z < 2 ^ 24 -> is_int 24 128 (np_float (sq_length a)) (dot z z)
}.

(** On such vectors the key is the squared distance less a constant. *)
Lemma length_key_exact `{!BlasLaws} a v za zv :
  ints a za -> ints v zv -> fits za zv ->
  is_int 24 128 (length_key "float32" (sq_length a) (np_dot a v)) (dot za za - 2 * dot za zv) /\
  Z.abs (dot za za - 2 * dot za zv) < 2 ^ 24.
Proof.
  intros Ha Hv [Hl Hf]. pose proof (dot_abs_bound za zv). pose proof (dot_self_nonneg za). split; [|lia].
  unfold length_key. change (format "float32") with (24, 128). cbn beta iota.
  apply sub_exact; [lia|lia|apply sq_length_exact; [done|lia]| |lia..].
  apply mul_exact; [lia|lia|by left|apply dot_exact; [done..|lia]|lia..].
Qed.
End integers.

Section brute_force_props.
Context {E : Type} `{!EqDecision E} `{!Countable E} `{!Numpy E} `{!Blas E}.
Context (scipy_pdist : string -> list E -> list E -> float) (astype : string -> list E -> list E).
Context (argpartition : list float -> Z -> list Z) `{!BlasLaws astype}.
Abbreviation qwd := (query_with_distances scipy_pdist astype argpartition).

(** The metrics the tuner is run with: all distances are valid. *)
Definition plain_metric (m : string) : Prop := m = "angular" \/ m = "euclidean".

(** A row of the index, the query, and the key of a vector [a] for a query [v]. *)
Definition indexed_row (m : string) (a : list E) : list E :=
  if bool_decide (m = "angular") then unit_length (astype "float32" a) else astype "float32" a.

Definition similarity (m : string) (a v : list E) : E := np_dot (indexed_row m a) (astype "float32" v).

Definition plain_key (m : string) (a v : list E) : float :=
  if bool_decide (m = "angular") then neg_key (similarity m a v)
  else length_key "float32" (sq_length (indexed_row m a)) (similarity m a v).

(** The object after [fit]. *)
Definition fitted (m : string) (X : list (list E)) : BruteForceBLAS :=
  BF m "float32" (Some (indexed_row m <$> X))
    (if bool_decide (m = "angular") then None else Some (sq_length ∘ indexed_row m <$> X)).

Lemma BF_ready {A} m X (f : BruteForceBLAS -> outcome A) : plain_metric m ->
  (bf ← BF_init m "float32"; bf ← BF_fit astype X bf; f bf) = f (fitted m X).
Proof.
  intros Hm. assert (BF_init m "float32" = Ret (BF m "float32" None None)) as -> by (by destruct Hm as [-> | ->]).
  cbn [mbind outcome_bind]. unfold BF_fit. cbn [bf_metric bf_precision bf_lengths].
  destruct Hm as [-> | ->]; cbn [mbind outcome_bind]; [rewrite bool_decide_true by done|];
    rewrite <- !list_fmap_compose; reflexivity.
Qed.

Lemma length_indexed_row m a : length (indexed_row m a) = length a.
Proof. unfold indexed_row, unit_length. case_bool_decide; by rewrite ?length_fmap, astype_length. Qed.

Lemma plain_dists m X v : plain_metric m -> Forall (fun a => length a = length v) X ->
  dists_of scipy_pdist (fitted m X) (indexed_row m <$> X) (astype "float32" v) = Ret ((fun a => plain_key m a v) <$> X).
Proof.
  intros Hm HF.
  assert (dot_rows (indexed_row m <$> X) (astype "float32" v) = Ret ((fun a => similarity m a v) <$> X)) as E0.
  { unfold dot_rows. rewrite (Is_true_true_1 (forallb _ _)); [cbn iota; by rewrite <- list_fmap_compose|].
    apply forallb_True, Forall_fmap. eapply Forall_impl; [exact HF|]. intros a Ha. cbn. by rewrite length_indexed_row, astype_length, Ha, Nat.eqb_refl. }
  unfold dists_of, neg_keys, length_keys. rewrite E0. unfold plain_key.
  destruct Hm as [-> | ->]; cbn [mbind outcome_bind fitted bf_lengths bf_metric].
  - rewrite bool_decide_true by done. by rewrite <- list_fmap_compose.
  - rewrite (bool_decide_false ("euclidean" = "angular")), (bool_decide_true ("euclidean" = "euclidean")) by done.
    by rewrite zip_with_fmap_l, zip_with_fmap_r, zip_with_diag.
Qed.

Lemma filter_valid_all m (l : list (Z * float)) : plain_metric m ->
  filter (fun x => distance_valid m x.2 = true) l = l.
Proof. intros [-> | ->]; induction l as [|x l IH]; try done; rewrite filter_cons_True by done; by rewrite IH. Qed.

Lemma fst_pairs {A B} (f : A -> B) (l : list A) : ((fun x => (x, f x)) <$> l).*1 = l.
Proof. induction l as [|x l IH]; [done|]. cbn. by rewrite IH. Qed.

(** The distance of vector [i] from a query, as [fix] computes it. *)
Definition dist_at (m : string) (X : list (list E)) (v : list E) (i : Z) : float :=
  match X !! Z.to_nat i with
  | Some a => scipy_pdist (if bool_decide (m = "angular") then "cosine" else "euclidean") (indexed_row m a) (astype "float32" v)
  | None => float_inf
  end.

(** Vector [a] is as near to [v] as [b]. For "angular": its unit vector has no
    smaller dot product with the query. For "euclidean": its computed
    [|a|^2 - 2 a.v] is no greater, and where the vectors are integers that fit
    binary32, its exact squared distance is no greater. *)
Definition as_near (m : string) (v a b : list E) : Prop :=
  if bool_decide (m = "angular") then
    fleb (np_float (similarity m b v)) (np_float (similarity m a v)) = true
  else
    fleb (plain_key m a v) (plain_key m b v) = true /\
    forall za zb zv, ints a za -> ints b zb -> ints v zv -> fits za zv -> fits zb zv -> sq_dist za zv <= sq_dist zb zv.

(** The numbers of [n] vectors, in any order, with none left out that is nearer. *)
Definition nearest_ids (m : string) (X : list (list E)) (v : list E) (n : Z) (ids : list Z) : Prop :=
  Z.of_nat (length ids) = n /\ NoDup ids /\ (forall i, i ∈ ids -> 0 <= i < Z.of_nat (length X)) /\
  forall i j a b, i ∈ ids -> 0 <= j < Z.of_nat (length X) -> j ∉ ids ->
    X !! Z.to_nat i = Some a -> X !! Z.to_nat j = Some b -> as_near m v a b.

Lemma nearest_ids_perm m X v n ids ids' : ids ≡ₚ ids' -> nearest_ids m X v n ids -> nearest_ids m X v n ids'.
Proof. unfold nearest_ids. intros Hp. by setoid_rewrite Hp. Qed.

(** The order of the keys is the order of nearness. *)
Lemma key_as_near m v a b : fleb (plain_key m a v) (plain_key m b v) = true -> as_near m v a b.
Proof.
  unfold as_near, plain_key, similarity. case_bool_decide as Hm; [unfold neg_key; by rewrite fleb_opp|].
  intros Hle. split; [done|]. intros za zb zv Ha Hb Hv Fa Fb.
  assert (forall c zc, ints c zc -> ints (indexed_row m c) zc) as Hidx.
  { intros c zc Hc. unfold indexed_row. rewrite bool_decide_false by done. by apply astype_ints. }
  assert (ints (astype "float32" v) zv) as Hv' by by apply astype_ints.
  destruct (length_key_exact astype _ _ za zv (Hidx _ _ Ha) Hv' Fa) as [Ka Ba].
  destruct (length_key_exact astype _ _ zb zv (Hidx _ _ Hb) Hv' Fb) as [Kb Bb].
  rewrite (is_int_fleb 24 128 ltac:(lia) ltac:(lia) _ _ _ _ Ba Bb Ka Kb) in Hle.
  rewrite !sq_dist_dot by (apply Fa || apply Fb). lia.
Qed.

(** The keys of the vectors for a query are numbers. *)
Definition numeric_keys (m : string) (X : list (list E)) (v : list E) : Prop :=
  Forall (fun a => is_number (plain_key m a v) = true) X.

(** The first places of a partition of the keys. *)
Lemma partition_nearest m X v n p :
  0 <= n < Z.of_nat (length X) -> partitions ((fun a => plain_key m a v) <$> X) n p ->
  nearest_ids m X v n (take (Z.to_nat n) p).
Proof.
  intros Hn [Hp Hleast]. rewrite length_fmap in Hp.
  assert (forall i, i ∈ p <-> 0 <= i < Z.of_nat (length X)) as Hin by (intros i; by rewrite Hp, elem_of_py_range).
  split_and!.
  - rewrite length_take, Hp, length_py_range. lia.
  - assert (NoDup p) as Hnd by (rewrite Hp; apply NoDup_py_range).
    rewrite <- (take_drop (Z.to_nat n) p), NoDup_app in Hnd. by apply Hnd.
  - intros i Hi. apply Hin. rewrite <- (take_drop (Z.to_nat n) p). apply elem_of_app. by left.
  - intros i j a b Hi Hj Hnj Ha Hb. apply key_as_near.
    apply (Hleast i j); [done| |by rewrite list_lookup_fmap, Ha|by rewrite list_lookup_fmap, Hb].
    apply Hin in Hj. rewrite <- (take_drop (Z.to_nat n) p) in Hj. by apply elem_of_app in Hj as [Hj|Hj].
Qed.

(** What the search returns: the first places of the partition with their
    distances. *)
Lemma brute_force_run m X v n (ds := (fun a => plain_key m a v) <$> X) :
  plain_metric m -> 0 <= n < Z.of_nat (length X) -> Forall (fun a => length a = length v) X ->
  partitions ds n (argpartition ds n) ->
  qwd v n (fitted m X) = Ret ((fun i => (i, dist_at m X v i)) <$> take (Z.to_nat n) (argpartition ds n)).
Proof.
  intros Hm Hn HF Hpart. destruct (partition_nearest _ _ _ _ _ Hn Hpart) as (_ & _ & Hnear & _).
  unfold query_with_distances. cbn [fitted bf_index bf_metric bf_precision].
  assert ((if bool_decide (m = "hamming") then astype (index_type (fitted m X)) (astype "float32" v) else astype "float32" v) =
    astype "float32" v) as -> by (by destruct Hm as [-> | ->]).
  rewrite plain_dists by done. cbn [mbind outcome_bind]. fold ds.
  assert (length ds = length X) as Hlen by apply length_fmap.
  unfold np_argpartition. rewrite Hlen. replace (_ && _) with true by lia. cbn [mbind outcome_bind].
  unfold slice_to. replace (n <? 0) with false by lia. set (near := take (Z.to_nat n) (argpartition ds n)) in *.
  rewrite (mapM_out_ret _ (fun i => (i, nth (Z.to_nat i) ds float_inf))).
  2: { intros i Hi. destruct (py_index_total ds i) as (x & -> & Hx); [rewrite Hlen; by apply Hnear|]. cbn.
       by rewrite (nth_lookup_Some _ _ _ _ Hx). }
  cbn [mbind outcome_bind]. rewrite filter_valid_all, fst_pairs by done.
  assert (distance scipy_pdist m = Ret (fun a b => Ret (scipy_pdist (if bool_decide (m = "angular") then "cosine" else "euclidean") a b)))
    as -> by (by destruct Hm as [-> | ->]).
  cbn [mbind outcome_bind]. apply mapM_out_ret. intros i Hi.
  destruct (py_index_total (indexed_row m <$> X) i) as (x & -> & Hx); [rewrite length_fmap; by apply Hnear|].
  rewrite list_lookup_fmap in Hx. unfold dist_at. destruct (X !! Z.to_nat i) as [a|]; [|done]. by injection Hx as <-.
Qed.

(** C11: brute force search, fitted to [m] vectors with the metric "angular" or
    "euclidean" and asked for [n < m] neighbours of a vector of their dimension,
    returns [n] different vectors with their distances, and no vector left out
    is nearer to the query. For "angular" nearer is a greater dot product of the
    unit vector with the query; for "euclidean" it is a smaller computed
    [|a|^2 - 2 a.v] and, for vectors of integers that fit binary32, a smaller
    squared distance. *)
Theorem brute_force_nearest m X v n :
  plain_metric m -> partitions_ok argpartition -> 0 <= n < Z.of_nat (length X) ->
  Forall (fun a => length a = length v) X -> numeric_keys m X v ->
  exists r, (bf ← BF_init m "float32"; bf ← BF_fit astype X bf; qwd v n bf) = Ret r /\
    nearest_ids m X v n r.*1 /\ Forall (fun id => id.2 = dist_at m X v id.1) r.
Proof.
  intros Hm Hp Hn HF Hk. rewrite BF_ready by done.
  assert (partitions ((fun a => plain_key m a v) <$> X) n (argpartition ((fun a => plain_key m a v) <$> X) n)) as Hpart
    by (apply Hp; [by apply Forall_fmap|by rewrite length_fmap]).
  eexists. split; [by apply brute_force_run|].
  rewrite fst_pairs. split; [by apply partition_nearest|by apply Forall_fmap, Forall_true].
Qed.

(** Asking brute force search for as many neighbours as there are vectors
    is a [ValueError]: the partition index is out of range. *)
Theorem brute_force_too_many m X v n :
  plain_metric m -> Forall (fun a => length a = length v) X -> Z.of_nat (length X) <= n ->
  (bf ← BF_init m "float32"; bf ← BF_fit astype X bf; qwd v n bf) = Raise ValueError.
Proof.
  intros Hm HF Hn. rewrite BF_ready by done. unfold query_with_distances. cbn [fitted bf_index bf_metric bf_precision].
  assert ((if bool_decide (m = "hamming") then astype (index_type (fitted m X)) (astype "float32" v) else astype "float32" v) =
    astype "float32" v) as -> by (by destruct Hm as [-> | ->]).
  rewrite plain_dists by done. cbn [mbind outcome_bind].
  unfold np_argpartition. rewrite length_fmap. by replace (_ && _) with false by lia.
Qed.
End brute_force_props.

(** ** Witnesses *)

(** binary32 arithmetic; sums are taken from the right. int8 is the only other
    type that is decoded here. *)
Record binary32 := B32 { b32 : float }.

#[export] Instance binary32_eq_dec : EqDecision binary32.
Proof. solve_decision. Defined.

#[export] Instance float_countable : Countable float.
Proof.
  apply (inj_countable' (A := bool + bool + unit + (bool * positive * Z))
    (fun x => match x with S754_zero s => inl (inl (inl s)) | S754_infinity s => inl (inl (inr s)) | S754_nan => inl (inr tt)
              | S754_finite s m e => inr (s, m, e) end)
    (fun x => match x with inl (inl (inl s)) => S754_zero s | inl (inl (inr s)) => S754_infinity s | inl (inr _) => S754_nan
              | inr (s, m, e) => S754_finite s m e end)).
  by intros [].
Defined.

#[export] Instance binary32_countable : Countable binary32 := inj_countable' b32 B32 ltac:(by intros []).

Definition of_Z32 (z : Z) : binary32 := B32 (int_float 24 128 z).
Definition add32 (x y : float) : float := SFadd 24 128 x y.
Definition mul32 (x y : float) : float := SFmul 24 128 x y.
(** A binary64 number stored in a float32 array, and read from it. *)
Definition narrow (x : float) : float :=
  match x with S754_finite s m e => binary_normalize 24 128 (cond_Zopp s (Zpos m)) e false | _ => x end.
Definition widen (x : float) : float :=
  match x with S754_finite s m e => binary_normalize 53 1024 (cond_Zopp s (Zpos m)) e false | _ => x end.
Definition signed8 (b : Byte.byte) : Z := let n := Z.of_N (Byte.to_N b) in if n <? 128 then n else n - 256.

#[export] Instance binary32_numpy : Numpy binary32 := {
  itemsize := fun t => if bool_decide (t = "int8") then Some 1 else if bool_decide (t = "float32") then Some 4 else None;
  np_decode := fun dt _ b => if bool_decide (dt = "int8") then (fun x => of_Z32 (signed8 x)) <$> b else [];
  np_of_float := fun _ x => B32 (narrow x);
  np_square := fun x => B32 (mul32 (b32 x) (b32 x));
  np_sum := fun l => B32 (foldr add32 (S754_zero false) (b32 <$> l));
  np_sqrt := fun x => B32 (SFsqrt 24 128 (b32 x));
  np_div := fun x y => B32 (SFdiv 24 128 (b32 x) (b32 y));
  np_tiny := fun x => fltb (widen (b32 x)) (float_of_dec false 1 (-6));
  np_1em6 := B32 (narrow (float_of_dec false 1 (-6)));
  np_fill := fun d => B32 (narrow (SFdiv fprec femax (float_of_dec false 1 (-6)) (SFsqrt fprec femax (float_of_Z d))))
}.

#[export] Instance binary32_blas : Blas binary32 := {
  np_float := b32;
  np_dot := fun a v => B32 (foldr add32 (S754_zero false) (zip_with (fun x y => mul32 (b32 x) (b32 y)) a v))
}.

Lemma dot_abs_self a : dot_abs a a = dot a a.
Proof. unfold dot_abs, dot. induction a as [|x a IH]; [done|]. cbn. nia. Qed.

Lemma dot32_exact (a v : list binary32) za zv :
  ints a za -> ints v zv -> dot_abs za zv < 2 ^ 24 -> is_int 24 128 (b32 (np_dot a v)) (dot za zv).
Proof.
  intros Ha. revert v zv. induction Ha as [|x z a za [Bx Hx] Ha IH]; intros v zv Hv; [by left|].
  destruct Hv as [|y t v zv [By Hy] Hv]; [by left|]. cbn. intros Hb. fold (dot za zv) (dot_abs za zv) in *.
  pose proof (dot_abs_bound za zv). specialize (IH v zv Hv ltac:(lia)).
  apply add_exact; [lia|lia| |exact IH|lia..]. apply mul_exact; (done || lia).
Qed.

#[export] Instance binary32_laws : BlasLaws (fun _ (v : list binary32) => v).
Proof.
  split; [done|done| |].
  - intros a v za zv Ha Hv _ Hb. by apply dot32_exact.
  - intros a z Ha Hb. rewrite <- dot_abs_self in Hb. pose proof (dot32_exact a a z z Ha Ha Hb) as H.
    cbn in *. by rewrite <- list_fmap_compose, zip_with_diag in *.
Qed.

(** A partition that is a sort by the second component. *)
Definition by_key (x y : Z * float) : Prop := fltb y.2 x.2 = false.
#[export] Instance by_key_dec x y : Decision (by_key x y) := decide (fltb y.2 x.2 = false).

Lemma sorted_ids (f : Z -> float) (l : list Z) :
  (forall i, i ∈ l -> is_number (f i) = true) ->
  StronglySorted (fun i j => fltb (f j) (f i) = false) (sort_by by_key ((fun i => (i, f i)) <$> l)).*1.
Proof.
  intros Hn. set (r := (fun i => (i, f i)) <$> l).
  assert (Forall (fun x => is_number x.2 = true /\ x.2 = f x.1) r) as HF.
  { apply Forall_fmap, Forall_forall. intros i Hi. cbn. by split; [apply Hn|]. }
  assert (StronglySorted by_key (sort_by by_key r)) as Hs.
  { apply (sort_by_sorted by_key (fun x => is_number x.2 = true)); unfold by_key.
    - intros x y Hx Hy H%not_false_iff_true. apply not_true_iff_false. intros H'.
      pose proof (fltb_trans _ _ _ H H') as Hc. by rewrite fltb_irrefl in Hc.
    - intros x y z Hx Hy Hz H1 H2. apply not_true_iff_false. intros H.
      destruct (fleb_total x.2 y.2 Hx Hy) as [Hle|Hlt]; [|congruence].
      by rewrite (fltb_fleb_trans _ _ _ H Hle) in H2.
    - eapply Forall_impl; [exact HF|]. by intros x [H _]. }
  rewrite <- (sort_by_perm by_key r) in HF. revert HF. induction Hs as [|x k Hs IH Hx]; intros HF; [constructor|].
  apply Forall_cons in HF as [[_ Ex] HF]. constructor; [by apply IH|]. apply Forall_fmap.
  rewrite Forall_forall in Hx, HF |- *. intros y Hy. cbn. destruct (HF y Hy) as [_ Ey]. rewrite <- Ex, <- Ey. by apply Hx.
Qed.

Definition argsort (ds : list float) (_ : Z) : list Z :=
  (sort_by by_key ((fun i => (i, nth (Z.to_nat i) ds float_inf)) <$> py_range 0 (Z.of_nat (length ds)))).*1.

Lemma argsort_ok : partitions_ok argsort.
Proof.
  intros ds n HF Hn. assert (argsort ds n ≡ₚ py_range 0 (Z.of_nat (length ds))) as Hp by (unfold argsort; by rewrite sort_by_perm, fst_pairs).
  split; [done|]. intros i j x y Hi Hj Hx Hy.
  assert (StronglySorted (fun i j => fltb (nth (Z.to_nat j) ds float_inf) (nth (Z.to_nat i) ds float_inf) = false) (argsort ds n)) as Hs.
  { apply (sorted_ids (fun i => nth (Z.to_nat i) ds float_inf)). intros k Hk%elem_of_py_range.
    destruct (lookup_lt_is_Some_2 ds (Z.to_nat k)) as [z Hz]; [lia|]. rewrite (nth_lookup_Some _ _ _ _ Hz).
    rewrite Forall_forall in HF. apply HF. by eapply list_elem_of_lookup_2. }
  rewrite <- (take_drop (Z.to_nat n) (argsort ds n)) in Hs. pose proof (StronglySorted_app_1_elem_of _ _ _ i j Hs Hi Hj) as H.
  cbn in H. rewrite (nth_lookup_Some _ _ _ _ Hx), (nth_lookup_Some _ _ _ _ Hy) in H.
  rewrite Forall_forall in HF. destruct (fleb_total x y) as [Hle|Hlt]; [by apply HF; eapply list_elem_of_lookup_2..|done|congruence].
Qed.

(** Four vectors of the plane. *)
Definition demo_pdist {E} (_ : string) (a b : list E) : float := float_of_Z (Z.of_nat (length a + length b)).
Definition demo_rows : list (list binary32) := (fun l : list Z => of_Z32 <$> l) <$> [[3; -1]; [1; 1]; [2; 0]; [-5; 7]].
Definition demo_query : list binary32 := of_Z32 <$> [2; 1].

Lemma of_Z32_ints l : Forall (fun z => Z.abs z < 2 ^ 24) l -> ints (of_Z32 <$> l) l.
Proof. intros HF. apply Forall2_fmap_l, Forall_Forall2_diag. eapply Forall_impl; [exact HF|]. intros z Hz. split; [done|by left]. Qed.

(** The two nearest of the four vectors by the squared distances 5, 1, 1 and
    85 are the second and the third. *)
Lemma brute_force_nearest_witness :
  exists r, (bf ← BF_init "euclidean" "float32"; bf ← BF_fit (fun _ v => v) demo_rows bf;
             query_with_distances demo_pdist (fun _ v => v) argsort demo_query 2 bf) = Ret r /\
    r.*1 ≡ₚ [1; 2] /\ nearest_ids (fun _ v => v) "euclidean" demo_rows demo_query 2 r.*1 /\
    Forall (fun z => ints (of_Z32 <$> z) z /\ fits z [2; 1]) [[3; -1]; [1; 1]; [2; 0]; [-5; 7]].
Proof.
  destruct (brute_force_nearest demo_pdist (fun _ v => v) argsort "euclidean" demo_rows demo_query 2) as (r & Hr & Hn & _).
  - by right.
  - exact argsort_ok.
  - cbn. lia.
  - repeat constructor.
  - repeat (constructor; [vm_compute; reflexivity|]). constructor.
  - exists r. split; [exact Hr|]. split; [vm_compute in Hr; injection Hr as <-; vm_compute; reflexivity|].
    split; [exact Hn|]. repeat (constructor; [split; [apply of_Z32_ints; repeat constructor|by split]|]). constructor.
Defined.

Lemma brute_force_too_many_witness :
  (bf ← BF_init "angular" "float32"; bf ← BF_fit (fun _ v => v) demo_rows bf;
   query_with_distances demo_pdist (fun _ v => v) argsort demo_query 4 bf) = Raise ValueError.
Proof. apply (brute_force_too_many _ _ _ "angular" demo_rows); [by left|repeat constructor|cbn; lia]. Defined.

(** An index that records its parameters. *)
#[export] Instance log_ann : AnnIndex Z (list (string * string)) := {
  ann_new := fun a t _ => [(a, t)];
  SetBuildParam := fun k v _ l => (l ++ [(k, v)])%list;
  SetSearchParam := fun k v _ l => (l ++ [(k, v)])%list;
  Build := fun _ _ _ l => l;
  Search := fun _ _ k => py_range 0 k;
  ann_Load := fun _ => []
}.

Lemma sptag_str_before_query_arguments_witness :
  exists o o', Sptag_init (ann := list (string * string)) "BKT" "angular" = Ret o /\
    fit [7] 1 None "float32" false o = Ret o' /\ Sptag_str o' = Raise AttributeError.
Proof.
  eexists _, _. split; [reflexivity|]. split; [reflexivity|].
  eapply (sptag_str_before_query_arguments [7] 1 None "float32" false _ _ "BKT" "angular"); reflexivity.
Defined.

Lemma fit_builds_and_saves_witness :
  exists o o', fit [7] 1 (Some [("BKTNumber", "2")]) "int8" true o = Ret o' /\
    exists t', type_name "int8" = Ret t' /\
      s_sptag (load "index" o') =
        Some [("BKT", t'); ("NumberOfThreads", "32"); ("DistCalcMethod", "Cosine"); ("BKTNumber", "2")].
Proof.
  exists (SptagObj "BKT" [] "Cosine" None None None ∅). eexists. split; [reflexivity|].
  edestruct (fit_builds_and_saves [7] 1 (Some [("BKTNumber", "2")]) "int8" true) as (t' & Ht & _ & Hl); [reflexivity|].
  exists t'. split; [done|]. rewrite (Hl eq_refl). reflexivity.
Defined.
