(* ===== verification/Tuner.v ===== *)
(** * The auto-tuner: Tools/nni-auto-tune/runner.py and main.py

    One trial: load the data, build the index with the parameters nni gives,
    try every combination of search parameters, write a result file for each
    and report the best. nni, the clock, the process's memory, numpy's
    statistics and the external libraries are parameters. *)

From Stdlib Require Import Ascii.
From S2P Require Import Prelude PyStr PyFloat PyBytes PyIO DataReader TopK Model.

Open Scope string_scope.
Open Scope Z_scope.

(** ** grid_search *)

(** An element of a list and the others, for every position. *)
Fixpoint select {A} (l : list A) : list (A * list A) :=
  match l with
  | [] => []
  | x :: l' => (x, l') :: ((fun p => (p.1, x :: p.2)) <$> select l')
  end.

(** [itertools.permutations(l, r)]. *)
Fixpoint permutations {A} (r : nat) (l : list A) : list (list A) :=
  match r with
  | O => [[]]
  | S r' => select l ≫= (fun p => (fun c => p.1 :: c) <$> permutations r' p.2)
  end.

Section grid.
Context {V : Type}.
Abbreviation choices := (list (string * list V)).

(** The order in which [for c in set(l)] visits the different elements. *)
Context (set_order : list (list Z) -> list (list Z)).

(** The dictionary of a tuple of indices: cut at the first index out of range. *)
Fixpoint combine (c : list Z) (params : choices) : list (string * V) :=
  match c, params with
  | i :: c', (k, vs) :: ps =>
      if Z.of_nat (length vs) <=? i then []
      else match vs !! Z.to_nat i with
           | Some v => (k, v) :: combine c' ps
           | None => []
           end
  | _, _ => []
  end.

Definition max_choices (params : choices) : outcome Z :=
  match (fun p => Z.of_nat (length p.2)) <$> params with
  | [] => Raise ValueError
  | x :: l => Ret (foldl Z.max x l)
  end.

Definition index_pool (param_num : nat) (m : Z) : list Z :=
  py_range 0 m ≫= (fun i => replicate param_num i).

(** The list of what the generator yields. *)
Definition grid_search (params : choices) : outcome (list (list (string * V))) :=
  let param_num := length params in
  m ← max_choices params;
  Ret (filter (fun res => length res = param_num)
         ((fun c => combine c params) <$> set_order (permutations param_num (index_pool param_num m)))).

End grid.

(** ** Recall *)

(** An item of a ground truth row: a distance, or an id read from a text. *)
Inductive item : Set := INum (x : float) | IStr (s : string).

#[global] Instance item_eq_dec : EqDecision item.
Proof. solve_decision. Defined.

Section recall.
(** Adding to a label's distance, and numpy's statistics of the counts. *)
Context (label_add : float -> float -> float) (np_mean np_std : list Z -> float) (np_divide : float -> float -> float).

Definition epsilon : float := float_of_dec false 1 (-3).

Definition knn_threshold (data : list item) (k : Z) (eps : float) : outcome float :=
  x ← py_index data (k - 1);
  match x with INum d => Ret (label_add d eps) | IStr _ => Raise TypeError end.

(** [l[:k]]. *)
Definition upto {A} (l : list A) (k : Z) : list A := slice_to l k.

Definition count_below (t : float) (ds : list float) : Z :=
  Z.of_nat (length (filter (fun d => fleb d t = true) ds)).

(** The statistics of the counts of hits. *)
Definition recall_stats (recalls : list Z) (k : Z) : float * float * list Z :=
  (np_divide (np_mean recalls) (float_of_Z k), np_divide (np_std recalls) (float_of_Z k), recalls).

Definition get_recall_from_distance (dataset_distances : list (list item)) (run_distances : list (list float)) (k : Z)
    : outcome (float * float * list Z) :=
  recalls ← mapM_out (fun i =>
      data ← py_index dataset_distances i;
      t ← knn_threshold data k epsilon;
      run ← py_index run_distances i;
      Ret (count_below t (upto run k))) (py_range 0 (Z.of_nat (length run_distances)));
  Ret (recall_stats recalls k).

Definition count_in (truth : list item) (ids : list Z) : Z :=
  Z.of_nat (length (filter (fun d => IStr (str_of_Z d) ∈ truth) ids)).

Definition get_recall_from_index (dataset_index : list (list item)) (run_index : list (list Z)) (k : Z)
    : outcome (float * float * list Z) :=
  recalls ← mapM_out (fun i =>
      run ← py_index run_index i;
      match upto run k with
      | [] => Ret 0
      | ids => data ← py_index dataset_index i; Ret (count_in (upto data k) ids)
      end) (py_range 0 (Z.of_nat (length run_index)));
  Ret (recall_stats recalls k).

Record attrs := Attrs { best_search_time : float; candidates : float }.

Definition queries_per_second (a : attrs) : outcome float := fdiv (float_of_Z 1) (best_search_time a).

(** [results] is what the flag selects: distances, or ids. *)
Definition compute_metrics (groundtruth : list (list item)) (a : attrs) (results : list (list float) + list (list Z)) (k : Z)
    : outcome (float * float) :=
  r ← match results with
      | inr ids => get_recall_from_index groundtruth ids k
      | inl ds => get_recall_from_distance groundtruth ds k
      end;
  qps ← queries_per_second a;
  Ret (r.1.1, qps).

End recall.

(** ** runner.py *)
Section runner.
Context {num : Type} `{!EqDecision num} `{!Countable num}.
Context (scipy_pdist : string -> list num -> list num -> float).
Context {ann : Type} `{!AnnIndex (list num) ann}.
(** The time the search of query [q] of run [r] takes, and the resident memory
    after it. *)
Context (elapsed : nat -> nat -> float) (rss : nat -> nat -> Z).

Definition single_query (algo : Sptag ann) (X_train : list (list num)) (distance : string) (k max_mem : Z)
    (run q : nat) (v : list num) : outcome (float * list (Z * float)) :=
  cs ← query v k algo;
  if (0 <? max_mem) && (max_mem <? rss run q) then Raise MemoryError
  else
    cands ← mapM_out (fun idx =>
        dist ← Model.distance scipy_pdist distance;
        x ← py_index X_train idx;
        d ← dist v x; Ret (idx, d)) cs;
    Ret (elapsed run q, cands).

Definition run_once (algo : Sptag ann) (X_train X_test : list (list num)) (distance : string) (k max_mem : Z) (run : nat)
    : outcome (list (float * list (Z * float))) :=
  mapM_out (fun qv => single_query algo X_train distance k max_mem run qv.1 qv.2) (zip (seq 0 (length X_test)) X_test).

(** [sum] starts with the integer 0. *)
Definition sum_times (l : list float) : float := foldl fadd (float_of_Z 0) l.

(** [min(a, b)]: the first unless the second is less. *)
Definition py_min (a b : float) : float := if fltb b a then b else a.

Fixpoint runs (n : nat) (run : nat) (algo : Sptag ann) (X_train X_test : list (list num)) (distance : string) (k max_mem : Z)
    (best : float) (last : option (float * list (float * list (Z * float))))
    : outcome (attrs * list (float * list (Z * float))) :=
  match n with
  | O => match last with
         | Some (avg, results) => Ret (Attrs best avg, results)
         | None => Raise NameError
         end
  | S n' =>
      results ← run_once algo X_train X_test distance k max_mem run;
      let m := Z.of_nat (length X_test) in
      search_time ← (if m =? 0 then Raise ZeroDivisionError
                     else fdiv (sum_times results.*1) (float_of_Z m));
      avg ← int_div Py3 (foldr Z.add 0 ((fun r => Z.of_nat (length r.2)) <$> results)) m;
      runs n' (S run) algo X_train X_test distance k max_mem (py_min best search_time) (Some (number_to_float avg, results))
  end.

Definition run_individual_query (algo : Sptag ann) (X_train X_test : list (list num)) (distance : string) (k : Z)
    (run_count : nat) (max_mem : Z) : outcome (attrs * list (float * list (Z * float))) :=
  runs run_count 0 algo X_train X_test distance k max_mem float_inf None.

End runner.

(** ** main.py *)
Record targs := TArgs {
  train_file : string; t_query_file : string; label_file : option string;
  algorithm : string; t_k : Z; t_distance : string;
  max_build_time : Z; max_memory : Z; t_dim : Z; input_type : string; t_data_type : string
}.

Record result := Result { r_default : float; r_recall : float; r_qps : float; r_build_time : float }.

(** What is reported to nni: the failure record with its build time, or the
    best result ([None] is the empty dictionary). *)
Inductive report : Set := Failed (build_time : Z) | Best (r : option result).

Record tuner := Tuner { t_world : world; reports : list report }.

Definition in_world {A} (m : py world A) : py tuner A := fun s =>
  let '(r, w) := m (t_world s) in (r, Tuner w (reports s)).
Definition report_final_result (r : report) : py tuner unit := fun s =>
  (Ret tt, Tuner (t_world s) (reports s ++ [r])%list).

(** [os.makedirs(d)]: the directory and those above it. *)
Fixpoint parents (n : nat) (d : string) : list string :=
  match n with
  | O => []
  | S n' => if nonempty d && negb (bool_decide (dirname d = d)) then d :: parents n' (dirname d) else []
  end.
Definition os_makedirs (d : string) : py world unit := fun w =>
  if path_exists w d then (Raise FileExistsError, w)
  else (Ret tt, World (fs w) (list_to_set (parents (String.length d) d) ∪ dirs w) (stdout w)).

Definition search_param_choices : list (string * list Z) :=
  [("NumberOfInitialDynamicPivots", [1; 2; 4; 8; 16; 32; 50]);
   ("MaxCheck", [512; 3200; 5120; 8192; 12800; 16400; 19600]);
   ("NumberOfOtherDynamicPivots", [1; 2; 4; 8; 10])].

Section main.
Context {num : Type} `{!EqDecision num} `{!Countable num} `{!Numpy num}.
Context {ann : Type} `{!AnnIndex (list num) ann}.
Context (scipy_pdist : string -> list num -> list num -> float).
Context `{!Blas num} (astype : string -> list num -> list num) (argpartition : list float -> Z -> list Z).
Context (label_add : float -> float -> float) (np_mean np_std : list Z -> float) (np_divide : float -> float -> float).
Context (np_log10 : float -> float).
Context (set_order : list (list Z) -> list (list Z)).
(** nni: the build parameters of the trial and its id. *)
Context (para : option (list (string * string))) (trial_id : string).
(** The clock and the memory: time and memory of a query of a combination, the
    build time, and whether the build ends within its limit. *)
Context (elapsed : nat -> nat -> nat -> float) (rss : nat -> nat -> nat -> Z).
Context (build_time : float) (build_ends : bool).
Context (json_dump : result -> option (list (string * string)) -> list (string * Z) -> string).
(** Opening an HDF5 file; [np.array(x, dtype=t)] of its points; its labels as
    Python reads them. *)
Context (h5open : string -> outcome (Dataset.h5file (num := num))).
Context (np_array : string -> Dataset.points (num := num) -> outcome (list (list num))) (label_of : num -> float).

(** Labels by brute force: the distances of the neighbours, sorted. *)
Definition by_distance (x y : Z * float) : Prop := fltb y.2 x.2 = false.
#[export] Instance by_distance_dec x y : Decision (by_distance x y) := decide (fltb y.2 x.2 = false).

Definition brute_labels (distance : string) (X_train X_test : list (list num)) (k : Z) : outcome (list (list item)) :=
  bf ← BF_init distance "float32";
  bf ← BF_fit astype X_train bf;
  mapM_out (fun x =>
    res ← query_with_distances scipy_pdist astype argpartition x k bf;
    Ret (INum <$> (sort_by by_distance res).*2)) X_test.

Definition read_labels (p : string) : py world (list (list item)) :=
  lines ← open_lines Py3 p;
  mret ((fun l => IStr <$> split_ws (strip l)) <$> lines).

Record data := Data { X_train : list (list num); X_test : list (list num); d_distance : string; d_dimension : Z;
                      d_label : list (list item) }.

Definition load_data (a : targs) : py world data :=
  if endswith ".hdf5" (train_file a) then
    f ← lift (h5open (train_file a));
    h ← lift (Dataset.HDF5Reader_init f);
    xs ← lift (Dataset.HDF5Reader_readallbatches (np_array (t_data_type a)) h);
    mret (Data xs.1 xs.2 (Dataset.h_distance h) (Dataset.h_featuredim h)
            ((fun row : list num => (fun x => INum (label_of x)) <$> row) <$> Dataset.h_label h))
  else
    r ← new_reader (train_file a) (t_dim a) (-1) 0 (input_type a) (t_data_type a);
    tr ← run_local readbatch r;
    r ← new_reader (t_query_file a) (t_dim a) (-1) 0 (input_type a) (t_data_type a);
    te ← run_local readbatch r;
    label ← match label_file a with
            | None => lift (brute_labels (t_distance a) tr.1.2 te.1.2 (t_k a))
            | Some p => read_labels p
            end;
    mret (Data tr.1.2 te.1.2 (t_distance a) (t_dim a) label).

(** The build, in a process of its own when there is a limit: [None] is the
    timeout. The child saves the index into the directory [index]. *)
Definition build_index (a : targs) (d : data) (algo : Sptag ann) : py tuner (option (Sptag ann)) :=
  if 0 <? max_build_time a then
    if build_ends then
      child ← lift (fit (X_train d) (d_dimension d) para (t_data_type a) true algo);
      in_world (fun w => (Ret tt, World (fs w) ({["index"]} ∪ dirs w) (stdout w)));;
      let algo := load "index" (SptagObj (s_algo algo) (s_para algo) (s_metric algo) (s_data_type algo)
                                  (s_sptag algo) (s_s_para algo) (s_saved child)) in
      in_world (rmtree "index");;
      mret (Some algo)
    else
      report_final_result (Failed (max_build_time a));;
      mret None
  else
    algo ← lift (fit (X_train d) (d_dimension d) para (t_data_type a) false algo);
    mret (Some algo).

(** [ds + [x] * (k - len(ds))]. *)
Definition pad_to {A} (k : Z) (x : A) (l : list A) : list A :=
  (l ++ replicate (Z.to_nat (k - Z.of_nat (length l))) x)%list.

Definition neighbors_of (k : Z) (results : list (float * list (Z * float))) : list (list Z) :=
  (fun r => pad_to k (-1) r.2.*1) <$> results.
Definition distances_of (k : Z) (results : list (float * list (Z * float))) : list (list float) :=
  (fun r => pad_to k float_inf r.2.*2) <$> results.

(** [-1 * log10(1 - recall) + 0.1 * log10(qps)]. *)
Definition combined_metric (recall qps : float) : float :=
  fadd (fmul (float_of_Z (-1)) (np_log10 (fsub (float_of_Z 1) recall)))
       (fmul (float_of_dec false 1 (-1)) (np_log10 qps)).

Definition result_path (a : targs) (i : Z) : string :=
  path_join (path_join "results" (hd "" (split_on "." (train_file a))))
            ("result_" ++ trial_id ++ " " ++ str_of_Z i ++ ".json").

Definition write_result (a : targs) (i : Z) (res : result) (search_params : list (string * Z)) : py world unit :=
  let dir := path_join "results" (hd "" (split_on "." (train_file a))) in
  ex ← os_path_exists dir;
  when (negb ex) (os_makedirs dir);;
  create_file (result_path a i);;
  write_text (result_path a i) (json_dump res para search_params).

(** One combination: its result, and the wrapper with its parameters set. *)
Definition try_params (a : targs) (d : data) (i : nat) (algo : Sptag ann) (search_params : list (string * Z))
    : outcome (Sptag ann * result) :=
  algo ← set_query_arguments (vec := list num) (Some ((fun kv => (kv.1, str_of_Z kv.2)) <$> search_params)) algo;
  r ← run_individual_query scipy_pdist (elapsed i) (rss i) algo (X_train d) (X_test d) (d_distance d) (t_k a) 1 (max_memory a);
  m ← compute_metrics label_add np_mean np_std np_divide (d_label d) r.1
        (match label_file a with
         | None => inl (distances_of (t_k a) r.2)
         | Some _ => inr (neighbors_of (t_k a) r.2)
         end) (t_k a);
  Ret (algo, Result (combined_metric m.1 m.2) m.1 m.2 build_time).

Fixpoint tune_loop (a : targs) (d : data) (i : nat) (grid : list (list (string * Z))) (algo : Sptag ann)
    (best_metric : float) (best : option result) : py tuner unit :=
  match grid with
  | [] => report_final_result (Best best)
  | search_params :: rest =>
      match try_params a d i algo search_params with
      | Raise MemoryError => report_final_result (Failed (max_build_time a))
      | Raise e => raise e
      | OutOfFuel => fun s => (OutOfFuel, s)
      | Ret (algo, res) =>
          let better := fltb best_metric (r_default res) in
          in_world (write_result a (Z.of_nat i) res search_params);;
          tune_loop a d (S i) rest algo (if better then r_default res else best_metric)
            (if better then Some res else best)
      end
  end.

Definition tuner_main (a : targs) : py tuner unit :=
  d ← in_world (load_data a);
  algo ← lift (Sptag_init (algorithm a) (d_distance d));
  built ← build_index a d algo;
  match built with
  | None => mret tt
  | Some algo =>
      grid ← lift (grid_search set_order search_param_choices);
      tune_loop a d 0 grid algo (float_of_Z (-1)) None
  end.

End main.

(** ** Lemmas: the grid *)

Section permutation_lemmas.
Context {A : Type} `{!EqDecision A}.
Implicit Types (l c : list A).

Definition cnt (v : A) (l : list A) : nat := length (filter (fun x => x = v) l).

Lemma cnt_perm v l l' : l ≡ₚ l' -> cnt v l = cnt v l'.
Proof. intros H. unfold cnt. by rewrite H. Qed.

Lemma cnt_cons v x l : cnt v (x :: l) = ((if decide (x = v) then 1 else 0) + cnt v l)%nat.
Proof. unfold cnt. rewrite filter_cons. by destruct (decide (x = v)). Qed.

Lemma select_perm l x r : (x, r) ∈ select l -> l ≡ₚ x :: r.
Proof.
  revert x r. induction l as [|y l IH]; intros x r H; cbn in H; [by apply not_elem_of_nil in H|].
  apply elem_of_cons in H as [[= -> ->]|H]; [done|].
  apply list_elem_of_fmap in H as ([x' r'] & [= -> ->] & H). rewrite (IH _ _ H). constructor.
Qed.

Lemma select_elem l x : x ∈ l -> exists r, (x, r) ∈ select l.
Proof.
  induction 1 as [x l|x y l H [r IH]]; cbn.
  - exists l. by left.
  - exists (y :: r). right. apply list_elem_of_fmap. by exists (x, r).
Qed.

Lemma permutations_inv r l c : c ∈ permutations r l -> length c = r /\ forall x, x ∈ c -> x ∈ l.
Proof.
  revert l c. induction r as [|r IH]; intros l c H; cbn in H.
  - apply list_elem_of_singleton in H as ->. split; [done|]. intros x Hx. by apply not_elem_of_nil in Hx.
  - apply list_elem_of_bind in H as ([x l'] & H & Hs). apply list_elem_of_fmap in H as (c' & -> & Hc).
    apply IH in Hc as [Hl Hin]. apply select_perm in Hs. cbn. split; [by rewrite Hl|].
    intros y [-> | Hy]%elem_of_cons; rewrite Hs; [by left|right]. by apply Hin.
Qed.

Lemma permutations_intro r l c : length c = r -> (forall v, v ∈ c -> (r <= cnt v l)%nat) -> c ∈ permutations r l.
Proof.
  revert l c. induction r as [|r IH]; intros l [|x c] Hl H; try done; [by left|].
  cbn. apply list_elem_of_bind.
  assert (x ∈ l) as Hx.
  { specialize (H x (list_elem_of_here _ _)). unfold cnt in H.
    destruct (filter (fun y => y = x) l) as [|y ys] eqn:E; [cbn in H; lia|].
    assert (y ∈ filter (fun y => y = x) l) as [-> Hy]%list_elem_of_filter by (rewrite E; by left). done. }
  destruct (select_elem l x Hx) as (rest & Hs). exists (x, rest). split; [|done].
  apply list_elem_of_fmap. exists c. split; [done|]. apply IH; [by injection Hl|].
  intros v Hv. pose proof (H v (list_elem_of_further _ _ _ Hv)) as Hc.
  rewrite (cnt_perm v l (x :: rest)) in Hc by by apply select_perm. rewrite cnt_cons in Hc.
  cbn [snd]. case_decide; lia.
Qed.
End permutation_lemmas.

(** All tuples of [n] indices below [m]. *)
Fixpoint tuples (n : nat) (m : Z) : list (list Z) :=
  match n with
  | O => [[]]
  | S n' => py_range 0 m ≫= (fun i => (fun c => i :: c) <$> tuples n' m)
  end.

Lemma elem_of_tuples n m c : c ∈ tuples n m <-> length c = n /\ forall x, x ∈ c -> 0 <= x < m.
Proof.
  revert c. induction n as [|n IH]; intros c; cbn.
  - rewrite list_elem_of_singleton. destruct c; split; try done; [|by intros []].
    intros _. split; [done|]. intros x Hx. by apply not_elem_of_nil in Hx.
  - rewrite list_elem_of_bind. split.
    + intros (i & (c' & -> & Hc)%list_elem_of_fmap & Hi%elem_of_py_range). apply IH in Hc as [Hl Hc].
      cbn. split; [by rewrite Hl|]. intros x [-> | Hx]%elem_of_cons; [done|by apply Hc].
    + intros [Hl H]. destruct c as [|i c]; [done|]. exists i. split.
      * apply list_elem_of_fmap. exists c. split; [done|]. apply IH. split; [by injection Hl|].
        intros x Hx. apply H. by right.
      * apply elem_of_py_range, H. by left.
Qed.

Lemma NoDup_tuples n m : NoDup (tuples n m).
Proof.
  induction n as [|n IH]; cbn; [apply NoDup_singleton|].
  generalize (NoDup_py_range 0 m). generalize (py_range 0 m). intros l Hl. induction Hl as [|i l Hi Hl IHl]; cbn; [constructor|].
  apply NoDup_app. split_and!; [apply NoDup_fmap_2; [intros x y [=]; done|done]| |done].
  intros c (c' & -> & _)%list_elem_of_fmap H. apply list_elem_of_bind in H as (j & (c'' & [= -> ->] & _)%list_elem_of_fmap & Hj).
  done.
Qed.

Lemma cnt_index_pool n m v : 0 <= v < m -> cnt v (index_pool n m) = n.
Proof.
  intros Hv. unfold index_pool. assert (v ∈ py_range 0 m) as Hin by by apply elem_of_py_range.
  revert Hin. generalize (NoDup_py_range 0 m). generalize (py_range 0 m). intros l Hl Hin.
  assert (forall i k, cnt v (replicate k i) = if decide (i = v) then k else 0%nat) as Hrep.
  { intros i k. induction k as [|k IH]; [by destruct (decide (i = v))|]. cbn [replicate]. rewrite cnt_cons, IH.
    by destruct (decide (i = v)). }
  assert (forall a b, cnt v (a ++ b)%list = (cnt v a + cnt v b)%nat) as Happ
    by (intros a b; unfold cnt; by rewrite filter_app, length_app).
  assert (forall l', v ∉ l' -> cnt v (l' ≫= (fun i => replicate n i)) = 0%nat) as Hnot.
  { clear -Hrep Happ. induction l' as [|i l' IH]; intros H; [done|]. rewrite bind_cons, Happ, Hrep, IH by set_solver.
    destruct (decide (i = v)) as [->|]; [set_solver|done]. }
  induction Hl as [|i l Hi Hl IH]; [by apply not_elem_of_nil in Hin|]. rewrite bind_cons, Happ, Hrep.
  destruct (decide (i = v)) as [->|]; [rewrite Hnot by done; lia|]. rewrite IH; [done|].
  apply elem_of_cons in Hin as [->|Hin]; done.
Qed.

Lemma grid_indices n m : 0 <= m -> (0 < n)%nat -> remove_dups (permutations n (index_pool n m)) ≡ₚ tuples n m.
Proof.
  intros Hm Hn. apply NoDup_Permutation; [apply NoDup_remove_dups|apply NoDup_tuples|].
  intros c. rewrite elem_of_remove_dups, elem_of_tuples. split.
  - intros [Hl Hin]%permutations_inv. split; [done|]. intros x Hx. apply Hin in Hx. unfold index_pool in Hx.
    apply list_elem_of_bind in Hx as (i & Hx & Hi%elem_of_py_range). apply elem_of_replicate in Hx as [-> _]. done.
  - intros [Hl Hb]. apply permutations_intro; [done|]. intros v Hv. by rewrite cnt_index_pool by by apply Hb.
Qed.

Lemma filter_bind {A B} (P : B -> Prop) `{!forall x, Decision (P x)} (f : A -> list B) (l : list A) :
  filter P (l ≫= f) = l ≫= (fun x => filter P (f x)).
Proof. induction l as [|x l IH]; [done|]. cbn. by rewrite filter_app, IH. Qed.

Lemma fmap_bind {A B C} (g : B -> C) (f : A -> list B) (l : list A) :
  g <$> (l ≫= f) = l ≫= (fun x => g <$> f x).
Proof. induction l as [|x l IH]; [done|]. cbn. by rewrite fmap_app, IH. Qed.

Lemma bind_ext_in {A B} (f g : A -> list B) l : (forall x, x ∈ l -> f x = g x) -> l ≫= f = l ≫= g.
Proof.
  induction l as [|x l IH]; intros H; [done|]. cbn. rewrite H by by left. rewrite IH; [done|]. intros y Hy. apply H. by right.
Qed.

(** Visiting the indices of a list, and more, visits its elements. *)
Lemma bind_lookup {V W} (vs : list V) (g : V -> list W) k m :
  (length vs <= m)%nat ->
  seq k m ≫= (fun i => match vs !! (i - k)%nat with Some v => g v | None => [] end) = vs ≫= g.
Proof.
  revert k m. induction vs as [|v vs IH]; intros k m Hm.
  - rewrite (bind_ext_in _ (fun _ => [])) by done. clear. revert k. induction m as [|m IH]; intros k; cbn; [done|apply IH].
  - destruct m as [|m]; [cbn in Hm; lia|]. cbn [seq mbind list_bind]. rewrite Nat.sub_diag. cbn [lookup list_lookup].
    f_equal. rewrite <- (IH (S k) m) by (cbn in Hm; lia). apply bind_ext_in. intros i Hi%elem_of_seq.
    replace (i - k)%nat with (S (i - S k)) by lia. done.
Qed.

Section grid_props.
Context {V : Type}.
Abbreviation choices := (list (string * list V)).

(** The cartesian product, as dictionaries. *)
Fixpoint product (params : choices) : list (list (string * V)) :=
  match params with
  | [] => [[]]
  | (k, vs) :: ps => vs ≫= (fun v => (fun r => (k, v) :: r) <$> product ps)
  end.

Lemma grid_filter (params : choices) m :
  Forall (fun p => Z.of_nat (length p.2) <= m) params -> 0 <= m ->
  filter (fun res => length res = length params) ((fun c => combine c params) <$> tuples (length params) m) = product params.
Proof.
  intros HF Hm. induction HF as [|[k vs] ps Hlen HF IH]; [done|]. cbn [length tuples product].
  rewrite fmap_bind, filter_bind.
  rewrite (bind_ext_in _ (fun i => match vs !! (Z.to_nat i - 0)%nat with
    | Some v => (fun r => (k, v) :: r) <$> product ps | None => [] end)).
  - cbn in Hlen. replace m with (Z.of_nat (Z.to_nat m)) by lia. rewrite py_range_seq, list_fmap_bind.
    rewrite <- (bind_lookup vs _ 0 (Z.to_nat m)) by lia. apply bind_ext_in. intros i _. cbn. by rewrite Nat2Z.id.
  - intros i Hi%elem_of_py_range. cbn [compose]. rewrite <- list_fmap_compose. rewrite Nat.sub_0_r. rewrite <- IH.
    generalize (tuples (length ps) m). intros l. unfold compose. cbn [combine].
    destruct (vs !! Z.to_nat i) as [v|] eqn:Hv.
    + apply lookup_lt_Some in Hv as Hlt. replace (Z.of_nat (length vs) <=? i) with false by lia.
      induction l as [|c l IHl]; [done|]. cbn [fmap list_fmap]. rewrite !filter_cons.
      destruct (decide (length (combine c ps) = length ps)) as [E|E].
      * rewrite decide_True by (cbn; by rewrite E). cbn. f_equal. exact IHl.
      * rewrite decide_False by (cbn; lia). exact IHl.
    + apply lookup_ge_None in Hv. replace (Z.of_nat (length vs) <=? i) with true by lia.
      induction l as [|c l IHl]; [done|]. cbn [fmap list_fmap]. rewrite filter_cons, decide_False by done. exact IHl.
Qed.

Lemma max_choices_bound (params : choices) m :
  max_choices params = Ret m -> Forall (fun p => Z.of_nat (length p.2) <= m) params /\ 0 <= m.
Proof.
  unfold max_choices. destruct params as [|p ps]; [done|]. cbn [fmap list_fmap]. intros [= <-].
  set (l := (fun p : string * list V => Z.of_nat (length p.2)) <$> ps).
  assert (forall l x, x <= foldl Z.max x l /\ forall y, y ∈ l -> y <= foldl Z.max x l) as Hmax.
  { clear. induction l as [|z l IH]; intros x; cbn; [split; [lia|]; intros y Hy; by apply not_elem_of_nil in Hy|].
    destruct (IH (Z.max x z)) as [H1 H2]. split; [lia|]. intros y [-> | Hy]%elem_of_cons; [lia|by apply H2]. }
  destruct (Hmax l (Z.of_nat (length p.2))) as [H1 H2]. split; [|lia]. constructor; [done|].
  apply Forall_forall. intros q Hq. apply H2. subst l. apply list_elem_of_fmap. by exists q.
Qed.

(** C9: the grid is complete and without repetition: whatever order the set of
    index tuples is visited in, [grid_search] yields each combination of one
    value per parameter exactly once. *)
Theorem grid_search_product (set_order : list (list Z) -> list (list Z)) (params : choices) :
  (forall l, set_order l ≡ₚ remove_dups l) -> params <> [] ->
  exists res, grid_search set_order params = Ret res /\ res ≡ₚ product params.
Proof.
  intros Hset Hne. unfold grid_search. destruct (max_choices params) as [m|e|] eqn:Hm.
  - destruct (max_choices_bound _ _ Hm) as [HF Hm0]. cbn [mbind outcome_bind]. eexists. split; [reflexivity|].
    rewrite Hset, grid_indices by (done || (destruct params; [done|cbn; lia])). by rewrite grid_filter.
  - by destruct params.
  - by destruct params.
Qed.
End grid_props.

(** ** Recall *)

Section recall_props.
Context (np_mean np_std : list Z -> float) (np_divide : float -> float -> float).

Lemma length_filter_all {A} (P : A -> Prop) `{!forall x, Decision (P x)} (l : list A) :
  length (filter P l) = length l <-> Forall P l.
Proof.
  split.
  - intros Hlf. apply Forall_forall. intros x Hx. destruct (decide (P x)) as [|Hn]; [done|].
    pose proof (length_filter_lt P l x Hx Hn). lia.
  - induction 1 as [|x l Hx HF IH]; [done|]. rewrite filter_cons_True by done. cbn. by rewrite IH.
Qed.

Lemma count_in_bound truth ids : 0 <= count_in truth ids <= Z.of_nat (length ids).
Proof. unfold count_in. split; [lia|]. apply inj_le, length_filter. Qed.

Lemma mapM_out_defined {A B} (f : A -> outcome B) l : (forall x, x ∈ l -> exists y, f x = Ret y) -> exists r, mapM_out f l = Ret r.
Proof.
  induction l as [|x l IH]; intros H; [by exists []|]. cbn [mapM_out]. destruct (H x) as [y ->]; [by left|]. cbn [mbind outcome_bind].
  destruct IH as [r ->]; [intros z Hz; apply H; by right|]. by eexists.
Qed.

(** An index of a loop over a list. *)
Lemma range_lookup {A} (l : list A) z : z ∈ py_range 0 (Z.of_nat (length l)) -> exists i x, z = Z.of_nat i /\ l !! i = Some x.
Proof.
  intros Hz%elem_of_py_range. destruct (lookup_lt_is_Some_2 l (Z.to_nat z)) as [x Hx]; [lia|]. exists (Z.to_nat z), x. split; [lia|done].
Qed.

(** C23: recall by ids counts hits: when every query has a ground truth there is
    one count per query, between 0 and [k], and for a query with at least [k]
    answers it is [k] exactly when all of the first [k] answers are among the
    first [k] of the ground truth. *)
Theorem recall_from_index_counts truth run k :
  0 <= k -> (length run <= length truth)%nat ->
  exists mu sd recalls, get_recall_from_index np_mean np_std np_divide truth run k = Ret (mu, sd, recalls) /\
    length recalls = length run /\
    forall i row tr, run !! i = Some row -> truth !! i = Some tr ->
      exists r, recalls !! i = Some r /\ 0 <= r <= k /\
        (k <= Z.of_nat (length row) ->
         (r = k <-> Forall (fun d => IStr (str_of_Z d) ∈ take (Z.to_nat k) tr) (take (Z.to_nat k) row))).
Proof.
  intros Hk Hlt'. unfold get_recall_from_index.
  match goal with |- context [mapM_out ?f ?l] => destruct (mapM_out_defined f l) as [rs Hrs] end.
  { intros z (i & row & -> & Hrow)%range_lookup. rewrite (py_index_nat _ _ _ Hrow). cbn [mbind outcome_bind].
    destruct (upto row k); [by eexists|]. apply lookup_lt_Some in Hrow. destruct (lookup_lt_is_Some_2 truth i) as [tr Htr]; [lia|].
    rewrite (py_index_nat _ _ _ Htr). by eexists. }
  rewrite Hrs. eexists _, _, rs. split; [reflexivity|].
  pose proof (mapM_out_length _ _ _ Hrs) as Hlen. rewrite length_py_range in Hlen. split; [lia|].
  intros i row tr Hrow Htr. apply lookup_lt_Some in Hrow as Hlt.
  destruct (mapM_out_lookup _ _ _ i _ Hrs (py_range_lookup _ _ Hlt)) as (r & Hr & Hf). exists r. split; [done|].
  rewrite (py_index_nat _ _ _ Hrow), (py_index_nat _ _ _ Htr) in Hf. cbn [mbind outcome_bind] in Hf.
  unfold upto, slice_to in Hf. replace (k <? 0) with false in Hf by lia.
  assert (r = count_in (take (Z.to_nat k) tr) (take (Z.to_nat k) row)) as ->
    by (destruct (take (Z.to_nat k) row); by simplify_eq).
  pose proof (count_in_bound (take (Z.to_nat k) tr) (take (Z.to_nat k) row)) as Hb. rewrite length_take in Hb.
  split; [lia|]. intros Hlong. unfold count_in in *.
  pose proof (length_filter_all (fun d => IStr (str_of_Z d) ∈ take (Z.to_nat k) tr) (take (Z.to_nat k) row)) as Hall.
  rewrite length_take in Hall. rewrite <- Hall. lia.
Qed.

(** Recall by distance: when every query has a [k]-th true distance there
    is one count per query, at most [k]; and it is [k] when [k] answers are at
    the true distances or nearer, that is, each is at most the [k]-th true
    distance and adding the tolerance does not lower it. *)
Theorem recall_from_distance_counts label_add truth run k :
  0 <= k ->
  (forall i, (i < length run)%nat -> exists tr x, truth !! i = Some tr /\ py_index tr (k - 1) = Ret (INum x)) ->
  exists mu sd recalls, get_recall_from_distance label_add np_mean np_std np_divide truth run k = Ret (mu, sd, recalls) /\
    length recalls = length run /\
    forall i row tr x, run !! i = Some row -> truth !! i = Some tr -> py_index tr (k - 1) = Ret (INum x) ->
      exists r, recalls !! i = Some r /\ 0 <= r <= k /\
        (k <= Z.of_nat (length row) -> fleb x (label_add x epsilon) = true ->
         Forall (fun d => fleb d x = true) (take (Z.to_nat k) row) -> r = k).
Proof.
  intros Hk Htruth. unfold get_recall_from_distance.
  match goal with |- context [mapM_out ?f ?l] => destruct (mapM_out_defined f l) as [rs Hrs] end.
  { intros z (i & row & -> & Hrow)%range_lookup. apply lookup_lt_Some in Hrow as Hlt.
    destruct (Htruth i Hlt) as (tr & x & Htr & Hx). rewrite (py_index_nat _ _ _ Htr). cbn [mbind outcome_bind].
    unfold knn_threshold. rewrite Hx. cbn [mbind outcome_bind]. rewrite (py_index_nat _ _ _ Hrow). by eexists. }
  rewrite Hrs. eexists _, _, rs. split; [reflexivity|].
  pose proof (mapM_out_length _ _ _ Hrs) as Hlen. rewrite length_py_range in Hlen. split; [lia|].
  intros i row tr x Hrow Htr Hx. apply lookup_lt_Some in Hrow as Hlt.
  destruct (mapM_out_lookup _ _ _ i _ Hrs (py_range_lookup _ _ Hlt)) as (r & Hr & Hf). exists r. split; [done|].
  unfold knn_threshold in Hf. rewrite (py_index_nat _ _ _ Htr) in Hf. cbn [mbind outcome_bind] in Hf.
  rewrite Hx in Hf. cbn [mbind outcome_bind] in Hf. rewrite (py_index_nat _ _ _ Hrow) in Hf. injection Hf as <-.
  unfold upto, slice_to, count_below. replace (k <? 0) with false by lia.
  pose proof (length_filter (fun d => fleb d (label_add x epsilon) = true) (take (Z.to_nat k) row)) as Hb.
  rewrite length_take in Hb. split; [lia|]. intros Hlong Hadd HF.
  assert (length (filter (fun d => fleb d (label_add x epsilon) = true) (take (Z.to_nat k) row)) = length (take (Z.to_nat k) row)) as ->.
  { apply length_filter_all. eapply Forall_impl; [exact HF|]. intros d Hd. exact (fleb_trans _ _ _ Hd Hadd). }
  rewrite length_take. lia.
Qed.
End recall_props.

(** ** Trials *)

Section trial_props.
Context {num : Type} `{!EqDecision num} `{!Countable num} `{!Numpy num} {ann : Type} `{!AnnIndex (list num) ann}.
Context (scipy_pdist : string -> list num -> list num -> float).
Context (label_add : float -> float -> float) (np_mean np_std : list Z -> float) (np_divide : float -> float -> float).
Context (np_log10 : float -> float).
Context (para : option (list (string * string))) (trial_id : string).
Context (elapsed : nat -> nat -> nat -> float) (rss : nat -> nat -> nat -> Z) (build_time : float).
Context (json_dump : result -> option (list (string * string)) -> list (string * Z) -> string).

Abbreviation try := (try_params scipy_pdist label_add np_mean np_std np_divide np_log10 elapsed rss build_time).
Abbreviation loop := (tune_loop scipy_pdist label_add np_mean np_std np_divide np_log10 para trial_id elapsed rss
                        build_time json_dump).

(** The results of all combinations, in order. *)
Fixpoint trial_results (a : targs) (d : data) (i : nat) (grid : list (list (string * Z))) (algo : Sptag ann)
    : outcome (list result) :=
  match grid with
  | [] => Ret []
  | p :: rest => ar ← try a d i algo p; rs ← trial_results a d (S i) rest ar.1; Ret (ar.2 :: rs)
  end.

(** [b] is a best of [rs], starting from the metric [m0]. *)
Definition is_best (m0 : float) (b0 : option result) (rs : list result) (b : option result) : Prop :=
  match b with
  | None => b0 = None /\ Forall (fun r => fltb m0 (r_default r) = false) rs
  | Some r => (b0 = Some r /\ Forall (fun r' => fltb m0 (r_default r') = false) rs) \/
              (r ∈ rs /\ fltb m0 (r_default r) = true /\ Forall (fun r' => fltb (r_default r) (r_default r') = false) rs)
  end.

Lemma is_best_cons m0 b0 x rs b (better := fltb m0 (r_default x)) :
  is_best (if better then r_default x else m0) (if better then Some x else b0) rs b -> is_best m0 b0 (x :: rs) b.
Proof.
  subst better. destruct (fltb m0 (r_default x)) eqn:Hx; destruct b as [r|]; cbn [is_best].
  - intros [[[= <-] HF]|(Hr & Hgt & HF)]; right.
    + split_and!; [by left|done|]. constructor; [|done]. apply not_true_iff_false. intros H.
      pose proof (fltb_not_fleb _ _ H) as H'. apply fltb_rank in H as (p & q & Hp & Hq & H). simplify_eq.
      unfold lex_lt in H. lia.
    + split_and!; [by right|by eapply fltb_trans|]. constructor; [|done].
      apply not_true_iff_false. intros H. pose proof (fltb_trans _ _ _ Hgt H) as H'.
      apply fltb_rank in H' as (p & q & Hp & Hq & H'). simplify_eq. unfold lex_lt in H'. lia.
  - intros [? _]. done.
  - intros [[-> HF]|(Hr & Hgt & HF)]; [left; split; [done|by constructor]|].
    right. split_and!; [by right|done|]. constructor; [|done]. apply not_true_iff_false. intros H.
    by rewrite (fltb_trans _ _ _ Hgt H) in Hx.
  - intros [-> HF]. split; [done|]. by constructor.
Qed.

Lemma in_world_reports {A} (m : py world A) s : reports (in_world m s).2 = reports s.
Proof. unfold in_world. by destruct (m (t_world s)). Qed.

Lemma in_world_keeps {A} (m : py world A) s r s' : in_world m s = (r, s') -> reports s' = reports s.
Proof. intros H. by rewrite <- (in_world_reports m s), H. Qed.

(** The result files can be written, whatever is written. *)
Definition writes_ok (ok : world -> Prop) (a : targs) (n : nat) : Prop :=
  forall i res p w, (i < n)%nat -> ok w ->
    exists w', write_result para trial_id json_dump a (Z.of_nat i) res p w = (Ret tt, w') /\ ok w'.

Lemma tune_loop_best ok a d n i grid algo m0 b0 s rs :
  writes_ok ok a n -> (i + length grid <= n)%nat -> ok (t_world s) -> trial_results a d i grid algo = Ret rs ->
  exists s' b, loop a d i grid algo m0 b0 s = (Ret tt, s') /\
    reports s' = (reports s ++ [Best b])%list /\ is_best m0 b0 rs b.
Proof.
  intros Hwr. revert i algo m0 b0 s rs. induction grid as [|p grid IH]; intros i algo m0 b0 s rs Hi Hok Hrs; cbn [trial_results tune_loop] in *.
  - injection Hrs as <-. eexists _, b0. split; [reflexivity|]. split; [done|]. destruct b0; cbn; [by left|done].
  - destruct (try a d i algo p) as [[algo' x]|e|]; cbn [mbind outcome_bind fst snd] in Hrs; [|done..].
    destruct (trial_results a d (S i) grid algo') as [rs'|e|] eqn:Hrs'; cbn in Hrs; [|done..]. injection Hrs as <-.
    destruct (Hwr i x p (t_world s)) as (w' & Hw & Hok'); [cbn in Hi; lia|done|].
    assert (in_world (write_result para trial_id json_dump a (Z.of_nat i) x p) s = (Ret tt, Tuner w' (reports s))) as E
      by (unfold in_world; by rewrite Hw).
    rewrite (bind_ret _ _ _ _ _ E).
    edestruct (IH (S i) algo') as (s' & b & Hrun & Hb & Hbest); [cbn in Hi; lia| |exact Hrs'|].
    2:{ exists s', b. split; [exact Hrun|]. split; [exact Hb|]. by apply is_best_cons. }
    done.
Qed.

(** C4: a search over a grid whose combinations all run ends with one report,
    and it is a best result: the empty one when no combination scored above -1,
    otherwise the result of some combination that no other combination beats. *)
Theorem tuner_reports_best ok a d grid algo s rs :
  writes_ok ok a (length grid) -> ok (t_world s) -> trial_results a d 0 grid algo = Ret rs ->
  exists s' b, loop a d 0 grid algo (float_of_Z (-1)) None s = (Ret tt, s') /\
    reports s' = (reports s ++ [Best b])%list /\
    match b with
    | None => Forall (fun r => fltb (float_of_Z (-1)) (r_default r) = false) rs
    | Some r => r ∈ rs /\ fltb (float_of_Z (-1)) (r_default r) = true /\
                Forall (fun r' => fltb (r_default r) (r_default r') = false) rs
    end.
Proof.
  intros Hwr Hok Hrs.
  destruct (tune_loop_best ok a d _ 0 grid algo (float_of_Z (-1)) None s rs Hwr (le_n _) Hok Hrs) as (s' & b & Hrun & Hb & Hbest).
  exists s', b. split_and!; [done|done|]. destruct b as [r|]; [destruct Hbest as [[? _]|H]; [done|exact H]|apply Hbest].
Qed.

(** A computation that reports nothing, and one that reports once if it ends
    normally and nothing otherwise. *)
Definition quiet {A} (m : py tuner A) : Prop := forall s, reports (m s).2 = reports s.
Definition once (P : report -> Prop) (m : py tuner unit) : Prop := forall s,
  match m s with
  | (Ret _, s') => exists r, reports s' = (reports s ++ [r])%list /\ P r
  | (_, s') => reports s' = reports s
  end.

Lemma once_bind {A} P (m : py tuner A) k : quiet m -> (forall a, once P (k a)) -> once P (m ≫= k).
Proof.
  intros Hm Hk s. unfold mbind, py_bind. specialize (Hm s). destruct (m s) as [[a|e|] s1]; [|done..]. cbn in Hm.
  specialize (Hk a s1). rewrite Hm in Hk. exact Hk.
Qed.

Lemma quiet_in_world {A} (m : py world A) : quiet (in_world m).
Proof. intros s. apply in_world_reports. Qed.
Lemma quiet_lift {A} (o : outcome A) : quiet (lift o).
Proof. done. Qed.

Lemma tune_loop_once a d i grid algo m0 b0 : once (fun _ => True) (loop a d i grid algo m0 b0).
Proof.
  revert i algo m0 b0. induction grid as [|p grid IH]; intros i algo m0 b0; cbn [tune_loop]; [intros s; by eexists|].
  destruct (try a d i algo p) as [[algo' x]|e|]; [|destruct e; intros s; done || by eexists|done].
  apply once_bind; [apply quiet_in_world|]. intros _. apply IH.
Qed.
End trial_props.

Section main_props.
Context {num : Type} `{!EqDecision num} `{!Countable num} `{!Numpy num} {ann : Type} `{!AnnIndex (list num) ann}.
Context (scipy_pdist : string -> list num -> list num -> float).
Context `{!Blas num} (astype : string -> list num -> list num) (argpartition : list float -> Z -> list Z).
Context (label_add : float -> float -> float) (np_mean np_std : list Z -> float) (np_divide : float -> float -> float).
Context (np_log10 : float -> float) (set_order : list (list Z) -> list (list Z)).
Context (para : option (list (string * string))) (trial_id : string).
Context (elapsed : nat -> nat -> nat -> float) (rss : nat -> nat -> nat -> Z) (build_time : float) (build_ends : bool).
Context (json_dump : result -> option (list (string * string)) -> list (string * Z) -> string).
Context (h5open : string -> outcome (Dataset.h5file (num := num))).
Context (np_array : string -> Dataset.points (num := num) -> outcome (list (list num))) (label_of : num -> float).

Abbreviation main := (tuner_main scipy_pdist astype argpartition label_add np_mean np_std
  np_divide np_log10 set_order para trial_id elapsed rss build_time build_ends json_dump h5open np_array label_of).

(** The build: quiet when there is an index, one report when the time is up. *)
Lemma build_index_reports a d algo s :
  match build_index (ann := ann) para build_ends a d algo s with
  | (Ret (Some _), s') => reports s' = reports s /\ (0 < max_build_time a -> build_ends = true)
  | (Ret None, s') => reports s' = (reports s ++ [Failed (max_build_time a)])%list
  | (_, s') => reports s' = reports s
  end.
Proof.
  unfold build_index. destruct (0 <? max_build_time a) eqn:Hlim; [destruct build_ends|].
  - unfold lift, mbind, py_bind at 1. destruct (fit _ _ _ _ _ _) as [child|e|]; [|done..]. unfold py_bind at 1.
    match goal with |- context [in_world ?m s] => pose proof (in_world_reports m s) as H1; destruct (in_world m s) as [[u|e|] s1] end;
      [|done..]. cbn in H1. unfold py_bind. pose proof (in_world_reports (rmtree "index") s1) as H2.
    destruct (in_world (rmtree "index") s1) as [[u'|e|] s2]; cbn in H2; [|congruence..]. cbn. split; [congruence|done].
  - done.
  - unfold lift, mbind, py_bind. destruct (fit _ _ _ _ _ _) as [child|e|]; [|done..]. cbn. split; [done|lia].
Qed.

(** C27: a trial reports to nni at most once, and exactly once when it ends
    normally; when its build did not finish within the limit, that report is the
    failure record. A trial that stops with an exception has reported nothing. *)
Theorem tuner_reports_once a s :
  match main a s with
  | (Ret _, s') => exists r, reports s' = (reports s ++ [r])%list /\
                     (0 < max_build_time a -> build_ends = false -> r = Failed (max_build_time a))
  | (_, s') => reports s' = reports s
  end.
Proof.
  set (P := fun r => 0 < max_build_time a -> build_ends = false -> r = Failed (max_build_time a)).
  enough (once P (main a)) as H by apply H.
  unfold tuner_main. apply once_bind; [apply quiet_in_world|]. intros d. apply once_bind; [apply quiet_lift|]. intros algo s0.
  pose proof (build_index_reports a d algo s0) as Hb. unfold mbind, py_bind at 1.
  destruct (build_index _ _ _ _ _ _) as [[[algo'|]|e|] s1]; [|by eexists|done..].
  destruct Hb as [Hq Hend]. unfold py_bind, lift. destruct (grid_search _ _) as [grid|e|]; [|done..].
  pose proof (tune_loop_once scipy_pdist label_add np_mean np_std np_divide np_log10 para trial_id elapsed rss build_time json_dump
    a d 0 grid algo' (float_of_Z (-1)) None s1) as Ho.
  destruct (tune_loop _ _ _ _ _ _ _ _ _ _ _ _ _ _ _ _ _ _ _ s1) as [[u|e|] s2]; [|congruence..].
  destruct Ho as (r & Hr & _). exists r. split; [congruence|]. intros Hl Hf. specialize (Hend Hl). congruence.
Qed.
End main_props.

(** ** Witnesses *)

Lemma grid_search_product_witness :
  exists res, grid_search remove_dups [("a", [1; 2]); ("b", [3])] = Ret res /\
    res ≡ₚ [[("a", 1); ("b", 3)]; [("a", 2); ("b", 3)]].
Proof. apply (grid_search_product remove_dups [("a", [1; 2]); ("b", [3])]); done. Defined.

Definition demo_stat (_ : list Z) : float := float_of_Z 0.
Definition demo_div (x _ : float) : float := x.

Lemma recall_from_index_counts_witness :
  exists mu sd recalls, get_recall_from_index demo_stat demo_stat demo_div [[IStr "4"; IStr "5"]] [[5; 9]] 2 =
    Ret (mu, sd, recalls) /\ length recalls = 1%nat.
Proof.
  destruct (recall_from_index_counts demo_stat demo_stat demo_div [[IStr "4"; IStr "5"]] [[5; 9]] 2) as (mu & sd & rs & H & Hl & _);
    [lia|cbn; lia|]. exists mu, sd, rs. split; [exact H|exact Hl].
Defined.

Lemma recall_from_distance_counts_witness :
  exists mu sd recalls, get_recall_from_distance fadd demo_stat demo_stat demo_div [[INum (float_of_Z 4)]] [[float_of_Z 4]] 1 =
    Ret (mu, sd, recalls) /\ length recalls = 1%nat.
Proof.
  destruct (recall_from_distance_counts demo_stat demo_stat demo_div fadd [[INum (float_of_Z 4)]] [[float_of_Z 4]] 1)
    as (mu & sd & rs & H & Hl & _); [lia| |].
  - intros [|i] Hi; [|cbn in Hi; lia]. exists [INum (float_of_Z 4)], (float_of_Z 4). done.
  - exists mu, sd, rs. split; [exact H|exact Hl].
Defined.

#[export] Instance unit_ann : AnnIndex (list Z) unit := {
  ann_new := fun _ _ _ => tt; SetBuildParam := fun _ _ _ i => i; SetSearchParam := fun _ _ _ i => i;
  Build := fun _ _ _ i => i; Search := fun _ _ k => py_range 0 k; ann_Load := fun _ => tt
}.

Definition demo_targs (limit : Z) : targs := TArgs "base.bin" "base.bin" None "BKT" 1 "euclidean" limit (-1) 2 "int8" "float32".
Definition demo_data : data := Data [[1]; [3]] [[1]] "euclidean" 1 [[INum (float_of_Z 0)]].
Definition demo_sptag : Sptag unit := SptagObj "BKT" [] "L2" (Some "Float") (Some tt) None ∅.
Definition demo_json (_ : result) (_ : option (list (string * string))) (_ : list (string * Z)) : string := "{}".

Definition demo_dirs : gset string := {["results"; "results/base"]}.
Definition demo_tuner : tuner := Tuner (World ∅ demo_dirs []) [].

Lemma demo_writes : writes_ok None "t" demo_json (fun w => dirs w = demo_dirs) (demo_targs 0) 1.
Proof.
  intros [|i] res p w Hi Hw; [|lia]. unfold write_result, os_path_exists. erewrite bind_ret by reflexivity.
  change (path_join "results" (hd "" (split_on "." (train_file (demo_targs 0))))) with "results/base".
  assert (path_exists w "results/base" = true) as -> by (apply path_exists_dir; rewrite Hw; by apply (bool_decide_eq_true_1 _)).
  cbn [negb when]. erewrite bind_ret by reflexivity. erewrite bind_ret.
  2:{ apply create_file_ok. unfold can_create. rewrite Hw. vm_compute. reflexivity. }
  unfold write_text. rewrite append_put. eexists. split; [reflexivity|]. exact Hw.
Qed.

Lemma tuner_reports_best_witness :
  exists s' b, tune_loop demo_pdist fadd demo_stat demo_stat demo_div id None "t" (fun _ _ _ => float_of_Z 1) (fun _ _ _ => 0)
    (float_of_Z 9) demo_json (demo_targs 0) demo_data 0 [[("MaxCheck", 512)]] demo_sptag (float_of_Z (-1)) None demo_tuner =
      (Ret tt, s') /\ reports s' = [Best b].
Proof.
  edestruct (tuner_reports_best demo_pdist fadd demo_stat demo_stat demo_div id None "t" (fun _ _ _ => float_of_Z 1)
    (fun _ _ _ => 0) (float_of_Z 9) demo_json (fun w => dirs w = demo_dirs) (demo_targs 0) demo_data [[("MaxCheck", 512)]] demo_sptag
    demo_tuner) as (s' & b & Hrun & Hb & _); [exact demo_writes|reflexivity|vm_compute; reflexivity|].
  exists s', b. split; [exact Hrun|exact Hb].
Defined.
