(* ===== verification/Plot.v ===== *)
(** * Tools/nni-auto-tune/plot.py

    Collects the result files of a tuning run, keeps the recall / queries per
    second frontier, writes it as text and draws it. [json.load] and the
    drawing of matplotlib are parameters. *)

From Stdlib Require Import Ascii SpecFloat.
From S2P Require Import Prelude PyStr PyFloat PyBytes PyIO TopK.

Open Scope string_scope.
Open Scope Z_scope.

(** A result: queries per second and recall, and the other three entries as
    [str] shows them. *)
Record point := Point { p_qps : float; p_recall : float; p_build : string; p_bp : string; p_sp : string }.

(** ** The sort key [(-1 * t[0], -1 * t[1])]

    Multiplying by -1 negates a float exactly. Tuples are compared at the first
    place where they differ. *)
Definition feqb (x y : float) : bool := match SFcompare x y with Some Eq => true | _ => false end.
Definition neg (x : float) : float := SFopp x.
Definition key_lt (x y : point) : bool :=
  if feqb (neg (p_qps x)) (neg (p_qps y)) then fltb (neg (p_recall x)) (neg (p_recall y))
  else fltb (neg (p_qps x)) (neg (p_qps y)).
Definition not_after (x y : point) : Prop := key_lt y x = false.
#[export] Instance not_after_dec x y : Decision (not_after x y) := decide (key_lt y x = false).

(** [list.sort]: a stable sort. *)
Definition sort_points (l : list point) : list point := sort_by not_after l.

(** ** The frontier: points whose recall exceeds the last one kept *)
Fixpoint frontier (last_x : float) (i : Z) (l : list point) : list (Z * point) :=
  match l with
  | [] => []
  | p :: l' => if fltb last_x (p_recall p) then (i, p) :: frontier (p_recall p) (i + 1) l'
               else frontier last_x (i + 1) l'
  end.

Definition selected (data : list point) : list (Z * point) :=
  frontier (float_of_Z (-1)) 0 (sort_points data).

Definition point_line (ip : Z * point) : string :=
  let '(i, p) := ip in
  "Selected point" ++ str_of_Z i ++ "recalls:" ++ float_repr (p_recall p) ++ "qps:" ++ float_repr (p_qps p) ++
  "build time:" ++ p_build p ++ "with build params:" ++ p_bp p ++ "and search params:" ++ p_sp p ++ newline.

(** ** The axes *)
Inductive x_axis : Set :=
  | Scale (name : string)
  | Function (alpha : float) (logit_ticks inverse_ticks : bool).

Definition axis_of (x_scale : string) : outcome x_axis :=
  match x_scale with
  | "" => Raise IndexError
  | String c rest =>
      if Ascii.eqb c "a" then
        alpha ← float_of_str rest;
        Ret (Function alpha (fltb (float_of_Z 3) alpha) (fleb alpha (float_of_Z 3)))
      else Ret (Scale x_scale)
  end.

Section plot.
(** A result file's entries; [None] when loading or a look-up raises. *)
Context (json_load : list byte -> option point).
(** Drawing: path, recalls, queries per second, axes. *)
Context (draw : string -> list float -> list float -> x_axis -> string -> py world unit).

Fixpoint load_results (path : string) (results : list string) (data : list point) : py world (list point) :=
  match results with
  | [] => mret data
  | p :: rest =>
      b ← read_file (path_join (path_join "results" path) p);
      match json_load b with
      | Some x => load_results path rest (data ++ [x])%list
      | None => load_results path rest data
      end
  end.

Definition create_plot (path x_scale y_scale : string) (results : list string) : py world unit :=
  data ← load_results path results [];
  let sel := selected data in
  create_file (path ++ ".json");;
  for_each sel (fun ip => write_text (path ++ ".json") (point_line ip));;
  ax ← lift (axis_of x_scale);
  draw path (p_recall <$> sel.*2) (p_qps <$> sel.*2) ax y_scale.

(** The main program; [listdir] is the order of the directory's entries. *)
Definition plot_main (path x_scale y_scale : string) (listdir : list string) : py world unit :=
  found ← os_path_exists (path_join "results" path);
  if (found : bool) then create_plot path x_scale y_scale listdir else raise FileNotFoundError.
End plot.

(** ** Lemmas *)

Lemma feqb_rank x y : feqb x y = true <-> exists a, frank x = Some a /\ frank y = Some a.
Proof.
  unfold feqb, SFcompare. destruct x as [sx|[]| |[] mx ex], y as [sy|[]| |[] my ey]; cbn; float_compare;
    (split; [intros Hf; first [discriminate Hf | eexists; split; [reflexivity|try reflexivity; repeat f_equal; lia]]
            |intros (a & Ha & Hb); simplify_eq; reflexivity || lia]).
Qed.

Definition opp3 (a : Z * Z * Z) : Z * Z * Z := (- a.1.1, - a.1.2, - a.2).

Lemma frank_neg x : frank (neg x) = opp3 <$> frank x.
Proof. destruct x as [s|[]| |[] m e]; cbn; unfold opp3; cbn; do 3 f_equal; lia. Qed.

(** A point with numbers, not NaN, and its two ranks. *)
Definition numeric (p : point) : Prop := is_number (p_qps p) = true /\ is_number (p_recall p) = true.

Lemma numeric_ranks p : numeric p -> exists q r, frank (p_qps p) = Some q /\ frank (p_recall p) = Some r.
Proof.
  intros [Hq Hr]. assert (forall x, is_number x = true -> exists a, frank x = Some a) as H.
  { intros x Hx. destruct x; try done; by eexists. }
  destruct (H _ Hq) as [q ->], (H _ Hr) as [r ->]. by exists q, r.
Qed.

(** The order of two numeric points, by ranks. *)
Lemma not_after_spec x y qx rx qy ry :
  frank (p_qps x) = Some qx -> frank (p_recall x) = Some rx ->
  frank (p_qps y) = Some qy -> frank (p_recall y) = Some ry ->
  not_after x y <-> lex_lt qy qx \/ (qx = qy /\ ~ lex_lt rx ry).
Proof.
  intros Hqx Hrx Hqy Hry. unfold not_after, key_lt. rewrite <- not_true_iff_false.
  destruct (feqb (neg (p_qps y)) (neg (p_qps x))) eqn:Heq.
  - apply feqb_rank in Heq as (a & Ha & Hb). rewrite frank_neg, Hqy in Ha. rewrite frank_neg, Hqx in Hb. cbn in Ha, Hb.
    injection Ha as <-. apply (inj Some) in Hb.
    destruct qx as [[a1 a2] a3], qy as [[b1 b2] b3]. unfold opp3 in Hb; cbn in Hb.
    assert (a1 = b1 /\ a2 = b2 /\ a3 = b3) as (-> & -> & ->) by (simplify_eq; lia).
    rewrite fltb_rank. rewrite !frank_neg, Hrx, Hry. cbn. split.
    + intros H. right. split; [done|]. intros Hl. apply H. do 2 eexists. split; [done|]. split; [done|].
      unfold lex_lt, opp3 in *; cbn. lia.
    + intros [H|[_ H]]; [unfold lex_lt in H; cbn in H; lia|]. intros (a & b & [= <-] & [= <-] & Hl). apply H.
      unfold lex_lt, opp3 in *; cbn in *. lia.
  - assert (qx <> qy) as Hne.
    { intros ->. apply not_true_iff_false in Heq. apply Heq, feqb_rank. exists (opp3 qy). by rewrite !frank_neg, Hqx, Hqy. }
    rewrite fltb_rank, !frank_neg, Hqx, Hqy. cbn.
    destruct qx as [[a1 a2] a3], qy as [[b1 b2] b3]. split.
    + intros H. left. unfold lex_lt; cbn. destruct (decide (b1 = a1 /\ b2 = a2 /\ b3 = a3)) as [(-> & -> & ->)|Hd]; [done|].
      assert (~ lex_lt (opp3 (b1, b2, b3)) (opp3 (a1, a2, a3))) as H'.
      { intros Hl. apply H. do 2 eexists. split; [done|]. by split. }
      unfold lex_lt, opp3 in H'; cbn in H'. lia.
    + intros [H|[? _]]; [|done]. intros (a & b & [= <-] & [= <-] & Hl). unfold lex_lt, opp3 in *; cbn in *. lia.
Qed.

Lemma not_after_refl x : numeric x -> not_after x x.
Proof.
  intros (q & r & Hq & Hr)%numeric_ranks. apply (not_after_spec x x q r q r); try done. right. split; [done|].
  unfold lex_lt. lia.
Qed.

Lemma not_after_total x y : numeric x -> numeric y -> ~ not_after x y -> not_after y x.
Proof.
  intros (qx & rx & Hqx & Hrx)%numeric_ranks (qy & ry & Hqy & Hry)%numeric_ranks.
  rewrite (not_after_spec x y qx rx qy ry), (not_after_spec y x qy ry qx rx) by done.
  destruct qx as [[a1 a2] a3], qy as [[b1 b2] b3], rx as [[c1 c2] c3], ry as [[d1 d2] d3]. unfold lex_lt; cbn. intros H.
  destruct (decide (a1 = b1 /\ a2 = b2 /\ a3 = b3)) as [(-> & -> & ->)|Hd]; [right; split; [done|]|left]; [|lia].
  intros Hl. apply H. right. split; [done|]. lia.
Qed.

Lemma not_after_trans x y z : numeric x -> numeric y -> numeric z -> not_after x y -> not_after y z -> not_after x z.
Proof.
  intros (qx & rx & Hqx & Hrx)%numeric_ranks (qy & ry & Hqy & Hry)%numeric_ranks (qz & rz & Hqz & Hrz)%numeric_ranks.
  rewrite (not_after_spec x y qx rx qy ry), (not_after_spec y z qy ry qz rz), (not_after_spec x z qx rx qz rz) by done.
  intros [H1|[-> H1]] [H2|[-> H2]]; [left|left|left|right]; unfold lex_lt in *; [lia|lia|lia|]. split; [done|lia].
Qed.

Lemma sort_points_perm l : sort_points l ≡ₚ l.
Proof. apply sort_by_perm. Qed.

Lemma sort_points_sorted l : Forall numeric l -> StronglySorted not_after (sort_points l).
Proof. apply sort_by_sorted; [apply not_after_total|apply not_after_trans]. Qed.

(** ** What the frontier keeps *)

Lemma frontier_in last i l ip : ip ∈ frontier last i l -> ip.2 ∈ l /\ fltb last (p_recall ip.2) = true.
Proof.
  revert last i. induction l as [|p l IH]; intros last i H; cbn in H; [by apply not_elem_of_nil in H|].
  destruct (fltb last (p_recall p)) eqn:Hp.
  - apply elem_of_cons in H as [->|H]; cbn; [split; [by left|done]|]. apply IH in H as [H1 H2].
    split; [by right|by eapply fltb_trans].
  - apply IH in H as [H1 H2]. split; [by right|done].
Qed.

Lemma frontier_increasing last i l :
  StronglySorted (fun a b => fltb (p_recall a) (p_recall b) = true) (frontier last i l).*2.
Proof.
  revert last i. induction l as [|p l IH]; intros last i; cbn; [constructor|].
  destruct (fltb last (p_recall p)); [|apply IH]. cbn. constructor; [apply IH|].
  apply Forall_forall. intros x (ip & -> & Hip)%list_elem_of_fmap. by apply frontier_in in Hip as [_ Hip].
Qed.

(** Every point above the start is matched by a kept one. *)
Lemma frontier_covers last i l p :
  StronglySorted not_after l -> Forall numeric l -> is_number last = true ->
  p ∈ l -> fltb last (p_recall p) = true ->
  exists s, s ∈ (frontier last i l).*2 /\ not_after s p /\ fleb (p_recall p) (p_recall s) = true.
Proof.
  intros Hs. revert last i. induction Hs as [|h l Hs IH Hh]; intros last i HF Hlast Hin Hp; [by apply not_elem_of_nil in Hin|].
  apply Forall_cons in HF as [Hnh HF]. cbn. apply elem_of_cons in Hin as [->|Hin].
  - rewrite Hp. exists h. split; [by left|]. split; [by apply not_after_refl|].
    destruct (fleb_total (p_recall h) (p_recall h)) as [H|H]; [apply Hnh..|done|].
    apply fltb_not_fleb in H as H'. apply fltb_rank in H as (a & b & Ha & Hb & H). simplify_eq. unfold lex_lt in H. lia.
  - rewrite Forall_forall in HF, Hh. destruct (fltb last (p_recall h)) eqn:Eh.
    + destruct (fleb_total (p_recall p) (p_recall h)) as [H|H]; [apply HF, Hin|apply Hnh| |].
      * exists h. split; [by left|]. split; [by apply Hh|done].
      * destruct (IH (p_recall h) (i + 1)) as (s & Hs1 & Hs2); [by apply Forall_forall|apply Hnh|done|done|].
        exists s. split; [by right|done].
    + apply IH; [by apply Forall_forall|done..].
Qed.

(** A kept point has a greater recall than every point strictly before it. *)
Lemma frontier_minimal last i l s p :
  StronglySorted not_after l -> Forall numeric l -> is_number last = true ->
  s ∈ (frontier last i l).*2 -> p ∈ l -> ~ not_after s p -> fltb (p_recall p) (p_recall s) = true.
Proof.
  intros Hs. revert last i. induction Hs as [|h l Hs IH Hh]; intros last i HF Hlast Hsel Hin Hlt.
  { by apply not_elem_of_nil in Hin. }
  apply Forall_cons in HF as [Hnh HF]. cbn in Hsel. rewrite Forall_forall in Hh.
  destruct (fltb last (p_recall h)) eqn:Eh.
  - cbn in Hsel. apply elem_of_cons in Hsel as [->|Hsel].
    + apply elem_of_cons in Hin as [->|Hin]; [by apply not_after_refl in Hnh|]. by apply Hh in Hin.
    + apply elem_of_cons in Hin as [->|Hin]; [|by apply (IH (p_recall h) (i + 1)); try apply Hnh].
      apply list_elem_of_fmap in Hsel as (ip & -> & Hip). by apply frontier_in in Hip as [_ Hip].
  - apply elem_of_cons in Hin as [->|Hin]; [|by apply (IH last (i + 1))].
    apply list_elem_of_fmap in Hsel as (ip & -> & Hip). apply frontier_in in Hip as [_ Hip].
    destruct (fleb_total (p_recall h) last) as [H|H]; [apply Hnh|done| |congruence].
    apply fleb_rank in H as (a & b & Ha & Hb & H). apply fltb_rank in Hip as (b' & c & Hb' & Hc & Hip).
    apply fltb_rank. simplify_eq. exists a, c. split; [done|]. split; [done|]. unfold lex_lt in *. lia.
Qed.

(** ** Properties *)

(** C10: what is plotted is the Pareto frontier of the results (with numbers, not
    NaN): the kept points come from the data with strictly increasing recall;
    every result with a recall above -1 is matched by a kept point at least as
    good in both queries per second and recall; and no kept point is beaten by
    a result that is at least as fast and as precise and strictly better in
    one of the two. *)
Theorem selected_frontier data :
  Forall numeric data ->
  let sel := (selected data).*2 in
  (forall s, s ∈ sel -> s ∈ data) /\
  StronglySorted (fun a b => fltb (p_recall a) (p_recall b) = true) sel /\
  (forall p, p ∈ data -> fltb (float_of_Z (-1)) (p_recall p) = true ->
     exists s, s ∈ sel /\ fltb (p_qps s) (p_qps p) = false /\ fltb (p_recall s) (p_recall p) = false) /\
  (forall s p, s ∈ sel -> p ∈ data ->
     fleb (p_qps s) (p_qps p) = true -> fleb (p_recall s) (p_recall p) = true ->
     fltb (p_qps s) (p_qps p) = false /\ fltb (p_recall s) (p_recall p) = false).
Proof.
  intros HF sel. pose proof (sort_points_sorted _ HF) as Hs.
  assert (Forall numeric (sort_points data)) as HF' by by rewrite sort_points_perm.
  assert (forall p, p ∈ sort_points data <-> p ∈ data) as Hin by (intros p; by rewrite sort_points_perm).
  assert (forall s, s ∈ sel -> s ∈ data) as Hsub.
  { intros s (ip & -> & Hip)%list_elem_of_fmap. apply frontier_in in Hip as [Hip _]. by apply Hin. }
  rewrite Forall_forall in HF.
  split_and!; [done|apply frontier_increasing| |].
  - intros p Hp Hgt. destruct (frontier_covers (float_of_Z (-1)) 0 (sort_points data) p Hs HF' eq_refl) as (s & Hsel & Hna & Hle);
      [by apply Hin|done|].
    exists s. split; [done|]. destruct (numeric_ranks s) as (qs & rs & Hqs & Hrs); [by apply HF, Hsub|].
    destruct (numeric_ranks p) as (qp & rp & Hqp & Hrp); [by apply HF|].
    rewrite (not_after_spec s p qs rs qp rp) in Hna by done. apply fleb_rank in Hle as (a & b & Ha & Hb & Hle).
    rewrite <- !not_true_iff_false, !fltb_rank.
    split; intros (x & y & Hx & Hy & Hl); simplify_eq; unfold lex_lt in *; [destruct Hna as [Hna|[-> Hna]]|]; lia.
  - intros s p Hsel Hp Hq Hr. destruct (numeric_ranks s) as (qs & rs & Hqs & Hrs); [by apply HF, Hsub|].
    destruct (numeric_ranks p) as (qp & rp & Hqp & Hrp); [by apply HF|].
    apply fleb_rank in Hq as (x1 & y1 & Hx1 & Hy1 & Hq). apply fleb_rank in Hr as (x2 & y2 & Hx2 & Hy2 & Hr). simplify_eq.
    assert (not_after s p) as Hna.
    { destruct (decide (not_after s p)) as [|Hn]; [done|exfalso].
      pose proof (frontier_minimal _ _ _ s p Hs HF' (eq_refl : is_number (float_of_Z (-1)) = true) Hsel (proj2 (Hin p) Hp) Hn) as Hlt.
      apply fltb_rank in Hlt as (a & b & Ha & Hb & Hlt). simplify_eq. done. }
    rewrite (not_after_spec s p x1 x2 y1 y2) in Hna by done.
    rewrite <- !not_true_iff_false, !fltb_rank.
    split; intros (x & y & Hx & Hy & Hl); simplify_eq; unfold lex_lt in *; destruct Hna as [Hna|[-> Hna]]; lia.
Qed.

Section plot_props.
Context (json_load : list byte -> option point).
Context (draw : string -> list float -> list float -> x_axis -> string -> py world unit).

Lemma load_results_ok path (results : list string) (content : string -> list byte) data w :
  (forall p, p ∈ results -> fs w !! path_join (path_join "results" path) p = Some (content p)) ->
  load_results json_load path results data w = (Ret (data ++ omap (fun p => json_load (content p)) results)%list, w).
Proof.
  revert data. induction results as [|p rs IH]; intros data H; cbn [load_results omap list_omap].
  - by rewrite app_nil_r.
  - erewrite bind_ret by (apply read_file_ok, H; by left).
    destruct (json_load (content p)) as [x|]; rewrite IH; [by rewrite <- app_assoc| |done|]; intros q Hq; apply H; by right.
Qed.

(** Result files that cannot be parsed are left out and everything else is
    used: the text file holds one line per kept point of the readable results,
    and the same points are drawn. *)
Theorem create_plot_uses_readable path xs ys ax results content w :
  (forall p, p ∈ results -> fs w !! path_join (path_join "results" path) p = Some (content p)) ->
  can_create w (path ++ ".json") = true -> axis_of xs = Ret ax ->
  let sel := selected (omap (fun p => json_load (content p)) results) in
  create_plot json_load draw path xs ys results w =
    draw path (p_recall <$> sel.*2) (p_qps <$> sel.*2) ax ys
      (put_file (path ++ ".json") (mjoin ((fun ip => bytes_of_str (point_line ip)) <$> sel)) w).
Proof.
  intros Hr Hc Hax sel. unfold create_plot. rewrite (bind_ret _ _ _ _ _ (load_results_ok _ _ _ [] _ Hr)).
  change ([] ++ ?l)%list with l. fold sel. erewrite bind_ret by by apply create_file_ok.
  assert (forall l c, for_each l (fun ip => write_text (path ++ ".json") (point_line ip)) (put_file (path ++ ".json") c w) =
    (Ret tt, put_file (path ++ ".json") (c ++ mjoin ((fun ip => bytes_of_str (point_line ip)) <$> l))%list w)) as Hw.
  { induction l as [|ip l IH]; intros c; cbn [for_each fmap list_fmap].
    - change (mjoin (@nil (list byte))) with (@nil byte). by rewrite app_nil_r.
    - unfold write_text at 1. erewrite bind_ret by apply append_put. rewrite IH.
      change (mjoin (?x :: ?xs)) with (x ++ mjoin xs)%list. by rewrite app_assoc. }
  rewrite (bind_ret _ _ _ _ _ (Hw sel [])). unfold lift. rewrite Hax. by erewrite bind_ret by reflexivity.
Qed.
End plot_props.

(** ** Witnesses *)

Definition pt (q r : Z) : point := Point (float_of_Z q) (float_of_Z r) "" "" "".

Lemma selected_frontier_witness :
  (selected [pt 5 1; pt 9 0; pt 5 2; pt 3 1]).*2 = [pt 9 0; pt 5 2] /\
  forall s, s ∈ (selected [pt 5 1; pt 9 0; pt 5 2; pt 3 1]).*2 -> s ∈ [pt 5 1; pt 9 0; pt 5 2; pt 3 1].
Proof.
  split; [vm_compute; reflexivity|].
  apply (selected_frontier [pt 5 1; pt 9 0; pt 5 2; pt 3 1]). repeat constructor.
Defined.

Definition demo_load (b : list byte) : option point := match b with [] => None | _ => Some (pt 5 1) end.
Definition demo_draw (path : string) (_ _ : list float) (_ : x_axis) (_ : string) : py world unit := write_text (path ++ ".png") "png".
Definition plot_world : world := World {[ "results/g/a" := bytes_of_str "{}"; "results/g/b" := [] ]} ∅ [].

Lemma create_plot_uses_readable_witness :
  (create_plot demo_load demo_draw "g" "a4" "log" ["a"; "b"] plot_world).1 = Ret tt.
Proof.
  erewrite (create_plot_uses_readable demo_load demo_draw "g" "a4" "log" _ ["a"; "b"]
    (fun p => if bool_decide (p = "a") then bytes_of_str "{}" else []) plot_world).
  - reflexivity.
  - intros p Hp. set_unfold in Hp. destruct Hp as [-> | [-> | []]]; reflexivity.
  - reflexivity.
  - vm_compute. reflexivity.
Defined.
