(* ===== verification/Preprocess.v ===== *)
(** * Tools/nni-auto-tune/preprocessing.py

    Samples a train set into a text file the readers accept and writes the ids
    of the true neighbours, by brute force, to [ground_truth.txt]. The shuffle,
    [str] of an array element and the libraries of the other components are
    parameters. *)

From Stdlib Require Import Ascii SpecFloat.
From S2P Require Import Prelude TopK PyStr PyFloat PyBytes PyIO DataReader GpuSearch Model Tuner.

Open Scope string_scope.
Open Scope Z_scope.

Record pargs := PArgs {
  p_train_file : string; p_query_file : string; p_output_dir : string; num_sample : Z;
  p_k : Z; p_distance : string; p_dim : Z; p_input_type : string; p_data_type : string
}.

Section preprocess.
Context {num : Type} `{!EqDecision num} `{!Countable num} `{!Numpy num}.
Context (scipy_pdist : string -> list num -> list num -> float).
Context `{!Blas num} (astype : string -> list num -> list num) (argpartition : list float -> Z -> list Z).
Context (h5open : string -> outcome (Dataset.h5file (num := num))).
Context (np_array : string -> Dataset.points (num := num) -> outcome (list (list num))).
(** [str(x)] of an element and [np.random.shuffle]. *)
Context (num_str : num -> string) (shuffle : list (list num) -> list (list num)).

Definition load_points (a : pargs) : py world (list (list num) * list (list num) * string) :=
  if endswith ".hdf5" (p_train_file a) then
    f ← lift (h5open (p_train_file a));
    h ← lift (Dataset.HDF5Reader_init f);
    xs ← lift (Dataset.HDF5Reader_readallbatches (np_array (p_data_type a)) h);
    mret (xs.1, xs.2, Dataset.h_distance h)
  else
    r ← new_reader (p_train_file a) (p_dim a) (-1) 0 (p_input_type a) (p_data_type a);
    tr ← run_local readbatch r;
    r ← new_reader (p_query_file a) (p_dim a) (-1) 0 (p_input_type a) (p_data_type a);
    te ← run_local readbatch r;
    mret (tr.1.2, te.1.2, p_distance a).

(** A line of the sampled train set. *)
Definition sample_line (row : list num) : string := tab ++ join "|" (num_str <$> row) ++ newline.

Definition sample_path (a : pargs) : string :=
  path_join (p_output_dir a)
    (splitext_root (basename (replace ".bin" "" (p_train_file a))) ++ "-sampled-" ++ str_of_Z (num_sample a) ++ ".txt").

(** The three writes of a row. *)
Definition write_row (p : string) (row : list num) : py world unit :=
  write_text p tab;;
  write_text p (join "|" (num_str <$> row));;
  write_text p newline.

Definition sample (a : pargs) (X_train : list (list num)) : py world (list (list num)) :=
  if num_sample a =? -1 then mret X_train
  else
    let X_train := slice_to (shuffle X_train) (num_sample a) in
    create_file (sample_path a);;
    for_each X_train (write_row (sample_path a));;
    mret X_train.

(** The ids of the neighbours of every query, nearest first. *)
Definition label_index (distance : string) (X_train X_test : list (list num)) (k : Z) : outcome (list (list Z)) :=
  bf ← BF_init distance "float32";
  bf ← BF_fit astype X_train bf;
  mapM_out (fun x =>
    res ← query_with_distances scipy_pdist astype argpartition x k bf;
    Ret (sort_by by_distance res).*1) X_test.

Definition truth_path (a : pargs) : string := path_join (p_output_dir a) "ground_truth.txt".

Definition write_ids (p : string) (ids : list Z) : py world unit :=
  write_text p (join " " (str_of_Z <$> ids));;
  write_text p newline.

Definition write_ground_truth (a : pargs) (label : list (list Z)) : py world unit :=
  create_file (truth_path a);;
  for_each label (write_ids (truth_path a)).

Definition preprocess_main (a : pargs) : py world unit :=
  d ← load_points a;
  let '(X_train, X_test, distance) := d in
  found ← os_path_exists (p_output_dir a);
  when (negb found) (os_makedirs (p_output_dir a));;
  X_train ← sample a X_train;
  label ← lift (label_index distance X_train X_test (p_k a));
  write_ground_truth a label.

End preprocess.

(** ** Lemmas: text that is written is read back *)

Lemma write_text_put p s c w : write_text p s (put_file p c w) = (Ret tt, put_file p (c ++ bytes_of_str s)%list w).
Proof. apply append_put. Qed.

(** A loop that writes one text per element. *)
Lemma for_each_text {A} p (body : A -> py world unit) (line : A -> string) l c w :
  (forall x c, body x (put_file p c w) = (Ret tt, put_file p (c ++ bytes_of_str (line x))%list w)) ->
  for_each l body (put_file p c w) = (Ret tt, put_file p (c ++ bytes_of_str (foldr (fun x acc => (line x ++ acc)%string) "" l))%list w).
Proof.
  intros Hb. revert c. induction l as [|x l IH]; intros c; cbn [for_each foldr].
  - change (bytes_of_str "") with (@nil byte). by rewrite app_nil_r.
  - erewrite bind_ret by apply Hb. rewrite IH, bytes_of_str_app. by rewrite app_assoc.
Qed.

Lemma join_snoc_app (sep : string) (l : list string) (x s : string) :
  join sep (l ++ [x])%list ++ s = join sep (l ++ [(x ++ s)%string])%list.
Proof.
  induction l as [|y l IH]; [done|]. destruct l as [|z l]; [cbn; by rewrite !str_app_assoc|].
  change (join sep ((y :: z :: l) ++ [x])%list) with (y ++ sep ++ join sep ((z :: l) ++ [x])%list).
  change (join sep ((y :: z :: l) ++ [(x ++ s)%string])%list) with (y ++ sep ++ join sep ((z :: l) ++ [(x ++ s)%string])%list).
  rewrite <- IH. by rewrite !str_app_assoc.
Qed.

Lemma rstrip_if_snoc p s c : p c = true -> rstrip_if p (s ++ String c "") = rstrip_if p s.
Proof.
  intros Hc. induction s as [|d s IH]; cbn; [by rewrite Hc|]. by rewrite IH.
Qed.

Lemma strip_newline s : strip (s ++ newline) = strip s.
Proof. unfold strip, newline. by rewrite rstrip_if_snoc. Qed.

Lemma float_of_str_newline s : float_of_str (s ++ newline) = float_of_str s.
Proof. unfold float_of_str. by rewrite strip_newline. Qed.

(** Lines without line ends are read back as they were written. *)
Lemma read_lines_back {A} v (line : A -> string) (l : list A) :
  Forall (fun x => all_chars no_eol (line x) = true) l ->
  lines_of (text_of v (bytes_of_str (foldr (fun x acc => (line x ++ newline) ++ acc) "" l))) = (fun x => line x ++ newline) <$> l.
Proof.
  intros HF.
  assert (foldr (fun x acc => (line x ++ newline) ++ acc) "" l = unlines (line <$> l)) as ->
    by (clear; induction l as [|x l IH]; cbn; [done|by rewrite IH]).
  assert (all_chars (fun c => negb (Ascii.eqb c CR)) (unlines (line <$> l)) = true) as Hcr.
  { induction HF as [|x l Hx HF IH]; [done|].
    change (unlines (line <$> x :: l)) with ((line x ++ newline) ++ unlines (line <$> l)).
    rewrite !all_chars_app, IH, !andb_true_r. eapply all_chars_impl; [|exact Hx]. by intros c [_ H]%andb_prop. }
  assert (text_of v (bytes_of_str (unlines (line <$> l))) = unlines (line <$> l)) as ->
    by (unfold text_of; destruct v; rewrite str_of_bytes_of_str; [done|by apply universal_newlines_id]).
  rewrite lines_of_concat; [by rewrite <- list_fmap_compose|].
  apply Forall_fmap. eapply Forall_impl; [exact HF|]. intros x Hx. cbn. unfold no_lf.
  eapply all_chars_impl; [|exact Hx]. by intros c [H _]%andb_prop.
Qed.

(** The characters a written number may have. *)
Definition plain (c : ascii) : bool := no_eol c && negb (Ascii.eqb TAB c) && negb (Ascii.eqb c "|").

Section sample_props.
Context {num : Type} `{!Numpy num} (num_str : num -> string) (val : num -> float).

(** What is used of [str] of an element: [float] reads its value back, and it
    has none of the characters of the format. *)
Definition str_ok (x : num) : Prop := float_of_str (num_str x) = Ret (val x) /\ all_chars plain (num_str x) = true.

Lemma row_text_plain row p :
  Forall str_ok row -> (forall c, plain c = true -> p c = true) -> p "|"%char = true ->
  all_chars p (join "|" (num_str <$> row)) = true.
Proof.
  intros HF Hp Hbar. apply all_chars_join; [cbn; by rewrite Hbar|]. apply Forall_fmap. eapply Forall_impl; [exact HF|].
  intros x [_ Hx]. eapply all_chars_impl; [|exact Hx]. exact Hp.
Qed.

Lemma str_drop_tab s : str_drop (Z.to_nat (0 + 1)) (tab ++ s) = s.
Proof. done. Qed.

Lemma plain_no_tab c : plain c = true -> negb (Ascii.eqb TAB c) = true.
Proof. unfold plain. by intros [[_ H]%andb_prop _]%andb_prop. Qed.

Lemma sample_line_row (s : reader num) row :
  Forall str_ok row -> row <> [] -> Z.of_nat (length row) = featuredim s ->
  text_row s (sample_line num_str row) = Ret (Some ((fun x => np_of_float (mytype s) (val x)) <$> row)).
Proof.
  intros HF Hne Hlen. unfold text_row, sample_line.
  assert (rfind TAB (tab ++ join "|" (num_str <$> row) ++ newline) = 0) as ->.
  { change (tab ++ ?x) with (String TAB x). cbn [rfind]. rewrite rfind_none; [done|].
    rewrite all_chars_app. rewrite (row_text_plain row) by (done || apply plain_no_tab). done. }
  change (0 <? 0) with false. cbn iota. rewrite str_drop_tab.
  destruct (exists_last Hne) as (pre & x & ->). rewrite fmap_app. cbn [fmap list_fmap]. rewrite join_snoc_app.
  apply Forall_app in HF as [Hpre [[Hx Hxp] _]%Forall_cons].
  assert (forall c, plain c = true -> negb (Ascii.eqb c "|") = true) as Hbar by (intros c [_ H]%andb_prop; exact H).
  rewrite (split_on_join "|" (((num_str <$> pre) ++ [(num_str x ++ newline)%string])%list)).
  2:{ by destruct (num_str <$> pre). }
  2:{ apply Forall_app. split.
      - apply Forall_fmap. eapply Forall_impl; [exact Hpre|]. intros y [_ Hy]. eapply all_chars_impl; [exact Hbar|exact Hy].
      - constructor; [|done]. rewrite all_chars_app. rewrite (all_chars_impl plain); [done|exact Hbar|exact Hxp]. }
  assert (Z.of_nat (length ((num_str <$> pre) ++ [(num_str x ++ newline)%string])%list) = featuredim s) as Hl
    by (rewrite <- Hlen, !length_app, length_fmap; done).
  rewrite Hl, Z.ltb_irrefl, <- Hlen.
  rewrite (mapM_out_index (fun y => np_of_float (mytype s) (val y)) _ (pre ++ [x])%list); [done|].
  intros j y Hy. cbn beta.
  assert (exists str, (((num_str <$> pre) ++ [(num_str x ++ newline)%string])%list) !! j = Some str /\ float_of_str str = Ret (val y)) as (str & Hs & Hf).
  { apply lookup_app_Some in Hy as [Hy|[Hge Hy]].
    - exists (num_str y). rewrite lookup_app_l by (rewrite length_fmap; by eapply lookup_lt_Some). rewrite list_lookup_fmap, Hy.
      split; [done|]. rewrite Forall_forall in Hpre. apply Hpre. by eapply list_elem_of_lookup_2.
    - apply list_lookup_singleton_Some in Hy as [Hj <-]. exists (num_str x ++ newline)%string. split.
      + rewrite lookup_app_r by (rewrite length_fmap; lia). rewrite length_fmap. by replace (j - length pre)%nat with 0%nat by lia.
      + by rewrite float_of_str_newline. }
  rewrite (py_index_nat _ _ _ Hs). cbn [mbind outcome_bind]. rewrite Hf. done.
Qed.

Definition row_ok (d : Z) (row : list num) : Prop := Z.of_nat (length row) = d /\ Forall str_ok row.

(** The text of the sample, and its lines read back. *)
Definition sample_text (rows : list (list num)) : string := foldr (fun row acc => sample_line num_str row ++ acc) "" rows.

Lemma write_row_run p row c w :
  write_row num_str p row (put_file p c w) = (Ret tt, put_file p (c ++ bytes_of_str (sample_line num_str row))%list w).
Proof.
  unfold write_row. do 2 erewrite bind_ret by apply write_text_put. rewrite write_text_put. unfold sample_line.
  by rewrite !bytes_of_str_app, <- !app_assoc.
Qed.

Lemma sample_run (shuffle : list (list num) -> list (list num)) a X w (rows := slice_to (shuffle X) (num_sample a)) :
  num_sample a <> -1 -> can_create w (sample_path a) = true ->
  sample num_str shuffle a X w = (Ret rows, put_file (sample_path a) (bytes_of_str (sample_text rows)) w).
Proof.
  intros Hn Hc. unfold sample. replace (num_sample a =? -1) with false by lia. fold rows.
  erewrite bind_ret by by apply create_file_ok.
  rewrite (bind_ret _ _ _ _ _ (for_each_text (sample_path a) _ (sample_line num_str) rows [] w (fun row c => write_row_run _ row c w))).
  done.
Qed.

Lemma sample_lines d rows :
  Forall (row_ok d) rows -> lines_of (text_of Py3 (bytes_of_str (sample_text rows))) = sample_line num_str <$> rows.
Proof.
  intros HF. set (line := fun row => tab ++ join "|" (num_str <$> row)).
  assert (forall row, sample_line num_str row = line row ++ newline) as Hline by (intros row; subst line; unfold sample_line; by rewrite str_app_assoc).
  assert (sample_text rows = foldr (fun row acc => (line row ++ newline) ++ acc) "" rows) as ->
    by (unfold sample_text; clear -Hline; induction rows as [|r rows IH]; [done|]; cbn [foldr]; by rewrite IH, Hline).
  rewrite read_lines_back.
  - apply list_fmap_ext. intros i row _. by rewrite Hline.
  - eapply Forall_impl; [exact HF|]. intros row [_ Hrow]. subst line. cbn beta. rewrite all_chars_app.
    rewrite (row_text_plain row); [done|done| |done]. unfold plain. by intros c [[H _]%andb_prop _]%andb_prop.
Qed.

Lemma sample_rows_back (s : reader num) rows :
  0 < featuredim s -> Forall (row_ok (featuredim s)) rows ->
  Forall (fun l => exists o, text_row s l = Ret o) (sample_line num_str <$> rows) /\
  text_rows s (sample_line num_str <$> rows) = (fun row : list num => (fun x => np_of_float (mytype s) (val x)) <$> row) <$> rows.
Proof.
  intros Hd HF.
  assert (Forall (fun row => text_row s (sample_line num_str row) = Ret (Some ((fun x => np_of_float (mytype s) (val x)) <$> row))) rows) as Hrow.
  { eapply Forall_impl; [exact HF|]. intros row [Hl Ho]. apply sample_line_row; [done| |done]. intros ->. cbn in Hl. lia. }
  split.
  - apply Forall_fmap. eapply Forall_impl; [exact Hrow|]. intros row H. eexists. exact H.
  - unfold text_rows. clear -Hrow. induction Hrow as [|row rows Hr HF IH]; [done|]. cbn [fmap list_fmap omap list_omap].
    rewrite Hr. f_equal. exact IH.
Qed.

(** C17: the sampled train set can be read back: after sampling, every line of
    the file is accepted by the readers of the tuner, and the rows they read
    are the sampled vectors, in order, at the reader's precision. *)
Theorem sample_roundtrip (shuffle : list (list num) -> list (list num)) a X w d
    (rows := slice_to (shuffle X) (num_sample a)) :
  num_sample a <> -1 -> can_create w (sample_path a) = true -> 0 < d -> Forall (row_ok d) rows ->
  exists b w', sample num_str shuffle a X w = (Ret rows, w') /\ fs w' !! sample_path a = Some b /\
    forall s : reader num, featuredim s = d ->
      Forall (fun l => exists o, text_row s l = Ret o) (lines_of (text_of Py3 b)) /\
      text_rows s (lines_of (text_of Py3 b)) = (fun row : list num => (fun x => np_of_float (mytype s) (val x)) <$> row) <$> rows.
Proof.
  intros Hn Hc Hd HF. exists (bytes_of_str (sample_text rows)). eexists. split; [by apply sample_run|].
  rewrite fs_put, decide_True by done. split; [done|]. intros s <-. rewrite (sample_lines _ _ HF). by apply sample_rows_back.
Qed.
End sample_props.

Lemma split_ws_join_space (ids : list Z) : split_ws (join " " (str_of_Z <$> ids)) = str_of_Z <$> ids.
Proof.
  induction ids as [|z ids IH]; [done|]. destruct ids as [|y ids]; [apply split_ws_word, str_of_Z_word|].
  cbn [fmap list_fmap] in *. change (join " " (str_of_Z z :: ?l)) with (str_of_Z z ++ String " " (join " " l)).
  rewrite split_ws_cons; [by rewrite IH|apply str_of_Z_word|done].
Qed.

Lemma ids_join_no_eol (ids : list Z) : all_chars no_eol (join " " (str_of_Z <$> ids)) = true.
Proof.
  apply all_chars_join; [done|]. apply Forall_fmap, Forall_forall. intros z _. cbn.
  pose proof (str_of_Z_word z) as Hw. unfold is_word in Hw. apply andb_prop in Hw as [_ Hw].
  eapply all_chars_impl; [|exact Hw]. intros c. unfold is_space, no_eol.
  destruct (Ascii.eqb_spec c LF) as [->|]; [done|]. by destruct (Ascii.eqb_spec c CR) as [->|].
Qed.

(** Words joined by spaces begin and end with a character that [strip] keeps. *)
Lemma rstrip_word_end s w : is_word w = true -> rstrip_if is_space (s ++ w) = s ++ w.
Proof.
  intros [Hn Hw]%andb_prop. induction s as [|c s IH]; cbn.
  - by apply rstrip_if_id.
  - rewrite IH. assert (nonempty (s ++ w) = true) as -> by (destruct s, w; done). by rewrite andb_false_r.
Qed.

Lemma lstrip_word_start w s : is_word w = true -> lstrip_if is_space (w ++ s) = w ++ s.
Proof.
  destruct w as [|c w]; [done|]. intros [_ [Hc _]%andb_prop]%andb_prop. cbn. apply negb_true_iff in Hc. by rewrite Hc.
Qed.

Lemma strip_ids (ids : list Z) : strip (join " " (str_of_Z <$> ids)) = join " " (str_of_Z <$> ids).
Proof.
  unfold strip. destruct (decide (ids = [])) as [->|Hne]; [done|].
  assert (exists s z, join " " (str_of_Z <$> ids) = s ++ str_of_Z z) as (s & z & Hs).
  { destruct (exists_last Hne) as (pre & z & ->). exists (join " " ((str_of_Z <$> pre) ++ [""])%list), z.
    rewrite fmap_app, join_snoc_app. done. }
  rewrite Hs, rstrip_word_end by apply str_of_Z_word. rewrite <- Hs.
  destruct ids as [|y ids]; [done|]. destruct ids as [|x ids].
  - cbn [fmap list_fmap join]. rewrite <- (str_app_nil_r (str_of_Z y)). apply lstrip_word_start, str_of_Z_word.
  - apply (lstrip_word_start (str_of_Z y)), str_of_Z_word.
Qed.

Lemma ids_line_words (ids : list Z) : split_ws (strip (join " " (str_of_Z <$> ids) ++ newline)) = str_of_Z <$> ids.
Proof. by rewrite strip_newline, strip_ids, split_ws_join_space. Qed.

Definition truth_text (label : list (list Z)) : string :=
  foldr (fun ids acc => (join " " (str_of_Z <$> ids) ++ newline) ++ acc) "" label.

Lemma write_ground_truth_run a label w :
  can_create w (truth_path a) = true ->
  write_ground_truth a label w = (Ret tt, put_file (truth_path a) (bytes_of_str (truth_text label)) w).
Proof.
  intros Hc. unfold write_ground_truth. erewrite bind_ret by by apply create_file_ok.
  apply (for_each_text (truth_path a) _ (fun ids => join " " (str_of_Z <$> ids) ++ newline) label []). intros ids c. unfold write_ids.
  erewrite bind_ret by apply write_text_put. rewrite write_text_put, bytes_of_str_app, app_assoc. done.
Qed.

(** The ids that were written, as the labels the tuner reads. *)
Definition labels_of (label : list (list Z)) : list (list item) := (fun ids : list Z => (fun z => IStr (str_of_Z z)) <$> ids) <$> label.

Lemma read_labels_run p label w :
  fs w !! p = Some (bytes_of_str (truth_text label)) -> read_labels p w = (Ret (labels_of label), w).
Proof.
  intros Hf. unfold read_labels, open_lines. rewrite (bind_ret _ _ _ _ (lines_of (text_of Py3 (bytes_of_str (truth_text label))))
    (eq_trans (bind_ret _ _ _ _ _ (read_file_ok _ _ _ Hf)) eq_refl)).
  unfold mret, py_ret, labels_of. do 2 f_equal. unfold truth_text. rewrite (read_lines_back _ (fun ids => join " " (str_of_Z <$> ids))).
  - rewrite <- list_fmap_compose. apply list_fmap_ext. intros i ids _. cbn [compose].
    rewrite ids_line_words, <- list_fmap_compose. done.
  - apply Forall_forall. intros ids _. apply ids_join_no_eol.
Qed.

(** C22: the ground truth survives the file: the ids preprocessing writes to
    [ground_truth.txt] are, query by query and in order, the labels the tuner
    reads when it is given that file. *)
Theorem ground_truth_roundtrip a (label : list (list Z)) w :
  can_create w (truth_path a) = true ->
  exists w', write_ground_truth a label w = (Ret tt, w') /\ read_labels (truth_path a) w' = (Ret (labels_of label), w').
Proof.
  intros Hc. eexists. split; [by apply write_ground_truth_run|]. apply read_labels_run. by rewrite fs_put, decide_True.
Qed.

(** ** Witnesses *)

(** numpy on binary64 arrays, as far as the text format needs it. *)
#[export] Instance float_numpy : Numpy float := {
  itemsize := fun t => if bool_decide (t = "float64") then Some 8 else None;
  np_decode := fun _ _ _ => [];
  np_of_float := fun _ x => x;
  np_square := fun x => fmul x x;
  np_sum := foldr fadd (float_of_Z 0);
  np_sqrt := SFsqrt fprec femax;
  np_div := SFdiv fprec femax;
  np_tiny := fun x => fltb x (float_of_dec false 1 (-6));
  np_1em6 := float_of_dec false 1 (-6);
  np_fill := fun d => SFdiv fprec femax (float_of_dec false 1 (-6)) (SFsqrt fprec femax (float_of_Z d))
}.

Definition sample_args : pargs := PArgs "data/base.bin" "q.bin" "out" 2 1 "L2" 2 "float32" "float32".
Definition sample_world : world := World ∅ {["out"]} [].
Definition sample_rows : list (list float) :=
  [[float_of_Z 3; float_of_dec false 15 (-1)]; [float_of_Z 0; float_of_Z 7]; [float_of_Z 9; float_of_Z 9]].

Lemma sample_roundtrip_witness :
  sample_path sample_args = "out/base-sampled-2.txt" /\
  exists b w', sample float_repr reverse sample_args sample_rows sample_world =
      (Ret [[float_of_Z 9; float_of_Z 9]; [float_of_Z 0; float_of_Z 7]], w') /\
    fs w' !! sample_path sample_args = Some b /\
    text_rows (Reader [] [] "float64" 2 false "float64" [] 0) (lines_of (text_of Py3 b)) =
      [[float_of_Z 9; float_of_Z 9]; [float_of_Z 0; float_of_Z 7]].
Proof.
  split; [vm_compute; reflexivity|].
  destruct (sample_roundtrip float_repr id reverse sample_args sample_rows sample_world 2) as (b & w' & Hs & Hb & Hr).
  - done.
  - vm_compute. reflexivity.
  - lia.
  - repeat (constructor; [split; [reflexivity|repeat constructor; vm_compute; reflexivity]|]). constructor.
  - exists b, w'. split; [exact Hs|]. split; [exact Hb|]. apply (Hr (Reader [] [] "float64" 2 false "float64" [] 0)). done.
Defined.

Lemma ground_truth_roundtrip_witness :
  exists w', write_ground_truth sample_args [[4; 12]; []; [7]] sample_world = (Ret tt, w') /\
    read_labels (truth_path sample_args) w' = (Ret [[IStr "4"; IStr "12"]; []; [IStr "7"]], w').
Proof. apply (ground_truth_roundtrip sample_args [[4; 12]; []; [7]]). vm_compute. reflexivity. Defined.
