(* ===== verification/AutoTune.v ===== *)
(** * From preprocessing to the tuner

    preprocessing.py leaves a sampled train set and the ids of the true
    neighbours; main.py of the tuner is started on those files. Here the two
    are run one after the other: the tuner's data are the sampled vectors, the
    queries and the true neighbours among the sampled vectors. *)

From Stdlib Require Import Ascii Lia ZifyBool.
From S2P Require Import Prelude TopK PyStr PyFloat PyBytes PyIO Datasets DataReader GpuSearch Model Tuner Preprocess.

Open Scope string_scope.
Open Scope Z_scope.

(** ** Whole files *)

Section readers.
Context {num : Type} `{!Numpy num}.

(** Opening a file without a batch size and reading one batch. *)
Definition read_all (fn : string) (dim : Z) (dt tgt : string) : py world (Z * list (list num)) :=
  r ← new_reader fn dim (-1) 0 dt tgt; b ← run_local readbatch r; mret b.1.

(** A file of the DEFAULT format with the records [recs]. *)
Record default_input (w : world) (fn dt : string) (d : Z) (recs : list (list byte)) : Prop := DefaultInput {
  di_name : contains ".bin" fn = true;
  di_file : fs w !! fn = Some (default_file (Z.of_nat (length recs)) d (mjoin recs));
  di_count : int32_range (Z.of_nat (length recs)) = true;
  di_dim : int32_range d = true;
  di_size : exists sz, itemsize dt = Some sz /\ 0 < sz /\ Forall (fun r => Z.of_nat (length r) = sz * d) recs
}.

Lemma read_all_default w fn dim dt tgt d recs :
  0 < d -> default_input w fn dt d recs ->
  read_all fn dim dt tgt w = (Ret (Z.of_nat (length recs), np_decode dt tgt <$> recs), w).
Proof.
  intros Hd [Hbin Hf Hc Hdim (sz & Hsz & Hsp & HF)]. unfold read_all.
  rewrite (bind_ret _ _ _ _ _ (new_reader_default w fn dim (-1) 0 dt tgt d recs Hbin Hf Hc Hdim Hd)).
  destruct (default_reader_at (Z.of_nat (length recs)) d 0 dt tgt sz recs Hsz Hsp Hd HF) as [Hat Hq].
  destruct (readbatch_binary _ sz recs [] Hat) as (s' & E & _).
  change (if -1 <=? 0 then Z.of_nat (length recs) else -1) with (Z.of_nat (length recs)).
  rewrite Hq, Nat2Z.id, take_ge in E by lia. erewrite bind_ret by (unfold run_local; by rewrite E). done.
Qed.

(** A text file all of whose lines are rows. *)
Definition reader_of_lines (dim : Z) (tgt : string) (lines : list string) : reader num :=
  Reader [] lines tgt dim false tgt (replicate (length lines) (replicate (Z.to_nat dim) (np_of_float tgt (float_of_Z 0)))) 0.

Lemma new_reader_text w fn dim dt tgt b :
  0 < dim -> contains ".bin" fn = false -> fs w !! fn = Some b ->
  new_reader fn dim (-1) 0 dt tgt w = (Ret (reader_of_lines dim tgt (lines_of (text_of Py3 b))), w).
Proof.
  intros Hd Hbin Hf. unfold new_reader, open_lines, read_file, mbind, py_bind, mret, py_ret, lift, np_zeros. rewrite Hbin, Hf.
  cbn [featuredim mytype]. change (-1 <=? 0) with true. cbn iota.
  replace (Z.of_nat (length (lines_of (text_of Py3 b))) <? 0) with false by lia. replace (dim <? 0) with false by lia.
  cbn [orb]. by rewrite Nat2Z.id.
Qed.

Lemma read_all_text w fn dim dt tgt b (s := reader_of_lines dim tgt (lines_of (text_of Py3 b))) :
  0 < dim -> contains ".bin" fn = false -> fs w !! fn = Some b ->
  Forall (fun l => exists o, text_row s l = Ret o) (r_txt s) -> length (text_rows s (r_txt s)) = length (r_txt s) ->
  read_all fn dim dt tgt w = (Ret (Z.of_nat (length (r_txt s)), text_rows s (r_txt s)), w).
Proof.
  intros Hd Hbin Hf HF Hl. unfold read_all. rewrite (bind_ret _ _ _ _ _ (new_reader_text w fn dim dt tgt b Hd Hbin Hf)). fold s.
  destruct (readbatch_text s eq_refl Hd HF) as (s' & E).
  assert (length (DataReader.query s) = length (r_txt s)) as Hq by apply length_replicate.
  rewrite Hq, take_ge in E by lia. erewrite bind_ret by (unfold run_local; by rewrite E).
  cbn [fst]. change (normalize s =? 0) with true. cbn iota. by rewrite list_fmap_id, Hl.
Qed.
End readers.

(** ** Recall of the true neighbours *)

Lemma fmap_const {A B} (y : B) (l : list A) : (fun _ => y) <$> l = replicate (length l) y.
Proof. induction l as [|x l IH]; [done|]. cbn. by rewrite <- IH. Qed.

Lemma count_in_all truth ids : (forall z, z ∈ ids -> IStr (str_of_Z z) ∈ truth) -> count_in truth ids = Z.of_nat (length ids).
Proof. intros H. unfold count_in. f_equal. apply length_filter_all, Forall_forall. exact H. Qed.

Section recall.
Context (np_mean np_std : list Z -> float) (np_divide : float -> float -> float).

(** Answers that are the first [k] true ids count as [k] hits, query by query. *)
Lemma recall_of_truth (truth : list (list Z)) k :
  0 <= k -> Forall (fun ids => k <= Z.of_nat (length ids)) truth ->
  get_recall_from_index np_mean np_std np_divide (labels_of truth) ((fun ids : list Z => upto ids k) <$> truth) k =
    Ret (recall_stats np_mean np_std np_divide (replicate (length truth) k) k).
Proof.
  intros Hk HF. unfold get_recall_from_index. rewrite length_fmap.
  rewrite (mapM_out_ret _ (fun _ => k)).
  - cbn [mbind outcome_bind]. by rewrite fmap_const, length_py_range, Z.sub_0_r, Nat2Z.id.
  - intros z (i & ids & -> & Hi)%range_lookup. rewrite Forall_forall in HF. pose proof (HF ids (list_elem_of_lookup_2 _ _ _ Hi)) as Hl.
    rewrite (py_index_nat _ i (upto ids k)) by (by rewrite list_lookup_fmap, Hi). cbn [mbind outcome_bind].
    assert (upto (upto ids k) k = take (Z.to_nat k) ids) as ->.
    { unfold upto, slice_to. replace (k <? 0) with false by lia. by rewrite take_take, Nat.min_id. }
    rewrite (py_index_nat (labels_of truth) i ((fun z => IStr (str_of_Z z)) <$> ids)) by (unfold labels_of; by rewrite list_lookup_fmap, Hi).
    cbn [mbind outcome_bind].
    assert (count_in (upto ((fun z => IStr (str_of_Z z)) <$> ids) k) (take (Z.to_nat k) ids) = k) as Hc.
    { unfold upto, slice_to. replace (k <? 0) with false by lia. rewrite count_in_all; [rewrite length_take; lia|].
      intros z Hz. rewrite <- fmap_take. apply list_elem_of_fmap. by exists z. }
    destruct (take (Z.to_nat k) ids) as [|z l]; [|by rewrite Hc]. by rewrite <- Hc.
Qed.
End recall.

(** ** Names *)

Lemma str_rev_app_app a b acc : str_rev_app (a ++ b) acc = str_rev_app b (str_rev_app a acc).
Proof. revert acc. induction a as [|c a IH]; intros acc; [done|]. apply IH. Qed.

(** The sampled train set is not taken for an HDF5 file. *)
Lemma sample_not_hdf5 a : endswith ".hdf5" (sample_path a) = false.
Proof.
  assert (exists s, sample_path a = s ++ ".txt") as [s ->].
  { unfold sample_path, path_join. repeat case_match; rewrite <- ?str_app_assoc; by eexists. }
  unfold endswith, str_rev. by rewrite str_rev_app_app.
Qed.

(** ** The two programs *)

Section pipeline.
Context {num : Type} `{!EqDecision num} `{!Countable num} `{!Numpy num}.
Context (scipy_pdist : string -> list num -> list num -> float).
Context `{!Blas num} (astype : string -> list num -> list num) (argpartition : list float -> Z -> list Z).
Context `{!BlasLaws astype}.
Context (h5open : string -> outcome (Dataset.h5file (num := num))).
Context (np_array : string -> Dataset.points (num := num) -> outcome (list (list num))) (label_of : num -> float).
Context (num_str : num -> string) (shuffle : list (list num) -> list (list num)) (val : num -> float).

Abbreviation preprocess := (preprocess_main scipy_pdist astype argpartition h5open np_array num_str shuffle).
Abbreviation load := (load_data scipy_pdist astype argpartition h5open np_array label_of).

(** An element of type [t] that was written by [str] and stored again. *)
Definition restored (t : string) (x : num) : Prop := str_ok num_str val x /\ np_of_float t (val x) = x.

(** The neighbours of [q] among [X], nearest first by the distances [scipy]
    computes. *)
Definition true_neighbours (metric : string) (X : list (list num)) (k : Z) (q : list num) (ids : list Z) : Prop :=
  let dist := dist_at scipy_pdist astype metric X q in
  nearest_ids astype metric X q k ids /\
  ((forall i, i ∈ ids -> is_number (dist i) = true) -> StronglySorted (fun i j => fltb (dist j) (dist i) = false) ids).

(** A query brute force search can answer: of the dimension of the vectors, and
    no key is NaN. *)
Definition answerable (metric : string) (X : list (list num)) (q : list num) : Prop :=
  Forall (fun a => length a = length q) X /\ numeric_keys astype metric X q.

(** Brute force finds the true neighbours of every query. *)
Lemma label_index_run metric X Q k :
  plain_metric metric -> partitions_ok argpartition -> 0 <= k < Z.of_nat (length X) -> Forall (answerable metric X) Q ->
  exists truth, label_index scipy_pdist astype argpartition metric X Q k = Ret truth /\
    Forall2 (true_neighbours metric X k) Q truth.
Proof.
  intros Hm Hp Hk HF. unfold label_index. rewrite BF_ready by done.
  set (keys := fun q => (fun a => plain_key astype metric a q) <$> X).
  set (near := fun q => take (Z.to_nat k) (argpartition (keys q) k)).
  set (pairs := fun q => (fun i => (i, dist_at scipy_pdist astype metric X q i)) <$> near q).
  assert (forall q, q ∈ Q -> partitions (keys q) k (argpartition (keys q) k)) as Hpart.
  { intros q Hq. apply Hp; [|unfold keys; rewrite length_fmap; lia]. apply Forall_fmap. rewrite Forall_forall in HF. by apply HF. }
  exists ((fun q => (sort_by by_distance (pairs q)).*1) <$> Q). split.
  - apply mapM_out_ret. intros q Hq. rewrite Forall_forall in HF. destruct (HF q Hq) as [Hl _].
    by rewrite (brute_force_run scipy_pdist astype argpartition metric X q k Hm Hk Hl (Hpart q Hq)).
  - apply Forall2_fmap_r, Forall_Forall2_diag, Forall_forall. intros q Hq. unfold true_neighbours.
    assert ((sort_by by_distance (pairs q)).*1 ≡ₚ near q) as Hperm by (rewrite sort_by_perm; unfold pairs; by rewrite fst_pairs).
    split.
    + apply (nearest_ids_perm _ _ _ _ _ (near q)); [done|]. apply partition_nearest; [done|lia|by apply Hpart].
    + intros Hn. apply (sorted_ids (dist_at scipy_pdist astype metric X q)). intros i Hi. apply Hn. by rewrite Hperm.
Qed.

(** The output directory is there, or is made. *)
Definition with_out (a : pargs) (w w0 : world) : Prop :=
  if path_exists w (p_output_dir a) then w0 = w else os_makedirs (p_output_dir a) w = (Ret tt, w0).

Lemma with_out_fs a w w0 : with_out a w w0 -> fs w0 = fs w.
Proof. unfold with_out, os_makedirs. destruct (path_exists w _); [by intros ->|]. by intros [= <-]. Qed.

Definition sampled (a : pargs) (recs : list (list byte)) : list (list num) :=
  slice_to (shuffle (np_decode (p_input_type a) (p_data_type a) <$> recs)) (num_sample a).
Definition queries (a : pargs) (qrecs : list (list byte)) : list (list num) :=
  np_decode (p_input_type a) (p_data_type a) <$> qrecs.

(** A run of preprocessing on two files of the DEFAULT format. *)
Record pre_ok (a : pargs) (w w0 : world) (recs qrecs : list (list byte)) : Prop := PreOk {
  po_train : endswith ".hdf5" (p_train_file a) = false;
  po_data : default_input w (p_train_file a) (p_input_type a) (p_dim a) recs;
  po_query : default_input w (p_query_file a) (p_input_type a) (p_dim a) qrecs;
  po_dim : 0 < p_dim a;
  po_dir : with_out a w w0;
  po_create : can_create w0 (sample_path a) = true /\ can_create w0 (truth_path a) = true;
  po_names : p_query_file a <> truth_path a /\ sample_path a <> truth_path a /\ contains ".bin" (sample_path a) = false;
  po_sample : num_sample a <> -1;
  po_rows : Forall (fun row => Z.of_nat (length row) = p_dim a /\ Forall (restored (p_data_type a)) row) (sampled a recs)
}.

(** The tuner is started on what preprocessing left. *)
Record tuned_on (a : pargs) (ta : targs) : Prop := TunedOn {
  to_train : train_file ta = sample_path a;
  to_query : t_query_file ta = p_query_file a;
  to_label : label_file ta = Some (truth_path a);
  to_dim : t_dim ta = p_dim a;
  to_input : input_type ta = p_input_type a;
  to_data : t_data_type ta = p_data_type a;
  to_distance : t_distance ta = p_distance a
}.

Section run.
Context (a : pargs) (w w0 : world) (recs qrecs : list (list byte)) (Hok : pre_ok a w w0 recs qrecs).

(** The world preprocessing leaves. *)
Definition preprocessed (truth : list (list Z)) : world :=
  put_file (truth_path a) (bytes_of_str (truth_text truth))
    (put_file (sample_path a) (bytes_of_str (sample_text num_str (sampled a recs))) w0).

Lemma load_points_run :
  load_points h5open np_array a w = (Ret (np_decode (p_input_type a) (p_data_type a) <$> recs, queries a qrecs, p_distance a), w).
Proof.
  destruct Hok as [Hh Ht Hq Hd _ _ _ _ _]. unfold load_points. rewrite Hh.
  pose proof (read_all_default w (p_train_file a) (p_dim a) (p_input_type a) (p_data_type a) _ recs Hd Ht) as E1.
  pose proof (read_all_default w (p_query_file a) (p_dim a) (p_input_type a) (p_data_type a) _ qrecs Hd Hq) as E2.
  unfold read_all, mbind, py_bind in *. destruct (new_reader (p_train_file a) _ _ _ _ _ w) as [[r1|e|] w1]; [|done..].
  destruct (run_local readbatch r1 w1) as [[[[n1 x1] r1']|e|] w2]; [|done..]. cbn in E1. injection E1 as _ -> ->.
  destruct (new_reader (p_query_file a) _ _ _ _ _ w) as [[r2|e|] w3]; [|done..].
  destruct (run_local readbatch r2 w3) as [[[[n2 x2] r2']|e|] w4]; [|done..]. cbn in E2. by injection E2 as _ -> ->.
Qed.

Lemma preprocess_run truth :
  label_index scipy_pdist astype argpartition (p_distance a) (sampled a recs) (queries a qrecs) (p_k a) = Ret truth ->
  preprocess a w = (Ret tt, preprocessed truth).
Proof.
  intros Hl. destruct Hok as [_ _ _ _ Hdir [C1 C2] _ Hs _]. unfold preprocess_main.
  rewrite (bind_ret _ _ _ _ _ load_points_run). cbn beta iota. erewrite bind_ret by reflexivity.
  unfold with_out in Hdir. erewrite (bind_ret _ _ w w0 tt).
  2: { destruct (path_exists w (p_output_dir a)); cbn; [by rewrite Hdir|exact Hdir]. }
  rewrite (bind_ret _ _ _ _ _ (sample_run num_str shuffle a _ w0 Hs C1)). fold (sampled a recs).
  rewrite (bind_ret _ _ (put_file (sample_path a) (bytes_of_str (sample_text num_str (sampled a recs))) w0) _ truth)
    by (unfold lift; by rewrite Hl).
  by apply write_ground_truth_run.
Qed.

(** The vectors as the tuner reads them are the sampled ones. *)
Lemma read_sample truth :
  read_all (sample_path a) (p_dim a) (p_input_type a) (p_data_type a) (preprocessed truth) =
    (Ret (Z.of_nat (length (sampled a recs)), sampled a recs), preprocessed truth).
Proof.
  destruct Hok as [_ _ _ Hd _ _ (_ & Hn & Hbin) _ Hrows].
  assert (Forall (row_ok num_str val (p_dim a)) (sampled a recs)) as HF.
  { eapply Forall_impl; [exact Hrows|]. intros row [Hl Hr]. split; [done|]. eapply Forall_impl; [exact Hr|]. by intros x [H _]. }
  set (b := bytes_of_str (sample_text num_str (sampled a recs))).
  assert (fs (preprocessed truth) !! sample_path a = Some b) as Hf.
  { unfold preprocessed. by rewrite !fs_put, decide_False, decide_True. }
  set (s := reader_of_lines (p_dim a) (p_data_type a) (lines_of (text_of Py3 b)) : reader num).
  assert (r_txt s = sample_line num_str <$> sampled a recs) as Hlines by (subst s b; cbn; by eapply sample_lines).
  destruct (sample_rows_back num_str val s (sampled a recs) Hd HF) as [Hall Hback]. rewrite <- Hlines in Hall, Hback.
  assert (text_rows s (r_txt s) = sampled a recs) as Hx.
  { rewrite Hback. rewrite <- (list_fmap_id (sampled a recs)) at 2. apply list_fmap_ext. intros j row Hj.
    rewrite <- (list_fmap_id row) at 2. apply list_fmap_ext. intros l x Hxl. cbn.
    rewrite Forall_forall in Hrows. destruct (Hrows row) as [_ Hr]; [by eapply list_elem_of_lookup_2|].
    rewrite Forall_forall in Hr. by apply Hr; eapply list_elem_of_lookup_2. }
  rewrite (read_all_text _ (sample_path a) (p_dim a) (p_input_type a) (p_data_type a) b Hd Hbin Hf Hall).
  - fold s. by rewrite Hx, Hlines, length_fmap.
  - fold s. by rewrite Hx, Hlines, length_fmap.
Qed.

Lemma load_run ta truth :
  tuned_on a ta ->
  load ta (preprocessed truth) =
    (Ret (Data (sampled a recs) (queries a qrecs) (p_distance a) (p_dim a) (labels_of truth)), preprocessed truth).
Proof.
  intros [T1 T2 T3 T4 T5 T6 T7]. pose proof (read_sample truth) as E1.
  assert (default_input (preprocessed truth) (p_query_file a) (p_input_type a) (p_dim a) qrecs) as Hq.
  { destruct Hok as [_ _ [Q1 Q2 Q3 Q4 Q5] _ Hdir _ (N1 & N2 & N3) _ _]. split; try done.
    unfold preprocessed. rewrite !fs_put, !decide_False; [by rewrite (with_out_fs _ _ _ Hdir)| |congruence].
    intros E. rewrite E in N3. congruence. }
  pose proof (read_all_default _ (p_query_file a) (p_dim a) (p_input_type a) (p_data_type a) _ qrecs (po_dim _ _ _ _ _ Hok) Hq) as E2.
  assert (read_labels (truth_path a) (preprocessed truth) = (Ret (labels_of truth), preprocessed truth)) as E3.
  { apply read_labels_run. unfold preprocessed. by rewrite fs_put, decide_True. }
  unfold load_data. rewrite T1, T2, T3, T4, T5, T6, T7, sample_not_hdf5.
  unfold read_all, mbind, py_bind in *. destruct (new_reader (sample_path a) _ _ _ _ _ _) as [[r1|e|] w1]; [|done..].
  destruct (run_local readbatch r1 w1) as [[[[n1 x1] r1']|e|] w2]; [|done..]. cbn in E1. injection E1 as _ -> ->.
  destruct (new_reader (p_query_file a) _ _ _ _ _ _) as [[r2|e|] w3]; [|done..].
  destruct (run_local readbatch r2 w3) as [[[[n2 x2] r2']|e|] w4]; [|done..]. cbn in E2. injection E2 as _ -> ->.
  by rewrite E3.
Qed.
End run.

(** C6: preprocessing feeds the tuner. On a train file and a query file of the
    DEFAULT format preprocessing ends, and the tuner, started on the files it
    left, gets exactly the sampled vectors and the queries, with one label per
    query: the ids of its [k] nearest vectors in the sample, nearest first, for
    the distances "angular" and "euclidean", [k] smaller than the sample, and
    nearness as in brute force search ([as_near]): the greater dot product with
    the unit vector, or the smaller [|a|^2 - 2 a.v], which for vectors of
    integers that fit binary32 is the smaller squared distance. A search that
    answers with the first of those ids gets full recall. *)
Theorem preprocess_feeds_tuner np_mean np_std np_divide a ta w w0 recs qrecs :
  pre_ok a w w0 recs qrecs -> tuned_on a ta -> plain_metric (p_distance a) -> partitions_ok argpartition ->
  0 <= p_k a < Z.of_nat (length (sampled a recs)) ->
  Forall (answerable (p_distance a) (sampled a recs)) (queries a qrecs) ->
  exists w' truth, preprocess a w = (Ret tt, w') /\
    load ta w' = (Ret (Data (sampled a recs) (queries a qrecs) (p_distance a) (p_dim a) (labels_of truth)), w') /\
    Forall2 (true_neighbours (p_distance a) (sampled a recs) (p_k a)) (queries a qrecs) truth /\
    forall k, 0 <= k <= p_k a ->
      get_recall_from_index np_mean np_std np_divide (labels_of truth) ((fun ids : list Z => upto ids k) <$> truth) k =
        Ret (recall_stats np_mean np_std np_divide (replicate (length qrecs) k) k).
Proof.
  intros Hok Hta Hm Hp Hk HF.
  destruct (label_index_run (p_distance a) (sampled a recs) (queries a qrecs) (p_k a) Hm Hp Hk HF) as (truth & El & HT).
  eexists _, truth. split; [by eapply preprocess_run|]. split; [by eapply load_run|]. split; [done|]. intros k Hk'.
  rewrite recall_of_truth; [|lia|].
  - assert (length truth = length qrecs) as ->; [|done].
    rewrite <- (Forall2_length _ _ _ HT). apply length_fmap.
  - eapply Forall2_Forall_r; [exact HT|]. apply Forall_forall. intros q _ ids [(Hl & _) _]. lia.
Qed.
End pipeline.

(** ** Witness *)

Definition auto_args : pargs := PArgs "base.bin" "query.bin" "out" 3 2 "euclidean" 2 "int8" "int8".
Definition auto_targs : targs :=
  TArgs "out/base-sampled-3.txt" "query.bin" (Some "out/ground_truth.txt") "BKT" 1 "euclidean" (-1) (-1) 2 "int8" "int8".
Definition auto_recs : list (list byte) := [[Byte.x03; Byte.x01]; [Byte.x01; Byte.xff]; [Byte.x02; Byte.x00]].
Definition auto_qrecs : list (list byte) := [[Byte.x02; Byte.x01]].
Definition auto_world : world :=
  World {["base.bin" := default_file 3 2 (mjoin auto_recs); "query.bin" := default_file 1 2 (mjoin auto_qrecs)]} ∅ [].
Definition auto_world' : world := (os_makedirs "out" auto_world).2.

Definition no_h5 (_ : string) : outcome (Dataset.h5file (num := binary32)) := Raise FileNotFoundError.
Definition no_array (_ : string) (_ : Dataset.points (num := binary32)) : outcome (list (list binary32)) := Raise ValueError.

Lemma auto_input fn recs :
  contains ".bin" fn = true -> fs auto_world !! fn = Some (default_file (Z.of_nat (length recs)) 2 (mjoin recs)) ->
  (length recs <= 3)%nat -> Forall (fun r => Z.of_nat (length r) = 1 * 2) recs -> default_input (num := binary32) auto_world fn "int8" 2 recs.
Proof.
  intros Hn Hf Hl HF. split; [done|done| |done|exists 1; by split_and!]. unfold int32_range. lia.
Qed.

Definition vec32 (l : list Z) : list binary32 := of_Z32 <$> l.
Definition str32 (x : binary32) : string := float_repr (widen (b32 x)).
Definition val32 (x : binary32) : float := widen (b32 x).

Lemma auto_ok : pre_ok str32 reverse val32 auto_args auto_world auto_world' auto_recs auto_qrecs.
Proof.
  split.
  - reflexivity.
  - apply auto_input; [reflexivity|vm_compute; reflexivity|cbn; lia|repeat constructor].
  - apply auto_input; [reflexivity|vm_compute; reflexivity|cbn; lia|repeat constructor].
  - done.
  - vm_compute. reflexivity.
  - split; vm_compute; reflexivity.
  - split; [done|]. split; [done|reflexivity].
  - done.
  - change (sampled reverse auto_args auto_recs) with (vec32 <$> [[2; 0]; [1; -1]; [3; 1]]).
    repeat (apply Forall_cons_2 || apply Forall_nil_2 || split); vm_compute; reflexivity.
Qed.

(** The neighbours of (2, 1) among (2, 0), (1, -1) and (3, 1), at the squared
    distances 1, 5 and 1: the first and the third. *)
Lemma preprocess_feeds_tuner_witness :
  exists w' truth,
    preprocess_main demo_pdist (fun _ v => v) argsort no_h5 no_array str32 reverse auto_args auto_world = (Ret tt, w') /\
    load_data demo_pdist (fun _ v => v) argsort no_h5 no_array val32 auto_targs w' =
      (Ret (Data (vec32 <$> [[2; 0]; [1; -1]; [3; 1]]) [vec32 [2; 1]] "euclidean" 2 (labels_of truth)), w') /\
    Forall2 (true_neighbours demo_pdist (fun _ v => v) "euclidean" (vec32 <$> [[2; 0]; [1; -1]; [3; 1]]) 2) [vec32 [2; 1]] truth.
Proof.
  destruct (preprocess_feeds_tuner demo_pdist (fun _ v => v) argsort no_h5 no_array val32 str32 reverse val32
    demo_stat demo_stat demo_div auto_args auto_targs auto_world auto_world' auto_recs auto_qrecs) as (w' & truth & E1 & E2 & HT & _).
  - exact auto_ok.
  - split; vm_compute; reflexivity.
  - by right.
  - exact argsort_ok.
  - vm_compute. split; [discriminate|reflexivity].
  - constructor; [|constructor]. split; [repeat constructor|]. repeat (constructor; [vm_compute; reflexivity|]). constructor.
  - exists w', truth. split; [exact E1|]. split; [exact E2|exact HT].
Defined.
