(* ===== verification/Gist.v ===== *)
(** * Test/src/make_gist_sptag.py

    Vector files: [ivecs]/[fvecs], where every row is preceded by its length,
    the DEFAULT format of SPTAG (two counts, then the rows) and the codebook
    format (three counts). An element is the bytes numpy stores for it, so that
    [view] is a regrouping of bytes. faiss and the conversion to binary32 are
    parameters. *)

From Stdlib Require Import Lia ZifyBool.
From S2P Require Import Prelude PyStr PyBytes PyIO Datasets GpuSearch.

Open Scope string_scope.
Open Scope Z_scope.

(** One element of an array, as stored. *)
Abbreviation item := (list byte).

(** A two-dimensional array: [shape] is (rows, [ncols]). *)
Record matrix := Matrix { ncols : Z; mrows : list (list item) }.
Definition nrows (m : matrix) : Z := Z.of_nat (length (mrows m)).

(** [np.array(z, dtype=np.int32)]. *)
Definition int32 (z : Z) : outcome item :=
  if int32_range z then Ret (le_bytes 4 z) else Raise OverflowError.

(** [np.fromfile(fname, dtype)] for elements of [k] bytes: a last element that
    is cut is not read. *)
Definition elements (k : nat) (b : list byte) : list item := rows_of (length b / k) k b.
Definition fromfile (fname : string) (k : nat) : py world (list item) :=
  b ← read_file fname; mret (elements k b).

(** [a[i]] of an int32 array, as an integer. *)
Definition int_at (a : list item) (i : Z) : outcome Z := x ← py_index a i; Ret (le_signed 4 x).

(** [a.view(t)] of a one-dimensional array, for a type of [k] bytes. *)
Definition view (k : nat) (a : list item) : outcome (list item) :=
  let b := mjoin a in
  if (length b mod k =? 0)%nat then Ret (elements k b) else Raise ValueError.

(** [a.reshape(n, d)]: one of the two may be -1. *)
Definition reshape2 (n d : Z) (a : list item) : outcome matrix :=
  let size := Z.of_nat (length a) in
  let shaped n d := Matrix d (rows_of (Z.to_nat n) (Z.to_nat d) a) in
  if n =? -1 then
    if d <=? 0 then Raise ValueError
    else if size mod d =? 0 then Ret (shaped (size / d) d) else Raise ValueError
  else if d =? -1 then
    if n <=? 0 then Raise ValueError
    else if size mod n =? 0 then Ret (shaped n (size / n)) else Raise ValueError
  else if (n <? 0) || (d <? 0) then Raise ValueError
  else if size =? n * d then Ret (shaped n d) else Raise ValueError.

(** [d + 1] on int32. *)
Definition succ32 (d : Z) : Z := if d =? 2 ^ 31 - 1 then - 2 ^ 31 else d + 1.

Definition DEFAULT_read (fname : string) (k : nat) : py world matrix :=
  buf ← fromfile fname 4;
  n ← lift (int_at buf 0);
  d ← lift (int_at buf 1);
  print ("(" ++ str_of_Z (Z.of_nat (length buf)) ++ ",)");;
  print (str_of_Z n);;
  print (str_of_Z d);;
  a ← lift (view k (drop 2 buf));
  lift (reshape2 n d a).

(** [np.array(z, dtype=np.int32).tofile(f)]. *)
Definition tofile_int (fname : string) (z : Z) : py world unit :=
  b ← lift (int32 z); append_file fname b.

Definition DEFAULT_write (fname : string) (m : matrix) : py world unit :=
  create_file fname;;
  tofile_int fname (nrows m);;
  tofile_int fname (ncols m);;
  append_file fname (mjoin (mjoin (mrows m))).

(** A three-dimensional array, its elements in C order. *)
Record cube := Cube { c_0 : Z; c_1 : Z; c_2 : Z; c_items : list item }.

Definition codebooks_write (fname : string) (m : cube) : py world unit :=
  create_file fname;;
  tofile_int fname (c_0 m);;
  tofile_int fname (c_1 m);;
  tofile_int fname (c_2 m);;
  append_file fname (mjoin (c_items m)).

(** The rows of [m1]: the length, then the row. *)
Definition with_length (d : item) (m : matrix) : list (list item) := (fun row => d :: row) <$> mrows m.

Definition ivecs_write (fname : string) (m : matrix) : py world unit :=
  d ← lift (int32 (ncols m));
  create_file fname;;
  append_file fname (mjoin (mjoin (with_length d m))).

Definition ivecs_read (fname : string) : py world matrix :=
  a ← fromfile fname 4;
  d ← lift (int_at a 0);
  m ← lift (reshape2 (-1) (succ32 d) a);
  mret (Matrix (ncols m - 1) (drop 1 <$> mrows m)).

(** [.view('float32')] of int32 elements keeps the bytes. *)
Definition fvecs_read (fname : string) : py world matrix := ivecs_read fname.

Section gist.
(** [x.astype('float32')] of one element. *)
Context (astype_f32 : item -> item).
(** [faiss.IndexFlatL2(d)] with [add], and the centroids of [faiss.IndexPQ(d, m, nbits)]
    after [train]. *)
Context (flat_add : Z -> matrix -> outcome unit) (pq_centroids : Z -> Z -> Z -> matrix -> outcome (list item)).

Definition astype (m : matrix) : matrix :=
  Matrix (ncols m) ((fun row : list item => astype_f32 <$> row) <$> mrows m).

Definition fvecs_write (fname : string) (m : matrix) : py world unit := ivecs_write fname (astype m).

Definition sanitize (x : matrix) : matrix := astype x.

(** [a.reshape(n, m, k)] for dimensions that are not negative. *)
Definition reshape3 (n m k : Z) (a : list item) : outcome cube :=
  if Z.of_nat (length a) =? n * m * k then Ret (Cube n m k a) else Raise ValueError.

Definition gist_main : py world unit :=
  xd ← fvecs_read "D:\data\gist\gist_base.fvecs";
  xq ← fvecs_read "D:\data\gist\gist_query.fvecs";
  xt ← fvecs_read "D:\data\gist\gist_learn.fvecs";
  lift (flat_add (ncols xd) (sanitize xd));;
  centroids ← lift (pq_centroids (ncols xd) (ncols xd / 2) 8 (sanitize xt));
  print ("(" ++ str_of_Z (Z.of_nat (length centroids)) ++ ",)");;
  centroids ← lift (reshape3 (ncols xd / 2) 256 2 centroids);
  DEFAULT_write "gist_vector.bin" xd;;
  DEFAULT_write "gist_query.bin" xq;;
  codebooks_write "gist_codebook.bin" centroids.
End gist.

(** ** Lemmas *)

(** A matrix as numpy makes it: every row has [ncols] elements of [k] bytes. *)
Definition matrix_ok (k : nat) (m : matrix) : Prop :=
  0 <= ncols m /\ Forall (fun row => Z.of_nat (length row) = ncols m /\ Forall (fun x => length x = k) row) (mrows m).

Lemma mjoin_length_const {A} (k : nat) (ls : list (list A)) :
  Forall (fun l => length l = k) ls -> length (mjoin ls) = (length ls * k)%nat.
Proof.
  induction 1 as [|l ls Hl HF IH]; [done|]. change (mjoin (l :: ls)) with (l ++ mjoin ls)%list.
  rewrite length_app, IH, Hl. cbn. lia.
Qed.

Lemma elements_mjoin k (a : list item) :
  (0 < k)%nat -> Forall (fun x => length x = k) a -> elements k (mjoin a) = a.
Proof.
  intros Hk HF. unfold elements. rewrite (mjoin_length_const k) by done. rewrite Nat.div_mul by lia. by apply rows_of_mjoin.
Qed.

Lemma matrix_items k m : matrix_ok k m -> Forall (fun x => length x = k) (mjoin (mrows m)).
Proof.
  intros [_ HF]. apply Forall_join. eapply Forall_impl; [exact HF|]. by intros row [_ H].
Qed.

Lemma matrix_size k m : matrix_ok k m -> Z.of_nat (length (mjoin (mrows m))) = nrows m * ncols m.
Proof.
  intros [Hc HF]. rewrite (mjoin_length_const (Z.to_nat (ncols m))).
  - unfold nrows. by rewrite Nat2Z.inj_mul, Z2Nat.id.
  - eapply Forall_impl; [exact HF|]. intros row [H _]. lia.
Qed.

Lemma matrix_bytes k m : matrix_ok k m -> Z.of_nat (length (mjoin (mjoin (mrows m)))) = nrows m * ncols m * Z.of_nat k.
Proof.
  intros Hm. rewrite (mjoin_length_const k) by by apply matrix_items. by rewrite Nat2Z.inj_mul, (matrix_size k) by done.
Qed.

Lemma rows_of_matrix k m : matrix_ok k m -> rows_of (length (mrows m)) (Z.to_nat (ncols m)) (mjoin (mrows m)) = mrows m.
Proof.
  intros [Hc HF]. apply rows_of_mjoin. eapply Forall_impl; [exact HF|]. intros row [H _]. lia.
Qed.

Lemma reshape2_matrix k m : matrix_ok k m -> reshape2 (nrows m) (ncols m) (mjoin (mrows m)) = Ret m.
Proof.
  intros Hm. pose proof Hm as [Hc _]. unfold reshape2. rewrite (matrix_size k) by done. unfold nrows.
  rewrite !(proj2 (Z.eqb_neq _ (-1))) by lia.
  replace ((Z.of_nat (length (mrows m)) <? 0) || (ncols m <? 0)) with false by lia. rewrite Z.eqb_refl, Nat2Z.id, (rows_of_matrix k) by done. by destruct m.
Qed.

(** The header of a DEFAULT file as int32 elements. *)
Lemma elements_default k m :
  (0 < k)%nat -> matrix_ok k m ->
  elements 4 (default_file (nrows m) (ncols m) (mjoin (mjoin (mrows m)))) =
    le_bytes 4 (nrows m) :: le_bytes 4 (ncols m) :: elements 4 (mjoin (mjoin (mrows m))).
Proof.
  intros Hk Hm. unfold elements, default_file. rewrite !length_app, !length_le_bytes.
  replace ((4 + (4 + length (mjoin (mjoin (mrows m))))) / 4)%nat with (S (S (length (mjoin (mjoin (mrows m))) / 4)))%nat.
  - cbn [rows_of]. rewrite take_app_length', drop_app_length' by by rewrite length_le_bytes.
    by rewrite take_app_length', drop_app_length' by by rewrite length_le_bytes.
  - replace (4 + (4 + length (mjoin (mjoin (mrows m)))))%nat with (length (mjoin (mjoin (mrows m))) + 2 * 4)%nat by lia.
    rewrite Nat.div_add by lia. lia.
Qed.

Lemma le_signed_int32 z : int32_range z = true -> le_signed 4 (le_bytes 4 z) = z.
Proof.
  intros H. pose proof (unpack_i_le_bytes z H) as E. unfold unpack_i, unpack_signed in E.
  case_bool_decide; [|done]. congruence.
Qed.

Lemma int_at_0 z l : int32_range z = true -> int_at (le_bytes 4 z :: l) 0 = Ret z.
Proof. intros H. unfold int_at. rewrite (py_index_nat _ 0 (le_bytes 4 z)) by done. cbn [mbind outcome_bind]. by rewrite le_signed_int32. Qed.

Lemma int_at_1 x z l : int32_range z = true -> int_at (x :: le_bytes 4 z :: l) 1 = Ret z.
Proof. intros H. unfold int_at. rewrite (py_index_nat _ 1 (le_bytes 4 z)) by done. cbn [mbind outcome_bind]. by rewrite le_signed_int32. Qed.

(** Whole int32 elements hold all the bytes. *)
Lemma length_rows_of {A} n k (l : list A) : length (rows_of n k l) = n.
Proof. revert l. induction n as [|n IH]; intros l; [done|]. cbn [rows_of length]. by rewrite IH. Qed.

Lemma rows_of_flat {A} n k (l : list A) : (n * k = length l)%nat -> mjoin (rows_of n k l) = l.
Proof.
  revert l. induction n as [|n IH]; intros l Hl; cbn [rows_of].
  - by destruct l.
  - change (mjoin (take k l :: ?r)) with (take k l ++ mjoin r)%list. rewrite IH, take_drop; [done|]. rewrite length_drop. lia.
Qed.

Lemma rows_of_lengths {A} n k (l : list A) : (n * k <= length l)%nat -> Forall (fun r => length r = k) (rows_of n k l).
Proof.
  revert l. induction n as [|n IH]; intros l Hl; cbn [rows_of]; constructor.
  - rewrite length_take. lia.
  - apply IH. rewrite length_drop. lia.
Qed.

Lemma elements_length k b : (0 < k)%nat -> length (mjoin (elements k b)) = (length b / k * k)%nat.
Proof.
  intros Hk. unfold elements. rewrite (mjoin_length_const k).
  - f_equal. assert (forall n (l : list byte), length (rows_of n k l) = n) as H; [|apply H].
    induction n as [|n IH]; intros l; [done|]. cbn. by rewrite IH.
  - apply rows_of_lengths. rewrite Nat.mul_comm. by apply Nat.Div0.mul_div_le.
Qed.

Lemma tofile_int_put p z c w :
  int32_range z = true -> tofile_int p z (put_file p c w) = (Ret tt, put_file p (c ++ le_bytes 4 z)%list w).
Proof.
  intros H. unfold tofile_int, int32. rewrite H. erewrite bind_ret by reflexivity. apply append_put.
Qed.

Lemma DEFAULT_write_ok p m w :
  can_create w p = true -> int32_range (nrows m) = true -> int32_range (ncols m) = true ->
  DEFAULT_write p m w = (Ret tt, put_file p (default_file (nrows m) (ncols m) (mjoin (mjoin (mrows m)))) w).
Proof.
  intros Hc Hn Hd. unfold DEFAULT_write. erewrite bind_ret by by apply create_file_ok.
  erewrite bind_ret by by apply tofile_int_put. erewrite bind_ret by by apply tofile_int_put.
  rewrite append_put. unfold default_file. by rewrite <- !app_assoc.
Qed.

(** What the three prints add. *)
Definition printed (ls : list string) (w : world) : world := World (fs w) (dirs w) (stdout w ++ ls)%list.

Lemma DEFAULT_read_prefix p k m w :
  (0 < k)%nat -> matrix_ok k m -> int32_range (nrows m) = true -> int32_range (ncols m) = true ->
  fs w !! p = Some (default_file (nrows m) (ncols m) (mjoin (mjoin (mrows m)))) ->
  exists ls, DEFAULT_read p k w =
    ((a ← view k (elements 4 (mjoin (mjoin (mrows m)))); reshape2 (nrows m) (ncols m) a), printed ls w).
Proof.
  intros Hk Hm Hn Hd Hf. unfold DEFAULT_read, fromfile.
  rewrite (bind_ret _ _ _ _ _ (eq_trans (bind_ret _ _ _ _ _ (read_file_ok _ _ _ Hf)) eq_refl)).
  rewrite (elements_default k) by done. unfold lift.
  rewrite int_at_0, int_at_1 by done. do 2 erewrite bind_ret by reflexivity.
  eexists [_; _; _]. do 3 erewrite bind_ret by reflexivity. unfold printed. cbn [fs dirs stdout].
  rewrite <- !app_assoc. cbn [app]. unfold mbind at 1, py_bind. cbn [drop].
  destruct (view k _) as [a|e|]; done.
Qed.

Lemma view_whole k m :
  (0 < k)%nat -> matrix_ok k m -> (nrows m * ncols m * Z.of_nat k) mod 4 = 0 ->
  view k (elements 4 (mjoin (mjoin (mrows m)))) = Ret (mjoin (mrows m)).
Proof.
  intros Hk Hm H4. pose proof (matrix_bytes k m Hm) as Hb. rewrite <- Hb in H4. unfold view.
  assert (length (mjoin (mjoin (mrows m))) / 4 * 4 = length (mjoin (mjoin (mrows m))))%nat as Hl.
  { rewrite Nat.mul_comm. symmetry. apply Nat.Div0.div_exact. change 4 with (Z.of_nat 4) in H4.
    rewrite <- Nat2Z.inj_mod in H4. lia. }
  unfold elements at 1 2. rewrite rows_of_flat by done.
  rewrite (mjoin_length_const k) by by apply matrix_items. rewrite Nat.Div0.mod_mul. cbn iota.
  unfold elements. rewrite rows_of_flat by done. f_equal. apply elements_mjoin; [done|by apply matrix_items].
Qed.

Lemma view_cut k m :
  (0 < k)%nat -> matrix_ok k m -> (nrows m * ncols m * Z.of_nat k) mod 4 <> 0 ->
  (a ← view k (elements 4 (mjoin (mjoin (mrows m)))); reshape2 (nrows m) (ncols m) a) = Raise ValueError.
Proof.
  intros Hk Hm H4. pose proof (matrix_bytes k m Hm) as Hb. rewrite <- Hb in H4. unfold view.
  set (b := mjoin (mjoin (mrows m))) in *. set (c := mjoin (elements 4 b)).
  assert (length c = length b / 4 * 4)%nat as Hc by (apply elements_length; lia).
  destruct (length c mod k =? 0)%nat; [|done]. cbn [mbind outcome_bind].
  assert (length (elements k c) * k <= length c)%nat as He.
  { rewrite <- (mjoin_length_const k (elements k c)).
    - rewrite elements_length by done. rewrite Nat.mul_comm. by apply Nat.Div0.mul_div_le.
    - apply rows_of_lengths. rewrite Nat.mul_comm. by apply Nat.Div0.mul_div_le. }
  assert (length c < length b)%nat as Hlt.
  { rewrite Hc. pose proof (Nat.div_mod_eq (length b) 4). change 4 with (Z.of_nat 4) in H4.
    rewrite <- Nat2Z.inj_mod in H4. lia. }
  pose proof Hm as [Hc0 _]. unfold reshape2. rewrite !(proj2 (Z.eqb_neq _ (-1))) by (unfold nrows; lia).
  replace ((nrows m <? 0) || (ncols m <? 0)) with false by (unfold nrows; lia).
  rewrite (proj2 (Z.eqb_neq _ _)); [done|]. nia.
Qed.

(** C24: what [DEFAULT_write] wrote, [DEFAULT_read] with the same element type
    reads back as the same matrix, exactly when the data fills whole 32-bit
    words; a matrix of narrower elements whose bytes are no multiple of four is
    not read back, with a ValueError. *)
Theorem default_roundtrip p k m w :
  (0 < k)%nat -> matrix_ok k m -> int32_range (nrows m) = true -> int32_range (ncols m) = true ->
  can_create w p = true ->
  exists w' w'', DEFAULT_write p m w = (Ret tt, w') /\
    DEFAULT_read p k w' =
      (if (nrows m * ncols m * Z.of_nat k) mod 4 =? 0 then Ret m else Raise ValueError, w'').
Proof.
  intros Hk Hm Hn Hd Hc. exists (put_file p (default_file (nrows m) (ncols m) (mjoin (mjoin (mrows m)))) w).
  destruct (DEFAULT_read_prefix p k m (put_file p (default_file (nrows m) (ncols m) (mjoin (mjoin (mrows m)))) w)) as [ls ->]; try done.
  { rewrite fs_put. by rewrite decide_True. }
  eexists. split; [by apply DEFAULT_write_ok|]. f_equal. destruct (Z.eqb_spec ((nrows m * ncols m * Z.of_nat k) mod 4) 0).
  - rewrite view_whole by done. cbn [mbind outcome_bind]. by apply (reshape2_matrix k).
  - by apply view_cut.
Qed.

(** ** ivecs *)

Definition ivecs_file (m : matrix) : list byte := mjoin (mjoin (with_length (le_bytes 4 (ncols m)) m)).

Lemma ivecs_write_ok p m w :
  int32_range (ncols m) = true -> can_create w p = true -> ivecs_write p m w = (Ret tt, put_file p (ivecs_file m) w).
Proof.
  intros Hd Hc. unfold ivecs_write, int32. rewrite Hd. erewrite bind_ret by reflexivity.
  erewrite bind_ret by by apply create_file_ok. apply append_put.
Qed.

Lemma with_length_ok m :
  matrix_ok 4 m -> matrix_ok 4 (Matrix (ncols m + 1) (with_length (le_bytes 4 (ncols m)) m)).
Proof.
  intros [Hc HF]. split; cbn [ncols mrows]; [lia|]. unfold with_length. apply Forall_fmap. eapply Forall_impl; [exact HF|].
  intros row [Hl Hr]. split; [cbn [length]; lia|]. constructor; [apply length_le_bytes|done].
Qed.

Lemma ivecs_read_ok p m w :
  matrix_ok 4 m -> 0 < nrows m -> ncols m < 2 ^ 31 - 1 -> fs w !! p = Some (ivecs_file m) ->
  ivecs_read p w = (Ret m, w).
Proof.
  intros Hm Hn Hd Hf. unfold ivecs_read, fromfile.
  rewrite (bind_ret _ _ _ _ _ (eq_trans (bind_ret _ _ _ _ _ (read_file_ok _ _ _ Hf)) eq_refl)).
  pose proof (with_length_ok m Hm) as Hw. pose proof Hm as [Hc _]. unfold ivecs_file. cbn beta.
  rewrite elements_mjoin by (lia || apply (matrix_items 4 _ Hw)).
  set (m1 := Matrix _ _) in Hw. change (with_length _ m) with (mrows m1).
  assert (int_at (mjoin (mrows m1)) 0 = Ret (ncols m)) as ->.
  { subst m1. unfold with_length. cbn [mrows]. unfold nrows in Hn. destruct (mrows m) as [|row rows]; [cbn in Hn; lia|].
    cbn [fmap list_fmap]. change (mjoin (?r :: ?rs)) with (r ++ mjoin rs)%list. cbn [app]. apply int_at_0. unfold int32_range. lia. }
  unfold lift. erewrite bind_ret by reflexivity. unfold succ32. rewrite (proj2 (Z.eqb_neq _ _)) by lia.
  assert (reshape2 (-1) (ncols m + 1) (mjoin (mrows m1)) = Ret m1) as ->.
  { unfold reshape2. cbn [Z.eqb]. rewrite (matrix_size 4) by done. change (ncols m1) with (ncols m + 1).
    change (-1 =? -1) with true. cbn iota. replace (ncols m + 1 <=? 0) with false by lia.
    rewrite Z.mod_mul by lia. cbn iota. rewrite Z.div_mul by lia. unfold nrows. rewrite Nat2Z.id.
    change (-1 =? -1) with true. cbn iota. change (0 =? 0) with true. cbn iota.
    change (ncols m + 1) with (ncols m1). rewrite (rows_of_matrix 4) by done. by destruct m1. }
  erewrite bind_ret by reflexivity. unfold mret, py_ret. subst m1. cbn [ncols mrows]. do 2 f_equal.
  unfold with_length. rewrite <- list_fmap_compose. destruct m as [c rows]. cbn [ncols mrows]. f_equal; [lia|].
  rewrite <- (list_fmap_id rows) at 2. by apply list_fmap_ext.
Qed.

(** [ivecs_read] reads back what [ivecs_write] wrote: a matrix of 32-bit
    words with at least one row, its shape included. *)
Theorem ivecs_roundtrip p m w :
  matrix_ok 4 m -> 0 < nrows m -> ncols m < 2 ^ 31 - 1 -> can_create w p = true ->
  exists w', ivecs_write p m w = (Ret tt, w') /\ ivecs_read p w' = (Ret m, w').
Proof.
  intros Hm Hn Hd Hc. exists (put_file p (ivecs_file m) w). pose proof Hm as [H0 _].
  split; [apply ivecs_write_ok; [unfold int32_range; lia|done]|].
  apply ivecs_read_ok; [done..|]. rewrite fs_put. by rewrite decide_True.
Qed.

(** ** The script *)

Definition codebook_file (m : cube) : list byte :=
  (le_bytes 4 (c_0 m) ++ le_bytes 4 (c_1 m) ++ le_bytes 4 (c_2 m) ++ mjoin (c_items m))%list.

Lemma codebooks_write_ok p m w :
  can_create w p = true -> int32_range (c_0 m) = true -> int32_range (c_1 m) = true -> int32_range (c_2 m) = true ->
  codebooks_write p m w = (Ret tt, put_file p (codebook_file m) w).
Proof.
  intros Hc H0 H1 H2. unfold codebooks_write. erewrite bind_ret by by apply create_file_ok.
  do 3 erewrite bind_ret by by apply tofile_int_put. rewrite append_put. unfold codebook_file. by rewrite <- !app_assoc.
Qed.

Definition matrix_file (m : matrix) : list byte := default_file (nrows m) (ncols m) (mjoin (mjoin (mrows m))).

(** An [fvecs] file and the matrix it holds. *)
Definition fvecs_at (w : world) (p : string) (m : matrix) : Prop :=
  matrix_ok 4 m /\ 0 < nrows m < 2 ^ 31 /\ ncols m < 2 ^ 31 - 1 /\ fs w !! p = Some (ivecs_file m).

Lemma fvecs_read_at w p m : fvecs_at w p m -> fvecs_read p w = (Ret m, w).
Proof. intros (Hm & Hn & Hd & Hf). apply ivecs_read_ok; [done|lia|done|done]. Qed.

Section script.
Context (astype_f32 : item -> item) (flat_add : Z -> matrix -> outcome unit)
  (pq_centroids : Z -> Z -> Z -> matrix -> outcome (list item)).

(** C14: with the three [fvecs] files in place and faiss returning 256 centroids
    of two components per sub-vector, the script ends normally and leaves the
    base vectors and the queries (two of the three files) in the DEFAULT format
    SPTAG's readers take, byte for byte the rows of the inputs, and the codebook
    that was trained on the third, the learn file, under its three dimensions. *)
Theorem gist_main_writes w xd xq xt centroids :
  fvecs_at w "D:\data\gist\gist_base.fvecs" xd -> fvecs_at w "D:\data\gist\gist_query.fvecs" xq ->
  fvecs_at w "D:\data\gist\gist_learn.fvecs" xt ->
  flat_add (ncols xd) (sanitize astype_f32 xd) = Ret tt ->
  pq_centroids (ncols xd) (ncols xd / 2) 8 (sanitize astype_f32 xt) = Ret centroids ->
  Z.of_nat (length centroids) = ncols xd / 2 * 256 * 2 ->
  Forall (fun p => can_create w p = true) ["gist_vector.bin"; "gist_query.bin"; "gist_codebook.bin"] ->
  exists w', gist_main astype_f32 flat_add pq_centroids w = (Ret tt, w') /\
    fs w' !! "gist_vector.bin" = Some (matrix_file xd) /\
    fs w' !! "gist_query.bin" = Some (matrix_file xq) /\
    fs w' !! "gist_codebook.bin" = Some (codebook_file (Cube (ncols xd / 2) 256 2 centroids)).
Proof.
  intros Hxd Hxq Hxt Hadd Hpq Hlen Hc. unfold gist_main.
  rewrite (bind_ret _ _ _ _ _ (fvecs_read_at _ _ _ Hxd)), (bind_ret _ _ _ _ _ (fvecs_read_at _ _ _ Hxq)),
    (bind_ret _ _ _ _ _ (fvecs_read_at _ _ _ Hxt)).
  destruct Hxd as ((Hd0 & _) & Hdn & Hdc & _), Hxq as ((Hq0 & _) & Hqn & Hqc & _).
  unfold lift. rewrite Hadd. erewrite bind_ret by reflexivity. rewrite Hpq. do 2 erewrite bind_ret by reflexivity.
  unfold reshape3. rewrite Hlen, Z.eqb_refl. erewrite bind_ret by reflexivity.
  assert (0 <= ncols xd / 2 < 2 ^ 31) by (split; [apply Z.div_pos; lia|apply Z.div_lt_upper_bound; lia]).
  apply Forall_cons in Hc as [Hc1 [Hc2 [Hc3 _]%Forall_cons]%Forall_cons].
  erewrite bind_ret by (apply DEFAULT_write_ok; [exact Hc1|unfold int32_range; lia..]).
  erewrite bind_ret by (apply DEFAULT_write_ok; [exact Hc2|unfold int32_range; lia..]).
  erewrite codebooks_write_ok by (exact Hc3 || (unfold int32_range; cbn [c_0 c_1 c_2]; lia)).
  eexists. split; [reflexivity|]. by rewrite !fs_put.
Qed.
End script.

(** ** Witnesses *)

Definition byte_rows (k : nat) (rows : list (list Z)) : list (list item) :=
  (fun row : list Z => le_bytes k <$> row) <$> rows.
Definition gist_world : world := World ∅ ∅ [].
Definition words_2x3 : matrix := Matrix 3 (byte_rows 4 [[1; 2; 3]; [4; 5; 6]]).
Definition bytes_2x3 : matrix := Matrix 3 (byte_rows 1 [[1; 2; 3]; [4; 5; 6]]).

Lemma default_roundtrip_witness :
  (exists w' w'', DEFAULT_write "a.bin" words_2x3 gist_world = (Ret tt, w') /\
    DEFAULT_read "a.bin" 4 w' = (Ret words_2x3, w'')) /\
  (exists w' w'', DEFAULT_write "a.bin" bytes_2x3 gist_world = (Ret tt, w') /\
    DEFAULT_read "a.bin" 1 w' = (Raise ValueError, w'')).
Proof.
  split.
  - apply (default_roundtrip "a.bin" 4 words_2x3); try lia; try (vm_compute; reflexivity). split; [vm_compute; congruence|repeat constructor].
  - apply (default_roundtrip "a.bin" 1 bytes_2x3); try lia; try (vm_compute; reflexivity). split; [vm_compute; congruence|repeat constructor].
Defined.

Lemma ivecs_roundtrip_witness :
  exists w', ivecs_write "a.ivecs" words_2x3 gist_world = (Ret tt, w') /\ ivecs_read "a.ivecs" w' = (Ret words_2x3, w').
Proof.
  apply ivecs_roundtrip; try (vm_compute; reflexivity). split; [vm_compute; congruence|repeat constructor].
Defined.

Definition words_1x2 : matrix := Matrix 2 (byte_rows 4 [[7; 8]]).
Definition fvecs_world : world :=
  World {[ "D:\data\gist\gist_base.fvecs" := ivecs_file words_1x2; "D:\data\gist\gist_query.fvecs" := ivecs_file words_1x2;
           "D:\data\gist\gist_learn.fvecs" := ivecs_file words_1x2 ]} ∅ [].
Definition zero_centroids : list item := replicate 512 (le_bytes 4 0).

Lemma gist_main_writes_witness :
  exists w', gist_main id (fun _ _ => Ret tt) (fun _ _ _ _ => Ret zero_centroids) fvecs_world = (Ret tt, w') /\
    fs w' !! "gist_vector.bin" = Some (matrix_file words_1x2) /\
    fs w' !! "gist_query.bin" = Some (matrix_file words_1x2) /\
    fs w' !! "gist_codebook.bin" = Some (codebook_file (Cube 1 256 2 zero_centroids)).
Proof.
  assert (matrix_ok 4 words_1x2) by (split; [vm_compute; congruence|repeat constructor]).
  assert (0 < nrows words_1x2 < 2 ^ 31) by (vm_compute; split; reflexivity).
  assert (ncols words_1x2 < 2 ^ 31 - 1) by (vm_compute; reflexivity).
  apply (gist_main_writes id (fun _ _ => Ret tt) (fun _ _ _ _ => Ret zero_centroids) fvecs_world words_1x2 words_1x2 words_1x2 zero_centroids);
    try (split_and!; [done..|vm_compute; reflexivity]); try reflexivity.
  repeat (constructor; [vm_compute; reflexivity|]). constructor.
Defined.
