(* ===== verification/Aerospike.v ===== *)
(** * aerospace_client: kv_benchmark.py and verify_persistance.py

    Writes documents to an Aerospike server and checks them, at once and after
    a restart. The server is a parameter, [Aerospike], whose laws are what its
    documentation promises of [put] and [get]; the clock and the texts of
    exceptions are parameters too. *)

From S2P Require Import Prelude PyStr PyFloat.

Open Scope string_scope.
Open Scope Z_scope.

(** The values of a bin, and a record. *)
Inductive value : Set := VInt (z : Z) | VStr (s : string) | VBytes (s : string).
#[global] Instance value_eq_dec : EqDecision value.
Proof. solve_decision. Defined.

Definition rec := gmap string value.
Definition key : Set := string * string * string.

Class Aerospike (db : Type) := {
  as_connect : db -> outcome unit;
  as_put : key -> rec -> db -> outcome unit * db;
  as_get : key -> db -> outcome rec * db
}.

(** [put] writes the bins it is given and no other record; [get] changes
    nothing and fails with an ordinary exception. *)
Class AerospikeLaws (db : Type) `{!Aerospike db} : Prop := {
  put_get : forall k r d d', as_put k r d = (Ret tt, d') -> exists r', (as_get k d').1 = Ret r' /\ r ⊆ r';
  put_other : forall k k' r d d', as_put k r d = (Ret tt, d') -> k <> k' -> (as_get k' d').1 = (as_get k' d).1;
  get_pure : forall k d, (as_get k d).2 = d;
  get_ends : forall k d, (as_get k d).1 <> OutOfFuel /\ (as_get k d).1 <> Raise SystemExit
}.

(** A script: the server, whether the client is open, [errors], the readings
    of the clock so far and the output. *)
Record script (db : Type) := Script {
  server : db; client_open : bool; errors : Z; ticks : nat; output : list string
}.
Arguments Script {db} _ _ _ _ _.
Arguments server {db} _.
Arguments client_open {db} _.
Arguments errors {db} _.
Arguments ticks {db} _.
Arguments output {db} _.

Definition NAMESPACE : string := "sptag_data".
Definition SET_NAME : string := "vectors".
Definition RECORD_COUNT : Z := 10000.

Section scripts.
Context {db : Type} `{!Aerospike db} (exn_str : exn -> string) (clock : nat -> float).
Implicit Types s : script db.

Definition say (t : string) : py (script db) unit :=
  modify (fun s => Script (server s) (client_open s) (errors s) (ticks s) (output s ++ [t])%list).
Definition set_errors (e : Z) : py (script db) unit :=
  modify (fun s => Script (server s) (client_open s) e (ticks s) (output s)).
Definition add_error : py (script db) unit := s ← get_state; set_errors (errors s + 1).
Definition set_client (b : bool) : py (script db) unit :=
  modify (fun s => Script (server s) b (errors s) (ticks s) (output s)).
Definition client {A} (f : db -> outcome A * db) : py (script db) A := fun s =>
  let '(r, d) := f (server s) in (r, Script d (client_open s) (errors s) (ticks s) (output s)).
Definition time_time : py (script db) float := fun s =>
  (Ret (clock (ticks s)), Script (server s) (client_open s) (errors s) (S (ticks s)) (output s)).

(** [aerospike.client(config).connect()]. *)
Definition connect : py (script db) unit :=
  s ← get_state; lift (as_connect (server s));; set_client true.

Definition doc_key (i : Z) : key := (NAMESPACE, SET_NAME, "doc_" ++ str_of_Z i).
Definition content (i : Z) : string := "This is the payload for document " ++ str_of_Z i.
Definition record_data (i : Z) : rec :=
  {[ "vector_id" := VInt i; "status" := VStr "active"; "content" := VStr (content i) ]}.

Definition write_test (n : Z) : py (script db) unit :=
  for_each (py_range 0 n) (fun i => client (as_put (doc_key i) (record_data i))).

(** [record[k]]. *)
Definition dict_get (r : rec) (k : string) : outcome value :=
  match r !! k with Some v => Ret v | None => Raise KeyError end.

(** The condition of the correctness check. *)
Definition mismatch (i : Z) (r : rec) : outcome bool :=
  v ← dict_get r "vector_id";
  if negb (bool_decide (v = VInt i)) then Ret true
  else c ← dict_get r "content"; Ret (negb (bool_decide (c = VStr (content i)))).

(** [except Exception as e]. *)
Definition except_Exception {A} (k : exn -> py (script db) A) : exn -> option (py (script db) A) :=
  fun e => if decide (e = SystemExit) then None else Some (k e).

Definition read_one (i : Z) : py (script db) unit :=
  try_except
    (r ← client (as_get (doc_key i));
     b ← lift (mismatch i r);
     when b (say ("Data mismatch at doc_" ++ str_of_Z i ++ "!");; add_error))
    (except_Exception (fun e => say ("Failed to read doc_" ++ str_of_Z i ++ ": " ++ exn_str e);; add_error)).

(** [f"{t:.3f} seconds ({RECORD_COUNT / t:.0f} ops/sec)"]. *)
Definition rate (t : float) : outcome string :=
  q ← fdiv (float_of_Z RECORD_COUNT) t;
  Ret (float_fixed 3 t ++ " seconds (" ++ float_fixed 0 q ++ " ops/sec)").

Definition newline_ : string := String (Ascii.ascii_of_nat 10) "".

Definition kv_benchmark : py (script db) unit :=
  try_except connect
    (except_Exception (fun e => say ("Failed to connect: " ++ exn_str e);; raise SystemExit));;
  say ("Starting WRITE test for " ++ str_of_Z RECORD_COUNT ++ " records...");;
  start ← time_time;
  write_test RECORD_COUNT;;
  now ← time_time;
  r ← lift (rate (fsub now start));
  say ("Write Test Complete: " ++ r ++ newline_);;
  say ("Starting READ and VALIDATION test for " ++ str_of_Z RECORD_COUNT ++ " records...");;
  start ← time_time;
  set_errors 0;;
  for_each (py_range 0 RECORD_COUNT) read_one;;
  now ← time_time;
  r ← lift (rate (fsub now start));
  say ("Read Test Complete: " ++ r);;
  s ← get_state;
  say (if errors s =? 0 then "SUCCESS: 100% of records read correctly with zero data corruption." ++ newline_
       else "FAILURE: Found " ++ str_of_Z (errors s) ++ " data mismatches." ++ newline_);;
  set_client false.

(** One round of verify_persistance.py; the [except] is bare. *)
Definition verify_one (i : Z) : py (script db) unit :=
  try_except
    (r ← client (as_get (doc_key i));
     v ← lift (dict_get r "vector_id");
     when (negb (bool_decide (v = VInt i))) add_error)
    (fun _ => Some add_error).

Definition verify_persistance : py (script db) unit :=
  connect;;
  set_errors 0;;
  say "Checking for 10,000 restored records...";;
  for_each (py_range 0 10000) verify_one;;
  s ← get_state;
  say (if errors s =? 0 then "PERSISTENCE SUCCESS: All 10,000 records survived the reboot!"
       else "PERSISTENCE FAILURE: Missing or corrupted " ++ str_of_Z (errors s) ++ " records.");;
  set_client false.

(** ** What a check finds wrong with the record of document [i] *)

Definition bad_id (d : db) (i : Z) : bool :=
  match (as_get (doc_key i) d).1 with
  | Ret r => negb (bool_decide (r !! "vector_id" = Some (VInt i)))
  | _ => true
  end.

Definition bad_record (d : db) (i : Z) : bool :=
  match (as_get (doc_key i) d).1 with
  | Ret r => negb (bool_decide (r !! "vector_id" = Some (VInt i))) ||
             negb (bool_decide (r !! "content" = Some (VStr (content i))))
  | _ => true
  end.

Definition count (p : Z -> bool) (l : list Z) : Z := Z.of_nat (length (filter (fun i => p i = true) l)).
End scripts.

(** ** Lemmas *)

Section loops.
Context {db : Type} `{!Aerospike db} `{!AerospikeLaws db} (exn_str : exn -> string) (clock : nat -> float).
Implicit Types s : script db.

(** A round that changes nothing but the output, and counts [p]. *)
Definition counts_round (p : db -> Z -> bool) (body : Z -> py (script db) unit) : Prop :=
  forall i s, exists s', body i s = (Ret tt, s') /\ server s' = server s /\ ticks s' = ticks s /\
    client_open s' = client_open s /\ errors s' = errors s + (if p (server s) i then 1 else 0).

Lemma counts_loop p body l s :
  counts_round p body ->
  exists s', for_each l body s = (Ret tt, s') /\ server s' = server s /\ ticks s' = ticks s /\
    client_open s' = client_open s /\ errors s' = errors s + count (p (server s)) l.
Proof.
  intros Hb. revert s. induction l as [|i l IH]; intros s.
  - exists s. unfold count. cbn. split_and!; [done..|lia].
  - destruct (Hb i s) as (s1 & H1 & Hs1 & Ht1 & Hc1 & He1). destruct (IH s1) as (s2 & H2 & Hs2 & Ht2 & Hc2 & He2).
    exists s2. cbn [for_each]. rewrite (bind_ret _ _ _ _ _ H1). split_and!; [done|congruence..|].
    rewrite He2, He1, Hs1. unfold count. rewrite filter_cons. destruct (p (server s) i).
    + rewrite decide_True by done. cbn [length]. lia.
    + rewrite decide_False by done. lia.
Qed.

(** [client.get]: the server is as before. *)
Lemma client_get i s : client (as_get (doc_key i)) s = ((as_get (doc_key i) (server s)).1, s).
Proof.
  unfold client. pose proof (get_pure (doc_key i) (server s)) as Hp. destruct (as_get _ _) as [r d]. cbn in *. subst d. by destruct s.
Qed.

Lemma mismatch_bad i r :
  match mismatch i r with
  | Ret b => b
  | _ => true
  end = negb (bool_decide (r !! "vector_id" = Some (VInt i))) || negb (bool_decide (r !! "content" = Some (VStr (content i)))) /\
  mismatch i r <> OutOfFuel /\ mismatch i r <> Raise SystemExit.
Proof.
  unfold mismatch, dict_get. destruct (r !! "vector_id") as [v|]; [|done]. cbn [mbind outcome_bind].
  destruct (decide (v = VInt i)) as [->|Hne].
  - rewrite !bool_decide_true by done. cbn [negb orb]. destruct (r !! "content") as [c|]; [|done]. cbn [mbind outcome_bind].
    split; [|done]. f_equal. apply bool_decide_ext. split; congruence.
  - rewrite !bool_decide_false by congruence. done.
Qed.

Lemma read_one_counts : counts_round bad_record (read_one exn_str).
Proof.
  intros i s. unfold read_one, try_except. destruct (get_ends (doc_key i) (server s)) as [Hf Hx].
  pose proof (client_get i s) as Hg. unfold bad_record. destruct (as_get (doc_key i) (server s)).1 as [r|e|]; [| |done].
  - rewrite (bind_ret _ _ _ _ _ Hg). destruct (mismatch_bad i r) as (Hm & Hmf & Hmx). rewrite <- Hm.
    unfold lift. destruct (mismatch i r) as [b|e|] eqn:Em; [| |done].
    + erewrite bind_ret by reflexivity. destruct b; cbn [when]; eexists; (split; [reflexivity|]); cbn; split_and!; done || lia.
    + erewrite bind_raise by reflexivity. unfold except_Exception. rewrite decide_False by congruence.
      eexists; (split; [reflexivity|]); cbn; split_and!; done || lia.
  - rewrite (bind_raise _ _ _ _ _ Hg). unfold except_Exception. rewrite decide_False by congruence.
    eexists; (split; [reflexivity|]); cbn; split_and!; done || lia.
Qed.

Lemma verify_one_counts : counts_round bad_id verify_one.
Proof.
  intros i s. unfold verify_one, try_except. destruct (get_ends (doc_key i) (server s)) as [Hf Hx].
  pose proof (client_get i s) as Hg. unfold bad_id. destruct (as_get (doc_key i) (server s)).1 as [r|e|]; [| |done].
  - rewrite (bind_ret _ _ _ _ _ Hg). unfold dict_get, lift. destruct (r !! "vector_id") as [v|].
    + erewrite bind_ret by reflexivity.
      assert (bool_decide (Some v = Some (VInt i)) = bool_decide (v = VInt i)) as -> by (apply bool_decide_ext; split; congruence).
      destruct (bool_decide _); cbn [negb when]; eexists; (split; [reflexivity|]); cbn; split_and!; done || lia.
    + erewrite bind_raise by reflexivity. eexists; (split; [reflexivity|]); cbn; split_and!; done || lia.
  - rewrite (bind_raise _ _ _ _ _ Hg). eexists; (split; [reflexivity|]); cbn; split_and!; done || lia.
Qed.

Lemma count_zero p l : count p l = 0 <-> Forall (fun i => p i = false) l.
Proof.
  unfold count. split.
  - intros H. apply Forall_forall. intros i Hi. destruct (p i) eqn:E; [|done].
    assert (i ∈ filter (fun i => p i = true) l) as Hin by by apply list_elem_of_filter.
    apply list_elem_of_lookup in Hin as [j Hj%lookup_lt_Some]. lia.
  - intros H. assert (filter (fun i => p i = true) l = []) as ->; [|done].
    apply filter_nil_iff || idtac. induction H as [|i l Hi HF IH]; [done|]. rewrite filter_cons, decide_False, IH by congruence. done.
Qed.

(** ** The writes *)

Lemma doc_key_inj i j : doc_key i = doc_key j -> i = j.
Proof. unfold doc_key. intros H. injection H as H. by apply str_of_Z_inj. Qed.

Definition stored (d : db) (i : Z) : Prop := exists r, (as_get (doc_key i) d).1 = Ret r /\ record_data i ⊆ r.

Lemma stored_not_bad d i : stored d i -> bad_record d i = false.
Proof.
  intros (r & Hr & Hs). unfold bad_record. rewrite Hr.
  assert (r !! "vector_id" = Some (VInt i)) as -> by (apply (lookup_weaken (record_data i)); [reflexivity|done]).
  assert (r !! "content" = Some (VStr (content i))) as -> by (apply (lookup_weaken (record_data i)); [reflexivity|done]).
  by rewrite !bool_decide_true.
Qed.

Lemma bad_id_record d i : bad_record d i = false -> bad_id d i = false.
Proof. unfold bad_record, bad_id. destruct (as_get _ _).1; [|done..]. by intros [H _]%orb_false_elim. Qed.

Lemma write_loop l s :
  (forall k r d, (as_put k r d).1 = Ret tt) ->
  exists s', for_each l (fun i => client (as_put (doc_key i) (record_data i))) s = (Ret tt, s') /\
    ticks s' = ticks s /\ client_open s' = client_open s /\
    forall i, i ∈ l \/ stored (server s) i -> stored (server s') i.
Proof.
  intros Hput. revert s. induction l as [|i l IH]; intros s.
  - exists s. split_and!; [done..|]. intros i [H|H]; [by apply not_elem_of_nil in H|done].
  - pose proof (Hput (doc_key i) (record_data i) (server s)) as Hp.
    destruct (as_put (doc_key i) (record_data i) (server s)) as [r d] eqn:Ep. cbn in Hp. subst r.
    set (s1 := Script d (client_open s) (errors s) (ticks s) (output s)).
    assert (client (as_put (doc_key i) (record_data i)) s = (Ret tt, s1)) as E by (unfold client; by rewrite Ep).
    destruct (IH s1) as (s2 & H2 & Ht & Hc & Hst). exists s2. cbn [for_each]. rewrite (bind_ret _ _ _ _ _ E).
    split_and!; [done..|]. intros j Hj. apply Hst.
    destruct (decide (j = i)) as [->|Hne]; [right; by apply (put_get _ _ _ _ Ep)|].
    destruct Hj as [Hj|(r & Hr & Hs)]; [left; set_solver|right].
    exists r. split; [|done]. cbn. rewrite (put_other _ (doc_key j) _ _ _ Ep); [done|]. by intros ->%doc_key_inj.
Qed.
End loops.

Section theorems.
Context {db : Type} `{!Aerospike db} `{!AerospikeLaws db} (exn_str : exn -> string) (clock : nat -> float).
Implicit Types s : script db.

Lemma connect_ok s :
  as_connect (server s) = Ret tt ->
  connect s = (Ret tt, Script (server s) true (errors s) (ticks s) (output s)).
Proof. intros H. unfold connect, get_state, lift. erewrite bind_ret by reflexivity. by rewrite H. Qed.

Lemma rate_ok t : is_zero t = false -> exists r, rate t = Ret r.
Proof. intros H. unfold rate, fdiv. rewrite H. by eexists. Qed.

Lemma verify_run s :
  as_connect (server s) = Ret tt ->
  exists s', verify_persistance s = (Ret tt, s') /\ server s' = server s /\ client_open s' = false /\
    errors s' = count (bad_id (server s)) (py_range 0 10000) /\
    last (output s') = Some (if count (bad_id (server s)) (py_range 0 10000) =? 0
      then "PERSISTENCE SUCCESS: All 10,000 records survived the reboot!"
      else "PERSISTENCE FAILURE: Missing or corrupted " ++ str_of_Z (count (bad_id (server s)) (py_range 0 10000)) ++ " records.").
Proof.
  intros Hcon. unfold verify_persistance. rewrite (bind_ret _ _ _ _ _ (connect_ok _ Hcon)). do 2 erewrite bind_ret by reflexivity.
  edestruct (counts_loop bad_id verify_one (py_range 0 10000)) as (s2 & H2 & Hs2 & Hk2 & Hc2 & He2);
    [apply verify_one_counts|]. rewrite (bind_ret _ _ _ _ _ H2). cbn [server ticks client_open errors] in *.
  do 2 erewrite bind_ret by reflexivity. eexists. split; [reflexivity|]. cbn [client_open errors output server].
  rewrite He2, Z.add_0_l. split_and!; [done..|]. by rewrite last_snoc.
Qed.

(** C13: on a server that accepts writes, and with a clock that moves during
    each of the two tests, the benchmark ends normally with the client closed,
    has printed its success message, and every one of the 10,000 documents can
    be read from the server with the bins that were written; and when the server
    holds the same data after a restart, verify_persistance.py reports success. *)
Theorem benchmark_success s :
  as_connect (server s) = Ret tt -> (forall k r d, (as_put k r d).1 = Ret tt) ->
  is_zero (fsub (clock (S (ticks s))) (clock (ticks s))) = false ->
  is_zero (fsub (clock (S (S (S (ticks s))))) (clock (S (S (ticks s))))) = false ->
  exists s', kv_benchmark exn_str clock s = (Ret tt, s') /\ client_open s' = false /\ errors s' = 0 /\
    last (output s') = Some ("SUCCESS: 100% of records read correctly with zero data corruption." ++ newline_) /\
    (forall i, 0 <= i < RECORD_COUNT -> stored (server s') i) /\
    forall t, server t = server s' -> as_connect (server t) = Ret tt ->
      exists t', verify_persistance t = (Ret tt, t') /\ errors t' = 0 /\
        last (output t') = Some "PERSISTENCE SUCCESS: All 10,000 records survived the reboot!".
Proof.
  intros Hcon Hput Ht1 Ht2. unfold kv_benchmark, try_except at 1.
  erewrite bind_ret by by rewrite connect_ok.
  do 2 erewrite bind_ret by reflexivity.
  edestruct (write_loop (py_range 0 RECORD_COUNT)) as (s1 & H1 & Hk1 & Hc1 & Hst); [exact Hput|].
  unfold write_test. rewrite (bind_ret _ _ _ _ _ H1). cbn [ticks] in Hk1.
  erewrite bind_ret by reflexivity. unfold lift. cbn [ticks]. rewrite Hk1.
  destruct (rate_ok _ Ht1) as [r1 Hr1]. rewrite Hr1. do 5 erewrite bind_ret by reflexivity.
  edestruct (counts_loop bad_record (read_one exn_str) (py_range 0 RECORD_COUNT)) as (s2 & H2 & Hs2 & Hk2 & Hc2 & He2);
    [apply read_one_counts|]. rewrite (bind_ret _ _ _ _ _ H2). cbn [server ticks client_open errors] in *.
  erewrite bind_ret by reflexivity. cbn [ticks]. rewrite Hk2.
  destruct (rate_ok _ Ht2) as [r2 Hr2]. rewrite Hr2. do 3 erewrite bind_ret by reflexivity. cbn [errors].
  assert (errors s2 = 0) as He0.
  { rewrite He2, Z.add_0_l. apply count_zero, Forall_forall. intros i Hi. apply stored_not_bad, Hst. by left. }
  rewrite He0. cbn [Z.eqb]. eexists. split; [reflexivity|]. cbn [client_open errors output server]. rewrite Hs2.
  assert (forall i, 0 <= i < RECORD_COUNT -> stored (server s1) i) as Hall by (intros i Hi; apply Hst; left; by apply elem_of_py_range).
  split_and!; [done|done|by rewrite last_snoc|done|]. intros t Ht Hct. destruct (verify_run t Hct) as (t' & Hv & _ & _ & He & Ho).
  exists t'. rewrite He, Ho, Ht. assert (count (bad_id (server s1)) (py_range 0 10000) = 0) as ->; [|done].
  apply count_zero, Forall_forall. intros i Hi%elem_of_py_range. by apply bad_id_record, stored_not_bad, Hall.
Qed.

(** Verify_persistance.py reports exactly the documents it should: it ends
    with the success message when every one of the 10,000 ids is on the server
    with its own number, and otherwise with the number of ids that are missing,
    unreadable or hold another number. *)
Theorem verify_counts s :
  as_connect (server s) = Ret tt ->
  exists s', verify_persistance s = (Ret tt, s') /\ server s' = server s /\ client_open s' = false /\
    errors s' = count (bad_id (server s)) (py_range 0 10000) /\
    last (output s') = Some (if bool_decide (Forall (fun i => bad_id (server s) i = false) (py_range 0 10000))
      then "PERSISTENCE SUCCESS: All 10,000 records survived the reboot!"
      else "PERSISTENCE FAILURE: Missing or corrupted " ++ str_of_Z (count (bad_id (server s)) (py_range 0 10000)) ++ " records.").
Proof.
  intros Hcon. destruct (verify_run s Hcon) as (s' & Hv & Hs & Hc & He & Ho). exists s'. split_and!; [done..|]. rewrite Ho. f_equal.
  destruct (Z.eqb_spec (count (bad_id (server s)) (py_range 0 10000)) 0) as [Hz|Hz].
  - rewrite bool_decide_true; [done|]. by apply count_zero.
  - rewrite bool_decide_false; [done|]. by rewrite <- count_zero.
Qed.
End theorems.

(** ** Witnesses *)

(** A server that keeps its records in a map. *)
#[export] Instance map_server : Aerospike (gmap key rec) := {
  as_connect := fun _ => Ret tt;
  as_put := fun k r d => (Ret tt, <[k := r ∪ default ∅ (d !! k)]> d);
  as_get := fun k d => (match d !! k with Some r => Ret r | None => Raise ClientError end, d)
}.

#[export] Instance map_server_laws : AerospikeLaws (gmap key rec).
Proof.
  split; cbn.
  - intros k r d d' H. injection H as <-. exists (r ∪ default ∅ (d !! k)). rewrite lookup_insert_eq. split; [done|apply map_union_subseteq_l].
  - intros k k' r d d' H Hne. injection H as <-. by rewrite lookup_insert_ne.
  - done.
  - intros k d. by destruct (d !! k).
Qed.

Definition fresh_script : script (gmap key rec) := Script ∅ false 0 0 [].

Lemma benchmark_success_witness :
  exists s', kv_benchmark (fun _ => "") (fun n => float_of_Z (Z.of_nat n)) fresh_script = (Ret tt, s') /\ errors s' = 0.
Proof.
  destruct (benchmark_success (fun _ => "") (fun n => float_of_Z (Z.of_nat n)) fresh_script) as (s' & H & _ & He & _);
    [reflexivity|reflexivity|vm_compute; reflexivity|vm_compute; reflexivity|].
  exists s'. split; [exact H|exact He].
Defined.

Lemma verify_counts_witness :
  exists s', verify_persistance fresh_script = (Ret tt, s') /\
    errors s' = count (bad_id (server fresh_script)) (py_range 0 10000) /\
    bad_id (server fresh_script) 5 = true.
Proof.
  destruct (verify_counts fresh_script) as (s' & H & _ & _ & He & _); [reflexivity|]. exists s'. split; [exact H|]. split; [exact He|vm_compute; reflexivity].
Defined.
