(* ===== verification/Features.v ===== *)
(** * docs/examples/features_extractor.py

    Square padding of images and feature extraction with a pretrained network.
    Pillow and Keras are parameters: [Pil] and [PilLaws] say what is used of
    images, [Keras] what is used of networks. Progress messages are left out. *)

From Stdlib Require Import Ascii Lia ZifyBool.
From S2P Require Import Prelude PyStr PyIO.

Open Scope string_scope.
Open Scope Z_scope.

Class Pil (img pixel arr : Type) := {
  Image_open : string -> outcome img;
  convert : string -> img -> outcome img;
  size : img -> Z * Z;
  mode : img -> string;
  (** the colour of the pixel at a column and a row *)
  getpixel : img -> Z -> Z -> pixel;
  (** the pixel an integer colour stands for in a mode *)
  ink : string -> Z -> pixel;
  Image_new : string -> Z * Z -> Z -> img;
  (** [im.paste(other, (x, y))], the image after it *)
  paste : img -> img -> Z * Z -> img;
  resize : Z * Z -> img -> img;
  np_array : img -> arr
}.

Class PilLaws (img pixel arr : Type) `{!Pil img pixel arr} : Prop := {
  new_size : forall m wh c, size (Image_new m wh c) = wh;
  new_mode : forall m wh c, mode (Image_new m wh c) = m;
  new_pixel : forall m w h c x y, 0 <= x < w -> 0 <= y < h -> getpixel (Image_new m (w, h) c) x y = ink m c;
  paste_size : forall a b o, size (paste a b o) = size a;
  (** between images of one mode, where no pixel is converted *)
  paste_pixel : forall a b ox oy x y, mode a = mode b ->
    0 <= x < (size a).1 -> 0 <= y < (size a).2 ->
    getpixel (paste a b (ox, oy)) x y =
      if (ox <=? x) && (x <? ox + (size b).1) && (oy <=? y) && (y <? oy + (size b).2)
      then getpixel b (x - ox) (y - oy) else getpixel a x y;
  resize_size : forall wh a, size (resize wh a) = wh
}.

(** [glob.glob] over the file system is a parameter. *)
Definition get_filenames (glob : string -> bool -> world -> list string) (glob_pattern : string) (recursive : bool)
    : py world (list string) :=
  w ← get_state;
  let all_files := glob glob_pattern recursive w in
  print ("Found " ++ str_of_Z (Z.of_nat (length all_files)) ++ " files using pattern: " ++ glob_pattern);;
  mret all_files.

Section images.
Context {img pixel arr : Type} `{!Pil img pixel arr}.

Definition expand2square (pil_img : img) (background_color : Z) : img :=
  let '(width, height) := size pil_img in
  if width =? height then pil_img
  else if width >? height then
    let result := Image_new (mode pil_img) (width, width) background_color in
    paste result pil_img (0, (width - height) / 2)
  else
    let result := Image_new (mode pil_img) (height, height) background_color in
    paste result pil_img ((height - width) / 2, 0).

(** One round of the loop, before [np.array]. *)
Definition load_image (target_size : Z * Z) (color : string) (bg_clr : Z) (filename : string) : outcome img :=
  img ← Image_open filename;
  img ← convert color img;
  let im_square := expand2square img bg_clr in
  Ret (resize target_size im_square).

Definition get_images (filenames : list string) (target_size : Z * Z) (color : string) (bg_clr : Z) : outcome (list arr) :=
  mapM_out (fun filename => im_res ← load_image target_size color bg_clr filename; Ret (np_array im_res)) filenames.
End images.

Class Keras (arr shape tensor model emb : Type) := {
  arr_shape : arr -> shape;
  (** [ResNet50], [InceptionV3] and [VGG19] with the imagenet weights, no top *)
  application : string -> shape -> outcome model;
  inputs : model -> tensor;
  outputs : model -> tensor;
  GlobalAveragePooling2D : tensor -> tensor;
  GlobalMaxPooling2D : tensor -> tensor;
  Model : tensor -> tensor -> outcome model;
  (** [preprocess_input] of the module of an application *)
  preprocess_input : string -> list arr -> list arr;
  predict : model -> list arr -> outcome emb
}.

Section features.
Context {arr shape tensor model emb : Type} `{!Keras arr shape tensor model emb}.

Definition pooling_methods : list string := ["avg"; "max"].
Definition pretrained_models : list string := ["resnet50"; "inception_v3"; "vgg19"].

(** [assert x in l]. *)
Definition assert_in (x : string) (l : list string) : outcome unit :=
  if bool_decide (x ∈ l) then Ret tt else Raise AssertionError.

Definition create_feat_extractor (base_model : model) (pooling_method : string) : outcome model :=
  _ ← assert_in pooling_method pooling_methods;
  let x := outputs base_model in
  let x := if bool_decide (pooling_method = "avg") then GlobalAveragePooling2D x
           else if bool_decide (pooling_method = "max") then GlobalMaxPooling2D x else x in
  Model (inputs base_model) x.

Definition extract_features (imgs_np : list arr) (pretrained_model pooling_method : string) : outcome emb :=
  let pretrained_model := lower pretrained_model in
  _ ← assert_in pretrained_model pretrained_models;
  _ ← assert_in pooling_method pooling_methods;
  first ← py_index imgs_np 0;
  base ← application pretrained_model (arr_shape first);
  feat_extractor ← create_feat_extractor base pooling_method;
  predict feat_extractor (preprocess_input pretrained_model imgs_np).
End features.

(** ** Theorems *)

Section image_props.
Context {img pixel arr : Type} `{!Pil img pixel arr} `{!PilLaws img pixel arr}.

(** C26: [expand2square] pads to a square: the side is the longer side of the
    image, the image is in it unchanged, centred (to the pixel below when the
    margin is odd), and every other pixel has the background colour. *)
Theorem expand2square_pads (i : img) (bg : Z) :
  0 < (size i).1 -> 0 < (size i).2 ->
  let n := Z.max (size i).1 (size i).2 in
  let ox := (n - (size i).1) / 2 in
  let oy := (n - (size i).2) / 2 in
  size (expand2square i bg) = (n, n) /\
  forall x y, 0 <= x < n -> 0 <= y < n ->
    getpixel (expand2square i bg) x y =
      if (ox <=? x) && (x <? ox + (size i).1) && (oy <=? y) && (y <? oy + (size i).2)
      then getpixel i (x - ox) (y - oy) else ink (mode i) bg.
Proof.
  intros Hw Hh. unfold expand2square. destruct (size i) as [w h] eqn:E. cbn [fst snd] in *.
  destruct (Z.eqb_spec w h) as [->|Hne]; [|destruct (Z.gtb_spec w h)].
  - rewrite Z.max_id, Z.sub_diag. change (0 / 2) with 0. split; [done|]. intros x y Hx Hy.
    replace ((0 <=? x) && (x <? 0 + h) && (0 <=? y) && (y <? 0 + h)) with true by lia. by rewrite !Z.sub_0_r.
  - rewrite Z.max_l, Z.sub_diag by lia. change (0 / 2) with 0. rewrite paste_size, new_size. split; [done|].
    intros x y Hx Hy. rewrite paste_pixel, new_pixel, E by (rewrite ?new_size, ?new_mode; done). done.
  - rewrite Z.max_r, Z.sub_diag by lia. change (0 / 2) with 0. rewrite paste_size, new_size. split; [done|].
    intros x y Hx Hy. rewrite paste_pixel, new_pixel, E by (rewrite ?new_size, ?new_mode; done). done.
Qed.

Lemma load_image_size target color bg f i : load_image target color bg f = Ret i -> size i = target.
Proof.
  unfold load_image. destruct (Image_open f) as [a| |]; [|done..]. cbn [mbind outcome_bind].
  destruct (convert color a) as [b| |]; [|done..]. cbn. intros [= <-]. apply resize_size.
Qed.

(** One image per file, in order, each of the target size. *)
Lemma get_images_sizes files target color bg arrs :
  get_images (img := img) files target color bg = Ret arrs ->
  exists imgs, arrs = np_array <$> imgs /\
    Forall2 (fun f i => load_image target color bg f = Ret i /\ size i = target) files imgs.
Proof.
  revert arrs. unfold get_images. induction files as [|f files IH]; intros arrs; cbn [mapM_out].
  - intros [= <-]. by exists [].
  - destruct (load_image target color bg f) as [i| |] eqn:E; [|done..]. cbn [mbind outcome_bind].
    destruct (mapM_out _ files) as [rest| |]; [|done..]. cbn. intros [= <-].
    destruct (IH rest eq_refl) as (imgs & -> & HF). exists (i :: imgs). split; [done|]. constructor; [|done].
    split; [done|]. by apply load_image_size in E.
Qed.
End image_props.

Lemma lower_char_idemp c : to_lower_char (to_lower_char c) = to_lower_char c.
Proof. destruct c as [[] [] [] [] [] [] [] []]; reflexivity. Qed.

Lemma lower_idemp s : lower (lower s) = lower s.
Proof. induction s as [|c s IH]; cbn; [done|]. by rewrite lower_char_idemp, IH. Qed.

Section feature_props.
Context {arr shape tensor model emb : Type} `{!Keras arr shape tensor model emb}.

(** [extract_features] on every branch. A model name is accepted in any
    case, a pooling method only as written; anything else is refused before a
    network is made. Otherwise the features are the predictions of the chosen
    network, cut at its last pooling, on the images preprocessed for that
    network; an empty array of images is an IndexError. *)
Theorem extract_features_branches (imgs : list arr) (name pooling : string) :
  extract_features imgs name pooling =
    if bool_decide (lower name ∈ pretrained_models) && bool_decide (pooling ∈ pooling_methods) then
      match imgs with
      | [] => Raise IndexError
      | im :: _ =>
          base ← application (lower name) (arr_shape im);
          m ← Model (inputs base) ((if bool_decide (pooling = "avg") then GlobalAveragePooling2D else GlobalMaxPooling2D) (outputs base));
          predict m (preprocess_input (lower name) imgs)
      end
    else Raise AssertionError.
Proof.
  unfold extract_features, assert_in.
  destruct (decide (lower name ∈ pretrained_models)) as [Hn|Hn]; [|by rewrite !(bool_decide_false (lower name ∈ _))].
  destruct (decide (pooling ∈ pooling_methods)) as [Hp|Hp];
    [|by rewrite (bool_decide_true (lower name ∈ _)), !(bool_decide_false (pooling ∈ _))].
  rewrite (bool_decide_true (lower name ∈ _)), (bool_decide_true (pooling ∈ _)) by done.
  cbn [mbind outcome_bind andb]. destruct imgs as [|im imgs]; [done|].
  change (py_index (im :: imgs) 0) with (@Ret arr im). cbn [mbind outcome_bind].
  destruct (application _ _) as [base|e|]; [|done..]. cbn [mbind outcome_bind].
  unfold create_feat_extractor, assert_in. rewrite (bool_decide_true (pooling ∈ _)) by done. cbn [mbind outcome_bind].
  destruct (decide (pooling = "avg")) as [->|Ha]; [done|]. rewrite (bool_decide_false (pooling = "avg")) by done. rewrite bool_decide_true; [done|].
  unfold pooling_methods in Hp. set_solver.
Qed.

(** The case of the model's name does not matter. *)
Lemma extract_features_case (imgs : list arr) name pooling :
  extract_features imgs (lower name) pooling = extract_features imgs name pooling.
Proof. unfold extract_features. by rewrite lower_idemp. Qed.
End feature_props.

(** ** Witness *)

(** An image: a mode, a size and its pixels. *)
Record grid := Grid { g_mode : string; g_size : Z * Z; g_at : Z -> Z -> Z }.

#[export] Instance grid_pil : Pil grid Z grid := {
  Image_open := fun _ => Ret (Grid "L" (1, 1) (fun _ _ => 0));
  convert := fun m i => Ret (Grid m (g_size i) (g_at i));
  size := g_size; mode := g_mode; getpixel := g_at; ink := fun _ c => c;
  Image_new := fun m wh c => Grid m wh (fun _ _ => c);
  paste := fun a b o => Grid (g_mode a) (g_size a) (fun x y =>
    if (o.1 <=? x) && (x <? o.1 + (g_size b).1) && (o.2 <=? y) && (y <? o.2 + (g_size b).2)
    then g_at b (x - o.1) (y - o.2) else g_at a x y);
  resize := fun wh i => Grid (g_mode i) wh (g_at i);
  np_array := fun i => i
}.

#[export] Instance grid_laws : PilLaws grid Z grid.
Proof. by split. Qed.

Definition wide : grid := Grid "L" (4, 1) (fun x y => 10 + x).

Lemma expand2square_pads_witness :
  size (expand2square wide 7) = (4, 4) /\
  getpixel (expand2square wide 7) 2 1 = 12 /\ getpixel (expand2square wide 7) 2 2 = 7.
Proof.
  destruct (expand2square_pads wide 7) as [Hs Hp]; [done|done|]. split; [exact Hs|].
  split; [rewrite Hp by (cbn; lia); reflexivity|rewrite Hp by (cbn; lia); reflexivity].
Defined.
