(* ===== verification/Setup.v ===== *)
(** * SPTAG/setup.py

    The distutils script: the arguments of the wheel, the package directory it
    makes from the build output, the NuGet specifications, and the [build],
    [develop] and [clean] commands. setuptools' own commands are parameters;
    paths are read as on POSIX, where a backslash is an ordinary character. *)

From Stdlib Require Import Ascii.
From S2P Require Import Prelude PyStr PyBytes PyIO.

Open Scope string_scope.
Open Scope Z_scope.

(** [if 'bdist_wheel' in sys.argv: ...]. *)
Definition python_tag_argv (major minor : Z) (argv : list string) : list string :=
  if bool_decide ("bdist_wheel" ∈ argv) then
    if negb (existsb (startswith "--python-tag") argv) then
      (argv ++ ["--python-tag"; ("py" ++ str_of_Z major ++ str_of_Z minor)%string])%list
    else argv
  else argv.

(** A string that is missing or empty is false. *)
Definition truthy (o : option string) : bool := match o with Some s => nonempty s | None => false end.

(** [%s] of a value of the environment. *)
Definition percent_s (o : option string) : string := default "None" o.

(** The XML below is written with single quotes for its double quotes. *)
Fixpoint dquotes (s : string) : string :=
  match s with
  | "" => ""
  | String c s' => String (if Ascii.eqb c "'" then DQ else c) (dquotes s')
  end.
Definition xml (ls : list string) : string := dquotes (unlines ls).

Definition description_line : string :=
  "    <description>SPTAG (Space Partition Tree And Graph) is a library for large scale vector approximate nearest neighbor search scenario released by Microsoft Research (MSR) and Microsoft Bing.</description>".

(** The two specifications up to the copyright line, which they share but for the id. *)
Definition nuspec_head (id version : string) : list string :=
  ["<?xml version='1.0' encoding='utf-8'?>";
   "<package xmlns='http://schemas.microsoft.com/packaging/2011/08/nuspec.xsd'>";
   "  <metadata>";
   "    <id>" ++ id ++ "</id>";
   "    <version>" ++ version ++ "</version>";
   "    <title>" ++ id ++ "</title>";
   "    <authors>cheqi,haidwa,mingqli</authors>";
   "    <owners>cheqi,haidwa,mingqli</owners>";
   "    <requireLicenseAcceptance>false</requireLicenseAcceptance>";
   "    <licenseUrl>https://github.com/microsoft/SPTAG</licenseUrl>";
   "    <projectUrl>https://github.com/microsoft/SPTAG</projectUrl>";
   description_line;
   "    <copyright>Copyright @ Microsoft</copyright>"].

Definition nuspec (nuget_release : option string) (sfiles : string) : string :=
  xml (nuspec_head "MSSPTAG.Managed.Library" (percent_s nuget_release)) ++
  xml ["  </metadata>"; "  <files>"] ++ sfiles ++ newline ++ xml ["  </files>"; "</package>"].

Definition winrt_nuspec (nuget_release : option string) : string :=
  xml (nuspec_head "MSSPTAG.WinRT" (percent_s nuget_release)) ++
  xml ["    <dependencies>";
       "      <group targetFramework='uap10.0'>";
       "        <dependency id='Zstandard.dyn.x64' version='1.4.0' />";
       "      </group>";
       "      <group targetFramework='native'>";
       "        <dependency id='Zstandard.dyn.x64' version='1.4.0' />";
       "      </group>";
       "    </dependencies>";
       "  </metadata>";
       "  <files>";
       "    <file src='Wrappers\WinRT\SPTAG.WinRT.targets' target='build\native' />";
       "    <file src='x64\Release\SPTAG.WinRT\SPTAG.winmd' target='lib\uap10.0' />";
       "    <file src='x64\Release\SPTAG.WinRT\SPTAG.dll' target='runtimes\win10-x64\native' />";
       "    <file src='readme.md' />";
       "    <file src='LICENSE' />";
       "  </files>";
       "</package>"].

Definition file_element (src target : string) : string :=
  dquotes ("<file src='" ++ src ++ "' target='" ++ target ++ "' />").

(** [glob.glob] of the managed library: the pattern has two backslashes and
    names an entry of the current directory. *)
Definition managed_glob (w : world) : list string :=
  filter (fun p => startswith "x64\\Release\\Microsoft.ANN.SPTAGManaged." p && negb (contains "/" p) = true)
    ((map_to_list (fs w)).*1 ++ elements (dirs w))%list.

Definition make_dir_if_absent (d : string) : py world unit :=
  found ← os_path_exists d; when (negb found) (os_mkdir d).

Definition if_exists (p : string) (s : string) : py world string :=
  found ← os_path_exists p; mret (if found : bool then s else "").

Definition framework_files (framework : string) : py world string :=
  let dll := "lib\" ++ framework ++ "\Microsoft.ANN.SPTAGManaged.dll" in
  let pdb := "lib\" ++ framework ++ "\Microsoft.ANN.SPTAGManaged.pdb" in
  if_exists dll (file_element dll dll ++ file_element pdb pdb).

(** [open(p, 'w').write(s)]. *)
Definition write_whole (p s : string) : py world unit := create_file p;; write_text p s.

(** The branch for a Visual Studio build. *)
Definition windows_packages (nuget_release : option string) : py world unit :=
  copytree (path_join "x64" "Release") "sptag";;
  make_dir_if_absent "lib";;
  make_dir_if_absent "lib\net472";;
  w ← get_state;
  for_each (managed_glob w) (fun file => print file;; shutil_copy file "lib\net472\");;
  s1 ← framework_files "net5.0";
  s2 ← framework_files "net472";
  s3 ← if_exists "x64\Release\libzstd.dll" (file_element "x64\Release\libzstd.dll" "runtimes\win-x64\native\libzstd.dll");
  s4 ← if_exists "x64\Release\Ijwhost.dll" (file_element "x64\Release\Ijwhost.dll" "runtimes\win-x64\native\Ijwhost.dll");
  let sfiles := s1 ++ s2 ++ s3 ++ s4 ++ file_element "SPTAG.targets" "build\MSSPTAG.Managed.Library.targets" in
  write_whole "sptag.nuspec" (nuspec nuget_release sfiles);;
  write_whole "sptag.winrt.nuspec" (winrt_nuspec nuget_release).

Definition find_python_packages (nuget_release : option string) : py world (list string) :=
  found ← os_path_exists "sptag";
  when found (rmtree "sptag");;
  release_dir ← os_path_exists "Release";
  (if release_dir : bool then copytree "Release" "sptag"
   else
     x64 ← os_path_exists (path_join "x64" "Release");
     when x64 (windows_packages nuget_release));;
  create_file (path_join "sptag" "__init__.py");;
  mret ["sptag"].

(** The keywords of [setuptools.setup]. *)
Record metadata := Metadata {
  name : string; version : string; long_description : string; license : string; packages : list string;
  python_requires : string; install_requires : list string; cmdclass : list string
}.

Definition setup_metadata (release nuget_release : option string) : py world metadata :=
  readme ← read_file "README.md";
  ps ← find_python_packages nuget_release;
  mret (Metadata "sptag" (if truthy release then default "" release else "0.0.0.dev") (text_of Py3 readme) "MIT" ps
          ">=3.6" ["numpy"] ["build"; "clean"; "develop"]).

Section commands.
(** [super().run()] of each command. *)
Context (setup : metadata -> py world unit) (build_run develop_run : py world unit) (clean_run : bool -> py world unit).

Definition setup_main (release nuget_release : option string) : py world unit :=
  m ← setup_metadata release nuget_release; setup m.

Definition Build_run (release : option string) : py world unit :=
  if negb (truthy release) then raise SystemExit
  else write_whole "sptag/version.py" ("__version__ = '" ++ default "" release ++ "'");; build_run.

Definition Develop_run : py world unit :=
  write_whole "sptag/version.py" "__version__ = '0.0.0.dev'";; develop_run.

(** A [clean] command: its option [all] and what was asked for. *)
Record clean_cmd := CleanCmd { c_all : bool; c_asked : bool }.

Definition Clean_finalize_options (c : clean_cmd) : clean_cmd := CleanCmd true (c_all c).

Definition Clean_run (c : clean_cmd) : py world unit :=
  clean_run (c_all c);;
  rmtree_ignore "sptag.egg-info";;
  when (c_asked c) (rmtree_ignore "dist").
End commands.

(** ** Theorems *)

(** A directory tree: what is inside a directory has it there. *)
Definition tree_ok (w : world) : Prop :=
  (forall d r b, fs w !! (d ++ "/" ++ r) = Some b -> d ∈ dirs w) /\
  forall d r, d ++ "/" ++ r ∈ dirs w -> d ∈ dirs w.

(** The removal that comes first: [sptag] and what is below it are gone. *)
Definition remove_sptag : py world unit := found ← os_path_exists "sptag"; when found (rmtree "sptag").

Lemma remove_package w :
  tree_ok w -> fs w !! "sptag" = None ->
  exists w', remove_sptag w = (Ret tt, w') /\
    path_exists w' "sptag" = false /\ (forall r, fs w' !! ("sptag/" ++ r) = None) /\
    (forall q, under "sptag" q = false -> fs w' !! q = fs w !! q) /\
    (forall q, under "sptag" q = false -> q <> "sptag" -> q ∈ dirs w' <-> q ∈ dirs w) /\
    (forall r, "sptag/" ++ r ∉ dirs w').
Proof.
  intros [Hok1 Hok2] Hf. unfold remove_sptag, os_path_exists at 1. erewrite bind_ret by reflexivity.
  destruct (decide ("sptag" ∈ dirs w)) as [Hd|Hd].
  - rewrite path_exists_dir by done. destruct (rmtree_spec "sptag" w Hd) as (w' & Hr & Hnd & Hfree & Hfs & Hdirs & Hsub).
    exists w'. split; [done|]. split; [|split; [exact Hfree|split; [exact Hfs|split; [exact Hdirs|exact Hsub]]]].
    apply path_exists_absent; [|done]. by rewrite Hfs.
  - rewrite path_exists_absent by done. exists w. split; [done|]. split; [by apply path_exists_absent|]. split_and!; [|done|done|].
    + intros r. apply eq_None_not_Some. intros [b Hb]. by apply Hd, (Hok1 "sptag" r b).
    + intros r Hr. by apply Hd, (Hok2 "sptag" r).
Qed.

Lemma find_packages_split nuget w w1 :
  remove_sptag w = (Ret tt, w1) ->
  find_python_packages nuget w =
    ((if path_exists w1 "Release" then copytree "Release" "sptag"
      else when (path_exists w1 "x64/Release") (windows_packages nuget));;
     create_file "sptag/__init__.py";; mret ["sptag"]) w1.
Proof.
  unfold remove_sptag, find_python_packages, os_path_exists, mbind, py_bind. intros H. rewrite H.
  change (path_join "x64" "Release") with "x64/Release". by destruct (path_exists w1 "Release").
Qed.

(** C18: after a build into [Release], packaging leaves in [sptag] exactly the
    files of [Release], with an empty [__init__.py]: nothing of an earlier
    package survives, and no file outside [sptag] changes. *)
Theorem packages_from_release nuget w :
  tree_ok w -> fs w !! "sptag" = None -> "Release" ∈ dirs w -> "Release/__init__.py" ∉ dirs w ->
  exists w', find_python_packages nuget w = (Ret ["sptag"], w') /\
    (forall r, fs w' !! ("sptag/" ++ r) = if decide (r = "__init__.py") then Some [] else fs w !! ("Release/" ++ r)) /\
    (forall q, under "sptag" q = false -> fs w' !! q = fs w !! q).
Proof.
  intros Hok Hf Hrel Hinit. destruct (remove_package w Hok Hf) as (w1 & H1 & Hno & Hfree & Hfs & Hdirs & Hsub).
  assert ("Release" ∈ dirs w1) as Hrel1 by by apply Hdirs.
  destruct (copytree_spec "Release" "sptag" w1 Hrel1 Hno Hfree) as (w2 & H2 & Hd2 & Hc2 & Hfs2 & Hdirs2 & Hsub2).
  exists (put_file "sptag/__init__.py" [] w2). split; [|split].
  - rewrite (find_packages_split _ _ _ H1). rewrite (path_exists_dir _ _ Hrel1).
    rewrite (bind_ret _ _ _ _ _ H2). erewrite bind_ret; [reflexivity|]. apply create_file_ok.
    unfold can_create. change (dirname _) with "sptag". rewrite (bool_decide_true _ Hd2). cbn [nonempty negb orb andb].
    rewrite bool_decide_false; [done|]. intros [Hi|[Hi|Hi]]%(Hsub2 "__init__.py"); [|by apply (Hsub "__init__.py")|done].
    by apply Hdirs in Hi.
  - intros r. rewrite fs_put. destruct (decide (r = "__init__.py")) as [->|Hne]; [done|].
    rewrite decide_False by (intros E; injection E as E; by subst r). transitivity (fs w1 !! ("Release" ++ "/" ++ r)); [exact (Hc2 r)|by apply Hfs].
  - intros q Hq. rewrite fs_put, decide_False by by intros <-. rewrite Hfs2, Hfs by done. done.
Qed.

(** Without a build output packaging fails: when neither [Release] nor
    [x64/Release] exists, an earlier [sptag] package is deleted and the script
    stops with FileNotFoundError, since the directory of [__init__.py] is gone. *)
Theorem packages_without_build nuget w :
  tree_ok w -> fs w !! "sptag" = None -> path_exists w "Release" = false -> path_exists w "x64/Release" = false ->
  exists w', find_python_packages nuget w = (Raise FileNotFoundError, w') /\
    path_exists w' "sptag" = false /\ forall r, fs w' !! ("sptag/" ++ r) = None.
Proof.
  intros Hok Hf Hrel Hx. destruct (remove_package w Hok Hf) as (w1 & H1 & Hno & Hfree & Hfs & Hdirs & Hsub).
  assert (forall p, under "sptag" p = false -> p <> "sptag" -> path_exists w1 p = path_exists w p) as Hsame.
  { intros p Hu Hne. unfold path_exists, isfile. rewrite Hfs by done. f_equal. by apply bool_decide_ext, Hdirs. }
  exists w1. split; [|done]. rewrite (find_packages_split _ _ _ H1), !Hsame, Hrel, Hx by done. cbn [when].
  erewrite bind_ret by reflexivity. apply bind_raise. unfold create_file.
  assert (can_create w1 "sptag/__init__.py" = false) as ->; [|done].
  unfold can_create. change (dirname _) with "sptag". rewrite bool_decide_false; [done|].
  intros Hd. by rewrite path_exists_dir in Hno.
Qed.

(** The options of a wheel: a Python tag is added when there is none, once. *)
Lemma python_tag_argv_ok major minor argv :
  "bdist_wheel" ∈ argv ->
  existsb (startswith "--python-tag") (python_tag_argv major minor argv) = true /\
  python_tag_argv major minor (python_tag_argv major minor argv) = python_tag_argv major minor argv.
Proof.
  intros Hin.
  assert (existsb (startswith "--python-tag") (python_tag_argv major minor argv) = true) as Ht.
  { unfold python_tag_argv. rewrite bool_decide_true by done. destruct (existsb _ argv) eqn:E; [done|]. cbn [negb].
    rewrite existsb_app. by rewrite orb_true_r. }
  split; [done|]. unfold python_tag_argv at 1. by destruct (bool_decide _); rewrite ?Ht.
Qed.

(** ** Witnesses *)

(** The directories a path names. *)
Fixpoint parents (p : string) : list string :=
  match p with
  | "" => []
  | String c s => ((if Ascii.eqb c "/" then [""] else []) ++ (String c <$> parents s))%list
  end.

Lemma parents_spec d r : d ∈ parents (d ++ "/" ++ r).
Proof.
  induction d as [|c d IH].
  - cbn. by left.
  - change (String c d ++ "/" ++ r) with (String c (d ++ "/" ++ r)). cbn [parents]. apply elem_of_app. right.
    by apply list_elem_of_fmap_2.
Qed.

Definition tree_okb (w : world) : bool :=
  forallb (fun p => forallb (fun d => bool_decide (d ∈ dirs w)) (parents p)) ((map_to_list (fs w)).*1 ++ elements (dirs w))%list.

Lemma tree_okb_spec w : tree_okb w = true -> tree_ok w.
Proof.
  unfold tree_okb. rewrite forallb_forall. intros H.
  assert (forall p d r, p ∈ ((map_to_list (fs w)).*1 ++ elements (dirs w))%list -> p = d ++ "/" ++ r -> d ∈ dirs w) as Hp.
  { intros p d r Hin%list_elem_of_In ->. apply H in Hin. rewrite forallb_forall in Hin.
    apply (bool_decide_eq_true_1 (d ∈ dirs w)), Hin, list_elem_of_In, parents_spec. }
  split.
  - intros d r b Hb. eapply Hp; [|reflexivity]. apply elem_of_app. left. apply list_elem_of_fmap.
    exists (d ++ "/" ++ r, b). split; [done|]. by apply elem_of_map_to_list.
  - intros d r Hd. eapply Hp; [|reflexivity]. apply elem_of_app. right. by apply elem_of_elements.
Qed.

Definition build_world : world :=
  World {[ "README.md" := bytes_of_str "SPTAG"; "Release/SPTAG.py" := bytes_of_str "new"; "sptag/old.py" := bytes_of_str "old" ]}
        {["Release"; "sptag"]} [].

Lemma packages_from_release_witness :
  exists w', find_python_packages None build_world = (Ret ["sptag"], w') /\
    fs w' !! "sptag/SPTAG.py" = Some (bytes_of_str "new") /\ fs w' !! "sptag/old.py" = None /\
    fs w' !! "sptag/__init__.py" = Some [].
Proof.
  destruct (packages_from_release None build_world) as (w' & Hr & Hin & _).
  - apply tree_okb_spec. vm_compute. reflexivity.
  - vm_compute. reflexivity.
  - apply (bool_decide_eq_true_1 _). vm_compute. reflexivity.
  - apply (bool_decide_eq_false_1 _). vm_compute. reflexivity.
  - exists w'. split; [exact Hr|]. split; [exact (Hin "SPTAG.py")|]. split; [exact (Hin "old.py")|exact (Hin "__init__.py")].
Defined.

Definition source_world : world :=
  World {[ "README.md" := bytes_of_str "SPTAG"; "sptag/old.py" := bytes_of_str "old" ]} {["sptag"]} [].

Lemma packages_without_build_witness :
  exists w', find_python_packages None source_world = (Raise FileNotFoundError, w') /\ fs w' !! "sptag/old.py" = None.
Proof.
  destruct (packages_without_build None source_world) as (w' & Hr & _ & Hgone).
  - apply tree_okb_spec. vm_compute. reflexivity.
  - vm_compute. reflexivity.
  - vm_compute. reflexivity.
  - vm_compute. reflexivity.
  - exists w'. split; [exact Hr|exact (Hgone "old.py")].
Defined.
