(* ===== verification/GetPip.v ===== *)
(** * SPTAG/get-pip.py

    The bootstrap script: the version check, the arguments it hands to pip, the
    certificate it installs, and the temporary directory it unpacks its archive
    into. The archive (the [DATA] literal) and pip itself are parameters, as
    are the environment and the modules that are installed. [b85decode] is the
    function of the standard library's base64. Imports from the unpacked archive
    are taken to succeed, and [rmtree] to succeed on a directory that is there;
    [ignore_errors] then covers a directory that is gone. *)

From Stdlib Require Import Ascii Lia ZifyBool.
From S2P Require Import Prelude PyStr PyBytes PyIO.

Open Scope string_scope.
Open Scope Z_scope.

(** Tuples of two integers are ordered lexicographically. *)
Definition version_lt (a b : Z * Z) : bool := (a.1 <? b.1) || ((a.1 =? b.1) && (a.2 <? b.2)).
Definition min_version : Z * Z := (3, 8).

Definition dotted (v : Z * Z) : string := str_of_Z v.1 ++ "." ++ str_of_Z v.2.

(** The check at the top of the script. *)
Definition version_check (this_python : Z * Z) : py world unit :=
  when (version_lt this_python min_version)
    (print ("ERROR: This script does not work on Python " ++ dotted this_python ++
            ". The minimum supported Python version is " ++ dotted min_version ++
            ". Please use https://bootstrap.pypa.io/pip/" ++ dotted this_python ++ "/get-pip.py instead.");;
     raise SystemExit).

(** ** base64.b85decode *)

Definition b85alphabet : string :=
  "0123456789ABCDEFGHIJKLMNOPQRSTUVWXYZabcdefghijklmnopqrstuvwxyz!#$%&()*+-;<=>?@^_`{|}~".

Fixpoint index_from (n : Z) (c : byte) (l : list byte) : option Z :=
  match l with
  | [] => None
  | d :: l' => if bool_decide (c = d) then Some n else index_from (n + 1) c l'
  end.
Definition b85digit (c : byte) : option Z := index_from 0 c (bytes_of_str b85alphabet).

(** Five digits as a big-endian 32-bit word. *)
Definition b85word (ds : list Z) : outcome (list byte) :=
  let acc := foldl (fun a d => a * 85 + d) 0 ds in
  if acc <? 2 ^ 32 then Ret (reverse (le_bytes 4 acc)) else Raise ValueError.

Fixpoint b85words (ds : list Z) : outcome (list byte) :=
  match ds with
  | a :: b :: c :: d :: e :: ds' => w ← b85word [a; b; c; d; e]; r ← b85words ds'; Ret (w ++ r)%list
  | _ => Ret []
  end.

Definition b85decode (b : list byte) : outcome (list byte) :=
  let padding := ((5 - length b mod 5) mod 5)%nat in
  ds ← mapM_out (fun c => match b85digit c with Some d => Ret d | None => Raise ValueError end)
         (b ++ replicate padding (byte_of_Z 126))%list;
  r ← b85words ds;
  Ret (take (length r - padding) r).

(** [DATA.replace(b"\n", b"")]. *)
Definition drop_newlines (b : list byte) : list byte := filter (fun c => c <> byte_of_Z 10) b.

(** ** argparse: two flags and the help of the pre-parser *)

Definition pre_options : list string := ["-h"; "--help"; "--no-setuptools"; "--no-wheel"].

Inductive token : Set := NoSetuptools | NoWheel | Exits | Extra.
#[global] Instance token_eq_dec : EqDecision token.
Proof. solve_decision. Defined.

Definition option_token (o : string) : token :=
  if bool_decide (o = "--no-setuptools") then NoSetuptools
  else if bool_decide (o = "--no-wheel") then NoWheel else Exits.

Fixpoint before_eq (s : string) : string :=
  match s with
  | "" => ""
  | String c s' => if Ascii.eqb c "=" then "" else String c (before_eq s')
  end.

(** What an argument before [--] is. A flag given a value, an abbreviation of
    several options and the help end the script. *)
Definition classify (a : string) : token :=
  if negb (startswith "-" a) || bool_decide (a = "-") then Extra
  else if bool_decide (a ∈ pre_options) then option_token a
  else if contains "=" a && bool_decide (before_eq a ∈ pre_options) then Exits
  else if startswith "--" a then
    match filter (fun o => startswith (before_eq a) o = true) pre_options with
    | [] => Extra
    | [o] => if contains "=" a then Exits else option_token o
    | _ => Exits
    end
  else if bool_decide (str_take 2 a ∈ pre_options) then Exits
  else Extra.

Record pre_args := PreArgs { no_setuptools : bool; no_wheel : bool }.

(** [pre_parser.parse_known_args()]. *)
Fixpoint parse_known_args (args : list string) : outcome (pre_args * list string) :=
  match args with
  | [] => Ret (PreArgs false false, [])
  | a :: rest =>
      if bool_decide (a = "--") then Ret (PreArgs false false, args)
      else
        r ← parse_known_args rest;
        let '(pre, extras) := r in
        match classify a with
        | NoSetuptools => Ret (PreArgs true (no_wheel pre), extras)
        | NoWheel => Ret (PreArgs (no_setuptools pre) true, extras)
        | Exits => Raise SystemExit
        | Extra => Ret (pre, a :: extras)
        end
  end.

Section bootstrap.
Context (this_python : Z * Z) (environ : string -> option string) (find_spec : string -> bool) (argv : list string).

(** A variable that is missing or empty is false. *)
Definition env_set (k : string) : bool := match environ k with Some s => nonempty s | None => false end.

Definition include_setuptools (args : pre_args) : bool :=
  let cli := negb (no_setuptools args) in
  let env := negb (env_set "PIP_NO_SETUPTOOLS") in
  let absent := negb (find_spec "setuptools") in
  let python_lt_3_12 := version_lt this_python (3, 12) in
  cli && env && absent && python_lt_3_12.

Definition include_wheel (args : pre_args) : bool :=
  let cli := negb (no_wheel args) in
  let env := negb (env_set "PIP_NO_WHEEL") in
  let absent := negb (find_spec "wheel") in
  let python_lt_3_12 := version_lt this_python (3, 12) in
  cli && env && absent && python_lt_3_12.

Definition determine_pip_install_arguments : outcome (list string) :=
  r ← parse_known_args argv;
  let '(pre, args) := r in
  let args := (args ++ ["pip<25.1"])%list in
  let args := if include_setuptools pre then (args ++ ["setuptools"])%list else args in
  let args := if include_wheel pre then (args ++ ["wheel"])%list else args in
  Ret (["install"; "--upgrade"; "--force-reinstall"] ++ args)%list.

(** The interpreter: the file system, [sys.path] and the certificate that
    [InstallCommand.parse_args] is patched with. *)
Record interp := Interp { i_world : world; sys_path : list string; patched_cert : option string }.

Definition on_world {A} (m : py world A) : py interp A := fun s =>
  let '(r, w) := m (i_world s) in (r, Interp w (sys_path s) (patched_cert s)).

(** The parser of [pip install]: the default of its option [--cert]. *)
Record pip_parser := PipParser { default_cert : option string }.

Definition cert_parse_args {A} (install_parse_args : pip_parser -> list string -> A) (cert_path : string)
    (self : pip_parser) (args : list string) : A :=
  let self := match default_cert self with
              | Some c => if nonempty c then self else PipParser (Some cert_path)
              | None => PipParser (Some cert_path)
              end in
  install_parse_args self args.

Context (DATA cacert : list byte).
(** [tempfile.mkdtemp()]: the name it picks, if it can make a directory. *)
Context (mkdtemp_name : world -> outcome string).
(** pip's entry point: it runs with the patch in place. *)
Context (pip_entry_point : list string -> py interp Z).

Definition mkdtemp : py world string := fun w =>
  match mkdtemp_name w with
  | Ret d => (Ret d, World (fs w) ({[d]} ∪ dirs w) (stdout w))
  | Raise e => (Raise e, w)
  | OutOfFuel => (OutOfFuel, w)
  end.

Definition monkeypatch_for_cert (tmpdir : string) : py interp unit :=
  let cert_path := path_join tmpdir "cacert.pem" in
  on_world (create_file cert_path);;
  on_world (append_file cert_path cacert);;
  modify (fun s => Interp (i_world s) (sys_path s) (Some cert_path)).

Definition bootstrap (tmpdir : string) : py interp unit :=
  monkeypatch_for_cert tmpdir;;
  args ← lift determine_pip_install_arguments;
  pip_entry_point args;;
  raise SystemExit.

(** The body of the [try] once there is a directory. *)
Definition unpack_and_run (tmpdir : string) : py interp unit :=
  let pip_zip := path_join tmpdir "pip.zip" in
  on_world (create_file pip_zip);;
  archive ← lift (b85decode (drop_newlines DATA));
  on_world (append_file pip_zip archive);;
  modify (fun s => Interp (i_world s) (pip_zip :: sys_path s) (patched_cert s));;
  bootstrap tmpdir.

(** [main]: a [mkdtemp] that raises leaves [tmpdir] unset. *)
Definition main : py interp unit :=
  tmpdir ← on_world mkdtemp;
  try_finally (unpack_and_run tmpdir)
    (when (nonempty tmpdir) (on_world (rmtree_ignore tmpdir))).
End bootstrap.

(** ** base85: the encoding the archive was made with *)

(** The five digits of a word. *)
Definition digits5 (v : Z) : list Z :=
  let q1 := v / 85 in let q2 := q1 / 85 in let q3 := q2 / 85 in let q4 := q3 / 85 in
  [q4; q3 mod 85; q2 mod 85; q1 mod 85; v mod 85].

Definition b85char (d : Z) : byte := nth (Z.to_nat d) (bytes_of_str b85alphabet) Byte.x00.

(** The word of one to four bytes, zeros after them. *)
Definition chunk_word (l : list byte) : Z := bits (4 - length l) * le_Z (reverse l).
Definition chunk_digits (l : list byte) : list Z := take (S (length l)) (digits5 (chunk_word l)).

Fixpoint chunks4 (b : list byte) : list (list byte) :=
  match b with
  | a :: b :: c :: d :: rest => [a; b; c; d] :: chunks4 rest
  | [] => []
  | l => [l]
  end.

(** [base64.b85encode]. *)
Definition b85encode (b : list byte) : list byte := b85char <$> mjoin (chunk_digits <$> chunks4 b).

Lemma b85digit_char d : 0 <= d < 85 -> b85digit (b85char d) = Some d.
Proof.
  assert (Forall (fun d => b85digit (b85char d) = Some d) (py_range 0 85)) as HF.
  { apply Forall_forall. intros x Hx.
    assert (forallb (fun d => bool_decide (b85digit (b85char d) = Some d)) (py_range 0 85) = true) as Hb by (vm_compute; reflexivity).
    rewrite forallb_forall in Hb. apply list_elem_of_In in Hx. by apply (bool_decide_eq_true_1 _), Hb. }
  intros Hd. rewrite Forall_forall in HF. by apply HF, elem_of_py_range.
Qed.

Lemma digits5_range v : 0 <= v < 2 ^ 32 -> Forall (fun d => 0 <= d < 85) (digits5 v).
Proof.
  intros Hv. unfold digits5. cbv zeta. repeat constructor; Z.to_euclidean_division_equations; lia.
Qed.

(** The digits after the first [5 - j], read as the highest digit. *)
Definition padded_digits (j : nat) (v : Z) : list Z := (take (5 - j) (digits5 v) ++ replicate j 84)%list.

Lemma padded_value j v :
  (j <= 3)%nat -> 0 <= v ->
  v <= foldl (fun a d => a * 85 + d) 0 (padded_digits j v) < v + 85 ^ Z.of_nat j.
Proof.
  intros Hj Hv. unfold padded_digits, digits5. cbv zeta.
  destruct j as [|[|[|[|j]]]]; [..|lia]; cbn [Nat.sub take replicate app foldl Z.of_nat];
    Z.to_euclidean_division_equations; lia.
Qed.

Lemma le_bytes_split j k z : le_bytes (j + k) z = (le_bytes j z ++ le_bytes k (z / bits j))%list.
Proof.
  revert z. induction j as [|j IH]; intros z; cbn [Nat.add le_bytes app].
  - change (bits 0) with 1. by rewrite Z.div_1_r.
  - rewrite IH, bits_S. do 2 f_equal. f_equal. rewrite Z.div_div by (pose proof (bits_pos j); lia). done.
Qed.

Lemma chunk_word_bound l : (length l <= 4)%nat -> 0 <= chunk_word l <= bits 4 - bits (4 - length l).
Proof.
  intros Hl. unfold chunk_word. pose proof (le_Z_bound (reverse l)) as Hb. rewrite length_reverse in Hb.
  assert (bits 4 = bits (4 - length l) * bits (length l)) as ->.
  { unfold bits. rewrite <- Z.pow_add_r by lia. f_equal. lia. }
  pose proof (bits_pos (4 - length l)). nia.
Qed.

(** A chunk is decoded to its bytes and as many others as digits were missing. *)
Lemma b85word_chunk l :
  (0 < length l <= 4)%nat ->
  exists extra, b85word (padded_digits (4 - length l) (chunk_word l)) = Ret (l ++ extra)%list /\
    length extra = (4 - length l)%nat.
Proof.
  intros Hl. set (j := (4 - length l)%nat). set (v := chunk_word l).
  pose proof (chunk_word_bound l ltac:(lia)) as Hv. fold v j in Hv.
  pose proof (padded_value j v ltac:(lia) ltac:(lia)) as Hp. unfold b85word.
  set (acc := foldl _ 0 (padded_digits j v)) in *.
  assert (85 ^ Z.of_nat j <= bits j) as Hj.
  { unfold bits. rewrite Z.pow_mul_r by lia. apply Z.pow_le_mono_l. lia. }
  assert (bits 4 = 2 ^ 32) as H4 by done. rewrite (proj2 (Z.ltb_lt _ _)) by lia.
  exists (reverse (le_bytes j acc)). split; [|by rewrite length_reverse, length_le_bytes].
  assert (acc / bits j = le_Z (reverse l)) as Hq.
  { symmetry. apply (Z.div_unique_pos _ _ _ (acc - v)); [lia|]. unfold v, chunk_word. fold j. lia. }
  replace 4%nat with (j + length l)%nat by lia. rewrite le_bytes_split, Hq.
  pose proof (le_bytes_le_Z (reverse l)) as E. rewrite length_reverse in E. by rewrite E, reverse_app, reverse_involutive.
Qed.

Lemma chunks4_cons l rest : length l = 4%nat -> chunks4 (l ++ rest)%list = l :: chunks4 rest.
Proof. destruct l as [|a [|b [|c [|d [|e l]]]]]; done. Qed.

Lemma chunks4_last l : (0 < length l < 4)%nat -> chunks4 l = [l].
Proof. destruct l as [|a [|b [|c [|d l]]]]; cbn; [lia|done..|lia]. Qed.

Lemma chunk_ind (P : list byte -> Prop) :
  P [] -> (forall l, (0 < length l < 4)%nat -> P l) ->
  (forall l rest, length l = 4%nat -> P rest -> P (l ++ rest)%list) -> forall b, P b.
Proof.
  intros H0 Hlast Hstep b. remember (length b) as n eqn:Hn. revert b Hn.
  induction n as [n IH] using lt_wf_ind. intros b ->. destruct (decide (length b < 4)%nat) as [Hlt|Hge].
  - destruct b as [|x b]; [done|]. apply Hlast. cbn [length] in *. lia.
  - rewrite <- (take_drop 4 b). apply Hstep; [rewrite length_take; lia|].
    eapply IH; [|reflexivity]. rewrite length_drop. lia.
Qed.

(** The digits [b85decode] sees: the missing ones are [~]. *)
Definition all_digits (b : list byte) : list Z :=
  mjoin ((fun l : list byte => padded_digits (4 - length l) (chunk_word l)) <$> chunks4 b).
Definition missing (b : list byte) : nat := ((4 - length b mod 4) mod 4)%nat.

Lemma missing_chunk l rest : length l = 4%nat -> missing (l ++ rest)%list = missing rest.
Proof.
  intros Hl. unfold missing. rewrite length_app, Hl. replace (4 + length rest)%nat with (length rest + 1 * 4)%nat by lia.
  by rewrite Nat.Div0.mod_add.
Qed.

Lemma missing_last l : (0 < length l < 4)%nat -> missing l = (4 - length l)%nat.
Proof. intros Hl. destruct l as [|a [|b [|c [|d l]]]]; cbn [length] in Hl; done || lia. Qed.

Lemma padded_full l : length l = 4%nat -> padded_digits (4 - length l) (chunk_word l) = chunk_digits l.
Proof. intros Hl. unfold padded_digits, chunk_digits. rewrite Hl. cbn [Nat.sub replicate]. by rewrite app_nil_r. Qed.

Lemma length_chunk_digits l : (length l <= 4)%nat -> length (chunk_digits l) = S (length l).
Proof. intros Hl. unfold chunk_digits. rewrite length_take. cbn [digits5 length]. cbv zeta. cbn [length]. lia. Qed.

Lemma b85words_five ds rest r w :
  length ds = 5%nat -> b85word ds = Ret w -> b85words rest = Ret r -> b85words (ds ++ rest)%list = Ret (w ++ r)%list.
Proof.
  intros Hl Hw Hr. destruct ds as [|a [|b [|c [|d [|e [|f ds]]]]]]; try (cbn in Hl; lia).
  cbn [app b85words]. rewrite Hw. cbn [mbind outcome_bind]. by rewrite Hr.
Qed.

Lemma length_padded j v : (j <= 4)%nat -> length (padded_digits j v) = 5%nat.
Proof. intros Hj. unfold padded_digits. rewrite length_app, length_take, length_replicate. cbn [digits5 length]. cbv zeta. cbn [length]. lia. Qed.

Lemma b85words_all b : exists extra, b85words (all_digits b) = Ret (b ++ extra)%list /\ length extra = missing b.
Proof.
  induction b as [|l Hl|l rest Hl IH] using chunk_ind.
  - by exists [].
  - destruct (b85word_chunk l ltac:(lia)) as (extra & Hw & He). exists extra. rewrite missing_last by done. split; [|done].
    unfold all_digits. rewrite chunks4_last by done. cbn [fmap list_fmap].
    change (mjoin [?x]) with (x ++ [])%list. erewrite b85words_five; [|by apply length_padded; lia|exact Hw|reflexivity]. by rewrite app_nil_r.
  - destruct IH as (extra & Hr & He). destruct (b85word_chunk l ltac:(lia)) as (extra' & Hw & He').
    assert (extra' = []) as -> by (apply nil_length_inv; lia). rewrite app_nil_r in Hw.
    exists extra. rewrite missing_chunk by done. split; [|done]. unfold all_digits. rewrite chunks4_cons by done.
    cbn [fmap list_fmap]. change (mjoin (?x :: ?xs)) with (x ++ mjoin xs)%list.
    erewrite b85words_five; [by rewrite app_assoc| |exact Hw|exact Hr]. apply length_padded. lia.
Qed.

Lemma all_digits_encode b :
  all_digits b = (mjoin (chunk_digits <$> chunks4 b) ++ replicate (missing b) 84)%list /\
  (length (mjoin (chunk_digits <$> chunks4 b)) mod 5 = (5 - missing b) mod 5)%nat /\
  Forall (fun d => 0 <= d < 85) (all_digits b).
Proof.
  assert (forall l, (0 < length l <= 4)%nat -> Forall (fun d => 0 <= d < 85) (padded_digits (4 - length l) (chunk_word l))) as Hr.
  { intros l Hl. unfold padded_digits. apply Forall_app. split; [|apply Forall_replicate; lia]. apply Forall_take, digits5_range.
    pose proof (chunk_word_bound l ltac:(lia)). pose proof (bits_pos (4 - length l)). change (2 ^ 32) with (bits 4). lia. }
  induction b as [|l Hl|l rest Hl IH] using chunk_ind.
  - done.
  - unfold all_digits. rewrite chunks4_last, missing_last by done. cbn [fmap list_fmap].
    change (mjoin [?x]) with (x ++ [])%list. rewrite !app_nil_r. split_and!; [|rewrite length_chunk_digits by lia; f_equal; lia|apply Hr; lia].
    unfold padded_digits, chunk_digits. f_equal. f_equal. lia.
  - destruct IH as (Ha & Hm & HF). unfold all_digits in *. rewrite chunks4_cons, missing_chunk by done. cbn [fmap list_fmap].
    change (mjoin (?x :: ?xs)) with (x ++ mjoin xs)%list. rewrite Ha. split_and!.
    + by rewrite padded_full, app_assoc.
    + rewrite length_app, length_chunk_digits by lia. rewrite Hl, <- Hm.
      replace (5 + length (mjoin (chunk_digits <$> chunks4 rest)))%nat with (length (mjoin (chunk_digits <$> chunks4 rest)) + 1 * 5)%nat by lia.
      by rewrite Nat.Div0.mod_add.
    + rewrite <- Ha. apply Forall_app. split; [apply Hr; lia|done].
Qed.

Lemma b85char_84 : b85char 84 = byte_of_Z 126.
Proof. vm_compute. reflexivity. Qed.

Lemma mapM_digits ds :
  Forall (fun d => 0 <= d < 85) ds ->
  mapM_out (fun c => match b85digit c with Some d => Ret d | None => Raise ValueError end) (b85char <$> ds) = Ret ds.
Proof.
  induction 1 as [|d ds Hd HF IH]; [done|]. cbn [fmap list_fmap mapM_out]. rewrite b85digit_char by done.
  cbn [mbind outcome_bind]. change (list_fmap Z byte b85char ds) with (b85char <$> ds); by rewrite IH.
Qed.

(** Decoding gives the archive, also when its length is no multiple of four. *)
Lemma b85decode_encode archive : b85decode (b85encode archive) = Ret archive.
Proof.
  unfold b85decode. destruct (all_digits_encode archive) as (Ha & Hm & HF).
  assert (((5 - length (b85encode archive) mod 5) mod 5)%nat = missing archive) as ->.
  { unfold b85encode. rewrite length_fmap, Hm. unfold missing.
    pose proof (Nat.mod_upper_bound (length archive) 4). set (m := (length archive mod 4)%nat) in *.
    destruct m as [|[|[|[|m]]]]; done || lia. }
  unfold b85encode. rewrite <- b85char_84, <- (fmap_replicate b85char), <- fmap_app.
  rewrite <- Ha, mapM_digits by done. cbn [mbind outcome_bind].
  destruct (b85words_all archive) as (extra & Hw & He). rewrite Hw. cbn [mbind outcome_bind]. f_equal.
  rewrite length_app, <- He. replace (length archive + length extra - length extra)%nat with (length archive) by lia.
  by apply take_app_length.
Qed.

Lemma b85char_not_newline d : 0 <= d < 85 -> b85char d <> byte_of_Z 10.
Proof.
  intros Hd E. pose proof (b85digit_char d Hd) as H. rewrite E in H.
  assert (b85digit (byte_of_Z 10) = None) as H0 by (vm_compute; reflexivity). congruence.
Qed.

Lemma b85encode_no_newline b : Forall (fun c => c <> byte_of_Z 10) (b85encode b).
Proof.
  destruct (all_digits_encode b) as (Ha & _ & HF). rewrite Ha in HF. apply Forall_app in HF as [HF _].
  unfold b85encode. apply Forall_fmap. eapply Forall_impl; [exact HF|]. intros d. apply b85char_not_newline.
Qed.

(** The literal [DATA]: a newline, then lines, each with its newline. *)
Definition data_literal (lines : list (list byte)) : list byte :=
  byte_of_Z 10 :: mjoin ((fun l : list byte => l ++ [byte_of_Z 10])%list <$> lines).

(** However the text of an archive is cut into lines, without its newlines it
    is the text. *)
Lemma drop_newlines_literal lines archive :
  mjoin lines = b85encode archive -> drop_newlines (data_literal lines) = b85encode archive.
Proof.
  intros E. pose proof (b85encode_no_newline archive) as HF. rewrite <- E in HF |- *. unfold drop_newlines, data_literal.
  rewrite filter_cons_False by (intros H; by apply H). clear E. induction lines as [|l ls IH]; [done|].
  cbn [fmap list_fmap] in *. change (mjoin (?x :: ?xs)) with (x ++ mjoin xs)%list in *. apply Forall_app in HF as [Hl HF].
  rewrite !filter_app, IH by done. rewrite filter_cons_False by (intros H; by apply H). rewrite filter_nil, app_nil_r. f_equal.
  clear -Hl. induction Hl as [|c l Hc Hl IH]; [done|]. by rewrite filter_cons_True, IH.
Qed.

(** ** Arguments *)

(** The words before the first [--]. *)
Fixpoint before_dashes (args : list string) : list string :=
  match args with
  | [] => []
  | a :: rest => if bool_decide (a = "--") then [] else a :: before_dashes rest
  end.

Fixpoint from_dashes (args : list string) : list string :=
  match args with
  | [] => []
  | a :: rest => if bool_decide (a = "--") then args else from_dashes rest
  end.

(** The parser as a filter: the flags some argument before [--] gives, and the
    other arguments in order. *)
Lemma parse_known_args_spec args :
  parse_known_args args =
    if bool_decide (Exits ∈ classify <$> before_dashes args) then Raise SystemExit
    else Ret (PreArgs (bool_decide (NoSetuptools ∈ classify <$> before_dashes args))
                      (bool_decide (NoWheel ∈ classify <$> before_dashes args)),
              (filter (fun a => classify a = Extra) (before_dashes args) ++ from_dashes args)%list).
Proof.
  induction args as [|a args IH]; [done|]. cbn [parse_known_args before_dashes from_dashes].
  destruct (bool_decide_reflect (a = "--")) as [->|Hne]; [done|].
  rewrite IH. clear IH. set (ts := classify <$> before_dashes args).
  change (classify <$> a :: before_dashes args) with (classify a :: ts).
  assert (forall t u : token, bool_decide (t ∈ u :: ts) = bool_decide (t = u) || bool_decide (t ∈ ts)) as Hcons.
  { intros t u. rewrite <- bool_decide_or. apply bool_decide_ext. set_solver. }
  rewrite !Hcons, filter_cons. destruct (bool_decide (Exits ∈ ts)); [by rewrite orb_true_r|]. cbn [mbind outcome_bind].
  destruct (classify a); cbn; done.
Qed.

(** What pip is asked to install. The script exits exactly when an argument
    before [--] asks for help or is a malformed or ambiguous flag. Otherwise pip
    gets the user's own arguments in order, without the two flags and with
    everything from [--] on, then pip itself, and setuptools and wheel each
    exactly when no argument and no environment variable excludes it, it is not
    installed, and Python is older than 3.12. *)
Theorem pip_install_arguments this_python environ find_spec argv :
  let tokens := classify <$> before_dashes argv in
  let wanted flag var pkg :=
    negb (bool_decide (flag ∈ tokens)) && negb (env_set environ var) && negb (find_spec pkg) && version_lt this_python (3, 12) in
  determine_pip_install_arguments this_python environ find_spec argv =
    if bool_decide (Exits ∈ tokens) then Raise SystemExit
    else Ret (["install"; "--upgrade"; "--force-reinstall"] ++
              (filter (fun a => classify a = Extra) (before_dashes argv) ++ from_dashes argv) ++ ["pip<25.1"] ++
              (if wanted NoSetuptools "PIP_NO_SETUPTOOLS" "setuptools" then ["setuptools"] else []) ++
              (if wanted NoWheel "PIP_NO_WHEEL" "wheel" then ["wheel"] else []))%list.
Proof.
  intros tokens wanted. unfold determine_pip_install_arguments. rewrite parse_known_args_spec. fold tokens.
  destruct (bool_decide (Exits ∈ tokens)); [done|]. cbn [mbind outcome_bind].
  unfold include_setuptools, include_wheel, wanted. cbn [no_setuptools no_wheel].
  do 2 match goal with |- context [if ?b then _ else _] => destruct b end; by rewrite <- ?app_assoc, ?app_nil_r.
Qed.

(** ** The temporary directory *)

(** Nothing is below a directory that is not there. *)
Definition dir_ok (d : string) (w : world) : Prop := forall r b, fs w !! (d ++ "/" ++ r) = Some b -> d ∈ dirs w.

(** A computation that takes states of [P] to states of [Q]. *)
Definition ends_in {S A} (P Q : S -> Prop) (m : py S A) : Prop := forall s, P s -> Q (m s).2.

Lemma ends_bind {S A B} (P Q : S -> Prop) (m : py S A) (k : A -> py S B) :
  (forall s, P s -> Q s) -> ends_in P P m -> (forall a, ends_in P Q (k a)) -> ends_in P Q (m ≫= k).
Proof.
  intros HPQ Hm Hk s Hs. unfold mbind, py_bind. specialize (Hm s Hs). destruct (m s) as [[a|e|] s'].
  - by apply Hk.
  - by apply HPQ.
  - by apply HPQ.
Qed.

Lemma ends_bind_last {S A B} (P Q : S -> Prop) (m : py S A) (k : A -> py S B) :
  ends_in P Q m -> (forall a, ends_in Q Q (k a)) -> ends_in P Q (m ≫= k).
Proof.
  intros Hm Hk s Hs. unfold mbind, py_bind. specialize (Hm s Hs). destruct (m s) as [[a|e|] s']; [by apply Hk|done..].
Qed.

Section cleanup.
Context (this_python : Z * Z) (environ : string -> option string) (find_spec : string -> bool) (argv : list string).
Context (DATA cacert : list byte) (mkdtemp_name : world -> outcome string) (pip_entry_point : list string -> py interp Z).

Definition has_dir (d : string) (s : interp) : Prop := d ∈ dirs (i_world s).

Lemma ends_create d p : ends_in (has_dir d) (has_dir d) (on_world (create_file p)).
Proof. intros s Hs. unfold on_world, create_file. by destruct (can_create (i_world s) p). Qed.
Lemma ends_append d p b : ends_in (has_dir d) (has_dir d) (on_world (append_file p b)).
Proof. intros s Hs. done. Qed.

Lemma ends_patch d : ends_in (has_dir d) (has_dir d) (monkeypatch_for_cert cacert d).
Proof.
  unfold monkeypatch_for_cert.
  repeat (apply ends_bind; [done|first [apply ends_create|apply ends_append|by intros s Hs]|intros _]). by intros s Hs.
Qed.

Lemma unpack_keeps_tree d :
  (forall args, ends_in (has_dir d) (fun s => dir_ok d (i_world s)) (pip_entry_point args)) ->
  ends_in (has_dir d) (fun s => dir_ok d (i_world s))
    (unpack_and_run this_python environ find_spec argv DATA cacert pip_entry_point d).
Proof.
  intros Hpip. assert (forall s, has_dir d s -> dir_ok d (i_world s)) as HPQ by by intros s Hs r b _.
  unfold unpack_and_run, bootstrap.
  repeat (apply ends_bind; [exact HPQ|first [apply ends_create|apply ends_append|apply ends_patch|by intros s Hs]|intros ?]).
  apply ends_bind_last; [apply Hpip|by intros a' s Hs].
Qed.

Lemma rmtree_ignore_clears d w :
  dir_ok d w -> exists w', rmtree_ignore d w = (Ret tt, w') /\ (d ∉ dirs w') /\ forall r, fs w' !! (d ++ "/" ++ r) = None.
Proof.
  intros Hok. unfold rmtree_ignore, try_except. destruct (decide (d ∈ dirs w)) as [Hd|Hd].
  - destruct (rmtree_spec d w Hd) as (w' & Hr & Hnd & Hfree & _). rewrite Hr. by exists w'.
  - exists w. assert (forall r, fs w !! (d ++ "/" ++ r) = None) as Hfree
      by (intros r; apply eq_None_not_Some; intros [b Hb]; by apply Hd, (Hok r b)).
    unfold rmtree. rewrite bool_decide_false by done. by destruct (isfile w d).
Qed.

(** ** What pip is started with *)

Lemma path_join_inj d a b : startswith "/" a = false -> startswith "/" b = false -> path_join d a = path_join d b -> a = b.
Proof.
  unfold path_join. intros -> ->. destruct (_ || _); intros H; [by apply str_app_inj_r in H|].
  apply str_app_inj_r in H. by injection H.
Qed.

(** The state pip's entry point is called in. *)
Definition pip_state (archive : list byte) (d : string) (s : interp) : interp :=
  Interp (put_file (path_join d "cacert.pem") cacert
           (put_file (path_join d "pip.zip") archive
             (World (fs (i_world s)) ({[d]} ∪ dirs (i_world s)) (stdout (i_world s)))))
    (path_join d "pip.zip" :: sys_path s) (Some (path_join d "cacert.pem")).

Lemma on_world_put m w b : forall sp pc, m w = (Ret tt, b) -> on_world m (Interp w sp pc) = (Ret tt, Interp b sp pc).
Proof. intros sp pc E. unfold on_world. cbn. by rewrite E. Qed.

(** C16: get-pip starts pip from the archive it carries: when [DATA] is the
    base85 text of an archive cut into lines at any places, the temporary
    directory can be made and the arguments parse, [main] is the run of pip's
    entry point with those arguments, followed by the exit and the clean-up, in
    a state where pip.zip in that directory holds exactly the bytes of the
    archive and is the first entry of [sys.path], and the certificate is
    written and patched in. *)
Theorem main_starts_pip s d lines archive args :
  DATA = data_literal lines -> mjoin lines = b85encode archive ->
  mkdtemp_name (i_world s) = Ret d -> d <> "" ->
  (forall n, n ∈ ["pip.zip"; "cacert.pem"] ->
    can_create (World (fs (i_world s)) ({[d]} ∪ dirs (i_world s)) (stdout (i_world s))) (path_join d n) = true) ->
  determine_pip_install_arguments this_python environ find_spec argv = Ret args ->
  main this_python environ find_spec argv DATA cacert mkdtemp_name pip_entry_point s =
    try_finally (pip_entry_point args;; raise SystemExit) (on_world (rmtree_ignore d)) (pip_state archive d s) /\
  fs (i_world (pip_state archive d s)) !! path_join d "pip.zip" = Some archive /\
  head (sys_path (pip_state archive d s)) = Some (path_join d "pip.zip").
Proof.
  intros HD Hl Hmk Hd Hc Hargs. split; [|split; [|done]].
  2: { unfold pip_state. cbn [i_world]. rewrite !fs_put. rewrite decide_False by (by intros H%path_join_inj). by rewrite decide_True. }
  set (w0 := World (fs (i_world s)) ({[d]} ∪ dirs (i_world s)) (stdout (i_world s))) in *.
  unfold main. rewrite (bind_ret _ _ s (Interp w0 (sys_path s) (patched_cert s)) d) by (unfold on_world, mkdtemp; by rewrite Hmk).
  assert (nonempty d = true) as -> by by destruct d. cbn [when]. unfold try_finally.
  assert (unpack_and_run this_python environ find_spec argv DATA cacert pip_entry_point d (Interp w0 (sys_path s) (patched_cert s)) =
    (pip_entry_point args;; raise SystemExit) (pip_state archive d s)) as ->; [|done].
  unfold unpack_and_run, bootstrap, monkeypatch_for_cert.
  rewrite (bind_ret _ _ _ _ _ (on_world_put _ _ _ _ _ (create_file_ok _ _ (Hc "pip.zip" ltac:(set_solver))))).
  erewrite bind_ret by (unfold lift; by rewrite HD, (drop_newlines_literal _ _ Hl), b85decode_encode).
  rewrite (bind_ret _ _ _ _ _ (on_world_put _ _ _ _ _ (append_put _ _ _ _))). erewrite bind_ret by reflexivity.
  set (z := path_join d "pip.zip"). set (c := path_join d "cacert.pem"). set (w1 := put_file z ([] ++ archive)%list w0).
  erewrite (bind_ret _ _ _ (Interp (put_file c cacert w1) (z :: sys_path s) (Some c)) tt).
  - erewrite bind_ret by (unfold lift; by rewrite Hargs). done.
  - cbn [modify i_world sys_path patched_cert].
    rewrite (bind_ret _ _ _ _ _ (on_world_put _ w1 _ _ _ (create_file_ok c w1 (Hc "cacert.pem" ltac:(set_solver))))).
    by rewrite (bind_ret _ _ _ _ _ (on_world_put _ _ _ _ _ (append_put _ _ _ _))).
Qed.

Lemma ends_ok_bind {S A B} (m : py S A) (k : A -> py S B) :
  (forall s, (m s).1 <> OutOfFuel) -> (forall a s, (k a s).1 <> OutOfFuel) -> forall s, ((m ≫= k) s).1 <> OutOfFuel.
Proof.
  intros Hm Hk s. unfold mbind, py_bind. specialize (Hm s). destruct (m s) as [[a|e|] s']; [apply Hk|done..].
Qed.

Lemma b85decode_ends b : b85decode b <> OutOfFuel.
Proof.
  unfold b85decode. destruct (mapM_out _ _) as [ds|e|] eqn:E; [|done|].
  - cbn [mbind outcome_bind]. assert (forall n ds, (length ds <= n)%nat -> b85words ds <> OutOfFuel) as H.
    { clear. induction n as [|n IH]; intros ds Hl; [by destruct ds; [|cbn in Hl; lia]|].
      destruct ds as [|a [|b' [|c [|d [|e ds]]]]]; try done. cbn [b85words]. unfold b85word.
      destruct (_ <? _); [|done]. cbn [mbind outcome_bind]. specialize (IH ds ltac:(cbn in Hl; lia)). by destruct (b85words ds). }
    specialize (H _ ds (le_n _)). by destruct (b85words ds).
  - exfalso. revert E. apply mapM_out_total. intros c. by destruct (b85digit c).
Qed.

Lemma arguments_end : determine_pip_install_arguments this_python environ find_spec argv <> OutOfFuel.
Proof.
  unfold determine_pip_install_arguments. rewrite parse_known_args_spec. by destruct (bool_decide _).
Qed.

Lemma unpack_raises d s :
  (forall args s, (pip_entry_point args s).1 <> OutOfFuel) ->
  exists e s', unpack_and_run this_python environ find_spec argv DATA cacert pip_entry_point d s = (Raise e, s').
Proof.
  intros Hpip. set (m := unpack_and_run _ _ _ _ _ _ _ d).
  assert (never (fun _ => True) m) as Hn.
  { unfold m, unpack_and_run, bootstrap. do 7 (apply never_then; intros ?). apply never_raise. }
  assert (forall s, (m s).1 <> OutOfFuel) as Hf.
  { assert (forall p s, (on_world (create_file p) s).1 <> OutOfFuel) as Hc
      by (intros p t; unfold on_world, create_file; by destruct (can_create (i_world t) p)).
    unfold m, unpack_and_run, bootstrap, monkeypatch_for_cert.
    repeat (apply ends_ok_bind; [first [apply Hc|apply Hpip|done|intros t; apply b85decode_ends|intros t; apply arguments_end|idtac]|intros ?]).
    - repeat (apply ends_ok_bind; [first [apply Hc|done]|intros ?]). done.
    - done. }
  specialize (Hf s). destruct (m s) as [[a|e|] s'] eqn:E; [|by exists e, s'|done]. by destruct (Hn s a s').
Qed.

(** C21: the script cleans up: once the temporary directory was made, it and
    everything below it are gone when [main] ends, whatever happened in between
    (a broken archive, an error of pip, or its exit), and [main] never returns
    normally: it ends with pip's exit. *)
Theorem main_cleans_up s d :
  mkdtemp_name (i_world s) = Ret d -> d <> "" ->
  (forall args, ends_in (has_dir d) (fun s => dir_ok d (i_world s)) (pip_entry_point args)) ->
  (forall args s, (pip_entry_point args s).1 <> OutOfFuel) ->
  exists e s', main this_python environ find_spec argv DATA cacert mkdtemp_name pip_entry_point s = (Raise e, s') /\
    (d ∉ dirs (i_world s')) /\ forall r, fs (i_world s') !! (d ++ "/" ++ r) = None.
Proof.
  intros Hmk Hd Hpip Hends. unfold main.
  set (s0 := Interp (World (fs (i_world s)) ({[d]} ∪ dirs (i_world s)) (stdout (i_world s))) (sys_path s) (patched_cert s)).
  assert (on_world (mkdtemp mkdtemp_name) s = (Ret d, s0)) as Hs0 by (unfold on_world, mkdtemp; by rewrite Hmk).
  rewrite (bind_ret _ _ _ _ _ Hs0).
  destruct (unpack_raises d s0 Hends) as (e & s1 & Hrun). pose proof (unpack_keeps_tree d Hpip s0) as Hok.
  rewrite Hrun in Hok. cbn [snd] in Hok. unfold try_finally. rewrite Hrun.
  assert (nonempty d = true) as -> by by destruct d. cbn [when].
  destruct (rmtree_ignore_clears d (i_world s1)) as (w' & Hrm & Hnd & Hfree); [apply Hok; unfold has_dir; set_solver|].
  unfold on_world at 1. rewrite Hrm. by eexists e, _.
Qed.
End cleanup.

(** ** Witnesses *)

Definition hello : list byte := bytes_of_str "Hello".

(** A pip that leaves a file behind and exits with 0. *)
Definition littering_pip : list string -> py interp Z := fun _ => on_world (append_file "/tmp/x/log" hello);; mret 0.
Definition pip_interp : interp := Interp (World ∅ {["/tmp"]} []) [] None.

Lemma main_cleans_up_witness :
  exists e s', main (3, 11) (fun _ => None) (fun _ => false) [] (b85encode hello) [] (fun _ => Ret "/tmp/x") littering_pip pip_interp =
      (Raise e, s') /\ fs (i_world s') !! "/tmp/x/log" = None.
Proof.
  destruct (main_cleans_up (3, 11) (fun _ => None) (fun _ => false) [] (b85encode hello) [] (fun _ => Ret "/tmp/x") littering_pip
    pip_interp "/tmp/x") as (e & s' & Hrun & _ & Hgone).
  - reflexivity.
  - done.
  - intros args t Ht r b _. exact Ht.
  - done.
  - exists e, s'. split; [exact Hrun|exact (Hgone "log")].
Defined.

(** The text of "Hello" on two lines. *)
Lemma main_starts_pip_witness :
  b85encode hello = bytes_of_str "NM&qnZv" /\
  main (3, 11) (fun _ => None) (fun _ => false) ["--no-wheel"] (bytes_of_str (newline ++ "NM&q" ++ newline ++ "nZv" ++ newline)) []
      (fun _ => Ret "/tmp/x") littering_pip pip_interp =
    try_finally (littering_pip ["install"; "--upgrade"; "--force-reinstall"; "pip<25.1"; "setuptools"];; raise SystemExit)
      (on_world (rmtree_ignore "/tmp/x")) (pip_state [] hello "/tmp/x" pip_interp) /\
  fs (i_world (pip_state [] hello "/tmp/x" pip_interp)) !! "/tmp/x/pip.zip" = Some hello.
Proof.
  split; [vm_compute; reflexivity|].
  destruct (main_starts_pip (3, 11) (fun _ => None) (fun _ => false) ["--no-wheel"]
    (bytes_of_str (newline ++ "NM&q" ++ newline ++ "nZv" ++ newline)) [] (fun _ => Ret "/tmp/x") littering_pip pip_interp "/tmp/x"
    [bytes_of_str "NM&q"; bytes_of_str "nZv"] hello ["install"; "--upgrade"; "--force-reinstall"; "pip<25.1"; "setuptools"])
    as (Hm & Hz & _).
  - vm_compute. reflexivity.
  - vm_compute. reflexivity.
  - reflexivity.
  - done.
  - intros n Hn. set_unfold in Hn. destruct Hn as [-> | [-> | []]]; vm_compute; reflexivity.
  - vm_compute. reflexivity.
  - split; [exact Hm|exact Hz].
Defined.
