(* ===== verification/Notebook.v ===== *)
(** * The kernel that runs notebook cells

    docs/Tutorial.ipynb and docs/examples/QuickstartGuide.ipynb are sequences
    of cells that share global names. The kernel's state is those names, the
    world and numpy's random generator. A cell that reads a name no earlier
    cell has bound raises [NameError]; [scoped] is the judgement that this
    cannot happen, and [well_scoped] checks it for an order of cells.

    The bindings of SPTAG (C++ behind SWIG, Wrappers/inc) are the class
    [Sptag]; an argument a call may leave out is an option. *)

From Stdlib Require Import Ascii.
From S2P Require Import Prelude PyStr PyFloat PyBytes PyIO TopK Datasets Gist.

Open Scope string_scope.
Open Scope Z_scope.

(** ** Printing of built-in values *)

Definition repr_list {A} (r : A -> string) (l : list A) : string := "[" ++ PyStr.join ", " (r <$> l) ++ "]".
Definition repr_bool (b : bool) : string := if b then "True" else "False".

Definition hex_digit (z : Z) : string :=
  String (ascii_of_nat (Z.to_nat (if z <? 10 then 48 + z else 87 + z))) "".

(** One byte inside [b'...'], for the quote in use. *)
Definition repr_byte (quote : Z) (b : byte) : string :=
  let z := Z_of_byte b in
  if z =? 9 then String BS "t"
  else if z =? 10 then String BS "n"
  else if z =? 13 then String BS "r"
  else if (z =? 92) || (z =? quote) then String BS (String (ascii_of_byte b) "")
  else if (32 <=? z) && (z <? 127) then String (ascii_of_byte b) ""
  else String BS ("x" ++ hex_digit (z / 16) ++ hex_digit (z mod 16)).

Definition repr_bytes (l : list byte) : string :=
  let has z := existsb (fun b => Z_of_byte b =? z) l in
  let quote := if has 39 && negb (has 34) then 34 else 39 in
  let q := String (ascii_of_nat (Z.to_nat quote)) "" in
  "b" ++ q ++ String.concat "" (repr_byte quote <$> l) ++ q.

(** ** What a search returns: a tuple of four lists *)
Record QueryResult := QR {
  r_ids : list Z;
  r_dists : list float;
  r_metas : list (option (list byte));
  r_monos : list bool
}.

(** A metadata that was not asked for is a null reference. *)
Definition repr_meta (m : option (list byte)) : string :=
  match m with Some b => repr_bytes b | None => "<NULL>" end.

Definition repr_result (r : QueryResult) : string :=
  "(" ++ PyStr.join ", " [repr_list str_of_Z (r_ids r); repr_list float_repr (r_dists r);
                    repr_list repr_meta (r_metas r); repr_list repr_bool (r_monos r)] ++ ")".

(** [(id, distance, metadata)]. *)
Abbreviation hit := (Z * float * option (list byte))%type.
Definition repr_hit (h : hit) : string :=
  "(" ++ str_of_Z h.1.1 ++ ", " ++ float_repr h.1.2 ++ ", " ++ repr_meta h.2 ++ ")".

(** ** The binding of SPTAG *)
Class Sptag (ann iter : Type) := {
  AnnIndex_new : string -> string -> Z -> outcome ann;
  (** name, value and section *)
  SetBuildParam : ann -> string -> string -> option string -> outcome ann;
  LoadQuantizer : ann -> string -> py world (bool * ann);
  SetQuantizerADC : ann -> bool -> outcome ann;
  (** data, count and [normalized] *)
  Build : ann -> list byte -> Z -> option bool -> py world (bool * ann);
  BuildWithMetaData : ann -> list byte -> string -> Z -> bool -> bool -> py world (bool * ann);
  Save : ann -> string -> py world bool;
  Load : string -> py world ann;
  Search : ann -> list byte -> Z -> py world QueryResult;
  SearchWithMetaData : ann -> list byte -> Z -> py world QueryResult;
  GetIterator : ann -> list byte -> outcome iter;
  Next : iter -> Z -> outcome (QueryResult * iter);
  Close : iter -> outcome iter
}.

(** The client of the search service. Its connection is made in the background:
    [pass n] is what [n] seconds do to it. *)
Class SptagClient (client : Type) := {
  AnnClient_new : string -> string -> outcome client;
  IsConnected : client -> bool;
  pass : Z -> client -> client;
  SetTimeoutMilliseconds : client -> Z -> outcome client;
  client_Search : client -> list byte -> Z -> string -> bool -> outcome QueryResult
}.

(** numpy's random generator, [astype(np.float32)] included. *)
Class NumpyRandom (rng : Type) := {
  rand2 : Z -> Z -> rng -> list (list item) * rng;
  rand1 : Z -> rng -> list item * rng;
  seed : Z -> rng
}.

(** ** Values of global names *)
Section values.
Context {ann iter client img : Type}.

Inductive value :=
  | VMod
  | VFun
  | VInt (z : Z)
  | VStr (s : string)
  | VMatrix (m : matrix)
  | VVec (v : list item)
  | VIndex (i : ann)
  | VIter (i : iter)
  | VClient (c : client)
  | VResult (r : QueryResult)
  | VResults (l : list QueryResult)
  | VHits (l : list hit)
  | VNames (l : list string)
  | VNameArray (l : list string)
  | VImgs (l : list img)
  | VProcess (code : Z)
  | VFile.

Definition to_int (v : value) : option Z := match v with VInt z => Some z | _ => None end.
Definition to_str (v : value) : option string := match v with VStr s => Some s | _ => None end.
Definition to_matrix (v : value) : option matrix := match v with VMatrix m => Some m | _ => None end.
Definition to_vec (v : value) : option (list item) := match v with VVec l => Some l | _ => None end.
Definition to_index (v : value) : option ann := match v with VIndex i => Some i | _ => None end.
Definition to_iter (v : value) : option iter := match v with VIter i => Some i | _ => None end.
Definition to_client (v : value) : option client := match v with VClient c => Some c | _ => None end.
Definition to_results (v : value) : option (list QueryResult) := match v with VResults l => Some l | _ => None end.
Definition to_hits (v : value) : option (list hit) := match v with VHits l => Some l | _ => None end.
Definition to_imgs (v : value) : option (list img) := match v with VImgs l => Some l | _ => None end.
End values.
Arguments value : clear implicits.

Definition tobytes (m : matrix) : list byte := mjoin (mjoin (mrows m)).

(** ** The kernel *)
Section kernel.
Context {V rng : Type}.

Record kernel := Kernel { env : gmap string V; wld : world; gen : rng }.

Definition name (n : string) : py kernel V := fun s =>
  match env s !! n with Some v => (Ret v, s) | None => (Raise NameError, s) end.

Definition bind_name (n : string) (v : V) (s : kernel) : kernel := Kernel (<[n := v]> (env s)) (wld s) (gen s).
Definition assign (n : string) (v : V) : py kernel unit := modify (bind_name n v).

(** A name whose value must be of one kind. *)
Definition var {A} (prj : V -> option A) (n : string) : py kernel A :=
  v ← name n; match prj v with Some a => mret a | None => raise TypeError end.

Definition in_world {A} (m : py world A) : py kernel A := fun s =>
  let '(r, w) := m (wld s) in (r, Kernel (env s) w (gen s)).

Definition draw {A} (f : rng -> A * rng) : py kernel A := fun s =>
  let '(a, g) := f (gen s) in (Ret a, Kernel (env s) (wld s) g).

Definition reseed (g : rng) : py kernel unit := fun s => (Ret tt, Kernel (env s) (wld s) g).

(** Cells, with the names they read before binding them and the names they bind. *)
Record cell := Cell { c_uses : list string; c_defs : list string; c_run : py kernel unit }.

Fixpoint run_all (cells : list cell) : py kernel unit :=
  match cells with
  | [] => mret tt
  | c :: cs => c_run c;; run_all cs
  end.

(** ** Scoping *)

Definition defd (U : list string) (s : kernel) : Prop := forall n, n ∈ U -> is_Some (env s !! n).
Definition grows (s s' : kernel) : Prop := forall n, is_Some (env s !! n) -> is_Some (env s' !! n).

(** With the names [U] bound, [m] raises no [NameError], unbinds nothing and
    ends with the names [D] bound. *)
Definition scoped {A} (U : list string) (m : py kernel A) (D : list string) : Prop :=
  forall s, defd U s ->
    match m s with
    | (Ret _, s') => defd D s' /\ grows s s'
    | (Raise e, _) => e <> NameError
    | (OutOfFuel, _) => True
    end.

Definition cell_ok (c : cell) : Prop := scoped (c_uses c) (c_run c) (c_defs c).

(** Every cell finds its names bound by the cells before it. *)
Fixpoint well_scoped (U : list string) (cells : list cell) : bool :=
  match cells with
  | [] => true
  | c :: cs => bool_decide (c_uses c ⊆ U) && well_scoped (c_defs c ++ U) cs
  end.

(** Code outside the notebook raises no [NameError]. *)
Definition no_name {S A} (m : py S A) : Prop := forall w, (m w).1 <> Raise NameError.

Lemma scoped_bind {A B} U M D (m : py kernel A) (k : A -> py kernel B) :
  scoped U m M -> (forall a, scoped M (k a) D) -> scoped U (m ≫= k) D.
Proof.
  intros Hm Hk s Hs. unfold mbind, py_bind. specialize (Hm s Hs). destruct (m s) as [[a|e|] s1]; [|done..].
  destruct Hm as [Hd Hg]. specialize (Hk a s1 Hd). destruct (k a s1) as [[b|e|] s2]; [|done..].
  destruct Hk as [Hd' Hg']. split; [done|]. intros n Hn. by apply Hg', Hg.
Qed.

Lemma scoped_sub {A} U M D (m : py kernel A) : scoped U m M -> D ⊆ M -> scoped U m D.
Proof.
  intros Hm HD s Hs. specialize (Hm s Hs). destruct (m s) as [[a|e|] s1]; [|done..].
  destruct Hm as [Hd Hg]. split; [|done]. intros n Hn. by apply Hd, HD.
Qed.

Lemma scoped_pre {A} U U' D (m : py kernel A) : scoped U m D -> U ⊆ U' -> scoped U' m D.
Proof. intros Hm HU s Hs. apply Hm. intros n Hn. by apply Hs, HU. Qed.

(** Names bound before stay bound. *)
Lemma scoped_frame {A} U D X (m : py kernel A) : scoped U m D -> scoped (U ++ X)%list m (D ++ X)%list.
Proof.
  intros Hm s Hs. assert (defd U s) as HU by (intros n Hn; apply Hs, elem_of_app; by left).
  specialize (Hm s HU). destruct (m s) as [[a|e|] s1]; [|done..]. destruct Hm as [Hd Hg]. split; [|done].
  intros n [Hn|Hn]%elem_of_app; [by apply Hd|]. apply Hg, Hs, elem_of_app. by right.
Qed.

Lemma scoped_quiet {A} U (m : py kernel A) :
  no_name m -> (forall s, match m s with (Ret _, s') => env s' = env s | _ => True end) -> scoped U m U.
Proof.
  intros Hn He s Hs. specialize (Hn s). specialize (He s). destruct (m s) as [[a|e|] s1]; [|cbn in *; congruence|done].
  split; intros n; rewrite He; [apply Hs|done].
Qed.

Lemma scoped_ret {A} U (a : A) : scoped U (mret a) U.
Proof. by apply scoped_quiet. Qed.
Lemma scoped_raise {A} U D e : e <> NameError -> scoped U (raise (A := A) e) D.
Proof. intros He s Hs. done. Qed.
Lemma scoped_lift {A} U (o : outcome A) : o <> Raise NameError -> scoped U (lift o) U.
Proof. intros Ho. apply scoped_quiet; [intros s; apply Ho|]. intros s. by destruct o. Qed.
Lemma scoped_name U n : n ∈ U -> scoped U (name n) U.
Proof.
  intros Hn s Hs. unfold name. destruct (Hs n Hn) as [v ->]. split; [done|by intros k].
Qed.
Lemma scoped_var {A} U (prj : V -> option A) n : n ∈ U -> scoped U (var prj n) U.
Proof.
  intros Hn. eapply scoped_bind; [by apply scoped_name|]. intros v.
  destruct (prj v); [apply scoped_ret|by apply scoped_raise].
Qed.
Lemma scoped_assign U n v : scoped U (assign n v) (n :: U).
Proof.
  intros s Hs. unfold assign, modify. cbn.
  assert (forall k, is_Some (env s !! k) -> is_Some (<[n := v]> (env s) !! k)) as Hg.
  { intros k Hk. destruct (decide (n = k)) as [->|]; [rewrite lookup_insert_eq; eauto|by rewrite lookup_insert_ne]. }
  split; [|done]. intros k [->|Hk]%elem_of_cons; [cbn; rewrite lookup_insert_eq; eauto|]. by apply Hg, Hs.
Qed.
Lemma scoped_world {A} U (m : py world A) : no_name m -> scoped U (in_world m) U.
Proof.
  intros Hm. unfold in_world. apply scoped_quiet; intros s.
  - specialize (Hm (wld s)). by destruct (m (wld s)) as [r w].
  - by destruct (m (wld s)) as [[] w].
Qed.
Lemma scoped_draw {A} U (f : rng -> A * rng) : scoped U (draw f) U.
Proof. unfold draw. apply scoped_quiet; intros s; by destruct (f (gen s)). Qed.
Lemma scoped_reseed U g : scoped U (reseed g) U.
Proof. by apply scoped_quiet. Qed.
Lemma scoped_when U b m M : scoped U m M -> U ⊆ M -> scoped U (when b m) U.
Proof. intros Hm HU. destruct b; [by eapply scoped_sub|apply scoped_ret]. Qed.

Lemma scoped_for {A} U (l : list A) body :
  (forall x, scoped U (body x) U) -> scoped U (for_each l body) U.
Proof.
  intros Hb. induction l as [|x l IH]; cbn [for_each]; [apply scoped_ret|].
  by eapply scoped_bind.
Qed.

Lemma scoped_while {A} U n (body : py kernel (option A)) :
  scoped U body U -> scoped U (while_true n body) U.
Proof.
  intros Hb. induction n as [|n IH]; cbn [while_true]; [done|].
  eapply scoped_bind; [done|]. intros [a|]; [apply scoped_ret|done].
Qed.

Lemma scoped_if {A} U D (b : bool) (m1 m2 : py kernel A) :
  scoped U m1 D -> scoped U m2 D -> scoped U (if b then m1 else m2) D.
Proof. by destruct b. Qed.

(** Soundness of the check: an order of cells that passes it raises no
    [NameError], whatever the cells compute. *)
Lemma run_all_scoped U cells :
  Forall cell_ok cells -> well_scoped U cells = true -> scoped U (run_all cells) U.
Proof.
  intros HF. revert U. induction HF as [|c cs Hc HF IH]; intros U; cbn [run_all well_scoped]; [intros _; apply scoped_ret|].
  intros [Hu%bool_decide_eq_true Hw]%andb_prop. eapply scoped_bind.
  - eapply scoped_pre; [apply (scoped_frame (c_uses c) (c_defs c) U), Hc|]. set_solver.
  - intros []. eapply scoped_sub; [by apply IH|]. set_solver.
Qed.

(** After the whole notebook every name is bound, so any further order is fine. *)
Lemma well_scoped_more U (cells : list cell) :
  Forall (fun c => c_uses c ⊆ U) cells -> well_scoped U cells = true.
Proof.
  intros HF. revert U HF. induction cells as [|c cs IH]; intros U HF; [done|]. apply Forall_cons in HF as [Hc HF].
  cbn [well_scoped]. rewrite bool_decide_true by done. apply IH. eapply Forall_impl; [exact HF|]. set_solver.
Qed.

Lemma well_scoped_app U (l1 l2 : list cell) :
  well_scoped U l1 = true -> Forall (fun c => c_uses c ⊆ mjoin (c_defs <$> l1)) l2 -> well_scoped U (l1 ++ l2) = true.
Proof.
  assert (forall X, well_scoped U l1 = true -> Forall (fun c => c_uses c ⊆ X ++ mjoin (c_defs <$> l1))%list l2 ->
    (X ⊆ U) -> well_scoped U (l1 ++ l2) = true) as H.
  { revert U. induction l1 as [|c l1 IH]; intros U X; cbn [well_scoped app].
    - intros _ HF HX. apply well_scoped_more. eapply Forall_impl; [exact HF|]. cbn. set_solver.
    - intros [-> Hw]%andb_prop HF HX. cbn [andb]. apply (IH _ (c_defs c ++ X)%list); [done| |set_solver].
      eapply Forall_impl; [exact HF|]. intros c' Hc'. cbn in Hc'. set_solver. }
  intros Hw HF. apply (H []); [done|exact HF|]. apply list_subseteq_nil.
Qed.

(** A cell with an unbound name at its start stops the run. *)
Lemma run_all_raise c cs s s' e : c_run c s = (Raise e, s') -> run_all (c :: cs) s = (Raise e, s').
Proof. apply bind_raise. Qed.

Lemma run_all_next c cs s s' : c_run c s = (Ret tt, s') -> run_all (c :: cs) s = run_all cs s'.
Proof. intros H. cbn [run_all]. by rewrite (bind_ret _ _ _ _ _ H). Qed.

(** *** Symbolic execution *)
Lemma name_eq n v s : env s !! n = Some v -> name n s = (Ret v, s).
Proof. unfold name. by intros ->. Qed.
Lemma name_missing n s : env s !! n = None -> name n s = (Raise NameError, s).
Proof. unfold name. by intros ->. Qed.
Lemma var_eq {A} (prj : V -> option A) n v a s : env s !! n = Some v -> prj v = Some a -> var prj n s = (Ret a, s).
Proof. intros Hv Ha. unfold var. erewrite bind_ret by by apply name_eq. by rewrite Ha. Qed.
Lemma env_bind n v s k : env (bind_name n v s) !! k = if decide (n = k) then Some v else env s !! k.
Proof. cbn. destruct (decide _) as [->|]; [apply lookup_insert_eq|by apply lookup_insert_ne]. Qed.
(** [s'] differs from [s] in the names [L] at most. *)
Definition same_but (L : list string) (s s' : kernel) : Prop :=
  wld s' = wld s /\ gen s' = gen s /\ forall k, k ∉ L -> env s' !! k = env s !! k.

Lemma same_but_trans L s1 s2 s3 : same_but L s1 s2 -> same_but L s2 s3 -> same_but L s1 s3.
Proof. intros (? & ? & H1) (? & ? & H2). split_and!; try congruence. intros k Hk. by rewrite H2, H1. Qed.

Lemma same_but_bind L n v s : n ∈ L -> same_but L s (bind_name n v s).
Proof.
  intros Hn. split_and!; [done..|]. intros k Hk. rewrite env_bind. rewrite decide_False; [done|]. by intros ->.
Qed.

Lemma in_world_ret {A} (m : py world A) s r w :
  m (wld s) = (r, w) -> in_world m s = (r, Kernel (env s) w (gen s)).
Proof. unfold in_world. by intros ->. Qed.
Lemma in_world_exists p s : in_world (os_path_exists p) s = (Ret (path_exists (wld s) p), s).
Proof. by destruct s. Qed.
Lemma draw_eq {A} (f : rng -> A * rng) s : draw f s = (Ret (f (gen s)).1, Kernel (env s) (wld s) (f (gen s)).2).
Proof. unfold draw. by destruct (f (gen s)). Qed.
End kernel.
Arguments kernel : clear implicits.
Arguments cell : clear implicits.

(** The value of a name after assignments. *)
Ltac read_env := repeat first [rewrite env_bind | progress cbn [env]].

(** Membership and inclusion of closed lists of names. *)
Ltac names := match goal with |- ?P => apply (bool_decide_eq_true_1 P); vm_compute; reflexivity end.

(** ** Code that raises no NameError *)

Create HintDb quiet.

Lemma no_name_bind {S A B} (m : py S A) (k : A -> py S B) : no_name m -> (forall a, no_name (k a)) -> no_name (m ≫= k).
Proof.
  intros Hm Hk w. unfold mbind, py_bind. specialize (Hm w). destruct (m w) as [[a|e|] w']; cbn in *; [apply Hk|congruence|done].
Qed.
Lemma no_name_exists p : no_name (os_path_exists p).
Proof. done. Qed.
Lemma no_name_print s : no_name (print s).
Proof. done. Qed.
Lemma no_name_read p : no_name (read_file p).
Proof. intros w. unfold read_file. by destruct (fs w !! p). Qed.
Lemma no_name_create p : no_name (create_file p).
Proof. intros w. unfold create_file. by destruct (can_create w p). Qed.
Lemma no_name_append p b : no_name (append_file p b).
Proof. done. Qed.
Lemma no_name_remove p : no_name (os_remove p).
Proof. intros w. unfold os_remove. by destruct (isfile w p). Qed.
Lemma no_name_rmtree d : no_name (rmtree d).
Proof. intros w. unfold rmtree. by destruct (bool_decide _), (isfile w d). Qed.
Lemma no_name_listdir d : no_name (listdir d).
Proof. intros w. unfold listdir. by destruct (bool_decide _), (isfile w d). Qed.
Lemma no_name_index {A} (l : list A) i : py_index l i <> Raise NameError.
Proof. unfold py_index. destruct (_ <? 0); [done|]. by destruct (l !! _). Qed.
Lemma no_name_unpack b : unpack_i b <> Raise NameError.
Proof. unfold unpack_i, unpack_signed. by case_match. Qed.
Lemma no_name_reshape n d a : reshape2 n d a <> Raise NameError.
Proof. unfold reshape2. by repeat case_match. Qed.

#[export] Hint Resolve no_name_bind no_name_exists no_name_print no_name_read no_name_create no_name_append
  no_name_remove no_name_rmtree no_name_listdir no_name_index no_name_unpack no_name_reshape : quiet.

(** The bindings do not use the notebook's names. *)
Class SptagQuiet (ann iter client : Type) `{!Sptag ann iter} `{!SptagClient client} : Prop := {
  quiet_new : forall a t d, AnnIndex_new (ann := ann) (iter := iter) a t d <> Raise NameError;
  quiet_param : forall (i : ann) n v s, SetBuildParam (iter := iter) i n v s <> Raise NameError;
  quiet_quantizer : forall (i : ann) p, no_name (LoadQuantizer (iter := iter) i p);
  quiet_adc : forall (i : ann) b, SetQuantizerADC (iter := iter) i b <> Raise NameError;
  quiet_build : forall (i : ann) b n o, no_name (Build (iter := iter) i b n o);
  quiet_build_meta : forall (i : ann) b m n x y, no_name (BuildWithMetaData (iter := iter) i b m n x y);
  quiet_save : forall (i : ann) p, no_name (Save (iter := iter) i p);
  quiet_load : forall p, no_name (Load (ann := ann) (iter := iter) p);
  quiet_search : forall (i : ann) q k, no_name (Search (iter := iter) i q k);
  quiet_search_meta : forall (i : ann) q k, no_name (SearchWithMetaData (iter := iter) i q k);
  quiet_iterator : forall (i : ann) q, GetIterator (iter := iter) i q <> Raise NameError;
  quiet_next : forall (i : iter) n, Next (ann := ann) i n <> Raise NameError;
  quiet_close : forall i : iter, Close (ann := ann) i <> Raise NameError;
  quiet_client : forall a p, AnnClient_new (client := client) a p <> Raise NameError;
  quiet_timeout : forall (c : client) z, SetTimeoutMilliseconds c z <> Raise NameError;
  quiet_client_search : forall (c : client) q k t m, client_Search c q k t m <> Raise NameError
}.

#[export] Hint Resolve quiet_new quiet_param quiet_quantizer quiet_adc quiet_build quiet_build_meta quiet_save
  quiet_load quiet_search quiet_search_meta quiet_iterator quiet_next quiet_close quiet_client quiet_timeout
  quiet_client_search : quiet.

(** Scoping of straight-line code; the names bound at the end are found on the
    way, so a cell is first weakened with [scoped_sub]. [scope_call] is for the
    functions a notebook defines. *)
Ltac scope_call := fail.
Ltac scope :=
  repeat first
    [ scope_call
    | match goal with |- scoped _ (_ ≫= _) _ => eapply scoped_bind; [ | intros ?] end
    | apply scoped_name; names | apply scoped_var; names | apply scoped_assign | apply scoped_draw
    | apply scoped_reseed | apply scoped_ret
    | apply scoped_world; solve [eauto with quiet] | apply scoped_lift; solve [eauto with quiet]
    | eapply scoped_when; [scope | names]
    | apply scoped_for; intros ?; eapply scoped_sub; [scope | names]
    | apply scoped_while; eapply scoped_sub; [scope | names]
    | match goal with
      | |- scoped ?U (if ?b then _ else _) _ => apply (scoped_if U U b); (eapply scoped_sub; [scope | names])
      | |- scoped _ (let '(_, _) := ?x in _) _ => destruct x
      end
    | eapply scoped_bind; [ | intros ?] ].
