(* ===== verification/Tutorial.v ===== *)
(** * docs/Tutorial.ipynb

    Every code cell of the tutorial, in document order: the data and its
    metadata, an index in memory, the search and the scan with an iterator, the
    external quantizer, the quantized and the SPANN indices, and the client of
    the search service. [Quantizer.exe] is the parameter [subprocess_run]. *)

From Stdlib Require Import Ascii Lia ZifyBool.
From S2P Require Import Prelude PyStr PyFloat PyBytes PyIO TopK Datasets DataReader GpuSearch Gist Notebook.

Open Scope string_scope.
Open Scope Z_scope.

Section tutorial.
Context {ann iter client img rng : Type}.
Context `{!Sptag ann iter} `{!SptagClient client} `{!NumpyRandom rng}.
Context (subprocess_run : string -> py world Z).

Abbreviation value := (Notebook.value ann iter client img).
Abbreviation kernel := (Notebook.kernel value rng).
Abbreviation cell := (Notebook.cell value rng).

Definition import_ (n : string) : py kernel unit := assign n VMod.

(** [int(vector_dimension / 2)]: the quotient of a dimension is exact, and
    [int] cuts it. *)
Definition half (d : Z) : Z := Z.quot d 2.

(** [for i in range(vector_number): m += str(i) + '\n']. *)
Definition metadata_loop (n : Z) : py kernel unit :=
  for_each (py_range 0 n) (fun i =>
    assign "i" (VInt i);;
    m ← var to_str "m";
    assign "m" (VStr (m ++ str_of_Z i ++ newline))).

Definition prepare_data : py kernel unit :=
  import_ "os";; import_ "shutil";; import_ "np";;
  assign "vector_number" (VInt 1000);;
  assign "vector_dimension" (VInt 100);;
  name "np";;
  n ← var to_int "vector_number";
  d ← var to_int "vector_dimension";
  x ← draw (rand2 n d);
  assign "x" (VMatrix (Matrix d x));;
  assign "m" (VStr "");;
  n ← var to_int "vector_number";
  metadata_loop n.

(** [index.SetBuildParam(name, value, section)]. *)
Definition set_param (p : string * string * string) : py kernel unit :=
  let '(n, v, section) := p in
  i ← var to_index "index";
  i ← lift (SetBuildParam i n v (Some section));
  assign "index" (VIndex i).

(** [index = SPTAG.AnnIndex(algo, type, dim)]. *)
Definition new_index (algo type : string) (dim : Z -> Z) : py kernel unit :=
  import_ "SPTAG";;
  name "SPTAG";;
  d ← var to_int "vector_dimension";
  i ← lift (AnnIndex_new algo type (dim d));
  assign "index" (VIndex i).

(** [index.BuildWithMetaData(x, m, vector_number, False, False)]. *)
Definition build_with_metadata (data : string) : py kernel bool :=
  i ← var to_index "index";
  x ← var to_matrix data;
  m ← var to_str "m";
  n ← var to_int "vector_number";
  r ← in_world (BuildWithMetaData i (tobytes x) m n false false);
  assign "index" (VIndex r.2);;
  mret r.1.

(** [index.LoadQuantizer("quantizer.bin") and index.BuildWithMetaData(...)]. *)
Definition build_quantized : py kernel bool :=
  i ← var to_index "index";
  r ← in_world (LoadQuantizer i "quantizer.bin");
  assign "index" (VIndex r.2);;
  if r.1 : bool then build_with_metadata "quan_x" else mret false.

(** The end of the cells that build: remove an old index, build, save what was
    built, list the directory. The value of the last line is the name [_]. *)
Definition rebuild (dir : string) (build : py kernel bool) : py kernel unit :=
  name "os";;
  e ← in_world (os_path_exists dir);
  when e (name "shutil";; in_world (rmtree dir));;
  b ← build;
  when b (i ← var to_index "index"; _ ← in_world (Save i dir); mret tt);;
  name "os";;
  l ← in_world (listdir dir);
  assign "_" (VNames l).

Definition build_bkt : py kernel unit :=
  new_index "BKT" "Float" id;;
  set_param ("NumberOfThreads", "4", "Index");;
  set_param ("DistCalcMethod", "L2", "Index");;
  rebuild "sptag_index" (build_with_metadata "x").

(** [print (result[0])], [print (result[1])], [print (result[2])]. *)
Definition print_result (r : QueryResult) : py kernel unit :=
  in_world (print (repr_list str_of_Z (r_ids r)));;
  in_world (print (repr_list float_repr (r_dists r)));;
  in_world (print (repr_list repr_meta (r_metas r))).

(** [result = index.SearchWithMetaData(q, k)] and the prints. *)
Definition search_with_metadata (k : Z) : py kernel unit :=
  i ← var to_index "index";
  q ← var to_vec "q";
  r ← in_world (SearchWithMetaData i (mjoin q) k);
  assign "result" (VResult r);;
  print_result r.

(** [results.append((result[0][j], result[1][j], result[2][j]))]. *)
Definition append_hit (r : QueryResult) (j : Z) : py kernel unit :=
  assign "j" (VInt j);;
  l ← var to_hits "results";
  a ← lift (py_index (r_ids r) j);
  b ← lift (py_index (r_dists r) j);
  c ← lift (py_index (r_metas r) j);
  assign "results" (VHits (l ++ [(a, b, c)])%list).

(** [len(result[0]) < 10 or result[3][0] == True]. *)
Definition last_batch (r : QueryResult) : outcome bool :=
  if Z.of_nat (length (r_ids r)) <? 10 then Ret true else py_index (r_monos r) 0.

Definition scan_round : py kernel (option unit) :=
  it ← var to_iter "iterator";
  r ← lift (Next it 10);
  assign "iterator" (VIter r.2);;
  assign "result" (VResult r.1);;
  for_each (py_range 0 (Z.of_nat (length (r_ids r.1)))) (append_hit r.1);;
  b ← lift (last_batch r.1);
  mret (if b : bool then Some tt else None).

(** [key = lambda item: item[1]]: [y]'s key is not less than [x]'s. *)
Definition nearer (x y : hit) : Prop := fltb y.1.2 x.1.2 = false.
#[export] Instance nearer_dec x y : Decision (nearer x y) := decide (fltb y.1.2 x.1.2 = false).

Definition scan (fuel : nat) : py kernel unit :=
  assign "results" (VHits []);;
  i ← var to_index "index";
  q ← var to_vec "q";
  it ← lift (GetIterator i (mjoin q));
  assign "iterator" (VIter it);;
  while_true fuel scan_round;;
  it ← var to_iter "iterator";
  it ← lift (Close it);
  assign "iterator" (VIter it);;
  l ← var to_hits "results";
  assign "results" (VHits (sort_by nearer l));;
  l ← var to_hits "results";
  in_world (print (repr_list repr_hit (py_slice l 0 10))).

(** [index = SPTAG.AnnIndex.Load(dir)]. *)
Definition load_index (dir : string) : py kernel unit :=
  name "SPTAG";;
  i ← in_world (Load dir);
  assign "index" (VIndex i).

(** [q = np.random.rand(vector_dimension).astype(np.float32)]. *)
Definition random_query : py kernel unit :=
  name "np";;
  d ← var to_int "vector_dimension";
  q ← draw (rand1 d);
  assign "q" (VVec q).

Definition search_bkt (fuel : nat) : py kernel unit :=
  load_index "sptag_index";;
  random_query;;
  search_with_metadata 10;;
  scan fuel.

(** [if (os.path.exists(p)): os.remove(p)]. *)
Definition remove_old (p : string) : py kernel unit :=
  name "os";;
  e ← in_world (os_path_exists p);
  when e (name "os";; in_world (os_remove p)).

Definition quantizer_command (d n : Z) : string :=
  "Quantizer.exe -d " ++ str_of_Z d ++ " -v Float -f DEFAULT -i sptag_index" ++ String BS "vectors.bin" ++
  " -o quan_doc_vectors.bin -oq quantizer.bin -qt PQQuantizer -qd " ++ str_of_Z (half d) ++
  " -ts " ++ str_of_Z n ++ " -norm false".

Definition repr_str (s : string) : string := str_drop 1 (repr_bytes (bytes_of_str s)).

(** [f = open(p, 'rb')] to [f.close()]. *)
Definition read_quantized (p : string) : py kernel unit :=
  data ← in_world (read_file p);
  assign "f" VFile;;
  name "struct";;
  let '(b, data) := read_bytes 4 data in
  r ← lift (unpack_i b);
  assign "r" (VInt r);;
  name "struct";;
  let '(b, data) := read_bytes 4 data in
  c ← lift (unpack_i b);
  assign "c" (VInt c);;
  name "np";;
  let '(b, data) := read_bytes (r * c) data in
  m ← lift (reshape2 r c (elements 1 b));
  assign "quan_x" (VMatrix m).

Definition quantize : py kernel unit :=
  import_ "subprocess";; import_ "struct";; import_ "np";;
  remove_old "quantizer.bin";;
  remove_old "quan_doc_vectors.bin";;
  d ← var to_int "vector_dimension";
  n ← var to_int "vector_number";
  let cmd := quantizer_command d n in
  assign "cmd" (VStr cmd);;
  name "subprocess";;
  code ← in_world (subprocess_run cmd);
  assign "result" (VProcess code);;
  in_world (print ("CompletedProcess(args=" ++ repr_str cmd ++ ", returncode=" ++ str_of_Z code ++ ")"));;
  read_quantized "quan_doc_vectors.bin";;
  x ← var to_matrix "quan_x";
  in_world (print ("(" ++ str_of_Z (nrows x) ++ ", " ++ str_of_Z (ncols x) ++ ")")).

Definition build_quan_bkt : py kernel unit :=
  new_index "BKT" "UInt8" half;;
  set_param ("NumberOfThreads", "4", "Index");;
  set_param ("DistCalcMethod", "L2", "Index");;
  rebuild "quan_sptag_index" build_quantized.

(** [index.SetQuantizerADC(True)]. *)
Definition set_adc : py kernel unit :=
  i ← var to_index "index"; i ← lift (SetQuantizerADC i true); assign "index" (VIndex i).

Definition search_quan_bkt : py kernel unit :=
  load_index "quan_sptag_index";; set_adc;; search_with_metadata 12.

Definition select_and_build : list (string * string * string) :=
  [("isExecute", "true", "SelectHead"); ("NumberOfThreads", "4", "SelectHead"); ("Ratio", "0.2", "SelectHead");
   ("isExecute", "true", "BuildHead"); ("RefineIterations", "3", "BuildHead"); ("NumberOfThreads", "4", "BuildHead");
   ("isExecute", "true", "BuildSSDIndex"); ("BuildSsdIndex", "true", "BuildSSDIndex");
   ("PostingPageLimit", "12", "BuildSSDIndex"); ("SearchPostingPageLimit", "12", "BuildSSDIndex");
   ("NumberOfThreads", "4", "BuildSSDIndex"); ("InternalResultNum", "32", "BuildSSDIndex");
   ("SearchInternalResultNum", "64", "BuildSSDIndex")].

Definition build_spann : py kernel unit :=
  new_index "SPANN" "Float" id;;
  for_each [("IndexAlgoType", "BKT", "Base"); ("IndexDirectory", "spann_index", "Base");
            ("DistCalcMethod", "L2", "Base")] set_param;;
  for_each select_and_build set_param;;
  rebuild "spann_index" (build_with_metadata "x").

Definition search_spann : py kernel unit := load_index "spann_index";; search_with_metadata 12.

Definition build_quan_spann : py kernel unit :=
  new_index "SPANN" "UInt8" half;;
  for_each [("IndexAlgoType", "BKT", "Base"); ("IndexDirectory", "spann_quan_index", "Base");
            ("DistCalcMethod", "L2", "Base"); ("QuantizerFilePath", "quantizer.bin", "Base")] set_param;;
  for_each select_and_build set_param;;
  rebuild "spann_quan_index" build_quantized.

Definition search_quan_spann : py kernel unit :=
  load_index "spann_quan_index";; set_adc;; search_with_metadata 12.

(** [while not client.IsConnected(): time.sleep(1)]. *)
Definition wait_connected (fuel : nat) : py kernel unit :=
  while_true fuel (
    c ← var to_client "client";
    if IsConnected c then mret (Some tt)
    else (name "time";; assign "client" (VClient (pass 1 c));; mret None)).

Definition client_search (fuel : nat) : py kernel unit :=
  import_ "SPTAGClient";; import_ "time";;
  name "SPTAGClient";;
  c ← lift (AnnClient_new "127.0.0.1" "8000");
  assign "client" (VClient c);;
  wait_connected fuel;;
  c ← var to_client "client";
  c ← lift (SetTimeoutMilliseconds c 18000);
  assign "client" (VClient c);;
  assign "k" (VInt 3);;
  assign "vector_dimension" (VInt 10);;
  random_query;;
  c ← var to_client "client";
  q ← var to_vec "q";
  k ← var to_int "k";
  r ← lift (client_Search c (mjoin q) k "Float" true);
  assign "result" (VResult r);;
  print_result r.

(** The notebook in document order. *)
Definition tutorial (fuel : nat) : list cell := [
  Cell [] ["os"; "shutil"; "np"; "vector_number"; "vector_dimension"; "x"; "m"] prepare_data;
  Cell ["os"; "shutil"; "vector_number"; "vector_dimension"; "x"; "m"] ["SPTAG"; "index"] build_bkt;
  Cell ["SPTAG"; "np"; "vector_dimension"] ["index"; "q"; "result"; "results"; "iterator"] (search_bkt fuel);
  Cell ["os"; "vector_number"; "vector_dimension"]
       ["subprocess"; "struct"; "np"; "cmd"; "result"; "f"; "r"; "c"; "quan_x"] quantize;
  Cell ["os"; "shutil"; "vector_number"; "vector_dimension"; "quan_x"; "m"] ["SPTAG"; "index"] build_quan_bkt;
  Cell ["SPTAG"; "q"] ["index"; "result"] search_quan_bkt;
  Cell ["os"; "shutil"; "vector_number"; "vector_dimension"; "x"; "m"] ["SPTAG"; "index"] build_spann;
  Cell ["SPTAG"; "q"] ["index"; "result"] search_spann;
  Cell ["os"; "shutil"; "vector_number"; "vector_dimension"; "quan_x"; "m"] ["SPTAG"; "index"] build_quan_spann;
  Cell ["SPTAG"; "q"] ["index"; "result"] search_quan_spann;
  Cell ["np"] ["SPTAGClient"; "time"; "client"; "k"; "vector_dimension"; "q"; "result"] (client_search fuel)].
End tutorial.

(** ** Names *)
Section names.
Context {ann iter client img rng : Type}.
Context `{!Sptag ann iter} `{!SptagClient client} `{!NumpyRandom rng} `{!SptagQuiet ann iter client}.
Context (subprocess_run : string -> py world Z) (Hrun : forall c, no_name (subprocess_run c)).

Abbreviation kernel := (Notebook.kernel (Notebook.value ann iter client img) rng).

Lemma last_batch_quiet r : last_batch r <> Raise NameError.
Proof. unfold last_batch. destruct (_ <? _); [done|]. apply no_name_index. Qed.
Local Hint Resolve last_batch_quiet Hrun : quiet.

Lemma tutorial_cells_ok fuel : Forall cell_ok (tutorial subprocess_run fuel : list (Notebook.cell (Notebook.value ann iter client img) rng)).
Proof.
  repeat apply Forall_cons_2; [..|apply Forall_nil_2]; unfold cell_ok; cbn [c_uses c_run c_defs];
    (eapply scoped_sub; [unfold set_param, read_quantized; scope | names]).
Qed.

(** C36: the tutorial is well scoped. Run from the top in a fresh kernel it never
    raises NameError, whatever the bindings, the quantizer and the service do;
    and after a full run its cells may be run again in any order. *)
Theorem tutorial_no_name_error fuel again (s : kernel) :
  env s = ∅ -> again ⊆ tutorial subprocess_run fuel ->
  (run_all (tutorial subprocess_run fuel ++ again) s).1 <> Raise NameError.
Proof.
  intros Hs Hag. assert (scoped [] (run_all (tutorial subprocess_run fuel ++ again)) []) as Hsc.
  { apply run_all_scoped.
    - pose proof (tutorial_cells_ok fuel) as HF. apply Forall_app_2; [done|]. rewrite Forall_forall in *. auto.
    - apply well_scoped_app; [vm_compute; reflexivity|]. apply Forall_forall. intros c Hc%Hag. revert c Hc. apply Forall_forall.
      repeat apply Forall_cons_2; [..|apply Forall_nil_2]; names. }
  specialize (Hsc s). destruct (run_all _ s) as [[a|e|] s']; cbn; [done| |done]. intros [= ->]. apply Hsc; [|done].
  intros n Hn. by apply not_elem_of_nil in Hn.
Qed.
End names.

(** ** The scan with an iterator *)

(** The tuple of lists of a batch of candidates, each with its flag. *)
Definition result_of (b : list (hit * bool)) : QueryResult :=
  QR ((fun c => c.1.1.1) <$> b) ((fun c => c.1.1.2) <$> b) ((fun c => c.1.2) <$> b) ((fun c => c.2) <$> b).

(** The candidates [l] are still to come: the next ten of them are the last
    batch the loop asks for. *)
Definition stops (l : list (hit * bool)) : bool :=
  (length l <? 10)%nat || match l with (_, true) :: _ => true | _ => false end.

Lemma nearer_fleb (x y : hit) : is_number x.1.2 = true -> is_number y.1.2 = true -> nearer x y <-> fleb x.1.2 y.1.2 = true.
Proof.
  intros Hx Hy. unfold nearer. destruct (fleb_total x.1.2 y.1.2 Hx Hy) as [H|H].
  - split; [done|]. intros _. apply not_true_iff_false. intros H'%fltb_not_fleb. congruence.
  - rewrite H. apply fltb_not_fleb in H. rewrite H. done.
Qed.

Lemma nearer_sorted l : Forall (fun h => is_number h.1.2 = true) l -> StronglySorted nearer (sort_by nearer l).
Proof.
  apply sort_by_sorted.
  - intros x y Hx Hy Hn. apply not_false_is_true in Hn. unfold nearer. apply not_true_iff_false. intros H.
    pose proof (fltb_trans _ _ _ H Hn) as E. by rewrite fltb_irrefl in E.
  - intros x y z Hx Hy Hz. rewrite !nearer_fleb by done. apply fleb_trans.
Qed.

Section scan.
Context {ann iter client img rng : Type}.
Context `{!Sptag ann iter} `{!SptagClient client} `{!NumpyRandom rng}.

Abbreviation value := (Notebook.value ann iter client img).
Abbreviation kernel := (Notebook.kernel value rng).

Lemma append_hit_eq pre c b acc (s : kernel) :
  env s !! "results" = Some (VHits acc) ->
  exists s', append_hit (result_of (pre ++ c :: b)) (Z.of_nat (length pre)) s = (Ret tt, s') /\
    env s' !! "results" = Some (VHits (acc ++ [c.1])%list) /\ same_but ["j"; "results"] s s'.
Proof.
  intros Hr. unfold append_hit. eexists. split; [|split].
  - erewrite bind_ret by reflexivity. erewrite bind_ret; [|eapply var_eq; [rewrite env_bind; exact Hr|reflexivity]].
    unfold result_of. cbn [r_ids r_dists r_metas].
    rewrite !py_index_nonneg, !Nat2Z.id, !list_lookup_fmap, list_lookup_middle by lia. cbn [fmap option_fmap option_map].
    unfold lift. do 3 erewrite bind_ret by reflexivity. reflexivity.
  - rewrite env_bind. destruct c as [[[a d] m] f]. done.
  - eapply same_but_trans; apply same_but_bind; set_solver.
Qed.

Lemma append_batch pre b acc (s : kernel) :
  env s !! "results" = Some (VHits acc) ->
  exists s', for_each (py_range (Z.of_nat (length pre)) (Z.of_nat (length (pre ++ b)))) (append_hit (result_of (pre ++ b))) s = (Ret tt, s') /\
    env s' !! "results" = Some (VHits (acc ++ b.*1)%list) /\ same_but ["j"; "results"] s s'.
Proof.
  revert pre acc s. induction b as [|c b IH]; intros pre acc s Hr.
  - exists s. rewrite !app_nil_r. unfold py_range. replace (Z.to_nat _) with 0%nat by lia. done.
  - rewrite length_app. cbn [length]. rewrite py_range_cons by lia. cbn [for_each].
    destruct (append_hit_eq pre c b acc s Hr) as (s1 & H1 & Hr1 & Hs1). rewrite (bind_ret _ _ _ _ _ H1).
    destruct (IH (pre ++ [c])%list (acc ++ [c.1])%list s1 Hr1) as (s2 & H2 & Hr2 & Hs2).
    rewrite !length_app in H2. rewrite <- !app_assoc in *. cbn [length app] in *.
    exists s2. split; [|split; [done|by eapply same_but_trans]].
    replace (Z.of_nat (length pre) + 1) with (Z.of_nat (length pre + 1)) by lia.
    by replace (length pre + S (length b))%nat with (length pre + 1 + length b)%nat by lia.
Qed.

(** An iterator asked for batches of ten, as the cell does: a fresh one is live;
    a live one has a finite sequence of candidates before it, gives the next ten
    of them, fewer at the end, and stays live after a full batch. *)
Context (live : iter -> Prop) (rest : iter -> list (hit * bool)).
Definition scans : Prop :=
  (forall i q it, GetIterator i q = Ret it -> live it) /\
  forall it, live it ->
    exists it', Next it 10 = Ret (result_of (take 10 (rest it)), it') /\ rest it' = drop 10 (rest it) /\
      ((10 <= length (rest it))%nat -> live it').
Context (Hscan : scans).

Lemma last_batch_stops l : last_batch (result_of (take 10 l)) = Ret (stops l).
Proof.
  unfold last_batch, stops, result_of. cbn [r_ids r_monos]. rewrite length_fmap, length_take.
  destruct (Nat.ltb_spec (length l) 10).
  - by replace (Z.of_nat (10 `min` length l) <? 10) with true by lia.
  - replace (Z.of_nat (10 `min` length l) <? 10) with false by lia. destruct l as [|[h [|]] l]; [cbn in *; lia|done..].
Qed.

Lemma scan_round_eq it acc (s : kernel) :
  live it -> env s !! "iterator" = Some (VIter it) -> env s !! "results" = Some (VHits acc) ->
  exists s' it', scan_round s = (Ret (if stops (rest it) then Some tt else None), s') /\
    rest it' = drop 10 (rest it) /\ (stops (rest it) = false -> live it') /\ env s' !! "iterator" = Some (VIter it') /\
    env s' !! "results" = Some (VHits (acc ++ (take 10 (rest it)).*1)%list) /\
    same_but ["iterator"; "result"; "j"; "results"] s s'.
Proof.
  intros Hlive Hi Hr. destruct (proj2 Hscan it Hlive) as (it' & Hn & Hrest & Hlive').
  unfold scan_round. erewrite bind_ret by by eapply var_eq. rewrite Hn. unfold lift at 1. do 3 erewrite bind_ret by reflexivity.
  cbn [fst snd]. set (s1 := bind_name _ _ (bind_name _ _ s)).
  destruct (append_batch [] (take 10 (rest it)) acc s1) as (s2 & H2 & Hr2 & Hw & Hg & He); [unfold s1; by rewrite !env_bind|].
  cbn [app length] in H2. change (Z.of_nat 0) with 0 in H2.
  exists s2, it'. split; [|split; [done|split; [unfold stops; intros Hst; apply Hlive'; lia|split; [|split; [done|]]]]].
  - erewrite bind_ret; [|unfold result_of at 1; cbn [r_ids]; rewrite length_fmap; exact H2].
    rewrite last_batch_stops. reflexivity.
  - rewrite He by set_solver. unfold s1. by rewrite !env_bind.
  - split_and!; [by rewrite Hw|by rewrite Hg|]. intros k Hk. rewrite He by set_solver. unfold s1. rewrite !env_bind.
    by rewrite !decide_False by set_solver.
Qed.

Lemma scan_loop fuel it acc (s : kernel) :
  live it -> (length (rest it) < 10 * fuel)%nat ->
  env s !! "iterator" = Some (VIter it) -> env s !! "results" = Some (VHits acc) ->
  exists n s' it', while_true fuel scan_round s = (Ret tt, s') /\
    stops (drop (10 * n) (rest it)) = true /\ (forall m, (m < n)%nat -> stops (drop (10 * m) (rest it)) = false) /\
    env s' !! "iterator" = Some (VIter it') /\
    env s' !! "results" = Some (VHits (acc ++ (take (10 * S n) (rest it)).*1)%list) /\
    same_but ["iterator"; "result"; "j"; "results"] s s'.
Proof.
  revert it acc s. induction fuel as [|fuel IH]; intros it acc s Hlive Hf Hi Hr; [lia|].
  destruct (scan_round_eq it acc s Hlive Hi Hr) as (s1 & it1 & H1 & Hrest & Hlive1 & Hi1 & Hr1 & Hs1).
  destruct (stops (rest it)) eqn:E.
  - exists 0%nat, s1, it1. split; [by apply while_true_break|]. split; [done|]. split; [lia|]. done.
  - rewrite (while_true_next _ _ _ _ H1). destruct (IH it1 _ s1 (Hlive1 eq_refl) ltac:(rewrite Hrest, length_drop; unfold stops in E; lia) Hi1 Hr1)
      as (n & s2 & it2 & H2 & Hst & Hfirst & Hi2 & Hr2 & Hs2).
    exists (S n), s2, it2. rewrite Hrest in *. rewrite drop_drop in Hst. split; [done|]. split; [by replace (10 * S n)%nat with (10 + 10 * n)%nat by lia|].
    split; [|split; [done|split; [|by eapply same_but_trans]]].
    + intros [|m] Hm; [done|]. specialize (Hfirst m ltac:(lia)). rewrite drop_drop in Hfirst.
      by replace (10 * S m)%nat with (10 + 10 * m)%nat by lia.
    + rewrite Hr2. do 2 f_equal. rewrite <- app_assoc, <- fmap_app. do 2 f_equal.
      replace (10 * S (S n))%nat with (10 + 10 * S n)%nat by lia. by rewrite take_take_drop.
Qed.

Definition numeric_hits (l : list hit) : Prop := Forall (fun h => is_number h.1.2 = true) l.

(** C34: the scan of the tutorial. It ends, after the first batch that is short
    or whose first candidate carries the relaxed-monotonicity flag; [results]
    then holds every candidate of the batches up to that one, no other, sorted
    by distance and with equal distances in the order of arrival; the ten
    printed are the ten nearest found. Without a flag that is every candidate
    of the index. *)
Theorem scan_collects fuel i q it (s : kernel) :
  (forall it : iter, exists it', Close it = Ret it') ->
  env s !! "index" = Some (VIndex i) -> env s !! "q" = Some (VVec q) ->
  GetIterator i (mjoin q) = Ret it -> (length (rest it) < 10 * fuel)%nat ->
  exists n s' found,
    scan fuel s = (Ret tt, s') /\
    stops (drop (10 * n) (rest it)) = true /\ (forall m, (m < n)%nat -> stops (drop (10 * m) (rest it)) = false) /\
    found = (take (10 * S n) (rest it)).*1 /\
    (Forall (fun c => c.2 = false) (rest it) -> found = (rest it).*1) /\
    exists results, env s' !! "results" = Some (VHits results) /\ results ≡ₚ found /\
      (forall d, filter (fun h => h.1.2 = d) results = filter (fun h => h.1.2 = d) found) /\
      (numeric_hits found -> StronglySorted nearer results) /\
      stdout (wld s') = (stdout (wld s) ++ [repr_list repr_hit (take 10 results)])%list.
Proof.
  intros Hclose Hi Hq Hit Hf. unfold scan. erewrite bind_ret by reflexivity.
  erewrite bind_ret by (eapply var_eq; [by rewrite env_bind|reflexivity]).
  erewrite bind_ret by (eapply var_eq; [by rewrite env_bind|reflexivity]).
  rewrite Hit. do 2 erewrite bind_ret by reflexivity.
  set (s1 := bind_name _ _ (bind_name _ _ s)).
  destruct (scan_loop fuel it [] s1 (proj1 Hscan _ _ _ Hit) Hf) as (n & s2 & it' & H2 & Hst & Hfirst & Hi2 & Hr2 & Hw & _ & _);
    [unfold s1; by rewrite !env_bind..|].
  rewrite (bind_ret _ _ _ _ _ H2). erewrite bind_ret by by eapply var_eq.
  destruct (Hclose it') as [it2 ->]. do 2 erewrite bind_ret by reflexivity.
  erewrite bind_ret by (eapply var_eq; [rewrite env_bind; exact Hr2|reflexivity]). erewrite bind_ret by reflexivity.
  erewrite bind_ret by (eapply var_eq; [by rewrite env_bind|reflexivity]).
  set (found := (take (10 * S n) (rest it)).*1).
  eexists n, _, found. split; [reflexivity|]. do 3 (split; [done|]). split.
  { intros HF. unfold found. rewrite take_ge; [done|]. unfold stops in Hst. apply orb_prop in Hst as [Hs|Hs].
    - apply Nat.ltb_lt in Hs. rewrite length_drop in Hs. lia.
    - destruct (drop (10 * n) (rest it)) as [|[h []] l] eqn:E; [done| |done]. exfalso.
      apply (Forall_drop _ (10 * n)) in HF. rewrite E in HF. apply Forall_cons in HF as [HF _]. done. }
  exists (sort_by nearer found). cbn [env wld]. split; [by rewrite env_bind|]. split; [apply sort_by_perm|].
  split; [|split; [by apply nearer_sorted|]].
  - intros d. apply sort_by_stable. intros x y <- Hy. unfold nearer. rewrite Hy. by apply fltb_irrefl.
  - cbn [stdout]. f_equal. exact (f_equal stdout Hw).
Qed.
End scan.

(** ** Waiting for the service, and the client's cell *)
Section client.
Context {ann iter client img rng : Type}.
Context `{!Sptag ann iter} `{!SptagClient client} `{!NumpyRandom rng}.

Abbreviation kernel := (Notebook.kernel (Notebook.value ann iter client img) rng).

(** The client after [n] seconds. *)
Definition after (n : nat) (c : client) : client := Nat.iter n (pass 1) c.

Lemma after_S n c : after n (pass 1 c) = after (S n) c.
Proof. unfold after. by rewrite <- Nat.iter_succ_r. Qed.

(** One round of the wait. *)
Lemma wait_step fuel c (s : kernel) :
  env s !! "client" = Some (VClient c) -> is_Some (env s !! "time") ->
  wait_connected (S fuel) s =
    if IsConnected c then (Ret tt, s) else wait_connected fuel (bind_name "client" (VClient (pass 1 c)) s).
Proof.
  intros Hc [v Hv]. unfold wait_connected. destruct (IsConnected c) eqn:E.
  - apply while_true_break. erewrite bind_ret by by eapply var_eq. by rewrite E.
  - apply while_true_next. erewrite bind_ret by by eapply var_eq. rewrite E.
    by erewrite bind_ret by by apply name_eq.
Qed.

Lemma wait_connected_ends n fuel c (s : kernel) :
  env s !! "client" = Some (VClient c) -> is_Some (env s !! "time") ->
  IsConnected (after n c) = true -> (forall m, (m < n)%nat -> IsConnected (after m c) = false) -> (n < fuel)%nat ->
  exists s', wait_connected fuel s = (Ret tt, s') /\ env s' !! "client" = Some (VClient (after n c)) /\ same_but ["client"] s s'.
Proof.
  revert fuel c s. induction n as [|n IH]; intros [|fuel] c s Hc Ht Hn Hm Hf; try lia; rewrite (wait_step fuel c s Hc Ht).
  - change (after 0 c) with c in *. rewrite Hn. by exists s.
  - rewrite (Hm 0%nat ltac:(lia) : IsConnected c = false).
    destruct (IH fuel (pass 1 c) (bind_name "client" (VClient (pass 1 c)) s)) as (s' & H & He & Hs).
    + by rewrite env_bind.
    + by rewrite env_bind.
    + by rewrite after_S.
    + intros m Hlt. rewrite after_S. apply Hm. lia.
    + lia.
    + exists s'. rewrite after_S in He. split; [done|]. split; [done|].
      eapply same_but_trans; [|done]. apply same_but_bind. set_solver.
Qed.

Lemma wait_connected_diverges fuel c (s : kernel) :
  env s !! "client" = Some (VClient c) -> is_Some (env s !! "time") ->
  (forall n, IsConnected (after n c) = false) -> (wait_connected fuel s).1 = OutOfFuel.
Proof.
  revert c s. induction fuel as [|fuel IH]; intros c s Hc Ht Hn; [done|]. rewrite (wait_step fuel c s Hc Ht), (Hn 0%nat : IsConnected c = false).
  apply (IH (pass 1 c)); [by rewrite env_bind|by rewrite env_bind|]. intros n. rewrite after_S. apply Hn.
Qed.

Lemma print_result_eq r (s : kernel) :
  exists s', print_result r s = (Ret tt, s') /\ env s' = env s /\ gen s' = gen s /\
    fs (wld s') = fs (wld s) /\ dirs (wld s') = dirs (wld s) /\
    stdout (wld s') = (stdout (wld s) ++ [repr_list str_of_Z (r_ids r); repr_list float_repr (r_dists r);
                                          repr_list repr_meta (r_metas r)])%list.
Proof. eexists. split; [reflexivity|]. cbn. split_and!; try done. by rewrite <- !app_assoc. Qed.

Lemma random_query_eq vnp d q g (s : kernel) :
  env s !! "np" = Some vnp -> env s !! "vector_dimension" = Some (VInt d) -> rand1 d (gen s) = (q, g) ->
  random_query s = (Ret tt, bind_name "q" (VVec q) (Kernel (env s) (wld s) g)).
Proof.
  intros Hnp Hd Hq. unfold random_query. erewrite bind_ret by by apply name_eq.
  erewrite bind_ret by by eapply var_eq. unfold draw. erewrite bind_ret; [reflexivity|]. by rewrite Hq.
Qed.

Lemma client_search_runs fuel n c0 c1 r (s : kernel) :
  is_Some (env s !! "np") -> AnnClient_new "127.0.0.1" "8000" = Ret c0 ->
  IsConnected (after n c0) = true -> (forall m, (m < n)%nat -> IsConnected (after m c0) = false) -> (n < fuel)%nat ->
  SetTimeoutMilliseconds (after n c0) 18000 = Ret c1 ->
  client_Search c1 (mjoin (rand1 10 (gen s)).1) 3 "Float" true = Ret r ->
  exists s', client_search fuel s = (Ret tt, s') /\ env s' !! "result" = Some (VResult r) /\
    env s' !! "vector_dimension" = Some (VInt 10) /\
    (forall v, v ∉ ["SPTAGClient"; "time"; "client"; "k"; "vector_dimension"; "q"; "result"] -> env s' !! v = env s !! v) /\
    fs (wld s') = fs (wld s) /\ dirs (wld s') = dirs (wld s) /\
    stdout (wld s') = (stdout (wld s) ++ [repr_list str_of_Z (r_ids r); repr_list float_repr (r_dists r);
                                          repr_list repr_meta (r_metas r)])%list.
Proof.
  intros [vnp Hnp] Hnew Hn Hm Hf Hto Hs. unfold client_search, import_. do 2 erewrite bind_ret by reflexivity. erewrite bind_ret by (apply name_eq; by read_env).
  rewrite Hnew. do 2 erewrite bind_ret by reflexivity. set (s1 := bind_name "client" _ _).
  destruct (wait_connected_ends n fuel c0 s1) as (s2 & H2 & Hc2 & Hw2 & Hg2 & He2);
    [unfold s1; by read_env|unfold s1; read_env; by eexists|done..|].
  rewrite (bind_ret _ _ _ _ _ H2). erewrite bind_ret by by eapply var_eq. rewrite Hto. do 4 erewrite bind_ret by reflexivity.
  assert (env s2 !! "np" = Some vnp) as Hnp2 by (rewrite He2 by set_solver; unfold s1; by read_env).
  set (s3 := bind_name "vector_dimension" _ _).
  destruct (rand1 10 (gen s)) as [q g] eqn:Eq. cbn [fst] in Hs.
  rewrite (bind_ret _ _ s3 (bind_name "q" (VVec q) (Kernel (env s3) (wld s3) g)) tt).
  2: { apply (random_query_eq vnp 10); [unfold s3; by read_env..|]. unfold s3. cbn. rewrite Hg2. exact Eq. }
  do 3 erewrite bind_ret by (eapply var_eq; [unfold s3; by read_env|reflexivity]).
  rewrite Hs. do 2 erewrite bind_ret by reflexivity. set (s4 := bind_name "result" _ _).
  destruct (print_result_eq r s4) as (s5 & H5 & He5 & _ & Hfs & Hd & Hout).
  exists s5. split; [done|]. rewrite He5, Hfs, Hd, Hout. unfold s4, s3. split; [by read_env|]. split; [by read_env|].
  cbn [wld bind_name]. rewrite Hw2. split; [|done].
  intros v Hv. read_env. rewrite !decide_False by set_solver. rewrite He2 by set_solver. unfold s1. read_env.
  by rewrite !decide_False by set_solver.
Qed.

(** C35: the client's cell makes progress exactly when the service comes up. If
    the connection stands after [n] seconds, not before, the cell waits those
    [n] seconds, sends one query of ten random components with a time limit of
    18 seconds, and prints the answer; it leaves [vector_dimension] at 10 for
    every cell run after it. If the connection never stands it waits for ever. *)
Theorem client_search_live fuel n c0 c1 r (s : kernel) :
  is_Some (env s !! "np") ->
  AnnClient_new "127.0.0.1" "8000" = Ret c0 ->
  (IsConnected (after n c0) = true -> (forall m, (m < n)%nat -> IsConnected (after m c0) = false) -> (n < fuel)%nat ->
   SetTimeoutMilliseconds (after n c0) 18000 = Ret c1 ->
   client_Search c1 (mjoin (rand1 10 (gen s)).1) 3 "Float" true = Ret r ->
   exists s', client_search fuel s = (Ret tt, s') /\ env s' !! "result" = Some (VResult r) /\
     env s' !! "vector_dimension" = Some (VInt 10) /\
     (forall v, v ∉ ["SPTAGClient"; "time"; "client"; "k"; "vector_dimension"; "q"; "result"] -> env s' !! v = env s !! v) /\
     fs (wld s') = fs (wld s) /\ dirs (wld s') = dirs (wld s) /\
     stdout (wld s') = (stdout (wld s) ++ [repr_list str_of_Z (r_ids r); repr_list float_repr (r_dists r);
                                           repr_list repr_meta (r_metas r)])%list) /\
  ((forall n, IsConnected (after n c0) = false) -> (client_search fuel s).1 = OutOfFuel).
Proof.
  intros Hnp Hnew. split; [by apply client_search_runs|].
  intros Hn. unfold client_search, import_. do 2 erewrite bind_ret by reflexivity. erewrite bind_ret by (apply name_eq; by read_env).
  rewrite Hnew. do 2 erewrite bind_ret by reflexivity. set (s1 := bind_name "client" _ _).
  pose proof (wait_connected_diverges fuel c0 s1) as Hd. destruct (wait_connected fuel s1) as [o s2] eqn:E.
  cbn [fst] in Hd. rewrite Hd in E; [|unfold s1; by read_env|unfold s1; read_env; by eexists|done].
  by rewrite (bind_fuel _ _ _ _ E).
Qed.
End client.

(** ** The index in memory *)

(** What the binding promises of a BKT index that is built in memory and saved
    (Wrappers/src/CoreInterface.cpp): [vec_bytes] is the size it expects of a
    vector, [contents] the vectors, the metadata and the number of vectors it was
    built from, if it was. A build refuses data of another size before it does
    anything; data of that size, of a dimension other than zero, with one line
    of metadata per vector makes a fresh index hold it. Only an index that was
    built can be saved; [index_files] are its files, which make up a new
    directory without subdirectories. *)
Class MemoryIndex (ann iter : Type) `{!Sptag ann iter} := {
  is_bkt : ann -> bool;
  vec_bytes : ann -> Z;
  contents : ann -> option (list byte * string * Z);
  index_files : ann -> gmap string (list byte);
  files_flat : forall i c n, is_bkt i = true -> contents i = Some c -> is_Some (index_files i !! n) ->
    head (split_on "/" n) = Some n;
  new_ok : forall d, exists i : ann, AnnIndex_new "BKT" "Float" d = Ret i /\
    is_bkt i = true /\ vec_bytes i = 4 * d /\ contents i = None;
  param_ok : forall (i : ann) n v, n ∈ ["NumberOfThreads"; "DistCalcMethod"] ->
    exists i', SetBuildParam i n v (Some "Index") = Ret i' /\
      is_bkt i' = is_bkt i /\ vec_bytes i' = vec_bytes i /\ contents i' = contents i;
  build_refuses : forall (i : ann) data m n w,
    Z.of_nat (length data) <> n * vec_bytes i ->
    exists i', BuildWithMetaData i data m n false false w = (Ret (false, i'), w);
  build_accepts : forall (i : ann) data m n w,
    is_bkt i = true -> contents i = None -> 0 < n -> 0 < vec_bytes i ->
    Z.of_nat (length data) = n * vec_bytes i -> Z.of_nat (length (lines_of m)) = n ->
    exists i', BuildWithMetaData i data m n false false w = (Ret (true, i'), w) /\
      is_bkt i' = true /\ contents i' = Some (data, m, n);
  save_ok : forall (i : ann) c dir w,
    is_bkt i = true -> contents i = Some c ->
    path_exists w dir = false -> (forall r, fs w !! (dir ++ "/" ++ r) = None /\ dir ++ "/" ++ r ∉ dirs w) ->
    exists w', Save i dir w = (Ret true, w') /\ dir ∈ dirs w' /\
      (forall r, fs w' !! (dir ++ "/" ++ r) = index_files i !! r /\ dir ++ "/" ++ r ∉ dirs w') /\
      (forall q, under dir q = false -> fs w' !! q = fs w !! q)
}.

(** numpy draws the rows and columns it is asked for, four bytes each. *)
Class NumpyShapes (rng : Type) `{!NumpyRandom rng} : Prop := {
  rand2_shape : forall n d g, 0 <= n -> 0 <= d ->
    Z.of_nat (length (rand2 n d g).1) = n /\
    Forall (fun row => Z.of_nat (length row) = d /\ Forall (fun x : item => length x = 4%nat) row) (rand2 n d g).1
}.

Section building.
Context {ann iter client img rng : Type}.
Context `{!Sptag ann iter} `{!SptagClient client} `{!NumpyRandom rng}.

Abbreviation kernel := (Notebook.kernel (Notebook.value ann iter client img) rng).

Lemma metadata_loop_eq l acc (s : kernel) :
  env s !! "m" = Some (VStr acc) ->
  exists s', for_each l (fun i =>
      assign "i" (VInt i);; m ← var to_str "m"; assign "m" (VStr (m ++ str_of_Z i ++ newline))) s = (Ret tt, s') /\
    env s' !! "m" = Some (VStr (acc ++ unlines (str_of_Z <$> l))) /\ same_but ["i"; "m"] s s'.
Proof.
  revert acc s. induction l as [|z l IH]; intros acc s Hm; cbn [for_each].
  - exists s. cbn. rewrite str_app_nil_r. done.
  - erewrite bind_ret. 2: { erewrite bind_ret by reflexivity. erewrite bind_ret by (eapply var_eq; [by read_env|reflexivity]). reflexivity. }
    set (s1 := bind_name "m" _ _). destruct (IH (acc ++ str_of_Z z ++ newline) s1) as (s' & H & He & Hs); [unfold s1; by read_env|].
    exists s'. split; [done|]. split.
    + rewrite He. cbn [fmap list_fmap]. change (unlines (str_of_Z z :: ?l)) with ((str_of_Z z ++ newline) ++ unlines l). by rewrite !str_app_assoc.
    + eapply same_but_trans; [|done]. unfold s1. eapply same_but_trans; apply same_but_bind; set_solver.
Qed.

Lemma str_of_Z_no_lf z : no_lf (str_of_Z z) = true.
Proof.
  pose proof (str_of_Z_word z) as H. unfold is_word in H. apply andb_prop in H as [_ H].
  unfold no_lf. eapply all_chars_impl; [|exact H]. intros c Hc. destruct (Ascii.eqb_spec c LF) as [->|]; [done|done].
Qed.

(** The metadata of [n] vectors: line [i] is the text of [i]. *)
Definition metadata (n : Z) : string := unlines (str_of_Z <$> py_range 0 n).

Lemma metadata_lines n : lines_of (metadata n) = (fun i => str_of_Z i ++ newline) <$> py_range 0 n.
Proof.
  unfold metadata. rewrite lines_of_concat; [by rewrite <- list_fmap_compose|].
  apply Forall_fmap, Forall_forall. intros z _. apply str_of_Z_no_lf.
Qed.

Lemma prepare_data_eq (s : kernel) :
  exists s', prepare_data s = (Ret tt, s') /\
    env s' !! "m" = Some (VStr (metadata 1000)) /\
    env s' !! "x" = Some (VMatrix (Matrix 100 (rand2 1000 100 (gen s)).1)) /\
    env s' !! "vector_number" = Some (VInt 1000) /\ env s' !! "vector_dimension" = Some (VInt 100) /\
    env s' !! "os" = Some VMod /\ env s' !! "shutil" = Some VMod /\ env s' !! "np" = Some VMod /\
    gen s' = (rand2 1000 100 (gen s)).2 /\ wld s' = wld s.
Proof.
  unfold prepare_data, import_. do 5 erewrite bind_ret by reflexivity. erewrite bind_ret by (apply name_eq; by read_env).
  do 2 erewrite bind_ret by (eapply var_eq; [by read_env|reflexivity]).
  erewrite bind_ret by apply draw_eq. do 2 erewrite bind_ret by reflexivity.
  erewrite bind_ret by (eapply var_eq; [by read_env|reflexivity]). set (s1 := bind_name "m" _ _).
  destruct (metadata_loop_eq (py_range 0 1000) "" s1) as (s2 & H2 & Hm & Hw & Hg & He); [unfold s1; by read_env|].
  exists s2. split; [exact H2|]. split; [exact Hm|]. rewrite !He by names. unfold s1. split_and!; [by read_env..| |].
  - rewrite Hg. reflexivity.
  - rewrite Hw. reflexivity.
Qed.

(** [index.SetBuildParam] on a known index. *)
Lemma set_param_eq n v sec i i' (s : kernel) :
  env s !! "index" = Some (VIndex i) -> SetBuildParam i n v (Some sec) = Ret i' ->
  set_param (n, v, sec) s = (Ret tt, bind_name "index" (VIndex i') s).
Proof.
  intros Hi Hp. unfold set_param. erewrite bind_ret by by eapply var_eq. rewrite Hp. by erewrite bind_ret by reflexivity.
Qed.

(** Removing the old index. *)
Lemma clean_dir dir vos vsh (s : kernel) :
  env s !! "os" = Some vos -> env s !! "shutil" = Some vsh -> fs (wld s) !! dir = None ->
  (dir ∉ dirs (wld s) -> forall r, fs (wld s) !! (dir ++ "/" ++ r) = None /\ dir ++ "/" ++ r ∉ dirs (wld s)) ->
  exists w, (name "os";; e ← in_world (os_path_exists dir); when e (name "shutil";; in_world (rmtree dir))) s =
      (Ret tt, Kernel (env s) w (gen s)) /\
    path_exists w dir = false /\ (dir ∉ dirs w) /\ (forall r, fs w !! (dir ++ "/" ++ r) = None /\ dir ++ "/" ++ r ∉ dirs w) /\
    (forall q, under dir q = false -> fs w !! q = fs (wld s) !! q).
Proof.
  intros Hos Hsh Hf Hfree. erewrite bind_ret by by apply name_eq.
  erewrite bind_ret by apply in_world_exists. destruct (decide (dir ∈ dirs (wld s))) as [Hd|Hd].
  - rewrite (path_exists_dir _ _ Hd). destruct (rmtree_spec dir (wld s) Hd) as (w & Hw & Hnd & Hnf & Hsame & _ & Hnsub).
    exists w. split.
    { unfold when. erewrite bind_ret by by apply name_eq. apply in_world_ret. exact Hw. }
    split; [|split; [done|split; [done|done]]]. apply path_exists_absent; [|done].
    by rewrite Hsame by apply under_self.
  - rewrite (path_exists_absent _ _ Hf Hd). exists (wld s). split; [by destruct s|]. split; [by apply path_exists_absent|].
    split; [done|]. split; [by apply Hfree|done].
Qed.

(** The rest of a cell that builds, after the old index is gone. *)
Lemma rebuild_clean dir build w (s : kernel) :
  (name "os";; e ← in_world (os_path_exists dir); when e (name "shutil";; in_world (rmtree dir))) s = (Ret tt, Kernel (env s) w (gen s)) ->
  rebuild dir build s =
    (b ← build;
     when b (i ← var to_index "index"; _ ← in_world (Save i dir); mret tt);;
     name "os";; l ← in_world (listdir dir); assign "_" (VNames l)) (Kernel (env s) w (gen s)).
Proof.
  intros H. unfold rebuild. revert H. unfold mbind, py_bind. destruct (name "os" s) as [[v|e|] s1]; [|done..].
  destruct (in_world (os_path_exists dir) s1) as [[b|e|] s2]; [|done..]. by intros ->.
Qed.

Lemma build_with_metadata_eq data i x m n b i' (s : kernel) :
  env s !! "index" = Some (VIndex i) -> env s !! data = Some (VMatrix x) -> env s !! "m" = Some (VStr m) ->
  env s !! "vector_number" = Some (VInt n) ->
  BuildWithMetaData i (tobytes x) m n false false (wld s) = (Ret (b, i'), wld s) ->
  build_with_metadata data s = (Ret b, bind_name "index" (VIndex i') s).
Proof.
  intros Hi Hx Hm Hn Hb. unfold build_with_metadata. do 4 erewrite bind_ret by by eapply var_eq.
  erewrite bind_ret; [|apply in_world_ret; exact Hb]. by destruct s.
Qed.

Context `{!MemoryIndex ann iter}.

(** A fresh index with the cell's two parameters. *)
Lemma build_bkt_start d (s : kernel) :
  env s !! "vector_dimension" = Some (VInt d) ->
  exists i, is_bkt i = true /\ vec_bytes i = 4 * d /\ contents i = None /\
    build_bkt s = rebuild "sptag_index" (build_with_metadata "x") (bind_name "index" (VIndex i) (bind_name "SPTAG" VMod s)).
Proof.
  intros Hd. destruct (new_ok (ann := ann) (iter := iter) d) as (i0 & Hnew & Ha0 & Hb0 & Hc0).
  destruct (param_ok i0 "NumberOfThreads" "4" ltac:(set_solver)) as (i1 & Hp1 & Ha1 & Hb1 & Hc1).
  destruct (param_ok i1 "DistCalcMethod" "L2" ltac:(set_solver)) as (i2 & Hp2 & Ha2 & Hb2 & Hc2).
  exists i2. split_and!; [congruence..|]. unfold build_bkt, new_index, import_.
  erewrite bind_ret. 2: { erewrite bind_ret by reflexivity. erewrite bind_ret by (apply name_eq; by read_env).
    erewrite bind_ret by (eapply var_eq; [by read_env|reflexivity]). unfold id. rewrite Hnew. by erewrite bind_ret by reflexivity. }
  do 2 erewrite bind_ret by (eapply set_param_eq; [by read_env|done]). f_equal. unfold bind_name. cbn [env wld gen].
  rewrite !insert_insert_eq. done.
Qed.

(** Building the tutorial's index replaces the directory: whether or not an
    older index was there, afterwards [sptag_index] holds exactly the files of
    the index just built, the cell's value lists exactly those files, and no
    file outside the directory has changed. *)
Lemma build_bkt_replaces n d x m (s : kernel) :
  env s !! "vector_number" = Some (VInt n) -> env s !! "vector_dimension" = Some (VInt d) ->
  env s !! "x" = Some (VMatrix x) -> env s !! "m" = Some (VStr m) ->
  env s !! "os" = Some VMod -> env s !! "shutil" = Some VMod ->
  0 < n -> 0 < d -> Z.of_nat (length (tobytes x)) = n * (4 * d) -> Z.of_nat (length (lines_of m)) = n ->
  fs (wld s) !! "sptag_index" = None ->
  ("sptag_index" ∉ dirs (wld s) ->
     forall r, fs (wld s) !! ("sptag_index" ++ "/" ++ r) = None /\ "sptag_index" ++ "/" ++ r ∉ dirs (wld s)) ->
  exists i l s', build_bkt s = (Ret tt, s') /\
    env s' !! "index" = Some (VIndex i) /\ contents i = Some (tobytes x, m, n) /\ env s' !! "_" = Some (VNames l) /\
    (forall f, f ∈ l <-> is_Some (index_files i !! f)) /\
    (forall r, fs (wld s') !! ("sptag_index" ++ "/" ++ r) = index_files i !! r) /\
    (forall q, under "sptag_index" q = false -> fs (wld s') !! q = fs (wld s) !! q) /\
    (forall v, v ∉ ["SPTAG"; "index"; "_"] -> env s' !! v = env s !! v).
Proof.
  intros Hn Hd Hx Hm Hos Hsh Hpos Hdim Hlen Hlines Hfile Hfree.
  destruct (build_bkt_start d s Hd) as (i & Ha & Hb & Hnone & ->).
  set (s1 := bind_name "index" _ _).
  destruct (clean_dir "sptag_index" VMod VMod s1) as (w & Hc & Hpe & Hnd & Hnf & Hsame); [unfold s1; by read_env..|done|done|].
  rewrite (rebuild_clean _ _ _ _ Hc). clear Hc. set (s2 := Kernel (env s1) w (gen s1)).
  destruct (build_accepts i (tobytes x) m n w Ha Hnone Hpos ltac:(lia) ltac:(by rewrite Hb) Hlines) as (i' & Hbuild & Ha' & Hcont).
  erewrite bind_ret by (eapply build_with_metadata_eq; [unfold s2, s1; by read_env..|exact Hbuild]).
  destruct (save_ok i' _ "sptag_index" w Ha' Hcont Hpe Hnf) as (w' & Hsave & Hd' & Hf' & Hsame').
  erewrite bind_ret. 2: { unfold when. erewrite bind_ret by (eapply var_eq; [by read_env|reflexivity]).
    erewrite bind_ret by (apply in_world_ret; exact Hsave). reflexivity. }
  erewrite bind_ret by (apply name_eq; unfold s2, s1; by read_env).
  erewrite bind_ret. 2: { apply in_world_ret. unfold listdir. cbn [wld]. rewrite bool_decide_true by done. reflexivity. }
  eexists i', _, _. split; [reflexivity|]. split; [by read_env|]. split; [done|]. split; [by read_env|]. cbn [wld bind_name].
  split; [|split; [intros r; apply Hf'|split; [intros q Hq; by rewrite Hsame', Hsame|]]].
  2: { intros v Hv. unfold s2, s1. read_env. by rewrite !decide_False by set_solver. }
  intros f. rewrite elem_of_elements, elem_of_entries. split.
  - intros (r & [Hr|Hr] & Hh); [|by apply Hf' in Hr]. rewrite (proj1 (Hf' r)) in Hr.
    rewrite (files_flat _ _ _ Ha' Hcont Hr) in Hh. by simplify_eq.
  - intros Hf. exists f. split; [left; by rewrite (proj1 (Hf' f))|by eapply files_flat].
Qed.

(** The same cell with a dimension the data does not have. *)
Lemma build_bkt_mismatch n d x m (s : kernel) :
  env s !! "vector_number" = Some (VInt n) -> env s !! "vector_dimension" = Some (VInt d) ->
  env s !! "x" = Some (VMatrix x) -> env s !! "m" = Some (VStr m) ->
  env s !! "os" = Some VMod -> env s !! "shutil" = Some VMod ->
  Z.of_nat (length (tobytes x)) <> n * (4 * d) -> "sptag_index" ∈ dirs (wld s) -> fs (wld s) !! "sptag_index" = None ->
  exists s', build_bkt s = (Raise FileNotFoundError, s') /\ ("sptag_index" ∉ dirs (wld s')) /\
    forall r, fs (wld s') !! ("sptag_index" ++ "/" ++ r) = None.
Proof.
  intros Hn Hd Hx Hm Hos Hsh Hlen Hdir Hfile. destruct (build_bkt_start d s Hd) as (i & _ & Hb & _ & ->).
  set (s1 := bind_name "index" _ _).
  destruct (clean_dir "sptag_index" VMod VMod s1) as (w & Hc & Hpe & Hnd & Hnf & Hsame); [unfold s1; by read_env..|done|done|].
  rewrite (rebuild_clean _ _ _ _ Hc). clear Hc. set (s2 := Kernel (env s1) w (gen s1)).
  destruct (build_refuses i (tobytes x) m n w ltac:(by rewrite Hb)) as (i' & Hbuild).
  erewrite bind_ret by (eapply build_with_metadata_eq; [unfold s2, s1; by read_env..|exact Hbuild]).
  erewrite bind_ret by reflexivity. erewrite bind_ret by (apply name_eq; unfold s2, s1; by read_env).
  eexists. split.
  { erewrite bind_raise; [reflexivity|]. apply in_world_ret. exact (listdir_absent _ _ Hpe). }
  split; [exact Hnd|intros r; apply Hnf].
Qed.

Context `{!NumpyShapes rng}.

Lemma tobytes_rand2 n d g : 0 <= n -> 0 <= d -> Z.of_nat (length (tobytes (Matrix d (rand2 n d g).1))) = n * (4 * d).
Proof.
  intros Hn Hd. destruct (rand2_shape n d g Hn Hd) as [Hl HF]. unfold tobytes. cbn [mrows].
  set (rows := (rand2 n d g).1) in *. clearbody rows. subst n. clear Hn. induction HF as [|row rows [Hr Hit] HF IH]; [cbn; lia|].
  change (mjoin (row :: rows)) with (row ++ mjoin rows)%list. rewrite join_app, length_app, Nat2Z.inj_add, IH. cbn [length].
  assert (length (mjoin row) = 4 * length row)%nat as ->; [|lia].
  clear -Hit. induction Hit as [|x row Hx Hit IH]; [done|]. change (mjoin (x :: row)) with (x ++ mjoin row)%list.
  rewrite length_app. cbn [length]. lia.
Qed.

(** C37: the first two cells build the tutorial's index. The index bound to
    [index] was built from exactly the bytes of the matrix [x] that was drawn
    and the metadata [m], one line for each of the 1000 vectors, line [i] being
    the number [i]; afterwards [sptag_index] holds exactly the files of that
    index, whether or not an older index was there, the value shown lists
    exactly those files, and no file outside the directory has changed. *)
Theorem tutorial_builds_index (s : kernel) :
  fs (wld s) !! "sptag_index" = None ->
  ("sptag_index" ∉ dirs (wld s) ->
     forall r, fs (wld s) !! ("sptag_index" ++ "/" ++ r) = None /\ "sptag_index" ++ "/" ++ r ∉ dirs (wld s)) ->
  exists i x l m s', (prepare_data;; build_bkt) s = (Ret tt, s') /\
    x = Matrix 100 (rand2 1000 100 (gen s)).1 /\ env s' !! "x" = Some (VMatrix x) /\
    env s' !! "m" = Some (VStr m) /\ lines_of m = (fun i => str_of_Z i ++ newline) <$> py_range 0 1000 /\
    env s' !! "index" = Some (VIndex i) /\ contents i = Some (tobytes x, m, 1000) /\ env s' !! "_" = Some (VNames l) /\
    (forall f, f ∈ l <-> is_Some (index_files i !! f)) /\
    (forall r, fs (wld s') !! ("sptag_index" ++ "/" ++ r) = index_files i !! r) /\
    (forall q, under "sptag_index" q = false -> fs (wld s') !! q = fs (wld s) !! q).
Proof.
  intros Hfile Hfree. destruct (prepare_data_eq s) as (s1 & H1 & Hm & Hx & Hn & Hd & Hos & Hsh & Hnp & Hg & Hw).
  rewrite (bind_ret _ _ _ _ _ H1). rewrite <- Hw in Hfile, Hfree.
  destruct (build_bkt_replaces 1000 100 _ (metadata 1000) s1 Hn Hd Hx Hm Hos Hsh) as (i & l & s2 & H2 & Hi & Hc & Hl & Hf & Hr & Hq & Hv);
    [done|done|by apply tobytes_rand2|by rewrite metadata_lines, length_fmap, length_py_range|done|done|].
  eexists i, _, l, (metadata 1000), s2. rewrite Hw in Hq. split; [done|]. split; [reflexivity|].
  split; [by rewrite Hv by names|]. split; [by rewrite Hv by names|]. split; [apply metadata_lines|done].
Qed.

(** C39: [vector_dimension] is shared by all cells, and the client's cell sets it
    to 10 while the data keeps its 100 columns. Building again after the client
    ran therefore deletes the saved index first, is then refused by the
    binding, and stops with FileNotFoundError at the listing: the index is
    gone. *)
Theorem rebuild_after_client_loses_index fuel n c0 c1 r (s : kernel) :
  "sptag_index" ∈ dirs (wld s) -> fs (wld s) !! "sptag_index" = None ->
  AnnClient_new "127.0.0.1" "8000" = Ret c0 ->
  IsConnected (after n c0) = true -> (forall m, (m < n)%nat -> IsConnected (after m c0) = false) -> (n < fuel)%nat ->
  SetTimeoutMilliseconds (after n c0) 18000 = Ret c1 ->
  client_Search c1 (mjoin (rand1 10 (rand2 1000 100 (gen s)).2).1) 3 "Float" true = Ret r ->
  exists s', (prepare_data;; client_search fuel;; build_bkt) s = (Raise FileNotFoundError, s') /\
    ("sptag_index" ∉ dirs (wld s')) /\ forall p, fs (wld s') !! ("sptag_index" ++ "/" ++ p) = None.
Proof.
  intros Hdir Hfile Hnew Hc Hm Hf Hto Hs. destruct (prepare_data_eq s) as (s1 & H1 & Hmd & Hx & Hn & Hd & Hos & Hsh & Hnp & Hg & Hw).
  rewrite (bind_ret _ _ _ _ _ H1). rewrite <- Hg in Hs. rewrite <- Hw in Hdir, Hfile.
  destruct (client_search_runs fuel n c0 c1 r s1) as (s2 & H2 & _ & Hd2 & Hv2 & Hfs & Hdirs & _); [by eexists|done..|].
  rewrite (bind_ret _ _ _ _ _ H2). rewrite <- Hfs in Hfile. rewrite <- Hdirs in Hdir.
  apply (build_bkt_mismatch 1000 10 (Matrix 100 (rand2 1000 100 (gen s)).1) (metadata 1000)); [|done|..|done|done];
    [by rewrite Hv2 by names..|]. rewrite tobytes_rand2 by lia. lia.
Qed.
End building.

(** ** Reading the quantized vectors *)
Section quantized.
Context {ann iter client img rng : Type}.
Context `{!Sptag ann iter} `{!SptagClient client} `{!NumpyRandom rng}.

Abbreviation kernel := (Notebook.kernel (Notebook.value ann iter client img) rng).

Lemma elements_1 b : elements 1 b = (fun x : byte => [x]) <$> b.
Proof.
  unfold elements. rewrite Nat.div_1_r. induction b as [|x b IH]; [done|]. cbn [length rows_of fmap list_fmap].
  f_equal. exact IH.
Qed.

Lemma mjoin_singletons (b : list byte) : mjoin ((fun x : byte => [x]) <$> b) = b.
Proof. induction b as [|x b IH]; [done|]. cbn. f_equal. exact IH. Qed.

Lemma read_quantized_start p r c body vs vn (s : kernel) :
  env s !! "struct" = Some vs -> env s !! "np" = Some vn ->
  int32_range r = true -> int32_range c = true -> fs (wld s) !! p = Some (default_file r c body) ->
  read_quantized p s =
    (let '(b, _) := read_bytes (r * c) body in
     m ← lift (reshape2 r c (elements 1 b));
     assign "quan_x" (VMatrix m)) (bind_name "c" (VInt c) (bind_name "r" (VInt r) (bind_name "f" VFile s))).
Proof.
  intros Hs Hn Hr Hc Hf. unfold read_quantized.
  rewrite (bind_ret _ _ s s (default_file r c body)).
  2: { rewrite (in_world_ret _ s (Ret (default_file r c body)) (wld s)) by by apply read_file_ok. by destruct s. }
  unfold default_file. erewrite bind_ret by reflexivity. erewrite bind_ret by (apply name_eq; by read_env).
  rewrite read_bytes_le. cbn beta iota. rewrite unpack_i_le_bytes by done. do 2 erewrite bind_ret by reflexivity.
  erewrite bind_ret by (apply name_eq; by read_env). rewrite read_bytes_le. cbn beta iota. rewrite unpack_i_le_bytes by done.
  do 2 erewrite bind_ret by reflexivity. erewrite bind_ret by (apply name_eq; by read_env). done.
Qed.

(** Reading a file of quantized vectors with [r] rows and [c] columns in its
    header: a file that has the [r * c] bytes gives the matrix of that shape
    whose bytes are the first [r * c] of the file, so the codes the quantizer
    wrote are the codes the index is built from; a shorter file is refused with
    ValueError and [quan_x] keeps its value. *)
Theorem read_quantized_codes p r c body vs vn (s : kernel) :
  env s !! "struct" = Some vs -> env s !! "np" = Some vn ->
  0 <= r -> 0 <= c -> int32_range r = true -> int32_range c = true ->
  fs (wld s) !! p = Some (default_file r c body) ->
  exists s', wld s' = wld s /\
    if r * c <=? Z.of_nat (length body) then
      exists x, read_quantized p s = (Ret tt, s') /\ env s' !! "quan_x" = Some (VMatrix x) /\
        nrows x = r /\ ncols x = c /\ tobytes x = take (Z.to_nat (r * c)) body /\
        Forall (fun row => Z.of_nat (length row) = c) (mrows x)
    else read_quantized p s = (Raise ValueError, s') /\ env s' !! "quan_x" = env s !! "quan_x".
Proof.
  intros Hs Hn Hr0 Hc0 Hr Hc Hf. rewrite (read_quantized_start p r c body vs vn s) by done. clear Hf.
  assert (0 <= r * c) as Hrc by nia. unfold read_bytes. replace (r * c <? 0) with false by lia.
  rewrite elements_1. set (l := (fun x : byte => [x]) <$> take (Z.to_nat (r * c)) body).
  assert (length l = (Z.to_nat (r * c) `min` length body)%nat) as Hl by (unfold l; by rewrite length_fmap, length_take).
  unfold reshape2. replace (r =? -1) with false by lia. replace (c =? -1) with false by lia.
  replace ((r <? 0) || (c <? 0)) with false by lia. destruct (Z.leb_spec (r * c) (Z.of_nat (length body))) as [Hle|Hgt].
  - replace (Z.of_nat (length l) =? r * c) with true by lia. eexists. split; [|eexists; split].
    2: { erewrite bind_ret by reflexivity. reflexivity. }
    + done.
    + split; [by read_env|]. unfold nrows, tobytes. cbn [mrows ncols].
      assert (Z.to_nat r * Z.to_nat c = length l)%nat as Hlen by lia.
      rewrite rows_of_flat by done. split; [rewrite length_rows_of; lia|]. split; [done|].
      split; [apply mjoin_singletons|]. eapply Forall_impl; [by apply rows_of_lengths; rewrite Hlen|]. cbn. lia.
  - replace (Z.of_nat (length l) =? r * c) with false by lia. eexists. split; [|split].
    2: { by erewrite bind_raise by reflexivity. }
    + done.
    + by read_env.
Qed.
End quantized.

(** ** Witnesses

    An index that knows the size of its vectors and what it was built from, and
    saves both; an iterator over a list; a service that comes up after some
    seconds. *)
Record demo_ann := DemoAnn { da_size : Z; da_contents : option (list byte * string * Z) }.

Definition demo_build (i : demo_ann) (b : list byte) (m : string) (n : Z) : bool * demo_ann :=
  if Z.of_nat (length b) =? n * da_size i then (true, DemoAnn (da_size i) (Some (b, m, n))) else (false, i).

Definition demo_files (i : demo_ann) : gmap string (list byte) :=
  match da_contents i with
  | Some (b, m, _) => {[ "vectors.bin" := b; "metadata.bin" := bytes_of_str m ]}
  | None => ∅
  end.

Definition demo_save (i : demo_ann) (dir : string) (w : world) : outcome bool * world :=
  match da_contents i with
  | Some (b, m, _) =>
      (Ret true, World (<[dir ++ "/" ++ "vectors.bin" := b]> (<[dir ++ "/" ++ "metadata.bin" := bytes_of_str m]> (fs w)))
                       ({[dir]} ∪ dirs w) (stdout w))
  | None => (Ret false, w)
  end.

Definition demo_cands : list (hit * bool) :=
  (fun z => ((z, float_of_Z (20 - z), Some (bytes_of_str (str_of_Z z ++ newline))), false)) <$> py_range 0 12.

#[export] Instance demo_sptag : Sptag demo_ann (list (hit * bool)) := {
  AnnIndex_new := fun _ t d => Ret (DemoAnn (if bool_decide (t = "UInt8") then d else 4 * d) None);
  SetBuildParam := fun i _ _ o => match o with Some _ => Ret i | None => Raise TypeError end;
  LoadQuantizer := fun i _ => mret (true, i);
  SetQuantizerADC := fun i _ => Ret i;
  Build := fun i b n o => match o with Some _ => mret (demo_build i b "" n) | None => raise TypeError end;
  BuildWithMetaData := fun i b m n _ _ => mret (demo_build i b m n);
  Save := demo_save;
  Load := fun _ => mret (DemoAnn 400 None);
  Search := fun _ _ k => mret (result_of (take (Z.to_nat k) demo_cands));
  SearchWithMetaData := fun _ _ k => mret (result_of (take (Z.to_nat k) demo_cands));
  GetIterator := fun _ _ => Ret demo_cands;
  Next := fun l n => Ret (result_of (take (Z.to_nat n) l), drop (Z.to_nat n) l);
  Close := fun l => Ret l
}.

#[export] Instance demo_client : SptagClient nat := {
  AnnClient_new := fun _ _ => Ret 2%nat;
  IsConnected := fun c => (c =? 0)%nat;
  pass := fun z c => (c - Z.to_nat z)%nat;
  SetTimeoutMilliseconds := fun c _ => Ret c;
  client_Search := fun _ _ k _ _ => Ret (result_of (take (Z.to_nat k) demo_cands))
}.

#[export] Instance demo_random : NumpyRandom unit := {
  rand2 := fun n d _ => (replicate (Z.to_nat n) (replicate (Z.to_nat d) (le_bytes 4 0)), tt);
  rand1 := fun d _ => (replicate (Z.to_nat d) (le_bytes 4 0), tt);
  seed := fun _ => tt
}.

#[export] Instance demo_quiet : SptagQuiet demo_ann (list (hit * bool)) nat.
Proof.
  split; try done; intros; cbn; [by case_match..|]. intros w. unfold demo_save. by destruct (da_contents i) as [[[b m] k]|].
Qed.

#[export] Instance demo_shapes : NumpyShapes unit.
Proof.
  split. intros n d g Hn Hd. cbn. rewrite length_replicate. split; [lia|]. apply Forall_replicate.
  rewrite length_replicate. split; [lia|]. by apply Forall_replicate.
Qed.

#[export] Instance demo_memory : MemoryIndex demo_ann (list (hit * bool)).
Proof.
  refine {| is_bkt := fun _ => true; vec_bytes := da_size; contents := da_contents; index_files := demo_files |}.
  - intros i [[b m] k] n _ Hc [x Hb]. unfold demo_files in Hb. rewrite Hc in Hb.
    apply lookup_insert_Some in Hb as [[<- _]|[_ Hb]]; [reflexivity|]. by apply lookup_singleton_Some in Hb as [<- _].
  - intros d. by exists (DemoAnn (4 * d) None).
  - intros i n v _. by exists i.
  - intros i data m n w H. exists i. cbn. unfold demo_build. by replace (Z.of_nat (length data) =? n * da_size i) with false by lia.
  - intros i data m n w _ _ _ _ H _. eexists. cbn. unfold demo_build.
    by replace (Z.of_nat (length data) =? n * da_size i) with true by lia.
  - intros i [[b m] k] dir w _ Hc Hpe Hfree. cbn [Save demo_sptag]. unfold demo_save, demo_files. rewrite Hc.
    eexists. split; [reflexivity|]. cbn [fs dirs]. split; [set_solver|]. split.
    + intros r. split.
      * destruct (decide (r = "vectors.bin")) as [->|Hne]; [by rewrite !lookup_insert_eq|].
        rewrite !(lookup_insert_ne _ _ r), !(lookup_insert_ne _ _ (dir ++ "/" ++ r))
          by (done || intros E%str_app_inj_r%(str_app_inj_r "/"); done).
        destruct (decide (r = "metadata.bin")) as [->|Hne']; [by rewrite lookup_singleton_eq, lookup_insert_eq|].
        rewrite lookup_singleton_ne by done. rewrite lookup_insert_ne by (intros E%str_app_inj_r%(str_app_inj_r "/"); done).
        apply Hfree.
      * rewrite elem_of_union, elem_of_singleton. intros [E|H]; [|by apply Hfree in H].
        rewrite <- (str_app_nil_r dir) in E at 2. by apply str_app_inj_r in E.
    + intros q Hq. rewrite !lookup_insert_ne; [done|intros <-; by rewrite under_app in Hq..].
Defined.

Abbreviation demo_kernel := (Notebook.kernel (Notebook.value demo_ann (list (hit * bool)) nat unit) unit).

Definition fresh : demo_kernel := Kernel ∅ (World ∅ ∅ []) tt.
Definition scan_state : demo_kernel := Kernel {[ "index" := VIndex (DemoAnn 400 None); "q" := VVec [] ]} (World ∅ ∅ []) tt.
Definition quan_state : demo_kernel :=
  Kernel {[ "struct" := VMod; "np" := VMod ]} (World {[ "q.bin" := default_file 2 2 (bytes_of_str "abcd") ]} ∅ []) tt.
Definition old_index : demo_kernel :=
  Kernel ∅ (World {[ "sptag_index/old.bin" := [] ]} {["sptag_index"]} []) tt.
Definition np_state : demo_kernel := Kernel {[ "np" := VMod ]} (World ∅ ∅ []) tt.

Lemma tutorial_no_name_error_witness :
  (run_all (tutorial (fun _ => mret 0) 5 ++ []) fresh).1 <> Raise NameError.
Proof. apply tutorial_no_name_error; [by intros c w|reflexivity|apply list_subseteq_nil]. Defined.

Lemma scan_collects_witness :
  exists s' results, scan 3 scan_state = (Ret tt, s') /\ env s' !! "results" = Some (VHits results) /\
    results ≡ₚ demo_cands.*1 /\ StronglySorted nearer results.
Proof.
  destruct (scan_collects (fun _ => True) (fun l => l) ltac:(split; [done|]; intros it _; by eexists) 3 (DemoAnn 400 None) [] demo_cands scan_state)
    as (n & s' & found & H & _ & _ & _ & Hall & results & Hr & Hp & _ & Hs & _);
    [intros it; by exists it|reflexivity|reflexivity|reflexivity|vm_compute; lia|].
  assert (found = demo_cands.*1) as -> by (apply Hall; repeat constructor).
  exists s', results. split; [exact H|]. split; [exact Hr|]. split; [exact Hp|]. apply Hs. repeat constructor.
Defined.

Lemma client_search_live_witness :
  exists s', client_search 5 np_state = (Ret tt, s') /\ env s' !! "vector_dimension" = Some (VInt 10).
Proof.
  destruct (client_search_live 5 2 2%nat 0%nat (result_of (take 3 demo_cands)) np_state) as [H _];
    [by eexists|reflexivity|].
  destruct H as (s' & H1 & _ & H2 & _); [reflexivity|intros [|[|m]] Hm; [reflexivity|reflexivity|lia]|lia|reflexivity|reflexivity|].
  exists s'. split; [exact H1|exact H2].
Defined.

Lemma tutorial_builds_index_witness :
  exists i b m l s', (prepare_data;; build_bkt) old_index = (Ret tt, s') /\ env s' !! "_" = Some (VNames l) /\
    contents i = Some (b, m, 1000) /\ fs (wld s') !! "sptag_index/vectors.bin" = Some b /\
    fs (wld s') !! "sptag_index/old.bin" = None.
Proof.
  destruct (tutorial_builds_index old_index) as (i & x & l & m & s' & H & _ & _ & _ & _ & _ & Hc & Hl & _ & Hfs & _);
    [reflexivity|intros Hd; exfalso; apply Hd; names|].
  exists i, (tobytes x), m, l, s'. split; [exact H|]. split; [exact Hl|]. split; [exact Hc|].
  change "sptag_index/old.bin" with ("sptag_index" ++ "/" ++ "old.bin").
  change "sptag_index/vectors.bin" with ("sptag_index" ++ "/" ++ "vectors.bin"). rewrite !Hfs.
  cbn [contents index_files demo_memory] in *. unfold demo_files. rewrite Hc. split; reflexivity.
Defined.

Lemma rebuild_after_client_loses_index_witness :
  exists s', (prepare_data;; client_search 5;; build_bkt) old_index = (Raise FileNotFoundError, s') /\
    "sptag_index" ∉ dirs (wld s').
Proof.
  destruct (rebuild_after_client_loses_index 5 2 2%nat 0%nat (result_of (take 3 demo_cands)) old_index) as (s' & H & Hd & _);
    [names|reflexivity|reflexivity|reflexivity|intros [|[|m]] Hm; [reflexivity|reflexivity|lia]|lia|reflexivity|reflexivity|].
  exists s'. split; [exact H|exact Hd].
Defined.

Lemma read_quantized_codes_witness :
  exists s' x, read_quantized "q.bin" quan_state = (Ret tt, s') /\ env s' !! "quan_x" = Some (VMatrix x) /\
    tobytes x = bytes_of_str "abcd".
Proof.
  destruct (read_quantized_codes "q.bin" 2 2 (bytes_of_str "abcd") VMod VMod quan_state) as (s' & _ & x & H & Hx & _ & _ & Hb & _);
    [reflexivity|reflexivity|lia|lia|reflexivity|reflexivity|reflexivity|].
  exists s', x. split; [exact H|]. split; [exact Hx|]. exact Hb.
Defined.
