(* ===== verification/Quickstart.v ===== *)
(** * docs/examples/QuickstartGuide.ipynb

    The code cells of the quick start guide, in document order. The functions
    its cells define ([testBuild], [testSearch], [Test], [draw_image5]) look
    their global names up when they are called. Shell lines ([!...]) are the
    parameter [system], the interpreter's path is [executable]; features_extractor.py, which a cell runs, is [Features].
    Drawing is left out, except that it needs its names and its images. *)

From Stdlib Require Import Ascii Lia ZifyBool.
From S2P Require Import Prelude PyStr PyFloat PyBytes PyIO Datasets Gist Features Notebook Tutorial.

Open Scope string_scope.
Open Scope Z_scope.

(** numpy's [.npy] files of a matrix and of an array of strings. *)
Class Npy := {
  npy_of_matrix : matrix -> list byte;
  npy_of_names : list string -> list byte;
  npy_load : list byte -> outcome (matrix + list string)
}.

(** [np.load] gives back what [np.save] was given. *)
Class NpyLaws `{!Npy} : Prop := {
  npy_matrix : forall m, npy_load (npy_of_matrix m) = Ret (inl m);
  npy_names : forall l, npy_load (npy_of_names l) = Ret (inr l)
}.

Section quickstart.
Context {ann iter client rng image pixel img shape tensor model : Type}.
Context `{!Sptag ann iter} `{!NumpyRandom rng} `{!Npy} `{!Pil image pixel img} `{!Keras img shape tensor model matrix}.
Context (executable : string) (system : string -> py world unit) (glob : string -> bool -> world -> list string) (astype_f32 : item -> item).

Abbreviation value := (Notebook.value ann iter client img).
Abbreviation kernel := (Notebook.kernel value rng).
Abbreviation cell := (Notebook.cell value rng).

(** [m[a:b]]. *)
Definition slice_rows (m : matrix) (a b : Z) : matrix := Matrix (ncols m) (py_slice (mrows m) a b).

Definition testBuild (algo distmethod : string) (x : matrix) (out : string) : py kernel unit :=
  name "SPTAG";;
  i ← lift (AnnIndex_new algo "Float" (ncols x));
  i ← lift (SetBuildParam i "NumberOfThreads" "4" None);
  i ← lift (SetBuildParam i "DistCalcMethod" distmethod None);
  ret ← in_world (Build i (tobytes x) (nrows x) None);
  _ ← in_world (Save ret.2 out);
  mret tt.

(** The loop of [testSearch]; [result] is a local name, bound in the loop. *)
Fixpoint search_rows (j : ann) (rows : list (list item)) (k : Z) (result : option (list QueryResult))
    : py kernel (option (list QueryResult)) :=
  match rows with
  | [] => mret result
  | row :: rows' =>
      r ← in_world (Search j (mjoin row) k);
      search_rows j rows' k (Some [r])
  end.

Definition testSearch (index : string) (q : matrix) (k : Z) : py kernel (list QueryResult) :=
  name "SPTAG";;
  j ← in_world (Load index);
  result ← search_rows j (mrows q) k None;
  match result with Some l => mret l | None => raise UnboundLocalError end.

Definition Test (algo distmethod : string) : py kernel unit :=
  name "testBuild";;
  arr ← var to_matrix "arr";
  testBuild algo distmethod arr "testindices";;
  name "testSearch";;
  xq ← var to_matrix "xq";
  k ← var to_int "k";
  result ← testSearch "testindices" xq k;
  r ← lift (py_index result 0);
  in_world (print ("Top " ++ str_of_Z (Z.of_nat (length (r_ids r))) ++ " results:"));;
  in_world (print "Ids - ");;
  in_world (print (repr_list str_of_Z (r_ids r)));;
  in_world (print "Distances - ");;
  in_world (print (repr_list float_repr (r_dists r))).

(** [filenames[i]] for an integer: of a list or of an array. *)
Definition file_at_index (filenames : value) (i : Z) : outcome string :=
  match filenames with
  | VNames l | VNameArray l => py_index l i
  | _ => Raise TypeError
  end.

(** [filenames[ids]] for a list: only an array takes it. *)
Definition files_at (filenames : value) (ids : list Z) : outcome (list string) :=
  match filenames with
  | VNameArray l => mapM_out (py_index l) ids
  | _ => Raise TypeError
  end.

(** One round of [draw_image5]. *)
Definition draw_round (img_indexes : QueryResult) (i : Z) : py kernel unit :=
  a ← lift (py_index (r_ids img_indexes) (i - 1));
  in_world (print ("image index : " ++ str_of_Z a));;
  d ← lift (py_index (r_dists img_indexes) (i - 1));
  in_world (print ("image distance : " ++ float_repr d));;
  filenames ← name "filenames";
  file ← lift (file_at_index filenames a);
  in_world (print ("image file : " ++ file));;
  name "Image";;
  filenames ← name "filenames";
  files ← lift (files_at filenames (r_ids img_indexes));
  file ← lift (py_index files (i - 1));
  p_img ← lift (Image_open file);
  name "np";;
  let img := np_array p_img in
  name "plt";;
  mret tt.

Definition draw_image5 (img_indexes : QueryResult) : py kernel unit :=
  in_world (print (repr_result img_indexes));;
  name "plt";;
  for_each (py_range 1 (5 * 1 + 1)) (draw_round img_indexes);;
  name "plt";;
  mret tt.

(** ** The cells *)
Definition install : py kernel unit :=
  assign "sys" VMod;; name "sys";; in_world (system (executable ++ " -m pip install -r requirements.txt")).

Definition imports : py kernel unit :=
  assign "SPTAG" VMod;; assign "np" VMod;; assign "Image" VMod;; assign "plt" VMod;; assign "imshow" VFun;; assign "time" VMod.

Definition random_data : py kernel unit :=
  assign "d" (VInt 2);;
  assign "nb" (VInt 100);;
  assign "nq" (VInt 1);;
  name "np";; reseed (seed 1234);;
  name "np";;
  nb ← var to_int "nb";
  d ← var to_int "d";
  x ← draw (rand2 nb d);
  assign "randomData" (VMatrix (Matrix d x));;
  _ ← name "randomData";
  mret tt.

Definition select_query : py kernel unit :=
  arr ← var to_matrix "arr";
  assign "xq" (VMatrix (slice_rows arr 1 2));;
  assign "k" (VInt 5).

Definition define_functions : py kernel unit :=
  assign "testBuild" VFun;; assign "testSearch" VFun;; assign "Test" VFun.

Definition run_test : py kernel unit := name "Test";; Test "BKT" "L2".

Definition download : py kernel unit :=
  in_world (system "curl -O http://www.vision.caltech.edu/Image_Datasets/Caltech101/101_ObjectCategories.tar.gz").
Definition untar : py kernel unit := in_world (system "tar xvzf 101_ObjectCategories.tar.gz").

(** [%run features_extractor.py] binds the names of that file. *)
Definition run_extractor : py kernel unit :=
  assign "glob" VMod;; assign "np" VMod;; assign "Image" VMod;; assign "Model" VFun;;
  assign "GlobalAveragePooling2D" VFun;; assign "GlobalMaxPooling2D" VFun;;
  assign "VGG19" VFun;; assign "ResNet50" VFun;; assign "InceptionV3" VFun;;
  assign "get_filenames" VFun;; assign "expand2square" VFun;; assign "get_images" VFun;;
  assign "create_feat_extractor" VFun;; assign "extract_features" VFun.

Definition list_files : py kernel unit :=
  name "get_filenames";;
  l ← in_world (get_filenames glob "101_ObjectCategories//**//*.*" true);
  assign "filenames" (VNames l).

(** [get_images] of the names a list or an array holds. *)
Definition load_images : py kernel unit :=
  name "get_images";;
  filenames ← name "filenames";
  l ← lift (match filenames with VNames l | VNameArray l => Ret l | _ => Raise TypeError end);
  imgs ← lift (get_images (img := image) l (200, 200) "RGB" 0);
  assign "imgs_np" (VImgs imgs).

Definition show_shape : py kernel unit := _ ← name "imgs_np"; mret tt.

Definition show_image : py kernel unit :=
  assign "plt" VMod;;
  name "plt";;
  imgs ← var to_imgs "imgs_np";
  _ ← lift (py_index imgs 300);
  mret tt.

Definition take_subset : py kernel unit :=
  imgs ← var to_imgs "imgs_np";
  assign "imgs_np" (VImgs (py_slice imgs 0 1000));;
  show_shape.

Definition embed : py kernel unit :=
  name "extract_features";;
  imgs ← var to_imgs "imgs_np";
  e ← lift (extract_features imgs "vgg19" "avg");
  assign "embeddings" (VMatrix e).

Definition show_embedding : py kernel unit :=
  e ← var to_matrix "embeddings"; _ ← lift (py_index (mrows e) 0); mret tt.

(** [np.save(p, a)]. *)
Definition np_save (p : string) (a : value) : py kernel unit :=
  b ← lift (match a with
            | VMatrix m => Ret (npy_of_matrix m)
            | VNames l | VNameArray l => Ret (npy_of_names l)
            | _ => Raise TypeError
            end);
  in_world (create_file p);;
  in_world (append_file p b).

Definition save_arrays : py kernel unit :=
  name "np";;
  e ← name "embeddings";
  np_save "caltech101_np_4096d.npy" e;;
  name "np";;
  f ← name "filenames";
  np_save "caltech101_np_4096d_filenames.npy" f.

(** [np.load(p)]. *)
Definition np_load (p : string) : py kernel value :=
  b ← in_world (read_file p);
  a ← lift (npy_load b);
  mret (match a with inl m => VMatrix m | inr l => VNameArray l end).

Definition load_arrays : py kernel unit :=
  name "np";;
  a ← np_load "caltech101_np_4096d.npy";
  assign "arr" a;;
  name "np";;
  f ← np_load "caltech101_np_4096d_filenames.npy";
  assign "filenames" f.

Definition to_float32 : py kernel unit :=
  arr ← var to_matrix "arr";
  assign "xb" (VMatrix (astype astype_f32 arr));;
  _ ← name "xb";
  mret tt.

Definition select_image : py kernel unit :=
  xb ← var to_matrix "xb";
  assign "xq" (VMatrix (slice_rows xb 3 4));;
  _ ← name "xq";
  mret tt.

Definition build_images : py kernel unit :=
  assign "algo" (VStr "KDT");;
  assign "distmethod" (VStr "L2");;
  name "testBuild";;
  algo ← var to_str "algo";
  distmethod ← var to_str "distmethod";
  xb ← var to_matrix "xb";
  testBuild algo distmethod xb "sptag_indice".

Definition search_images : py kernel unit :=
  assign "k" (VInt 5);;
  name "testSearch";;
  xq ← var to_matrix "xq";
  k ← var to_int "k";
  l ← testSearch "sptag_indice" xq k;
  assign "search_result" (VResults l);;
  l ← var to_results "search_result";
  r ← lift (py_index l 0);
  in_world (print (repr_list str_of_Z (r_ids r)));;
  in_world (print (repr_list float_repr (r_dists r))).

Definition draw_results : py kernel unit :=
  assign "draw_image5" VFun;;
  name "draw_image5";;
  l ← var to_results "search_result";
  r ← lift (py_index l 0);
  draw_image5 r.

Definition test_names : list string := ["Test"; "testBuild"; "testSearch"; "SPTAG"; "arr"; "xq"; "k"].

Definition first_cells : list cell := [
  Cell [] ["sys"] install;
  Cell [] ["SPTAG"; "np"; "Image"; "plt"; "imshow"; "time"] imports;
  Cell ["np"] ["d"; "nb"; "nq"; "randomData"] random_data].
Definition query_cell : cell := Cell ["arr"] ["xq"; "k"] select_query.
Definition functions_cell : cell := Cell [] ["testBuild"; "testSearch"; "Test"] define_functions.
Definition test_cell : cell := Cell test_names [] run_test.
Definition image_cells : list cell := [
  Cell [] [] download;
  Cell [] [] untar;
  Cell [] ["np"; "Image"; "get_filenames"; "get_images"; "extract_features"] run_extractor;
  Cell ["get_filenames"] ["filenames"] list_files;
  Cell ["get_images"; "filenames"] ["imgs_np"] load_images;
  Cell ["imgs_np"] [] show_shape;
  Cell ["imgs_np"] ["plt"] show_image;
  Cell ["imgs_np"] ["imgs_np"] take_subset;
  Cell ["extract_features"; "imgs_np"] ["embeddings"] embed;
  Cell ["embeddings"] [] show_embedding;
  Cell ["np"; "embeddings"; "filenames"] [] save_arrays;
  Cell ["np"] ["arr"; "filenames"] load_arrays;
  Cell ["arr"] ["xb"] to_float32;
  Cell ["xb"] ["xq"] select_image;
  Cell ["testBuild"; "SPTAG"; "xb"] ["algo"; "distmethod"] build_images;
  Cell ["testSearch"; "SPTAG"; "xq"] ["k"; "search_result"] search_images;
  Cell ["search_result"; "filenames"; "Image"; "np"; "plt"] ["draw_image5"] draw_results].

(** Document order. *)
Definition quickstart : list cell := first_cells ++ query_cell :: functions_cell :: test_cell :: image_cells.
(** The first example after the second. *)
Definition reordered : list cell := first_cells ++ functions_cell :: image_cells ++ [query_cell; test_cell].
End quickstart.

(** ** Names *)
Section names.
Context {ann iter client rng image pixel img shape tensor model : Type}.
Context `{!Sptag ann iter} `{!SptagClient client} `{!NumpyRandom rng} `{!Npy} `{!Pil image pixel img}.
Context `{!Keras img shape tensor model matrix}.
Context (executable : string) (system : string -> py world unit) (glob : string -> bool -> world -> list string) (astype_f32 : item -> item).

Abbreviation value := (Notebook.value ann iter client img).
Abbreviation kernel := (Notebook.kernel value rng).
Abbreviation doc := (quickstart (ann := ann) (iter := iter) (client := client) (rng := rng) executable system glob astype_f32).

(** C40: run from the top, the guide stops at its fourth code cell: the query is
    taken from [arr], which only the second example binds, and the random data
    of the first example went to [randomData]. Whatever the libraries do, no
    query, no function and no index is ever made. *)
Theorem quickstart_name_error (s : kernel) w :
  env s = ∅ -> system (executable ++ " -m pip install -r requirements.txt") (wld s) = (Ret tt, w) ->
  exists s', run_all doc s = (Raise NameError, s') /\ is_Some (env s' !! "randomData") /\
    wld s' = w /\ env s' !! "xq" = None /\ env s' !! "Test" = None.
Proof.
  intros Hs Hpip. unfold quickstart, first_cells. cbn [app].
  rewrite (run_all_next _ _ _ (Kernel (<["sys" := VMod]> ∅) w (gen s))).
  2: { cbn [c_run]. unfold install. erewrite bind_ret by reflexivity. erewrite bind_ret by (apply name_eq; by read_env).
       unfold bind_name. rewrite Hs, (in_world_ret _ _ (Ret tt) w) by exact Hpip. reflexivity. }
  erewrite run_all_next by reflexivity.
  erewrite run_all_next. 2: { cbn [c_run]. unfold random_data. do 3 erewrite bind_ret by reflexivity.
    do 3 (erewrite bind_ret by first [reflexivity | apply name_eq; by read_env]).
    do 2 erewrite bind_ret by (eapply var_eq; [by read_env|reflexivity]). erewrite bind_ret by apply draw_eq.
    erewrite bind_ret by reflexivity. erewrite bind_ret by (apply name_eq; by read_env). reflexivity. }
  eexists. split.
  - apply run_all_raise. cbn [c_run query_cell]. unfold select_query. apply bind_raise. unfold var. apply bind_raise.
    apply name_missing. by read_env.
  - split; [read_env; by eexists|]. split; [done|]. split; by read_env.
Qed.

Context `{!SptagQuiet ann iter client}.
Context (Hsys : forall c, no_name (system c)) (Hnpy : forall b, npy_load b <> Raise NameError).
Context (Hopen : forall f, Image_open (img := image) f <> Raise NameError).
Context (Hconvert : forall m i, convert (img := image) m i <> Raise NameError).
Context (Happ : forall n s, application (arr := img) (model := model) n s <> Raise NameError).
Context (Hmodel : forall i o, Model (arr := img) (model := model) i o <> Raise NameError).
Context (Hpredict : forall m l, predict (arr := img) (model := model) m l <> Raise NameError).

Lemma out_bind_quiet {A B} (m : outcome A) (f : A -> outcome B) :
  m <> Raise NameError -> (forall a, f a <> Raise NameError) -> (m ≫= f) <> Raise NameError.
Proof. destruct m; cbn; [auto|congruence|done]. Qed.

Lemma mapM_quiet {A B} (f : A -> outcome B) l : (forall x, f x <> Raise NameError) -> mapM_out f l <> Raise NameError.
Proof.
  intros Hf. induction l as [|x l IH]; cbn [mapM_out]; [done|]. apply out_bind_quiet; [done|]. intros y.
  by apply out_bind_quiet.
Qed.

Lemma get_images_quiet l : get_images (img := image) (arr := img) l (200, 200) "RGB" 0 <> Raise NameError.
Proof.
  apply mapM_quiet. intros f. apply out_bind_quiet; [|done]. apply out_bind_quiet; [apply Hopen|]. intros i.
  apply out_bind_quiet; [apply Hconvert|done].
Qed.

Lemma extract_quiet l : extract_features (emb := matrix) l "vgg19" "avg" <> Raise NameError.
Proof.
  rewrite extract_features_branches. destruct (_ && _); [|done]. destruct l; [done|].
  apply out_bind_quiet; [apply Happ|]. intros b. apply out_bind_quiet; [apply Hmodel|]. intros m. apply Hpredict.
Qed.

Lemma file_quiet (v : value) i : file_at_index v i <> Raise NameError.
Proof. destruct v; cbn; try done; apply no_name_index. Qed.
Lemma files_quiet (v : value) l : files_at v l <> Raise NameError.
Proof. destruct v; cbn; try done. apply mapM_quiet. intros i. apply no_name_index. Qed.
Lemma names_quiet (v : value) : match v with VNames l | VNameArray l => Ret l | _ => Raise TypeError end <> Raise NameError.
Proof. by destruct v. Qed.
Lemma npy_quiet (v : value) :
  match v with
  | VMatrix m => Ret (npy_of_matrix m)
  | VNames l | VNameArray l => Ret (npy_of_names l)
  | _ => Raise TypeError
  end <> Raise NameError.
Proof. by destruct v. Qed.
Lemma get_filenames_quiet p r : no_name (get_filenames glob p r).
Proof. done. Qed.

Lemma scoped_search U j rows k o : scoped U (search_rows j rows k o : py kernel _) U.
Proof.
  revert o. induction rows as [|row rows IH]; intros o; cbn [search_rows]; [apply scoped_ret|].
  eapply scoped_bind; [apply scoped_world; eauto with quiet|]. intros r. apply IH.
Qed.

Lemma scoped_testSearch U dir q k : "SPTAG" ∈ U -> scoped U (testSearch dir q k : py kernel _) U.
Proof.
  intros HU. unfold testSearch. eapply scoped_bind; [by apply scoped_name|]. intros _.
  eapply scoped_bind; [apply scoped_world; eauto with quiet|]. intros j. eapply scoped_bind; [apply scoped_search|].
  intros [l|]; [apply scoped_ret|by apply scoped_raise].
Qed.

Local Hint Resolve get_images_quiet extract_quiet file_quiet files_quiet names_quiet npy_quiet get_filenames_quiet Hsys Hnpy Hopen : quiet.

Ltac scope_call ::= apply scoped_testSearch; names.

Lemma reordered_cells_ok :
  Forall cell_ok (reordered (ann := ann) (iter := iter) (client := client) (rng := rng) executable system glob astype_f32).
Proof.
  repeat apply Forall_cons_2; [..|apply Forall_nil_2]; unfold cell_ok; cbn [c_uses c_run c_defs query_cell functions_cell test_cell];
    (eapply scoped_sub; [unfold run_extractor; scope | names]).
Qed.

(** With the first example moved behind the second the guide is well
    scoped: in a fresh kernel that order never raises NameError, whatever the
    libraries do. *)
Theorem reordered_no_name_error (s : kernel) :
  env s = ∅ -> (run_all (reordered (ann := ann) (iter := iter) (client := client) executable system glob astype_f32) s).1 <> Raise NameError.
Proof.
  intros Hs. assert (scoped [] (run_all (reordered (ann := ann) (iter := iter) (client := client) (rng := rng) executable system glob astype_f32)) []) as Hsc
    by (apply run_all_scoped; [apply reordered_cells_ok|vm_compute; reflexivity]).
  specialize (Hsc s). destruct (run_all _ s) as [[a|e|] s']; cbn; [done| |done]. intros [= ->]. apply Hsc; [|done].
  intros n Hn. by apply not_elem_of_nil in Hn.
Qed.
End names.

(** ** The functions *)
Section functions.
Context {ann iter client rng image pixel img shape tensor model : Type}.
Context `{!Sptag ann iter} `{!NumpyRandom rng} `{!Npy} `{!Pil image pixel img} `{!Keras img shape tensor model matrix}.

Abbreviation value := (Notebook.value ann iter client img).
Abbreviation kernel := (Notebook.kernel value rng).

(** With the binding of this repository, whose [SetBuildParam] takes a
    section as third argument, [testBuild] always stops with TypeError: no
    index is built or saved, whatever the algorithm, the metric and the data. *)
Theorem testBuild_type_error algo distmethod x out i v (s : kernel) :
  (forall (i : ann) n v, SetBuildParam i n v None = Raise TypeError) ->
  env s !! "SPTAG" = Some v -> AnnIndex_new algo "Float" (ncols x) = Ret i ->
  testBuild algo distmethod x out s = (Raise TypeError, s).
Proof.
  intros Hp Hs Hi. unfold testBuild. erewrite bind_ret by by apply name_eq. rewrite Hi. erewrite bind_ret by reflexivity.
  rewrite Hp. by erewrite bind_raise by reflexivity.
Qed.

(** A search that leaves the world alone. *)
Definition answers (j : ann) (k : Z) (f : list item -> QueryResult) : Prop :=
  forall row w, Search j (mjoin row) k w = (Ret (f row), w).

Lemma search_rows_eq j k f rows o (s : kernel) :
  answers j k f ->
  search_rows j rows k o s = (Ret (match last rows with Some row => Some [f row] | None => o end), s).
Proof.
  intros Hf. revert o. induction rows as [|row rows IH]; intros o; [done|]. cbn [search_rows].
  rewrite (bind_ret _ _ s s (f row)) by (rewrite (in_world_ret _ s (Ret (f row)) (wld s)) by apply Hf; by destruct s).
  rewrite IH. rewrite last_cons. by destruct (last rows).
Qed.

(** [testSearch] starts a new result list for every row of the queries, so
    of several queries only the last one's answer is returned; one query is
    answered as intended, and without a query the name [result] is unbound. *)
Theorem testSearch_last dir q k j f v (s : kernel) :
  env s !! "SPTAG" = Some v -> Load dir (wld s) = (Ret j, wld s) -> answers j k f ->
  testSearch dir q k s =
    (match last (mrows q) with Some row => Ret [f row] | None => Raise UnboundLocalError end, s).
Proof.
  intros Hs Hj Hf. unfold testSearch. erewrite bind_ret by by apply name_eq.
  rewrite (bind_ret _ _ s s j) by (rewrite (in_world_ret _ s (Ret j) (wld s)) by done; by destruct s).
  erewrite bind_ret by by apply search_rows_eq. by destruct (last (mrows q)).
Qed.

(** What [draw_image5] prints for the [i]th answer. *)
Definition image_lines (r : QueryResult) (l : list string) (i : nat) : list string :=
  let a := nth i (r_ids r) 0 in
  ["image index : " ++ str_of_Z a; "image distance : " ++ float_repr (nth i (r_dists r) (float_of_Z 0));
   "image file : " ++ nth (Z.to_nat a) l ""].

Lemma mapM_index l (ids : list Z) :
  Forall (fun a => 0 <= a < Z.of_nat (length l)) ids ->
  mapM_out (py_index l) ids = Ret ((fun a => nth (Z.to_nat a) l "") <$> ids).
Proof.
  induction 1 as [|a ids Ha HF IH]; [done|]. cbn [mapM_out].
  destruct (py_index_total l a Ha) as (x & Hx & Hl). rewrite Hx. cbn [mbind outcome_bind]. rewrite IH. cbn.
  by rewrite (nth_lookup_Some _ _ _ _ Hl).
Qed.

(** The kernel after more lines of output. *)
Definition with_out (ls : list string) (s : kernel) : kernel :=
  Kernel (env s) (World (fs (wld s)) (dirs (wld s)) (stdout (wld s) ++ ls)%list) (gen s).

Lemma with_out_app ls ls' s : with_out ls' (with_out ls s) = with_out (ls ++ ls')%list s.
Proof. unfold with_out. cbn. by rewrite app_assoc. Qed.

Lemma with_out_nil s : with_out [] s = s.
Proof. destruct s as [e [f d o] g]. unfold with_out. cbn. by rewrite app_nil_r. Qed.

Lemma print_out l (s : kernel) : in_world (print l) s = (Ret tt, with_out [l] s).
Proof. done. Qed.

Context (l : list string) (r : QueryResult).
(** The name of the [i]th answer's file. *)
Definition image_file (i : nat) : string := nth (Z.to_nat (nth i (r_ids r) 0)) l "".

(** The names a drawing needs. *)
Definition can_draw (s : kernel) : Prop :=
  env s !! "filenames" = Some (VNameArray l) /\ defd ["Image"; "np"; "plt"] s.

Context (Hids : (5 <= length (r_ids r))%nat) (Hdists : (5 <= length (r_dists r))%nat).
Context (Hvalid : Forall (fun a => 0 <= a < Z.of_nat (length l)) (r_ids r)).

Lemma draw_round_eq i (s : kernel) :
  (i < 5)%nat -> can_draw s ->
  draw_round (image := image) r (Z.of_nat i + 1) s =
    (match Image_open (img := image) (image_file i) with Ret _ => Ret tt | Raise e => Raise e | OutOfFuel => OutOfFuel end,
     with_out (image_lines r l i) s).
Proof.
  intros Hi [Hf Hn]. unfold draw_round. replace (Z.of_nat i + 1 - 1) with (Z.of_nat i) by lia.
  destruct (py_index_total (r_ids r) (Z.of_nat i)) as (a & Ha & Hla); [lia|].
  destruct (py_index_total (r_dists r) (Z.of_nat i)) as (d & Hd & Hld); [lia|]. rewrite Nat2Z.id in *.
  pose proof (Forall_lookup_1 _ _ _ _ Hvalid Hla) as Hra. cbn in Hra.
  destruct (py_index_total l a) as (file & Hfile & Hlf); [done|].
  pose proof (nth_lookup_Some _ _ 0 _ Hla) as Na. pose proof (nth_lookup_Some _ _ (float_of_Z 0) _ Hld) as Nd.
  pose proof (nth_lookup_Some _ _ "" _ Hlf) as Nf.
  rewrite Ha. erewrite bind_ret by reflexivity. rewrite (bind_ret _ _ _ _ _ (print_out _ _)).
  rewrite Hd. erewrite bind_ret by reflexivity. rewrite (bind_ret _ _ _ _ _ (print_out _ _)).
  rewrite (bind_ret _ _ _ _ _ (name_eq "filenames" _ (with_out _ (with_out _ s)) Hf)). cbn [file_at_index]. rewrite Hfile.
  erewrite bind_ret by reflexivity. rewrite (bind_ret _ _ _ _ _ (print_out _ _)). rewrite !with_out_app. cbn [app].
  set (s1 := with_out _ s). assert (defd ["Image"; "np"; "plt"] s1) as Hn1 by exact Hn.
  destruct (Hn1 "Image") as [v1 H1]; [set_solver|]. destruct (Hn1 "np") as [v2 H2]; [set_solver|].
  destruct (Hn1 "plt") as [v3 H3]; [set_solver|]. rewrite (bind_ret _ _ _ _ _ (name_eq _ _ _ H1)).
  rewrite (bind_ret _ _ _ _ _ (name_eq "filenames" _ s1 Hf)). cbn [files_at]. rewrite mapM_index by done.
  erewrite bind_ret by reflexivity. rewrite py_index_nonneg, Nat2Z.id, list_lookup_fmap, Hla by lia.
  cbn [fmap option_fmap option_map]. erewrite bind_ret by reflexivity.
  assert (image_file i = nth (Z.to_nat a) l "") as -> by (unfold image_file; by rewrite Na).
  assert (s1 = with_out (image_lines r l i) s) as <- by (unfold s1, image_lines; by rewrite Na, Nd, Nf).
  destruct (Image_open (nth (Z.to_nat a) l "")) as [p|e|].
  - erewrite bind_ret by reflexivity. rewrite (bind_ret _ _ _ _ _ (name_eq _ _ _ H2)). cbv zeta.
    by rewrite (bind_ret _ _ _ _ _ (name_eq _ _ _ H3)).
  - by erewrite bind_raise by reflexivity.
  - by erewrite bind_fuel by reflexivity.
Qed.

(** The rounds from [a] on: those before [a + n] find their image. *)
Lemma draw_rounds n a (s : kernel) :
  (a + n <= 5)%nat -> can_draw s -> (forall i, (i < a + n)%nat -> exists p, Image_open (img := image) (image_file i) = Ret p) ->
  forall rest, for_each (((fun i => Z.of_nat i + 1) <$> seq a n) ++ rest)%list (draw_round (image := image) r) s =
    for_each rest (draw_round (image := image) r) (with_out (mjoin (image_lines r l <$> seq a n)) s).
Proof.
  revert a s. induction n as [|n IH]; intros a s Ha Hs Hopen rest.
  { change (mjoin (image_lines r l <$> seq a 0)) with (@nil string). by rewrite with_out_nil. }
  change (seq a (S n)) with (a :: seq (S a) n). rewrite !fmap_cons. cbn [app for_each].
  destruct (Hopen a ltac:(lia)) as [p Hp].
  rewrite (bind_ret _ _ s (with_out (image_lines r l a) s) tt) by (rewrite draw_round_eq by (done || lia); by rewrite Hp).
  rewrite IH; [|lia|done|intros i Hi; apply Hopen; lia].
  change (mjoin (image_lines r l a :: ?x)) with (image_lines r l a ++ mjoin x)%list. by rewrite with_out_app.
Qed.

(** C38: drawing five answers whose ids are those of files. The two ways the
    code indexes the array of names agree: for each answer, in order, its id,
    distance and file name are printed and that file is the one opened. When
    all five open it ends normally; when one does not, the error comes right
    after its own lines and nothing later is printed. *)
Theorem draw_image5_files (s : kernel) :
  can_draw s ->
  ((forall i, (i < 5)%nat -> exists p, Image_open (img := image) (image_file i) = Ret p) ->
   draw_image5 (image := image) r s = (Ret tt, with_out (repr_result r :: mjoin (image_lines r l <$> seq 0 5)) s)) /\
  (forall n e, (n < 5)%nat -> (forall i, (i < n)%nat -> exists p, Image_open (img := image) (image_file i) = Ret p) ->
   Image_open (img := image) (image_file n) = Raise e ->
   draw_image5 (image := image) r s = (Raise e, with_out (repr_result r :: mjoin (image_lines r l <$> seq 0 (S n))) s)).
Proof.
  intros Hs. unfold draw_image5. rewrite (bind_ret _ _ _ _ _ (print_out _ _)). set (s1 := with_out [repr_result r] s).
  destruct Hs as [Hf Hn]. assert (can_draw s1) as Hs1 by done. destruct (Hn "plt") as [v Hv]; [set_solver|].
  rewrite (bind_ret _ _ _ _ _ (name_eq "plt" v s1 Hv)).
  assert (py_range 1 (5 * 1 + 1) = (fun i => Z.of_nat i + 1) <$> seq 0 5) as -> by reflexivity. split.
  - intros Hopen. rewrite <- (app_nil_r ((fun i => Z.of_nat i + 1) <$> seq 0 5)).
    erewrite bind_ret. 2: { rewrite draw_rounds by (done || lia). reflexivity. }
    rewrite (bind_ret _ _ _ _ _ (name_eq "plt" v (with_out _ s1) Hv)). unfold s1. by rewrite with_out_app.
  - intros n e Hlt Hopen He. replace (seq 0 5) with (seq 0 n ++ n :: seq (S n) (4 - n))%list.
    2: { replace 5%nat with (n + S (4 - n))%nat by lia. by rewrite seq_app. }
    rewrite fmap_app, fmap_cons. erewrite bind_raise. 2: { rewrite draw_rounds by (done || lia). cbn [for_each].
      apply bind_raise. rewrite draw_round_eq by (done || lia). by rewrite He. }
    unfold s1. rewrite !with_out_app. rewrite seq_S, fmap_app, join_app. reflexivity.
Qed.

(** A Python list of names, as [get_filenames] makes it, cannot be indexed by a
    list: without the cell that loads the names as an array drawing stops after
    the lines of the first answer. *)
Lemma draw_image5_list (s : kernel) :
  env s !! "filenames" = Some (VNames l) -> defd ["Image"; "np"; "plt"] s ->
  draw_image5 (image := image) r s = (Raise TypeError, with_out (repr_result r :: image_lines r l 0) s).
Proof.
  intros Hf Hn. unfold draw_image5. rewrite (bind_ret _ _ _ _ _ (print_out _ _)).
  destruct (Hn "plt") as [v Hv]; [set_solver|]. destruct (Hn "Image") as [vi Hvi]; [set_solver|].
  rewrite (bind_ret _ _ _ _ _ (name_eq "plt" v (with_out _ s) Hv)).
  assert (py_range 1 (5 * 1 + 1) = [1; 2; 3; 4; 5]) as -> by reflexivity. cbn [for_each]. apply bind_raise, bind_raise.
  destruct (py_index_total (r_ids r) 0) as (a & Ha & Hla); [lia|].
  destruct (py_index_total (r_dists r) 0) as (d & Hd & Hld); [lia|].
  pose proof (Forall_lookup_1 _ _ _ _ Hvalid Hla) as Hra. destruct (py_index_total l a) as (file & Hfile & Hlf); [done|].
  unfold draw_round. change (1 - 1) with 0. rewrite Ha. erewrite bind_ret by reflexivity.
  rewrite (bind_ret _ _ _ _ _ (print_out _ _)). rewrite Hd. erewrite bind_ret by reflexivity. rewrite (bind_ret _ _ _ _ _ (print_out _ _)).
  rewrite (bind_ret _ _ _ _ _ (name_eq "filenames" _ (with_out _ (with_out _ (with_out _ s))) Hf)). cbn [file_at_index]. rewrite Hfile.
  erewrite bind_ret by reflexivity. rewrite (bind_ret _ _ _ _ _ (print_out _ _)).
  rewrite (bind_ret _ _ _ _ _ (name_eq "Image" vi (with_out _ (with_out _ (with_out _ (with_out _ s)))) Hvi)).
  rewrite (bind_ret _ _ _ _ _ (name_eq "filenames" _ (with_out _ (with_out _ (with_out _ (with_out _ s)))) Hf)).
  cbn [files_at]. erewrite bind_raise by reflexivity. rewrite !with_out_app. unfold image_lines. change (Z.to_nat 0) with 0%nat in *.
  by rewrite (nth_lookup_Some _ _ 0 _ Hla), (nth_lookup_Some _ _ (float_of_Z 0) _ Hld), (nth_lookup_Some _ _ "" _ Hlf).
Qed.
End functions.

(** ** Saving and loading the embeddings *)
Section arrays.
Context {ann iter client rng image pixel img shape tensor model : Type}.
Context `{!Sptag ann iter} `{!NumpyRandom rng} `{!Npy} `{!NpyLaws}.
Context (astype_f32 : item -> item).

Abbreviation value := (Notebook.value ann iter client img).
Abbreviation kernel := (Notebook.kernel value rng).

Lemma np_save_eq p (v : value) b (s : kernel) :
  match v with
  | VMatrix m => Ret (npy_of_matrix m)
  | VNames l | VNameArray l => Ret (npy_of_names l)
  | _ => Raise TypeError
  end = Ret b ->
  can_create (wld s) p = true -> np_save p v s = (Ret tt, Kernel (env s) (put_file p b (wld s)) (gen s)).
Proof.
  intros Hb Hc. unfold np_save. rewrite Hb. erewrite bind_ret by reflexivity.
  erewrite bind_ret by (apply in_world_ret; by apply create_file_ok).
  rewrite (in_world_ret _ _ (Ret tt) (put_file p b (wld s))); [done|]. cbn [wld]. by rewrite append_put.
Qed.

Lemma np_load_eq p b a (s : kernel) :
  fs (wld s) !! p = Some b -> npy_load b = Ret a ->
  np_load p s = (Ret (match a with inl m => VMatrix m | inr l => VNameArray l end : value), s).
Proof.
  intros Hf Ha. unfold np_load. rewrite (bind_ret _ _ s s b).
  - rewrite Ha. done.
  - rewrite (in_world_ret _ s (Ret b) (wld s)) by by apply read_file_ok. by destruct s.
Qed.

(** What the guide saves is what it goes on with. After saving, loading,
    converting and selecting, [arr] holds the embeddings, [filenames] the same
    names now as an array, [xb] the embeddings as binary32, and the query is
    the row of index 3 of them: the fourth image, or nothing when there are
    fewer than four. *)
Theorem arrays_roundtrip e f v (s : kernel) :
  env s !! "embeddings" = Some (VMatrix e) ->
  env s !! "filenames" = Some (VNames f) \/ env s !! "filenames" = Some (VNameArray f) ->
  env s !! "np" = Some v ->
  can_create (wld s) "caltech101_np_4096d.npy" = true ->
  can_create (wld s) "caltech101_np_4096d_filenames.npy" = true ->
  exists s', (save_arrays;; load_arrays;; to_float32 astype_f32;; select_image) s = (Ret tt, s') /\
    env s' !! "arr" = Some (VMatrix e) /\ env s' !! "filenames" = Some (VNameArray f) /\
    env s' !! "xb" = Some (VMatrix (astype astype_f32 e)) /\
    env s' !! "xq" = Some (VMatrix (Matrix (ncols e)
      (match mrows (astype astype_f32 e) !! 3%nat with Some row => [row] | None => [] end))).
Proof.
  intros He Hfn Hnp Hc1 Hc2.
  assert (exists fv, env s !! "filenames" = Some fv /\
    match fv with VMatrix m => Ret (npy_of_matrix m) | VNames l | VNameArray l => Ret (npy_of_names l) | _ => Raise TypeError end =
      Ret (npy_of_names f)) as (fv & Hf & Hfv) by (destruct Hfn as [Hf|Hf]; eexists; split; done).
  set (w1 := put_file "caltech101_np_4096d.npy" (npy_of_matrix e) (wld s)).
  set (w2 := put_file "caltech101_np_4096d_filenames.npy" (npy_of_names f) w1).
  rewrite (bind_ret _ _ s (Kernel (env s) w2 (gen s)) tt).
  2: { unfold save_arrays. do 2 erewrite bind_ret by by apply name_eq. erewrite bind_ret by (apply np_save_eq; [reflexivity|done]).
       do 2 erewrite bind_ret by by apply name_eq.
       by apply (np_save_eq _ _ (npy_of_names f) (Kernel (env s) w1 (gen s))). }
  erewrite bind_ret. 2: { unfold load_arrays. erewrite bind_ret by by apply name_eq.
    erewrite bind_ret. 2: { eapply np_load_eq; [|apply npy_matrix]. cbn [wld]. unfold w2, w1. by rewrite !fs_put. }
    erewrite bind_ret by reflexivity. erewrite bind_ret by (apply name_eq; by read_env).
    erewrite bind_ret. 2: { eapply np_load_eq; [|apply npy_names]. cbn [wld bind_name]. unfold w2. by rewrite fs_put. }
    reflexivity. }
  erewrite bind_ret. 2: { unfold to_float32. erewrite bind_ret by (eapply var_eq; [by read_env|reflexivity]).
    erewrite bind_ret by reflexivity. by erewrite bind_ret by (apply name_eq; by read_env). }
  eexists. split.
  { unfold select_image. erewrite bind_ret by (eapply var_eq; [by read_env|reflexivity]). erewrite bind_ret by reflexivity.
    by erewrite bind_ret by (apply name_eq; by read_env). }
  split; [by read_env|]. split; [by read_env|]. split; [by read_env|]. read_env. cbn [decide]. unfold slice_rows, py_slice. do 3 f_equal.
  change (Z.to_nat 3) with 3%nat. change (Z.to_nat 4 - 3)%nat with 1%nat. generalize (mrows (astype astype_f32 e)). intros rows.
  destruct rows as [|a [|b [|c [|d rows]]]]; reflexivity.
Qed.
End arrays.

(** ** Witnesses *)
#[export] Instance byte_countable : Countable byte.
Proof. apply (inj_countable' Z_of_byte byte_of_Z). apply byte_of_Z_of_byte. Defined.
#[export] Instance matrix_eq_dec : EqDecision matrix.
Proof. solve_decision. Defined.
#[export] Instance matrix_countable : Countable matrix.
Proof. apply (inj_countable' (fun m => (ncols m, mrows m)) (fun p => Matrix p.1 p.2)). by intros []. Defined.

(** A number in unary stands for the file. *)
#[export] Instance demo_npy : Npy := {
  npy_of_matrix := fun m => replicate (encode_nat (inl m : matrix + list string)) Byte.x00;
  npy_of_names := fun l => replicate (encode_nat (inr l : matrix + list string)) Byte.x00;
  npy_load := fun b => match decode_nat (length b) with Some a => Ret a | None => Raise ValueError end
}.
#[export] Instance demo_npy_laws : NpyLaws.
Proof. split; intros; cbn [npy_load npy_of_matrix npy_of_names demo_npy]; by rewrite length_replicate, decode_encode_nat. Qed.

#[export] Instance demo_keras : Keras grid unit unit unit matrix := {
  arr_shape := fun _ => tt; application := fun _ _ => Ret tt; inputs := fun _ => tt; outputs := fun _ => tt;
  GlobalAveragePooling2D := fun _ => tt; GlobalMaxPooling2D := fun _ => tt; Model := fun _ _ => Ret tt;
  preprocess_input := fun _ l => l; predict := fun _ l => Ret (Matrix 0 (replicate (length l) []))
}.

Abbreviation demo_kernel := (Notebook.kernel (Notebook.value demo_ann (list (hit * bool)) nat grid) unit).
Definition new_kernel : demo_kernel := Kernel ∅ (World ∅ ∅ []) tt.
Definition demo_result : QueryResult := result_of (take 5 demo_cands).
Definition demo_files : list string := (fun z => "image" ++ str_of_Z z ++ ".jpg") <$> py_range 0 6.
Definition draw_state : demo_kernel :=
  Kernel (list_to_map [("filenames", VNameArray demo_files); ("Image", VMod); ("np", VMod); ("plt", VMod)]) (World ∅ ∅ []) tt.
Definition sptag_state : demo_kernel := Kernel {[ "SPTAG" := VMod ]} (World ∅ ∅ []) tt.
Definition demo_embeddings : matrix := Matrix 1 ((fun z => [le_bytes 4 z]) <$> py_range 0 5).
Definition save_state : demo_kernel :=
  Kernel (list_to_map [("embeddings", VMatrix demo_embeddings); ("filenames", VNames demo_files); ("np", VMod)]) (World ∅ ∅ []) tt.

Lemma quickstart_name_error_witness :
  exists s', run_all (quickstart (image := grid) "python3" (fun _ => mret tt) (fun _ _ _ => []) id) new_kernel = (Raise NameError, s').
Proof.
  destruct (quickstart_name_error (image := grid) "python3" (fun _ => mret tt) (fun _ _ _ => []) id new_kernel (World ∅ ∅ []))
    as (s' & H & _); [reflexivity|reflexivity|]. exists s'. exact H.
Defined.

Lemma reordered_no_name_error_witness :
  (run_all (reordered (image := grid) "python3" (fun _ => mret tt) (fun _ _ _ => []) id) new_kernel).1 <> Raise NameError.
Proof.
  apply (reordered_no_name_error (image := grid) "python3" (fun _ => mret tt) (fun _ _ _ => []) id); try done.
  intros b. cbn [npy_load demo_npy]. by destruct (decode_nat (length b)).
Defined.

Lemma testBuild_type_error_witness :
  testBuild "BKT" "L2" demo_embeddings "testindices" sptag_state = (Raise TypeError, sptag_state).
Proof. apply (testBuild_type_error _ _ _ _ (DemoAnn 4 None) VMod); [reflexivity|reflexivity|reflexivity]. Defined.

Lemma testSearch_last_witness :
  testSearch "testindices" demo_embeddings 3 sptag_state = (Ret [result_of (take 3 demo_cands)], sptag_state).
Proof.
  rewrite (testSearch_last "testindices" demo_embeddings 3 (DemoAnn 400 None) (fun _ => result_of (take 3 demo_cands)) VMod sptag_state);
    [reflexivity|reflexivity|reflexivity|intros row w; reflexivity].
Defined.

Lemma draw_image5_files_witness :
  draw_image5 (image := grid) demo_result draw_state =
    (Ret tt, with_out (repr_result demo_result :: mjoin (image_lines demo_result demo_files <$> seq 0 5)) draw_state).
Proof.
  assert (Forall (fun a => 0 <= a < Z.of_nat (length demo_files)) (r_ids demo_result)) as Hv by names.
  destruct (draw_image5_files (image := grid) demo_files demo_result ltac:(vm_compute; lia) ltac:(vm_compute; lia) Hv draw_state) as [H _].
  - split; [reflexivity|]. intros n Hn. apply elem_of_cons in Hn as [->|Hn]; [by eexists|].
    apply elem_of_cons in Hn as [->|Hn]; [by eexists|]. apply list_elem_of_singleton in Hn as ->. by eexists.
  - apply H. intros i Hi. by eexists.
Defined.

Lemma arrays_roundtrip_witness :
  exists s', (save_arrays;; load_arrays;; to_float32 id;; select_image) save_state = (Ret tt, s') /\
    env s' !! "xq" = Some (VMatrix (Matrix 1 [[le_bytes 4 3]])).
Proof.
  destruct (arrays_roundtrip id demo_embeddings demo_files VMod save_state) as (s' & H & _ & _ & _ & Hq);
    [reflexivity|left; reflexivity|reflexivity|reflexivity|reflexivity|].
  exists s'. split; [exact H|exact Hq].
Defined.
